(* ===== verification/_CoqProject ===== *)
-Q . S2P
Prelude.v
Errors.v
GoStrings.v
RequestId.v
Helper.v
Eth.v
Config.v
Instruction.v
PaymentDB.v
FeeProofDB.v
NonceCache.v
Nonce.v
Json.v
XrpTransaction.v
PaymentStatus.v
FeeProof.v
Multisig.v
UrlValidation.v
Fetcher.v
Crl.v
Tee.v
Handler.v
Bodies.v
Typing.v
Services.v
Rejections.v
Endpoints.v
Server.v
Http.v
Wire.v
Database.v
Loader.v
System.v
Boot.v
Verdicts.v
Samples.v
Witnesses.v
