(* ===== verification/Prelude.v ===== *)
(** * Verification of the FDC2 verifier API

    go-verifier-api is a server that answers attestation requests of the Flare
    Data Connector.  One process serves one source: the TEE source with the
    TeeAvailabilityCheck type, or an XRP Ledger source with the types
    PMWPaymentStatus, PMWFeeProof and PMWMultisigAccountConfigured.  A request
    reaches a handler, which decodes its ABI body, runs the verifier of its
    type under a deadline and answers twice over: the [verify] endpoint with an
    envelope (VERIFIED, REJECTED or RETRY), the two helper endpoints with an
    HTTP status.  The verifiers read other systems, trusted to different
    degrees: indexer databases, the Flare chain, an XRPL node, a TEE's proxy,
    certificate revocation lists.  What makes the program correct is that an
    answer is bound to the request through all of them.

    ** Files and sources

    Paths are under [src/internal/].

    - [Prelude]: the result type [res], the state-and-error monad [SE],
      machine-width bounds, shared lemmas and automation.
    - [Errors]: every sentinel of the sources and Go's error trees, with
      [errors.Is] and [errors.As] as functions on them.
    - [GoStrings]: the functions of [strings] and [strconv] the sources use.
    - [RequestId]: [generateRequestID] of [api/handler/handler.go].
    - [Json]: [encoding/json] decoding of a syntax tree into a struct, with
      case-insensitive keys, null and the keeping of earlier values.
    - [Helper]: [attestation/pmwpaymentstatus/helper]; drops and addresses.
    - [Eth]: the parameters from go-ethereum and the indexer schema
      ([EthLib], [IndexerDB]) with the laws relied upon.
    - [Config]: [config/*.go]; slugs, required variables, the four
      configuration builders, the Relay cutover.
    - [Instruction]: [pmwpaymentstatus/instruction], [pmwfeeproof/instruction].
    - [PaymentDB], [FeeProofDB]: the two repositories [db/repo.go] and
      [db/db_transaction.go].
    - [NonceCache], [Nonce]: [attestation/pmwnonce/binder.go]; the bounded cache
      of initial nonces, and the sequence binding among other goroutines.
    - [XrpTransaction], [PaymentStatus]: [pmwpaymentstatus/xrp]; transaction
      metadata, the response builder, the verifier.
    - [FeeProof]: [pmwfeeproof/xrp/verifier.go].
    - [Multisig]: [pmwmultisigconfigured/xrp] with its client and types, and
      the request validation of [api/types/pmw_multisig_account_configured.go].
    - [UrlValidation], [Fetcher], [Crl], [Tee]: [teeavailabilitycheck]; the
      SSRF filter, the pinned fetch with its transport and client, the CRL
      cache, the verifier.
    - [Handler]: [api/handler/handler.go], [handler_util.go] and
      [api/types/common.go].
    - [Bodies]: the JSON bodies of [api/types] with their validate tags,
      [ToInternal] and [FromInternal].
    - [Typing]: what the ABI types of the four responses ask, and that every
      answer fits them.
    - [Services]: the four verifiers as instances of the handler's [Verifier]
      interface, with the contracts the handler relies on.
    - [Rejections]: for each verifier the facts that make its answer a final
      rejection, and that nothing else does.
    - [Endpoints]: the three endpoints of a service together, for any verifier
      that keeps those contracts.
    - [Server]: [api/server.go], [api/docs/docs.go] and the page script
      [api/docs/swagger-ui/init-swagger.js].
    - [Http]: the running server, from a request to a service and back:
      [newRouter], [requestSizeLimiter], [newAPI], [newSecurityHandler] of
      [api/server.go] around [RegisterVerificationHandler] of
      [api/handler/handler.go]; [serve] is one request.
    - [Wire]: what a client of the server gets from one registered service: the
      answer to a posted request, and a session over the three endpoints.
    - [Database]: [pmwpaymentstatus/db/db.go]; opening, pooling, closing.
    - [Loader]: [api/loader.go], [api/handler/health.go], the four
      [service.go] files, the verifier registries, [StartServer], [RunServer]
      and [cmd/main.go].
    - [System]: the two deployments a process can serve, their state over a
      sequence of requests, and what an answer on the wire means.
    - [Boot]: from the environment to one of these deployments.
    - [Verdicts]: from the environment to the verdict on the wire: which
      answer every request to a started process gets.
    - [Samples]: concrete instances of every interface and concrete inputs.
    - [Witnesses]: each conditional theorem applied at a concrete input.

    ** How the code is modelled

    A Go function keeps its name.  One that returns [(T, error)] is a
    [res error T]; one that also changes a shared object is in [SE], a
    function from the state to a result and the state after it, whether it
    succeeded or not.  An error is the tree its [%w] verbs build, so that the
    classification of an error is computed and not assumed.  Integers are in
    [Z]; where Go wraps around or the sources check for it, the width is
    written out ([u64], [is_u64]).  Loops are recursive functions on the list
    they range over or on the number of rounds left.  Shared caches are
    changed in the steps the mutex makes atomic, and theorems about them
    quantify over the steps of other goroutines ([rtc binder_step],
    [pin_reachable], [rtc crl_step]).  A lookup is several such steps with a
    call to another system between them: what other goroutines do to the cache
    meanwhile is given with the request ([Others] for nonces, [crl_readings]
    for revocation lists), so that the theorems about the verifiers, up to the
    wire, hold under every interleaving at that grain.  A flight of another
    caller that a lookup joins is given by its own readings and cache, and its
    result is computed.  A clock reading, the
    outcome of a single flight or a cancellation is an argument.

    Code outside the repository is a parameter: a class with operations
    ([EthLib], [IndexerDB], [NetLib], [HttpLib], [X509Lib], [TeeLib],
    [RelayLib], [CallLib], [KeyLib], [GormLib], [BootLib], ...) and, apart
    from it, a class with its documented behaviour ([EthLaws], [IndexerLaws],
    [NonceChain], the [...Errors] classes that say a library does not return
    the repository's own sentinels).  The binder is used by its two clients
    through the interface [SequenceSpec], which [Nonce] discharges; a verifier
    is used by the handler through [CoherentVerifier] and
    [ConvertingVerifier], which [Services] discharges for the four services;
    the server runs the operations of any services that [operations_ok] tells
    apart, which [Http] proves of the registered ones ([AttNames] says that
    the four type names are distinct words).  Encoding a struct ([AbiStructs],
    [AbiLaws]) and parsing a body into a typed input ([HumaInput]) are
    libraries' work and parameters too.  In [System] a request is one step;
    what a concurrent request stores behind a lock is in the environment of a
    step.

    ** What the theorems show

    - What is attested is true, and what is true is attested (soundness and
      completeness): [payment_verify_sound], [payment_verify_complete],
      [fee_verify_sound], [fee_verify_complete], [tee_verify_sound],
      [tee_verify_complete], [multisig_verify_pinned], with the exact
      behaviour of the steps that decide: [payment_response_exact],
      [received_amount_exact], [reissue_estimate_exact],
      [multisig_configuration_exact], [signing_policies_exact],
      [drops_text_exact], [instruction_id_commits].
    - The same on the wire, for the whole process and after any sequence of
      requests: [xrp_answers_true], [xrp_proves_provable] and
      [tee_answers_true] (both directions); nothing happens for a
      request without a key, and with one its operation answers,
      [requests_gated]; and a process that starts is such a deployment,
      [started_process_deployed].  Put together: a started process answers
      VERIFIED on what is true, on all that can be established then, and
      REJECTED only on a request its verifiers refuse or its sources refute,
      and what is posted without asking anything is turned away and changes
      nothing, [process_verdicts_exact].
    - Shared state is safe under interleaving: [binder_refines_lru],
      [binder_interleaving_safe], [sequence_binding_exact],
      [crl_cache_safe], [token_crls_trusted].
    - The ways of answering agree, on every error the verifiers raise, and the
      bodies say what was decided: [endpoints_tell_one_story],
      [prepared_session_verified], [json_bodies_lossless],
      [services_coherent], which also says which failures of a distribution
      point pass; and a final rejection is justified by the request or by what
      the indexer, the node, the proxy or the Relay did answer, never by an
      outage: [rejections_justified].
    - Outbound requests are confined: [private_v4_exact],
      [resolved_url_safe], [fetched_body_whole].
    - Start and stop: [tee_config_safe], [load_leaks_nothing],
      [databases_open_bounded], [swagger_page_loads_openapi].
    - Numbers stay in range: [responses_typed], [fee_sums_bounded],
      [sequence_binding_exact], [request_ids_distinct].

    ** Bounds

    No function runs on fuel that could run out.  [replace_fuel] is given the
    length of the string, and each round consumes a character.  [reissue_scan]
    counts down [MaxReissuesPerPayment], [retry_loop] and [open_attempts] the
    attempts left: the loops of the sources have these bounds themselves.
    [hex_text] is given sixteen digits, which a uint64 does not exceed.

    ** What is not modelled

    Log lines, and the texts of errors where nothing reads them.  The listener and
    the wait for a signal, which are process I/O: [RunServer] goes from the
    start to the shutdown.  Of the libraries around a request only what decides
    an answer is written out: chi's choice among static routes, the limit of
    [http.MaxBytesReader], the order of huma's middlewares, resolvers and
    handler, the redirect rule of [net/http] and the answers of its file
    server; a panic in a conversion is the 500 of the recovering middleware.
    Deadlines are passed on and not timed.  Strings are folded and trimmed by
    the ASCII tables, and the network id of a node is read from the plain
    spelling of its JSON value.  What gorm leaves of a connection whose first
    ping failed.  A system asked the same twice under one context answers the
    same.  The vendored Swagger UI bundle and the test helpers. *)

From stdpp Require Import base list numbers strings.
From Stdlib Require Import ZArith Lia.

#[local] Open Scope Z_scope.

(** ** Results

    A Go function returning [(T, error)] is a [res E T]: the error value, or
    the result.  Go's convention that the first component is the zero value
    when the error is non-nil is what makes the sum faithful: no caller in the
    sources reads the value beside a non-nil error. *)
Inductive res (E A : Type) : Type :=
| Ok (a : A)
| Err (e : E).
Arguments Ok {E A} a.
Arguments Err {E A} e.

#[global] Instance res_ret {E} : MRet (res E) := fun A a => Ok a.
#[global] Instance res_bind {E} : MBind (res E) := fun A B f m =>
  match m with Ok a => f a | Err e => Err e end.
#[global] Instance res_fmap {E} : FMap (res E) := fun A B f m =>
  match m with Ok a => Ok (f a) | Err e => Err e end.

(** Go's [if err != nil { return wrap(err) }]. *)
Definition map_err {E F A} (f : E -> F) (m : res E A) : res F A :=
  match m with Ok a => Ok a | Err e => Err (f e) end.

Definition is_ok {E A} (m : res E A) : bool :=
  match m with Ok _ => true | Err _ => false end.

(** ** State with errors

    An operation on a Go object that mutates it and may fail.  The state is
    kept on failure, as the object is. *)
Definition SE (S E A : Type) : Type := S -> res E A * S.

#[global] Instance se_ret {S E} : MRet (SE S E) := fun A a s => (Ok a, s).
#[global] Instance se_bind {S E} : MBind (SE S E) := fun A B f m s =>
  match m s with
  | (Ok a, s') => f a s'
  | (Err e, s') => (Err e, s')
  end.

Definition lift {S E A} (m : res E A) : SE S E A := fun s => (m, s).

Definition se_map_err {S E F A} (f : E -> F) (m : SE S E A) : SE S F A := fun s =>
  let '(r, s') := m s in (map_err f r, s').

(** ** Machine integers

    Go's [uint64] values are integers [0 <= z < 2^64]; arithmetic wraps. *)
Definition MaxUint64 : Z := 2 ^ 64 - 1.
Definition MaxUint32 : Z := 2 ^ 32 - 1.

Definition is_u64 (z : Z) : Prop := 0 <= z <= MaxUint64.
Definition is_u32 (z : Z) : Prop := 0 <= z <= MaxUint32.

Definition u64 (z : Z) : Z := z mod 2 ^ 64.
Definition u32 (z : Z) : Z := z mod 2 ^ 32.

(** Sums of [*big.Int] values. *)
Definition Zsum (l : list Z) : Z := foldr Z.add 0 l.

(** Go's [len] of a string or of a byte slice, as an integer. *)
Definition len (s : string) : Z := Z.of_nat (String.length s).

(** ** Hint databases and automation *)
Create HintDb verifier.
Create Rewrite HintDb verifier_rw.

(** [res_inv] walks a successful run backwards: every bind, early return and
    test that must have gone one way for the result to be [Ok] becomes a
    hypothesis. *)
Ltac res_step :=
  match goal with
  | H : Ok _ = Ok _ |- _ => injection H as H
  | H : Ok _ = Err _ |- _ => discriminate H
  | H : Err _ = Ok _ |- _ => discriminate H
  | H : Err _ = Err _ |- _ => injection H as H
  | H : (_, _) = (_, _) |- _ => injection H as ?H ?H
  | H : mret _ = Ok _ |- _ => injection H as H
  | H : map_err _ ?m = Ok _ |- _ => destruct m eqn:?; cbn in H
  | H : mbind _ ?m = Ok _ |- _ => destruct m eqn:?; cbn in H
  | H : (match ?m with Ok _ => _ | Err _ => _ end) = Ok _ |- _ => destruct m eqn:?; cbn in H
  | H : (match ?m with Some _ => _ | None => _ end) = Ok _ |- _ => destruct m eqn:?; cbn in H
  | H : (if ?b then _ else _) = Ok _ |- _ => destruct b eqn:?; cbn in H
  end.
Ltac res_inv := repeat (res_step; try discriminate; simplify_eq).

(** ** Lemmas on results *)
Lemma res_bind_Ok {E A B} (m : res E A) (f : A -> res E B) b :
  (m ≫= f) = Ok b <-> exists a, m = Ok a /\ f a = Ok b.
Proof. destruct m; cbn; naive_solver. Qed.

Lemma res_bind_Err {E A B} (m : res E A) (f : A -> res E B) e :
  (m ≫= f) = Err e <-> m = Err e \/ exists a, m = Ok a /\ f a = Err e.
Proof. destruct m; cbn; naive_solver. Qed.

Lemma map_err_Ok {E F A} (f : E -> F) (m : res E A) a :
  map_err f m = Ok a <-> m = Ok a.
Proof. destruct m; cbn; naive_solver. Qed.

Lemma map_err_Err {E F A} (f : E -> F) (m : res E A) e :
  map_err f m = Err e <-> exists e', m = Err e' /\ e = f e'.
Proof. destruct m; cbn; naive_solver. Qed.

Lemma se_bind_Ok {S E A B} (m : SE S E A) (f : A -> SE S E B) s b s' :
  (m ≫= f) s = (Ok b, s') <->
  exists a s1, m s = (Ok a, s1) /\ f a s1 = (Ok b, s').
Proof.
  unfold mbind, se_bind. destruct (m s) as [[a|e] s1]; naive_solver.
Qed.

Lemma se_bind_Err {S E A B} (m : SE S E A) (f : A -> SE S E B) s e s' :
  (m ≫= f) s = (Err e, s') <->
  m s = (Err e, s') \/ exists a s1, m s = (Ok a, s1) /\ f a s1 = (Err e, s').
Proof.
  unfold mbind, se_bind. destruct (m s) as [[a|e'] s1]; naive_solver.
Qed.

Lemma lift_eq {S E A} (m : res E A) (s : S) r s' :
  lift m s = (r, s') <-> m = r /\ s' = s.
Proof. unfold lift. naive_solver. Qed.

Lemma se_map_err_Ok {S E F A} (f : E -> F) (m : SE S E A) s a s' :
  se_map_err f m s = (Ok a, s') <-> m s = (Ok a, s').
Proof. unfold se_map_err. destruct (m s) as [[?|?] ?]; cbn; naive_solver. Qed.

Lemma se_map_err_Err {S E F A} (f : E -> F) (m : SE S E A) s e s' :
  se_map_err f m s = (Err e, s') <-> exists e', m s = (Err e', s') /\ e = f e'.
Proof. unfold se_map_err. destruct (m s) as [[?|?] ?]; cbn; naive_solver. Qed.

(** The monads satisfy the monad laws, so a sequence of calls may be regrouped. *)
(** A computation keeps a property of the state, whether it succeeds or not. *)
Definition keeps {S E A} (P : S -> Prop) (m : SE S E A) : Prop := forall s, P s -> P (m s).2.

Lemma keeps_lift {S E A} (P : S -> Prop) (m : res E A) : keeps P (lift m).
Proof. by intros s. Qed.
Lemma keeps_bind {S E A B} (P : S -> Prop) (m : SE S E A) (f : A -> SE S E B) :
  keeps P m -> (forall a, keeps P (f a)) -> keeps P (m ≫= f).
Proof. intros Hm Hf s Hs. specialize (Hm s Hs). unfold mbind, se_bind. destruct (m s) as [[a|e] s1]; [by apply Hf|done]. Qed.
Lemma keeps_bind_lift {S E A B} (P : S -> Prop) (m : res E A) (f : A -> SE S E B) :
  (forall a, m = Ok a -> keeps P (f a)) -> keeps P (lift m ≫= f).
Proof. intros Hf s Hs. destruct m as [a|e]; [by apply Hf|done]. Qed.
Lemma keeps_map_err {S E F A} (P : S -> Prop) (f : E -> F) (m : SE S E A) : keeps P m -> keeps P (se_map_err f m).
Proof. intros Hm s Hs. specialize (Hm s Hs). unfold se_map_err. by destruct (m s) as [[]]. Qed.

(** [solve_keeps] walks through lifts and binds; what is left changes the state. *)
Create HintDb keeps_db.
#[export] Hint Resolve keeps_lift keeps_map_err : keeps_db.
Ltac solve_keeps :=
  repeat first
    [ progress cbv zeta
    | apply keeps_bind; [try solve [eauto with keeps_db]|intros]
    | case_match
    | solve [eauto with keeps_db] ].

Lemma se_bind_assoc {S E A B C} (m : SE S E A) (f : A -> SE S E B) (g : B -> SE S E C) s :
  ((m ≫= f) ≫= g) s = (m ≫= (fun a => f a ≫= g)) s.
Proof. unfold mbind, se_bind. destruct (m s) as [[?|?] ?]; done. Qed.

(** ** Integer lemmas *)
Lemma u64_small z : is_u64 z -> u64 z = z.
Proof. unfold is_u64, u64, MaxUint64. intros. apply Z.mod_small. lia. Qed.

Lemma u64_range z : is_u64 (u64 z).
Proof.
  unfold is_u64, u64, MaxUint64.
  pose proof (Z.mod_pos_bound z (2 ^ 64) eq_refl). lia.
Qed.

Lemma Zsum_app l k : Zsum (l ++ k) = Zsum l + Zsum k.
Proof. induction l as [|x l IH]; cbn; [done|]. unfold Zsum in *. cbn. lia. Qed.

Lemma Zsum_cons x l : Zsum (x :: l) = x + Zsum l.
Proof. done. Qed.

Lemma Zsum_bounds l lo hi :
  Forall (fun x => lo <= x <= hi) l ->
  lo * Z.of_nat (length l) <= Zsum l <= hi * Z.of_nat (length l).
Proof.
  induction 1 as [|x l [? ?] _ IH]; cbn [length]; [unfold Zsum; cbn; lia|].
  rewrite Zsum_cons, Nat2Z.inj_succ. lia.
Qed.

(** ** List lemmas *)
Lemma filter_all {A} (P : A -> Prop) `{!forall x, Decision (P x)} (l : list A) :
  (forall x, x ∈ l -> P x) -> filter P l = l.
Proof.
  induction l as [|x l IH]; intros Hl; [done|].
  rewrite filter_cons_True by (apply Hl, list_elem_of_here).
  f_equal. apply IH. intros; apply Hl; by apply list_elem_of_further.
Qed.

Lemma omap_cons_eq {A B} (f : A -> option B) x (l : list A) :
  omap f (x :: l) = match f x with Some y => y :: omap f l | None => omap f l end.
Proof. done. Qed.

Lemma omap_take_total {A B} (f : A -> option B) (l : list A) m :
  (forall x, x ∈ l -> is_Some (f x)) -> omap f (take m l) = take m (omap f l).
Proof.
  revert m; induction l as [|x l IH]; intros [|m] Hall; [done..|].
  destruct (Hall x ltac:(apply list_elem_of_here)) as [v Hv].
  cbn [take]. rewrite !omap_cons_eq, Hv. cbn [take]. f_equal. apply IH.
  intros; apply Hall; by apply list_elem_of_further.
Qed.

(** Strings with prefixes of one length cancel. *)
Lemma string_app_inj s1 s2 t1 t2 :
  String.length s1 = String.length s2 -> (s1 +:+ t1 = s2 +:+ t2)%string -> s1 = s2 /\ t1 = t2.
Proof.
  revert s2. induction s1 as [|c s1 IH]; intros [|c2 s2] Hl He; try discriminate Hl; [done|].
  injection Hl as Hl. injection He as -> He. destruct (IH _ Hl He) as [-> ->]. done.
Qed.

#[export] Hint Rewrite @res_bind_Ok @res_bind_Err @map_err_Ok @map_err_Err
  @se_bind_Ok @se_bind_Err @lift_eq @se_map_err_Ok @se_map_err_Err : verifier_rw.
#[export] Hint Resolve u64_small u64_range : verifier.
