(* ===== verification/Errors.v ===== *)
(** * Go error values

    The error values the verifier's packages build, wrap and classify: the
    sentinels of each package ([errors.New] at package level, compared by
    identity), [fmt.Errorf] with its [%w] operands, [errors.Join], the typed
    errors of [fetcher] and [verifier/types], and the errors libraries return.
    [Is] and [As] are [errors.Is] and [errors.As].

    Message texts are kept as the format string; the operands of the other
    verbs of a format are not, because no code of the repository reads an error
    message back. *)

From stdpp Require Import base list strings.
From Stdlib Require Import ZArith Lia.
From S2P Require Import Prelude.

#[local] Open Scope Z_scope.

(** ** Sentinels, package by package *)
Inductive FeeProofErr := ErrBatchRangeTooLarge | ErrMissingPayEvent | ErrMissingTransaction | ErrReissueLimitExceeded.
Inductive DBErr := ErrRecordNotFound | ErrDatabase | ErrDataSource.
Inductive MultisigErr := ErrValidationFailed | ErrInvalidRequest | ErrNetworkMismatch.
Inductive ClientErr := ErrRPCNonSuccess | ErrRPCTransient | ErrFetchAccountInfo | ErrFetchServerInfo.
Inductive TeeErr :=
| ErrTEEDataValidation | ErrActionResultNotFound
| ErrTEEChallengeMismatch | ErrTEEChainIDMismatch | ErrTEEProxySignerMismatch | ErrTEESigningPolicyHash
| ErrTEEAttestationInvalid | ErrTEEActionResultMismatch | ErrTEEResponseMalformed
| ErrTEERevocationUnavailable.
Inductive FetchClass := ErrNetwork | ErrRPC | ErrInvalidInput | ErrContext | ErrUnknown.
Inductive FetcherErr := ErrNotFound | ErrHTTPFetch | ErrRedirect | ErrResponseTooLarge.
Inductive UrlErr := ErrURLValidation.
(** Sentinels of the standard library and of go-ethereum that the sources test for. *)
Inductive LibErr := ContextCanceled | ContextDeadlineExceeded | EthereumNotFound.

Inductive sentinel :=
| SFee (e : FeeProofErr) | SDB (e : DBErr) | SMultisig (e : MultisigErr) | SClient (e : ClientErr)
| STee (e : TeeErr) | SFetchClass (e : FetchClass) | SFetcher (e : FetcherErr) | SUrl (e : UrlErr)
| SLib (e : LibErr).
Coercion SFee : FeeProofErr >-> sentinel.
Coercion SDB : DBErr >-> sentinel.
Coercion SMultisig : MultisigErr >-> sentinel.
Coercion SClient : ClientErr >-> sentinel.
Coercion STee : TeeErr >-> sentinel.
Coercion SFetchClass : FetchClass >-> sentinel.
Coercion SFetcher : FetcherErr >-> sentinel.
Coercion SUrl : UrlErr >-> sentinel.
Coercion SLib : LibErr >-> sentinel.

#[global] Instance FeeProofErr_eq_dec : EqDecision FeeProofErr. Proof. solve_decision. Defined.
#[global] Instance DBErr_eq_dec : EqDecision DBErr. Proof. solve_decision. Defined.
#[global] Instance MultisigErr_eq_dec : EqDecision MultisigErr. Proof. solve_decision. Defined.
#[global] Instance ClientErr_eq_dec : EqDecision ClientErr. Proof. solve_decision. Defined.
#[global] Instance TeeErr_eq_dec : EqDecision TeeErr. Proof. solve_decision. Defined.
#[global] Instance FetchClass_eq_dec : EqDecision FetchClass. Proof. solve_decision. Defined.
#[global] Instance FetcherErr_eq_dec : EqDecision FetcherErr. Proof. solve_decision. Defined.
#[global] Instance UrlErr_eq_dec : EqDecision UrlErr. Proof. solve_decision. Defined.
#[global] Instance LibErr_eq_dec : EqDecision LibErr. Proof. solve_decision. Defined.
#[global] Instance sentinel_eq_dec : EqDecision sentinel. Proof. solve_decision. Defined.

(** Three sentinels are themselves [fmt.Errorf] values that wrap
    [ErrTEEDataValidation]; every other one wraps nothing. *)
Definition sentinel_wraps (s : sentinel) : option sentinel :=
  match s with
  | STee ErrTEEAttestationInvalid | STee ErrTEEActionResultMismatch | STee ErrTEEResponseMalformed =>
      Some (ErrTEEDataValidation : sentinel)
  | _ => None
  end.

(** What the classifiers can observe of an error value made by a library: the
    sentinels its own [Is] method answers to, and the types [errors.As] finds. *)
Record Foreign := {
  fe_text : string;
  fe_is : list LibErr;
  fe_net : bool;                 (* implements net.Error *)
  fe_dns : option (bool * bool); (* *net.DNSError: IsTemporary, IsTimeout *)
  fe_rpc_http : option Z;        (* rpc.HTTPError: StatusCode *)
  fe_rpc_code : option Z         (* rpc.Error: ErrorCode() *)
}.

Definition plain_foreign (text : string) : Foreign :=
  {| fe_text := text; fe_is := []; fe_net := false; fe_dns := None; fe_rpc_http := None; fe_rpc_code := None |}.

Inductive error :=
| ESentinel (s : sentinel)
| Errorf (fmt : string) (ws : list error)      (* fmt.Errorf / errors.New with its %w operands *)
| Join (es : list error)                       (* errors.Join *)
| HTTPStatusError (url : string) (code : Z)    (* *fetcher.HTTPStatusError *)
| FetchError (op : string) (err : error)       (* *verifiertypes.FetchError *)
| EForeign (f : Foreign) (ws : list error).    (* a library's error and what it unwraps to *)
Coercion ESentinel : sentinel >-> error.

(** [Unwrap() error] or [Unwrap() []error]. *)
Definition Unwrap (e : error) : list error :=
  match e with
  | ESentinel s => match sentinel_wraps s with Some p => [ESentinel p] | None => [] end
  | Errorf _ ws => ws
  | Join es => es
  | HTTPStatusError _ _ => [ESentinel ErrHTTPFetch]
  | FetchError _ err => [err]
  | EForeign _ ws => ws
  end.

(** [errors.Is]: depth-first over the wrapped errors, comparing with the target
    and asking an error's own [Is] method. *)
Fixpoint Is (e : error) (t : sentinel) : bool :=
  match e with
  | ESentinel s =>
      bool_decide (s = t) || match sentinel_wraps s with Some p => bool_decide (p = t) | None => false end
  | Errorf _ ws => existsb (fun w => Is w t) ws
  | Join es => existsb (fun w => Is w t) es
  | HTTPStatusError _ _ => bool_decide ((ErrHTTPFetch : sentinel) = t)
  | FetchError _ err => Is err t
  | EForeign f ws => existsb (fun l => bool_decide ((SLib l) = t)) (fe_is f) || existsb (fun w => Is w t) ws
  end.

(** [errors.As]: the first error of the depth-first order that is of the type [f] recognises. *)
Fixpoint As {T} (f : error -> option T) (e : error) : option T :=
  match f e with
  | Some t => Some t
  | None =>
      let first := fix go (ws : list error) : option T :=
        match ws with
        | [] => None
        | w :: ws' => match As f w with Some t => Some t | None => go ws' end
        end in
      match e with
      | ESentinel s => match sentinel_wraps s with Some p => f (ESentinel p) | None => None end
      | Errorf _ ws => first ws
      | Join es => first es
      | HTTPStatusError _ _ => f (ESentinel ErrHTTPFetch)
      | FetchError _ err => As f err
      | EForeign _ ws => first ws
      end
  end.

(** The types the sources pass to [errors.As]. *)
Definition as_HTTPStatusError (e : error) : option Z :=
  match e with HTTPStatusError _ code => Some code | _ => None end.
Definition as_DNSError (e : error) : option (bool * bool) :=
  match e with EForeign f _ => fe_dns f | _ => None end.
Definition as_netError (e : error) : option unit :=
  match e with
  | EForeign f _ => if fe_net f then Some tt else None
  | ESentinel (SLib ContextDeadlineExceeded) => Some tt
  | _ => None
  end.
Definition as_rpcHTTPError (e : error) : option Z :=
  match e with EForeign f _ => fe_rpc_http f | _ => None end.
Definition as_rpcError (e : error) : option Z :=
  match e with EForeign f _ => fe_rpc_code f | _ => None end.

(** The sentinels the program itself defines, as opposed to those of libraries. *)
Definition own_sentinel (t : sentinel) : bool :=
  match t with SLib _ => false | _ => true end.

(** An error that comes from a library carries none of the program's sentinels:
    they are package variables of this repository. *)
Definition foreign_error (e : error) : Prop := forall t, own_sentinel t = true -> Is e t = false.

(** A result whose error, if any, comes from a library. *)
Definition foreign_res {A} (r : res error A) : Prop := forall e, r = Err e -> foreign_error e.

(** An error of a computation that calls nothing and waits for nothing: no name
    was looked up, no context ended. *)
Definition local_error (e : error) : Prop :=
  As as_DNSError e = None /\ Is e ContextDeadlineExceeded = false /\ Is e ContextCanceled = false.

(** ** Lemmas *)

(** Induction over an error and everything it wraps. *)
Lemma error_nested_ind (P : error -> Prop) :
  (forall s, P (ESentinel s)) ->
  (forall fmt ws, Forall P ws -> P (Errorf fmt ws)) ->
  (forall es, Forall P es -> P (Join es)) ->
  (forall url code, P (HTTPStatusError url code)) ->
  (forall op err, P err -> P (FetchError op err)) ->
  (forall f ws, Forall P ws -> P (EForeign f ws)) ->
  forall e, P e.
Proof.
  intros HS HE HJ HH HF HX. fix IH 1. intros [s|fmt ws|es|url code|op err|f ws].
  - apply HS.
  - apply HE. induction ws; constructor; auto.
  - apply HJ. induction es; constructor; auto.
  - apply HH.
  - apply HF, IH.
  - apply HX. induction ws; constructor; auto.
Qed.

Lemma Is_Errorf fmt ws t : Is (Errorf fmt ws) t = existsb (fun w => Is w t) ws.
Proof. reflexivity. Qed.

Lemma Is_Errorf_true fmt ws t : Is (Errorf fmt ws) t = true <-> exists w, w ∈ ws /\ Is w t = true.
Proof. rewrite Is_Errorf, existsb_exists. setoid_rewrite list_elem_of_In. done. Qed.

(** [errors.Is] reaches exactly the error itself and what its wrapped errors reach. *)
Lemma Is_unfold e t :
  Is e t = true <->
  e = ESentinel t \/
  (exists f ws l, e = EForeign f ws /\ l ∈ fe_is f /\ t = SLib l) \/
  (exists w, w ∈ Unwrap e /\ Is w t = true).
Proof.
  destruct e as [s|fmt ws|es|url code|op err|f ws]; cbn [Is Unwrap].
  - rewrite orb_true_iff, bool_decide_eq_true. destruct (sentinel_wraps s) as [p|] eqn:E.
    + rewrite bool_decide_eq_true. split.
      * intros [->|<-]; [auto|]. right; right. exists p. split; [apply list_elem_of_singleton; done|].
        cbn. by rewrite bool_decide_true.
      * intros [[= ->]|[(?&?&?&?&_)|(w&Hw&HIs)]]; [auto|done|].
        apply list_elem_of_singleton in Hw as ->. cbn in HIs. right.
        apply orb_true_iff in HIs as [H|H]; [by apply bool_decide_eq_true in H|].
        destruct s as [| | | |[]| | | |]; try discriminate E; injection E as <-; discriminate H.
    + split; [intros [->|]; [auto|done]|].
      intros [[= ->]|[(?&?&?&?&_)|(w&Hw%not_elem_of_nil&_)]]; [auto|done|done].
  - rewrite existsb_exists. setoid_rewrite list_elem_of_In. naive_solver.
  - rewrite existsb_exists. setoid_rewrite list_elem_of_In. naive_solver.
  - rewrite bool_decide_eq_true. split.
    + intros <-. right; right. eexists; split; [by apply list_elem_of_singleton|done].
    + intros [?|[(?&?&?&?&_)|(w&Hw&HIs)]]; [done|done|].
      apply list_elem_of_singleton in Hw as ->. cbn in HIs.
      rewrite orb_false_r in HIs. by apply bool_decide_eq_true in HIs.
  - split.
    + intros H. right; right. eexists; split; [by apply list_elem_of_singleton|done].
    + intros [?|[(?&?&?&?&_)|(w&Hw&HIs)]]; [done|done|].
      by apply list_elem_of_singleton in Hw as ->.
  - rewrite orb_true_iff, !existsb_exists. setoid_rewrite list_elem_of_In.
    setoid_rewrite bool_decide_eq_true. split; [naive_solver|].
    intros [?|[(f'&ws'&l&[= <- <-]&?&->)|?]]; [done|left; eauto|right; done].
Qed.

Lemma foreign_lib_error f : foreign_error (EForeign f []).
Proof.
  intros t Ht. cbn. rewrite orb_false_r.
  destruct (existsb _ (fe_is f)) eqn:E; [|done].
  apply existsb_exists in E as (l & _ & Hl%bool_decide_eq_true). by subst.
Qed.

Lemma foreign_Is e t : foreign_error e -> own_sentinel t = true -> Is e t = false.
Proof. auto. Qed.

(** A status error is one of the program's. *)
Lemma As_HTTPStatusError_Is e code : As as_HTTPStatusError e = Some code -> Is e ErrHTTPFetch = true.
Proof.
  revert e code.
  assert (forall ws, Forall (fun w => forall code, As as_HTTPStatusError w = Some code -> Is w ErrHTTPFetch = true) ws ->
    forall code, (fix go (ws : list error) : option Z :=
      match ws with [] => None | w :: ws' => match As as_HTTPStatusError w with Some t => Some t | None => go ws' end end) ws = Some code ->
    existsb (fun w => Is w ErrHTTPFetch) ws = true) as Hws.
  { induction 1 as [|w ws Hw _ IH]; intros code Hg; [done|]. cbn [existsb].
    destruct (As as_HTTPStatusError w) eqn:Ew; [by erewrite Hw|]. erewrite IH by done. apply orb_true_r. }
  induction e as [s|fmt ws Hall|es Hall|u c|op e IH|f ws Hall] using error_nested_ind; intros code.
  - cbn. by destruct (sentinel_wraps s).
  - apply (Hws ws Hall).
  - apply (Hws es Hall).
  - done.
  - apply IH.
  - intros Ha. cbn [Is]. apply orb_true_iff. right. exact (Hws ws Hall code Ha).
Qed.

Lemma foreign_no_status e : foreign_error e -> As as_HTTPStatusError e = None.
Proof.
  intros Hf. destruct (As as_HTTPStatusError e) as [code|] eqn:Ha; [|done].
  apply As_HTTPStatusError_Is in Ha. by rewrite Hf in Ha.
Qed.

#[export] Hint Resolve foreign_lib_error : verifier.

(** ** Which sentinels an operation may raise

    [raises l e]: the program's sentinels that [errors.Is] finds in [e] are in
    [l].  The rules below compute it along the structure of an operation. *)
Definition raises (l : list sentinel) (e : error) : Prop :=
  forall t, own_sentinel t = true -> Is e t = true -> t ∈ l.
Definition res_raises {A} (l : list sentinel) (m : res error A) : Prop := forall e, m = Err e -> raises l e.
Definition se_raises {S A} (l : list sentinel) (m : SE S error A) : Prop :=
  forall s e s', m s = (Err e, s') -> raises l e.

Definition sentinel_in (l : list sentinel) (s : sentinel) : bool :=
  bool_decide (s ∈ l) && match sentinel_wraps s with Some p => bool_decide (p ∈ l) | None => true end.

Lemma raises_sentinel l s : sentinel_in l s = true -> raises l (ESentinel s).
Proof.
  unfold sentinel_in. intros [Hs Hw]%andb_true_iff t _ [Ht|Ht]%orb_true_iff.
  - apply bool_decide_eq_true in Ht as <-. by apply bool_decide_eq_true in Hs.
  - destruct (sentinel_wraps s); [|done]. apply bool_decide_eq_true in Ht as <-. by apply bool_decide_eq_true in Hw.
Qed.

Lemma raises_Errorf l fmt ws : Forall (raises l) ws -> raises l (Errorf fmt ws).
Proof.
  intros Hw t Ho (w & Hin & Hi)%Is_Errorf_true. rewrite Forall_forall in Hw. by eapply Hw.
Qed.

Lemma raises_Join l es : Forall (raises l) es -> raises l (Join es).
Proof.
  intros Hw t Ho. cbn. intros (w & Hin & Hi)%existsb_exists. rewrite Forall_forall in Hw.
  eapply Hw; [by apply list_elem_of_In|done..].
Qed.

Lemma raises_foreign l e : foreign_error e -> raises l e.
Proof. intros Hf t Ho Hi. by rewrite (Hf t Ho) in Hi. Qed.

Lemma raises_lib l (s : LibErr) : raises l (ESentinel s).
Proof. intros t Ho Hi. cbn in Hi. rewrite orb_false_r in Hi. apply bool_decide_eq_true in Hi as <-. done. Qed.

Lemma raises_HTTPStatus l url code : bool_decide (SFetcher ErrHTTPFetch ∈ l) = true -> raises l (HTTPStatusError url code).
Proof. intros Hl%bool_decide_eq_true t _ Hi. cbn in Hi. by apply bool_decide_eq_true in Hi as <-. Qed.

Lemma raises_FetchError l op e : raises l e -> raises l (FetchError op e).
Proof. intros He t Ho Hi. by apply He. Qed.

Lemma raises_weaken l l' e : (forall t, t ∈ l -> t ∈ l') -> raises l e -> raises l' e.
Proof. intros Hl He t Ho Hi. by apply Hl, He. Qed.

Lemma raises_not l e (t : sentinel) : raises l e -> own_sentinel t = true -> bool_decide (t ∈ l) = false -> Is e t = false.
Proof. intros He Ho Hl. apply not_true_iff_false. intros Hi. apply bool_decide_eq_false in Hl. apply Hl. by apply He. Qed.

Lemma res_raises_foreign {A} l (m : res error A) : foreign_res m -> res_raises l m.
Proof. intros Hf e He. by apply raises_foreign, Hf. Qed.

Lemma res_raises_Ok {A} l (a : A) : res_raises l (Ok a).
Proof. by intros e [=]. Qed.

Lemma res_raises_Err {A} l e : raises l e -> res_raises (A := A) l (Err e).
Proof. by intros He e' [= <-]. Qed.

Lemma res_raises_bind {A B} l (m : res error A) (f : A -> res error B) :
  res_raises l m -> (forall a, m = Ok a -> res_raises l (f a)) -> res_raises l (m ≫= f).
Proof. intros Hm Hf e [He|(a & Ha & He)]%res_bind_Err; [by apply Hm|by eapply Hf]. Qed.

Lemma res_raises_map_err {A} l (f : error -> error) (m : res error A) :
  (forall e, m = Err e -> raises l (f e)) -> res_raises l (map_err f m).
Proof. intros Hf e (e' & Hm & ->)%map_err_Err. by apply Hf. Qed.

Lemma se_raises_bind {S A B} l (m : SE S error A) (f : A -> SE S error B) :
  se_raises l m -> (forall a, se_raises l (f a)) -> se_raises l (m ≫= f).
Proof. intros Hm Hf s e s' [He|(a & s1 & Ha & He)]%se_bind_Err; [by eapply Hm|by eapply Hf]. Qed.

Lemma se_raises_lift {S A} l (m : res error A) : res_raises l m -> se_raises (S := S) l (lift m).
Proof. intros Hm s e s' [He _]%lift_eq. by apply Hm. Qed.

Lemma se_raises_map_err {S A} l (f : error -> error) (m : SE S error A) :
  (forall s e s', m s = (Err e, s') -> raises l (f e)) -> se_raises l (se_map_err f m).
Proof. intros Hf s e s' (e' & Hm & ->)%se_map_err_Err. by eapply Hf. Qed.

Lemma res_raises_weaken {A} l l' (m : res error A) : (forall t, t ∈ l -> t ∈ l') -> res_raises l m -> res_raises l' m.
Proof. intros Hl Hm e He. eapply raises_weaken; [exact Hl|by apply Hm]. Qed.

Lemma res_raises_sub {A} l0 l (m : res error A) :
  res_raises l0 m -> forallb (fun t => bool_decide (t ∈ l)) l0 = true -> res_raises l m.
Proof.
  intros Hm Hl. eapply res_raises_weaken; [|exact Hm]. intros t Ht. rewrite forallb_forall in Hl.
  apply (bool_decide_eq_true_1 (t ∈ l)), (Hl t). by apply list_elem_of_In.
Qed.

Lemma se_raises_sub {S A} l0 l (m : SE S error A) :
  se_raises l0 m -> forallb (fun t => bool_decide (t ∈ l)) l0 = true -> se_raises l m.
Proof.
  intros Hm Hl s e s' He. eapply raises_weaken; [|by eapply Hm]. intros t Ht. rewrite forallb_forall in Hl.
  apply (bool_decide_eq_true_1 (t ∈ l)), (Hl t). by apply list_elem_of_In.
Qed.

Lemma Forall_raises_nil l : Forall (raises l) [].
Proof. constructor. Qed.
Lemma Forall_raises_cons l e ws : raises l e -> Forall (raises l) ws -> Forall (raises l) (e :: ws).
Proof. by constructor. Qed.

(** One step of the computation; [raise_db] holds the facts about the
    operations called. *)
Create HintDb raise_db.
Ltac raise_known :=
  first [ solve [eauto with raise_db]
        | eapply res_raises_sub; [solve [eauto with raise_db]|vm_compute; reflexivity]
        | eapply se_raises_sub; [solve [eauto with raise_db]|vm_compute; reflexivity] ].
Ltac raise_step :=
  lazymatch goal with
  | |- forall _, _ => intros ?
  | |- se_raises _ (lift _) => apply se_raises_lift
  | |- se_raises _ (se_map_err _ _) => apply se_raises_map_err
  | |- se_raises _ (_ ≫= _) => apply se_raises_bind
  | |- se_raises _ (match ?x with _ => _ end) => destruct x eqn:?
  | |- se_raises _ _ => raise_known
  | |- res_raises _ (Ok _) => apply res_raises_Ok
  | |- res_raises _ (Err _) => apply res_raises_Err
  | |- res_raises _ (map_err _ _) => apply res_raises_map_err
  | |- res_raises _ (_ ≫= _) => apply res_raises_bind
  | |- res_raises _ (match ?x with _ => _ end) => destruct x eqn:?
  | |- res_raises _ _ => raise_known
  | |- raises _ (ESentinel (SLib _)) => apply raises_lib
  | |- raises _ (ESentinel _) => apply raises_sentinel; vm_compute; reflexivity
  | |- raises _ (Errorf _ _) => apply raises_Errorf
  | |- raises _ (match ?x with _ => _ end) => destruct x eqn:?
  | |- raises _ (EForeign _ []) => apply raises_foreign, foreign_lib_error
  | |- Forall (raises _) [] => apply Forall_raises_nil
  | |- Forall (raises _) (_ :: _) => apply Forall_raises_cons
  | H : ?m = Err ?e |- raises ?l ?e =>
      (is_var e; let K := fresh in cut (res_raises l m); [intros K; exact (K e H)|clear H])
  | H : ?m ?s = (Err ?e, ?s') |- raises ?l ?e =>
      (is_var e; let K := fresh in cut (se_raises l m); [intros K; exact (K s e s' H)|clear H])
  end.
Ltac solve_raises := repeat raise_step.
#[export] Hint Resolve res_raises_foreign : raise_db.
