(* ===== verification/GoStrings.v ===== *)
(** * The Go standard library functions on strings the sources call

    [strings], [strconv] and the decimal part of [math/big], on byte strings.
    A Go string is a sequence of bytes; here it is a [string], whose characters
    are bytes.  Case folding and space trimming follow the ASCII part of the
    Unicode tables: what the sources fold or trim are hex digests, addresses,
    keys of JSON objects and environment values, and one that holds other
    letters or spaces is outside the model. *)

From stdpp Require Import base list strings.
From Stdlib Require Import ZArith Lia Ascii DecimalString DecimalN DecimalFacts.
From S2P Require Import Prelude.

#[local] Open Scope Z_scope.

(** ** strings *)
Definition HasPrefix (s p : string) : bool := String.prefix p s.

Fixpoint drop_string (n : nat) (s : string) : string :=
  match n, s with
  | O, _ => s
  | S n', String _ s' => drop_string n' s'
  | S _, EmptyString => EmptyString
  end.

Definition TrimPrefix (s p : string) : string :=
  if HasPrefix s p then drop_string (String.length p) s else s.

Fixpoint rev_string (s acc : string) : string :=
  match s with EmptyString => acc | String c s' => rev_string s' (String c acc) end.
Definition str_reverse (s : string) : string := rev_string s EmptyString.

Definition HasSuffix (s p : string) : bool := HasPrefix (str_reverse s) (str_reverse p).
Definition TrimSuffix (s p : string) : string := str_reverse (TrimPrefix (str_reverse s) (str_reverse p)).

Definition lower_ascii (c : ascii) : ascii :=
  let n := nat_of_ascii c in
  if (65 <=? n)%nat && (n <=? 90)%nat then ascii_of_nat (n + 32) else c.
Fixpoint ToLower (s : string) : string :=
  match s with EmptyString => EmptyString | String c s' => String (lower_ascii c) (ToLower s') end.

Definition EqualFold (a b : string) : bool := String.eqb (ToLower a) (ToLower b).

Fixpoint Contains (s sub : string) : bool :=
  HasPrefix s sub || match s with EmptyString => false | String _ s' => Contains s' sub end.

Definition is_space (c : ascii) : bool :=
  let n := nat_of_ascii c in ((9 <=? n)%nat && (n <=? 13)%nat) || (n =? 32)%nat.
Fixpoint trim_left (s : string) : string :=
  match s with
  | String c s' => if is_space c then trim_left s' else s
  | EmptyString => EmptyString
  end.
Definition TrimSpace (s : string) : string := str_reverse (trim_left (str_reverse (trim_left s))).

(** [strings.Split]/[SplitSeq] at a one-byte separator. *)
Fixpoint split_acc (sep : ascii) (s acc : string) : list string :=
  match s with
  | EmptyString => [str_reverse acc]
  | String c s' => if Ascii.eqb c sep then str_reverse acc :: split_acc sep s' EmptyString
                   else split_acc sep s' (String c acc)
  end.
Definition Split (s : string) (sep : ascii) : list string := split_acc sep s EmptyString.

(** [strings.ReplaceAll] for a non-empty [old]: left to right, without overlap. *)
Fixpoint replace_fuel (fuel : nat) (s old new : string) : string :=
  match fuel, s with
  | S n, String c s' =>
      if HasPrefix s old then (new +:+ replace_fuel n (drop_string (String.length old) s) old new)
      else String c (replace_fuel n s' old new)
  | _, _ => s
  end.
Definition ReplaceAll (s old new : string) : string := replace_fuel (String.length s) s old new.

(** ** Decimal digits *)
Definition digit (c : ascii) : option Z :=
  let n := Z.of_nat (nat_of_ascii c) in
  if (48 <=? n) && (n <=? 57) then Some (n - 48) else None.

Fixpoint digits_acc (acc : Z) (s : string) : option Z :=
  match s with
  | EmptyString => Some acc
  | String c s' => match digit c with Some d => digits_acc (10 * acc + d) s' | None => None end
  end.

(** A non-empty string of decimal digits. *)
Definition digits (s : string) : option Z :=
  match s with EmptyString => None | _ => digits_acc 0 s end.

(** [strconv.ParseUint(s, 10, bits)]. *)
Inductive ParseUintError := ErrSyntax | ErrRange.
Definition ParseUint (s : string) (bits : Z) : res ParseUintError Z :=
  match digits s with
  | None => Err ErrSyntax
  | Some z => if 2 ^ bits - 1 <? z then Err ErrRange else Ok z
  end.

(** [strconv.ParseBool]. *)
Definition ParseBool (s : string) : option bool :=
  if bool_decide (s ∈ ["1"; "t"; "T"; "TRUE"; "true"; "True"]%string) then Some true
  else if bool_decide (s ∈ ["0"; "f"; "F"; "FALSE"; "false"; "False"]%string) then Some false
  else None.

(** [new(big.Int).SetString(s, 10)]: an optional sign and decimal digits. *)
Definition SetString10 (s : string) : option Z :=
  match s with
  | String "-" r => Z.opp <$> digits r
  | String "+" r => digits r
  | _ => digits s
  end.

(** The decimal text of a number: [strconv.FormatUint], [big.Int.String]. *)
Definition dec (n : N) : string := NilZero.string_of_uint (N.to_uint n).

(** ** Lemmas *)
Lemma digits_acc_nonneg s acc z : 0 <= acc -> digits_acc acc s = Some z -> acc <= z.
Proof.
  revert acc. induction s as [|c s IH]; cbn; intros acc Hacc H; [simplify_eq; lia|].
  destruct (digit c) as [d|] eqn:Hd; [|done].
  unfold digit in Hd. destruct (_ && _) eqn:E; [|done].
  apply andb_true_iff in E as [?%Z.leb_le ?%Z.leb_le].
  assert (0 <= d) by (injection Hd; lia).
  apply IH in H; lia.
Qed.

Lemma digits_nonneg s z : digits s = Some z -> 0 <= z.
Proof. destruct s; [done|]. intros H. by apply digits_acc_nonneg in H. Qed.

(** A string of at most [k] digits denotes a number below [10^k]. *)
Lemma digits_acc_bound s acc z :
  0 <= acc -> digits_acc acc s = Some z -> z < (acc + 1) * 10 ^ len s.
Proof.
  unfold len. revert acc. induction s as [|c s IH]; cbn [digits_acc String.length]; intros acc Hacc H.
  - simplify_eq. cbn. lia.
  - destruct (digit c) as [d|] eqn:Hd; [|done].
    unfold digit in Hd. destruct (_ && _) eqn:E; [|done].
    apply andb_true_iff in E as [?%Z.leb_le ?%Z.leb_le].
    assert (0 <= d <= 9) by (injection Hd; lia).
    apply IH in H; [|lia].
    rewrite Nat2Z.inj_succ, Z.pow_succ_r by lia.
    assert (0 < 10 ^ Z.of_nat (String.length s)) by (apply Z.pow_pos_nonneg; lia). nia.
Qed.

Lemma digits_bound s z : digits s = Some z -> z < 10 ^ len s.
Proof. destruct s; [done|]. intros H%digits_acc_bound; lia. Qed.

Lemma ParseUint_range s bits z : 0 <= bits -> ParseUint s bits = Ok z -> 0 <= z < 2 ^ bits.
Proof.
  unfold ParseUint. destruct (digits s) as [v|] eqn:E; [|done].
  destruct (2 ^ bits - 1 <? v) eqn:F; [done|]. intros Hb [= <-].
  apply digits_nonneg in E. apply Z.ltb_ge in F. lia.
Qed.

(** Horner's rule on the library's decimal numerals. *)
Fixpoint horner (acc : Z) (u : Decimal.uint) : Z :=
  match u with
  | Decimal.Nil => acc
  | Decimal.D0 l => horner (10 * acc) l
  | Decimal.D1 l => horner (10 * acc + 1) l
  | Decimal.D2 l => horner (10 * acc + 2) l
  | Decimal.D3 l => horner (10 * acc + 3) l
  | Decimal.D4 l => horner (10 * acc + 4) l
  | Decimal.D5 l => horner (10 * acc + 5) l
  | Decimal.D6 l => horner (10 * acc + 6) l
  | Decimal.D7 l => horner (10 * acc + 7) l
  | Decimal.D8 l => horner (10 * acc + 8) l
  | Decimal.D9 l => horner (10 * acc + 9) l
  end.

Lemma digits_acc_string u acc : digits_acc acc (NilEmpty.string_of_uint u) = Some (horner acc u).
Proof.
  revert acc; induction u; intros acc; [done|..]; cbn [NilEmpty.string_of_uint digits_acc horner];
    match goal with |- context [digit ?c] => let d := eval vm_compute in (digit c) in change (digit c) with d end;
    cbn beta iota; rewrite IHu, ?Z.add_0_r; done.
Qed.

Lemma horner_pos u p : horner (Z.pos p) u = Z.pos (Pos.of_uint_acc u p).
Proof.
  revert p; induction u; intros p; cbn [horner Pos.of_uint_acc];
    rewrite <- ?IHu; try done; f_equal; lia.
Qed.

Lemma horner_zero u : horner 0 u = Z.of_N (N.of_uint u).
Proof.
  unfold N.of_uint. induction u; cbn [horner Pos.of_uint]; try done.
  all: cbn [Z.of_N]; rewrite <- (horner_pos u); done.
Qed.

Lemma dec_nonempty n : dec n <> EmptyString.
Proof. unfold dec, NilZero.string_of_uint. destruct (N.to_uint n); done. Qed.

Lemma digits_dec n : digits (dec n) = Some (Z.of_N n).
Proof.
  unfold digits. pose proof (dec_nonempty n) as Hn.
  destruct (dec n) as [|c s] eqn:E; [done|]. rewrite <- E.
  rewrite <- (Unsigned.of_to n) at 2. rewrite <- horner_zero.
  unfold dec, NilZero.string_of_uint. destruct (N.to_uint n) eqn:F;
    [done|rewrite <- F; apply digits_acc_string ..].
Qed.

Lemma horner_lower u acc :
  0 <= acc -> acc * 10 ^ Z.of_nat (String.length (NilEmpty.string_of_uint u)) <= horner acc u.
Proof.
  revert acc; induction u; intros acc Hacc;
    cbn [NilEmpty.string_of_uint String.length horner]; [rewrite Z.pow_0_r; lia|..];
    rewrite Nat2Z.inj_succ, Z.pow_succ_r by lia;
    assert (0 < 10 ^ Z.of_nat (String.length (NilEmpty.string_of_uint u)))
      by (apply Z.pow_pos_nonneg; lia);
    (etrans; [|apply IHu; lia]); nia.
Qed.

(** The printed form has no leading zero, so its length bounds the number. *)
Lemma to_uint_no_leading_zero n l : N.to_uint n = Decimal.D0 l -> n = 0%N.
Proof.
  intros H. pose proof (Unsigned.to_of (N.to_uint n)) as Hn.
  rewrite Unsigned.of_to in Hn. unfold Decimal.unorm in Hn.
  destruct (Decimal.nzhead (N.to_uint n)) eqn:E; rewrite H in Hn; try discriminate Hn.
  - injection Hn as ->. rewrite <- (Unsigned.of_to n), H. done.
  - by apply nzhead_nonzero in E.
Qed.

Lemma len_dec n k : 1 <= k -> Z.of_N n < 10 ^ k -> len (dec n) <= k.
Proof.
  intros Hk Hn. destruct (decide (n = 0%N)) as [->|Hnz]; [vm_compute len; lia|].
  destruct (Z.le_gt_cases (len (dec n)) k) as [|Hgt]; [done|exfalso].
  assert (Z.of_N n = horner 0 (N.to_uint n)) as Hv by (by rewrite horner_zero, Unsigned.of_to).
  rewrite Hv in Hn. unfold len, dec, NilZero.string_of_uint in Hgt.
  destruct (N.to_uint n) as [|l|l|l|l|l|l|l|l|l|l] eqn:E;
    [cbn in Hgt; lia|by apply to_uint_no_leading_zero in E|..];
    cbn [NilEmpty.string_of_uint String.length horner] in *;
    match goal with H : horner ?a l < _ |- _ => pose proof (horner_lower l a ltac:(lia)) end;
    rewrite Nat2Z.inj_succ in Hgt;
    assert (10 ^ k <= 10 ^ Z.of_nat (String.length (NilEmpty.string_of_uint l)))
      by (apply Z.pow_le_mono_r; lia); nia.
Qed.

Lemma digits_sign s z : digits s = Some z -> SetString10 s = Some z.
Proof.
  intros H. destruct s as [|c s]; [done|]. unfold SetString10.
  destruct c as [[] [] [] [] [] [] [] []]; try exact H; discriminate H.
Qed.

Lemma lower_ascii_idem c : lower_ascii (lower_ascii c) = lower_ascii c.
Proof. by destruct c as [[] [] [] [] [] [] [] []]. Qed.

Lemma ToLower_idem s : ToLower (ToLower s) = ToLower s.
Proof. induction s as [|c s IH]; cbn; [done|]. by rewrite lower_ascii_idem, IH. Qed.

Lemma EqualFold_refl s : EqualFold s s = true.
Proof. apply String.eqb_refl. Qed.

Lemma drop_string_app p s : drop_string (String.length p) (p +:+ s) = s.
Proof. induction p as [|c p IH]; [done|exact IH]. Qed.

Lemma prefix_app p s : String.prefix p (p +:+ s) = true.
Proof.
  induction p as [|c p IH]; [by destruct s|].
  change (String.prefix (String c p) (String c p +:+ s))
    with (if ascii_dec c c then String.prefix p (p +:+ s) else false).
  destruct (ascii_dec c c); [exact IH|congruence].
Qed.

Lemma prefix_spec p s : String.prefix p s = true <-> exists r, s = (p +:+ r)%string.
Proof.
  split.
  - revert s. induction p as [|c p IH]; intros s Hp; [by exists s|]. destruct s as [|d s]; [done|].
    change (String.prefix (String c p) (String d s)) with (if ascii_dec c d then String.prefix p s else false) in Hp.
    destruct (ascii_dec c d) as [->|]; [|done]. apply IH in Hp as [r ->]. by exists r.
  - intros [r ->]. apply prefix_app.
Qed.

Lemma TrimPrefix_app p s : TrimPrefix (p +:+ s) p = s.
Proof. unfold TrimPrefix, HasPrefix. by rewrite prefix_app, drop_string_app. Qed.

Lemma length_ToLower s : String.length (ToLower s) = String.length s.
Proof. induction s; cbn; auto. Qed.

(** Splitting at a separator undoes joining with it. *)
(** [strings.Join]. *)
Fixpoint strings_Join (parts : list string) (sep : string) : string :=
  match parts with
  | [] => ""
  | [p] => p
  | p :: rest => (p +:+ sep +:+ strings_Join rest sep)%string
  end.

(** The quotation mark. *)
Definition double_quote : ascii := ascii_of_nat 34.

Fixpoint no_char (c : ascii) (s : string) : bool :=
  match s with EmptyString => true | String c' s' => negb (Ascii.eqb c' c) && no_char c s' end.

Lemma string_app_assoc (a b c : string) : ((a +:+ b) +:+ c)%string = (a +:+ (b +:+ c))%string.
Proof. induction a as [|x a IH]; [done|]. exact (f_equal (String x) IH). Qed.

Lemma string_app_nil (a : string) : (a +:+ "")%string = a.
Proof. induction a as [|x a IH]; [done|]. exact (f_equal (String x) IH). Qed.

Lemma rev_string_app s acc : rev_string s acc = (str_reverse s +:+ acc)%string.
Proof.
  unfold str_reverse. revert acc. induction s as [|c s IH]; intros acc; [done|].
  cbn [rev_string]. rewrite (IH (String c acc)), (IH (String c "")), string_app_assoc. done.
Qed.

Lemma str_reverse_cons c s : str_reverse (String c s) = (str_reverse s +:+ String c "")%string.
Proof. unfold str_reverse at 1. cbn [rev_string]. apply rev_string_app. Qed.

Lemma split_acc_sep sep a r acc :
  no_char sep a = true -> split_acc sep (a +:+ String sep r) acc = (str_reverse acc +:+ a)%string :: Split r sep.
Proof.
  revert acc. induction a as [|c a IH]; intros acc.
  - change (split_acc sep ("" +:+ String sep r) acc) with
      (if Ascii.eqb sep sep then str_reverse acc :: Split r sep else split_acc sep r (String sep acc)).
    by rewrite Ascii.eqb_refl, string_app_nil.
  - cbn [no_char]. intros [Hc Ha]%andb_true_iff. apply negb_true_iff in Hc.
    change (split_acc sep (String c a +:+ String sep r) acc) with
      (if Ascii.eqb c sep then str_reverse acc :: Split (a +:+ String sep r) sep
       else split_acc sep (a +:+ String sep r) (String c acc)).
    rewrite Hc, IH by done.
    rewrite str_reverse_cons, string_app_assoc. done.
Qed.

Lemma split_acc_last sep a acc : no_char sep a = true -> split_acc sep a acc = [(str_reverse acc +:+ a)%string].
Proof.
  revert acc. induction a as [|c a IH]; intros acc; cbn [no_char split_acc]; [by rewrite string_app_nil|].
  intros [Hc Ha]%andb_true_iff. apply negb_true_iff in Hc. rewrite Hc, IH by done.
  rewrite str_reverse_cons, string_app_assoc. done.
Qed.

Lemma Split_sep sep a r : no_char sep a = true -> Split (a +:+ String sep r) sep = a :: Split r sep.
Proof. apply split_acc_sep. Qed.

Lemma Split_last sep a : no_char sep a = true -> Split a sep = [a].
Proof. apply split_acc_last. Qed.

#[export] Hint Resolve digits_nonneg : verifier.
