(* ===== verification/RequestId.v ===== *)
(** * Request ids

    [generateRequestID] of [handler.go]: every handler run draws an id from an
    atomic counter to tag its log lines.  The text is [fmt]'s [%08x]. *)

From stdpp Require Import base list strings.
From Stdlib Require Import ZArith Lia Ascii.
From S2P Require Import Prelude GoStrings.

#[local] Open Scope Z_scope.

(** ** Hexadecimal text *)
Definition hex_digit_value (c : ascii) : option Z :=
  let n := Z.of_nat (nat_of_ascii c) in
  if (48 <=? n) && (n <=? 57) then Some (n - 48)
  else if (97 <=? n) && (n <=? 102) then Some (n - 87)
  else if (65 <=? n) && (n <=? 70) then Some (n - 55)
  else None.

Definition hex_digit (d : Z) : ascii := ascii_of_nat (Z.to_nat (if d <? 10 then 48 + d else 87 + d)).

(** The digits of [n] in front of [acc]; sixteen are enough for a uint64. *)
Fixpoint hex_text (fuel : nat) (n : Z) (acc : string) : string :=
  match fuel with
  | O => acc
  | S fuel' =>
      let acc' := String (hex_digit (n mod 16)) acc in
      if n / 16 =? 0 then acc' else hex_text fuel' (n / 16) acc'
  end.

Fixpoint zeros (k : nat) (s : string) : string := match k with O => s | S k' => String "0" (zeros k' s) end.

(** [fmt.Sprintf("%08x", n)] of a uint64. *)
Definition Sprintf_08x (n : Z) : string := let s := hex_text 16 n "" in zeros (8 - String.length s) s.

(** [reqIDCounter.Add(1)] and its text. *)
Definition generateRequestID (reqIDCounter : Z) : string * Z :=
  let n := u64 (reqIDCounter + 1) in (Sprintf_08x n, n).

(** The ids of [n] requests, in the order of their atomic additions. *)
Fixpoint request_ids (n : nat) (reqIDCounter : Z) : list string :=
  match n with
  | O => []
  | S n' => let '(reqID, c) := generateRequestID reqIDCounter in reqID :: request_ids n' c
  end.

(** ** Lemmas *)

(** The number a text denotes. *)
Fixpoint hex_value (acc : Z) (s : string) : Z :=
  match s with
  | EmptyString => acc
  | String c s' => hex_value (16 * acc + default 0 (hex_digit_value c)) s'
  end.

Lemma hex_digit_round d : 0 <= d < 16 -> hex_digit_value (hex_digit d) = Some d.
Proof.
  intros Hd. assert (d ∈ seqZ 0 16) as Hin by (apply elem_of_seqZ; lia). revert Hin. clear Hd.
  change (seqZ 0 16) with [0; 1; 2; 3; 4; 5; 6; 7; 8; 9; 10; 11; 12; 13; 14; 15]. intros Hin.
  repeat (apply elem_of_cons in Hin as [->|Hin]; [reflexivity|]). by apply not_elem_of_nil in Hin.
Qed.

Lemma hex_text_value fuel n acc :
  0 <= n < 16 ^ Z.of_nat fuel -> hex_value 0 (hex_text fuel n acc) = hex_value n acc.
Proof.
  revert n acc. induction fuel as [|fuel IH]; intros n acc Hn.
  { change (16 ^ Z.of_nat 0) with 1 in Hn. assert (n = 0) as -> by lia. done. }
  rewrite Nat2Z.inj_succ, Z.pow_succ_r in Hn by lia. cbn [hex_text].
  pose proof (Z.mod_pos_bound n 16 ltac:(lia)) as Hm. pose proof (Z.div_mod n 16 ltac:(lia)) as Hdm.
  assert (forall k, hex_value k (String (hex_digit (n mod 16)) acc) = hex_value (16 * k + n mod 16) acc) as Hstep
    by (intros k; cbn [hex_value]; by rewrite hex_digit_round).
  destruct (Z.eqb_spec (n / 16) 0) as [Hz|Hz].
  - rewrite Hstep. f_equal. lia.
  - rewrite IH, Hstep; [f_equal; lia|]. split; [apply Z.div_pos; lia|apply Z.div_lt_upper_bound; lia].
Qed.

Lemma zeros_value k s : hex_value 0 (zeros k s) = hex_value 0 s.
Proof. by induction k. Qed.

(** The text of a counter value denotes it. *)
Lemma Sprintf_08x_value n : is_u64 n -> hex_value 0 (Sprintf_08x n) = n.
Proof. intros Hn. unfold Sprintf_08x. rewrite zeros_value, hex_text_value; [done|]. unfold is_u64, MaxUint64 in Hn. lia. Qed.

Lemma zeros_length k s : String.length (zeros k s) = (k + String.length s)%nat.
Proof. induction k; cbn; auto. Qed.

(** Two numbers of a window of 2^64 that agree modulo 2^64 are equal. *)
Lemma u64_window counter n x y :
  1 <= x < 1 + n -> 1 <= y < 1 + n -> n <= 2 ^ 64 -> u64 (counter + x) = u64 (counter + y) -> x = y.
Proof.
  unfold u64. intros Hx Hy Hn Heq. pose proof (Z.div_mod (counter + x) (2 ^ 64) ltac:(lia)) as H1.
  pose proof (Z.div_mod (counter + y) (2 ^ 64) ltac:(lia)) as H2. rewrite Heq in H1.
  assert ((counter + x) / 2 ^ 64 = (counter + y) / 2 ^ 64) by nia. lia.
Qed.

(** The ids denote the successors of the counter. *)
Lemma request_ids_values n counter :
  is_u64 counter -> hex_value 0 <$> request_ids n counter = (fun i => u64 (counter + i)) <$> seqZ 1 (Z.of_nat n).
Proof.
  revert counter. induction n as [|n IH]; intros counter Hc; [done|].
  rewrite Nat2Z.inj_succ, seqZ_cons by lia. cbn [request_ids generateRequestID]. rewrite !fmap_cons. f_equal.
  - by apply Sprintf_08x_value, u64_range.
  - rewrite IH by apply u64_range.
    replace (Z.pred (Z.succ (Z.of_nat n))) with (Z.of_nat n) by lia. change (Z.succ 1) with (1 + 1).
    rewrite <- (fmap_add_seqZ 1 1), <- list_fmap_compose. apply list_fmap_ext. intros i x _. cbn.
    unfold u64. rewrite Zplus_mod_idemp_l. f_equal. lia.
Qed.

(** ** Properties *)
(** C39. Request ids do not repeat within the counter's range: among any 2^64 ids drawn in a row, by however many
    concurrent handlers, no two are the same text, and none is shorter than eight digits. *)
Theorem request_ids_distinct n counter :
  is_u64 counter -> Z.of_nat n <= 2 ^ 64 ->
  NoDup (request_ids n counter) /\ Forall (fun reqID => (8 <= String.length reqID)%nat) (request_ids n counter).
Proof.
  intros Hc Hn. split.
  - apply (NoDup_fmap_1 (hex_value 0)). rewrite request_ids_values by done. apply NoDup_fmap_2_strong; [|apply NoDup_seqZ].
    intros x y Hx%elem_of_seqZ Hy%elem_of_seqZ Heq.
    by apply (u64_window counter (Z.of_nat n)).
  - clear Hc Hn. revert counter. induction n as [|n IH]; intros counter; cbn [request_ids generateRequestID]; constructor; [|done].
    unfold Sprintf_08x. rewrite zeros_length. lia.
Qed.
