(* ===== verification/Helper.v ===== *)
(** * pmwpaymentstatus/helper: drops amounts and addresses

    [helper/convert.go] and [helper/xaddress.go].  A [*big.Int] that may be nil
    is an [option Z]. *)

From stdpp Require Import base list strings.
From Stdlib Require Import ZArith Lia.
From S2P Require Import Prelude Errors GoStrings.

#[local] Open Scope Z_scope.

Definition MaxXRPDrops : Z := 100_000_000_000 * 1_000_000.

Definition ExceedsMaxXRPDrops (v : option Z) : bool :=
  match v with
  | None => true
  | Some z => negb ((0 <=? z) && (z <=? MaxUint64)) || (MaxXRPDrops <? z)
  end.

Definition maxDropsDigits : Z := 25.

Definition ParseNonNegativeBigInt (s : string) : res error Z :=
  if maxDropsDigits <? len s then Err (Errorf "decimal value too long: %d chars (max %d)" [])
  else match SetString10 s with
       | None => Err (Errorf "invalid big.Int string: %s" [])
       | Some i => if i <? 0 then Err (Errorf "expected non-negative big.Int, got %s" [])
                   else Ok i
       end.

(** [addresscodec] of xrpl-go: what [NormalizeAddress] calls. *)
Class AddressCodec := {
  IsValidXAddress : string -> bool;
  XAddressToClassicAddress : string -> res error string
}.

Definition NormalizeAddress `{AddressCodec} (addr : string) : res error string :=
  if negb (IsValidXAddress addr) then Ok addr
  else XAddressToClassicAddress addr.

(** ** Lemmas *)

(** The test accepts exactly the amounts between zero and the total supply. *)
Lemma ExceedsMaxXRPDrops_false v :
  ExceedsMaxXRPDrops v = false <-> exists z, v = Some z /\ 0 <= z <= MaxXRPDrops.
Proof.
  destruct v as [z|]; cbn; [|naive_solver].
  rewrite orb_false_iff, negb_false_iff, andb_true_iff, Z.ltb_ge, !Z.leb_le.
  unfold MaxXRPDrops, MaxUint64. split.
  - intros [[? ?] ?]. eauto with lia.
  - intros (? & [= <-] & ?). lia.
Qed.

Lemma ParseNonNegativeBigInt_Ok s z :
  ParseNonNegativeBigInt s = Ok z <-> len s <= maxDropsDigits /\ SetString10 s = Some z /\ 0 <= z.
Proof.
  unfold ParseNonNegativeBigInt. destruct (Z.ltb_spec maxDropsDigits (len s)); [naive_solver lia|].
  destruct (SetString10 s) as [i|]; [|naive_solver].
  destruct (Z.ltb_spec i 0); naive_solver lia.
Qed.

(** Every amount the ledger can hold survives printing and parsing. *)
Lemma drops_roundtrip (n : N) :
  Z.of_N n <= MaxXRPDrops -> ParseNonNegativeBigInt (dec n) = Ok (Z.of_N n).
Proof.
  intros Hn. apply ParseNonNegativeBigInt_Ok. split; [|split; [|lia]].
  - apply len_dec; [done|]. unfold MaxXRPDrops, maxDropsDigits in *. lia.
  - apply digits_sign, digits_dec.
Qed.

(** Errors of the parser are untagged: they carry no sentinel of the program. *)
Lemma ParseNonNegativeBigInt_foreign s : foreign_res (ParseNonNegativeBigInt s).
Proof.
  intros e. unfold ParseNonNegativeBigInt.
  destruct (_ <? _); [intros [= <-]; done|].
  destruct (SetString10 s) as [i|]; [|intros [= <-]; done].
  destruct (i <? 0); [intros [= <-]; done|done].
Qed.

#[export] Hint Resolve ParseNonNegativeBigInt_foreign : verifier.
Class AddressErrors `{AddressCodec} := err_XAddress : forall s, foreign_res (XAddressToClassicAddress s).

Lemma ParseNonNegativeBigInt_raises l s : res_raises l (ParseNonNegativeBigInt s).
Proof. apply res_raises_foreign, ParseNonNegativeBigInt_foreign. Qed.

Lemma NormalizeAddress_raises `{AddressErrors} l s : res_raises l (NormalizeAddress s).
Proof.
  unfold NormalizeAddress. destruct (negb _); [apply res_raises_Ok|apply res_raises_foreign, err_XAddress].
Qed.
#[export] Hint Resolve ParseNonNegativeBigInt_raises NormalizeAddress_raises : raise_db.

(** ** Properties *)
(** C37. Amounts in drops survive the trip through the ledger's decimal text: any amount within the supply is printed
    and parsed back unchanged, and what parses is exactly the text of at most twenty-five characters that reads as a
    non-negative decimal number. *)
Theorem drops_text_exact :
  (forall n : N, Z.of_N n <= MaxXRPDrops -> ParseNonNegativeBigInt (dec n) = Ok (Z.of_N n)) /\
  (forall s z, ParseNonNegativeBigInt s = Ok z <-> len s <= maxDropsDigits /\ SetString10 s = Some z /\ 0 <= z).
Proof. split; [intros; by apply drops_roundtrip|apply ParseNonNegativeBigInt_Ok]. Qed.
