(* ===== verification/Eth.v ===== *)
(** * Interfaces to the libraries

    go-ethereum ([common], [abi], [crypto]), go-flare-common ([convert], [op],
    [events], the generated [payments] and [instructions] bindings) and the two
    indexer databases reached through gorm are not part of the repository.
    Each is a class: the operations the sources call, and, in a second class,
    the documented behaviour some theorems rely on.

    A 32-byte [common.Hash] and a 20-byte [common.Address] are the integers
    their bytes denote; [[]byte] is a byte string. *)

From stdpp Require Import base list strings.
From Stdlib Require Import ZArith Lia.
From S2P Require Import Prelude Errors GoStrings.

#[local] Open Scope Z_scope.

Abbreviation Hash := Z (only parsing).
Abbreviation Address := Z (only parsing).
Abbreviation bytes := string (only parsing).

(** [op.Command]: the commands the sources use. *)
Inductive Command := Pay | ReissueCmd.
#[global] Instance Command_eq_dec : EqDecision Command. Proof. solve_decision. Defined.

(** Values passed to [abi.Arguments.Pack]. *)
Inductive abi_value := VBytes32 (h : Hash) | VString (s : string) | VUint64 (z : Z).

(** [types.Log] and the columns of [database.Log] the sources name. *)
Record ChainLog := { Topics : list Hash; Data : bytes }.
Record DBLog := {
  lg_Address : string; lg_Topic0 : string; lg_Topic1 : string; lg_Topic2 : string;
  lg_Data : string; lg_Timestamp : Z; lg_BlockNumber : Z; lg_LogIndex : Z
}.

(** [instructions.InstructionsTeeInstructionsSent], the fields read. *)
Record TeeInstructionsSent := { ev_OpType : Hash; ev_OpCommand : Hash; ev_Message : bytes }.

(** [payments.ITeePaymentsPaymentInstructionMessage]. *)
Record PaymentInstructionMessage := {
  pm_SourceId : Hash; pm_SenderAddress : string; pm_PaymentId : Z; pm_Nonce : Z;
  pm_RecipientAddress : string; pm_TokenId : bytes; pm_Amount : option Z; pm_MaxFee : option Z;
  pm_PaymentReference : Hash
}.

Class EthLib := {
  StringToCommonHash : string -> res error Hash;
  Hex32StringToCommonHash : string -> res error Hash;
  Hash_Hex : Hash -> string;
  Address_Hex : Address -> string;
  Keccak256Hash : bytes -> Hash;
  abi_Pack : list abi_value -> res error bytes;
  ABI : Type;
  abi_Events : ABI -> string -> option Hash;
  UnpackIntoInterface : ABI -> string -> bytes -> res error TeeInstructionsSent;
  DecodeTo : Command -> bytes -> res error PaymentInstructionMessage;
  ConvertDatabaseLogToChainLog : DBLog -> res error ChainLog;
  op_string : Command -> string
}.

(** Documented behaviour of those functions. *)
Class EthLaws `{EthLib} := {
  (** Contract-ABI encoding is injective on values of the same types. *)
  abi_Pack_inj : forall o c s a p n o' c' s' a' p' n' b,
    is_u64 p -> is_u64 n -> is_u64 p' -> is_u64 n' ->
    abi_Pack [VBytes32 o; VBytes32 c; VBytes32 s; VString a; VUint64 p; VUint64 n] = Ok b ->
    abi_Pack [VBytes32 o'; VBytes32 c'; VBytes32 s'; VString a'; VUint64 p'; VUint64 n'] = Ok b ->
    o = o' /\ c = c' /\ s = s' /\ a = a' /\ p = p' /\ n = n';
  (** The two command names are different, and so are their bytes32 forms. *)
  op_hash_distinct : forall h, StringToCommonHash (op_string Pay) = Ok h ->
    StringToCommonHash (op_string ReissueCmd) = Ok h -> False;
  (** [Hash.Hex] prints 0x and 64 digits, one text per hash. *)
  Hash_Hex_length : forall h, String.length (Hash_Hex h) = 66%nat;
  Hash_Hex_inj : forall h h', 0 <= h < 2 ^ 256 -> 0 <= h' < 2 ^ 256 ->
    Hash_Hex h = Hash_Hex h' -> h = h'
}.

(** Errors of these libraries carry none of the program's sentinels. *)
Class EthErrors `{EthLib} := {
  err_StringToCommonHash : forall s, foreign_res (StringToCommonHash s);
  err_Hex32 : forall s, foreign_res (Hex32StringToCommonHash s);
  err_Pack : forall l, foreign_res (abi_Pack l);
  err_Unpack : forall a n d, foreign_res (UnpackIntoInterface a n d);
  err_DecodeTo : forall c d, foreign_res (DecodeTo c d);
  err_Convert : forall r, foreign_res (ConvertDatabaseLogToChainLog r)
}.

(** ** The indexer databases

    A query is the data the sources hand to gorm; the answer depends on the
    request's context, so two requests may see different snapshots. *)
Record LogQuery := {
  q_address : string; q_topic0 : string; q_topic1 : string; q_topic2 : list string;
  q_order : string; q_limit : option nat
}.

Record DBTransaction := {
  tx_Hash : string; tx_BlockNumber : Z; tx_Timestamp : Z; tx_PaymentReference : string;
  tx_Response : string; tx_IsNativePayment : bool; tx_SourceAddressesRoot : string;
  tx_Sequence : Z; tx_TicketSequence : Z; tx_SourceAddress : string
}.

Record TxQuery := {
  tq_source : string; tq_sequences : list Z; tq_order : string; tq_limit : option nat
}.

Class IndexerDB (Ctx : Type) := {
  find_logs : Ctx -> LogQuery -> res error (list DBLog);
  find_txs : Ctx -> TxQuery -> res error (list DBTransaction)
}.

Definition within_limit {A} (limit : option nat) (l : list A) : Prop :=
  match limit with Some n => (length l <= n)%nat | None => True end.

(** What SQL promises of an answer: every row satisfies the WHERE clause (text
    comparison in MySQL's default collation ignores case) and the LIMIT holds. *)
Class IndexerLaws (Ctx : Type) `{IndexerDB Ctx} := {
  find_logs_where : forall ctx q rows row, find_logs ctx q = Ok rows -> row ∈ rows ->
    EqualFold (lg_Address row) (q_address q) = true /\
    EqualFold (lg_Topic0 row) (q_topic0 q) = true /\
    EqualFold (lg_Topic1 row) (q_topic1 q) = true /\
    exists t, t ∈ q_topic2 q /\ EqualFold (lg_Topic2 row) t = true;
  find_logs_limit : forall ctx q rows, find_logs ctx q = Ok rows -> within_limit (q_limit q) rows;
  find_txs_where : forall ctx q rows row, find_txs ctx q = Ok rows -> row ∈ rows ->
    tx_SourceAddress row = tq_source q /\ tx_Sequence row ∈ tq_sequences q;
  find_txs_limit : forall ctx q rows, find_txs ctx q = Ok rows -> within_limit (tq_limit q) rows
}.

Class IndexerErrors (Ctx : Type) `{IndexerDB Ctx} := {
  err_find_logs : forall ctx q, foreign_res (find_logs ctx q);
  err_find_txs : forall ctx q, foreign_res (find_txs ctx q)
}.
