(* ===== verification/Config.v ===== *)
(** * internal/config: the deployment's configuration

    [config.go] and the four per-type loaders.  Environment values are the
    strings [EnvConfig] carries; the addresses, ABI documents and certificates
    that libraries parse are the operations of [ConfigLib]. *)

From stdpp Require Import base list strings.
From Stdlib Require Import ZArith Lia Ascii.
From S2P Require Import Prelude Errors GoStrings Eth.

#[local] Open Scope Z_scope.

(** ** Environment variables *)
Definition EnvSourceRPCURL : string := "SOURCE_RPC_URL".
Definition EnvFlareRPCURL : string := "FLARE_RPC_URL".
Definition EnvRelayContractAddress : string := "RELAY_CONTRACT_ADDRESS".
Definition EnvFlareTeeManagerContractAddress : string := "FLARE_TEE_MANAGER_CONTRACT_ADDRESS".
Definition EnvTeePaymentsContractAddress : string := "TEE_PAYMENTS_CONTRACT_ADDRESS".
Definition EnvSourceDatabaseURL : string := "SOURCE_DATABASE_URL".
Definition EnvCChainDatabaseURL : string := "CCHAIN_DATABASE_URL".
Definition DefaultTeeAudience : string := "https://sts.google.com".

(** [fdc2.AttestationType], a string type: its four constants, and any other text. *)
Inductive AttestationType :=
| AvailabilityCheck | PMWMultisigAccountConfigured | PMWPaymentStatus | PMWFeeProof
| OtherType (s : string).
#[global] Instance AttestationType_eq_dec : EqDecision AttestationType. Proof. solve_decision. Defined.

(** [SourceName] and its constants. *)
Abbreviation SourceName := string (only parsing).
Definition SourceTEE : SourceName := "TEE".
Definition SourceXRP : SourceName := "XRP".
Definition SourceTestXRP : SourceName := "testXRP".

Record EnvConfig := {
  env_SourceRPCURL : string; env_FlareRPCURL : string; env_RelayContractAddress : string;
  env_RelayCutoverContractAddress : string; env_RelayCutoverStartingRewardEpoch : string;
  env_FlareTeeManagerContractAddress : string; env_TeePaymentsContractAddress : string;
  env_SourceDatabaseURL : string; env_CChainDatabaseURL : string; env_AllowTeeDebug : string;
  env_DisableAttestationCheckE2E : string; env_AllowPrivateNetworks : string; env_TeeAudience : string;
  env_ChainID : string; env_DestinationChainURLSlug : string; env_SourceURLSlug : string;
  env_Port : string; env_APIKeys : list string; env_AttestationType : AttestationType;
  env_AttestationTypes : list AttestationType; env_SourceID : SourceName
}.

(** ** Route segments *)
Definition slug_head (c : ascii) : bool := let n := nat_of_ascii c in (97 <=? n)%nat && (n <=? 122)%nat.
Definition slug_char (c : ascii) : bool :=
  let n := nat_of_ascii c in slug_head c || ((48 <=? n)%nat && (n <=? 57)%nat) || (n =? 45)%nat.
Fixpoint slug_tail (s : string) : bool :=
  match s with EmptyString => true | String c s' => slug_char c && slug_tail s' end.

(** [urlSlugPattern.MatchString]: [^[a-z][a-z0-9-]{0,31}$]. *)
Definition urlSlugPattern (s : string) : bool :=
  match s with
  | EmptyString => false
  | String c s' => slug_head c && slug_tail s' && (len s' <=? 31)
  end.

Definition DeploymentPrefix (sourceSlug destinationSlug : string) : string :=
  "/verifier/" +:+ sourceSlug +:+ "/" +:+ destinationSlug.

Definition SourceURLSlug (source : SourceName) (override : string) : res error string :=
  if String.eqb override "" then Ok (ToLower source)
  else if negb (urlSlugPattern override) then
    Err (Errorf "%s %q must be a lowercase URL slug matching %s" [])
  else Ok override.

Definition ValidateDestinationChainURLSlug (slug : string) : res error unit :=
  if String.eqb slug "" then Err (Errorf "missing environment variables: %s" [])
  else if negb (urlSlugPattern slug) then
    Err (Errorf "%s %q must be a lowercase URL slug matching %s" [])
  else Ok tt.

(** ** Served types *)
Definition ServedAttestationTypes (c : EnvConfig) : list AttestationType :=
  if (0 <? length (env_AttestationTypes c))%nat then env_AttestationTypes c
  else if negb (bool_decide (env_AttestationType c = OtherType "")) then [env_AttestationType c]
  else [].

(** [SourceAttestationTypes[source]] *)
Definition SourceAttestationTypes (source : SourceName) : option (list AttestationType) :=
  if String.eqb source SourceTEE then Some [AvailabilityCheck]
  else if String.eqb source SourceXRP then Some [PMWMultisigAccountConfigured; PMWPaymentStatus; PMWFeeProof]
  else if String.eqb source SourceTestXRP then Some [PMWMultisigAccountConfigured; PMWPaymentStatus; PMWFeeProof]
  else None.

Definition AttestationTypesForSource (source : SourceName) : list AttestationType * bool :=
  match SourceAttestationTypes source with Some types => (types, true) | None => ([], false) end.

(** [abiStructNames[t]]: the request and the response struct. *)
Definition abiStructNames (t : AttestationType) : option (string * string) :=
  match t with
  | AvailabilityCheck => Some ("availabilityCheckRequestBodyStruct", "availabilityCheckResponseBodyStruct")
  | PMWMultisigAccountConfigured =>
      Some ("pmwMultisigAccountConfiguredRequestBodyStruct", "pmwMultisigAccountConfiguredResponseBodyStruct")
  | PMWPaymentStatus => Some ("pmwPaymentStatusRequestBodyStruct", "pmwPaymentStatusResponseBodyStruct")
  | PMWFeeProof => Some ("pmwFeeProofRequestBodyStruct", "pmwFeeProofResponseBodyStruct")
  | OtherType _ => None
  end%string.

(** ** Required variables *)

(** The [switch] of [CheckMissingFields]: the value a name stands for; a name
    it does not list is not checked. *)
Definition env_field (cfg : EnvConfig) (field : string) : option string :=
  if String.eqb field EnvSourceRPCURL then Some (env_SourceRPCURL cfg)
  else if String.eqb field EnvFlareRPCURL then Some (env_FlareRPCURL cfg)
  else if String.eqb field EnvRelayContractAddress then Some (env_RelayContractAddress cfg)
  else if String.eqb field EnvFlareTeeManagerContractAddress then Some (env_FlareTeeManagerContractAddress cfg)
  else if String.eqb field EnvTeePaymentsContractAddress then Some (env_TeePaymentsContractAddress cfg)
  else if String.eqb field EnvSourceDatabaseURL then Some (env_SourceDatabaseURL cfg)
  else if String.eqb field EnvCChainDatabaseURL then Some (env_CChainDatabaseURL cfg)
  else None.

Definition CheckMissingFields (cfg : EnvConfig) (fields : list string) : res error unit :=
  let missing := filter (fun f => env_field cfg f = Some EmptyString) fields in
  if (0 <? length missing)%nat then Err (Errorf "missing environment variables: %s" []) else Ok tt.

(** [parseOptionalBool]: unset is false, a value that is no boolean is an error. *)
Definition parseOptionalBool (val : string) : res error bool :=
  if String.eqb val "" then Ok false
  else match ParseBool val with
       | None => Err (Errorf "%s has invalid bool value %q: %w" [EForeign (plain_foreign "invalid syntax") []])
       | Some b => Ok b
       end.

(** ** Configurations *)
Class ConfigLib `{EthLib} := {
  abi_Argument : Type;
  (** [abi.JSON] of the fdc2 binding, then [Methods[name].Inputs]. *)
  fdc2_Methods : res error (string -> option (list abi_Argument));
  instructions_ABI : res error ABI;
  att_string : AttestationType -> string;
  IsHexAddress : string -> bool;
  HexToAddress : string -> Address;
  Certificate : Type;
  pem_Decode : string -> option string;
  ParseCertificate : string -> res error Certificate;
  rootCertBytes : string
}.

(** The names of the four attestation types, constants of the fdc2 package:
    different words of letters. *)
Definition letter (c : ascii) : bool :=
  let n := Z.of_nat (nat_of_ascii c) in ((65 <=? n) && (n <=? 90)) || ((97 <=? n) && (n <=? 122)).
Fixpoint letters (s : string) : bool :=
  match s with EmptyString => true | String c s' => letter c && letters s' end.
Class AttNames `{ConfigLib} := {
  att_string_inj : forall t t', abiStructNames t <> None -> abiStructNames t' <> None -> att_string t = att_string t' -> t = t';
  att_string_letters : forall t, abiStructNames t <> None -> letters (att_string t) = true
}.

Section Config.
Context `{ConfigLib}.

Record EncodedAndABI := {
  eab_SourceID : SourceName; eab_SourceIDEncoded : Hash;
  eab_AttestationType : AttestationType; eab_AttestationTypeEncoded : Hash;
  eab_Request : abi_Argument; eab_Response : abi_Argument;
  eab_DestinationChainSlug : string; eab_SourceURLSlug : string
}.

Record TeeAvailabilityCheckConfig := {
  tac_common : EncodedAndABI; tac_RelayContractAddress : Address;
  tac_RelayCutoverContractAddress : Address; tac_RelayCutoverStartingRewardEpoch : Z;
  tac_AllowTeeDebug : bool; tac_DisableAttestationCheckE2E : bool; tac_AllowPrivateNetworks : bool;
  tac_FlareRPCURL : string; tac_GoogleRootCertificate : Certificate; tac_TeeAudience : string;
  tac_ChainID : Z
}.

(** [PMWPaymentStatusConfig] and [PMWFeeProofConfig], which have the same fields. *)
Record PMWPaymentStatusConfig := {
  psc_common : EncodedAndABI; psc_SourceDatabaseURL : string; psc_CchainDatabaseURL : string;
  psc_FlareTeeManagerContractAddress : Address; psc_TeePaymentsContractAddress : Address;
  psc_FlareRPCURL : string; psc_ParsedTeeInstructionsABI : ABI
}.
Record PMWFeeProofConfig := {
  fpc_common : EncodedAndABI; fpc_SourceDatabaseURL : string; fpc_CchainDatabaseURL : string;
  fpc_FlareTeeManagerContractAddress : Address; fpc_TeePaymentsContractAddress : Address;
  fpc_FlareRPCURL : string; fpc_ParsedTeeInstructionsABI : ABI
}.
Record PMWMultisigAccountConfig := { msc_common : EncodedAndABI; msc_SourceRPCURL : string }.

Definition EncodeAttestationOrSourceName (name : string) : res error Hash :=
  if (2 <=? len name) && (String.eqb (String.substring 0 2 name) "0x" || String.eqb (String.substring 0 2 name) "0X") then
    Err (Errorf "attestation type or source id name must not start with '0x'. Provided: %s" [])
  else StringToCommonHash name.

Definition getABIArguments (structNeeded : string) : res error abi_Argument :=
  methods ← map_err (fun err => Errorf "failed to parse ABI: %w" [err]) fdc2_Methods;
  match methods structNeeded with
  | Some [input] => Ok input
  | _ => Err (Errorf "invalid method definition for %s" [])
  end.

Definition LoadEncodedAndABI (envConfig : EnvConfig) : res error EncodedAndABI :=
  match abiStructNames (env_AttestationType envConfig) with
  | None => Err (Errorf "no ABI struct names defined for attestation type %s" [])
  | Some (request, response) =>
      _ ← ValidateDestinationChainURLSlug (env_DestinationChainURLSlug envConfig);
      sourceSlug ← SourceURLSlug (env_SourceID envConfig) (env_SourceURLSlug envConfig);
      sourceIDEnc ← EncodeAttestationOrSourceName (env_SourceID envConfig);
      attestationTypeEnc ← EncodeAttestationOrSourceName (att_string (env_AttestationType envConfig));
      requestABI ← getABIArguments request;
      responseABI ← getABIArguments response;
      Ok {| eab_SourceID := env_SourceID envConfig; eab_SourceIDEncoded := sourceIDEnc;
            eab_AttestationType := env_AttestationType envConfig; eab_AttestationTypeEncoded := attestationTypeEnc;
            eab_Request := requestABI; eab_Response := responseABI;
            eab_DestinationChainSlug := env_DestinationChainURLSlug envConfig; eab_SourceURLSlug := sourceSlug |}
  end.

Definition parseContractAddress (raw : string) : res error Address :=
  if negb (IsHexAddress raw) then Err (Errorf "%s is not a valid hex address: %q" [])
  else
  let addr := HexToAddress raw in
  if addr =? 0 then Err (Errorf "%s must not be the zero address" []) else Ok addr.

Definition BuildPMWFeeProofConfig (envConfig : EnvConfig) : res error PMWFeeProofConfig :=
  _ ← CheckMissingFields envConfig [EnvCChainDatabaseURL; EnvSourceDatabaseURL; EnvFlareTeeManagerContractAddress;
                                    EnvTeePaymentsContractAddress; EnvFlareRPCURL];
  flareTeeManagerAddr ← parseContractAddress (env_FlareTeeManagerContractAddress envConfig);
  teePaymentsAddr ← parseContractAddress (env_TeePaymentsContractAddress envConfig);
  commonConfig ← LoadEncodedAndABI envConfig;
  abi ← map_err (fun err => Errorf "cannot parse TeeInstructions ABI: %w" [err]) instructions_ABI;
  Ok {| fpc_common := commonConfig; fpc_SourceDatabaseURL := env_SourceDatabaseURL envConfig;
        fpc_CchainDatabaseURL := env_CChainDatabaseURL envConfig;
        fpc_FlareTeeManagerContractAddress := flareTeeManagerAddr;
        fpc_TeePaymentsContractAddress := teePaymentsAddr;
        fpc_FlareRPCURL := env_FlareRPCURL envConfig; fpc_ParsedTeeInstructionsABI := abi |}.

Definition buildXrpPMWPaymentStatusConfig (envConfig : EnvConfig) : res error PMWPaymentStatusConfig :=
  _ ← CheckMissingFields envConfig [EnvCChainDatabaseURL; EnvSourceDatabaseURL; EnvFlareTeeManagerContractAddress;
                                    EnvTeePaymentsContractAddress; EnvFlareRPCURL];
  flareTeeManagerAddr ← parseContractAddress (env_FlareTeeManagerContractAddress envConfig);
  teePaymentsAddr ← parseContractAddress (env_TeePaymentsContractAddress envConfig);
  commonConfig ← LoadEncodedAndABI envConfig;
  abi ← map_err (fun err => Errorf "cannot parse TeeInstructions ABI: %w" [err]) instructions_ABI;
  Ok {| psc_common := commonConfig; psc_SourceDatabaseURL := env_SourceDatabaseURL envConfig;
        psc_CchainDatabaseURL := env_CChainDatabaseURL envConfig;
        psc_FlareTeeManagerContractAddress := flareTeeManagerAddr;
        psc_TeePaymentsContractAddress := teePaymentsAddr;
        psc_FlareRPCURL := env_FlareRPCURL envConfig; psc_ParsedTeeInstructionsABI := abi |}.

Definition BuildPMWPaymentStatusConfig := buildXrpPMWPaymentStatusConfig.

Definition BuildPMWMultisigAccountConfiguredConfig (envConfig : EnvConfig) : res error PMWMultisigAccountConfig :=
  _ ← CheckMissingFields envConfig [EnvSourceRPCURL];
  commonConfig ← LoadEncodedAndABI envConfig;
  Ok {| msc_common := commonConfig; msc_SourceRPCURL := env_SourceRPCURL envConfig |}.

(** [parseRelayCutover]: the next Relay's address and first reward epoch, or
    the zero pair when no cutover is configured. *)
Definition parseRelayCutover (envConfig : EnvConfig) (relayAddr : Address) : res error (Address * Z) :=
  let a := env_RelayCutoverContractAddress envConfig in
  let e := env_RelayCutoverStartingRewardEpoch envConfig in
  if String.eqb a "" && String.eqb e "" then Ok (0, 0)
  else if String.eqb a "" || String.eqb e "" then Err (Errorf "%s and %s must be set together" [])
  else
  cutoverRelayAddr ← parseContractAddress a;
  if cutoverRelayAddr =? relayAddr then Err (Errorf "%s must differ from %s" [])
  else
  match ParseUint e 24 with
  | Err _ => Err (Errorf "%s must be a base-10 uint24 (reward-epoch ids are 24-bit on chain): %q: %w"
                    [EForeign (plain_foreign "strconv.ParseUint") []])
  | Ok startingRewardEpoch =>
      if startingRewardEpoch =? 0 then Err (Errorf "%s must be non-zero" [])
      else Ok (cutoverRelayAddr, u32 startingRewardEpoch)
  end.

Definition loadGoogleRootCertFromBytes (data : string) : res error Certificate :=
  match pem_Decode data with
  | None => Err (Errorf "cannot decode embedded Google root certificate: invalid PEM format" [])
  | Some block => map_err (fun err => Errorf "cannot parse embedded Google root certificate: %w" [err])
                    (ParseCertificate block)
  end.

Definition LoadGoogleRootCert : res error Certificate := loadGoogleRootCertFromBytes rootCertBytes.

Definition BuildTeeAvailabilityCheckConfig (envConfig : EnvConfig) : res error TeeAvailabilityCheckConfig :=
  if negb (String.eqb (env_SourceID envConfig) SourceTEE) then
    Err (Errorf "unsupported SOURCE_ID %q for TeeAvailabilityCheck: expected %q" [])
  else
  _ ← CheckMissingFields envConfig [EnvRelayContractAddress; EnvFlareRPCURL];
  relayAddr ← parseContractAddress (env_RelayContractAddress envConfig);
  cutover ← parseRelayCutover envConfig relayAddr;
  googleRootCert ← LoadGoogleRootCert;
  commonConfig ← LoadEncodedAndABI envConfig;
  allowTeeDebug ← parseOptionalBool (env_AllowTeeDebug envConfig);
  disableAttestationCheckE2E ← parseOptionalBool (env_DisableAttestationCheckE2E envConfig);
  allowPrivateNetworks ← parseOptionalBool (env_AllowPrivateNetworks envConfig);
  if String.eqb (env_ChainID envConfig) "" then Err (Errorf "missing environment variables: %s" [])
  else
  match ParseUint (env_ChainID envConfig) 64 with
  | Err _ => Err (Errorf "%s must be a base-10 uint64: %q: %w" [EForeign (plain_foreign "strconv.ParseUint") []])
  | Ok chainID =>
      if chainID =? 0 then Err (Errorf "%s must be non-zero" []) else
      let teeAudience := if String.eqb (env_TeeAudience envConfig) "" then DefaultTeeAudience
                         else env_TeeAudience envConfig in
      Ok {| tac_common := commonConfig; tac_RelayContractAddress := relayAddr;
            tac_RelayCutoverContractAddress := cutover.1; tac_RelayCutoverStartingRewardEpoch := cutover.2;
            tac_AllowTeeDebug := allowTeeDebug; tac_DisableAttestationCheckE2E := disableAttestationCheckE2E;
            tac_AllowPrivateNetworks := allowPrivateNetworks; tac_FlareRPCURL := env_FlareRPCURL envConfig;
            tac_GoogleRootCertificate := googleRootCert; tac_TeeAudience := teeAudience; tac_ChainID := chainID |}
  end.

(** [sync.Once] around a builder: the package variables after the first call
    keep its outcome, whatever the later calls pass. *)
Definition load_once {C} (build : EnvConfig -> res error C) (envConfig : EnvConfig) (var : option (res error C))
    : res error C * option (res error C) :=
  match var with
  | Some r => (r, var)
  | None => let r := build envConfig in (r, Some r)
  end.
Definition LoadPMWFeeProofConfig := load_once BuildPMWFeeProofConfig.
Definition LoadPMWPaymentStatusConfig := load_once BuildPMWPaymentStatusConfig.
Definition LoadPMWMultisigAccountConfiguredConfig := load_once BuildPMWMultisigAccountConfiguredConfig.
Definition LoadTeeAvailabilityCheckConfig := load_once BuildTeeAvailabilityCheckConfig.
End Config.

(** ** Lemmas *)
Lemma urlSlugPattern_no_char ch s : slug_char ch = false -> urlSlugPattern s = true -> no_char ch s = true.
Proof.
  intros Hch.
  assert (forall c, slug_char c = true -> Ascii.eqb c ch = false) as Hne
    by (intros c Hc; destruct (Ascii.eqb_spec c ch) as [->|]; [congruence|done]).
  destruct s as [|c s]; cbn; [done|]. intros [[Hc Ht]%andb_true_iff _]%andb_true_iff.
  rewrite Hne by (unfold slug_char; by rewrite Hc). cbn.
  induction s as [|d s IH]; cbn in *; [done|]. apply andb_true_iff in Ht as [Hd Ht].
  rewrite (Hne _ Hd). by apply IH.
Qed.

Lemma urlSlugPattern_no_slash s : urlSlugPattern s = true -> no_char "/" s = true /\ s <> ""%string.
Proof. intros Hs. split; [by apply urlSlugPattern_no_char|by destruct s]. Qed.

(** The two segments of a deployment's URL space can be read back. *)
Lemma DeploymentPrefix_segments s d :
  no_char "/" s = true -> no_char "/" d = true ->
  Split (DeploymentPrefix s d) "/" = [""; "verifier"; s; d]%string.
Proof.
  intros Hs Hd. unfold DeploymentPrefix.
  change ("/verifier/" +:+ s +:+ "/" +:+ d)%string
    with ("" +:+ String "/" ("verifier" +:+ String "/" (s +:+ String "/" d)))%string.
  rewrite !Split_sep, Split_last by done. done.
Qed.

Lemma SourceURLSlug_Ok source override slug :
  is_Some (SourceAttestationTypes source) -> SourceURLSlug source override = Ok slug -> urlSlugPattern slug = true.
Proof.
  unfold SourceURLSlug, SourceAttestationTypes. intros Hs.
  destruct (String.eqb override ""); [|destruct (urlSlugPattern override) eqn:E; [|done]; by intros [= <-]].
  intros [= <-].
  destruct (String.eqb_spec source SourceTEE) as [->|]; [done|].
  destruct (String.eqb_spec source SourceXRP) as [->|]; [done|].
  destruct (String.eqb_spec source SourceTestXRP) as [->|]; [done|]. by destruct Hs.
Qed.

Lemma ValidateDestinationChainURLSlug_Ok slug :
  ValidateDestinationChainURLSlug slug = Ok tt <-> urlSlugPattern slug = true.
Proof.
  unfold ValidateDestinationChainURLSlug. destruct (String.eqb_spec slug "") as [->|]; [done|].
  by destruct (urlSlugPattern slug).
Qed.

Lemma CheckMissingFields_Ok cfg fields :
  CheckMissingFields cfg fields = Ok tt <-> forall f, f ∈ fields -> env_field cfg f <> Some ""%string.
Proof.
  unfold CheckMissingFields. destruct (filter _ fields) as [|f l] eqn:E; cbn.
  - split; [|done]. intros _ f Hf He.
    assert (f ∈ filter (fun f => env_field cfg f = Some ""%string) fields) as Hin by (by apply list_elem_of_filter).
    rewrite E in Hin. by apply not_elem_of_nil in Hin.
  - split; [done|]. intros Hall. exfalso.
    assert (f ∈ filter (fun f => env_field cfg f = Some ""%string) fields) as Hin by (rewrite E; apply list_elem_of_here).
    apply list_elem_of_filter in Hin as [He Hf]. by apply (Hall f).
Qed.

Section ConfigLemmas.
Context `{ConfigLib}.

Lemma parseContractAddress_Ok raw a :
  parseContractAddress raw = Ok a <-> IsHexAddress raw = true /\ a = HexToAddress raw /\ a <> 0.
Proof.
  unfold parseContractAddress. destruct (IsHexAddress raw); cbn; [|naive_solver].
  destruct (Z.eqb_spec (HexToAddress raw) 0); naive_solver.
Qed.

(** What a loaded common part guarantees. *)
Lemma LoadEncodedAndABI_Ok env c :
  LoadEncodedAndABI env = Ok c ->
  urlSlugPattern (eab_DestinationChainSlug c) = true /\
  SourceURLSlug (env_SourceID env) (env_SourceURLSlug env) = Ok (eab_SourceURLSlug c) /\
  eab_DestinationChainSlug c = env_DestinationChainURLSlug env /\
  eab_SourceID c = env_SourceID env /\ eab_AttestationType c = env_AttestationType env /\
  StringToCommonHash (env_SourceID env) = Ok (eab_SourceIDEncoded c) /\
  StringToCommonHash (att_string (env_AttestationType env)) = Ok (eab_AttestationTypeEncoded c).
Proof.
  unfold LoadEncodedAndABI, EncodeAttestationOrSourceName.
  destruct (abiStructNames _) as [[rq rs]|]; [|done]. intros Hl.
  apply res_bind_Ok in Hl as ([] & Hv%ValidateDestinationChainURLSlug_Ok & Hl).
  repeat apply res_bind_Ok in Hl as (? & ?Hm & Hl). injection Hl as <-. cbn.
  repeat case_match; try discriminate. done.
Qed.

Lemma parseRelayCutover_Ok env relay a e :
  parseRelayCutover env relay = Ok (a, e) <->
  (env_RelayCutoverContractAddress env = ""%string /\ env_RelayCutoverStartingRewardEpoch env = ""%string /\
     a = 0 /\ e = 0) \/
  (env_RelayCutoverContractAddress env <> ""%string /\
     parseContractAddress (env_RelayCutoverContractAddress env) = Ok a /\
     digits (env_RelayCutoverStartingRewardEpoch env) = Some e /\ a <> relay /\ 1 <= e < 2 ^ 24).
Proof.
  unfold parseRelayCutover, ParseUint.
  destruct (String.eqb_spec (env_RelayCutoverContractAddress env) "") as [Ha|Ha],
    (String.eqb_spec (env_RelayCutoverStartingRewardEpoch env) "") as [He|He]; cbn [andb orb].
  1-3: rewrite ?He; naive_solver.
  rewrite res_bind_Ok. split.
  - intros (a' & Hp & Hr). destruct (Z.eqb_spec a' relay); [done|].
    destruct (digits _) as [z|] eqn:Hd; [|done].
    destruct (Z.ltb_spec (2 ^ 24 - 1) z); [done|]. destruct (Z.eqb_spec z 0); [done|].
    injection Hr as <- <-. apply digits_nonneg in Hd as Hz. unfold u32. rewrite Z.mod_small by lia.
    right. eauto with lia.
  - intros [(? & _)|(_ & Hp & Hd & Hne & Hb)]; [done|]. exists a. split; [done|].
    rewrite Hd. destruct (Z.eqb_spec a relay); [done|].
    destruct (Z.ltb_spec (2 ^ 24 - 1) e); [lia|]. destruct (Z.eqb_spec e 0); [lia|].
    unfold u32. rewrite Z.mod_small by lia. done.
Qed.

(** The configuration of a TEE deployment that boots. *)
Record tee_config_wf (env : EnvConfig) (c : TeeAvailabilityCheckConfig) : Prop := {
  tw_source : env_SourceID env = SourceTEE;
  tw_relay : tac_RelayContractAddress c <> 0;
  tw_cutover : (tac_RelayCutoverContractAddress c = 0 /\ tac_RelayCutoverStartingRewardEpoch c = 0) \/
    (tac_RelayCutoverContractAddress c <> 0 /\
     tac_RelayCutoverContractAddress c <> tac_RelayContractAddress c /\
     1 <= tac_RelayCutoverStartingRewardEpoch c < 2 ^ 24);
  tw_chain : 1 <= tac_ChainID c <= MaxUint64 /\ digits (env_ChainID env) = Some (tac_ChainID c);
  tw_audience : tac_TeeAudience c <> ""%string;
  tw_flags : (env_AllowTeeDebug env = ""%string -> tac_AllowTeeDebug c = false) /\
    (env_DisableAttestationCheckE2E env = ""%string -> tac_DisableAttestationCheckE2E c = false) /\
    (env_AllowPrivateNetworks env = ""%string -> tac_AllowPrivateNetworks c = false)
}.

Lemma parseOptionalBool_unset val b : parseOptionalBool val = Ok b -> val = ""%string -> b = false.
Proof. intros Hp ->. by injection Hp as <-. Qed.

Lemma BuildTeeAvailabilityCheckConfig_Ok env c :
  BuildTeeAvailabilityCheckConfig env = Ok c -> tee_config_wf env c.
Proof.
  unfold BuildTeeAvailabilityCheckConfig.
  destruct (String.eqb_spec (env_SourceID env) SourceTEE); [|done]. cbn [negb]. intros Hb.
  repeat apply res_bind_Ok in Hb as (? & ?Hm & Hb).
  destruct (String.eqb (env_ChainID env) ""); [done|]. unfold ParseUint in Hb.
  destruct (digits (env_ChainID env)) as [z|] eqn:Hd; [|done].
  destruct (Z.ltb_spec (2 ^ 64 - 1) z); [done|]. destruct (Z.eqb_spec z 0); [done|].
  injection Hb as <-. apply digits_nonneg in Hd as Hz.
  match goal with H : parseContractAddress _ = Ok _ |- _ => apply parseContractAddress_Ok in H as (_ & _ & ?) end.
  match goal with H : parseRelayCutover _ _ = Ok ?p |- _ =>
    destruct p; apply parseRelayCutover_Ok in H as Hcut end.
  constructor; cbn; try done.
  - destruct Hcut as [(_ & _ & -> & ->)|(_ & (_ & _ & ?)%parseContractAddress_Ok & _ & ? & ?)]; auto.
  - split; [unfold MaxUint64; lia|done].
  - destruct (String.eqb_spec (env_TeeAudience env) ""); done.
  - split_and!; intros; by eapply parseOptionalBool_unset.
Qed.
End ConfigLemmas.

(** ** Properties *)
Section ConfigProperties.
Context `{ConfigLib}.

(** C36. A TEE deployment that boots is safely configured: the TEE source, a non-zero Relay, a consistent cutover, a
    non-zero 64-bit chain id, an audience to enforce, and every test switch off unless the operator set it.  A Relay
    cutover is configured whole or not at all: both variables unset, or the address of another contract than the
    current Relay and a reward epoch from 1 to 2^24 - 1; everything else fails the boot. *)
Theorem tee_config_safe env :
  (forall c, BuildTeeAvailabilityCheckConfig env = Ok c -> tee_config_wf env c) /\
  (forall relay a e, parseRelayCutover env relay = Ok (a, e) <->
    (env_RelayCutoverContractAddress env = ""%string /\ env_RelayCutoverStartingRewardEpoch env = ""%string /\
       a = 0 /\ e = 0) \/
    (env_RelayCutoverContractAddress env <> ""%string /\
       parseContractAddress (env_RelayCutoverContractAddress env) = Ok a /\
       digits (env_RelayCutoverStartingRewardEpoch env) = Some e /\ a <> relay /\ 1 <= e < 2 ^ 24)).
Proof. split; [apply BuildTeeAvailabilityCheckConfig_Ok|apply parseRelayCutover_Ok]. Qed.
End ConfigProperties.
