(* ===== verification/Instruction.v ===== *)
(** * Instruction identifiers and events

    [pmwpaymentstatus/instruction] and [pmwfeeproof/instruction]: the keccak of
    the ABI-packed instruction inputs, and the decoding of a
    [TeeInstructionsSent] event with its op fields bound to the request. *)

From stdpp Require Import base list strings.
From Stdlib Require Import ZArith Lia.
From S2P Require Import Prelude Errors GoStrings Eth.

#[local] Open Scope Z_scope.

Section Instruction.
Context `{EthLib}.

Definition GenerateInstructionID (opType sourceID : Hash) (accountAddress : string) (paymentId : Z) : res error Hash :=
  PAY ← map_err (fun e => Errorf "cannot convert PAY to Bytes32: %w" [e]) (StringToCommonHash (op_string Pay));
  packed ← map_err (fun e => Errorf "cannot pack ABI arguments: %w" [e])
    (abi_Pack [VBytes32 opType; VBytes32 PAY; VBytes32 sourceID; VString accountAddress;
               VUint64 paymentId; VUint64 0]);
  Ok (Keccak256Hash packed).

(** [var GeneratePayInstructionID = paymentinstruction.GenerateInstructionID] *)
Definition GeneratePayInstructionID := GenerateInstructionID.

Definition GenerateReissueInstructionID (opType sourceID : Hash) (accountAddress : string)
    (paymentId reissueNumber : Z) : res error Hash :=
  reissue ← map_err (fun e => Errorf "cannot convert REISSUE to Bytes32: %w" [e])
    (StringToCommonHash (op_string ReissueCmd));
  packed ← map_err (fun e => Errorf "cannot pack ABI arguments: %w" [e])
    (abi_Pack [VBytes32 opType; VBytes32 reissue; VBytes32 sourceID; VString accountAddress;
               VUint64 paymentId; VUint64 reissueNumber]);
  Ok (Keccak256Hash packed).

Definition EventNameTeeInstructionsSent : string := "TeeInstructionsSent".

Definition TeeInstructionsSentEventSignature (abiDef : ABI) : res error string :=
  match abi_Events abiDef EventNameTeeInstructionsSent with
  | None => Err (Errorf "ABI does not contain event %s" [])
  | Some id => Ok (Hash_Hex id)
  end.

Definition maxEventDataSize : Z := Z.shiftl 1 20.

Definition abiDecodeEventData (abiObj : ABI) (eventName : string) (data : bytes) : res error TeeInstructionsSent :=
  map_err (fun e => Errorf "ABI unpack into %T failed for event %q: %w" [e])
    (UnpackIntoInterface abiObj eventName data).

Definition decodeInstructionEnvelope (log : ChainLog) (teeABI : ABI) (command : Command)
    (expectedOpType : Hash) : res error bytes :=
  if maxEventDataSize <? len (Data log) then
    Err (Errorf "event data too large (%d bytes, max %d): %w" [ESentinel ErrDataSource])
  else
  eventData ← map_err (fun e => Errorf "cannot decode event %s: %w (%w)" [ESentinel ErrDataSource; e])
    (abiDecodeEventData teeABI EventNameTeeInstructionsSent (Data log));
  if negb (ev_OpType eventData =? expectedOpType) then
    Err (Errorf "DB inconsistency: event OpType %s != expected %s: %w" [ESentinel ErrDatabase])
  else
  expectedOpCommand ← map_err (fun e => Errorf "cannot convert command %q to hash: %w" [e])
    (StringToCommonHash (op_string command));
  if negb (ev_OpCommand eventData =? expectedOpCommand) then
    Err (Errorf "DB inconsistency: event OpCommand %s != expected %s (%s): %w" [ESentinel ErrDatabase])
  else Ok (ev_Message eventData).

Definition DecodeTeeInstructionsSentEventData (log : ChainLog) (teeABI : ABI) (command : Command)
    (expectedOpType : Hash) : res error PaymentInstructionMessage :=
  messageData ← decodeInstructionEnvelope log teeABI command expectedOpType;
  map_err (fun e => Errorf "cannot decode %s message arguments: %w (%w)" [ESentinel ErrDataSource; e])
    (DecodeTo command messageData).

(** ** Lemmas *)

(** The generators hash one packed list; [cmd] and the reissue number are what
    tells a payment from its reissues. *)
Definition packed_as (cmd : Command) (o s : Hash) (a : string) (p n : Z) (b : bytes) : Prop :=
  exists c, StringToCommonHash (op_string cmd) = Ok c /\
    abi_Pack [VBytes32 o; VBytes32 c; VBytes32 s; VString a; VUint64 p; VUint64 n] = Ok b.

Lemma GenerateInstructionID_Ok o s a p id :
  GenerateInstructionID o s a p = Ok id <->
  exists b, packed_as Pay o s a p 0 b /\ id = Keccak256Hash b.
Proof.
  unfold GenerateInstructionID, packed_as. autorewrite with verifier_rw.
  setoid_rewrite map_err_Ok. setoid_rewrite res_bind_Ok. setoid_rewrite map_err_Ok. naive_solver.
Qed.

Lemma GenerateReissueInstructionID_Ok o s a p n id :
  GenerateReissueInstructionID o s a p n = Ok id <->
  exists b, packed_as ReissueCmd o s a p n b /\ id = Keccak256Hash b.
Proof.
  unfold GenerateReissueInstructionID, packed_as. autorewrite with verifier_rw.
  setoid_rewrite map_err_Ok. setoid_rewrite res_bind_Ok. setoid_rewrite map_err_Ok. naive_solver.
Qed.

Lemma packed_as_inj `{!EthLaws} cmd cmd' o s a p n o' s' a' p' n' b :
  is_u64 p -> is_u64 n -> is_u64 p' -> is_u64 n' ->
  packed_as cmd o s a p n b -> packed_as cmd' o' s' a' p' n' b ->
  cmd = cmd' /\ o = o' /\ s = s' /\ a = a' /\ p = p' /\ n = n'.
Proof.
  intros ???? (c & Hc & Hb) (c' & Hc' & Hb').
  destruct (abi_Pack_inj o c s a p n o' c' s' a' p' n' b) as (-> & -> & -> & -> & -> & ->); [done..|].
  split; [|done]. destruct cmd, cmd'; try done; exfalso;
    eauto using op_hash_distinct.
Qed.

(** A decoded message comes from an event whose op fields are the expected
    ones, out of at most one megabyte of data. *)
Lemma DecodeTeeInstructionsSentEventData_Ok log abi cmd op msg :
  DecodeTeeInstructionsSentEventData log abi cmd op = Ok msg ->
  len (Data log) <= maxEventDataSize /\
  exists ev, UnpackIntoInterface abi EventNameTeeInstructionsSent (Data log) = Ok ev /\
    ev_OpType ev = op /\ StringToCommonHash (op_string cmd) = Ok (ev_OpCommand ev) /\
    DecodeTo cmd (ev_Message ev) = Ok msg.
Proof.
  unfold DecodeTeeInstructionsSentEventData, decodeInstructionEnvelope, abiDecodeEventData.
  intros Hd. res_inv.
  repeat match goal with H : map_err _ _ = Ok _ |- _ => apply map_err_Ok in H end.
  repeat match goal with H : negb _ = false |- _ => apply negb_false_iff, Z.eqb_eq in H end.
  split; [by apply Z.ltb_ge|]. naive_solver.
Qed.

End Instruction.

Section InstructionErrors.
Context `{EthLib} `{!EthErrors}.

Lemma GenerateInstructionID_raises l o s a p : res_raises l (GenerateInstructionID o s a p).
Proof. pose proof err_StringToCommonHash. pose proof err_Pack. unfold GenerateInstructionID. solve_raises. Qed.

Lemma GenerateReissueInstructionID_raises l o s a p n : res_raises l (GenerateReissueInstructionID o s a p n).
Proof. pose proof err_StringToCommonHash. pose proof err_Pack. unfold GenerateReissueInstructionID. solve_raises. Qed.

Lemma TeeInstructionsSentEventSignature_raises l abi : res_raises l (TeeInstructionsSentEventSignature abi).
Proof. unfold TeeInstructionsSentEventSignature. solve_raises. Qed.

Lemma DecodeTeeInstructionsSentEventData_raises log abi c o :
  res_raises [SDB ErrDatabase; SDB ErrDataSource] (DecodeTeeInstructionsSentEventData log abi c o).
Proof.
  pose proof err_StringToCommonHash. pose proof err_Unpack. pose proof err_DecodeTo.
  unfold DecodeTeeInstructionsSentEventData, decodeInstructionEnvelope, abiDecodeEventData. solve_raises.
Qed.
End InstructionErrors.
#[export] Hint Resolve GenerateInstructionID_raises GenerateReissueInstructionID_raises
  TeeInstructionsSentEventSignature_raises DecodeTeeInstructionsSentEventData_raises : raise_db.

(** ** Properties *)
Section InstructionProperties.
Context `{EthLib} `{!EthLaws}.

(** The id the program computes for an instruction: a payment has no reissue number. *)
Definition instruction_id (cmd : Command) (o s : Hash) (a : string) (p n : Z) (id : Hash) : Prop :=
  match cmd with
  | Pay => n = 0 /\ GenerateInstructionID o s a p = Ok id
  | ReissueCmd => GenerateReissueInstructionID o s a p n = Ok id
  end.

(** C32. An instruction id commits to the whole instruction: the ids of any two instructions, payments or reissues, are
    the hashes of their packed inputs, and these are the same bytes only for the same command, type, source, account,
    payment and reissue number.  So unless keccak collides no payment has the id of a reissue, and no two reissues of a
    payment have one id. *)
Theorem instruction_id_commits cmd o s a p n cmd' o' s' a' p' n' id id' :
  is_u64 p -> is_u64 n -> is_u64 p' -> is_u64 n' ->
  instruction_id cmd o s a p n id -> instruction_id cmd' o' s' a' p' n' id' ->
  exists b b', packed_as cmd o s a p n b /\ id = Keccak256Hash b /\
    packed_as cmd' o' s' a' p' n' b' /\ id' = Keccak256Hash b' /\
    (b = b' <-> cmd = cmd' /\ o = o' /\ s = s' /\ a = a' /\ p = p' /\ n = n').
Proof.
  intros Hp Hn Hp' Hn'.
  assert (forall c o s a p n id, instruction_id c o s a p n id -> exists b, packed_as c o s a p n b /\ id = Keccak256Hash b) as Hid.
  { intros [] ?????? Hi; [destruct Hi as [-> Hi]; by apply GenerateInstructionID_Ok|by apply GenerateReissueInstructionID_Ok]. }
  intros (b & Hb & ->)%Hid (b' & Hb' & ->)%Hid. exists b, b'. do 4 (split; [done|]). split.
  - intros <-. by eapply packed_as_inj.
  - intros (<- & <- & <- & <- & <- & <-). destruct Hb as (c & Hc & Hb), Hb' as (c' & Hc' & Hb'). congruence.
Qed.
End InstructionProperties.
