(* ===== verification/PaymentDB.v ===== *)
(** * pmwpaymentstatus/db: the payment repository and the consistency checks

    [repo.go] and [db_transaction.go].  [DBRepo] keeps the canonical emitter's
    address in the indexer's format; the two gorm handles are the [IndexerDB]
    instance. *)

From stdpp Require Import base list strings gmap.
From Stdlib Require Import ZArith Lia.
From S2P Require Import Prelude Errors GoStrings Eth.

#[local] Open Scope Z_scope.

Definition removeHexPrefix (s : string) : string := TrimPrefix (TrimPrefix s "0x") "0X".

Definition CheckRowConsistency (jsonHash jsonAccount : string) (jsonSequence : Z) (tx : DBTransaction)
    : res error unit :=
  if negb (EqualFold jsonHash (tx_Hash tx)) then
    Err (Errorf "DB inconsistency: JSON hash %q != column Hash %q: %w" [ESentinel ErrDatabase])
  else if negb (String.eqb jsonAccount (tx_SourceAddress tx)) then
    Err (Errorf "DB inconsistency: JSON Account %q != column SourceAddress %q: %w" [ESentinel ErrDatabase])
  else if negb (jsonSequence =? tx_Sequence tx) then
    Err (Errorf "DB inconsistency: JSON Sequence %d != column Sequence %d: %w" [ESentinel ErrDatabase])
  else Ok tt.

Definition CheckInstructionConsistency (msg : PaymentInstructionMessage) (sourceID : Hash)
    (senderAddress : string) (paymentId : Z) : res error unit :=
  if negb (pm_SourceId msg =? sourceID) then
    Err (Errorf "DB inconsistency: event SourceId %s != expected %s: %w" [ESentinel ErrDatabase])
  else if negb (String.eqb (pm_SenderAddress msg) senderAddress) then
    Err (Errorf "DB inconsistency: event SenderAddress %q != expected %q: %w" [ESentinel ErrDatabase])
  else if negb (pm_PaymentId msg =? paymentId) then
    Err (Errorf "DB inconsistency: event PaymentId %d != expected %d: %w" [ESentinel ErrDatabase])
  else Ok tt.

Record ChainQuery := { cq_SourceAddress : string; cq_Nonce : Z }.

Record DBRepo := { contractAddress : string }.

Section PaymentDB.
Context `{EthLib} {Ctx : Type} `{!IndexerDB Ctx}.

Definition normalizeAddress (addr : Address) : string := removeHexPrefix (ToLower (Address_Hex addr)).

Definition NewDBRepo (addr : Address) : DBRepo := {| contractAddress := normalizeAddress addr |}.

Definition FetchInstructionLog (r : DBRepo) (ctx : Ctx) (eventHash : string) (instructionID : Hash)
    : res error ChainLog :=
  dbLogs ← map_err (fun err => Errorf "cannot fetch log for instruction %s, eventHash %s: %w: %w"
                      [ESentinel ErrDatabase; err])
    (find_logs ctx {| q_address := contractAddress r; q_topic0 := removeHexPrefix eventHash;
                      q_topic1 := removeHexPrefix (Hash_Hex 0);
                      q_topic2 := [removeHexPrefix (Hash_Hex instructionID)];
                      q_order := "block_number ASC, log_index ASC"; q_limit := Some 2%nat |});
  match dbLogs with
  | [] => Err (Errorf "cannot fetch log for instruction %s, eventHash %s: %w" [ESentinel ErrRecordNotFound])
  | [dbLog] => ConvertDatabaseLogToChainLog dbLog
  | _ :: _ :: _ => Err (Errorf "duplicate logs for instruction %s, eventHash %s: %w" [ESentinel ErrDatabase])
  end.

Definition FetchTransactionBySourceAndSequence (ctx : Ctx) (query : ChainQuery) : res error DBTransaction :=
  txs ← map_err (fun err => Errorf "cannot fetch transaction for source %s, nonce %d: %w: %w"
                   [ESentinel ErrDatabase; err])
    (find_txs ctx {| tq_source := cq_SourceAddress query; tq_sequences := [cq_Nonce query];
                     tq_order := "hash ASC"; tq_limit := Some 2%nat |});
  match txs with
  | [] => Err (Errorf "cannot fetch transaction for source %s, nonce %d: %w" [ESentinel ErrRecordNotFound])
  | [tx] => Ok tx
  | _ :: _ :: _ => Err (Errorf "duplicate transactions for source %s, nonce %d: %w" [ESentinel ErrDatabase])
  end.

(** ** Lemmas *)
Lemma FetchTransactionBySourceAndSequence_Ok `{!IndexerLaws Ctx} ctx src seq tx :
  FetchTransactionBySourceAndSequence ctx {| cq_SourceAddress := src; cq_Nonce := seq |} = Ok tx ->
  tx_SourceAddress tx = src /\ tx_Sequence tx = seq.
Proof.
  unfold FetchTransactionBySourceAndSequence. intros Hf.
  apply res_bind_Ok in Hf as ([|tx' [|]] & Hq & Ht); simplify_eq.
  apply map_err_Ok in Hq.
  destruct (find_txs_where _ _ _ tx Hq ltac:(apply list_elem_of_here)) as [? ?%list_elem_of_singleton].
  done.
Qed.

End PaymentDB.

(** A row passes the check when the JSON and the columns name one transaction. *)
Lemma CheckRowConsistency_Ok h a s tx :
  CheckRowConsistency h a s tx = Ok tt <->
  EqualFold h (tx_Hash tx) = true /\ a = tx_SourceAddress tx /\ s = tx_Sequence tx.
Proof.
  unfold CheckRowConsistency. destruct (EqualFold _ _); cbn; [|naive_solver].
  destruct (String.eqb_spec a (tx_SourceAddress tx)); cbn; [|naive_solver].
  destruct (Z.eqb_spec s (tx_Sequence tx)); cbn; naive_solver.
Qed.

Lemma CheckInstructionConsistency_Ok msg src a p :
  CheckInstructionConsistency msg src a p = Ok tt <->
  pm_SourceId msg = src /\ pm_SenderAddress msg = a /\ pm_PaymentId msg = p.
Proof.
  unfold CheckInstructionConsistency. destruct (Z.eqb_spec (pm_SourceId msg) src); cbn; [|naive_solver].
  destruct (String.eqb_spec (pm_SenderAddress msg) a); cbn; [|naive_solver].
  destruct (Z.eqb_spec (pm_PaymentId msg) p); cbn; naive_solver.
Qed.

#[export] Hint Rewrite CheckRowConsistency_Ok CheckInstructionConsistency_Ok : verifier_rw.

(** ** Errors *)
Section PaymentDBErrors.
Context `{EthLib} `{!EthErrors} {Ctx : Type} `{!IndexerDB Ctx} `{!IndexerErrors Ctx}.

Lemma FetchInstructionLog_raises r ctx sig id :
  res_raises [SDB ErrDatabase; SDB ErrRecordNotFound] (FetchInstructionLog r ctx sig id).
Proof. pose proof err_find_logs. pose proof err_Convert. unfold FetchInstructionLog. solve_raises. Qed.

Lemma FetchTransactionBySourceAndSequence_raises ctx q :
  res_raises [SDB ErrDatabase; SDB ErrRecordNotFound] (FetchTransactionBySourceAndSequence ctx q).
Proof. pose proof err_find_txs. unfold FetchTransactionBySourceAndSequence. solve_raises. Qed.
End PaymentDBErrors.

Lemma CheckRowConsistency_raises h a s tx : res_raises [SDB ErrDatabase] (CheckRowConsistency h a s tx).
Proof. unfold CheckRowConsistency. solve_raises. Qed.
Lemma CheckInstructionConsistency_raises m s a p : res_raises [SDB ErrDatabase] (CheckInstructionConsistency m s a p).
Proof. unfold CheckInstructionConsistency. solve_raises. Qed.
#[export] Hint Resolve FetchInstructionLog_raises FetchTransactionBySourceAndSequence_raises
  CheckRowConsistency_raises CheckInstructionConsistency_raises : raise_db.
