(* ===== verification/FeeProofDB.v ===== *)
(** * pmwfeeproof/db: the batch repository

    [pmwfeeproof/db/repo.go].  The Go maps keyed by instruction id and by
    sequence are finite maps. *)

From stdpp Require Import base list strings gmap.
From Stdlib Require Import ZArith Lia.
From S2P Require Import Prelude Errors GoStrings Eth PaymentDB.

#[local] Open Scope Z_scope.

(** [InstructionLogResult]. *)
Record InstructionLogResult := { ilr_Log : ChainLog; ilr_BlockTimestamp : Z }.

Section FeeProofDB.
Context `{EthLib} {Ctx : Type} `{!IndexerDB Ctx}.

(** The loop of [FetchInstructionLogs] over the rows, from the map built so far. *)
Fixpoint collect_logs (dbLogs : list DBLog) (result : gmap Z ChainLog) : res error (gmap Z ChainLog) :=
  match dbLogs with
  | [] => Ok result
  | dbLog :: rest =>
      chainLog ← map_err (fun err => Errorf "cannot convert log: %w" [err])
        (ConvertDatabaseLogToChainLog dbLog);
      match Topics chainLog !! 2%nat with
      | None => collect_logs rest result
      | Some key =>
          match result !! key with
          | Some _ => Err (Errorf "duplicate logs for instruction %s, eventHash %s: %w" [ESentinel ErrDatabase])
          | None => collect_logs rest (<[key := chainLog]> result)
          end
      end
  end.

Definition FetchInstructionLogs (r : DBRepo) (ctx : Ctx) (eventHash : string) (instructionIDs : list Hash)
    : res error (gmap Z ChainLog) :=
  match instructionIDs with
  | [] => Ok ∅
  | _ =>
      let topic2Values := (fun id => removeHexPrefix (Hash_Hex id)) <$> instructionIDs in
      dbLogs ← map_err (fun err => Errorf "cannot fetch instruction logs, eventHash %s: %w: %w"
                          [ESentinel ErrDatabase; err])
        (find_logs ctx {| q_address := contractAddress r; q_topic0 := removeHexPrefix eventHash;
                          q_topic1 := removeHexPrefix (Hash_Hex 0); q_topic2 := topic2Values;
                          q_order := "block_number ASC, log_index ASC"; q_limit := None |});
      collect_logs dbLogs ∅
  end.

Definition FetchInstructionLog (r : DBRepo) (ctx : Ctx) (eventHash : string) (instructionID : Hash)
    : res error InstructionLogResult :=
  dbLogs ← map_err (fun err => Errorf "cannot fetch log for instruction %s, eventHash %s: %w: %w"
                      [ESentinel ErrDatabase; err])
    (find_logs ctx {| q_address := contractAddress r; q_topic0 := removeHexPrefix eventHash;
                      q_topic1 := removeHexPrefix (Hash_Hex 0);
                      q_topic2 := [removeHexPrefix (Hash_Hex instructionID)];
                      q_order := "block_number ASC, log_index ASC"; q_limit := Some 2%nat |});
  match dbLogs with
  | [] => Err (Errorf "cannot fetch log for instruction %s, eventHash %s: %w" [ESentinel ErrRecordNotFound])
  | [dbLog] =>
      chainLog ← ConvertDatabaseLogToChainLog dbLog;
      Ok {| ilr_Log := chainLog; ilr_BlockTimestamp := lg_Timestamp dbLog |}
  | _ :: _ :: _ => Err (Errorf "duplicate logs for instruction %s, eventHash %s: %w" [ESentinel ErrDatabase])
  end.

(** The loop of [FetchTransactionsBySourceAndSequences]. *)
Fixpoint collect_txs (txs : list DBTransaction) (result : gmap Z DBTransaction)
    : res error (gmap Z DBTransaction) :=
  match txs with
  | [] => Ok result
  | tx :: rest =>
      match result !! tx_Sequence tx with
      | Some _ => Err (Errorf "duplicate transactions for source %s, sequence %d: %w" [ESentinel ErrDatabase])
      | None => collect_txs rest (<[tx_Sequence tx := tx]> result)
      end
  end.

Definition FetchTransactionsBySourceAndSequences (ctx : Ctx) (sourceAddress : string) (nonces : list Z)
    : res error (gmap Z DBTransaction) :=
  match nonces with
  | [] => Ok ∅
  | _ =>
      txs ← map_err (fun err => Errorf "cannot fetch transactions for source %s: %w: %w"
                       [ESentinel ErrDatabase; err])
        (find_txs ctx {| tq_source := sourceAddress; tq_sequences := nonces; tq_order := ""; tq_limit := None |});
      collect_txs txs ∅
  end.

(** ** Lemmas *)

(** The map holds exactly the rows, each under its own sequence, and there are
    no two rows with one sequence. *)
Lemma collect_txs_Ok txs m m' :
  collect_txs txs m = Ok m' ->
  (forall s tx, m' !! s = Some tx <-> m !! s = Some tx \/ tx ∈ txs /\ tx_Sequence tx = s) /\
  NoDup (tx_Sequence <$> txs) /\ (forall tx, tx ∈ txs -> m !! tx_Sequence tx = None).
Proof.
  revert m. induction txs as [|tx txs IH]; cbn; intros m Hc.
  - simplify_eq. split; [|split; [constructor|intros ? []%not_elem_of_nil]].
    intros s tx. split; [auto|]. intros [?|[[]%not_elem_of_nil _]]; done.
  - destruct (m !! tx_Sequence tx) eqn:Hm; [done|].
    apply IH in Hc as (Hmap & Hnd & Hfresh). split; [|split].
    + intros s tx'. rewrite Hmap, elem_of_cons, lookup_insert.
      case_decide as Hs; [|naive_solver]. subst s.
      split; [naive_solver|]. intros [?|[[->|Hin] Heq]]; [congruence|auto|].
      specialize (Hfresh tx' Hin). rewrite Heq, lookup_insert_eq in Hfresh. done.
    + cbn. constructor; [|done]. intros Hin. apply list_elem_of_fmap in Hin as (tx' & Heq & Hin).
      specialize (Hfresh tx' Hin). rewrite <- Heq, lookup_insert_eq in Hfresh. done.
    + intros tx' [->|Hin]%elem_of_cons; [done|].
      specialize (Hfresh tx' Hin). rewrite lookup_insert in Hfresh. by case_decide.
Qed.

Lemma FetchTransactions_Ok `{!IndexerLaws Ctx} ctx src seqs m s tx :
  FetchTransactionsBySourceAndSequences ctx src seqs = Ok m -> m !! s = Some tx ->
  tx_Sequence tx = s /\ tx_SourceAddress tx = src /\ s ∈ seqs.
Proof.
  unfold FetchTransactionsBySourceAndSequences. destruct seqs as [|n ns]; [intros [= <-]; done|].
  intros (txs & Hq%map_err_Ok & Hc)%res_bind_Ok Hs.
  apply collect_txs_Ok in Hc as (Hmap & _ & _). apply Hmap in Hs as [?|[Hin Hseq]]; [done|].
  destruct (find_txs_where _ _ _ tx Hq Hin) as [? Hmem]. subst s. done.
Qed.

(** The map of pay events: each log found, under its own third topic, and no
    topic twice. *)
Lemma collect_logs_Ok rows m m' :
  collect_logs rows m = Ok m' ->
  forall id log, m' !! id = Some log <->
    m !! id = Some log \/
    exists row, row ∈ rows /\ ConvertDatabaseLogToChainLog row = Ok log /\ Topics log !! 2%nat = Some id.
Proof.
  revert m. induction rows as [|row rows IH]; intros m Hc id log; cbn [collect_logs] in Hc.
  - injection Hc as <-. split; [auto|]. intros [?|(? & []%not_elem_of_nil & _)]; done.
  - apply res_bind_Ok in Hc as (l & Hl%map_err_Ok & Hc).
    setoid_rewrite elem_of_cons. destruct (Topics l !! 2%nat) as [key|] eqn:Ht.
    + destruct (m !! key) eqn:Hm; [done|]. rewrite (IH _ Hc), lookup_insert.
      case_decide as Hk; [subst key|]; (split; [intros [He|(row' & ? & ?)]; [simplify_eq; eauto 10|eauto 10]|]);
        intros [?|(row' & [->|Hin] & Hconv & Htop)]; try congruence; try (left; congruence); eauto.
    + rewrite (IH _ Hc). split; [intros [?|(row' & ? & ?)]; eauto 10|].
      intros [?|(row' & [->|Hin] & Hconv & Htop)]; [by left|congruence|eauto].
Qed.

Lemma FetchInstructionLogs_Ok r ctx sig ids m id log :
  FetchInstructionLogs r ctx sig ids = Ok m -> m !! id = Some log ->
  exists q rows row, q_address q = contractAddress r /\ q_topic0 q = removeHexPrefix sig /\
    q_topic2 q = ((fun i => removeHexPrefix (Hash_Hex i)) <$> ids) /\
    find_logs ctx q = Ok rows /\ row ∈ rows /\
    ConvertDatabaseLogToChainLog row = Ok log /\ Topics log !! 2%nat = Some id.
Proof.
  unfold FetchInstructionLogs. destruct ids as [|i ids]; [intros [= <-]; done|].
  intros (rows & Hq%map_err_Ok & Hc)%res_bind_Ok Hm.
  apply (collect_logs_Ok _ _ _ Hc) in Hm as [?|(row & ? & ? & ?)]; [done|].
  eexists _, rows, row. split_and!; [..|exact Hq|done|done|done]; done.
Qed.

End FeeProofDB.

(** ** Errors *)
Section FeeProofDBErrors.
Context `{EthLib} `{!EthErrors} {Ctx : Type} `{!IndexerDB Ctx} `{!IndexerErrors Ctx}.

Lemma collect_logs_raises rows m : res_raises [SDB ErrDatabase] (collect_logs rows m).
Proof.
  pose proof err_Convert. revert m. induction rows; intros m; cbn [collect_logs]; solve_raises; auto.
Qed.

Lemma FetchInstructionLogs_raises r ctx sig ids : res_raises [SDB ErrDatabase] (FetchInstructionLogs r ctx sig ids).
Proof. pose proof err_find_logs. pose proof collect_logs_raises. unfold FetchInstructionLogs. solve_raises. Qed.

Lemma FeeFetchInstructionLog_raises r ctx sig id :
  res_raises [SDB ErrDatabase; SDB ErrRecordNotFound] (FetchInstructionLog r ctx sig id).
Proof. pose proof err_find_logs. pose proof err_Convert. unfold FetchInstructionLog. solve_raises. Qed.

Lemma collect_txs_raises txs m : res_raises [SDB ErrDatabase] (collect_txs txs m).
Proof. revert m. induction txs; intros m; cbn [collect_txs]; solve_raises; auto. Qed.

Lemma FetchTransactions_raises ctx src seqs :
  res_raises [SDB ErrDatabase] (FetchTransactionsBySourceAndSequences ctx src seqs).
Proof.
  pose proof err_find_txs. pose proof collect_txs_raises. unfold FetchTransactionsBySourceAndSequences. solve_raises.
Qed.
End FeeProofDBErrors.
#[export] Hint Resolve FetchInstructionLogs_raises FeeFetchInstructionLog_raises FetchTransactions_raises : raise_db.
