(* ===== verification/NonceCache.v ===== *)
(** * pmwnonce: the bounded cache of initial nonces

    The [ll] and [cache] of [pmwnonce/binder.go], kept the way the code keeps
    them: a doubly linked list of elements ([container/list], front is the most
    recently used) and a map from keys to elements of that list.  Elements are
    pointers; [heap] holds the [cacheEntry] each points to, so the map and the
    list share them.  [lru_get] and [lru_put] are the abstract
    least-recently-used cache the pair of structures implements. *)

From stdpp Require Import base list strings gmap.
From Stdlib Require Import ZArith Lia.
From S2P Require Import Prelude.

#[local] Open Scope Z_scope.

Definition maxInitialNonceCacheEntries : Z := 100_000.

Record cacheEntry := { ce_key : string; ce_nonce : Z }.

(** [Binder]: the list, the map, and the store of elements. *)
Record Binder := {
  ll : list nat;
  cache : gmap string nat;
  heap : gmap nat cacheEntry;
  next : nat
}.

(** [NewBinder]. *)
Definition NewBinder : Binder := {| ll := []; cache := ∅; heap := ∅; next := 0 |}.

(** ** container/list *)
Definition MoveToFront (el : nat) (l : list nat) : list nat :=
  if bool_decide (el ∈ l) then el :: filter (fun x => x <> el) l else l.
Definition Remove (el : nat) (l : list nat) : list nat := filter (fun x => x <> el) l.
Definition Back (l : list nat) : option nat := last l.

(** [mustCacheEntry]: the entry an element points to. *)
Definition mustCacheEntry (b : Binder) (el : nat) : option cacheEntry := heap b !! el.

(** ** The cache *)
Definition cachedNonce (key : string) (b : Binder) : option Z * Binder :=
  match cache b !! key with
  | None => (None, b)
  | Some el =>
      (ce_nonce <$> mustCacheEntry b el,
       {| ll := MoveToFront el (ll b); cache := cache b; heap := heap b; next := next b |})
  end.

Definition storeNonce (key : string) (nonce : Z) (b : Binder) : Binder :=
  match cache b !! key with
  | Some el =>
      {| ll := MoveToFront el (ll b); cache := cache b;
         heap := alter (fun e => {| ce_key := ce_key e; ce_nonce := nonce |}) el (heap b);
         next := next b |}
  | None =>
      let el := next b in
      let b1 := {| ll := el :: ll b; cache := <[key := el]> (cache b);
                   heap := <[el := {| ce_key := key; ce_nonce := nonce |}]> (heap b);
                   next := S (next b) |} in
      if maxInitialNonceCacheEntries <? Z.of_nat (length (ll b1)) then
        match Back (ll b1) with
        | None => b1
        | Some oldest =>
            {| ll := Remove oldest (ll b1);
               cache := match mustCacheEntry b1 oldest with
                        | Some e => delete (ce_key e) (cache b1)
                        | None => cache b1
                        end;
               heap := heap b1; next := next b1 |}
        end
      else b1
  end.

(** ** The abstract cache: an association list, most recently used first *)
Abbreviation lru := (list (string * Z)) (only parsing).

Fixpoint lru_lookup (k : string) (l : lru) : option Z :=
  match l with
  | [] => None
  | (k', n) :: l' => if decide (k' = k) then Some n else lru_lookup k l'
  end.

Definition lru_drop (k : string) (l : lru) : lru := filter (fun kv => kv.1 <> k) l.

Definition lru_get (k : string) (l : lru) : option Z * lru :=
  match lru_lookup k l with
  | None => (None, l)
  | Some n => (Some n, (k, n) :: lru_drop k l)
  end.

Definition lru_put (k : string) (n : Z) (l : lru) : lru :=
  take (Z.to_nat maxInitialNonceCacheEntries) ((k, n) :: lru_drop k l).

Definition entry_view (h : gmap nat cacheEntry) (p : nat) : option (string * Z) :=
  (fun e => (ce_key e, ce_nonce e)) <$> h !! p.

Definition abs (b : Binder) : lru := omap (entry_view (heap b)) (ll b).

(** The list and the map describe the same set of live elements, and the
    capacity is respected. *)
Record binder_wf (b : Binder) : Prop := {
  wf_nodup : NoDup (ll b);
  wf_list : forall p, p ∈ ll b -> exists e, heap b !! p = Some e /\ cache b !! ce_key e = Some p;
  wf_map : forall k p, cache b !! k = Some p -> p ∈ ll b /\ exists e, heap b !! p = Some e /\ ce_key e = k;
  wf_cap : Z.of_nat (length (ll b)) <= maxInitialNonceCacheEntries;
  wf_fresh : forall p, is_Some (heap b !! p) -> (p < next b)%nat
}.

(** ** Lemmas on the linked list *)
Lemma MoveToFront_perm el l : NoDup l -> el ∈ l -> MoveToFront el l ≡ₚ l.
Proof.
  intros Hnd Hin. unfold MoveToFront. rewrite bool_decide_true by done.
  induction Hnd as [|x l Hx Hnd IH]; [by apply not_elem_of_nil in Hin|].
  rewrite filter_cons. apply elem_of_cons in Hin as [->|Hin].
  - rewrite decide_False by auto. f_equiv.
    rewrite filter_all; [done|]. intros y Hy ->. done.
  - rewrite decide_True by (intros ->; done).
    rewrite Permutation_swap. by f_equiv; apply IH.
Qed.

Lemma remove_last (l : list nat) x : NoDup l -> last l = Some x -> filter (fun y => y <> x) l = take (length l - 1) l.
Proof.
  intros Hnd Hl. apply last_Some in Hl as [l' ->].
  apply NoDup_app in Hnd as (_ & Hdisj & _).
  rewrite filter_app, filter_cons, decide_False by auto. rewrite filter_nil, app_nil_r.
  rewrite length_app. cbn [length]. replace (length l' + 1 - 1)%nat with (length l') by lia.
  rewrite take_app_length. apply filter_all. intros y Hy ->.
  apply (Hdisj x); [done|apply list_elem_of_here].
Qed.

Lemma omap_view_cons h p e l :
  h !! p = Some e -> omap (entry_view h) (p :: l) = (ce_key e, ce_nonce e) :: omap (entry_view h) l.
Proof. intros He. cbn. unfold entry_view at 1. by rewrite He. Qed.

Lemma omap_filter_view h el k (l : list nat) :
  (forall p, p ∈ l -> exists e, h !! p = Some e /\ (p = el <-> ce_key e = k)) ->
  omap (entry_view h) (filter (fun x => x <> el) l) = lru_drop k (omap (entry_view h) l).
Proof.
  unfold lru_drop. induction l as [|p l IH]; intros Hl; [done|].
  destruct (Hl p ltac:(apply list_elem_of_here)) as (e & He & Hiff).
  assert (forall q, q ∈ l -> exists e, h !! q = Some e /\ (q = el <-> ce_key e = k)) as Hl'
    by (intros; apply Hl; by apply list_elem_of_further).
  rewrite filter_cons, (omap_view_cons _ _ _ _ He), filter_cons. cbn [fst].
  destruct (decide (p <> el)) as [Hne|Heq].
  - rewrite decide_True by naive_solver. rewrite (omap_view_cons _ _ _ _ He). f_equal. by apply IH.
  - rewrite decide_False by naive_solver. by apply IH.
Qed.

Lemma omap_view_ext h h' (l : list nat) :
  (forall p, p ∈ l -> h !! p = h' !! p) -> omap (entry_view h) l = omap (entry_view h') l.
Proof.
  induction l as [|p l IH]; intros Hl; [done|].
  assert (entry_view h p = entry_view h' p) as Hp
    by (unfold entry_view; by rewrite (Hl p) by apply list_elem_of_here).
  assert (omap (entry_view h) l = omap (entry_view h') l) as Hrest
    by (apply IH; intros; apply Hl; by apply list_elem_of_further).
  by rewrite !omap_cons_eq, Hp, Hrest.
Qed.

Lemma length_abs b : binder_wf b -> length (abs b) = length (ll b).
Proof.
  intros [_ Hl _ _ _]. unfold abs. induction (ll b) as [|p l IH]; [done|].
  destruct (Hl p ltac:(apply list_elem_of_here)) as (e & He & _).
  rewrite (omap_view_cons _ _ _ _ He). cbn [length]. rewrite IH; [done|].
  intros; apply Hl; by apply list_elem_of_further.
Qed.

Lemma wf_same_key b p el e k :
  binder_wf b -> cache b !! k = Some el -> p ∈ ll b -> heap b !! p = Some e ->
  (p = el <-> ce_key e = k).
Proof.
  intros Hwf Hk Hp He. split.
  - intros ->. destruct (wf_map _ Hwf _ _ Hk) as [_ (e' & He' & <-)]. congruence.
  - intros <-. destruct (wf_list _ Hwf _ Hp) as (e' & He' & Hc). congruence.
Qed.

Lemma abs_drop b k el :
  binder_wf b -> cache b !! k = Some el ->
  omap (entry_view (heap b)) (filter (fun x => x <> el) (ll b)) = lru_drop k (abs b).
Proof.
  intros Hwf Hk. apply omap_filter_view. intros p Hp.
  destruct (wf_list _ Hwf _ Hp) as (e & He & _). exists e. split; [done|].
  eapply wf_same_key; eauto.
Qed.

Lemma abs_drop_absent b k :
  binder_wf b -> cache b !! k = None -> lru_drop k (abs b) = abs b.
Proof.
  intros Hwf Hk. unfold lru_drop. apply filter_all. intros [k' n] Hi. cbn. intros ->.
  apply list_elem_of_omap in Hi as (p & Hp & Hv).
  destruct (wf_list _ Hwf _ Hp) as (e & He & Hc).
  unfold entry_view in Hv. rewrite He in Hv. cbn in Hv. congruence.
Qed.

Lemma lru_lookup_abs b k :
  binder_wf b -> lru_lookup k (abs b) = (cache b !! k ≫= fun el => ce_nonce <$> heap b !! el).
Proof.
  intros Hwf. unfold abs.
  assert (forall l : list nat, (forall p, p ∈ l -> p ∈ ll b) ->
    lru_lookup k (omap (entry_view (heap b)) l) =
    match cache b !! k with
    | Some el => if decide (el ∈ l) then ce_nonce <$> heap b !! el else None
    | None => None
    end) as Hgen.
  { induction l as [|p l IH]; intros Hsub; [by destruct (cache b !! k)|].
    assert (p ∈ ll b) as Hp by (apply Hsub, list_elem_of_here).
    destruct (wf_list _ Hwf _ Hp) as (e & He & Hc).
    rewrite (omap_view_cons _ _ _ _ He). cbn [lru_lookup].
    rewrite IH by (intros; apply Hsub; by apply list_elem_of_further).
    destruct (cache b !! k) as [el|] eqn:Hk.
    - pose proof (wf_same_key _ _ _ _ _ Hwf Hk Hp He) as Hiff.
      destruct (decide (ce_key e = k)) as [Hkey|Hkey].
      + apply Hiff in Hkey as ->. rewrite decide_True by apply list_elem_of_here. by rewrite He.
      + destruct (decide (el ∈ l)); [rewrite decide_True by by apply list_elem_of_further|]; [done|].
        rewrite decide_False; [done|]. intros [->|?]%elem_of_cons; [naive_solver|done].
    - rewrite decide_False by congruence. done. }
  rewrite Hgen by done. destruct (cache b !! k) as [el|] eqn:Hk; [|done]. cbn.
  rewrite decide_True; [done|]. by destruct (wf_map _ Hwf _ _ Hk).
Qed.

Lemma binder_wf_perm b l :
  binder_wf b -> l ≡ₚ ll b -> binder_wf {| ll := l; cache := cache b; heap := heap b; next := next b |}.
Proof.
  intros [Hnd Hl Hm Hc Hf] Hp. constructor; cbn.
  - by rewrite Hp.
  - intros p Hin. apply Hl. by rewrite <- Hp.
  - intros k p Hk. rewrite Hp. by apply Hm.
  - by rewrite Hp.
  - done.
Qed.

Lemma binder_wf_alter b el n :
  binder_wf b ->
  binder_wf {| ll := ll b; cache := cache b;
               heap := alter (fun e => {| ce_key := ce_key e; ce_nonce := n |}) el (heap b);
               next := next b |}.
Proof.
  intros [Hnd Hl Hm Hc Hf].
  assert (forall p e, heap b !! p = Some e ->
    exists e', alter (fun e => {| ce_key := ce_key e; ce_nonce := n |}) el (heap b) !! p = Some e' /\
               ce_key e' = ce_key e) as Halt.
  { intros p e He. destruct (decide (el = p)) as [->|].
    - rewrite lookup_alter_eq, He. cbn. eauto.
    - rewrite lookup_alter_ne by done. eauto. }
  constructor; cbn; [done| | |done|].
  - intros p Hp. destruct (Hl p Hp) as (e & He & Hk).
    destruct (Halt _ _ He) as (e' & He' & Hk'). exists e'. by rewrite Hk'.
  - intros k p Hk. destruct (Hm k p Hk) as [Hp (e & He & <-)]. split; [done|].
    destruct (Halt _ _ He) as (e' & He' & Hk'). eauto.
  - intros p. destruct (decide (el = p)) as [->|].
    + rewrite lookup_alter_eq, fmap_is_Some. apply Hf.
    + rewrite lookup_alter_ne by done. apply Hf.
Qed.

Lemma binder_wf_push b k n :
  binder_wf b -> cache b !! k = None ->
  let b1 := {| ll := next b :: ll b; cache := <[k := next b]> (cache b);
               heap := <[next b := {| ce_key := k; ce_nonce := n |}]> (heap b); next := S (next b) |} in
  NoDup (ll b1) /\
  (forall p, p ∈ ll b1 -> exists e, heap b1 !! p = Some e /\ cache b1 !! ce_key e = Some p) /\
  (forall k' p, cache b1 !! k' = Some p -> p ∈ ll b1 /\ exists e, heap b1 !! p = Some e /\ ce_key e = k') /\
  (forall p, is_Some (heap b1 !! p) -> (p < next b1)%nat).
Proof.
  intros [Hnd Hl Hm Hc Hf] Hk b1.
  assert (forall p, p ∈ ll b -> p <> next b) as Hne.
  { intros p Hp ->. destruct (Hl _ Hp) as (e & He & _). specialize (Hf (next b) ltac:(eauto)). lia. }
  subst b1; cbn. split; [|split; [|split]].
  - constructor; [|done]. intros Hin. by apply (Hne _ Hin).
  - intros p [->|Hp]%elem_of_cons.
    + eexists. rewrite lookup_insert_eq. split; [done|]. cbn. by rewrite lookup_insert_eq.
    + destruct (Hl p Hp) as (e & He & Hce). exists e.
      rewrite lookup_insert_ne by (intros <-; by apply (Hne _ Hp)). split; [done|].
      rewrite lookup_insert_ne; [done|]. intros ->. congruence.
  - intros k' p Hkp. destruct (decide (k = k')) as [->|Hkk].
    + rewrite lookup_insert_eq in Hkp. simplify_eq. split; [apply list_elem_of_here|].
      eexists. by rewrite lookup_insert_eq.
    + rewrite lookup_insert_ne in Hkp by done. destruct (Hm _ _ Hkp) as [Hp (e & He & Hke)].
      split; [by apply list_elem_of_further|].
      exists e. rewrite lookup_insert_ne by (intros <-; by apply (Hne _ Hp)). done.
  - intros p. rewrite lookup_insert. case_decide; [subst; intros _; lia|].
    intros Hs. specialize (Hf p Hs). lia.
Qed.

Lemma cachedNonce_wf k b : binder_wf b -> binder_wf (cachedNonce k b).2.
Proof.
  intros Hwf. unfold cachedNonce. destruct (cache b !! k) as [el|] eqn:Hk; cbn; [|done].
  apply binder_wf_perm; [done|]. apply MoveToFront_perm; [apply Hwf|].
  by destruct (wf_map _ Hwf _ _ Hk).
Qed.

(** Reading through the list and the map is reading the abstract cache. *)
Lemma cachedNonce_refines k b :
  binder_wf b ->
  (cachedNonce k b).1 = (lru_get k (abs b)).1 /\ abs (cachedNonce k b).2 = (lru_get k (abs b)).2.
Proof.
  intros Hwf. unfold cachedNonce, lru_get. rewrite lru_lookup_abs by done.
  destruct (cache b !! k) as [el|] eqn:Hk; cbn; [|done].
  destruct (wf_map _ Hwf _ _ Hk) as [Hin (e & He & Hke)].
  unfold mustCacheEntry. rewrite He. cbn. split; [done|].
  unfold abs, MoveToFront. cbn. rewrite bool_decide_true by done.
  rewrite (omap_view_cons _ _ _ _ He). subst k. f_equal. by apply abs_drop.
Qed.

Lemma storeNonce_hit_abs k n b el :
  binder_wf b -> cache b !! k = Some el -> abs (storeNonce k n b) = (k, n) :: lru_drop k (abs b).
Proof.
  intros Hwf Hk. destruct (wf_map _ Hwf _ _ Hk) as [Hin (e & He & Hke)].
  unfold storeNonce, abs, MoveToFront. rewrite Hk. cbn [ll heap]. rewrite bool_decide_true by done.
  rewrite (omap_view_cons _ el {| ce_key := k; ce_nonce := n |}).
  2: { rewrite lookup_alter_eq, He. cbn. by rewrite Hke. }
  cbn. f_equal. fold (abs b). rewrite <- (abs_drop b k el) by done.
  apply omap_view_ext. intros p [Hne _]%list_elem_of_filter. by rewrite lookup_alter_ne by done.
Qed.

Lemma length_lru_drop k l : (length (lru_drop k l) <= length l)%nat.
Proof. apply length_filter. Qed.

Lemma storeNonce_refines k n b :
  binder_wf b -> abs (storeNonce k n b) = lru_put k n (abs b).
Proof.
  intros Hwf. unfold lru_put. pose proof (length_abs b Hwf) as Hlen. pose proof (wf_cap _ Hwf) as Hcap.
  destruct (cache b !! k) as [el|] eqn:Hk.
  - rewrite (storeNonce_hit_abs _ _ _ el) by done. rewrite take_ge; [done|]. cbn [length].
    destruct (wf_map _ Hwf _ _ Hk) as [Hin (e & He & Hke)].
    assert (length (lru_drop k (abs b)) < length (abs b))%nat; [|lia].
    apply (length_filter_lt _ _ (k, ce_nonce e)); [|cbn; auto].
    apply list_elem_of_omap. exists el. split; [done|]. unfold entry_view. rewrite He. cbn. by rewrite Hke.
  - rewrite abs_drop_absent by done. unfold storeNonce. rewrite Hk. cbn [ll heap next].
    destruct (binder_wf_push b k n Hwf Hk) as (Hnd & _ & _ & _). cbn [ll] in Hnd.
    assert (omap (entry_view (<[next b := {| ce_key := k; ce_nonce := n |}]> (heap b))) (next b :: ll b) =
            (k, n) :: abs b) as Habs.
    { rewrite (omap_view_cons _ _ {| ce_key := k; ce_nonce := n |}) by apply lookup_insert_eq. cbn. f_equal.
      apply omap_view_ext. intros p Hp. rewrite lookup_insert_ne; [done|].
      intros <-. by apply NoDup_cons in Hnd as [? _]. }
    destruct (Z.ltb_spec maxInitialNonceCacheEntries (Z.of_nat (length (next b :: ll b)))) as [Hlt|Hge].
    + cbn [length] in Hlt. destruct (Back (next b :: ll b)) as [old|] eqn:Hback.
      2: { by apply last_None in Hback. }
      unfold abs at 1. cbn [ll heap]. unfold Remove. rewrite (remove_last _ _ Hnd Hback).
      replace (length (next b :: ll b) - 1)%nat with (Z.to_nat maxInitialNonceCacheEntries)
        by (cbn [length]; lia).
      rewrite <- Habs. apply omap_take_total. intros p [->|Hp]%elem_of_cons; unfold entry_view;
        [by rewrite lookup_insert_eq|].
      destruct (wf_list _ Hwf _ Hp) as (e & He & _).
      rewrite lookup_insert_ne by (intros <-; by apply NoDup_cons in Hnd as [? _]). by rewrite He.
    + unfold abs at 1. cbn [ll heap]. rewrite Habs, take_ge; [done|]. cbn [length] in *. rewrite Hlen. lia.
Qed.

Lemma storeNonce_wf k n b : binder_wf b -> binder_wf (storeNonce k n b).
Proof.
  intros Hwf. unfold storeNonce. destruct (cache b !! k) as [el|] eqn:Hk.
  - destruct (wf_map _ Hwf _ _ Hk) as [Hin _].
    apply (binder_wf_perm _ (MoveToFront el (ll b)) (binder_wf_alter b el n Hwf)).
    by apply MoveToFront_perm; [apply Hwf|].
  - destruct (binder_wf_push b k n Hwf Hk) as (Hnd & Hl & Hm & Hf).
    pose proof (wf_cap _ Hwf) as Hcap. cbn [ll cache heap next] in *.
    destruct (Z.ltb_spec maxInitialNonceCacheEntries (Z.of_nat (length (next b :: ll b)))) as [Hlt|Hge];
      [|by constructor].
    destruct (Back (next b :: ll b)) as [old|] eqn:Hback; [|by apply last_None in Hback].
    assert (old ∈ next b :: ll b) as Hold by (by apply last_Some_elem_of).
    destruct (Hl old Hold) as (eo & Heo & Hco). unfold mustCacheEntry, Remove. cbn [ll cache heap next].
    rewrite Heo. constructor; cbn [ll cache heap next].
    + by apply NoDup_filter.
    + intros p [Hne Hp]%list_elem_of_filter. destruct (Hl p Hp) as (e & He & Hc). exists e.
      split; [done|]. rewrite lookup_delete_ne; [done|]. intros Heq. rewrite Heq in Hco. congruence.
    + intros k' p Hkp. apply lookup_delete_Some in Hkp as [Hne Hkp].
      destruct (Hm _ _ Hkp) as [Hp (e & He & Hke)]. split; [|eauto].
      apply list_elem_of_filter. split; [|done]. intros ->. congruence.
    + rewrite (remove_last _ _ Hnd Hback), length_take. cbn [length] in *. lia.
    + done.
Qed.

(** ** Properties *)
(** C16. The binder's list-and-map cache is a least-recently-used cache of at most a hundred thousand entries: on every
    well-formed state a read and a store do what they do to an association list in order of use, and keep it well formed. *)
Theorem binder_refines_lru b :
  binder_wf b ->
  (forall k, binder_wf (cachedNonce k b).2 /\ (cachedNonce k b).1 = (lru_get k (abs b)).1 /\
             abs (cachedNonce k b).2 = (lru_get k (abs b)).2) /\
  (forall k n, binder_wf (storeNonce k n b) /\ abs (storeNonce k n b) = lru_put k n (abs b)) /\
  Z.of_nat (length (abs b)) <= maxInitialNonceCacheEntries.
Proof.
  intros Hwf. split; [|split].
  - intros k. split; [by apply cachedNonce_wf|by apply cachedNonce_refines].
  - intros k n. split; [by apply storeNonce_wf|by apply storeNonce_refines].
  - rewrite length_abs by done. apply Hwf.
Qed.
