(* ===== verification/Nonce.v ===== *)
(** * pmwnonce: binding XRP sequences to payment ids

    [VerifySequence] and [initialNonce] of [pmwnonce/binder.go] over the cache of
    NonceCache.v.  A lookup is two critical sections, [cachedNonce] and
    [storeNonce], with the call to the contract between them outside the mutex:
    what other goroutines do to the cache before each of them is an argument
    ([Others]), and the contract of the binder is proved whatever they do. *)

From stdpp Require Import base list strings gmap relations.
From Stdlib Require Import ZArith Lia.
From S2P Require Import Prelude Errors GoStrings Eth NonceCache.

#[local] Open Scope Z_scope.

(** The [SequenceVerifier] interface the verifiers hold. *)
Class SequenceVerifier (Ctx B : Type) :=
  VerifySeq : Ctx -> Hash -> string -> Z -> Z -> SE B error unit.

(** [initialNonceCaller]: the generated TeePayments binding. *)
Class NonceCaller (Ctx : Type) := GetInitialNonce : Ctx -> Hash -> string -> res error Z.

(** What other goroutines do to the cache before a lookup enters its first
    critical section, and between that and the second, while it waits for the
    chain.  The context of a request determines it for each of its lookups. *)
Record interference := { before : Binder -> Binder; between : Binder -> Binder }.
Class Others (Ctx : Type) := others : Ctx -> Hash -> string -> Z -> interference.

Section Binder.
Context `{EthLib} {Ctx : Type} `{!NonceCaller Ctx} `{!Others Ctx}.

Definition nonce_key (sourceID : Hash) (account : string) : string :=
  (Hash_Hex sourceID +:+ "|" +:+ account)%string.

Definition initialNonce (o : interference) (ctx : Ctx) (sourceID : Hash) (account : string) : SE Binder error Z := fun b =>
  let key := nonce_key sourceID account in
  match cachedNonce key (before o b) with
  | (Some v, b1) => (Ok v, b1)
  | (None, b1) =>
      let b2 := between o b1 in
      match GetInitialNonce ctx sourceID account with
      | Err err => (Err (Errorf "cannot read initialNonce for account %s: %v: %w" [ESentinel ErrDatabase]), b2)
      | Ok n => (Ok n, storeNonce key n b2)
      end
  end.

Definition VerifySequence (ctx : Ctx) (sourceID : Hash) (account : string) (paymentId gotSequence : Z)
    : SE Binder error unit :=
  if paymentId =? 0 then lift (Err (Errorf "paymentId must be >= 1: %w" [ESentinel ErrDatabase]))
  else
  initial ← initialNonce (others ctx sourceID account paymentId) ctx sourceID account;
  if u64 (MaxUint64 - u64 (paymentId - 1)) <? initial then
    lift (Err (Errorf "initialNonce %d + paymentId %d overflows uint64: %w" [ESentinel ErrDatabase]))
  else
  let want := u64 (u64 (initial + paymentId) - 1) in
  if negb (gotSequence =? want) then
    lift (Err (Errorf "XRP sequence mismatch for paymentId %d: event Nonce %d != initialNonce %d + paymentId - 1 (= %d): %w"
                 [ESentinel ErrDatabase]))
  else lift (Ok tt).

#[global] Instance Binder_SequenceVerifier : SequenceVerifier Ctx Binder := VerifySequence.
End Binder.

(** ** What the binder promises to the verifiers *)

(** On-chain ground truth: an immutable [uint64] per account, which every
    successful call returns. *)
Class NonceChain (Ctx : Type) `{NonceCaller Ctx} (chain : Hash -> string -> Z) := {
  chain_u64 : forall s a, is_u64 (chain s a);
  chain_immutable : forall ctx s a n, GetInitialNonce ctx s a = Ok n -> n = chain s a
}.

(** The contract of a [SequenceVerifier]: it accepts a sequence only if it is
    the one the contract assigns, accepts that one when the chain answers, and
    fails closed with [ErrDatabase]. *)
Class SequenceSpec (Ctx B : Type) `{SequenceVerifier Ctx B} (chain : Hash -> string -> Z)
    (inv : B -> Prop) (served : Ctx -> Hash -> string -> Prop) := {
  seq_inv : forall ctx s a p g b r b', 0 <= s < 2 ^ 256 ->
    inv b -> VerifySeq ctx s a p g b = (r, b') -> inv b';
  seq_sound : forall ctx s a p g b b', 0 <= s < 2 ^ 256 -> is_u64 p ->
    inv b -> VerifySeq ctx s a p g b = (Ok tt, b') ->
    1 <= p /\ g = chain s a + p - 1 /\ is_u64 g;
  seq_complete : forall ctx s a p b, 0 <= s < 2 ^ 256 -> is_u64 p ->
    inv b -> served ctx s a -> 1 <= p -> chain s a + p - 1 <= MaxUint64 ->
    (VerifySeq ctx s a p (chain s a + p - 1) b).1 = Ok tt;
  seq_err : forall ctx s a p g b e b',
    VerifySeq ctx s a p g b = (Err e, b') -> exists fmt, e = Errorf fmt [ESentinel ErrDatabase]
}.

Section BinderSpec.
Context `{EthLib, !EthLaws} {Ctx : Type} `{!NonceCaller Ctx} (chain : Hash -> string -> Z).

Lemma nonce_key_inj s a s' a' :
  0 <= s < 2 ^ 256 -> 0 <= s' < 2 ^ 256 -> nonce_key s a = nonce_key s' a' -> s = s' /\ a = a'.
Proof.
  unfold nonce_key. intros Hs Hs' Heq.
  apply string_app_inj in Heq as [Hx Ha]; [|by rewrite !Hash_Hex_length].
  apply Hash_Hex_inj in Hx; [|done..]. by injection Ha.
Qed.

(** Every cached value is the on-chain value of the account its key names. *)
Definition coherent (l : list (string * Z)) : Prop :=
  forall k n, (k, n) ∈ l -> exists s a, 0 <= s < 2 ^ 256 /\ k = nonce_key s a /\ n = chain s a.

Definition binder_inv (b : Binder) : Prop := binder_wf b /\ coherent (abs b).

Lemma lru_lookup_elem k n l : lru_lookup k l = Some n -> (k, n) ∈ l.
Proof.
  induction l as [|[k' n'] l IH]; cbn; [done|]. case_decide; [intros; simplify_eq; apply list_elem_of_here|].
  intros; by apply list_elem_of_further, IH.
Qed.

Lemma coherent_get k l : coherent l -> coherent (lru_get k l).2.
Proof.
  unfold lru_get. intros Hc. destruct (lru_lookup k l) as [n|] eqn:E; cbn; [|done].
  intros k' n' [Heq|[_ Hin]%list_elem_of_filter]%elem_of_cons; [|by apply Hc].
  simplify_eq. apply Hc. by apply lru_lookup_elem.
Qed.

Lemma coherent_put s a l : 0 <= s < 2 ^ 256 -> coherent l -> coherent (lru_put (nonce_key s a) (chain s a) l).
Proof.
  intros Hs Hc k' n' Hin. unfold lru_put in Hin. apply elem_of_take in Hin as (i & Hi & _).
  apply list_elem_of_lookup_2 in Hi.
  apply elem_of_cons in Hi as [Heq|[_ Hin]%list_elem_of_filter]; [|by apply Hc].
  simplify_eq. eauto.
Qed.

Lemma cachedNonce_inv k b : binder_inv b -> binder_inv (cachedNonce k b).2.
Proof.
  intros [Hwf Hc]. split; [by apply cachedNonce_wf|].
  destruct (cachedNonce_refines k b Hwf) as [_ ->]. by apply coherent_get.
Qed.

Lemma cachedNonce_value s a b n :
  0 <= s < 2 ^ 256 -> binder_inv b -> (cachedNonce (nonce_key s a) b).1 = Some n -> n = chain s a.
Proof.
  intros Hs [Hwf Hc]. destruct (cachedNonce_refines (nonce_key s a) b Hwf) as [-> _].
  unfold lru_get. destruct (lru_lookup _ _) as [m|] eqn:E; cbn; [|done]. intros [= ->].
  destruct (Hc _ _ (lru_lookup_elem _ _ _ E)) as (s' & a' & Hs' & Hk & ->).
  by apply nonce_key_inj in Hk as [-> ->].
Qed.

Lemma storeNonce_inv s a b :
  0 <= s < 2 ^ 256 -> binder_inv b -> binder_inv (storeNonce (nonce_key s a) (chain s a) b).
Proof.
  intros Hs [Hwf Hc]. split; [by apply storeNonce_wf|].
  rewrite storeNonce_refines by done. by apply coherent_put.
Qed.

(** A critical section of some request: each cache method runs under the
    mutex, the RPC does not, so that requests interleave at this granularity. *)
Inductive binder_step : Binder -> Binder -> Prop :=
| step_cached s a b : 0 <= s < 2 ^ 256 -> binder_step b (cachedNonce (nonce_key s a) b).2
| step_store ctx s a n b : 0 <= s < 2 ^ 256 -> GetInitialNonce ctx s a = Ok n ->
    binder_step b (storeNonce (nonce_key s a) n b).

(** The other goroutines run the same code. *)
Class OthersLaws `{!Others Ctx} := {
  others_before : forall ctx s a p b, rtc binder_step b (before (others ctx s a p) b);
  others_between : forall ctx s a p b, rtc binder_step b (between (others ctx s a p) b)
}.

Lemma NewBinder_inv : binder_inv NewBinder.
Proof.
  split; [constructor; cbn; try done; try (intros ? []%not_elem_of_nil); [constructor|]|].
  - intros p [? Hp]. done.
  - intros k n []%not_elem_of_nil.
Qed.

Context `{!NonceChain Ctx chain}.

Lemma binder_step_inv b b' : binder_step b b' -> binder_inv b -> binder_inv b'.
Proof.
  intros [s a c Hs|ctx s a n c Hs Hn] Hinv; [by apply cachedNonce_inv|].
  rewrite (chain_immutable _ _ _ _ Hn). by apply storeNonce_inv.
Qed.

Lemma binder_steps_inv b b' : rtc binder_step b b' -> binder_inv b -> binder_inv b'.
Proof. induction 1; eauto using binder_step_inv. Qed.

Lemma binder_reachable_inv b : rtc binder_step NewBinder b -> binder_inv b.
Proof. intros Hr. eapply binder_steps_inv; [done|apply NewBinder_inv]. Qed.

Context `{!Others Ctx} `{!OthersLaws}.

(** A lookup among others is steps of theirs and its own. *)
Lemma initialNonce_steps ctx s a p b :
  0 <= s < 2 ^ 256 -> rtc binder_step b (initialNonce (others ctx s a p) ctx s a b).2.
Proof.
  intros Hs. unfold initialNonce. set (b0 := before _ b).
  assert (rtc binder_step b b0) as Hb by apply others_before.
  assert (rtc binder_step b (cachedNonce (nonce_key s a) b0).2) as Hc by (eapply rtc_r; [exact Hb|by constructor]).
  destruct (cachedNonce (nonce_key s a) b0) as [[v|] b1]; [done|]. cbn in Hc. cbn zeta.
  assert (rtc binder_step b (between (others ctx s a p) b1)) as Hm by (etrans; [exact Hc|apply others_between]).
  destruct (GetInitialNonce ctx s a) as [n|err] eqn:Hrpc; [|done]. eapply rtc_r; [exact Hm|by eapply step_store].
Qed.

Lemma VerifySequence_steps ctx s a p g b :
  0 <= s < 2 ^ 256 -> rtc binder_step b (VerifySequence ctx s a p g b).2.
Proof.
  intros Hs. unfold VerifySequence, mbind, se_bind, lift. pose proof (initialNonce_steps ctx s a p b Hs) as Hi.
  destruct (p =? 0); [apply rtc_refl|]. destruct (initialNonce _ _ _ _ _) as [[n|e] b1]; [|exact Hi].
  destruct (_ <? n); [exact Hi|]. destruct (negb _); exact Hi.
Qed.

(** [initialNonce] returns the on-chain value, from the cache or from the RPC. *)
Lemma initialNonce_value ctx s a p b r b' :
  0 <= s < 2 ^ 256 -> binder_inv b -> initialNonce (others ctx s a p) ctx s a b = (r, b') ->
  match r with
  | Ok n => n = chain s a
  | Err e => (exists e', GetInitialNonce ctx s a = Err e') /\ exists fmt, e = Errorf fmt [ESentinel ErrDatabase]
  end.
Proof.
  intros Hs Hinv. unfold initialNonce. set (b0 := before _ b).
  pose proof (cachedNonce_value s a b0) as Hval.
  assert (binder_inv b0) as Hinv0 by (eapply binder_steps_inv; [apply others_before|done]).
  destruct (cachedNonce (nonce_key s a) b0) as [[v|] b1]; cbn in *; [intros [= <- <-]; auto|].
  destruct (GetInitialNonce ctx s a) as [n|err] eqn:Hrpc; intros [= <- <-]; [by eapply chain_immutable|eauto].
Qed.

Lemma VerifySequence_inv ctx s a p g b r b' :
  0 <= s < 2 ^ 256 -> binder_inv b -> VerifySequence ctx s a p g b = (r, b') -> binder_inv b'.
Proof.
  intros Hs Hinv Hv. pose proof (VerifySequence_steps ctx s a p g b Hs) as Hr. rewrite Hv in Hr.
  by eapply binder_steps_inv.
Qed.

(** The guards are exact: no wrap-around reaches the comparison. *)
Lemma VerifySequence_value ctx s a p g b :
  0 <= s < 2 ^ 256 -> is_u64 p -> binder_inv b ->
  forall n b1, initialNonce (others ctx s a p) ctx s a b = (Ok n, b1) ->
  (VerifySequence ctx s a p g b).1 = Ok tt <->
  1 <= p /\ chain s a + p - 1 <= MaxUint64 /\ g = chain s a + p - 1.
Proof.
  intros Hs Hp Hinv n b1 Hi. pose proof (chain_u64 s a) as Hu.
  pose proof (initialNonce_value _ _ _ _ _ _ _ Hs Hinv Hi) as ->.
  unfold VerifySequence. destruct (Z.eqb_spec p 0) as [->|Hnz].
  { cbn. split; [done|lia]. }
  unfold mbind, se_bind. rewrite Hi. unfold is_u64 in *.
  rewrite (u64_small (p - 1)) by (unfold is_u64; lia).
  rewrite (u64_small (MaxUint64 - (p - 1))) by (unfold is_u64, MaxUint64 in *; lia).
  destruct (Z.ltb_spec (MaxUint64 - (p - 1)) (chain s a)) as [Hov|Hnov].
  { cbn. split; [done|lia]. }
  assert (u64 (u64 (chain s a + p) - 1) = chain s a + p - 1) as ->.
  { unfold u64, MaxUint64 in *. rewrite Zminus_mod_idemp_l. apply Z.mod_small. lia. }
  destruct (Z.eqb_spec g (chain s a + p - 1)); cbn; split; try done; lia.
Qed.

(** When the chain answers, the check decides exactly. *)
Lemma VerifySequence_exact ctx s a p g b :
  0 <= s < 2 ^ 256 -> is_u64 p -> binder_inv b -> GetInitialNonce ctx s a = Ok (chain s a) ->
  (VerifySequence ctx s a p g b).1 = Ok tt <->
  1 <= p /\ chain s a + p - 1 <= MaxUint64 /\ g = chain s a + p - 1.
Proof.
  intros Hs Hp Hinv Hc.
  destruct (initialNonce (others ctx s a p) ctx s a b) as [[n|e] b1] eqn:Hi; [by eapply VerifySequence_value|].
  apply initialNonce_value in Hi as [[e' He'] _]; [congruence|done..].
Qed.

#[global] Instance Binder_SequenceSpec :
  SequenceSpec Ctx Binder chain binder_inv (fun ctx s a => GetInitialNonce ctx s a = Ok (chain s a)).
Proof.
  constructor; unfold VerifySeq, Binder_SequenceVerifier.
  - intros. eapply VerifySequence_inv; eauto.
  - intros ctx s a p g b b' Hs Hp Hinv Hv.
    destruct (initialNonce (others ctx s a p) ctx s a b) as [[n|e] b1] eqn:Hi.
    + assert ((VerifySequence ctx s a p g b).1 = Ok tt) as Hok by (by rewrite Hv).
      apply (VerifySequence_value _ _ _ _ _ _ Hs Hp Hinv _ _ Hi) in Hok as (? & ? & ->).
      pose proof (chain_u64 s a). unfold is_u64 in *. lia.
    + exfalso. revert Hv. unfold VerifySequence. destruct (p =? 0); [done|].
      unfold mbind, se_bind. by rewrite Hi.
  - intros. by apply VerifySequence_exact.
  - intros ctx s a p g b e b'. unfold VerifySequence, initialNonce, mbind, se_bind, lift.
    repeat case_match; intros; simplify_eq; eauto.
Qed.
End BinderSpec.

(** ** Properties *)
Section BinderProperties.
Context `{EthLib, !EthLaws} {Ctx : Type} `{!NonceCaller Ctx} (chain : Hash -> string -> Z) `{!NonceChain Ctx chain}.
Context `{!Others Ctx} `{!OthersLaws}.

(** C31. However requests interleave on the shared cache, every state they reach is well formed and every value in it is
    the on-chain initial nonce of the account its key names; and a sequence check running among others, which the
    mutex lets in before its cache lookup and while it waits for the chain, is itself such a run of critical sections,
    so that what it leaves is again a state of this kind. *)
Theorem binder_interleaving_safe b :
  rtc binder_step NewBinder b ->
  binder_inv chain b /\
  forall ctx s a p g, 0 <= s < 2 ^ 256 -> rtc binder_step b (VerifySequence ctx s a p g b).2.
Proof.
  intros Hr. split; [by apply (binder_reachable_inv chain)|]. intros. by apply VerifySequence_steps.
Qed.

(** C12. On every reachable binder, and whatever other requests do to the cache while the check runs, if the chain call
    succeeds a sequence is accepted exactly when it is the one the contract assigns to the payment, payment ids count
    from one and the sum fits in 64 bits: no wrap-around is accepted. *)
Theorem sequence_binding_exact b ctx s a p g :
  rtc binder_step NewBinder b -> 0 <= s < 2 ^ 256 -> is_u64 p -> GetInitialNonce ctx s a = Ok (chain s a) ->
  (VerifySequence ctx s a p g b).1 = Ok tt <->
  1 <= p /\ chain s a + p - 1 <= MaxUint64 /\ g = chain s a + p - 1.
Proof. intros Hr Hs Hp Hc. apply VerifySequence_exact; [done..| |done]. by apply (binder_reachable_inv chain). Qed.
End BinderProperties.
