(* ===== verification/Json.v ===== *)
(** * encoding/json, as far as the sources use it

    The parsed form of a document, and [json.Unmarshal] into the structs the
    sources declare.  Decoding follows the library: object keys are visited in
    document order, a key addresses a field when the names agree up to case,
    a later occurrence overwrites an earlier one, [null] leaves a string,
    number or struct as it is and makes a pointer or map nil, and a value of
    the wrong JSON type is an error.  Turning text into a document is the
    parameter [json_Parse]. *)

From stdpp Require Import base list strings gmap.
From Stdlib Require Import ZArith Lia.
From S2P Require Import Prelude Errors GoStrings.

#[local] Open Scope Z_scope.

Inductive json :=
| JNull
| JBool (b : bool)
| JNum (lit : string)
| JStr (s : string)
| JArr (l : list json)
| JObj (kvs : list (string * json)).

Class JsonLib := json_Parse : string -> res error json.

Definition type_error : error := EForeign (plain_foreign "json: cannot unmarshal value into Go struct field") [].

(** A decoder takes the value the target holds and the document's value. *)
Definition decoder (T : Type) : Type := T -> json -> res error T.

Definition decode_string : decoder string := fun cur j =>
  match j with JStr s => Ok s | JNull => Ok cur | _ => Err type_error end.

Definition decode_uint (bits : Z) : decoder Z := fun cur j =>
  match j with
  | JNum lit => match ParseUint lit bits with Ok z => Ok z | Err _ => Err type_error end
  | JNull => Ok cur
  | _ => Err type_error
  end.

Definition decode_bool : decoder bool := fun cur j =>
  match j with JBool b => Ok b | JNull => Ok cur | _ => Err type_error end.

(** One field of a struct: the keys of the object that address it. *)
Fixpoint decode_field {T} (name : string) (d : decoder T) (kvs : list (string * json)) (cur : T) : res error T :=
  match kvs with
  | [] => Ok cur
  | (k, v) :: rest =>
      if EqualFold k name then (cur' ← d cur v; decode_field name d rest cur')
      else decode_field name d rest cur
  end.

(** A struct value: an object, or [null] for no change. *)
Definition decode_struct {T} (fields : list (string * json) -> T -> res error T) : decoder T := fun cur j =>
  match j with JObj kvs => fields kvs cur | JNull => Ok cur | _ => Err type_error end.

(** A pointer to a struct: [null] makes it nil, an object allocates if needed. *)
Definition decode_ptr {T} (zero : T) (d : decoder T) : decoder (option T) := fun cur j =>
  match j with
  | JNull => Ok None
  | _ => Some <$> d (match cur with Some t => t | None => zero end) j
  end.

(** A slice of structs: the elements already there are decoded into, as the
    library does when a key occurs twice. *)
Fixpoint decode_elems {T} (zero : T) (d : decoder T) (cur : list T) (l : list json) : res error (list T) :=
  match l with
  | [] => Ok []
  | v :: l' =>
      x ← d (hd zero cur) v;
      xs ← decode_elems zero d (tl cur) l';
      Ok (x :: xs)
  end.

Definition decode_list {T} (zero : T) (d : decoder T) : decoder (list T) := fun cur j =>
  match j with
  | JArr l => decode_elems zero d cur l
  | JNull => Ok []
  | _ => Err type_error
  end.

(** [map[string]any]: nil, or the entries; values keep their parsed form. *)
Definition decode_map : decoder (option (gmap string json)) := fun cur j =>
  match j with
  | JObj kvs => Ok (Some (foldl (fun m kv => <[kv.1 := kv.2]> m) (default ∅ cur) kvs))
  | JNull => Ok None
  | _ => Err type_error
  end.

(** ** Lemmas *)
Lemma type_error_foreign : foreign_error type_error.
Proof. apply foreign_lib_error. Qed.

Lemma decode_field_foreign {T} name (d : decoder T) kvs cur :
  (forall c v, foreign_res (d c v)) -> foreign_res (decode_field name d kvs cur).
Proof.
  intros Hd. revert cur. induction kvs as [|[k v] kvs IH]; intros cur e; cbn; [done|].
  destruct (EqualFold k name); [|apply IH].
  intros [He|(c & _ & He)]%res_bind_Err; [by eapply Hd|by eapply IH].
Qed.

Lemma decode_string_foreign c j : foreign_res (decode_string c j).
Proof. destruct j; intros e [= <-]; apply type_error_foreign. Qed.

Lemma decode_uint_foreign b c j : foreign_res (decode_uint b c j).
Proof.
  destruct j; cbn; try (intros e [= <-]; apply type_error_foreign).
  destruct (ParseUint lit b); intros ? [= <-]; apply type_error_foreign.
Qed.

Lemma decode_uint_range bits c j z :
  0 <= bits -> 0 <= c < 2 ^ bits -> decode_uint bits c j = Ok z -> 0 <= z < 2 ^ bits.
Proof.
  intros Hb Hc. destruct j; cbn; try done; [by intros [= <-]|].
  destruct (ParseUint lit bits) eqn:E; [|done]. intros [= <-]. by eapply ParseUint_range.
Qed.

Lemma decode_field_range bits name kvs c z :
  0 <= bits -> 0 <= c < 2 ^ bits -> decode_field name (decode_uint bits) kvs c = Ok z -> 0 <= z < 2 ^ bits.
Proof.
  intros Hb. revert c. induction kvs as [|[k v] kvs IH]; intros c Hc; cbn; [by intros [= <-]|].
  destruct (EqualFold k name); [|by apply IH].
  intros (c' & Hd & Hr)%res_bind_Ok. eapply IH; [|done]. by eapply decode_uint_range.
Qed.

(** *** Typed decoding

    A decoder yields values of a type when the target holds one. *)
Definition decodes {T} (P : T -> Prop) (d : decoder T) : Prop := forall cur j v, P cur -> d cur j = Ok v -> P v.

Lemma decodes_uint bits : 0 <= bits -> decodes (fun z => 0 <= z < 2 ^ bits) (decode_uint bits).
Proof. intros Hb cur j v. by apply decode_uint_range. Qed.

Lemma decodes_field {T} (P : T -> Prop) name d kvs cur v :
  decodes P d -> P cur -> decode_field name d kvs cur = Ok v -> P v.
Proof.
  intros Hd. revert cur. induction kvs as [|[k j] kvs IH]; intros cur Hc; cbn; [by intros [= <-]|].
  destruct (EqualFold k name); [|by apply IH]. intros (c & Hj & Hr)%res_bind_Ok. eapply IH; [|exact Hr]. by eapply Hd.
Qed.

Lemma decodes_struct {T} (P : T -> Prop) fields :
  (forall kvs cur v, P cur -> fields kvs cur = Ok v -> P v) -> decodes P (decode_struct fields).
Proof. intros Hf cur j v Hc. destruct j; cbn; [by intros [= <-]|done..|by apply Hf]. Qed.

#[export] Hint Resolve type_error_foreign decode_string_foreign decode_uint_foreign : verifier.

(** *** Decoding raises no sentinel of the program *)
Class JsonErrors `{JsonLib} := err_Parse : forall s, foreign_res (json_Parse s).

Section Raises.
Context (l : list sentinel).

Lemma type_error_raises : raises l type_error.
Proof. apply raises_foreign, type_error_foreign. Qed.

Lemma decode_string_raises c j : res_raises l (decode_string c j).
Proof. apply res_raises_foreign, decode_string_foreign. Qed.

Lemma decode_uint_raises b c j : res_raises l (decode_uint b c j).
Proof. apply res_raises_foreign, decode_uint_foreign. Qed.

Lemma decode_bool_raises c j : res_raises l (decode_bool c j).
Proof. destruct j; intros e [= <-]; apply type_error_raises. Qed.

Lemma decode_map_raises c j : res_raises l (decode_map c j).
Proof. destruct j; intros e [= <-]; apply type_error_raises. Qed.

Lemma decode_field_raises {T} name (d : decoder T) kvs cur :
  (forall c v, res_raises l (d c v)) -> res_raises l (decode_field name d kvs cur).
Proof.
  intros Hd. revert cur. induction kvs as [|[k v] kvs IH]; intros cur; cbn [decode_field]; [apply res_raises_Ok|].
  destruct (EqualFold k name); [|apply IH]. apply res_raises_bind; auto.
Qed.

Lemma decode_struct_raises {T} (fields : list (string * json) -> T -> res error T) c j :
  (forall kvs c, res_raises l (fields kvs c)) -> res_raises l (decode_struct fields c j).
Proof. intros Hf. destruct j; cbn; auto; intros e [= <-]; apply type_error_raises. Qed.

Lemma decode_ptr_raises {T} (zero : T) d c j :
  (forall c v, res_raises l (d c v)) -> res_raises l (decode_ptr zero d c j).
Proof.
  intros Hd.
  assert (res_raises l (Some <$> d (match c with Some t => t | None => zero end) j)) as Hs.
  { intros e. specialize (Hd (match c with Some t => t | None => zero end) j).
    destruct (d _ j); cbn; [done|]. intros [= <-]. by apply Hd. }
  destruct j; first apply res_raises_Ok; exact Hs.
Qed.

Lemma decode_list_raises {T} (zero : T) d c j :
  (forall c v, res_raises l (d c v)) -> res_raises l (decode_list zero d c j).
Proof.
  intros Hd. destruct j as [| | | |vs|]; cbn [decode_list]; try apply res_raises_Ok;
    try (apply res_raises_Err, type_error_raises).
  revert c. induction vs as [|v vs IH]; intros c; cbn [decode_elems]; [apply res_raises_Ok|].
  apply res_raises_bind; [apply Hd|intros x _]. apply res_raises_bind; [apply IH|intros; apply res_raises_Ok].
Qed.
End Raises.

#[export] Hint Resolve type_error_raises decode_string_raises decode_uint_raises decode_bool_raises
  decode_map_raises decode_field_raises decode_struct_raises decode_ptr_raises decode_list_raises : raise_db.
Ltac decode_raises :=
  repeat first
    [ apply decode_struct_raises; intros
    | apply decode_field_raises; intros
    | apply decode_ptr_raises; intros
    | apply decode_list_raises; intros
    | apply res_raises_bind; [|intros]
    | apply res_raises_Ok
    | solve [auto with raise_db] ].
