(* ===== verification/XrpTransaction.v ===== *)
(** * pmwpaymentstatus/xrp: transaction data and received amounts

    [xrp/types/type.go] (the JSON the indexer stores, with the struct tags'
    decoding) and [xrp/transaction/transaction_amount.go]. *)

From stdpp Require Import base list strings gmap.
From Stdlib Require Import ZArith Lia.
From S2P Require Import Prelude Errors GoStrings Helper Json.

#[local] Open Scope Z_scope.

Inductive TransactionStatus := Success | Reverted.
#[global] Instance TransactionStatus_eq_dec : EqDecision TransactionStatus. Proof. solve_decision. Defined.

(** [uint8(status)] *)
Definition TransactionStatus_uint8 (s : TransactionStatus) : Z :=
  match s with Success => 0 | Reverted => 1 end.

Record CreatedNode := {
  cn_LedgerEntryType : string; cn_LedgerIndex : string; cn_NewFields : option (gmap string json)
}.
Record DeletedNode := {
  dn_LedgerEntryType : string; dn_LedgerIndex : string;
  dn_FinalFields : option (gmap string json); dn_PreviousFields : option (gmap string json)
}.
Record ModifiedNode := {
  mn_LedgerEntryType : string; mn_LedgerIndex : string;
  mn_FinalFields : option (gmap string json); mn_PreviousFields : option (gmap string json);
  mn_PreviousTxnID : string; mn_PreviousTxnLgrSeq : Z
}.
Record AffectedNode := {
  an_CreatedNode : option CreatedNode; an_DeletedNode : option DeletedNode;
  an_ModifiedNode : option ModifiedNode
}.
Record TransactionMetaData := { TransactionResult : string; AffectedNodes : list AffectedNode }.

(** [transactions.CommonFields] of go-flare-common: the fields read. *)
Record CommonFields := {
  cf_TransactionType : string; cf_Account : string; cf_Fee : string; cf_Sequence : Z
}.
Record RawTransactionData := { rtd_Common : CommonFields; rtd_Hash : string; rtd_MetaData : TransactionMetaData }.
Record AddressAmount := { aa_Address : string; aa_Amount : Z }.

Definition zeroCreated := {| cn_LedgerEntryType := ""; cn_LedgerIndex := ""; cn_NewFields := None |}.
Definition zeroDeleted :=
  {| dn_LedgerEntryType := ""; dn_LedgerIndex := ""; dn_FinalFields := None; dn_PreviousFields := None |}.
Definition zeroModified :=
  {| mn_LedgerEntryType := ""; mn_LedgerIndex := ""; mn_FinalFields := None; mn_PreviousFields := None;
     mn_PreviousTxnID := ""; mn_PreviousTxnLgrSeq := 0 |}.
Definition zeroNode := {| an_CreatedNode := None; an_DeletedNode := None; an_ModifiedNode := None |}.
Definition zeroMeta := {| TransactionResult := ""; AffectedNodes := [] |}.

(** ** Unmarshalling *)
Definition unmarshal_CreatedNode : decoder CreatedNode := decode_struct (fun kvs c =>
  t ← decode_field "LedgerEntryType" decode_string kvs (cn_LedgerEntryType c);
  i ← decode_field "LedgerIndex" decode_string kvs (cn_LedgerIndex c);
  n ← decode_field "NewFields" decode_map kvs (cn_NewFields c);
  Ok {| cn_LedgerEntryType := t; cn_LedgerIndex := i; cn_NewFields := n |}).

Definition unmarshal_DeletedNode : decoder DeletedNode := decode_struct (fun kvs c =>
  t ← decode_field "LedgerEntryType" decode_string kvs (dn_LedgerEntryType c);
  i ← decode_field "LedgerIndex" decode_string kvs (dn_LedgerIndex c);
  f ← decode_field "FinalFields" decode_map kvs (dn_FinalFields c);
  p ← decode_field "PreviousFields" decode_map kvs (dn_PreviousFields c);
  Ok {| dn_LedgerEntryType := t; dn_LedgerIndex := i; dn_FinalFields := f; dn_PreviousFields := p |}).

Definition unmarshal_ModifiedNode : decoder ModifiedNode := decode_struct (fun kvs c =>
  t ← decode_field "LedgerEntryType" decode_string kvs (mn_LedgerEntryType c);
  i ← decode_field "LedgerIndex" decode_string kvs (mn_LedgerIndex c);
  f ← decode_field "FinalFields" decode_map kvs (mn_FinalFields c);
  p ← decode_field "PreviousFields" decode_map kvs (mn_PreviousFields c);
  x ← decode_field "PreviousTxnID" decode_string kvs (mn_PreviousTxnID c);
  q ← decode_field "PreviousTxnLgrSeq" (decode_uint 64) kvs (mn_PreviousTxnLgrSeq c);
  Ok {| mn_LedgerEntryType := t; mn_LedgerIndex := i; mn_FinalFields := f; mn_PreviousFields := p;
        mn_PreviousTxnID := x; mn_PreviousTxnLgrSeq := q |}).

Definition unmarshal_AffectedNode : decoder AffectedNode := decode_struct (fun kvs c =>
  n ← decode_field "CreatedNode" (decode_ptr zeroCreated unmarshal_CreatedNode) kvs (an_CreatedNode c);
  d ← decode_field "DeletedNode" (decode_ptr zeroDeleted unmarshal_DeletedNode) kvs (an_DeletedNode c);
  m ← decode_field "ModifiedNode" (decode_ptr zeroModified unmarshal_ModifiedNode) kvs (an_ModifiedNode c);
  Ok {| an_CreatedNode := n; an_DeletedNode := d; an_ModifiedNode := m |}).

Definition unmarshal_TransactionMetaData : decoder TransactionMetaData := decode_struct (fun kvs c =>
  r ← decode_field "TransactionResult" decode_string kvs (TransactionResult c);
  a ← decode_field "AffectedNodes" (decode_list zeroNode unmarshal_AffectedNode) kvs (AffectedNodes c);
  Ok {| TransactionResult := r; AffectedNodes := a |}).

(** Decoding of the embedded [transactions.CommonFields]. *)
Class CommonFieldsLib := unmarshal_CommonFields : json -> res error CommonFields.

Definition unmarshal_RawTransactionData `{CommonFieldsLib} (j : json) : res error RawTransactionData :=
  common ← unmarshal_CommonFields j;
  decode_struct (fun kvs c =>
    h ← decode_field "hash" decode_string kvs (rtd_Hash c);
    m ← decode_field "metaData" unmarshal_TransactionMetaData kvs (rtd_MetaData c);
    Ok {| rtd_Common := rtd_Common c; rtd_Hash := h; rtd_MetaData := m |})
    {| rtd_Common := common; rtd_Hash := ""; rtd_MetaData := zeroMeta |} j.

(** ** Received amounts *)
Definition getStringField (m : gmap string json) (key : string) : string * bool :=
  match m !! key with
  | None => ("", false)
  | Some (JStr str) => (str, true)
  | Some _ => ("", false)
  end.

Definition extractFromModifiedNode (modn : ModifiedNode) : res error (option AddressAmount) :=
  if negb (String.eqb (mn_LedgerEntryType modn) "AccountRoot") then Ok None
  else match mn_FinalFields modn, mn_PreviousFields modn with
  | Some finalFields, Some previousFields =>
      let '(account, ok1) := getStringField finalFields "Account" in
      let '(finalBalStr, ok2) := getStringField finalFields "Balance" in
      let '(prevBalStr, ok3) := getStringField previousFields "Balance" in
      if negb ok1 || negb ok2 || negb ok3 then Ok None else
      finalBal ← map_err (fun _ => Errorf "invalid final balance format for account %s: %s" [])
        (ParseNonNegativeBigInt finalBalStr);
      if ExceedsMaxXRPDrops (Some finalBal) then
        Err (Errorf "final balance %s for account %s exceeds total XRP supply in drops: %w" [ESentinel ErrDatabase])
      else
      prevBal ← map_err (fun _ => Errorf "invalid previous balance format for account %s: %s" [])
        (ParseNonNegativeBigInt prevBalStr);
      if ExceedsMaxXRPDrops (Some prevBal) then
        Err (Errorf "previous balance %s for account %s exceeds total XRP supply in drops: %w" [ESentinel ErrDatabase])
      else
      let diff := finalBal - prevBal in
      if diff <=? 0 then Ok None
      else Ok (Some {| aa_Address := account; aa_Amount := diff |})
  | _, _ => Ok None
  end.

Definition extractFromCreatedNode (created : CreatedNode) : res error (option AddressAmount) :=
  if negb (String.eqb (cn_LedgerEntryType created) "AccountRoot") then Ok None
  else match cn_NewFields created with
  | None => Ok None
  | Some newFields =>
      let '(account, ok1) := getStringField newFields "Account" in
      let '(balanceStr, ok2) := getStringField newFields "Balance" in
      if negb ok1 || negb ok2 then Ok None else
      balance ← map_err (fun _ => Errorf "invalid balance format in CreatedNode for account %s: %s" [])
        (ParseNonNegativeBigInt balanceStr);
      if ExceedsMaxXRPDrops (Some balance) then
        Err (Errorf "created-node balance %s for account %s exceeds total XRP supply in drops: %w" [ESentinel ErrDatabase])
      else Ok (Some {| aa_Address := account; aa_Amount := balance |})
  end.

(** One iteration of the loop over [AffectedNodes]: a modified node takes
    precedence, a deleted node is ignored. *)
Definition extractFromNode (node : AffectedNode) : res error (option AddressAmount) :=
  match an_ModifiedNode node with
  | Some modn => extractFromModifiedNode modn
  | None => match an_CreatedNode node with
            | Some created => extractFromCreatedNode created
            | None => Ok None
            end
  end.

Fixpoint received_loop (nodes : list AffectedNode) (received : list AddressAmount) : res error (list AddressAmount) :=
  match nodes with
  | [] => Ok received
  | node :: rest =>
      aa ← extractFromNode node;
      received_loop rest (match aa with Some a => received ++ [a] | None => received end)
  end.

Definition ReceivedAmount (meta : option TransactionMetaData) : res error (list AddressAmount) :=
  match meta with
  | None => Err (Errorf "transaction meta is not available, thus received amounts cannot be calculated" [])
  | Some m => received_loop (AffectedNodes m) []
  end.

Fixpoint find_amount (l : list AddressAmount) (receiver : string) : Z :=
  match l with
  | [] => 0
  | ra :: rest => if String.eqb (aa_Address ra) receiver then aa_Amount ra else find_amount rest receiver
  end.

Definition FindReceivedAmountForAddress (meta : option TransactionMetaData) (receiver : string) : res error Z :=
  receivedAmounts ← ReceivedAmount meta;
  Ok (find_amount receivedAmounts receiver).

(** ** The ledger's view

    What a node says about an account's balance: the account, and its balance
    before and after the transaction. *)
Inductive balance_change (node : AffectedNode) (account : string) : Z -> Z -> Prop :=
| change_modified modn ff pf prevStr finStr prev fin :
    an_ModifiedNode node = Some modn -> mn_LedgerEntryType modn = "AccountRoot"%string ->
    mn_FinalFields modn = Some ff -> mn_PreviousFields modn = Some pf ->
    ff !! "Account" = Some (JStr account) -> ff !! "Balance" = Some (JStr finStr) ->
    pf !! "Balance" = Some (JStr prevStr) ->
    SetString10 finStr = Some fin -> SetString10 prevStr = Some prev ->
    balance_change node account prev fin
| change_created cr nf finStr fin :
    an_ModifiedNode node = None -> an_CreatedNode node = Some cr ->
    cn_LedgerEntryType cr = "AccountRoot"%string -> cn_NewFields cr = Some nf ->
    nf !! "Account" = Some (JStr account) -> nf !! "Balance" = Some (JStr finStr) ->
    SetString10 finStr = Some fin ->
    balance_change node account 0 fin.

(** A created account starts from nothing: its whole balance was received. *)
Definition credited (node : AffectedNode) (account : string) (z : Z) : Prop :=
  exists prev fin, balance_change node account prev fin /\
    0 <= prev <= MaxXRPDrops /\ 0 <= fin <= MaxXRPDrops /\ z = fin - prev /\ 0 <= z.

(** ** Lemmas *)
Lemma getStringField_true m k s : getStringField m k = (s, true) <-> m !! k = Some (JStr s).
Proof. unfold getStringField. destruct (m !! k) as [[]|]; naive_solver. Qed.

Lemma getStringField_false m k s : getStringField m k = (s, false) -> forall s', m !! k <> Some (JStr s').
Proof. unfold getStringField. destruct (m !! k) as [[]|]; naive_solver. Qed.

(** The two parsers and the two bounds of one balance, together. *)
Lemma parse_drops_Ok str z :
  ParseNonNegativeBigInt str = Ok z -> ExceedsMaxXRPDrops (Some z) = false ->
  SetString10 str = Some z /\ 0 <= z <= MaxXRPDrops.
Proof.
  intros (_ & Hs & _)%ParseNonNegativeBigInt_Ok (? & [= <-] & ?)%ExceedsMaxXRPDrops_false. done.
Qed.

Lemma extractFromNode_Some node a :
  extractFromNode node = Ok (Some a) -> credited node (aa_Address a) (aa_Amount a).
Proof.
  unfold extractFromNode, extractFromModifiedNode, extractFromCreatedNode.
  destruct (an_ModifiedNode node) as [m|] eqn:Hm; [|destruct (an_CreatedNode node) as [c|] eqn:Hc; [|done]].
  - destruct (String.eqb_spec (mn_LedgerEntryType m) "AccountRoot"); cbn [negb]; [|done].
    destruct (mn_FinalFields m) as [ff|] eqn:Hff, (mn_PreviousFields m) as [pf|] eqn:Hpf; try done.
    destruct (getStringField ff "Account") as [acc ok1] eqn:H1, (getStringField ff "Balance") as [fb ok2] eqn:H2,
      (getStringField pf "Balance") as [pb ok3] eqn:H3.
    destruct ok1, ok2, ok3; try done. cbn [negb orb]. intros Hd. res_inv.
    destruct (parse_drops_Ok fb _ ltac:(eassumption) ltac:(eassumption)) as [? ?].
    destruct (parse_drops_Ok pb _ ltac:(eassumption) ltac:(eassumption)) as [? ?].
    apply getStringField_true in H1, H2, H3.
    match goal with H : (_ <=? 0) = false |- _ => apply Z.leb_gt in H end.
    eexists _, _. split; [eapply change_modified; eauto|]. cbn [aa_Amount]. lia.
  - destruct (String.eqb_spec (cn_LedgerEntryType c) "AccountRoot"); cbn [negb]; [|done].
    destruct (cn_NewFields c) as [nf|] eqn:Hnf; [|done].
    destruct (getStringField nf "Account") as [acc ok1] eqn:H1, (getStringField nf "Balance") as [fb ok2] eqn:H2.
    destruct ok1, ok2; try done. cbn [negb orb]. intros Hd. res_inv.
    destruct (parse_drops_Ok fb _ ltac:(eassumption) ltac:(eassumption)) as [? ?].
    apply getStringField_true in H1, H2.
    eexists _, _. split; [eapply change_created; eauto|]. cbn [aa_Amount]. unfold MaxXRPDrops in *. lia.
Qed.

(** A balance change that the extraction leaves out was not an increase. *)
Lemma extractFromNode_change node account prev fin r :
  balance_change node account prev fin -> extractFromNode node = Ok r ->
  match r with
  | Some a => aa_Address a = account /\ aa_Amount a = fin - prev /\ 0 <= fin - prev
  | None => fin - prev <= 0
  end.
Proof.
  intros Hc He. destruct Hc as
    [modn ff pf prevStr finStr prev fin Hm Ht Hff Hpf Ha Hf Hp Hsf Hsp|cr nf finStr fin Hm Hcr Ht Hnf Ha Hf Hsf];
    unfold extractFromNode in He; rewrite Hm in He.
  - unfold extractFromModifiedNode in He. rewrite Ht, Hff, Hpf in He. cbn [negb String.eqb] in He.
    rewrite (proj2 (getStringField_true _ _ _) Ha), (proj2 (getStringField_true _ _ _) Hf),
      (proj2 (getStringField_true _ _ _) Hp) in He. cbn in He. res_inv.
    all: destruct (parse_drops_Ok finStr _ ltac:(eassumption) ltac:(eassumption)) as [? ?];
      destruct (parse_drops_Ok prevStr _ ltac:(eassumption) ltac:(eassumption)) as [? ?]; simplify_eq.
    + by apply Z.leb_le.
    + match goal with H : (_ <=? 0) = false |- _ => apply Z.leb_gt in H end. cbn. split; [done|lia].
  - rewrite Hcr in He. unfold extractFromCreatedNode in He. rewrite Ht, Hnf in He.
    rewrite (proj2 (getStringField_true _ _ _) Ha), (proj2 (getStringField_true _ _ _) Hf) in He.
    cbn in He. res_inv.
    destruct (parse_drops_Ok finStr _ ltac:(eassumption) ltac:(eassumption)) as [? ?]. simplify_eq. cbn. split; [done|lia].
Qed.

Definition received_of (node : AffectedNode) : option AddressAmount :=
  match extractFromNode node with Ok o => o | Err _ => None end.

Lemma received_loop_Ok nodes acc l :
  received_loop nodes acc = Ok l <->
  l = acc ++ omap received_of nodes /\ Forall (fun n => is_ok (extractFromNode n) = true) nodes.
Proof.
  revert acc. induction nodes as [|n nodes IH]; intros acc; cbn [received_loop].
  - rewrite app_nil_r. naive_solver.
  - rewrite omap_cons_eq, Forall_cons. unfold received_of at 1.
    destruct (extractFromNode n) as [[a|]|e]; cbn [mbind res_bind is_ok].
    + rewrite IH, <- app_assoc. naive_solver.
    + rewrite IH. naive_solver.
    + naive_solver.
Qed.

Lemma ReceivedAmount_Ok m l :
  ReceivedAmount (Some m) = Ok l <->
  l = omap received_of (AffectedNodes m) /\
  Forall (fun n => is_ok (extractFromNode n) = true) (AffectedNodes m).
Proof. apply received_loop_Ok. Qed.

(** The amount found is zero, or what some node credits to the receiver. *)
Lemma find_amount_cases l receiver :
  find_amount l receiver = 0 \/
  exists a, a ∈ l /\ aa_Address a = receiver /\ aa_Amount a = find_amount l receiver.
Proof.
  induction l as [|a l IH]; cbn; [auto|].
  destruct (String.eqb_spec (aa_Address a) receiver).
  - right. exists a. split; [apply list_elem_of_here|done].
  - destruct IH as [?|(b & ? & ?)]; [auto|]. right. exists b. split; [by apply list_elem_of_further|done].
Qed.

Lemma find_amount_unique l receiver a :
  a ∈ l -> aa_Address a = receiver ->
  (forall b, b ∈ l -> aa_Address b = receiver -> aa_Amount b = aa_Amount a) ->
  find_amount l receiver = aa_Amount a.
Proof.
  induction l as [|b l IH]; [by intros []%not_elem_of_nil|]. cbn. intros Hin Ha Hu.
  destruct (String.eqb_spec (aa_Address b) receiver).
  - apply Hu; [apply list_elem_of_here|done].
  - apply IH; [|done|intros; apply Hu; [by apply list_elem_of_further|done]].
    by apply elem_of_cons in Hin as [->|].
Qed.

Lemma received_elem m l a :
  ReceivedAmount (Some m) = Ok l -> a ∈ l ->
  exists node, node ∈ AffectedNodes m /\ extractFromNode node = Ok (Some a).
Proof.
  intros [-> _]%ReceivedAmount_Ok Hin. apply list_elem_of_omap in Hin as (n & Hn & Hr).
  exists n. split; [done|]. unfold received_of in Hr. by destruct (extractFromNode n); simplify_eq.
Qed.

Lemma FindReceivedAmount_cases m receiver z :
  FindReceivedAmountForAddress (Some m) receiver = Ok z ->
  z = 0 \/ exists node, node ∈ AffectedNodes m /\ credited node receiver z.
Proof.
  intros (l & Hl & [= <-])%res_bind_Ok.
  destruct (find_amount_cases l receiver) as [?|(a & Ha & <- & <-)]; [auto|]. right.
  destruct (received_elem _ _ _ Hl Ha) as (n & Hn & He%extractFromNode_Some). eauto.
Qed.

Lemma FindReceivedAmount_bounds m receiver z :
  FindReceivedAmountForAddress (Some m) receiver = Ok z -> 0 <= z <= MaxXRPDrops.
Proof.
  intros [->|(n & _ & prev & fin & _ & ? & ? & -> & ?)]%FindReceivedAmount_cases; [|lia].
  unfold MaxXRPDrops; lia.
Qed.

(** Where the metadata records one change of the receiver's balance, the amount
    is the increase, and zero for a decrease. *)
Lemma FindReceivedAmount_unique m receiver node prev fin z :
  FindReceivedAmountForAddress (Some m) receiver = Ok z ->
  node ∈ AffectedNodes m -> balance_change node receiver prev fin ->
  (forall node' p f, node' ∈ AffectedNodes m -> balance_change node' receiver p f -> p = prev /\ f = fin) ->
  z = Z.max 0 (fin - prev).
Proof.
  intros (l & Hl & [= <-])%res_bind_Ok Hin Hc Hu.
  pose proof (proj1 (ReceivedAmount_Ok _ _) Hl) as [Hleq Hall].
  rewrite Forall_forall in Hall. specialize (Hall _ Hin).
  assert (forall b, b ∈ l -> aa_Address b = receiver -> aa_Amount b = fin - prev) as Hb.
  { intros b Hb <-. destruct (received_elem _ _ _ Hl Hb) as (n & Hn & (p & f & Hpf & _ & _ & -> & _)%extractFromNode_Some).
    by destruct (Hu _ _ _ Hn Hpf) as [-> ->]. }
  destruct (extractFromNode node) as [r|] eqn:He; [|done].
  pose proof (extractFromNode_change _ _ _ _ _ Hc He) as Hr. destruct r as [a|].
  - destruct Hr as (Ha & Hamt & ?). rewrite (find_amount_unique l receiver a); [lia| |done|].
    + subst l. apply list_elem_of_omap. exists node. unfold received_of. by rewrite He.
    + intros b Hbl Hbr. rewrite (Hb b Hbl Hbr). done.
  - destruct (find_amount_cases l receiver) as [->|(b & Hbl & Hbr & <-)]; [lia|].
    destruct (received_elem _ _ _ Hl Hbl) as (n & Hn & (p & f & Hpf & _ & _ & Hz & Hnn)%extractFromNode_Some).
    rewrite (Hb b Hbl Hbr) in *. lia.
Qed.

(** ** Errors *)
Class CommonFieldsErrors `{CommonFieldsLib} := err_CommonFields : forall j, foreign_res (unmarshal_CommonFields j).

Section Raises.
Context (l : list sentinel).

Lemma unmarshal_CreatedNode_raises c j : res_raises l (unmarshal_CreatedNode c j).
Proof. decode_raises. Qed.
Lemma unmarshal_DeletedNode_raises c j : res_raises l (unmarshal_DeletedNode c j).
Proof. decode_raises. Qed.
Lemma unmarshal_ModifiedNode_raises c j : res_raises l (unmarshal_ModifiedNode c j).
Proof. decode_raises. Qed.
#[local] Hint Resolve unmarshal_CreatedNode_raises unmarshal_DeletedNode_raises unmarshal_ModifiedNode_raises : raise_db.
Lemma unmarshal_AffectedNode_raises c j : res_raises l (unmarshal_AffectedNode c j).
Proof. decode_raises. Qed.
#[local] Hint Resolve unmarshal_AffectedNode_raises : raise_db.
Lemma unmarshal_TransactionMetaData_raises c j : res_raises l (unmarshal_TransactionMetaData c j).
Proof. decode_raises. Qed.
#[local] Hint Resolve unmarshal_TransactionMetaData_raises : raise_db.
Lemma unmarshal_RawTransactionData_raises `{CommonFieldsErrors} j : res_raises l (unmarshal_RawTransactionData j).
Proof. apply res_raises_bind; [apply res_raises_foreign, err_CommonFields|intros c _]. decode_raises. Qed.
End Raises.
#[export] Hint Resolve unmarshal_RawTransactionData_raises : raise_db.

Lemma ReceivedAmount_raises m : res_raises [SDB ErrDatabase] (ReceivedAmount m).
Proof.
  unfold ReceivedAmount. destruct m as [m|]; [|solve_raises].
  generalize (@nil AddressAmount). induction (AffectedNodes m) as [|n ns IH]; intros acc; cbn [received_loop]; [solve_raises|].
  apply res_raises_bind; [|intros; apply IH].
  unfold extractFromNode, extractFromModifiedNode, extractFromCreatedNode. solve_raises.
Qed.

Lemma FindReceivedAmount_raises m r : res_raises [SDB ErrDatabase] (FindReceivedAmountForAddress m r).
Proof. apply res_raises_bind; [apply ReceivedAmount_raises|intros; apply res_raises_Ok]. Qed.

(** ** Properties *)
(** C29. The received amount is what the ledger credited: a non-zero amount is the balance change or the opening balance
    of a node of the metadata that belongs to the receiver, it is within the XRP supply, and when the receiver's balance
    changed from [prev] to [fin] in one node it is that change, or zero for a debit. *)
Theorem received_amount_exact m receiver z :
  FindReceivedAmountForAddress (Some m) receiver = Ok z ->
  0 <= z <= MaxXRPDrops /\
  (z = 0 \/ exists node, node ∈ AffectedNodes m /\ credited node receiver z) /\
  forall node prev fin, node ∈ AffectedNodes m -> balance_change node receiver prev fin ->
    (forall node' p f, node' ∈ AffectedNodes m -> balance_change node' receiver p f -> p = prev /\ f = fin) ->
    z = Z.max 0 (fin - prev).
Proof.
  intros Hf. split; [by eapply FindReceivedAmount_bounds|]. split; [by eapply FindReceivedAmount_cases|].
  intros. by eapply FindReceivedAmount_unique.
Qed.
