(* ===== verification/PaymentStatus.v ===== *)
(** * PMWPaymentStatus for XRP

    [pmwpaymentstatus/xrp/builder/builder.go] and
    [pmwpaymentstatus/xrp/verifier.go]: the response builder and the verifier.
    The verifier runs over the state of its [SequenceVerifier] (the binder's
    cache), which it holds as an interface. *)

From stdpp Require Import base list strings gmap.
From Stdlib Require Import ZArith Lia.
From S2P Require Import Prelude Errors GoStrings Helper Eth Config Instruction PaymentDB Nonce Json XrpTransaction.

#[local] Open Scope Z_scope.

(** [fdc2.IPMWPaymentStatusRequestBody] and its response. *)
Record PaymentStatusRequest := { ps_OpType : Hash; ps_SenderAddress : string; ps_PaymentId : Z }.

Record PaymentStatusResponse := {
  rs_RecipientAddress : string; rs_TokenId : bytes; rs_Amount : option Z; rs_MaxFee : option Z;
  rs_PaymentReference : Hash; rs_TransactionStatus : Z; rs_RevertReason : string;
  rs_ReceivedAmount : Z; rs_TransactionFee : Z; rs_TransactionId : Hash;
  rs_BlockNumber : Z; rs_BlockTimestamp : Z
}.

(** ** The builder *)
Definition checkDropsBound (name : string) (v : option Z) : res error unit :=
  match v with
  | None => Err (Errorf "%s is nil: %w" [ESentinel ErrDatabase])
  | Some _ =>
      if ExceedsMaxXRPDrops v then
        Err (Errorf "%s %s exceeds total XRP supply in drops (%d): %w" [ESentinel ErrDatabase])
      else Ok tt
  end.

Definition getTransactionStatus (result : string) : res error TransactionStatus :=
  if len result <? 3 then Err (Errorf "transaction result too short: %q: %w" [ESentinel ErrDatabase])
  else
  let prefix := String.substring 0 3 result in
  if String.eqb prefix "tes" then Ok Success
  else if String.eqb prefix "tec" then Ok Reverted
  else Err (Errorf "non-validated or unrecognized XRPL transaction result code %q: %w" [ESentinel ErrDatabase]).

Section Builder.
Context `{EthLib} `{!AddressCodec}.

Definition BuildPaymentStatusResponse (raw : RawTransactionData) (paymentMsg : PaymentInstructionMessage)
    (tx : DBTransaction) : res error PaymentStatusResponse :=
  if negb (String.eqb (cf_TransactionType (rtd_Common raw)) "Payment") then
    Err (Errorf "expected Payment transaction, got %q" [])
  else if negb (len (pm_TokenId paymentMsg) =? 0) then
    Err (Errorf "non-native payments (TokenId set) are not supported" [])
  else
  _ ← checkDropsBound "payment amount" (pm_Amount paymentMsg);
  _ ← checkDropsBound "payment maxFee" (pm_MaxFee paymentMsg);
  transactionResult ← map_err (fun err => Errorf "cannot parse transaction status: %w" [err])
    (getTransactionStatus (TransactionResult (rtd_MetaData raw)));
  transactionFee ← map_err (fun err => Errorf "invalid transaction fee %q: %w" [err])
    (ParseNonNegativeBigInt (cf_Fee (rtd_Common raw)));
  _ ← checkDropsBound "transaction fee" (Some transactionFee);
  hashBytes ← map_err (fun err => Errorf "invalid transaction hash %s: %w" [err])
    (Hex32StringToCommonHash (tx_Hash tx));
  recipientClassic ← map_err (fun err => Errorf "invalid recipient address %s: %w" [err])
    (NormalizeAddress (pm_RecipientAddress paymentMsg));
  receivedAmount ← map_err (fun err => Errorf "cannot calculate received amount for recipient %s: %w" [err])
    (FindReceivedAmountForAddress (Some (rtd_MetaData raw)) recipientClassic);
  _ ← checkDropsBound "received amount" (Some receivedAmount);
  let revertReason := if bool_decide (transactionResult <> Success)
                      then TransactionResult (rtd_MetaData raw) else EmptyString in
  Ok {| rs_RecipientAddress := pm_RecipientAddress paymentMsg;
        rs_TokenId := pm_TokenId paymentMsg;
        rs_Amount := pm_Amount paymentMsg;
        rs_MaxFee := pm_MaxFee paymentMsg;
        rs_PaymentReference := pm_PaymentReference paymentMsg;
        rs_TransactionStatus := TransactionStatus_uint8 transactionResult;
        rs_RevertReason := revertReason;
        rs_ReceivedAmount := receivedAmount;
        rs_TransactionFee := transactionFee;
        rs_TransactionId := hashBytes;
        rs_BlockNumber := tx_BlockNumber tx;
        rs_BlockTimestamp := tx_Timestamp tx |}.
End Builder.

(** ** The verifier *)
Section Verifier.
Context `{ConfigLib} `{!AddressCodec} `{!JsonLib} `{!CommonFieldsLib}.
Context {Ctx B : Type} `{!IndexerDB Ctx} `{!SequenceVerifier Ctx B}.

(** [XRPVerifier]: the repository and the configuration; [Binder] is the state. *)
Record XRPVerifier := { Repo : DBRepo; Config : PMWPaymentStatusConfig }.

(** [NewXRPVerifier]: [dialled] is what [NewOnChainBinder] returned. *)
Definition NewXRPVerifier (cfg : PMWPaymentStatusConfig) (dialled : res error B) : res error (XRPVerifier * B) :=
  binder ← map_err (fun err => Errorf "cannot create initial-nonce binder: %w" [err]) dialled;
  Ok ({| Repo := NewDBRepo (psc_FlareTeeManagerContractAddress cfg); Config := cfg |}, binder).

Definition maxResponseSize : Z := Z.shiftl 1 20.

Definition parseRawTransactionData (response : string) : res error RawTransactionData :=
  if maxResponseSize <? len response then
    Err (Errorf "XRP transaction response too large: %d bytes (max %d): %w" [ESentinel ErrDatabase])
  else
  raw ← map_err (fun err => Errorf "cannot unmarshal XRP transaction response: %w (%w)" [ESentinel ErrDataSource; err])
    (json_Parse response ≫= unmarshal_RawTransactionData);
  if String.eqb (TransactionResult (rtd_MetaData raw)) "" then
    Err (Errorf "missing transaction result in raw transaction data: %w" [ESentinel ErrDataSource])
  else Ok raw.

Definition Verify (x : XRPVerifier) (ctx : Ctx) (req : PaymentStatusRequest) : SE B error PaymentStatusResponse :=
  let sourceID := eab_SourceIDEncoded (psc_common (Config x)) in
  let abi := psc_ParsedTeeInstructionsABI (Config x) in
  instructionID ← lift (map_err (fun err => Errorf "cannot generate instruction ID: %w" [err])
    (GenerateInstructionID (ps_OpType req) sourceID (ps_SenderAddress req) (ps_PaymentId req)));
  eventHash ← lift (TeeInstructionsSentEventSignature abi);
  chainLog ← lift (FetchInstructionLog (Repo x) ctx eventHash instructionID);
  paymentMessage ← lift (DecodeTeeInstructionsSentEventData chainLog abi Pay (ps_OpType req));
  _ ← lift (CheckInstructionConsistency paymentMessage sourceID (ps_SenderAddress req) (ps_PaymentId req));
  _ ← VerifySeq ctx sourceID (ps_SenderAddress req) (ps_PaymentId req) (pm_Nonce paymentMessage);
  dbTransaction ← lift (FetchTransactionBySourceAndSequence ctx
    {| cq_SourceAddress := ps_SenderAddress req; cq_Nonce := pm_Nonce paymentMessage |});
  rawTransactionData ← lift (parseRawTransactionData (tx_Response dbTransaction));
  _ ← lift (CheckRowConsistency (rtd_Hash rawTransactionData) (cf_Account (rtd_Common rawTransactionData))
              (cf_Sequence (rtd_Common rawTransactionData)) dbTransaction);
  lift (map_err (fun err => Errorf "cannot build payment status response: %w" [err])
    (BuildPaymentStatusResponse rawTransactionData paymentMessage dbTransaction)).
End Verifier.

(** ** Specification *)

(** An amount the ledger can hold. *)
Definition drops (v : option Z) : Prop := exists z, v = Some z /\ 0 <= z <= MaxXRPDrops.

(** The outcome a validated-ledger result code denotes. *)
Inductive ledger_outcome : string -> Z -> string -> Prop :=
| outcome_success rest : ledger_outcome ("tes" +:+ rest) 0 ""
| outcome_claimed rest : ledger_outcome ("tec" +:+ rest) 1 ("tec" +:+ rest).

Section Spec.
Context `{ConfigLib} `{!AddressCodec} `{!JsonLib} `{!CommonFieldsLib}.
Context {Ctx : Type} `{!IndexerDB Ctx}.

(** The response describes the payment message and the transaction. *)
Record describes (raw : RawTransactionData) (msg : PaymentInstructionMessage) (tx : DBTransaction)
    (resp : PaymentStatusResponse) : Prop := {
  ds_native : cf_TransactionType (rtd_Common raw) = "Payment"%string /\ pm_TokenId msg = ""%string;
  ds_message : rs_RecipientAddress resp = pm_RecipientAddress msg /\ rs_TokenId resp = pm_TokenId msg /\
    rs_Amount resp = pm_Amount msg /\ rs_MaxFee resp = pm_MaxFee msg /\
    rs_PaymentReference resp = pm_PaymentReference msg;
  ds_amounts : drops (rs_Amount resp) /\ drops (rs_MaxFee resp) /\
    drops (Some (rs_ReceivedAmount resp)) /\ drops (Some (rs_TransactionFee resp));
  ds_outcome : ledger_outcome (TransactionResult (rtd_MetaData raw)) (rs_TransactionStatus resp) (rs_RevertReason resp);
  ds_fee : len (cf_Fee (rtd_Common raw)) <= maxDropsDigits /\
    SetString10 (cf_Fee (rtd_Common raw)) = Some (rs_TransactionFee resp);
  ds_received : exists classic, NormalizeAddress (pm_RecipientAddress msg) = Ok classic /\
    FindReceivedAmountForAddress (Some (rtd_MetaData raw)) classic = Ok (rs_ReceivedAmount resp);
  ds_tx : Hex32StringToCommonHash (tx_Hash tx) = Ok (rs_TransactionId resp) /\
    rs_BlockNumber resp = tx_BlockNumber tx /\ rs_BlockTimestamp resp = tx_Timestamp tx
}.

(** The event is the only one the canonical emitter logged under the
    instruction id of the request, and says what the request says. *)
Record instruction_event (x : XRPVerifier) (ctx : Ctx) (req : PaymentStatusRequest)
    (msg : PaymentInstructionMessage) : Prop := {
  ie_row : exists id sig row log,
    GenerateInstructionID (ps_OpType req) (eab_SourceIDEncoded (psc_common (Config x))) (ps_SenderAddress req) (ps_PaymentId req) = Ok id /\
    TeeInstructionsSentEventSignature (psc_ParsedTeeInstructionsABI (Config x)) = Ok sig /\
    find_logs ctx {| q_address := contractAddress (Repo x); q_topic0 := removeHexPrefix sig;
                     q_topic1 := removeHexPrefix (Hash_Hex 0); q_topic2 := [removeHexPrefix (Hash_Hex id)];
                     q_order := "block_number ASC, log_index ASC"; q_limit := Some 2%nat |} = Ok [row] /\
    ConvertDatabaseLogToChainLog row = Ok log /\
    DecodeTeeInstructionsSentEventData log (psc_ParsedTeeInstructionsABI (Config x)) Pay (ps_OpType req) = Ok msg;
  ie_bound : pm_SourceId msg = eab_SourceIDEncoded (psc_common (Config x)) /\ pm_SenderAddress msg = ps_SenderAddress req /\
    pm_PaymentId msg = ps_PaymentId req
}.

(** The row is the only one of its sender and sequence, and its JSON is about
    that transaction. *)
Record ledger_row (ctx : Ctx) (sender : string) (seq : Z) (tx : DBTransaction) (raw : RawTransactionData) : Prop := {
  lr_row : find_txs ctx {| tq_source := sender; tq_sequences := [seq];
                           tq_order := "hash ASC"; tq_limit := Some 2%nat |} = Ok [tx];
  lr_json : len (tx_Response tx) <= maxResponseSize /\
    exists j, json_Parse (tx_Response tx) = Ok j /\ unmarshal_RawTransactionData j = Ok raw;
  lr_result : TransactionResult (rtd_MetaData raw) <> ""%string;
  lr_bound : EqualFold (rtd_Hash raw) (tx_Hash tx) = true /\
    cf_Account (rtd_Common raw) = tx_SourceAddress tx /\ cf_Sequence (rtd_Common raw) = tx_Sequence tx
}.
End Spec.

(** ** Lemmas *)
Lemma checkDropsBound_Ok name v : checkDropsBound name v = Ok tt <-> drops v.
Proof.
  unfold checkDropsBound, drops. rewrite <- ExceedsMaxXRPDrops_false.
  destruct v; cbn [ExceedsMaxXRPDrops]; [|done]. by destruct (_ || _).
Qed.

Lemma substring_prefix (p s : string) :
  String.substring 0 (String.length p) s = p <-> exists rest, s = (p +:+ rest)%string.
Proof.
  revert s. induction p as [|c p IH]; intros s; [destruct s; naive_solver|].
  destruct s as [|c' s]; cbn; [naive_solver|]. split.
  - intros [= -> (rest & ->)%IH]. by exists rest.
  - intros (rest & [= -> ->]). f_equal. apply IH. by exists rest.
Qed.

(** Only the two classes of a validated ledger pass. *)
Lemma getTransactionStatus_Ok r s :
  getTransactionStatus r = Ok s <->
  exists rest, match s with Success => r = "tes" +:+ rest | Reverted => r = "tec" +:+ rest end.
Proof.
  unfold getTransactionStatus.
  assert (forall p, String.length p = 3%nat -> String.eqb (String.substring 0 3 r) p = true <-> exists rest, r = (p +:+ rest)%string) as Hp.
  { intros p Hl. rewrite String.eqb_eq, <- Hl. apply substring_prefix. }
  destruct (Z.ltb_spec (len r) 3) as [Hlt|Hge].
  { split; [done|]. intros (rest & Hr). exfalso.
    destruct s; subst r; revert Hlt; unfold len;
      match goal with |- context [String.length ?a] => change (String.length a) with (3 + String.length rest)%nat end; lia. }
  destruct (String.eqb _ "tes") eqn:E1; [|destruct (String.eqb _ "tec") eqn:E2].
  - apply Hp in E1 as [rest ->]; [|done]. destruct s; naive_solver.
  - apply Hp in E2 as [rest ->]; [|done]. destruct s; naive_solver.
  - split; [done|]. intros (rest & Hr). exfalso.
    destruct s; [apply not_true_iff_false in E1; apply E1|apply not_true_iff_false in E2; apply E2]; apply Hp; eauto.
Qed.

Lemma outcome_status r s :
  getTransactionStatus r = Ok s ->
  ledger_outcome r (TransactionStatus_uint8 s) (if bool_decide (s <> Success) then r else "").
Proof. intros (rest & Hr)%getTransactionStatus_Ok. destruct s; subst r; constructor. Qed.

Lemma status_outcome r z reason :
  ledger_outcome r z reason ->
  exists s, getTransactionStatus r = Ok s /\ z = TransactionStatus_uint8 s /\
    reason = if bool_decide (s <> Success) then r else "".
Proof.
  destruct 1 as [rest|rest]; [exists Success|exists Reverted];
    (split; [apply getTransactionStatus_Ok; eauto|done]).
Qed.

Section BuilderLemmas.
Context `{EthLib} `{!AddressCodec}.

(** The builder accepts exactly the rows and messages a response can describe. *)
Lemma BuildPaymentStatusResponse_Ok raw msg tx resp :
  BuildPaymentStatusResponse raw msg tx = Ok resp <-> describes raw msg tx resp.
Proof.
  unfold BuildPaymentStatusResponse. split.
  - destruct (String.eqb_spec (cf_TransactionType (rtd_Common raw)) "Payment"); cbn [negb]; [|done].
    destruct (Z.eqb_spec (len (pm_TokenId msg)) 0) as [Htok|]; cbn [negb]; [|done].
    assert (pm_TokenId msg = ""%string) by (destruct (pm_TokenId msg); [done|discriminate Htok]).
    intros Hb. repeat (apply res_bind_Ok in Hb as ([] & ?Hd%checkDropsBound_Ok & Hb) ||
      apply res_bind_Ok in Hb as (? & ?Hm%map_err_Ok & Hb)).
    injection Hb as <-. apply ParseNonNegativeBigInt_Ok in Hm0 as (? & ? & ?).
    constructor; cbn; eauto 10 using outcome_status.
  - intros [[Ht Htok] (Hm1 & Hm2 & Hm3 & Hm4 & Hm5) (Ha & Hf & Hr & Hfee) Hout [Hl Hs] (c & Hn & Hfind) (Hh & Hbn & Hts)].
    rewrite Ht, Htok. cbn [negb String.eqb len String.length Z.of_nat Z.eqb].
    rewrite <- Hm3, <- Hm4, (proj2 (checkDropsBound_Ok _ _) Ha), (proj2 (checkDropsBound_Ok _ _) Hf).
    destruct (status_outcome _ _ _ Hout) as (s & -> & Hz & Hreason). cbn [map_err mbind res_bind].
    assert (ParseNonNegativeBigInt (cf_Fee (rtd_Common raw)) = Ok (rs_TransactionFee resp)) as ->.
    { apply ParseNonNegativeBigInt_Ok. destruct Hfee as (fee & [= Hfee] & Hbnd). repeat split; [done..|lia]. }
    cbn [map_err mbind res_bind]. rewrite (proj2 (checkDropsBound_Ok _ _) Hfee). cbn [mbind res_bind].
    rewrite Hh, Hn. cbn [map_err mbind res_bind]. rewrite Hfind. cbn [map_err mbind res_bind].
    rewrite (proj2 (checkDropsBound_Ok _ _) Hr). cbn [mbind res_bind].
    destruct resp; cbn in *. change (len "" =? 0) with true. cbn [negb]. congruence.
Qed.
End BuilderLemmas.

Section VerifierLemmas.
Context `{ConfigLib} `{!AddressCodec} `{!JsonLib} `{!CommonFieldsLib}.
Context {Ctx B : Type} `{!IndexerDB Ctx} `{!SequenceVerifier Ctx B}.

Lemma parseRawTransactionData_Ok response raw :
  parseRawTransactionData response = Ok raw <->
  len response <= maxResponseSize /\
  (exists j, json_Parse response = Ok j /\ unmarshal_RawTransactionData j = Ok raw) /\
  TransactionResult (rtd_MetaData raw) <> ""%string.
Proof.
  unfold parseRawTransactionData. rewrite <- res_bind_Ok.
  destruct (Z.ltb_spec maxResponseSize (len response)); [naive_solver lia|].
  destruct (json_Parse response ≫= _) as [raw'|e]; cbn; [|naive_solver].
  destruct (String.eqb_spec (TransactionResult (rtd_MetaData raw')) ""); naive_solver.
Qed.

Lemma FetchInstructionLog_Ok r ctx sig id log :
  FetchInstructionLog r ctx sig id = Ok log <->
  exists row, find_logs ctx {| q_address := contractAddress r; q_topic0 := removeHexPrefix sig;
      q_topic1 := removeHexPrefix (Hash_Hex 0); q_topic2 := [removeHexPrefix (Hash_Hex id)];
      q_order := "block_number ASC, log_index ASC"; q_limit := Some 2%nat |} = Ok [row] /\
    ConvertDatabaseLogToChainLog row = Ok log.
Proof.
  unfold FetchInstructionLog. rewrite res_bind_Ok. setoid_rewrite map_err_Ok. split.
  - intros ([|row [|]] & ? & ?); naive_solver.
  - intros (row & ? & ?). by exists [row].
Qed.

Lemma FetchTransaction_Ok ctx src seq tx :
  FetchTransactionBySourceAndSequence ctx {| cq_SourceAddress := src; cq_Nonce := seq |} = Ok tx <->
  find_txs ctx {| tq_source := src; tq_sequences := [seq]; tq_order := "hash ASC"; tq_limit := Some 2%nat |} = Ok [tx].
Proof.
  unfold FetchTransactionBySourceAndSequence. rewrite res_bind_Ok. setoid_rewrite map_err_Ok. split.
  - intros ([|row [|]] & ? & ?); naive_solver.
  - intros ?. by exists [tx].
Qed.

(** Whatever a request ends in, the sequence verifier's invariant holds after it. *)
Lemma Payment_Verify_keeps (chain : Hash -> string -> Z) (inv : B -> Prop) (served : Ctx -> Hash -> string -> Prop)
    `{!SequenceSpec Ctx B chain inv served} x ctx req :
  0 <= eab_SourceIDEncoded (psc_common (Config x)) < 2 ^ 256 -> keeps inv (Verify x ctx req).
Proof.
  intros Hs.
  assert (forall a p g, keeps inv (VerifySeq ctx (eab_SourceIDEncoded (psc_common (Config x))) a p g)) as Hseq.
  { intros a p g b Hb. destruct (VerifySeq _ _ _ _ _ b) as [r b'] eqn:E.
    by eapply (seq_inv (chain := chain) (served := served)). }
  unfold Verify. solve_keeps.
Qed.

(** A run of the verifier, call by call. *)
Lemma Verify_run x ctx req b resp b' :
  Verify x ctx req b = (Ok resp, b') <->
  exists msg tx raw,
    instruction_event x ctx req msg /\
    VerifySeq ctx (eab_SourceIDEncoded (psc_common (Config x))) (ps_SenderAddress req) (ps_PaymentId req) (pm_Nonce msg) b = (Ok tt, b') /\
    ledger_row ctx (ps_SenderAddress req) (pm_Nonce msg) tx raw /\
    describes raw msg tx resp.
Proof.
  unfold Verify. split.
  - intros Hv. repeat apply se_bind_Ok in Hv as (? & ? & [?He ->]%lift_eq & Hv).
    apply se_bind_Ok in Hv as ([] & ? & Hseq & Hv).
    repeat apply se_bind_Ok in Hv as (? & ? & [?He ->]%lift_eq & Hv).
    apply lift_eq in Hv as [Hbuild ->].
    apply map_err_Ok in He. apply map_err_Ok, BuildPaymentStatusResponse_Ok in Hbuild.
    repeat match goal with u : unit |- _ => destruct u end.
    apply CheckInstructionConsistency_Ok in He3. apply CheckRowConsistency_Ok in He6.
    apply FetchInstructionLog_Ok in He1 as (row & ? & ?).
    apply FetchTransaction_Ok in He4. apply parseRawTransactionData_Ok in He5 as (? & ? & ?).
    eexists _, _, _. split; [constructor; [eexists _, _, _, _; split_and!; eassumption|eassumption]|].
    split; [eassumption|]. split; [constructor; [|split| |]; eassumption|eassumption].
  - intros (msg & tx & raw & [(id & sig & row & log & Hid & Hsig & Hq & Hconv & Hdec) Hb] & Hseq & [Hrow [Hlen Hj] Hres Hbound] & Hd).
    apply se_bind_Ok. exists id, b. split; [by rewrite Hid|].
    apply se_bind_Ok. exists sig, b. split; [by rewrite Hsig|].
    apply se_bind_Ok. exists log, b. split; [apply lift_eq; split; [apply FetchInstructionLog_Ok; eauto|done]|].
    apply se_bind_Ok. exists msg, b. split; [by rewrite Hdec|].
    apply se_bind_Ok. exists tt, b. split; [apply lift_eq; split; [by apply CheckInstructionConsistency_Ok|done]|].
    apply se_bind_Ok. exists tt, b'. split; [done|].
    apply se_bind_Ok. exists tx, b'. split; [apply lift_eq; split; [by apply FetchTransaction_Ok|done]|].
    apply se_bind_Ok. exists raw, b'. split; [apply lift_eq; split; [by apply parseRawTransactionData_Ok|done]|].
    apply se_bind_Ok. exists tt, b'. split; [apply lift_eq; split; [by apply CheckRowConsistency_Ok|done]|].
    apply lift_eq. split; [|done]. by apply map_err_Ok, BuildPaymentStatusResponse_Ok.
Qed.

(** ... and what it binds, when the sequence verifier keeps its contract. *)
Lemma Verify_bound (chain : Hash -> string -> Z) (inv : B -> Prop) (served : Ctx -> Hash -> string -> Prop)
    `{!SequenceSpec Ctx B chain inv served} x ctx req b resp b' :
  let sourceID := eab_SourceIDEncoded (psc_common (Config x)) in
  0 <= sourceID < 2 ^ 256 -> is_u64 (ps_PaymentId req) -> inv b ->
  Verify x ctx req b = (Ok resp, b') ->
  inv b' /\ exists msg tx raw,
    instruction_event x ctx req msg /\
    1 <= ps_PaymentId req /\ pm_Nonce msg = chain sourceID (ps_SenderAddress req) + ps_PaymentId req - 1 /\
    is_u64 (pm_Nonce msg) /\
    ledger_row ctx (ps_SenderAddress req) (pm_Nonce msg) tx raw /\
    describes raw msg tx resp.
Proof.
  cbn zeta. intros Hs Hp Hb Hv. apply Verify_run in Hv as (msg & tx & raw & He & Hseq & Hrow & Hd).
  split; [by eapply (seq_inv (chain := chain) (served := served))|].
  exists msg, tx, raw. apply (seq_sound (chain := chain) (inv := inv) (served := served)) in Hseq as (? & ? & ?); [|done..]. done.
Qed.
(** ... and a payment that can be established is. *)
Lemma Verify_established (chain : Hash -> string -> Z) (inv : B -> Prop) (served : Ctx -> Hash -> string -> Prop)
    `{!SequenceSpec Ctx B chain inv served} x ctx req b msg tx raw resp :
  let sourceID := eab_SourceIDEncoded (psc_common (Config x)) in
  0 <= sourceID < 2 ^ 256 -> is_u64 (ps_PaymentId req) -> inv b -> served ctx sourceID (ps_SenderAddress req) ->
  instruction_event x ctx req msg -> 1 <= ps_PaymentId req ->
  pm_Nonce msg = chain sourceID (ps_SenderAddress req) + ps_PaymentId req - 1 -> pm_Nonce msg <= MaxUint64 ->
  ledger_row ctx (ps_SenderAddress req) (pm_Nonce msg) tx raw -> describes raw msg tx resp ->
  exists b', inv b' /\ Verify x ctx req b = (Ok resp, b').
Proof.
  cbn zeta. intros Hs Hp Hb Hserved He Hpos Hn Hmax Hrow Hd.
  pose proof (seq_complete (chain := chain) (inv := inv) ctx _ (ps_SenderAddress req) (ps_PaymentId req) b Hs Hp Hb Hserved Hpos
    ltac:(by rewrite <- Hn)) as Hok. rewrite <- Hn in Hok.
  destruct (VerifySeq ctx _ (ps_SenderAddress req) (ps_PaymentId req) (pm_Nonce msg) b) as [r b'] eqn:Hv. cbn in Hok. subst r.
  exists b'. split; [by eapply (seq_inv (chain := chain) (served := served))|]. apply Verify_run. by exists msg, tx, raw.
Qed.
End VerifierLemmas.

(** ** Errors *)
Section PaymentErrors.
Context `{ConfigLib} `{!EthErrors} `{!AddressCodec} `{!AddressErrors} `{!JsonLib} `{!JsonErrors}.
Context `{!CommonFieldsLib} `{!CommonFieldsErrors}.
Context {Ctx B : Type} `{!IndexerDB Ctx} `{!IndexerErrors Ctx} `{!SequenceVerifier Ctx B}.
Context (chain : Hash -> string -> Z) (inv : B -> Prop) (served : Ctx -> Hash -> string -> Prop).
Context `{!SequenceSpec Ctx B chain inv served}.

Lemma VerifySeq_raises ctx s a p g : se_raises [SDB ErrDatabase] (VerifySeq (B := B) ctx s a p g).
Proof.
  intros b e b' Hv. apply (seq_err (chain := chain)) in Hv as (fmt & ->). solve_raises.
Qed.

Lemma BuildPaymentStatusResponse_raises raw msg tx :
  res_raises [SDB ErrDatabase] (BuildPaymentStatusResponse raw msg tx).
Proof.
  pose proof err_Hex32. pose proof FindReceivedAmount_raises.
  unfold BuildPaymentStatusResponse, checkDropsBound, getTransactionStatus. solve_raises.
Qed.

Lemma parseRawTransactionData_raises s : res_raises [SDB ErrDatabase; SDB ErrDataSource] (parseRawTransactionData s).
Proof.
  assert (forall l s, res_raises l (json_Parse s ≫= unmarshal_RawTransactionData)) as Hj.
  { intros l s'. apply res_raises_bind; [apply res_raises_foreign, err_Parse|intros; auto with raise_db]. }
  unfold parseRawTransactionData. solve_raises.
Qed.

(** Every failure of the payment verifier is one of the database classes, or
    untagged. *)
Lemma Verify_raises x ctx req :
  se_raises [SDB ErrDatabase; SDB ErrDataSource; SDB ErrRecordNotFound] (Verify (B := B) x ctx req).
Proof.
  pose proof VerifySeq_raises. pose proof BuildPaymentStatusResponse_raises. pose proof parseRawTransactionData_raises.
  unfold Verify. solve_raises.
Qed.
End PaymentErrors.

(** ** Properties *)
Section PaymentProperties.
Context `{ConfigLib} `{!AddressCodec} `{!JsonLib} `{!CommonFieldsLib}.
Context {Ctx B : Type} `{!IndexerDB Ctx} `{!SequenceVerifier Ctx B}.

(** C1. A verified payment status is true: the response describes the one event the canonical emitter logged for the
    request's instruction, and the one transaction of the sender at the sequence the contract assigns to the payment
    (the account's initial nonce plus the payment id less one), whose stored JSON is about that same transaction. *)
Theorem payment_verify_sound (chain : Hash -> string -> Z) (inv : B -> Prop) (served : Ctx -> Hash -> string -> Prop)
    `{!SequenceSpec Ctx B chain inv served} x ctx req b resp b' :
  let sourceID := eab_SourceIDEncoded (psc_common (Config x)) in
  0 <= sourceID < 2 ^ 256 -> is_u64 (ps_PaymentId req) -> inv b ->
  Verify x ctx req b = (Ok resp, b') ->
  inv b' /\ exists msg tx raw,
    instruction_event x ctx req msg /\
    1 <= ps_PaymentId req /\ pm_Nonce msg = chain sourceID (ps_SenderAddress req) + ps_PaymentId req - 1 /\
    is_u64 (pm_Nonce msg) /\
    ledger_row ctx (ps_SenderAddress req) (pm_Nonce msg) tx raw /\
    describes raw msg tx resp.
Proof. apply (Verify_bound chain inv served). Qed.

(** C15. The verifier does not refuse a payment it can establish: when the event, the row and the on-chain nonce are
    there, are bound to one another and can be described by a response, it answers with exactly that response. *)
Theorem payment_verify_complete (chain : Hash -> string -> Z) (inv : B -> Prop) (served : Ctx -> Hash -> string -> Prop)
    `{!SequenceSpec Ctx B chain inv served} x ctx req b msg tx raw resp :
  let sourceID := eab_SourceIDEncoded (psc_common (Config x)) in
  0 <= sourceID < 2 ^ 256 -> is_u64 (ps_PaymentId req) -> inv b -> served ctx sourceID (ps_SenderAddress req) ->
  instruction_event x ctx req msg -> 1 <= ps_PaymentId req ->
  pm_Nonce msg = chain sourceID (ps_SenderAddress req) + ps_PaymentId req - 1 -> pm_Nonce msg <= MaxUint64 ->
  ledger_row ctx (ps_SenderAddress req) (pm_Nonce msg) tx raw -> describes raw msg tx resp ->
  exists b', inv b' /\ Verify x ctx req b = (Ok resp, b').
Proof. apply (Verify_established chain inv served). Qed.

(** C28. The response builder accepts exactly the native payments with a validated-ledger outcome whose four amounts are
    within the XRP supply, and its response is determined by the row, the message and the transaction metadata. *)
Theorem payment_response_exact raw msg tx resp :
  BuildPaymentStatusResponse raw msg tx = Ok resp <-> describes raw msg tx resp.
Proof. apply BuildPaymentStatusResponse_Ok. Qed.
End PaymentProperties.
