(* ===== verification/FeeProof.v ===== *)
(** * PMWFeeProof for XRP

    [pmwfeeproof/xrp/verifier.go]: the batch verifier that compares the fees a
    range of payments was allowed to cost with the fees its transactions paid.
    It runs over the state of its [SequenceVerifier]. *)

From stdpp Require Import base list strings gmap.
From Stdlib Require Import ZArith Lia.
From S2P Require Import Prelude Errors GoStrings Helper Eth Config Instruction PaymentDB FeeProofDB Nonce Json.

#[local] Open Scope Z_scope.

Definition MaxBatchRange : Z := 200.
Definition MaxReissuesPerPayment : Z := 32.

(** [fdc2.IPMWFeeProofRequestBody] and its response. *)
Record FeeProofRequest := {
  fp_OpType : Hash; fp_SenderAddress : string; fp_FirstPaymentId : Z; fp_BatchCount : Z; fp_UntilTimestamp : Z
}.
Record FeeProofResponse := { LastPaymentId : Z; ActualFee : Z; EstimatedFee : Z }.

(** [big.Int.BitLen] *)
Definition BitLen (z : Z) : Z := if z =? 0 then 0 else Z.log2 (Z.abs z) + 1.

Section Verifier.
Context `{ConfigLib} `{!JsonLib}.
Context {Ctx B : Type} `{!IndexerDB Ctx} `{!SequenceVerifier Ctx B}.

(** [XRPVerifier]; [Binder] is the state. *)
Record XRPVerifier := { Repo : DBRepo; Config : PMWFeeProofConfig; maxBatchRange : Z }.

(** [NewXRPVerifier]: [dialled] is what [NewOnChainBinder] returned. *)
Definition NewXRPVerifier (cfg : PMWFeeProofConfig) (dialled : res error B) : res error (XRPVerifier * B) :=
  binder ← map_err (fun err => Errorf "cannot create initial-nonce binder: %w" [err]) dialled;
  Ok ({| Repo := NewDBRepo (fpc_FlareTeeManagerContractAddress cfg); Config := cfg; maxBatchRange := 0 |}, binder).

Definition validateBatchRange (x : XRPVerifier) (req : FeeProofRequest) : res error unit :=
  if fp_BatchCount req =? 0 then
    Err (Errorf "batchCount must be greater than 0: %w" [ESentinel ErrBatchRangeTooLarge])
  else
  let maxBatch := if maxBatchRange x =? 0 then MaxBatchRange else maxBatchRange x in
  if maxBatch <? fp_BatchCount req then
    Err (Errorf "batchCount %d exceeds max size %d: %w" [ESentinel ErrBatchRangeTooLarge])
  else if u64 (MaxUint64 - u64 (fp_BatchCount req - 1)) <? fp_FirstPaymentId req then
    Err (Errorf "paymentId range from %d count %d overflows uint64: %w" [ESentinel ErrBatchRangeTooLarge])
  else Ok tt.

(** The loop that fills [paymentIDs] and [payIDs]. *)
Fixpoint build_pay_ids (req : FeeProofRequest) (sourceID : Hash) (idxs : list nat) : res error (list (Z * Hash)) :=
  match idxs with
  | [] => Ok []
  | i :: rest =>
      let paymentId := u64 (fp_FirstPaymentId req + Z.of_nat i) in
      id ← map_err (fun err => Errorf "cannot generate pay instruction ID for paymentId %d: %w" [err])
        (GeneratePayInstructionID (fp_OpType req) sourceID (fp_SenderAddress req) paymentId);
      ids ← build_pay_ids req sourceID rest;
      Ok ((paymentId, id) :: ids)
  end.

(** The scan over a payment's reissues, [n] iterations left before the cap:
    [reissueNum] counts up from one while [n] counts down to zero.  Returns the
    sum so far and [terminatedEarly]. *)
Fixpoint reissue_scan (x : XRPVerifier) (ctx : Ctx) (req : FeeProofRequest) (eventHash : string) (sourceID : Hash)
    (paymentId payMaxFee : Z) (n : nat) (reissueNum estimatedFee : Z) : res error (Z * bool) :=
  match n with
  | O => Ok (estimatedFee, false)
  | S n' =>
      reissueID ← map_err (fun err => Errorf "cannot generate reissue instruction ID for paymentId %d, reissue %d: %w" [err])
        (GenerateReissueInstructionID (fp_OpType req) sourceID (fp_SenderAddress req) paymentId reissueNum);
      match FeeProofDB.FetchInstructionLog (Repo x) ctx eventHash reissueID with
      | Err err =>
          if Is err ErrRecordNotFound then Ok (estimatedFee, true)
          else Err (Errorf "cannot fetch reissue event for paymentId %d, reissue %d: %w" [err])
      | Ok reissueResult =>
          if fp_UntilTimestamp req <? ilr_BlockTimestamp reissueResult then Ok (estimatedFee, true)
          else
          reissueMessage ← map_err (fun err => Errorf "cannot decode reissue event for paymentId %d, reissue %d: %w" [err])
            (DecodeTeeInstructionsSentEventData (ilr_Log reissueResult) (fpc_ParsedTeeInstructionsABI (Config x))
               ReissueCmd (fp_OpType req));
          _ ← map_err (fun err => Errorf "paymentId %d, reissue %d: %w" [err])
            (CheckInstructionConsistency reissueMessage sourceID (fp_SenderAddress req) paymentId);
          match pm_MaxFee reissueMessage with
          | Some reissueMaxFee =>
              if ExceedsMaxXRPDrops (Some reissueMaxFee) then
                Err (Errorf "paymentId %d, reissue %d: maxFee %s exceeds total supply in drops: %w" [ESentinel ErrDatabase])
              else
              let residual := reissueMaxFee - payMaxFee in
              reissue_scan x ctx req eventHash sourceID paymentId payMaxFee n' (u64 (reissueNum + 1))
                (if 0 <? residual then estimatedFee + residual else estimatedFee)
          | None =>
              Err (Errorf "paymentId %d, reissue %d: maxFee %s exceeds total supply in drops: %w" [ESentinel ErrDatabase])
          end
      end
  end.

(** One iteration of the loop of [computeEstimatedFee] after the pay event is
    bound: the scan and the probe behind the cap. *)
Definition estimate_reissues (x : XRPVerifier) (ctx : Ctx) (req : FeeProofRequest) (eventHash : string) (sourceID : Hash)
    (paymentId payMaxFee estimatedFee : Z) : res error Z :=
  scan ← reissue_scan x ctx req eventHash sourceID paymentId payMaxFee (Z.to_nat MaxReissuesPerPayment) 1 estimatedFee;
  let '(estimatedFee', terminatedEarly) := scan in
  if terminatedEarly : bool then Ok estimatedFee'
  else
  let nextReissueNum := u64 (MaxReissuesPerPayment + 1) in
  nextID ← map_err (fun err => Errorf "cannot generate reissue instruction ID for paymentId %d, reissue %d: %w" [err])
    (GenerateReissueInstructionID (fp_OpType req) sourceID (fp_SenderAddress req) paymentId nextReissueNum);
  match FeeProofDB.FetchInstructionLog (Repo x) ctx eventHash nextID with
  | Err err =>
      if Is err ErrRecordNotFound then Ok estimatedFee'
      else Err (Errorf "cannot probe reissue cap for paymentId %d: %w" [err])
  | Ok nextResult =>
      if fp_UntilTimestamp req <? ilr_BlockTimestamp nextResult then Ok estimatedFee'
      else Err (Errorf "paymentId %d: %w (cap %d)" [ESentinel ErrReissueLimitExceeded])
  end.

(** The loop of [computeEstimatedFee] over the payments, with [estimatedFee]
    and [sequences] accumulated so far. *)
Fixpoint computeEstimatedFee (x : XRPVerifier) (ctx : Ctx) (req : FeeProofRequest) (eventHash : string) (sourceID : Hash)
    (payments : list (Z * Hash)) (payLogs : gmap Z ChainLog) (estimatedFee : Z) (sequences : list Z)
    : SE B error (Z * list Z) :=
  match payments with
  | [] => lift (Ok (estimatedFee, sequences))
  | (paymentId, payID) :: rest =>
      match payLogs !! payID with
      | None => lift (Err (Errorf "paymentId %d: %w" [ESentinel ErrMissingPayEvent]))
      | Some payLog =>
          payMessage ← lift (map_err (fun err => Errorf "cannot decode pay event for paymentId %d: %w" [err])
            (DecodeTeeInstructionsSentEventData payLog (fpc_ParsedTeeInstructionsABI (Config x)) Pay (fp_OpType req)));
          _ ← lift (map_err (fun err => Errorf "paymentId %d: %w" [err])
            (CheckInstructionConsistency payMessage sourceID (fp_SenderAddress req) paymentId));
          _ ← se_map_err (fun err => Errorf "paymentId %d: %w" [err])
            (VerifySeq ctx sourceID (fp_SenderAddress req) paymentId (pm_Nonce payMessage));
          match pm_MaxFee payMessage with
          | Some payMaxFee =>
              if ExceedsMaxXRPDrops (Some payMaxFee) then
                lift (Err (Errorf "paymentId %d: pay maxFee %s exceeds total supply in drops: %w" [ESentinel ErrDatabase]))
              else
              estimatedFee' ← lift (estimate_reissues x ctx req eventHash sourceID paymentId payMaxFee
                                      (estimatedFee + payMaxFee));
              computeEstimatedFee x ctx req eventHash sourceID rest payLogs estimatedFee'
                (sequences ++ [pm_Nonce payMessage])
          | None =>
              lift (Err (Errorf "paymentId %d: pay maxFee %s exceeds total supply in drops: %w" [ESentinel ErrDatabase]))
          end
      end
  end.

Definition maxResponseSize : Z := Z.shiftl 1 20.

Record tx_identity := { id_Account : string; id_Sequence : Z; id_Hash : string }.

Definition unmarshal_identity : json -> res error tx_identity :=
  decode_struct (fun kvs c =>
    a ← decode_field "Account" decode_string kvs (id_Account c);
    s ← decode_field "Sequence" (decode_uint 64) kvs (id_Sequence c);
    h ← decode_field "hash" decode_string kvs (id_Hash c);
    Ok {| id_Account := a; id_Sequence := s; id_Hash := h |})
    {| id_Account := ""; id_Sequence := 0; id_Hash := "" |}.

Definition checkTxRowConsistency (tx : DBTransaction) : res error unit :=
  if maxResponseSize <? len (tx_Response tx) then
    Err (Errorf "XRP transaction response too large: %d bytes (max %d): %w" [ESentinel ErrDatabase])
  else
  id ← map_err (fun err => Errorf "cannot unmarshal transaction response: %w (%w)" [ESentinel ErrDataSource; err])
    (json_Parse (tx_Response tx) ≫= unmarshal_identity);
  CheckRowConsistency (id_Hash id) (id_Account id) (id_Sequence id) tx.

Definition unmarshal_fee : json -> res error string :=
  decode_struct (fun kvs c => decode_field "Fee" decode_string kvs c) EmptyString.

Definition parseTxFee (response : string) : res error Z :=
  if maxResponseSize <? len response then
    Err (Errorf "XRP transaction response too large: %d bytes (max %d): %w" [ESentinel ErrDatabase])
  else
  rawFee ← map_err (fun err => Errorf "cannot unmarshal transaction response: %w (%w)" [ESentinel ErrDataSource; err])
    (json_Parse response ≫= unmarshal_fee);
  if String.eqb rawFee "" then
    Err (Errorf "missing Fee in transaction response: %w" [ESentinel ErrDataSource])
  else
  fee ← map_err (fun err => Errorf "cannot parse Fee %q: %w (%w)" [ESentinel ErrDataSource; err])
    (ParseNonNegativeBigInt rawFee);
  if ExceedsMaxXRPDrops (Some fee) then
    Err (Errorf "XRP Fee %s exceeds total supply in drops (%d): %w" [ESentinel ErrDatabase])
  else Ok fee.

(** The loop of [computeActualFee] over the sequences. *)
Fixpoint sum_fees (txMap : gmap Z DBTransaction) (sequences : list Z) (actualFee : Z) : res error Z :=
  match sequences with
  | [] => Ok actualFee
  | sequence :: rest =>
      match txMap !! sequence with
      | None => Err (Errorf "paymentId %d (sequence %d): %w" [ESentinel ErrMissingTransaction])
      | Some tx =>
          _ ← map_err (fun err => Errorf "paymentId %d (sequence %d): %w" [err]) (checkTxRowConsistency tx);
          fee ← map_err (fun err => Errorf "cannot parse fee for paymentId %d (sequence %d): %w" [err])
            (parseTxFee (tx_Response tx));
          sum_fees txMap rest (actualFee + fee)
      end
  end.

Definition computeActualFee (ctx : Ctx) (senderAddress : string) (sequences : list Z) : res error Z :=
  txMap ← map_err (fun err => Errorf "cannot fetch transactions: %w" [err])
    (FetchTransactionsBySourceAndSequences ctx senderAddress sequences);
  sum_fees txMap sequences 0.

Definition Verify (x : XRPVerifier) (ctx : Ctx) (req : FeeProofRequest) : SE B error FeeProofResponse :=
  _ ← lift (validateBatchRange x req);
  eventHash ← lift (TeeInstructionsSentEventSignature (fpc_ParsedTeeInstructionsABI (Config x)));
  let sourceID := eab_SourceIDEncoded (fpc_common (Config x)) in
  payments ← lift (build_pay_ids req sourceID (seq 0 (Z.to_nat (fp_BatchCount req))));
  payLogs ← lift (map_err (fun err => Errorf "cannot fetch pay events: %w" [err])
    (FetchInstructionLogs (Repo x) ctx eventHash (snd <$> payments)));
  est ← computeEstimatedFee x ctx req eventHash sourceID payments payLogs 0 [];
  let '(estimatedFee, sequences) := est in
  actualFee ← lift (computeActualFee ctx (fp_SenderAddress req) sequences);
  if (256 <? BitLen estimatedFee) || (256 <? BitLen actualFee) then
    lift (Err (Errorf "fee sum exceeds uint256 (estimated bits=%d, actual bits=%d): %w" [ESentinel ErrDatabase]))
  else
  lift (Ok {| LastPaymentId := u64 (u64 (fp_FirstPaymentId req + fp_BatchCount req) - 1);
              ActualFee := actualFee; EstimatedFee := estimatedFee |}).
End Verifier.

(** ** Specification *)
Section Spec.
Context `{ConfigLib} `{!JsonLib}.
Context {Ctx : Type} `{!IndexerDB Ctx}.
Context (x : XRPVerifier) (ctx : Ctx) (req : FeeProofRequest) (eventHash : string).

Let sourceID : Hash := eab_SourceIDEncoded (fpc_common (Config x)).

(** The [k]-th reissue of a payment, inside the request's window, allows [fee]. *)
Definition reissue_in_window (paymentId k fee : Z) : Prop :=
  exists id r msg,
    GenerateReissueInstructionID (fp_OpType req) sourceID (fp_SenderAddress req) paymentId k = Ok id /\
    FeeProofDB.FetchInstructionLog (Repo x) ctx eventHash id = Ok r /\
    ilr_BlockTimestamp r <= fp_UntilTimestamp req /\
    DecodeTeeInstructionsSentEventData (ilr_Log r) (fpc_ParsedTeeInstructionsABI (Config x)) ReissueCmd (fp_OpType req) = Ok msg /\
    pm_SourceId msg = sourceID /\ pm_SenderAddress msg = fp_SenderAddress req /\ pm_PaymentId msg = paymentId /\
    pm_MaxFee msg = Some fee /\ 0 <= fee <= MaxXRPDrops.

(** There is no [k]-th reissue, or it came after the window. *)
Definition window_ends (paymentId k : Z) : Prop :=
  exists id,
    GenerateReissueInstructionID (fp_OpType req) sourceID (fp_SenderAddress req) paymentId k = Ok id /\
    match FeeProofDB.FetchInstructionLog (Repo x) ctx eventHash id with
    | Ok r => fp_UntilTimestamp req < ilr_BlockTimestamp r
    | Err e => Is e ErrRecordNotFound = true
    end.

(** The reissues of a payment inside the window, from the [k]-th on, however
    many there are. *)
Inductive reissues (paymentId : Z) : Z -> list Z -> Prop :=
| reissues_end k : window_ends paymentId k -> reissues paymentId k []
| reissues_next k fee l : reissue_in_window paymentId k fee -> reissues paymentId (k + 1) l ->
    reissues paymentId k (fee :: l).

(** What a payment was allowed to cost: its own maximum, and for each reissue
    the part above it. *)
Definition allowance (payMaxFee : Z) (fees : list Z) : Z :=
  payMaxFee + Zsum ((fun f => Z.max 0 (f - payMaxFee)) <$> fees).

Record payment_estimate (payLogs : gmap Z ChainLog) (p : Z * Hash) (msg : PaymentInstructionMessage) (fee : Z) : Prop := {
  pe_log : exists log, payLogs !! p.2 = Some log /\
    DecodeTeeInstructionsSentEventData log (fpc_ParsedTeeInstructionsABI (Config x)) Pay (fp_OpType req) = Ok msg;
  pe_bound : pm_SourceId msg = sourceID /\ pm_SenderAddress msg = fp_SenderAddress req /\ pm_PaymentId msg = p.1;
  pe_fee : exists payMaxFee fees, pm_MaxFee msg = Some payMaxFee /\ 0 <= payMaxFee <= MaxXRPDrops /\
    reissues p.1 1 fees /\ Z.of_nat (length fees) <= MaxReissuesPerPayment /\ fee = allowance payMaxFee fees
}.

(** The fee of the transaction a row records: the row's JSON is about the row. *)
Record row_fee (tx : DBTransaction) (fee : Z) : Prop := {
  rf_size : len (tx_Response tx) <= maxResponseSize;
  rf_json : exists j id feeStr, json_Parse (tx_Response tx) = Ok j /\
    unmarshal_identity j = Ok id /\ EqualFold (id_Hash id) (tx_Hash tx) = true /\
    id_Account id = tx_SourceAddress tx /\ id_Sequence id = tx_Sequence tx /\
    unmarshal_fee j = Ok feeStr /\ len feeStr <= maxDropsDigits /\ SetString10 feeStr = Some fee;
  rf_bound : 0 <= fee <= MaxXRPDrops
}.
End Spec.

(** ** Lemmas *)
Lemma BitLen_small z : 0 <= z < 2 ^ 256 -> (256 <? BitLen z) = false.
Proof.
  intros Hz. apply Z.ltb_ge. unfold BitLen. destruct (Z.eqb_spec z 0); [lia|].
  rewrite Z.abs_eq by lia. assert (Z.log2 z < 256) by (apply Z.log2_lt_pow2; lia). lia.
Qed.

Lemma residual_max acc f m : (if 0 <? f - m then acc + (f - m) else acc) = acc + Z.max 0 (f - m).
Proof. destruct (Z.ltb_spec 0 (f - m)); lia. Qed.

Lemma allowance_bounds m fees :
  0 <= m <= MaxXRPDrops -> Forall (fun f => 0 <= f <= MaxXRPDrops) fees ->
  Z.of_nat (length fees) <= MaxReissuesPerPayment ->
  m <= allowance m fees <= MaxXRPDrops * (MaxReissuesPerPayment + 1).
Proof.
  intros Hm Hf Hl. unfold allowance.
  assert (Forall (fun z => 0 <= z <= MaxXRPDrops) ((fun f => Z.max 0 (f - m)) <$> fees)) as Hall.
  { apply Forall_fmap. eapply Forall_impl; [exact Hf|]. cbn. lia. }
  apply Zsum_bounds in Hall. rewrite length_fmap in Hall.
  unfold MaxReissuesPerPayment, MaxXRPDrops in *. lia.
Qed.

Section ScanLemmas.
Context `{ConfigLib} `{!JsonLib}.
Context {Ctx : Type} `{!IndexerDB Ctx}.
Context (x : XRPVerifier) (ctx : Ctx) (req : FeeProofRequest) (eventHash : string).

Let sourceID : Hash := eab_SourceIDEncoded (fpc_common (Config x)).

Lemma validateBatchRange_Ok :
  is_u64 (fp_BatchCount req) -> is_u64 (fp_FirstPaymentId req) ->
  validateBatchRange x req = Ok tt <->
  1 <= fp_BatchCount req <= (if maxBatchRange x =? 0 then MaxBatchRange else maxBatchRange x) /\
  fp_FirstPaymentId req + fp_BatchCount req - 1 <= MaxUint64.
Proof.
  unfold validateBatchRange, is_u64. intros Hc Hf.
  destruct (Z.eqb_spec (fp_BatchCount req) 0); [split; [done|lia]|].
  rewrite (u64_small (fp_BatchCount req - 1)) by (unfold is_u64; lia).
  rewrite u64_small by (unfold is_u64, MaxUint64 in *; lia).
  set (cap := if maxBatchRange x =? 0 then _ else _).
  destruct (Z.ltb_spec cap (fp_BatchCount req)); [split; [done|lia]|].
  destruct (Z.ltb_spec (MaxUint64 - (fp_BatchCount req - 1)) (fp_FirstPaymentId req)); split; try done; lia.
Qed.

Lemma build_pay_ids_Ok idxs ps :
  build_pay_ids req sourceID idxs = Ok ps <->
  Forall2 (fun i p => p.1 = u64 (fp_FirstPaymentId req + Z.of_nat i) /\
             GeneratePayInstructionID (fp_OpType req) sourceID (fp_SenderAddress req) p.1 = Ok p.2) idxs ps.
Proof.
  revert ps. induction idxs as [|i idxs IH]; intros ps; cbn [build_pay_ids].
  - split; [intros [= <-]; constructor|]. by intros ->%Forall2_nil_inv_l.
  - rewrite res_bind_Ok. split.
    + intros (id & Hid%map_err_Ok & Hr). apply res_bind_Ok in Hr as (ids & Hids & [= <-]).
      constructor; [done|]. by apply IH.
    + intros ([pid id] & ps' & [Hp Hid] & Hr & ->)%Forall2_cons_inv_l. cbn in Hp, Hid. subst pid.
      exists id. rewrite Hid. split; [done|]. apply res_bind_Ok. exists ps'. split; [by apply IH|done].
Qed.

(** The reissues from [k] on that are in the window, without saying that they
    are all. *)
Fixpoint window_run (paymentId k : Z) (fees : list Z) : Prop :=
  match fees with
  | [] => True
  | f :: l => reissue_in_window x ctx req eventHash paymentId k f /\ window_run paymentId (k + 1) l
  end.

Lemma reissues_run paymentId k fees :
  reissues x ctx req eventHash paymentId k fees <->
  window_run paymentId k fees /\ window_ends x ctx req eventHash paymentId (k + Z.of_nat (length fees)).
Proof.
  revert k. induction fees as [|f l IH]; intros k; cbn [window_run length].
  - rewrite Z.add_0_r. split; [by inversion 1|]. intros [_ ?]. by constructor.
  - replace (k + Z.of_nat (S (length l))) with (k + 1 + Z.of_nat (length l)) by lia. split.
    + inversion 1; subst. naive_solver.
    + intros [[? ?] ?]. constructor; [done|]. by apply IH.
Qed.

Lemma window_run_bounds paymentId k fees :
  window_run paymentId k fees -> Forall (fun f => 0 <= f <= MaxXRPDrops) fees.
Proof.
  revert k. induction fees as [|f l IH]; intros k; cbn [window_run]; [constructor|].
  intros [(? & ? & ? & _ & _ & _ & _ & _ & _ & _ & _ & ?) ?]. constructor; eauto.
Qed.

(** One turn of the scan. *)
Lemma reissue_scan_step paymentId m n k acc r :
  0 <= k < MaxUint64 ->
  reissue_scan x ctx req eventHash sourceID paymentId m (S n) k acc = Ok r <->
  (window_ends x ctx req eventHash paymentId k /\ r = (acc, true)) \/
  exists fee, reissue_in_window x ctx req eventHash paymentId k fee /\
    reissue_scan x ctx req eventHash sourceID paymentId m n (k + 1) (acc + Z.max 0 (fee - m)) = Ok r.
Proof.
  intros Hk. cbn [reissue_scan]. rewrite u64_small by (unfold is_u64; lia).
  unfold window_ends, reissue_in_window. fold sourceID. split.
  - intros (id & Hid%map_err_Ok & Hr)%res_bind_Ok.
    destruct (FeeProofDB.FetchInstructionLog (Repo x) ctx eventHash id) as [rr|e] eqn:Hf.
    + destruct (Z.ltb_spec (fp_UntilTimestamp req) (ilr_BlockTimestamp rr)).
      * left. injection Hr as <-. split; [|done]. exists id. by rewrite Hf.
      * right. apply res_bind_Ok in Hr as (msg & Hd%map_err_Ok & Hr).
        apply res_bind_Ok in Hr as ([] & Hc & Hr).
        apply map_err_Ok, CheckInstructionConsistency_Ok in Hc as (? & ? & ?).
        destruct (pm_MaxFee msg) as [fee|] eqn:Hfee; [|done].
        destruct (ExceedsMaxXRPDrops (Some fee)) eqn:Hx; [done|].
        apply ExceedsMaxXRPDrops_false in Hx as (? & [= <-] & ?).
        rewrite residual_max in Hr. exists fee. split; [|done]. exists id, rr, msg. done.
    + destruct (Is e ErrRecordNotFound) eqn:He; [|done]. left. injection Hr as <-. split; [|done].
      exists id. by rewrite Hf.
  - intros [[(id & Hid & Hf) ->]|(fee & (id & rr & msg & Hid & Hf & Ht & Hd & ? & ? & ? & Hfee & Hb) & Hr)].
    + rewrite Hid. cbn [map_err mbind res_bind]. destruct (FeeProofDB.FetchInstructionLog _ _ _ _) as [rr|e].
      * destruct (Z.ltb_spec (fp_UntilTimestamp req) (ilr_BlockTimestamp rr)); [done|lia].
      * by rewrite Hf.
    + rewrite Hid. cbn [map_err mbind res_bind]. rewrite Hf. destruct (Z.ltb_spec (fp_UntilTimestamp req) (ilr_BlockTimestamp rr)); [lia|].
      rewrite Hd. cbn [map_err mbind res_bind].
      rewrite (proj2 (CheckInstructionConsistency_Ok msg sourceID (fp_SenderAddress req) paymentId)) by done.
      cbn [map_err mbind res_bind]. rewrite Hfee.
      rewrite (proj2 (ExceedsMaxXRPDrops_false (Some fee))) by eauto. by rewrite residual_max.
Qed.

Lemma reissue_scan_Ok paymentId m n k acc r early :
  0 <= k -> k + Z.of_nat n <= MaxUint64 ->
  reissue_scan x ctx req eventHash sourceID paymentId m n k acc = Ok (r, early) <->
  exists fees, window_run paymentId k fees /\ r = acc + Zsum ((fun f => Z.max 0 (f - m)) <$> fees) /\
    if early : bool then (length fees < n)%nat /\ window_ends x ctx req eventHash paymentId (k + Z.of_nat (length fees))
    else length fees = n.
Proof.
  revert k acc. induction n as [|n IH]; intros k acc Hk Hn.
  - cbn. split.
    + intros [= <- <-]. exists []. split; [done|]. cbn. split; [lia|done].
    + intros (fees & _ & -> & He). destruct early; [lia|]. apply nil_length_inv in He as ->.
      cbn. by rewrite Z.add_0_r.
  - rewrite reissue_scan_step by lia. setoid_rewrite IH; [|lia..]. split.
    + intros [[Hw [= -> ->]]|(fee & Hin & fees & Hrun & -> & He)].
      * exists []. cbn. rewrite !Z.add_0_r. split; [done|split; [done|split; [lia|done]]].
      * exists (fee :: fees). split; [done|]. rewrite fmap_cons, Zsum_cons. split; [lia|].
        cbn [length]. destruct early; [|lia].
        replace (k + Z.of_nat (S (length fees))) with (k + 1 + Z.of_nat (length fees)) by lia.
        destruct He. split; [lia|done].
    + intros ([|fee fees] & Hrun & -> & He).
      * left. cbn in *. rewrite Z.add_0_r in *. destruct early; [|done]. by destruct He.
      * right. destruct Hrun as [Hin Hrun]. exists fee. split; [done|]. exists fees. split; [done|].
        rewrite fmap_cons, Zsum_cons. split; [lia|]. cbn [length] in He. destruct early; [|lia].
        replace (k + Z.of_nat (S (length fees))) with (k + 1 + Z.of_nat (length fees)) in He by lia.
        destruct He. split; [lia|done].
Qed.

(** The cap is transparent: the estimate covers all the reissues in the
    window, and exists exactly when there are at most thirty-two. *)
Lemma estimate_reissues_Ok paymentId m acc r :
  estimate_reissues x ctx req eventHash sourceID paymentId m acc = Ok r <->
  exists fees, reissues x ctx req eventHash paymentId 1 fees /\
    Z.of_nat (length fees) <= MaxReissuesPerPayment /\
    r = acc + Zsum ((fun f => Z.max 0 (f - m)) <$> fees).
Proof.
  unfold estimate_reissues. rewrite res_bind_Ok. setoid_rewrite reissues_run.
  set (n := Z.to_nat MaxReissuesPerPayment). assert (Z.of_nat n = 32) as Hn by done.
  assert (u64 (MaxReissuesPerPayment + 1) = 1 + Z.of_nat n) as -> by done.
  unfold MaxReissuesPerPayment in *. split.
  - intros ([r' early] & Hs & Hr). apply reissue_scan_Ok in Hs as (fees & Hrun & -> & He);
      [|lia|unfold MaxUint64; lia].
    destruct early; [injection Hr as <-; exists fees; destruct He; split; [done|split; [lia|done]]|].
    apply res_bind_Ok in Hr as (id & Hid%map_err_Ok & Hr).
    assert (window_ends x ctx req eventHash paymentId (1 + Z.of_nat (length fees)) /\
            r = acc + Zsum ((fun f => Z.max 0 (f - m)) <$> fees)) as [Hw ->]; [|exists fees; split; [done|split; [lia|done]]].
    rewrite He. unfold window_ends. fold sourceID.
    destruct (FeeProofDB.FetchInstructionLog (Repo x) ctx eventHash id) as [rr|e] eqn:Hf.
    + destruct (Z.ltb_spec (fp_UntilTimestamp req) (ilr_BlockTimestamp rr)); [|done].
      injection Hr as <-. split; [exists id; by rewrite Hf|done].
    + destruct (Is e ErrRecordNotFound) eqn:Hnf; [|done].
      injection Hr as <-. split; [exists id; by rewrite Hf|done].
  - intros (fees & [Hrun Hw] & Hl & ->). exists (acc + Zsum ((fun f => Z.max 0 (f - m)) <$> fees), bool_decide (length fees < n)%nat).
    split.
    { apply reissue_scan_Ok; [lia|unfold MaxUint64; lia|]. exists fees. split; [done|]. split; [done|].
      case_bool_decide; [done|lia]. }
    case_bool_decide; [done|]. assert (length fees = n) as Hfn by lia. rewrite Hfn in Hw.
    destruct Hw as (id & Hid & Hf). fold sourceID in Hid. rewrite Hid. cbn [map_err mbind res_bind].
    destruct (FeeProofDB.FetchInstructionLog _ _ _ _) as [rr|e].
    + destruct (Z.ltb_spec (fp_UntilTimestamp req) (ilr_BlockTimestamp rr)); [done|lia].
    + by rewrite Hf.
Qed.
End ScanLemmas.

Section RowLemmas.
Context `{JsonLib}.

(** The two readings of a row's response succeed exactly when the row's JSON is
    about the row and states a possible fee. *)
Lemma row_fee_Ok tx fee :
  checkTxRowConsistency tx = Ok tt /\ parseTxFee (tx_Response tx) = Ok fee <-> row_fee tx fee.
Proof.
  unfold checkTxRowConsistency, parseTxFee. split.
  - destruct (Z.ltb_spec maxResponseSize (len (tx_Response tx))); [intros [? _]; done|].
    intros [(id & Hid & Hrow)%res_bind_Ok (feeStr & Hfs & Hp)%res_bind_Ok].
    apply map_err_Ok, res_bind_Ok in Hid as (j & Hj & Hid). apply map_err_Ok, res_bind_Ok in Hfs as (j' & Hj' & Hfs).
    assert (j' = j) as -> by congruence. apply CheckRowConsistency_Ok in Hrow as (? & ? & ?).
    destruct (String.eqb feeStr ""); [done|]. apply res_bind_Ok in Hp as (f & Hf & Hp).
    apply map_err_Ok, ParseNonNegativeBigInt_Ok in Hf as (? & ? & ?).
    destruct (ExceedsMaxXRPDrops (Some f)) eqn:Hx; [done|]. injection Hp as <-.
    apply ExceedsMaxXRPDrops_false in Hx as (? & [= <-] & ?).
    constructor; [done|exists j, id, feeStr; done|done].
  - intros [Hl (j & id & feeStr & Hj & Hid & Hh & Ha & Hs & Hfs & Hlen & Hset) Hb].
    destruct (Z.ltb_spec maxResponseSize (len (tx_Response tx))); [lia|].
    rewrite Hj. cbn [mbind res_bind map_err]. rewrite Hid, Hfs. cbn [mbind res_bind map_err]. split.
    + by apply CheckRowConsistency_Ok.
    + destruct (String.eqb_spec feeStr "") as [->|]; [done|].
      rewrite (proj2 (ParseNonNegativeBigInt_Ok feeStr fee)) by (split_and!; [done..|lia]). cbn [mbind res_bind map_err].
      by rewrite (proj2 (ExceedsMaxXRPDrops_false (Some fee))) by eauto.
Qed.

Lemma sum_fees_Ok txMap seqs acc r :
  sum_fees txMap seqs acc = Ok r <->
  exists fees, Forall2 (fun s f => exists tx, txMap !! s = Some tx /\ row_fee tx f) seqs fees /\ r = acc + Zsum fees.
Proof.
  revert acc. induction seqs as [|s seqs IH]; intros acc; cbn [sum_fees].
  - split.
    + intros [= <-]. exists []. split; [constructor|]. unfold Zsum. cbn. lia.
    + intros (fees & ->%Forall2_nil_inv_l & ->). f_equal. unfold Zsum. cbn. lia.
  - destruct (txMap !! s) as [tx|] eqn:Ht.
    + rewrite res_bind_Ok. split.
      * intros ([] & Hc%map_err_Ok & Hr). apply res_bind_Ok in Hr as (f & Hf%map_err_Ok & Hr).
        apply IH in Hr as (fees & Hall & ->). exists (f :: fees). rewrite Zsum_cons. split; [|lia].
        constructor; [|done]. exists tx. split; [done|]. by apply row_fee_Ok.
      * intros (? & (f & fees & (tx' & Htx & Hrow) & Hall & ->)%Forall2_cons_inv_l & ->).
        assert (tx' = tx) as -> by congruence. apply row_fee_Ok in Hrow as [Hc Hf].
        exists tt. rewrite Hc. split; [done|]. rewrite Hf. cbn. apply IH. exists fees. rewrite Zsum_cons. split; [done|lia].
    + split; [done|]. intros (fees & (f & fees' & (tx & ? & _) & _)%Forall2_cons_inv_l & _). congruence.
Qed.
End RowLemmas.

Section BatchLemmas.
Context `{ConfigLib} `{!JsonLib}.
Context {Ctx B : Type} `{!IndexerDB Ctx} `{!SequenceVerifier Ctx B}.
Context (x : XRPVerifier) (ctx : Ctx) (req : FeeProofRequest) (eventHash : string) (payLogs : gmap Z ChainLog).

Let sourceID : Hash := eab_SourceIDEncoded (fpc_common (Config x)).

(** One turn of the loop over the payments. *)
Lemma estimate_step p rest fee0 seqs b r b' :
  computeEstimatedFee x ctx req eventHash sourceID (p :: rest) payLogs fee0 seqs b = (Ok r, b') <->
  exists msg fee b1, payment_estimate x ctx req eventHash payLogs p msg fee /\
    VerifySeq ctx sourceID (fp_SenderAddress req) p.1 (pm_Nonce msg) b = (Ok tt, b1) /\
    computeEstimatedFee x ctx req eventHash sourceID rest payLogs (fee0 + fee) (seqs ++ [pm_Nonce msg]) b1 = (Ok r, b').
Proof.
  destruct p as [pid payID]. cbn [computeEstimatedFee fst]. split.
  - destruct (payLogs !! payID) as [log|] eqn:Hlog; [|by intros [? _]%lift_eq]. intros Hr.
    apply se_bind_Ok in Hr as (msg & ? & [Hd%map_err_Ok ->]%lift_eq & Hr).
    apply se_bind_Ok in Hr as ([] & ? & [Hc%map_err_Ok ->]%lift_eq & Hr). apply CheckInstructionConsistency_Ok in Hc.
    apply se_bind_Ok in Hr as ([] & b1 & Hs%se_map_err_Ok & Hr).
    destruct (pm_MaxFee msg) as [m|] eqn:Hm; [|by apply lift_eq in Hr as [? _]].
    destruct (ExceedsMaxXRPDrops (Some m)) eqn:Hx; [by apply lift_eq in Hr as [? _]|].
    apply ExceedsMaxXRPDrops_false in Hx as (? & [= <-] & ?).
    apply se_bind_Ok in Hr as (fee & ? & [He ->]%lift_eq & Hr).
    apply estimate_reissues_Ok in He as (fees & Hre & Hl & ->).
    exists msg, (allowance m fees), b1. unfold allowance. rewrite Z.add_assoc. split; [|done].
    constructor; cbn; [eauto|done|]. exists m, fees. done.
  - intros (msg & fee & b1 & [(log & Hlog & Hd) Hc (m & fees & Hm & Hb & Hre & Hl & ->)] & Hs & Hr).
    cbn in Hlog, Hc. rewrite Hlog. apply se_bind_Ok. exists msg, b. split; [by rewrite Hd|].
    apply se_bind_Ok. exists tt, b. split; [apply lift_eq; split; [by apply map_err_Ok, CheckInstructionConsistency_Ok|done]|].
    apply se_bind_Ok. exists tt, b1. split; [by apply se_map_err_Ok|]. rewrite Hm.
    rewrite (proj2 (ExceedsMaxXRPDrops_false (Some m))) by eauto.
    apply se_bind_Ok. exists (fee0 + allowance m fees), b1. split; [|done].
    apply lift_eq. split; [|done]. apply estimate_reissues_Ok. exists fees. unfold allowance. split_and!; [done..|lia].
Qed.

Context (chain : Hash -> string -> Z) (inv : B -> Prop) (served : Ctx -> Hash -> string -> Prop).
Context `{!SequenceSpec Ctx B chain inv served}.

(** A payment's event with the sequence the contract assigns to it. *)
Definition bound_estimate (p : Z * Hash) (m : PaymentInstructionMessage * Z) : Prop :=
  payment_estimate x ctx req eventHash payLogs p m.1 m.2 /\
  1 <= p.1 /\ pm_Nonce m.1 = chain sourceID (fp_SenderAddress req) + p.1 - 1 /\ is_u64 (pm_Nonce m.1).

Lemma computeEstimatedFee_sound ps fee0 seqs b r b' :
  0 <= sourceID < 2 ^ 256 -> Forall (fun p => is_u64 p.1) ps -> inv b ->
  computeEstimatedFee x ctx req eventHash sourceID ps payLogs fee0 seqs b = (Ok r, b') ->
  inv b' /\ exists items, Forall2 bound_estimate ps items /\
    r = (fee0 + Zsum (snd <$> items), seqs ++ ((fun m => pm_Nonce m.1) <$> items)).
Proof.
  intros Hs Hps. revert fee0 seqs b. induction Hps as [|p ps Hp Hps IH]; intros fee0 seqs b Hinv Hr.
  - apply lift_eq in Hr as [[= <-] ->]. split; [done|]. exists []. split; [constructor|]. cbn.
    by rewrite Z.add_0_r, app_nil_r.
  - apply estimate_step in Hr as (msg & fee & b1 & Hpe & Hseq & Hr).
    assert (inv b1) as Hinv1 by (eapply (seq_inv (chain := chain)); eauto).
    apply (seq_sound (chain := chain)) in Hseq as (? & ? & ?); [|done..].
    apply IH in Hr as [Hb' (items & Hall & ->)]; [|done]. split; [done|].
    exists ((msg, fee) :: items). split; [by constructor|].
    rewrite !fmap_cons, Zsum_cons, <- app_assoc, Z.add_assoc. done.
Qed.

Lemma computeEstimatedFee_complete ps items fee0 seqs b :
  0 <= sourceID < 2 ^ 256 -> Forall (fun p => is_u64 p.1) ps -> inv b ->
  served ctx sourceID (fp_SenderAddress req) -> Forall2 bound_estimate ps items ->
  exists b', inv b' /\
    computeEstimatedFee x ctx req eventHash sourceID ps payLogs fee0 seqs b =
    (Ok (fee0 + Zsum (snd <$> items), seqs ++ ((fun m => pm_Nonce m.1) <$> items)), b').
Proof.
  intros Hs Hps Hinv Hserved Hall. revert fee0 seqs b Hinv Hps.
  induction Hall as [|p [msg fee] ps items (Hpe & Hge & Hn & Hu) Hall IH]; intros fee0 seqs b Hinv Hps.
  - exists b. split; [done|]. cbn. by rewrite Z.add_0_r, app_nil_r.
  - apply Forall_cons in Hps as [Hp Hps]. cbn [fst snd] in *.
    pose proof (seq_complete (chain := chain) ctx sourceID (fp_SenderAddress req) p.1 b Hs Hp Hinv Hserved Hge) as Hc.
    rewrite <- Hn in Hc. specialize (Hc (proj2 Hu)).
    destruct (VerifySeq ctx sourceID (fp_SenderAddress req) p.1 (pm_Nonce msg) b) as [r1 b1] eqn:Hseq. cbn in Hc. subst r1.
    assert (inv b1) as Hinv1 by (eapply (seq_inv (chain := chain)); eauto).
    destruct (IH (fee0 + fee) (seqs ++ [pm_Nonce msg]) b1 Hinv1 Hps) as (b' & Hb' & Hr).
    exists b'. split; [done|]. apply estimate_step. exists msg, fee, b1. split; [done|]. split; [done|].
    rewrite Hr, !fmap_cons, Zsum_cons, <- app_assoc, Z.add_assoc. done.
Qed.
End BatchLemmas.

(** ** The batch *)
Record batch_item := {
  bi_id : Hash; bi_msg : PaymentInstructionMessage; bi_allow : Z; bi_tx : DBTransaction; bi_fee : Z
}.

Section Batch.
Context `{ConfigLib} `{!JsonLib}.
Context {Ctx B : Type} `{!IndexerDB Ctx} `{!SequenceVerifier Ctx B}.
Context (chain : Hash -> string -> Z) (inv : B -> Prop) (served : Ctx -> Hash -> string -> Prop).
Context `{!SequenceSpec Ctx B chain inv served}.
Context (x : XRPVerifier) (ctx : Ctx) (req : FeeProofRequest).

Let sourceID : Hash := eab_SourceIDEncoded (fpc_common (Config x)).

(** What the proof says of one payment: its event, bound to the request and to
    the sequence the contract assigns, what it was allowed to cost, and the fee
    of the transaction recorded at that sequence. *)
Record item_ok (eventHash : string) (payLogs : gmap Z ChainLog) (txMap : gmap Z DBTransaction)
    (paymentId : Z) (it : batch_item) : Prop := {
  io_id : GeneratePayInstructionID (fp_OpType req) sourceID (fp_SenderAddress req) paymentId = Ok (bi_id it);
  io_estimate : payment_estimate x ctx req eventHash payLogs (paymentId, bi_id it) (bi_msg it) (bi_allow it);
  io_sequence : 1 <= paymentId /\ pm_Nonce (bi_msg it) = chain sourceID (fp_SenderAddress req) + paymentId - 1 /\
    is_u64 (pm_Nonce (bi_msg it));
  io_row : txMap !! pm_Nonce (bi_msg it) = Some (bi_tx it);
  io_fee : row_fee (bi_tx it) (bi_fee it)
}.

(** The batch's data, as one run of the verifier reads it. *)
Record batch (items : list batch_item) : Prop := {
  ba_count : length items = Z.to_nat (fp_BatchCount req);
  ba_data : exists eventHash payLogs txMap,
    TeeInstructionsSentEventSignature (fpc_ParsedTeeInstructionsABI (Config x)) = Ok eventHash /\
    FetchInstructionLogs (Repo x) ctx eventHash (bi_id <$> items) = Ok payLogs /\
    FetchTransactionsBySourceAndSequences ctx (fp_SenderAddress req) ((fun it => pm_Nonce (bi_msg it)) <$> items) = Ok txMap /\
    forall i it, items !! i = Some it -> item_ok eventHash payLogs txMap (fp_FirstPaymentId req + Z.of_nat i) it
}.

Lemma item_bounds eventHash payLogs txMap pid it :
  item_ok eventHash payLogs txMap pid it ->
  0 <= bi_allow it <= MaxXRPDrops * (MaxReissuesPerPayment + 1) /\ 0 <= bi_fee it <= MaxXRPDrops.
Proof.
  intros [_ [_ _ (m & fees & _ & Hm & [Hrun _]%reissues_run & Hl & ->)] _ _ [_ _ Hf]]. split; [|done].
  apply window_run_bounds in Hrun. pose proof (allowance_bounds m fees Hm Hrun Hl). lia.
Qed.

Lemma batch_sums items :
  batch items ->
  0 <= Zsum (bi_allow <$> items) <= MaxXRPDrops * (MaxReissuesPerPayment + 1) * Z.of_nat (length items) /\
  0 <= Zsum (bi_fee <$> items) <= MaxXRPDrops * Z.of_nat (length items).
Proof.
  intros [_ (sig & payLogs & txMap & _ & _ & _ & Hit)].
  assert (forall f hi, (forall i it, items !! i = Some it -> 0 <= f it <= hi) ->
    0 <= Zsum (f <$> items) <= hi * Z.of_nat (length items)) as Hsum.
  { intros f hi Hf. rewrite <- (length_fmap f items). rewrite <- (Z.mul_0_l (Z.of_nat (length (f <$> items)))) at 1.
    apply Zsum_bounds, Forall_fmap, Forall_lookup. exact Hf. }
  split; apply Hsum; intros i it Hi; by destruct (item_bounds _ _ _ _ _ (Hit i it Hi)).
Qed.

(** The transaction of each payment is the one at its own sequence. *)
Lemma batch_sequences items i it :
  batch items -> items !! i = Some it ->
  tx_Sequence (bi_tx it) = chain sourceID (fp_SenderAddress req) + (fp_FirstPaymentId req + Z.of_nat i) - 1 /\
  row_fee (bi_tx it) (bi_fee it).
Proof.
  intros [_ (sig & payLogs & txMap & _ & _ & Htx & Hit)] Hi. apply Hit in Hi as [_ _ (_ & <- & _) Hrow Hfee]. split; [|done].
  unfold FetchTransactionsBySourceAndSequences in Htx. destruct (_ <$> items); [by injection Htx as <-|].
  apply res_bind_Ok in Htx as (txs & _ & Hc). apply collect_txs_Ok in Hc as (Hmap & _). apply Hmap in Hrow as [?|[_ ?]]; done.
Qed.

(** ... so no transaction is there twice. *)
Lemma batch_transactions items : batch items -> NoDup ((fun it => tx_Sequence (bi_tx it)) <$> items).
Proof.
  intros Hb. apply NoDup_alt. intros i j s Hi Hj. rewrite list_lookup_fmap in Hi, Hj.
  destruct (items !! i) as [it|] eqn:Ei, (items !! j) as [it'|] eqn:Ej; try discriminate.
  apply (batch_sequences _ _ _ Hb) in Ei as [Hsi _], Ej as [Hsj _]. injection Hi as <-. injection Hj as Hj. lia.
Qed.

Lemma payment_ids_range :
  is_u64 (fp_FirstPaymentId req) -> fp_FirstPaymentId req + fp_BatchCount req - 1 <= MaxUint64 ->
  forall i, (i < Z.to_nat (fp_BatchCount req))%nat -> is_u64 (fp_FirstPaymentId req + Z.of_nat i).
Proof. unfold is_u64. lia. Qed.

(** Assembling the payments' data from the three lists the code builds. *)
Lemma assemble eventHash payLogs txMap n ps ms fees :
  (forall i, (i < n)%nat -> is_u64 (fp_FirstPaymentId req + Z.of_nat i)) ->
  build_pay_ids req sourceID (seq 0 n) = Ok ps ->
  Forall2 (bound_estimate x ctx req eventHash payLogs chain) ps ms ->
  Forall2 (fun s f => exists tx, txMap !! s = Some tx /\ row_fee tx f) ((fun m => pm_Nonce m.1) <$> ms) fees ->
  exists items, length items = n /\ bi_id <$> items = snd <$> ps /\
    (fun it => pm_Nonce (bi_msg it)) <$> items = (fun m => pm_Nonce m.1) <$> ms /\
    bi_allow <$> items = snd <$> ms /\ bi_fee <$> items = fees /\
    forall i it, items !! i = Some it -> item_ok eventHash payLogs txMap (fp_FirstPaymentId req + Z.of_nat i) it.
Proof.
  intros Hu Hb Hms Hfs. apply build_pay_ids_Ok in Hb.
  assert (forall k, (forall i, (i < n)%nat -> is_u64 (fp_FirstPaymentId req + Z.of_nat (k + i))) ->
    Forall2 (fun i p => p.1 = u64 (fp_FirstPaymentId req + Z.of_nat i) /\
             GeneratePayInstructionID (fp_OpType req) sourceID (fp_SenderAddress req) p.1 = Ok p.2) (seq k n) ps ->
    exists items, length items = n /\ bi_id <$> items = snd <$> ps /\
    (fun it => pm_Nonce (bi_msg it)) <$> items = (fun m => pm_Nonce m.1) <$> ms /\
    bi_allow <$> items = snd <$> ms /\ bi_fee <$> items = fees /\
    forall i it, items !! i = Some it -> item_ok eventHash payLogs txMap (fp_FirstPaymentId req + Z.of_nat (k + i)) it) as Hgen.
  2: { exact (Hgen 0%nat Hu Hb). }
  clear Hu Hb. revert ps ms fees Hms Hfs. induction n as [|n IH]; intros ps ms fees Hms Hfs k Hu Hb.
  - apply Forall2_nil_inv_l in Hb as ->. apply Forall2_nil_inv_l in Hms as ->. apply Forall2_nil_inv_l in Hfs as ->.
    exists []. done.
  - cbn [seq] in Hb. apply Forall2_cons_inv_l in Hb as ([pid id] & ps' & [Hpid Hid] & Hb & ->).
    apply Forall2_cons_inv_l in Hms as ([msg fee] & ms' & (Hpe & Hge & Hn & Hr) & Hms & ->).
    apply Forall2_cons_inv_l in Hfs as (f & fees' & (tx & Htx & Hrow) & Hfs & ->).
    cbn [fst snd] in *. rewrite u64_small in Hpid by (rewrite <- (Nat.add_0_r k); apply Hu; lia).
    destruct (IH ps' ms' fees' Hms Hfs (S k)) as (items & Hl & H1' & H2' & H3' & H4' & H5').
    { intros i Hi. replace (S k + i)%nat with (k + S i)%nat by lia. apply Hu. lia. }
    { done. }
    exists ({| bi_id := id; bi_msg := msg; bi_allow := fee; bi_tx := tx; bi_fee := f |} :: items).
    rewrite !fmap_cons, H1', H2', H3', H4'. cbn [length bi_id bi_msg bi_allow bi_tx bi_fee fst snd]. rewrite Hl.
    do 5 (split; [done|]). intros [|i] it Hi.
    + injection Hi as <-. rewrite Nat.add_0_r, <- Hpid. constructor; done.
    + replace (k + S i)%nat with (S k + i)%nat by lia. by apply H5'.
Qed.

(** Taking them apart again. *)
Lemma disassemble eventHash payLogs txMap items :
  (forall i, (i < length items)%nat -> is_u64 (fp_FirstPaymentId req + Z.of_nat i)) ->
  (forall i it, items !! i = Some it -> item_ok eventHash payLogs txMap (fp_FirstPaymentId req + Z.of_nat i) it) ->
  exists ps, build_pay_ids req sourceID (seq 0 (length items)) = Ok ps /\ snd <$> ps = bi_id <$> items /\
    Forall (fun p => is_u64 p.1) ps /\
    Forall2 (bound_estimate x ctx req eventHash payLogs chain) ps ((fun it => (bi_msg it, bi_allow it)) <$> items) /\
    Forall2 (fun s f => exists tx, txMap !! s = Some tx /\ row_fee tx f)
      ((fun it => pm_Nonce (bi_msg it)) <$> items) (bi_fee <$> items).
Proof.
  intros Hu Hit.
  exists (imap (fun i it => (fp_FirstPaymentId req + Z.of_nat i, bi_id it)) items).
  assert (forall i p, imap (fun i it => (fp_FirstPaymentId req + Z.of_nat i, bi_id it)) items !! i = Some p ->
    exists it, items !! i = Some it /\ p = (fp_FirstPaymentId req + Z.of_nat i, bi_id it)) as Hlook.
  { intros i p. rewrite list_lookup_imap. destruct (items !! i) as [it|]; cbn; [|done]. intros [= <-]. eauto. }
  split_and!.
  - apply build_pay_ids_Ok. apply Forall2_same_length_lookup. rewrite length_imap, length_seq. split; [done|].
    intros i k p Hk (it & Hi & ->)%Hlook. apply lookup_seq in Hk as [-> Hlt]. cbn.
    rewrite u64_small by (apply Hu; lia). split; [done|]. apply (Hit i it Hi).
  - apply list_eq. intros i. rewrite !list_lookup_fmap, list_lookup_imap. by destruct (items !! i).
  - apply Forall_lookup. intros i p (it & Hi & ->)%Hlook. apply Hu. by eapply lookup_lt_Some.
  - apply Forall2_same_length_lookup. rewrite length_imap, length_fmap. split; [done|].
    intros i p m (it & Hi & ->)%Hlook Hm. rewrite list_lookup_fmap, Hi in Hm. injection Hm as <-.
    destruct (Hit i it Hi) as [_ Hpe Hs _ _]. split; done.
  - apply Forall2_fmap, Forall2_same_length_lookup. split; [done|]. intros i it it' Hi Hi'.
    assert (it' = it) as -> by congruence. destruct (Hit i it Hi) as [_ _ _ Hrow Hfee]. eauto.
Qed.

(** Whatever a request ends in, the sequence verifier's invariant holds after it. *)
Lemma Fee_Verify_keeps : 0 <= sourceID < 2 ^ 256 -> keeps inv (Verify x ctx req).
Proof.
  intros Hs.
  assert (forall a p g, keeps inv (VerifySeq ctx sourceID a p g)) as Hseq.
  { intros a p g b Hb. destruct (VerifySeq _ _ _ _ _ b) as [r b'] eqn:E.
    by eapply (seq_inv (chain := chain) (served := served)). }
  assert (forall sig ps payLogs est seqs, keeps inv (computeEstimatedFee x ctx req sig sourceID ps payLogs est seqs)) as Hest.
  { intros sig ps payLogs. induction ps as [|[pid id] ps IH]; intros est seqs; cbn [computeEstimatedFee]; solve_keeps. }
  unfold Verify. fold sourceID. solve_keeps.
Qed.

Lemma Verify_batch_sound b resp b' :
  0 <= sourceID < 2 ^ 256 -> is_u64 (fp_FirstPaymentId req) -> is_u64 (fp_BatchCount req) -> inv b ->
  Verify x ctx req b = (Ok resp, b') ->
  inv b' /\ exists items, batch items /\
    1 <= fp_BatchCount req /\ fp_FirstPaymentId req + fp_BatchCount req - 1 <= MaxUint64 /\
    LastPaymentId resp = fp_FirstPaymentId req + fp_BatchCount req - 1 /\
    EstimatedFee resp = Zsum (bi_allow <$> items) /\ ActualFee resp = Zsum (bi_fee <$> items).
Proof.
  intros Hs Hf Hc Hinv Hv. unfold Verify in Hv.
  apply se_bind_Ok in Hv as ([] & ? & [Hval ->]%lift_eq & Hv). apply validateBatchRange_Ok in Hval as [Hcount Hov]; [|done..].
  apply se_bind_Ok in Hv as (sig & ? & [Hsig ->]%lift_eq & Hv).
  apply se_bind_Ok in Hv as (ps & ? & [Hps ->]%lift_eq & Hv).
  apply se_bind_Ok in Hv as (payLogs & ? & [Hlogs%map_err_Ok ->]%lift_eq & Hv).
  apply se_bind_Ok in Hv as ([est seqs] & b1 & Hest & Hv).
  pose proof (payment_ids_range Hf Hov) as Hu.
  assert (Forall (fun p => is_u64 p.1) ps) as Hpu.
  { apply build_pay_ids_Ok in Hps. apply Forall_lookup. intros i p Hi.
    destruct (Forall2_lookup_r _ _ _ _ _ Hps Hi) as (k & _ & -> & _). apply u64_range. }
  apply (computeEstimatedFee_sound _ _ _ _ _ chain inv served) in Hest as [Hinv1 (ms & Hms & [= -> ->])]; [|done..].
  apply se_bind_Ok in Hv as (act & ? & [Hact ->]%lift_eq & Hv).
  apply res_bind_Ok in Hact as (txMap & Htx%map_err_Ok & Hsum). apply sum_fees_Ok in Hsum as (fees & Hfees & ->).
  destruct (assemble _ _ _ _ _ _ _ Hu Hps Hms Hfees) as (items & Hl & Hids & Hns & Hallow & Hfee & Hit).
  destruct (_ || _); apply lift_eq in Hv as [Hv ->]; [done|]. injection Hv as <-. split; [done|].
  exists items. split; [constructor; [done|]|].
  { exists sig, payLogs, txMap. rewrite Hids, Hns. done. }
  cbn [LastPaymentId EstimatedFee ActualFee]. rewrite Hallow, Hfee. split_and!; [lia|done| |lia|lia].
  unfold u64. rewrite Zminus_mod_idemp_l. apply Z.mod_small. unfold is_u64, MaxUint64 in *. lia.
Qed.

Lemma Verify_batch_complete items b :
  0 <= sourceID < 2 ^ 256 -> is_u64 (fp_FirstPaymentId req) -> is_u64 (fp_BatchCount req) -> inv b ->
  maxBatchRange x = 0 -> 1 <= fp_BatchCount req <= MaxBatchRange ->
  fp_FirstPaymentId req + fp_BatchCount req - 1 <= MaxUint64 ->
  served ctx sourceID (fp_SenderAddress req) -> batch items ->
  exists b', inv b' /\ Verify x ctx req b =
    (Ok {| LastPaymentId := fp_FirstPaymentId req + fp_BatchCount req - 1;
           ActualFee := Zsum (bi_fee <$> items); EstimatedFee := Zsum (bi_allow <$> items) |}, b').
Proof.
  intros Hs Hf Hc Hinv Hmax Hcount Hov Hserved Hb. pose proof (batch_sums _ Hb) as [He Ha].
  destruct Hb as [Hl (sig & payLogs & txMap & Hsig & Hlogs & Htx & Hit)].
  pose proof (payment_ids_range Hf Hov) as Hu. rewrite <- Hl in Hu.
  destruct (disassemble _ _ _ _ Hu Hit) as (ps & Hps & Hids & Hpu & Hms & Hfees).
  destruct (computeEstimatedFee_complete x ctx req sig payLogs chain inv served ps _ 0 [] b Hs Hpu Hinv Hserved Hms)
    as (b' & Hb' & Hest).
  exists b'. split; [done|]. unfold Verify.
  apply se_bind_Ok. exists tt, b. split.
  { apply lift_eq. split; [|done]. apply validateBatchRange_Ok; [done..|]. rewrite Hmax. done. }
  apply se_bind_Ok. exists sig, b. split; [by rewrite Hsig|].
  apply se_bind_Ok. exists ps, b. split; [apply lift_eq; split; [rewrite <- Hl; exact Hps|done]|].
  apply se_bind_Ok. exists payLogs, b. split; [by rewrite Hids, Hlogs|].
  apply se_bind_Ok. eexists _, b'. split; [exact Hest|]. cbn beta iota.
  apply se_bind_Ok. exists (Zsum (bi_fee <$> items)), b'. split.
  { apply lift_eq. split; [|done]. unfold computeActualFee. rewrite <- list_fmap_compose. cbn [app].
    apply res_bind_Ok. exists txMap. split; [by apply map_err_Ok|]. apply sum_fees_Ok. exists (bi_fee <$> items). done. }
  rewrite <- list_fmap_compose. change (snd ∘ (fun it => (bi_msg it, bi_allow it))) with bi_allow.
  rewrite Z.add_0_l. rewrite Hl, Z2Nat.id in He, Ha by lia.
  unfold MaxXRPDrops, MaxReissuesPerPayment, MaxBatchRange in *.
  rewrite !BitLen_small by lia. cbn [orb]. apply lift_eq. split; [|done]. f_equal. f_equal.
  unfold u64. rewrite Zminus_mod_idemp_l. apply Z.mod_small. unfold is_u64, MaxUint64 in *. lia.
Qed.
End Batch.

(** ** Errors *)
Section FeeErrors.
Context `{ConfigLib} `{!EthErrors} `{!JsonLib} `{!JsonErrors}.
Context {Ctx B : Type} `{!IndexerDB Ctx} `{!IndexerErrors Ctx} `{!SequenceVerifier Ctx B}.
Context (chain : Hash -> string -> Z) (inv : B -> Prop) (served : Ctx -> Hash -> string -> Prop).
Context `{!SequenceSpec Ctx B chain inv served}.

Lemma build_pay_ids_raises l req s idxs : res_raises l (build_pay_ids req s idxs).
Proof. induction idxs; cbn [build_pay_ids]; unfold GeneratePayInstructionID; solve_raises; auto. Qed.

(** A missing reissue ends the scan: it is not an error of the request. *)
Lemma not_found_excluded err :
  raises [SDB ErrDatabase; SDB ErrRecordNotFound] err -> Is err ErrRecordNotFound = false -> raises [SDB ErrDatabase] err.
Proof.
  intros He Hn t Ho Hi. specialize (He t Ho Hi). apply elem_of_cons in He as [->|He]; [apply list_elem_of_here|].
  apply list_elem_of_singleton in He as ->. congruence.
Qed.

Lemma reissue_scan_raises x ctx req sig s pid m n k acc :
  res_raises [SDB ErrDatabase; SDB ErrDataSource] (reissue_scan x ctx req sig s pid m n k acc).
Proof.
  revert k acc. induction n as [|n IH]; intros k acc; cbn [reissue_scan]; [solve_raises|].
  apply res_raises_bind; [solve_raises|intros id _].
  destruct (FeeProofDB.FetchInstructionLog (Repo x) ctx sig id) as [r|e] eqn:Hf.
  - destruct (_ <? _); [solve_raises|]. solve_raises; apply IH.
  - destruct (Is e ErrRecordNotFound) eqn:Hn; [solve_raises|].
    apply res_raises_Err, raises_Errorf, Forall_raises_cons; [|apply Forall_raises_nil].
    eapply raises_weaken; [|apply not_found_excluded; [|exact Hn]].
    + intros t ->%list_elem_of_singleton. apply list_elem_of_here.
    + by eapply FeeFetchInstructionLog_raises.
Qed.

Lemma estimate_reissues_raises x ctx req sig s pid m acc :
  res_raises [SDB ErrDatabase; SDB ErrDataSource; SFee ErrReissueLimitExceeded]
    (estimate_reissues x ctx req sig s pid m acc).
Proof.
  unfold estimate_reissues. apply res_raises_bind.
  - eapply res_raises_sub; [apply reissue_scan_raises|vm_compute; reflexivity].
  - intros [fee early] _. destruct early; [solve_raises|]. apply res_raises_bind; [solve_raises|intros id _].
    destruct (FeeProofDB.FetchInstructionLog (Repo x) ctx sig id) as [r|e] eqn:Hf; [solve_raises|].
    destruct (Is e ErrRecordNotFound) eqn:Hn; [solve_raises|].
    apply res_raises_Err, raises_Errorf, Forall_raises_cons; [|apply Forall_raises_nil].
    eapply raises_weaken; [|apply not_found_excluded; [|exact Hn]].
    + intros t ->%list_elem_of_singleton. apply list_elem_of_here.
    + by eapply FeeFetchInstructionLog_raises.
Qed.

Definition fee_estimate_errors : list sentinel :=
  [SDB ErrDatabase; SDB ErrDataSource; SFee ErrReissueLimitExceeded; SFee ErrMissingPayEvent].

Lemma computeEstimatedFee_raises x ctx req sig s ps logs fee seqs :
  se_raises fee_estimate_errors (computeEstimatedFee (B := B) x ctx req sig s ps logs fee seqs).
Proof.
  pose proof estimate_reissues_raises.
  assert (forall ctx s a p g, se_raises [SDB ErrDatabase] (VerifySeq (B := B) ctx s a p g)).
  { intros ctx' s' a p g b e b' Hv. apply (seq_err (chain := chain)) in Hv as (fmt & ->). solve_raises. }
  revert fee seqs. induction ps as [|[pid id] ps IH]; intros fee seqs; cbn [computeEstimatedFee]; [solve_raises|].
  unfold fee_estimate_errors in *. solve_raises; apply IH.
Qed.

Lemma computeActualFee_raises ctx sender seqs :
  res_raises [SDB ErrDatabase; SDB ErrDataSource; SFee ErrMissingTransaction] (computeActualFee ctx sender seqs).
Proof.
  pose proof err_Parse.
  assert (forall l j, res_raises l (unmarshal_identity j)) as Hid by (intros; unfold unmarshal_identity; decode_raises).
  assert (forall l j, res_raises l (unmarshal_fee j)) as Hfe by (intros; unfold unmarshal_fee; decode_raises).
  unfold computeActualFee. apply res_raises_bind; [solve_raises|intros txMap _]. generalize 0 as acc.
  induction seqs as [|s seqs IH]; intros acc; cbn [sum_fees]; [solve_raises|].
  unfold checkTxRowConsistency, parseTxFee. solve_raises; apply IH.
Qed.

Definition fee_errors : list sentinel :=
  [SDB ErrDatabase; SDB ErrDataSource; SFee ErrBatchRangeTooLarge; SFee ErrReissueLimitExceeded;
   SFee ErrMissingPayEvent; SFee ErrMissingTransaction].

(** Every failure of the fee verifier is of a fee or database class, or untagged. *)
Lemma Fee_Verify_raises x ctx req : se_raises fee_errors (Verify (B := B) x ctx req).
Proof.
  pose proof build_pay_ids_raises. pose proof computeEstimatedFee_raises. pose proof computeActualFee_raises.
  unfold fee_estimate_errors in *. unfold Verify, validateBatchRange. unfold fee_errors. solve_raises.
Qed.
End FeeErrors.

(** ** Properties *)
Section FeeProperties.
Context `{ConfigLib} `{!JsonLib}.
Context {Ctx B : Type} `{!IndexerDB Ctx} `{!SequenceVerifier Ctx B}.

(** C2. A fee proof is true of the whole batch: there is one item per payment id of the range, each with its own pay
    event, the sequence the contract assigns, all its reissues inside the window and the transaction recorded at that
    sequence; the two sums are over exactly these items and the range does not wrap around. *)
Theorem fee_verify_sound (chain : Hash -> string -> Z) (inv : B -> Prop) (served : Ctx -> Hash -> string -> Prop)
    `{!SequenceSpec Ctx B chain inv served} x ctx req b resp b' :
  0 <= eab_SourceIDEncoded (fpc_common (Config x)) < 2 ^ 256 -> is_u64 (fp_FirstPaymentId req) -> is_u64 (fp_BatchCount req) ->
  inv b -> Verify x ctx req b = (Ok resp, b') ->
  inv b' /\ exists items, batch chain x ctx req items /\
    1 <= fp_BatchCount req /\ fp_FirstPaymentId req + fp_BatchCount req - 1 <= MaxUint64 /\
    LastPaymentId resp = fp_FirstPaymentId req + fp_BatchCount req - 1 /\
    EstimatedFee resp = Zsum (bi_allow <$> items) /\ ActualFee resp = Zsum (bi_fee <$> items).
Proof. by apply (Verify_batch_sound chain inv served). Qed.

(** C14. The verifier proves every batch that can be proved: within the batch limit, when every payment of the range
    has its event, its nonce, at most thirty-two reissues in the window and its transaction, the answer is the two sums. *)
Theorem fee_verify_complete (chain : Hash -> string -> Z) (inv : B -> Prop) (served : Ctx -> Hash -> string -> Prop)
    `{!SequenceSpec Ctx B chain inv served} x ctx req items b :
  let sourceID := eab_SourceIDEncoded (fpc_common (Config x)) in
  0 <= sourceID < 2 ^ 256 -> is_u64 (fp_FirstPaymentId req) -> is_u64 (fp_BatchCount req) -> inv b ->
  maxBatchRange x = 0 -> 1 <= fp_BatchCount req <= MaxBatchRange ->
  fp_FirstPaymentId req + fp_BatchCount req - 1 <= MaxUint64 ->
  served ctx sourceID (fp_SenderAddress req) -> batch chain x ctx req items ->
  exists b', inv b' /\ Verify x ctx req b =
    (Ok {| LastPaymentId := fp_FirstPaymentId req + fp_BatchCount req - 1;
           ActualFee := Zsum (bi_fee <$> items); EstimatedFee := Zsum (bi_allow <$> items) |}, b').
Proof. by apply (Verify_batch_complete chain inv served). Qed.

(** C30. No transaction is counted twice and no sum overflows: the two sums of an answer are those of one batch of as
    many payments as were asked about, the fee of each is that of the transaction at its own sequence, and these
    transactions are pairwise different; and both sums stay below what the XRP supply allows, far inside the response's
    uint256. *)
Theorem fee_sums_bounded (chain : Hash -> string -> Z) (inv : B -> Prop) (served : Ctx -> Hash -> string -> Prop)
    `{!SequenceSpec Ctx B chain inv served} x ctx req b resp b' :
  let sourceID := eab_SourceIDEncoded (fpc_common (Config x)) in
  0 <= sourceID < 2 ^ 256 -> is_u64 (fp_FirstPaymentId req) -> is_u64 (fp_BatchCount req) ->
  inv b -> Verify x ctx req b = (Ok resp, b') ->
  0 <= ActualFee resp <= MaxXRPDrops * fp_BatchCount req /\
  0 <= EstimatedFee resp <= MaxXRPDrops * (MaxReissuesPerPayment + 1) * fp_BatchCount req /\
  exists items, batch chain x ctx req items /\ Z.of_nat (length items) = fp_BatchCount req /\
    ActualFee resp = Zsum (bi_fee <$> items) /\ EstimatedFee resp = Zsum (bi_allow <$> items) /\
    NoDup (bi_tx <$> items) /\
    forall i it, items !! i = Some it ->
      tx_Sequence (bi_tx it) = chain sourceID (fp_SenderAddress req) + (fp_FirstPaymentId req + Z.of_nat i) - 1 /\
      row_fee (bi_tx it) (bi_fee it).
Proof.
  intros sourceID Hs Hf Hc Hb Hv.
  apply (Verify_batch_sound chain inv served) in Hv as (_ & items & Hbatch & Hpos & _ & _ & -> & ->); [|done..].
  pose proof (batch_sums _ _ _ _ _ Hbatch) as [He Ha]. pose proof (batch_transactions _ _ _ _ _ Hbatch) as Hnd.
  pose proof (ba_count _ _ _ _ _ Hbatch) as Hl. rewrite Hl, Z2Nat.id in He, Ha by lia. split; [done|]. split; [done|].
  exists items. split; [done|]. split; [lia|]. do 2 (split; [done|]). split.
  - apply (NoDup_fmap_1 tx_Sequence). by rewrite <- list_fmap_compose.
  - intros i it Hi. by eapply batch_sequences.
Qed.

(** C20. The cap on reissues is transparent: the estimate of a payment covers all its reissues in the window, each by the
    part of its fee above the payment's own maximum, and it exists exactly when there are at most thirty-two. *)
Theorem reissue_estimate_exact x ctx req eventHash paymentId m acc r :
  estimate_reissues x ctx req eventHash (eab_SourceIDEncoded (fpc_common (Config x))) paymentId m acc = Ok r <->
  exists fees, reissues x ctx req eventHash paymentId 1 fees /\
    Z.of_nat (length fees) <= MaxReissuesPerPayment /\
    r = acc + Zsum ((fun f => Z.max 0 (f - m)) <$> fees).
Proof. apply estimate_reissues_Ok. Qed.
End FeeProperties.
