(* ===== verification/Multisig.v ===== *)
(** * PMWMultisigAccountConfigured for XRP

    [api/types/pmw_multisig_account_configured.go] (the request's shape),
    [pmwmultisigconfigured/xrp/types/type.go], [.../client/client.go] and
    [.../verifier.go].  The verifier's state is [lastVerifiedNano]; times are
    Unix nanoseconds, and every reading of the clock is an argument. *)

From stdpp Require Import base list strings gmap relations.
From Stdlib Require Import ZArith Lia.
From S2P Require Import Prelude Errors GoStrings Eth Config Json.

#[local] Open Scope Z_scope.

(** ** The request *)
Definition MaxPublicKeys : Z := 32.

(** [fdc2.IPMWMultisigAccountConfiguredRequestBody] and its response. *)
Record MultisigRequest := { mr_AccountAddress : string; mr_PublicKeys : list bytes; mr_Threshold : Z }.
Record MultisigResponse := { mp_Status : Z; mp_Sequence : Z }.

Definition PMWMultisigAccountStatusOK : Z := 0.
Definition PMWMultisigAccountStatusERROR : Z := 1.

(** The loop of [ValidatePublicKeys] from index [i], with the keys seen so far. *)
Fixpoint check_keys (keys : list bytes) (i : nat) (seen : gmap string nat) : res error unit :=
  match keys with
  | [] => Ok tt
  | pk :: rest =>
      if len pk =? 0 then Err (Errorf "public key at index %d is empty" [])
      else match seen !! pk with
           | Some j => Err (Errorf "public key at index %d duplicates index %d; signers must be distinct" [])
           | None => check_keys rest (S i) (<[pk := i]> seen)
           end
  end.

Definition ValidatePublicKeys (publicKeys : list bytes) : res error unit :=
  if MaxPublicKeys <? Z.of_nat (length publicKeys) then Err (Errorf "too many public keys: %d (max %d)" [])
  else check_keys publicKeys 0 ∅.

Definition ValidateMultisigRequest (publicKeys : list bytes) (threshold : Z) : res error unit :=
  if (length publicKeys =? 0)%nat then Err (Errorf "publicKeys must not be empty" [])
  else
  _ ← ValidatePublicKeys publicKeys;
  if threshold =? 0 then Err (Errorf "threshold must be greater than zero" [])
  else Ok tt.

(** [PMWMultisigAccountConfiguredRequestBody.ToInternal]: the JSON body has the
    fields of the ABI one. *)
Definition ToInternal (requestBody : MultisigRequest) : res error MultisigRequest :=
  _ ← ValidateMultisigRequest (mr_PublicKeys requestBody) (mr_Threshold requestBody);
  Ok {| mr_AccountAddress := mr_AccountAddress requestBody; mr_PublicKeys := mr_PublicKeys requestBody;
        mr_Threshold := mr_Threshold requestBody |}.

(** ** XRPL responses *)
Record SignerEntry := { se_Account : string; se_SignerWeight : Z }.
Record SignerList := { sl_SignerQuorum : Z; sl_SignerEntries : list SignerEntry }.
Record AccountData := {
  ad_Account : string; ad_Sequence : Z; ad_RegularKey : string; ad_SignerLists : list SignerList
}.
Record AccountFlags := {
  DisableMasterKey : bool; DepositAuth : bool; RequireDestinationTag : bool; DisallowIncomingXRP : bool
}.
Record AccountInfoResult := {
  ai_AccountData : AccountData; ai_AccountFlags : option AccountFlags; ai_SignerLists : list SignerList;
  ai_Status : string; ai_Error : string; ai_Validated : option bool; ai_LedgerIndex : option Z
}.

Definition ResolveSignerLists (r : AccountInfoResult) : list SignerList :=
  if (0 <? length (ad_SignerLists (ai_AccountData r)))%nat then ad_SignerLists (ai_AccountData r)
  else ai_SignerLists r.

Record NetworkID := { ni_Value : Z; ni_Present : bool }.

(** [bytes.Trim] of the quote character. *)
Definition quote : Ascii.ascii := Ascii.ascii_of_nat 34.
Fixpoint trim_quotes (s : string) : string :=
  match s with
  | String c s' => if Ascii.eqb c quote then trim_quotes s' else s
  | EmptyString => EmptyString
  end.
Definition Trim_quotes (s : string) : string := str_reverse (trim_quotes (str_reverse (trim_quotes s))).

(** [NetworkID.UnmarshalJSON] on the text of the value. *)
Definition NetworkID_UnmarshalJSON (n : NetworkID) (b : string) : res error NetworkID :=
  let s := Trim_quotes (TrimSpace b) in
  if String.eqb s "" || String.eqb s "null" then Ok n
  else match ParseUint s 32 with
       | Err _ => Err (Errorf "invalid network_id %q: %w" [EForeign (plain_foreign "strconv.ParseUint") []])
       | Ok v => Ok {| ni_Value := u32 v; ni_Present := true |}
       end.

(** The text of a value in a document, in its plain spelling (no escapes); the first byte of
    an array or object is enough for the reader above. *)
Definition json_text (j : json) : string :=
  match j with
  | JNull => "null"
  | JBool true => "true"
  | JBool false => "false"
  | JNum lit => lit
  | JStr s => String quote (s +:+ String quote "")
  | JArr _ => "["
  | JObj _ => "{"
  end.

Record ServerInfo := { si_Status : string; si_NetworkID : NetworkID }.

Definition AccountsMap (sl : SignerList) : gmap string Z :=
  foldl (fun m entry => <[se_Account entry := se_SignerWeight entry]> m) ∅ (sl_SignerEntries sl).

(** *** Unmarshalling *)
Definition zeroEntry := {| se_Account := ""; se_SignerWeight := 0 |}.
Definition zeroSignerList := {| sl_SignerQuorum := 0; sl_SignerEntries := [] |}.
Definition zeroFlags :=
  {| DisableMasterKey := false; DepositAuth := false; RequireDestinationTag := false; DisallowIncomingXRP := false |}.
Definition zeroAccountData := {| ad_Account := ""; ad_Sequence := 0; ad_RegularKey := ""; ad_SignerLists := [] |}.
Definition zeroResult :=
  {| ai_AccountData := zeroAccountData; ai_AccountFlags := None; ai_SignerLists := []; ai_Status := "";
     ai_Error := ""; ai_Validated := None; ai_LedgerIndex := None |}.
Definition zeroServerInfo := {| si_Status := ""; si_NetworkID := {| ni_Value := 0; ni_Present := false |} |}.

Definition unmarshal_SignerEntry : decoder SignerEntry := decode_struct (fun kvs c =>
  a ← decode_field "Account" decode_string kvs (se_Account c);
  w ← decode_field "SignerWeight" (decode_uint 16) kvs (se_SignerWeight c);
  Ok {| se_Account := a; se_SignerWeight := w |}).

(** [SignerEntryWrapper], which has the entry as its only field. *)
Definition unmarshal_SignerEntryWrapper : decoder SignerEntry := decode_struct (fun kvs c =>
  decode_field "SignerEntry" unmarshal_SignerEntry kvs c).

Definition unmarshal_SignerList : decoder SignerList := decode_struct (fun kvs c =>
  q ← decode_field "SignerQuorum" (decode_uint 64) kvs (sl_SignerQuorum c);
  e ← decode_field "SignerEntries" (decode_list zeroEntry unmarshal_SignerEntryWrapper) kvs (sl_SignerEntries c);
  Ok {| sl_SignerQuorum := q; sl_SignerEntries := e |}).

Definition unmarshal_AccountData : decoder AccountData := decode_struct (fun kvs c =>
  a ← decode_field "Account" decode_string kvs (ad_Account c);
  s ← decode_field "Sequence" (decode_uint 64) kvs (ad_Sequence c);
  k ← decode_field "RegularKey" decode_string kvs (ad_RegularKey c);
  l ← decode_field "signer_lists" (decode_list zeroSignerList unmarshal_SignerList) kvs (ad_SignerLists c);
  Ok {| ad_Account := a; ad_Sequence := s; ad_RegularKey := k; ad_SignerLists := l |}).

Definition unmarshal_AccountFlags : decoder AccountFlags := decode_struct (fun kvs c =>
  m ← decode_field "disableMasterKey" decode_bool kvs (DisableMasterKey c);
  d ← decode_field "depositAuth" decode_bool kvs (DepositAuth c);
  t ← decode_field "requireDestinationTag" decode_bool kvs (RequireDestinationTag c);
  i ← decode_field "disallowIncomingXRP" decode_bool kvs (DisallowIncomingXRP c);
  Ok {| DisableMasterKey := m; DepositAuth := d; RequireDestinationTag := t; DisallowIncomingXRP := i |}).

Definition unmarshal_AccountInfoResult : decoder AccountInfoResult := decode_struct (fun kvs c =>
  a ← decode_field "account_data" unmarshal_AccountData kvs (ai_AccountData c);
  f ← decode_field "account_flags" (decode_ptr zeroFlags unmarshal_AccountFlags) kvs (ai_AccountFlags c);
  l ← decode_field "signer_lists" (decode_list zeroSignerList unmarshal_SignerList) kvs (ai_SignerLists c);
  s ← decode_field "status" decode_string kvs (ai_Status c);
  e ← decode_field "error" decode_string kvs (ai_Error c);
  v ← decode_field "validated" (decode_ptr false decode_bool) kvs (ai_Validated c);
  i ← decode_field "ledger_index" (decode_ptr 0 (decode_uint 64)) kvs (ai_LedgerIndex c);
  Ok {| ai_AccountData := a; ai_AccountFlags := f; ai_SignerLists := l; ai_Status := s; ai_Error := e;
        ai_Validated := v; ai_LedgerIndex := i |}).

(** [AccountInfoResponse], which has the result as its only field. *)
Definition unmarshal_AccountInfoResponse (j : json) : res error AccountInfoResult :=
  decode_struct (fun kvs c => decode_field "result" unmarshal_AccountInfoResult kvs c) zeroResult j.

Definition unmarshal_ServerInfoResponse (j : json) : res error ServerInfo :=
  decode_struct (fun kvs c =>
    decode_field "result" (decode_struct (fun kvs c =>
      s ← decode_field "status" decode_string kvs (si_Status c);
      n ← decode_field "info" (decode_struct (fun kvs c =>
             decode_field "network_id" (fun cur v => NetworkID_UnmarshalJSON cur (json_text v)) kvs c))
           kvs (si_NetworkID c);
      Ok {| si_Status := s; si_NetworkID := n |})) kvs c) zeroServerInfo j.

(** ** The client *)
Record request := { req_Method : string; req_Params : list json }.

Definition account_info_request (account : string) : request :=
  {| req_Method := "account_info";
     req_Params := [JObj [("account", JStr account); ("ledger_index", JStr "validated"); ("signer_lists", JBool true)]] |}.
Definition server_info_request : request := {| req_Method := "server_info"; req_Params := [JObj []] |}.

(** [call.PostWithRetry]: posts the request and decodes the answer. *)
Class CallLib (Ctx : Type) := {
  PostWithRetry : forall T : Type, Ctx -> string -> request -> (json -> res error T) -> res error T;
  WithTimeout : Ctx -> Z -> Ctx
}.
Arguments PostWithRetry {Ctx _ T}.

(** A decoded answer was decoded from a body the node sent; failures carry no
    sentinel of the program. *)
Class CallLaws (Ctx : Type) `{CallLib Ctx} := {
  Post_decodes : forall T ctx url r (d : json -> res error T) v,
    PostWithRetry ctx url r d = Ok v -> exists body, d body = Ok v;
  Post_errors : forall T ctx url r (d : json -> res error T), foreign_res (PostWithRetry ctx url r d)
}.

Definition transientRPCErrors (code : string) : bool :=
  bool_decide (code ∈ ["noNetwork"; "noCurrent"; "noClosed"; "tooBusy"; "slowDown"; "internal"; "amendmentBlocked"]%string).

Definition rpcStatusError (errorCode : string) : error :=
  if transientRPCErrors errorCode then Errorf "%w for account %s: %s (%s)" [ESentinel ErrRPCTransient]
  else Errorf "%w for account %s: %s (%s)" [ESentinel ErrRPCNonSuccess].

Record Client := { url : string }.

Section Client.
Context {Ctx : Type} `{!CallLib Ctx}.

Definition FetchAccountInfo (c : Client) (ctx : Ctx) (account : string) : res error AccountInfoResult :=
  resp ← map_err (fun err => Errorf "%w: %w" [ESentinel ErrFetchAccountInfo; err])
    (PostWithRetry ctx (url c) (account_info_request account) unmarshal_AccountInfoResponse);
  if negb (String.eqb (ai_Status resp) "success") then Err (rpcStatusError (ai_Error resp))
  else Ok resp.

(** [Client.NetworkID]: the id, or none when the node reports none. *)
Definition Client_NetworkID (c : Client) (ctx : Ctx) : res error (option Z) :=
  resp ← map_err (fun err => Errorf "%w: %w" [ESentinel ErrFetchServerInfo; err])
    (PostWithRetry ctx (url c) server_info_request unmarshal_ServerInfoResponse);
  if negb (String.eqb (si_Status resp) "success") then
    Err (Errorf "%w: status %q" [ESentinel ErrFetchServerInfo])
  else if negb (ni_Present (si_NetworkID resp)) then Ok None
  else Ok (Some (ni_Value (si_NetworkID resp))).
End Client.

(** ** The network pin *)
Definition networkPinTimeout : Z := 5 * 1_000_000_000.
Definition networkVerifyTTL : Z := 30 * 60 * 1_000_000_000.

Definition expectedNetworkID (source : SourceName) : option Z :=
  if String.eqb source SourceXRP then Some 0
  else if String.eqb source SourceTestXRP then Some 1
  else None.

Record XRPVerifier := { xv_SourceID : SourceName; xv_Client : Client }.

(** [NewXRPVerifier], whose [lastVerifiedNano] is zero. *)
Definition NewXRPVerifier `{ConfigLib} (cfg : PMWMultisigAccountConfig) : XRPVerifier * Z :=
  ({| xv_SourceID := eab_SourceID (msc_common cfg); xv_Client := {| url := msc_SourceRPCURL cfg |} |}, 0).

(** The readings of the clock in one request: by the first freshness test, by
    the one behind the mutex, and by the store after a successful probe. *)
Record readings := { at_check : Z; at_recheck : Z; at_store : Z }.

Definition verifiedFresh (now last : Z) : bool := negb (last =? 0) && (now - last <? networkVerifyTTL).

Section Network.
Context {Ctx : Type} `{!CallLib Ctx}.

Definition checkNetwork (x : XRPVerifier) (ctx : Ctx) (now : Z) : SE Z error unit := fun last =>
  match expectedNetworkID (xv_SourceID x) with
  | None => (Ok tt, now)
  | Some expected =>
      match Client_NetworkID (xv_Client x) ctx with
      | Err err => (Err err, last)
      | Ok None => (Err (Errorf "%w: node reports no network_id" [ESentinel ErrFetchServerInfo]), last)
      | Ok (Some got) =>
          if negb (got =? expected) then
            (Err (Errorf "%w: node network_id %d but source %s requires %d" [ESentinel ErrNetworkMismatch]), last)
          else (Ok tt, now)
      end
  end.

Definition VerifyNetwork (x : XRPVerifier) (ctx : Ctx) (now : Z) : SE Z error unit := fun last =>
  let '(r, last') := checkNetwork x (WithTimeout ctx networkPinTimeout) now last in
  match r with
  | Ok _ => (Ok tt, last')
  | Err err => if Is err ErrNetworkMismatch then (Err err, last') else (Ok tt, last')
  end.

(** [recheck] is the value [lastVerifiedNano] holds behind the mutex: another
    request may have stored meanwhile. *)
Definition ensureNetworkVerified (x : XRPVerifier) (ctx : Ctx) (t : readings) (recheck : Z -> Z) : SE Z error unit :=
  fun last =>
  if verifiedFresh (at_check t) last then (Ok tt, last)
  else
  let last' := recheck last in
  if verifiedFresh (at_recheck t) last' then (Ok tt, last')
  else checkNetwork x (WithTimeout ctx networkPinTimeout) (at_store t) last'.
End Network.

(** ** The account check *)
Definition checkAccountFlags (flags : AccountFlags) : res error unit :=
  if negb (DisableMasterKey flags) then Err (Errorf "master key is not disabled" [])
  else if DepositAuth flags then Err (Errorf "deposit authorization is enabled" [])
  else if RequireDestinationTag flags then Err (Errorf "destination tag is required" [])
  else if DisallowIncomingXRP flags then Err (Errorf "incoming XRP is disallowed" [])
  else Ok tt.

(** The key functions of tee-node, go-ethereum and go-flare-common. *)
Class KeyLib := {
  PubKey : Type;
  ParsePubKeyBytes : bytes -> res error PubKey;
  CompressPubkey : PubKey -> bytes;
  hex_EncodeToString : bytes -> string;
  PubToAddress : string -> res error string
}.

Section Verifier.
Context `{KeyLib} {Ctx : Type} `{!CallLib Ctx}.

Definition XRPAddressFromPubKey (pubkey : bytes) : res error string :=
  pk ← ParsePubKeyBytes pubkey;
  PubToAddress (hex_EncodeToString (CompressPubkey pk)).

(** The loop that builds [expectedAccounts]. *)
Fixpoint expected_accounts (keys : list bytes) (acc : gset string) : option (gset string) :=
  match keys with
  | [] => Some acc
  | pk :: rest =>
      match XRPAddressFromPubKey pk with
      | Err _ => None
      | Ok addrStr => expected_accounts rest ({[addrStr]} ∪ acc)
      end
  end.

Definition validateSignerList (signerList : SignerList) (req : MultisigRequest) : bool :=
  match expected_accounts (mr_PublicKeys req) ∅ with
  | None => false
  | Some expectedAccounts =>
      let actualAccounts := AccountsMap signerList in
      if negb (size actualAccounts =? size expectedAccounts)%nat then false
      else if negb (forallb (fun acc => bool_decide (actualAccounts !! acc = Some 1)) (elements expectedAccounts)) then false
      else sl_SignerQuorum signerList =? mr_Threshold req
  end.

Definition validateMultisigConfiguration (accountInfo : AccountInfoResult) (req : MultisigRequest) : res error Z :=
  if negb (String.eqb (ad_Account (ai_AccountData accountInfo)) (mr_AccountAddress req)) then
    Err (Errorf "account_info returned account %q for requested %q: %w" [ESentinel ErrValidationFailed])
  else if negb (bool_decide (ai_Validated accountInfo = Some true)) then
    Err (Errorf "account_info response is not from a validated ledger for %s: %w" [ESentinel ErrValidationFailed])
  else match ResolveSignerLists accountInfo with
  | [] => Err (Errorf "no signer list for account %s: %w" [ESentinel ErrValidationFailed])
  | signerList :: _ =>
      if negb (validateSignerList signerList req) then
        Err (Errorf "signer list invalid for account %s: %w" [ESentinel ErrValidationFailed])
      else match ai_AccountFlags accountInfo with
      | None => Err (Errorf "account_flags missing from account_info response for %s: %w" [ESentinel ErrValidationFailed])
      | Some flags =>
          _ ← map_err (fun err => Errorf "invalid flag for account%s: %w: %w" [err; ESentinel ErrValidationFailed])
            (checkAccountFlags flags);
          if negb (String.eqb (ad_RegularKey (ai_AccountData accountInfo)) "") then
            Err (Errorf "account %s has regular key set: %w" [ESentinel ErrValidationFailed])
          else Ok (ad_Sequence (ai_AccountData accountInfo))
      end
  end.

Definition Verify (x : XRPVerifier) (ctx : Ctx) (t : readings) (recheck : Z -> Z) (req : MultisigRequest)
    : SE Z error MultisigResponse :=
  _ ← lift (map_err (fun err => Errorf "%w: %w" [ESentinel ErrInvalidRequest; err])
    (ValidateMultisigRequest (mr_PublicKeys req) (mr_Threshold req)));
  _ ← ensureNetworkVerified x ctx t recheck;
  accountInfo ← lift (FetchAccountInfo (xv_Client x) ctx (mr_AccountAddress req));
  match validateMultisigConfiguration accountInfo req with
  | Err _ => lift (Ok {| mp_Status := PMWMultisigAccountStatusERROR; mp_Sequence := 0 |})
  | Ok sequence => lift (Ok {| mp_Status := PMWMultisigAccountStatusOK; mp_Sequence := sequence |})
  end.
End Verifier.

(** ** Specification *)

(** A request a signer list can satisfy. *)
Definition well_formed_request (keys : list bytes) (threshold : Z) : Prop :=
  1 <= Z.of_nat (length keys) <= MaxPublicKeys /\ Forall (fun pk => pk <> ""%string) keys /\ NoDup keys /\ threshold <> 0.

Section Spec.
Context `{KeyLib}.

(** The account's control is with the requested keys and with nobody else: the
    signers are the keys' addresses, each with weight one, the quorum is the
    threshold, and neither the master key nor a regular key can sign. *)
Record multisig_account (info : AccountInfoResult) (req : MultisigRequest) (sequence : Z) : Prop := {
  ma_account : ad_Account (ai_AccountData info) = mr_AccountAddress req;
  ma_validated : ai_Validated info = Some true;
  ma_signers : exists sl rest addrs, ResolveSignerLists info = sl :: rest /\
    Forall2 (fun pk a => XRPAddressFromPubKey pk = Ok a) (mr_PublicKeys req) addrs /\
    AccountsMap sl = gset_to_gmap 1 (list_to_set addrs) /\ sl_SignerQuorum sl = mr_Threshold req;
  ma_flags : exists f, ai_AccountFlags info = Some f /\ DisableMasterKey f = true /\ DepositAuth f = false /\
    RequireDestinationTag f = false /\ DisallowIncomingXRP f = false;
  ma_regular : ad_RegularKey (ai_AccountData info) = ""%string;
  ma_sequence : sequence = ad_Sequence (ai_AccountData info)
}.
End Spec.

(** *** The pin as a state machine

    [pin_step x last last']: some request stores into [lastVerifiedNano], which
    happens only after a probe.  [trace] keeps the probes that led to a store. *)
Inductive pin_step {Ctx} `{!CallLib Ctx} (x : XRPVerifier) : list (Ctx * Z) -> Z -> list (Ctx * Z) -> Z -> Prop :=
| pin_probe trace last ctx now r last' :
    checkNetwork x ctx now last = (r, last') ->
    pin_step x trace last (if is_ok r then (ctx, now) :: trace else trace) last'.

Inductive pin_reachable {Ctx} `{!CallLib Ctx} (x : XRPVerifier) : list (Ctx * Z) -> Z -> Prop :=
| pin_start : pin_reachable x [] 0
| pin_next trace last trace' last' :
    pin_reachable x trace last -> pin_step x trace last trace' last' -> pin_reachable x trace' last'.

(** ** Lemmas *)
Lemma check_keys_Ok keys i seen :
  check_keys keys i seen = Ok tt <->
  Forall (fun pk => pk <> ""%string) keys /\ NoDup keys /\ forall pk, pk ∈ keys -> seen !! pk = None.
Proof.
  revert i seen. induction keys as [|pk keys IH]; intros i seen; cbn [check_keys].
  - split; [|done]. intros _. split; [constructor|split; [constructor|intros ? []%not_elem_of_nil]].
  - rewrite Forall_cons, NoDup_cons. setoid_rewrite elem_of_cons.
    destruct (Z.eqb_spec (len pk) 0) as [Hl|Hl].
    { split; [done|]. intros ((Hne & _) & _). by destruct pk. }
    assert (pk <> ""%string) by (intros ->; done).
    destruct (seen !! pk) as [j|] eqn:Hs.
    + split; [done|]. intros (_ & _ & Hf). specialize (Hf pk (or_introl eq_refl)). congruence.
    + rewrite IH. split.
      * intros (? & ? & Hf). split_and!; [done..| |done|].
        -- intros Hin. specialize (Hf pk Hin). by rewrite lookup_insert_eq in Hf.
        -- intros k [->|Hin]; [done|]. specialize (Hf k Hin). rewrite lookup_insert in Hf. by case_decide.
      * intros ((_ & ?) & (Hni & ?) & Hf). split_and!; [done..|]. intros k Hin.
        rewrite lookup_insert_ne by (intros ->; done). auto.
Qed.

Lemma ValidateMultisigRequest_Ok keys threshold :
  ValidateMultisigRequest keys threshold = Ok tt <-> well_formed_request keys threshold.
Proof.
  unfold ValidateMultisigRequest, ValidatePublicKeys, well_formed_request.
  destruct (Nat.eqb_spec (length keys) 0); [split; [done|lia]|].
  destruct (Z.ltb_spec MaxPublicKeys (Z.of_nat (length keys))); cbn [mbind res_bind]; [split; [done|lia]|].
  destruct (check_keys keys 0 ∅) as [[]|e] eqn:Hc; cbn [mbind res_bind].
  - apply check_keys_Ok in Hc as (? & ? & _). destruct (Z.eqb_spec threshold 0); split; try done; [naive_solver|].
    intros _. split_and!; [lia..|done|done|done].
  - split; [done|]. intros (_ & Hne & Hnd & _). exfalso.
    assert (check_keys keys 0 ∅ = Ok tt) by (apply check_keys_Ok; done). congruence.
Qed.

Lemma checkAccountFlags_Ok f :
  checkAccountFlags f = Ok tt <->
  DisableMasterKey f = true /\ DepositAuth f = false /\ RequireDestinationTag f = false /\ DisallowIncomingXRP f = false.
Proof. destruct f as [[] [] [] []]; cbn; naive_solver. Qed.

(** With the ledger's guarantee that a list has no account twice, the map says
    what the entries say. *)
Lemma AccountsMap_entry sl a w :
  NoDup (se_Account <$> sl_SignerEntries sl) ->
  AccountsMap sl !! a = Some w <->
  exists e, e ∈ sl_SignerEntries sl /\ se_Account e = a /\ se_SignerWeight e = w.
Proof.
  intros Hnd. unfold AccountsMap.
  assert (forall (l : list SignerEntry) (m : gmap string Z), NoDup (se_Account <$> l) ->
    foldl (fun m e => <[se_Account e := se_SignerWeight e]> m) m l !! a = Some w <->
    (exists e, e ∈ l /\ se_Account e = a /\ se_SignerWeight e = w) \/ (m !! a = Some w /\ a ∉ (se_Account <$> l))) as Hgen.
  { clear Hnd. induction l as [|e l IH]; intros m Hnd; cbn [foldl].
    - split; [intros; right; split; [done|apply not_elem_of_nil]|]. intros [(? & []%not_elem_of_nil & _)|[? _]]; done.
    - rewrite fmap_cons in Hnd. apply NoDup_cons in Hnd as [Hne Hnd]. rewrite IH by done.
      rewrite lookup_insert, fmap_cons, not_elem_of_cons. split.
      + intros [(e' & ? & ?)|[He Hni]]; [left; exists e'; split; [by apply list_elem_of_further|done]|].
        case_decide as Hd; [simplify_eq; left; exists e; split; [apply list_elem_of_here|done]|].
        right. auto.
      + intros [(e' & [->|Hin]%elem_of_cons & <- & <-)|(Hm & Hae & Hni)].
        * right. by rewrite decide_True.
        * left; eauto.
        * right. by rewrite decide_False. }
  rewrite Hgen by done. split; [intros [?|[? _]]; done|auto].
Qed.

Section AccountLemmas.
Context `{KeyLib}.

Lemma expected_cons (a : string) addrs (acc : gset string) :
  list_to_set addrs ∪ ({[a]} ∪ acc) = list_to_set (a :: addrs) ∪ acc.
Proof. apply set_eq. intros y. rewrite list_to_set_cons, !elem_of_union. tauto. Qed.

Lemma expected_accounts_Some keys acc s :
  expected_accounts keys acc = Some s <->
  exists addrs, Forall2 (fun pk a => XRPAddressFromPubKey pk = Ok a) keys addrs /\ s = list_to_set addrs ∪ acc.
Proof.
  revert acc. induction keys as [|pk keys IH]; intros acc; cbn [expected_accounts].
  - split.
    + intros [= <-]. exists []. split; [constructor|]. cbn. by rewrite union_empty_l_L.
    + intros (addrs & ->%Forall2_nil_inv_l & ->). cbn. by rewrite union_empty_l_L.
  - destruct (XRPAddressFromPubKey pk) as [a|e] eqn:Ha.
    + rewrite IH. split.
      * intros (addrs & ? & ->). exists (a :: addrs). split; [by constructor|]. by rewrite expected_cons.
      * intros (? & (a' & addrs & Ha' & Hall & ->)%Forall2_cons_inv_l & ->). assert (a' = a) as -> by congruence.
        exists addrs. split; [done|]. symmetry; apply expected_cons.
    + split; [done|]. intros (? & (a' & addrs & ? & _)%Forall2_cons_inv_l & _). congruence.
Qed.

Lemma size_ones (s : gset string) : size (gset_to_gmap 1 s) = size s.
Proof. rewrite <- (size_dom (gset_to_gmap 1 s)), dom_gset_to_gmap. done. Qed.

Lemma gset_to_gmap_exact (m : gmap string Z) (s : gset string) :
  size m = size s -> (forall a, a ∈ s -> m !! a = Some 1) -> m = gset_to_gmap 1 s.
Proof.
  intros Hsize Hall. symmetry. apply map_subseteq_size_eq.
  - apply map_subseteq_spec. intros a w. rewrite lookup_gset_to_gmap_Some. intros [? <-]. auto.
  - by rewrite Hsize, size_ones.
Qed.

Lemma validateSignerList_true sl req :
  validateSignerList sl req = true <->
  exists addrs, Forall2 (fun pk a => XRPAddressFromPubKey pk = Ok a) (mr_PublicKeys req) addrs /\
    AccountsMap sl = gset_to_gmap 1 (list_to_set addrs) /\ sl_SignerQuorum sl = mr_Threshold req.
Proof.
  unfold validateSignerList. split.
  - destruct (expected_accounts _ _) as [s|] eqn:He; [|done].
    apply expected_accounts_Some in He as (addrs & Hall & ->). rewrite union_empty_r_L.
    destruct (Nat.eqb_spec (size (AccountsMap sl)) (size (list_to_set addrs : gset string))) as [Hsz|]; cbn [negb]; [|done].
    destruct (forallb _ _) eqn:Hf; cbn [negb]; [|done]. intros Hq%Z.eqb_eq.
    exists addrs. split; [done|]. split; [|done]. apply gset_to_gmap_exact; [done|].
    rewrite forallb_forall in Hf. intros a Ha. specialize (Hf a).
    rewrite bool_decide_eq_true in Hf. apply Hf. apply list_elem_of_In. apply elem_of_elements. set_solver.
  - intros (addrs & Hall & Hm & Hq).
    rewrite (proj2 (expected_accounts_Some _ ∅ (list_to_set addrs)))
      by (exists addrs; split; [done|by rewrite union_empty_r_L]).
    rewrite Hm.
    rewrite size_ones, Nat.eqb_refl. cbn [negb].
    assert (forallb (fun acc => bool_decide ((gset_to_gmap 1 (list_to_set addrs : gset string)) !! acc = Some 1))
              (elements (list_to_set addrs : gset string)) = true) as ->.
    { apply forallb_forall. intros a Ha. apply list_elem_of_In, elem_of_elements in Ha.
      apply bool_decide_eq_true. by apply lookup_gset_to_gmap_Some. }
    cbn [negb]. by apply Z.eqb_eq.
Qed.

Lemma validateMultisigConfiguration_Ok info req seq :
  validateMultisigConfiguration info req = Ok seq <-> multisig_account info req seq.
Proof.
  unfold validateMultisigConfiguration. split.
  - destruct (String.eqb_spec (ad_Account (ai_AccountData info)) (mr_AccountAddress req)); cbn [negb]; [|done].
    destruct (bool_decide (ai_Validated info = Some true)) eqn:Hv; cbn [negb]; [|done]. apply bool_decide_eq_true in Hv.
    destruct (ResolveSignerLists info) as [|sl rest] eqn:Hsl; [done|].
    destruct (validateSignerList sl req) eqn:Hval; cbn [negb]; [|done].
    apply validateSignerList_true in Hval as (addrs & ? & ? & ?).
    destruct (ai_AccountFlags info) as [f|] eqn:Hf; [|done].
    intros ([] & Hfl & Hr)%res_bind_Ok. apply map_err_Ok, checkAccountFlags_Ok in Hfl as (? & ? & ? & ?).
    destruct (String.eqb_spec (ad_RegularKey (ai_AccountData info)) ""); cbn [negb] in Hr; [|done]. injection Hr as <-.
    constructor; eauto 10.
  - intros [Ha Hv (sl & rest & addrs & Hsl & Hs) (f & Hf & Hfl) Hreg ->].
    rewrite Ha, String.eqb_refl, bool_decide_true, Hsl by done. cbn [negb].
    rewrite (proj2 (validateSignerList_true sl req)) by eauto. cbn [negb]. rewrite Hf.
    rewrite (proj2 (checkAccountFlags_Ok f)) by done. cbn [map_err mbind res_bind]. by rewrite Hreg.
Qed.
End AccountLemmas.

Section NetworkLemmas.
Context {Ctx : Type} `{!CallLib Ctx} (x : XRPVerifier).

(** The node answered a probe with the network the source requires. *)
Definition confirms (ctx : Ctx) : Prop :=
  match expectedNetworkID (xv_SourceID x) with
  | None => True
  | Some expected => Client_NetworkID (xv_Client x) ctx = Ok (Some expected)
  end.

Lemma checkNetwork_cases ctx now last r last' :
  checkNetwork x ctx now last = (r, last') ->
  (r = Ok tt /\ last' = now /\ confirms ctx) \/ (is_ok r = false /\ last' = last /\ ~ confirms ctx).
Proof.
  unfold checkNetwork, confirms. destruct (expectedNetworkID _) as [exp|]; [|intros [= <- <-]; auto].
  destruct (Client_NetworkID (xv_Client x) ctx) as [[got|]|e]; [|intros [= <- <-]; auto 10 ..].
  destruct (Z.eqb_spec got exp) as [->|]; cbn [negb]; intros [= <- <-]; [auto|].
  right. split_and!; [done..|]. intros [= ->]. done.
Qed.

(** Every stored time is the time of a probe that confirmed the network. *)
Lemma pin_invariant trace last :
  pin_reachable x trace last ->
  Forall (fun p => confirms p.1) trace /\ (last = 0 \/ exists ctx, (ctx, last) ∈ trace).
Proof.
  induction 1 as [|trace last trace' last' _ [Hall Hlast] Hstep]; [split; [constructor|auto]|].
  destruct Hstep as [trace last ctx now r last' Hc].
  apply checkNetwork_cases in Hc as [(-> & -> & Hc)|(Hr & -> & _)]; cbn [is_ok].
  - split; [by constructor|]. right. exists ctx. apply list_elem_of_here.
  - by rewrite Hr.
Qed.

(** No time is stored, or there was a probe that confirmed the network. *)
Definition probed (last : Z) : Prop := last = 0 \/ exists ctx, confirms ctx.

Lemma ensureNetworkVerified_probed ctx t recheck :
  (forall last, probed (recheck last)) -> forall last, probed last ->
  probed (ensureNetworkVerified x ctx t recheck last).2 /\
  ((ensureNetworkVerified x ctx t recheck last).1 = Ok tt -> exists c, confirms c).
Proof.
  intros Hre last Hl. unfold ensureNetworkVerified, verifiedFresh.
  destruct (Z.eqb_spec last 0) as [|Hz]; cbn [negb andb];
    [|destruct (_ <? networkVerifyTTL); [destruct Hl; [done|by split; [right|]]|]].
  all: specialize (Hre last); destruct (Z.eqb_spec (recheck last) 0) as [|Hz']; cbn [negb andb];
    [|destruct (_ <? networkVerifyTTL); [destruct Hre; [done|by split; [right|]]|]].
  all: match goal with |- probed (?m ?c ?n ?l).2 /\ _ => destruct (m c n l) as [r last'] eqn:E end;
    apply checkNetwork_cases in E as [(-> & -> & Hc)|(Hr & -> & _)]; cbn [fst snd];
    [by split; [right; eexists|eexists]|split; [done|intros ->; done]].
Qed.
End NetworkLemmas.

(** An answered request, call by call: what the answer states of the account. *)
Lemma Verify_stated `{KeyLib} {Ctx : Type} `{!CallLib Ctx} (x : XRPVerifier) ctx t recheck req last resp last' :
  Verify x ctx t recheck req last = (Ok resp, last') ->
  well_formed_request (mr_PublicKeys req) (mr_Threshold req) /\
  ensureNetworkVerified x ctx t recheck last = (Ok tt, last') /\
  exists info, FetchAccountInfo (xv_Client x) ctx (mr_AccountAddress req) = Ok info /\
    ((exists seq, multisig_account info req seq /\ resp = {| mp_Status := PMWMultisigAccountStatusOK; mp_Sequence := seq |}) \/
     (forall seq, ~ multisig_account info req seq) /\ resp = {| mp_Status := PMWMultisigAccountStatusERROR; mp_Sequence := 0 |}).
Proof.
  intros ([] & s1 & [Hreq%map_err_Ok%ValidateMultisigRequest_Ok ->]%lift_eq & Hv)%se_bind_Ok.
  apply se_bind_Ok in Hv as ([] & s2 & Hnet & Hv). apply se_bind_Ok in Hv as (info & s3 & [Hinfo ->]%lift_eq & Hv).
  split; [done|]. split; [destruct (validateMultisigConfiguration info req); by apply lift_eq in Hv as [_ ->]|].
  exists info. split; [done|]. destruct (validateMultisigConfiguration info req) as [sq|e] eqn:Ev; apply lift_eq in Hv as [[= <-] _].
  - left. exists sq. split; [by apply validateMultisigConfiguration_Ok|done].
  - right. split; [|done]. intros sq Hsq%validateMultisigConfiguration_Ok. congruence.
Qed.

(** ... and how its status is to be read. *)
Lemma Verify_answer `{KeyLib} {Ctx : Type} `{!CallLib Ctx} (x : XRPVerifier) ctx t recheck req last resp last' :
  Verify x ctx t recheck req last = (Ok resp, last') ->
  well_formed_request (mr_PublicKeys req) (mr_Threshold req) /\
  ensureNetworkVerified x ctx t recheck last = (Ok tt, last') /\
  exists info, FetchAccountInfo (xv_Client x) ctx (mr_AccountAddress req) = Ok info /\
    (mp_Status resp = PMWMultisigAccountStatusOK <-> exists seq, multisig_account info req seq) /\
    (mp_Status resp = PMWMultisigAccountStatusOK -> multisig_account info req (mp_Sequence resp)).
Proof.
  intros (Hreq & Hnet & info & Hinfo & Hresp)%Verify_stated. split; [done|]. split; [done|]. exists info. split; [done|].
  destruct Hresp as [(seq & Hseq & ->)|[Hno ->]]; cbn; [split; [split; eauto|done]|].
  split; [|done]. split; [done|]. intros [seq Hseq]. by apply Hno in Hseq.
Qed.

(** A probe that confirms the network is enough, however fresh the last one. *)
Lemma ensureNetworkVerified_confirmed {Ctx : Type} `{!CallLib Ctx} (x : XRPVerifier) ctx t recheck last :
  confirms x (WithTimeout ctx networkPinTimeout) -> (ensureNetworkVerified x ctx t recheck last).1 = Ok tt.
Proof.
  intros Hc. unfold ensureNetworkVerified. destruct (verifiedFresh (at_check t) last); [done|].
  destruct (verifiedFresh (at_recheck t) (recheck last)); [done|].
  destruct (checkNetwork x _ (at_store t) (recheck last)) as [r last'] eqn:E.
  by apply checkNetwork_cases in E as [(-> & _)|(_ & _ & ?)].
Qed.

(** A request that can be answered is, and with the account's sequence when
    the account is configured. *)
Lemma Verify_answered `{KeyLib} {Ctx : Type} `{!CallLib Ctx} (x : XRPVerifier) ctx t recheck req last info :
  well_formed_request (mr_PublicKeys req) (mr_Threshold req) -> confirms x (WithTimeout ctx networkPinTimeout) ->
  FetchAccountInfo (xv_Client x) ctx (mr_AccountAddress req) = Ok info ->
  exists resp last', Verify x ctx t recheck req last = (Ok resp, last') /\
    (forall seq, multisig_account info req seq -> resp = {| mp_Status := PMWMultisigAccountStatusOK; mp_Sequence := seq |}) /\
    ((forall seq, ~ multisig_account info req seq) -> resp = {| mp_Status := PMWMultisigAccountStatusERROR; mp_Sequence := 0 |}).
Proof.
  intros Hreq Hc Hinfo. unfold Verify. rewrite (proj2 (ValidateMultisigRequest_Ok _ _) Hreq). cbn [map_err].
  pose proof (ensureNetworkVerified_confirmed x ctx t recheck last Hc) as Hn.
  unfold mbind, se_bind, lift. destruct (ensureNetworkVerified x ctx t recheck last) as [r last']. cbn in Hn. subst r.
  rewrite Hinfo. destruct (validateMultisigConfiguration info req) as [sq|err] eqn:Ev.
  - apply validateMultisigConfiguration_Ok in Ev. eexists _, _. split; [done|].
    split; [|intros Hno; by apply Hno in Ev]. intros seq Hs. f_equal. by rewrite (ma_sequence _ _ _ Ev), (ma_sequence _ _ _ Hs).
  - eexists _, _. split; [done|]. split; [|done]. intros seq Hs%validateMultisigConfiguration_Ok. congruence.
Qed.

(** Requests store the times of confirming probes only. *)
Lemma Multisig_Verify_keeps `{KeyLib} {Ctx : Type} `{!CallLib Ctx} (x : XRPVerifier) ctx t recheck req :
  (forall last, probed x (recheck last)) -> keeps (probed x) (Verify x ctx t recheck req).
Proof.
  intros Hre. unfold Verify. apply keeps_bind; [apply keeps_lift|intros _]. apply keeps_bind.
  - intros last Hl. by apply ensureNetworkVerified_probed.
  - intros _. apply keeps_bind; [apply keeps_lift|intros info]. destruct (validateMultisigConfiguration _ _); apply keeps_lift.
Qed.

(** ** Errors *)
Section MultisigErrors.
Context `{KeyLib} {Ctx : Type} `{!CallLib Ctx} `{!CallLaws Ctx}.

Lemma ValidateMultisigRequest_raises l keys t : res_raises l (ValidateMultisigRequest keys t).
Proof.
  unfold ValidateMultisigRequest, ValidatePublicKeys.
  assert (forall keys i seen, res_raises l (check_keys keys i seen)).
  { intros ks. induction ks; intros; cbn [check_keys]; solve_raises; auto. }
  solve_raises.
Qed.

Lemma FetchAccountInfo_raises c ctx a :
  res_raises [SClient ErrFetchAccountInfo; SClient ErrRPCTransient; SClient ErrRPCNonSuccess] (FetchAccountInfo c ctx a).
Proof. pose proof Post_errors. unfold FetchAccountInfo, rpcStatusError. solve_raises. Qed.

Lemma Client_NetworkID_raises c ctx : res_raises [SClient ErrFetchServerInfo] (Client_NetworkID c ctx).
Proof. pose proof Post_errors. unfold Client_NetworkID. solve_raises. Qed.

Definition network_errors : list sentinel := [SClient ErrFetchServerInfo; SMultisig ErrNetworkMismatch].

Lemma checkNetwork_raises x ctx now : se_raises network_errors (checkNetwork x ctx now).
Proof.
  intros s e s'. unfold checkNetwork. destruct (expectedNetworkID _) as [expected|]; [|done].
  pose proof (Client_NetworkID_raises (xv_Client x) ctx) as Hn.
  destruct (Client_NetworkID (xv_Client x) ctx) as [[got|]|err]; [destruct (negb _)|..]; intros [= <- _]; solve_raises.
  eapply raises_weaken; [|by apply Hn]. intros t ->%list_elem_of_singleton. apply list_elem_of_here.
Qed.

Definition multisig_errors : list sentinel :=
  [SMultisig ErrInvalidRequest; SClient ErrFetchServerInfo; SMultisig ErrNetworkMismatch;
   SClient ErrFetchAccountInfo; SClient ErrRPCTransient; SClient ErrRPCNonSuccess].

(** Every failure of the multisig verifier is of a request, client or network class. *)
Lemma Multisig_Verify_raises x ctx t re req : se_raises multisig_errors (Verify x ctx t re req).
Proof.
  pose proof ValidateMultisigRequest_raises. pose proof FetchAccountInfo_raises.
  assert (se_raises network_errors (ensureNetworkVerified x ctx t re)).
  { intros s e s'. unfold ensureNetworkVerified. repeat case_match; try done. apply checkNetwork_raises. }
  unfold network_errors in *. unfold Verify, multisig_errors. solve_raises.
Qed.
End MultisigErrors.

(** ** Properties *)
Section MultisigProperties.
Context `{KeyLib}.

(** C11. The account check is exact: it accepts exactly the accounts of the validated ledger whose signer list is the
    requested keys' addresses with weight one each and the requested quorum, with the master key disabled, no regular
    key, and the deposit and destination restrictions off; the answer carries the account's sequence. *)
Theorem multisig_configuration_exact info req seq :
  validateMultisigConfiguration info req = Ok seq <-> multisig_account info req seq.
Proof. apply validateMultisigConfiguration_Ok. Qed.

(** C21. No answer on an unverified network: whatever requests ran before and whatever ran meanwhile, an answered
    request had a probe of its own node that returned the source's network id no longer than thirty minutes before, and
    says that the account is configured only when it is. *)
Theorem multisig_verify_pinned {Ctx : Type} `{!CallLib Ctx} (x : XRPVerifier) trace trace' last last0 ctx t req resp last' :
  pin_reachable x trace last -> pin_reachable x trace' last0 ->
  Verify x ctx t (fun _ => last0) req last = (Ok resp, last') ->
  well_formed_request (mr_PublicKeys req) (mr_Threshold req) /\
  ((exists c at_, confirms x c /\ ((c, at_) ∈ trace /\ at_check t - at_ < networkVerifyTTL \/
                                  (c, at_) ∈ trace' /\ at_recheck t - at_ < networkVerifyTTL)) \/
   confirms x (WithTimeout ctx networkPinTimeout)) /\
  exists info, FetchAccountInfo (xv_Client x) ctx (mr_AccountAddress req) = Ok info /\
    (mp_Status resp = PMWMultisigAccountStatusOK <-> exists seq, multisig_account info req seq) /\
    (mp_Status resp = PMWMultisigAccountStatusOK -> multisig_account info req (mp_Sequence resp)).
Proof.
  intros [Hc1 Hl1]%pin_invariant [Hc2 Hl2]%pin_invariant (Hreq & Hnet & Hinfo)%Verify_answer.
  rewrite Forall_forall in Hc1, Hc2. split; [done|]. split; [|done].
  unfold ensureNetworkVerified, verifiedFresh in Hnet.
  destruct (negb (last =? 0) && _) eqn:E1.
  { apply andb_true_iff in E1 as [Hz%negb_true_iff%Z.eqb_neq Hf%Z.ltb_lt]. destruct Hl1 as [?|[c Hc]]; [done|].
    left. exists c, last. split; [by apply (Hc1 _ Hc)|auto]. }
  destruct (negb (last0 =? 0) && _) eqn:E2.
  { apply andb_true_iff in E2 as [Hz%negb_true_iff%Z.eqb_neq Hf%Z.ltb_lt]. destruct Hl2 as [?|[c Hc]]; [done|].
    left. exists c, last0. split; [by apply (Hc2 _ Hc)|auto]. }
  right. apply checkNetwork_cases in Hnet as [(_ & _ & ?)|(? & _ & _)]; done.
Qed.
End MultisigProperties.
