(* ===== verification/UrlValidation.v ===== *)
(** * teeavailabilitycheck/verifier: URL validation

    [url_validation.go]: which URLs the verifier dereferences, and which
    address it pins the connection to.  [net/netip] is modelled: an address is
    the integer its bytes denote, with its family.  Parsing of URLs and address
    literals, and name resolution, are the operations of [NetLib]. *)

From stdpp Require Import base list strings.
From Stdlib Require Import ZArith Lia Ascii.
From S2P Require Import Prelude Errors GoStrings.

#[local] Open Scope Z_scope.

Definition dnsLookupTimeout : Z := 750 * 1_000_000.
Definition maxURLLength : Z := 2048.

(** ** net and net/netip *)

(** [net.IP]: a slice of bytes. *)
Abbreviation IP := (list Z) (only parsing).

Inductive Addr := V4 (n : Z) | V6 (n : Z).
#[global] Instance Addr_eq_dec : EqDecision Addr. Proof. solve_decision. Defined.

Definition be_int (base : Z) (l : list Z) : Z := foldl (fun acc b => acc * base + b) 0 l.

(** [netip.AddrFromSlice] *)
Definition AddrFromSlice (ip : IP) : option Addr :=
  if (length ip =? 4)%nat then Some (V4 (be_int 256 ip))
  else if (length ip =? 16)%nat then Some (V6 (be_int 256 ip))
  else None.

(** [Addr.Unmap]: ::ffff:a.b.c.d is a.b.c.d. *)
Definition Unmap (a : Addr) : Addr :=
  match a with
  | V4 n => V4 n
  | V6 n => if Z.shiftr n 32 =? 0xffff then V4 (n mod 2 ^ 32) else V6 n
  end.

Definition v4 (a b c d : Z) : Addr := V4 (be_int 256 [a; b; c; d]).
(** An IPv6 address by its eight groups. *)
Definition v6 (l : list Z) : Addr := V6 (be_int 65536 l).

Record Prefix := { pf_addr : Addr; pf_bits : Z }.

(** [Prefix.Contains]: same family and same leading bits. *)
Definition Contains (p : Prefix) (a : Addr) : bool :=
  match pf_addr p, a with
  | V4 m, V4 n => Z.shiftr m (32 - pf_bits p) =? Z.shiftr n (32 - pf_bits p)
  | V6 m, V6 n => Z.shiftr m (128 - pf_bits p) =? Z.shiftr n (128 - pf_bits p)
  | _, _ => false
  end.

Definition IsLinkLocalUnicast (a : Addr) : bool :=
  match a with V4 n => Z.shiftr n 16 =? 0xa9fe | V6 n => Z.shiftr n 118 =? Z.shiftr 0xfe80 6 end.
Definition IsLinkLocalMulticast (a : Addr) : bool :=
  match a with V4 n => Z.shiftr n 8 =? 0xe00000 | V6 n => Z.land (Z.shiftr n 112) 0xff0f =? 0xff02 end.
Definition IsMulticast (a : Addr) : bool :=
  match a with V4 n => Z.land (Z.shiftr n 24) 0xf0 =? 0xe0 | V6 n => Z.shiftr n 120 =? 0xff end.
Definition IsUnspecified (a : Addr) : bool := match a with V4 n => n =? 0 | V6 n => n =? 0 end.
Definition IsLoopback (a : Addr) : bool := match a with V4 n => Z.shiftr n 24 =? 127 | V6 n => n =? 1 end.
Definition IsPrivate (a : Addr) : bool :=
  match a with
  | V4 n => (Z.shiftr n 24 =? 10) || ((Z.shiftr n 24 =? 172) && (Z.land (Z.shiftr n 16 mod 256) 0xf0 =? 16)) ||
            (Z.shiftr n 16 =? 0xc0a8)
  | V6 n => Z.land (Z.shiftr n 120) 0xfe =? 0xfc
  end.
Definition IPv6Loopback : Addr := V6 1.

(** ** The blocked ranges *)
Definition blockedIPPrefixes : list Prefix :=
  [ {| pf_addr := v4 0 0 0 0; pf_bits := 8 |};
    {| pf_addr := v4 100 64 0 0; pf_bits := 10 |};
    {| pf_addr := v4 198 18 0 0; pf_bits := 15 |};
    {| pf_addr := v6 [0x2001; 0xdb8; 0; 0; 0; 0; 0; 0]; pf_bits := 32 |};
    {| pf_addr := v6 [0x100; 0; 0; 0; 0; 0; 0; 0]; pf_bits := 64 |};
    {| pf_addr := v6 [0x2002; 0; 0; 0; 0; 0; 0; 0]; pf_bits := 16 |};
    {| pf_addr := v6 [0x2001; 0; 0; 0; 0; 0; 0; 0]; pf_bits := 32 |};
    {| pf_addr := v6 [0x64; 0xff9b; 0; 0; 0; 0; 0; 0]; pf_bits := 96 |};
    {| pf_addr := v6 [0xfd00; 0xec2; 0; 0; 0; 0; 0; 0x254]; pf_bits := 128 |};
    {| pf_addr := v6 [0xfec0; 0; 0; 0; 0; 0; 0; 0]; pf_bits := 10 |} ].

Definition ipv4CompatPrefix : Prefix := {| pf_addr := v6 [0; 0; 0; 0; 0; 0; 0; 0]; pf_bits := 96 |}.

Definition isDangerousIP (ip : IP) : bool :=
  match AddrFromSlice ip with
  | None => true
  | Some addr0 =>
      let addr := Unmap addr0 in
      if IsLinkLocalUnicast addr || IsLinkLocalMulticast addr || IsMulticast addr || IsUnspecified addr then true
      else if Contains ipv4CompatPrefix addr && negb (bool_decide (addr = IPv6Loopback)) then true
      else existsb (fun prefix => Contains prefix addr) blockedIPPrefixes
  end.

Definition isPrivateOrLocalIP (ip : IP) : bool :=
  if isDangerousIP ip then true
  else match AddrFromSlice ip with
       | None => false
       | Some addr0 => let addr := Unmap addr0 in IsLoopback addr || IsPrivate addr
       end.

(** ** Resolution *)

(** [url.URL], what the sources read of it. *)
Record URL := {
  u_Scheme : string; u_Host : string; u_User : bool; (* User != nil *)
  u_Hostname : string; u_Port : string
}.

Class NetLib (Ctx : Type) := {
  url_Parse : string -> res error URL;
  ParseIP : string -> option IP;
  IP_String : IP -> string;
  LookupIPAddr : Ctx -> string -> res error (list IP);
  dns_timeout : Ctx -> Z -> Ctx        (* context.WithTimeout *)
}.

Record ResolvedURL := {
  rv_Scheme : string; rv_Host : string; rv_Hostname : string; rv_Port : string; rv_IP : IP
}.

Section Resolve.
Context {Ctx : Type} `{!NetLib Ctx}.

Definition resolved (u : URL) (ip : IP) : ResolvedURL :=
  {| rv_Scheme := u_Scheme u; rv_Host := u_Host u; rv_Hostname := u_Hostname u; rv_Port := u_Port u; rv_IP := ip |}.

Definition url_error (fmt : string) (ws : list error) : error := Errorf fmt (ESentinel ErrURLValidation :: ws).

Definition resolveExternalURL (ctx : Ctx) (rawURL : string) (allowPrivateNetworks : bool) : res error ResolvedURL :=
  if maxURLLength <? len rawURL then Err (url_error "%w: URL length %d exceeds max %d" [])
  else
  parsedURL ← map_err (fun err => url_error "%w: invalid URL %q: %w" [err]) (url_Parse rawURL);
  if negb (String.eqb (u_Scheme parsedURL) "http") && negb (String.eqb (u_Scheme parsedURL) "https") then
    Err (url_error "%w: unsupported URL scheme %q: only http and https are allowed" [])
  else if String.eqb (u_Host parsedURL) "" then Err (url_error "%w: URL host is required" [])
  else if u_User parsedURL then Err (url_error "%w: URL userinfo is not allowed" [])
  else
  let host := TrimSuffix (ToLower (u_Hostname parsedURL)) "." in
  if String.eqb host "" then Err (url_error "%w: URL hostname is required" [])
  else if negb allowPrivateNetworks && (String.eqb host "localhost" || HasSuffix host ".localhost") then
    Err (url_error "%w: local hostnames are not allowed: %s" [])
  else
  let ipCheckFn := if allowPrivateNetworks then isDangerousIP else isPrivateOrLocalIP in
  match ParseIP host with
  | Some ip =>
      if ipCheckFn ip then Err (url_error "%w: private/local or dangerous IPs are not allowed: %s" [])
      else Ok (resolved parsedURL ip)
  | None =>
      resolvedIPs ← map_err (fun err => url_error "%w: cannot resolve hostname %q: %w" [err])
        (LookupIPAddr (dns_timeout ctx dnsLookupTimeout) host);
      match resolvedIPs with
      | [] => Err (url_error "%w: hostname %q resolved to no IP addresses" [])
      | first :: _ =>
          if existsb ipCheckFn resolvedIPs then
            Err (url_error "%w: hostname %q resolves to private/local or dangerous IP %s" [])
          else Ok (resolved parsedURL first)
      end
  end.

Definition ResolveExternalURL := resolveExternalURL.

(** [net.JoinHostPort] *)
Definition JoinHostPort (host port : string) : string :=
  if negb (no_char ":"%char host) then "[" +:+ host +:+ "]:" +:+ port
  else host +:+ ":" +:+ port.

(** [BuildPinnedAddr]: dial address, Host header, TLS server name. *)
Definition BuildPinnedAddr (r : ResolvedURL) : string * string * string :=
  let port := if String.eqb (rv_Port r) "" then
                (if String.eqb (rv_Scheme r) "https" then "443" else "80")%string
              else rv_Port r in
  (JoinHostPort (IP_String (rv_IP r)) port, rv_Host r, rv_Hostname r).
End Resolve.

(** ** Specification *)

(** The addresses of the public Internet, as ranges of integers: everything
    outside the special-purpose blocks. *)
Definition special_v4 : list (Z * Z) :=
  [ (be_int 256 [0;0;0;0], be_int 256 [0;255;255;255]);
    (be_int 256 [10;0;0;0], be_int 256 [10;255;255;255]);
    (be_int 256 [100;64;0;0], be_int 256 [100;127;255;255]);
    (be_int 256 [127;0;0;0], be_int 256 [127;255;255;255]);
    (be_int 256 [169;254;0;0], be_int 256 [169;254;255;255]);
    (be_int 256 [172;16;0;0], be_int 256 [172;31;255;255]);
    (be_int 256 [192;168;0;0], be_int 256 [192;168;255;255]);
    (be_int 256 [198;18;0;0], be_int 256 [198;19;255;255]);
    (be_int 256 [224;0;0;0], be_int 256 [239;255;255;255]) ].

Definition in_ranges (l : list (Z * Z)) (n : Z) : Prop := exists r, r ∈ l /\ r.1 <= n <= r.2.

(** ** Lemmas *)
Lemma shiftr_range n k m : 0 <= k -> Z.shiftr n k = m <-> m * 2 ^ k <= n < (m + 1) * 2 ^ k.
Proof.
  intros Hk. rewrite Z.shiftr_div_pow2 by done. assert (0 < 2 ^ k) by (apply Z.pow_pos_nonneg; lia).
  pose proof (Z.div_mod n (2 ^ k) ltac:(lia)). pose proof (Z.mod_pos_bound n (2 ^ k) ltac:(lia)). split.
  - intros <-. nia.
  - intros ?. nia.
Qed.

Lemma be_int_bound base l :
  0 < base -> Forall (fun b => 0 <= b < base) l -> 0 <= be_int base l < base ^ Z.of_nat (length l).
Proof.
  intros Hb Hl. unfold be_int.
  assert (forall acc, 0 <= acc ->
    acc * base ^ Z.of_nat (length l) <= foldl (fun acc b => acc * base + b) acc l < (acc + 1) * base ^ Z.of_nat (length l)) as Hgen.
  2: { specialize (Hgen 0). lia. }
  induction Hl as [|b l Hx Hl IH]; intros acc Hacc; cbn [foldl length]; [rewrite Z.pow_0_r; lia|].
  rewrite Nat2Z.inj_succ, Z.pow_succ_r by lia. specialize (IH (acc * base + b) ltac:(nia)).
  assert (0 < base ^ Z.of_nat (length l)) by (apply Z.pow_pos_nonneg; lia). nia.
Qed.

(** The masks of the library's tests, on one byte. *)
Lemma byte_mask n mask step :
  forallb (fun k => Z.land (Z.of_nat k) mask =? step * (Z.of_nat k / step)) (seq 0 256) = true ->
  0 <= n < 256 -> Z.land n mask = step * (n / step).
Proof.
  intros Hall Hn. rewrite forallb_forall in Hall. specialize (Hall (Z.to_nat n)).
  rewrite Z2Nat.id in Hall by lia. apply Z.eqb_eq, Hall, in_seq. lia.
Qed.

Lemma land_f0 n m : 0 <= n < 256 -> m mod 16 = 0 -> Z.land n 0xf0 = m <-> m <= n < m + 16.
Proof.
  intros Hn Hm. rewrite (byte_mask n 0xf0 16) by (done || vm_compute; done).
  pose proof (Z.div_mod n 16 ltac:(lia)). pose proof (Z.mod_pos_bound n 16 ltac:(lia)).
  pose proof (Z.div_mod m 16 ltac:(lia)). lia.
Qed.

Lemma existsb_cons {A} (f : A -> bool) x l : existsb f (x :: l) = f x || existsb f l.
Proof. done. Qed.

Lemma in_ranges_cons lo hi l n : in_ranges ((lo, hi) :: l) n <-> lo <= n <= hi \/ in_ranges l n.
Proof.
  unfold in_ranges. split.
  - intros (r & [->|Hr]%elem_of_cons & ?); [auto|eauto].
  - intros [?|(r & ? & ?)]; [exists (lo, hi); split; [apply list_elem_of_here|done]|].
    exists r. split; [by apply list_elem_of_further|done].
Qed.

Lemma in_ranges_nil n : in_ranges [] n <-> False.
Proof. unfold in_ranges. split; [intros (r & []%not_elem_of_nil & _)|done]. Qed.

(** The IPv4 checks together are the table of special-purpose blocks. *)
Definition blocked_v4 (n : Z) : bool :=
  IsLinkLocalUnicast (V4 n) || IsLinkLocalMulticast (V4 n) || IsMulticast (V4 n) || IsUnspecified (V4 n) ||
  existsb (fun p => Contains p (V4 n)) blockedIPPrefixes || IsLoopback (V4 n) || IsPrivate (V4 n).

Lemma blocked_v4_ranges n : 0 <= n < 2 ^ 32 -> blocked_v4 n = true <-> in_ranges special_v4 n.
Proof.
  intros Hn. unfold blocked_v4, special_v4, blockedIPPrefixes. rewrite !in_ranges_cons, in_ranges_nil, !existsb_cons.
  cbn [IsLinkLocalUnicast IsLinkLocalMulticast IsMulticast IsUnspecified IsLoopback IsPrivate Contains pf_addr pf_bits v4 v6 existsb].
  assert (0 <= Z.shiftr n 24 < 256) as H24.
  { rewrite Z.shiftr_div_pow2 by done. pose proof (Z.div_mod n (2 ^ 24) ltac:(lia)).
    pose proof (Z.mod_pos_bound n (2 ^ 24) ltac:(lia)). lia. }
  assert (0 <= Z.shiftr n 16 mod 256 < 256) as H16 by (apply Z.mod_pos_bound; lia).
  assert (Z.shiftr n 16 = 256 * Z.shiftr n 24 + Z.shiftr n 16 mod 256) as Hsplit.
  { change 24 with (16 + 8). rewrite <- Z.shiftr_shiftr by done. rewrite (Z.shiftr_div_pow2 (Z.shiftr n 16) 8) by done.
    change (2 ^ 8) with 256. apply Z.div_mod. lia. }
  rewrite !orb_true_iff, andb_true_iff, !Z.eqb_eq, (land_f0 _ 0xe0), (land_f0 _ 16) by done.
  repeat match goal with |- context [be_int ?b ?l] =>
    let v := eval vm_compute in (be_int b l) in change (be_int b l) with v end.
  repeat match goal with |- context [32 - ?k] => let v := eval vm_compute in (32 - k) in change (32 - k) with v end.
  repeat match goal with |- context [Z.shiftr (Z.pos ?p) ?k] =>
    let v := eval vm_compute in (Z.shiftr (Z.pos p) k) in change (Z.shiftr (Z.pos p) k) with v end.
  rewrite ?Z.shiftr_0_l.
  pose proof (proj1 (shiftr_range n 24 _ ltac:(lia)) eq_refl). pose proof (proj1 (shiftr_range n 16 _ ltac:(lia)) eq_refl).
  pose proof (proj1 (shiftr_range n 8 _ ltac:(lia)) eq_refl). pose proof (proj1 (shiftr_range n 22 _ ltac:(lia)) eq_refl).
  pose proof (proj1 (shiftr_range n 17 _ ltac:(lia)) eq_refl).
  generalize dependent (Z.shiftr n 16 mod 256). generalize dependent (Z.shiftr n 24). generalize dependent (Z.shiftr n 16).
  generalize dependent (Z.shiftr n 8). generalize dependent (Z.shiftr n 22). generalize dependent (Z.shiftr n 17).
  intros. lia.
Qed.

Lemma be_int_app base a b : be_int base (a ++ b) = be_int base a * base ^ Z.of_nat (length b) + be_int base b.
Proof.
  unfold be_int. rewrite foldl_app. generalize (foldl (fun acc x => acc * base + x) 0 a) as c.
  assert (forall c acc, foldl (fun acc x => acc * base + x) (c + acc) b =
    c * base ^ Z.of_nat (length b) + foldl (fun acc x => acc * base + x) acc b) as Hgen.
  2: { intros c. by rewrite <- Hgen, Z.add_0_r. }
  induction b as [|x b IH]; intros c acc; cbn [foldl length]; [rewrite Z.pow_0_r; lia|].
  rewrite Z.mul_add_distr_r, <- Z.add_assoc, IH, Nat2Z.inj_succ, Z.pow_succ_r by lia. ring.
Qed.

Abbreviation byte_list := (Forall (fun b : Z => 0 <= b < 256)).

Lemma v4_bound ip : length ip = 4%nat -> byte_list ip -> 0 <= be_int 256 ip < 2 ^ 32.
Proof. intros Hl Hb. pose proof (be_int_bound 256 ip ltac:(lia) Hb) as H. by rewrite Hl in H. Qed.

(** Both tests look at the unmapped address only. *)
Definition dangerous_addr (addr : Addr) : bool :=
  if IsLinkLocalUnicast addr || IsLinkLocalMulticast addr || IsMulticast addr || IsUnspecified addr then true
  else if Contains ipv4CompatPrefix addr && negb (bool_decide (addr = IPv6Loopback)) then true
  else existsb (fun prefix => Contains prefix addr) blockedIPPrefixes.

Lemma isDangerousIP_addr ip a : AddrFromSlice ip = Some a -> isDangerousIP ip = dangerous_addr (Unmap a).
Proof. unfold isDangerousIP. by intros ->. Qed.

Lemma isPrivateOrLocalIP_addr ip a :
  AddrFromSlice ip = Some a ->
  isPrivateOrLocalIP ip = dangerous_addr (Unmap a) || IsLoopback (Unmap a) || IsPrivate (Unmap a).
Proof.
  intros Ha. unfold isPrivateOrLocalIP. rewrite (isDangerousIP_addr _ _ Ha), Ha.
  by destruct (dangerous_addr (Unmap a)).
Qed.

Lemma dangerous_v4 n :
  dangerous_addr (V4 n) || IsLoopback (V4 n) || IsPrivate (V4 n) = blocked_v4 n.
Proof.
  unfold dangerous_addr, blocked_v4. change (Contains ipv4CompatPrefix (V4 n)) with false. cbn [andb].
  destruct (_ || IsUnspecified (V4 n)); [done|]. by rewrite orb_false_l.
Qed.

Lemma AddrFromSlice_4 ip : length ip = 4%nat -> AddrFromSlice ip = Some (V4 (be_int 256 ip)).
Proof. unfold AddrFromSlice. by intros ->. Qed.
Lemma AddrFromSlice_16 ip : length ip = 16%nat -> AddrFromSlice ip = Some (V6 (be_int 256 ip)).
Proof. unfold AddrFromSlice. by intros ->. Qed.

(** ** Embeddings of an IPv4 address in IPv6 *)
Definition mapped (ip4 : IP) : IP := replicate 10 0 ++ [255; 255] ++ ip4.     (* ::ffff:a.b.c.d *)
Definition compatible (ip4 : IP) : IP := replicate 12 0 ++ ip4.                (* ::a.b.c.d *)
Definition nat64 (ip4 : IP) : IP := [0; 0x64; 0xff; 0x9b] ++ replicate 8 0 ++ ip4.  (* 64:ff9b::a.b.c.d *)
Definition sixtofour (ip4 rest : IP) : IP := [0x20; 0x02] ++ ip4 ++ rest.     (* 2002:aabb:ccdd::/48 *)

Lemma Unmap_mapped ip4 :
  length ip4 = 4%nat -> byte_list ip4 ->
  AddrFromSlice (mapped ip4) = Some (V6 (be_int 256 (mapped ip4))) /\
  Unmap (V6 (be_int 256 (mapped ip4))) = V4 (be_int 256 ip4).
Proof.
  intros Hl Hb. pose proof (v4_bound ip4 Hl Hb) as Hn. split.
  { apply AddrFromSlice_16. unfold mapped. rewrite !length_app, length_replicate, Hl. done. }
  unfold mapped. rewrite app_assoc, be_int_app, Hl.
  change (be_int 256 (replicate 10 0 ++ [255; 255])) with 0xffff. change (256 ^ Z.of_nat 4) with (2 ^ 32).
  cbn [Unmap]. rewrite (proj2 (shiftr_range _ 32 0xffff ltac:(lia))) by lia.
  change (0xffff =? 0xffff) with true. cbn beta iota. f_equal.
  rewrite Z.add_comm, Z_mod_plus_full. apply Z.mod_small. lia.
Qed.

Lemma mapped_same ip4 :
  length ip4 = 4%nat -> byte_list ip4 ->
  isDangerousIP (mapped ip4) = isDangerousIP ip4 /\ isPrivateOrLocalIP (mapped ip4) = isPrivateOrLocalIP ip4.
Proof.
  intros Hl Hb. destruct (Unmap_mapped ip4 Hl Hb) as [Ha Hu].
  rewrite (isDangerousIP_addr _ _ Ha), (isPrivateOrLocalIP_addr _ _ Ha), Hu.
  rewrite (isDangerousIP_addr _ _ (AddrFromSlice_4 _ Hl)), (isPrivateOrLocalIP_addr _ _ (AddrFromSlice_4 _ Hl)). done.
Qed.

Lemma dangerous_prefix n p :
  p ∈ blockedIPPrefixes \/ (p = ipv4CompatPrefix /\ n <> 1) -> Contains p (V6 n) = true -> dangerous_addr (V6 n) = true.
Proof.
  intros Hp Hc. unfold dangerous_addr. destruct (_ || IsUnspecified (V6 n)); [done|].
  destruct Hp as [Hp|[-> Hn]].
  - destruct (_ && _); [done|]. apply existsb_exists. exists p. split; [by apply list_elem_of_In|done].
  - rewrite Hc, bool_decide_false by (intros [= ->]; done). done.
Qed.

Lemma Unmap_other n : Z.shiftr n 32 <> 0xffff -> Unmap (V6 n) = V6 n.
Proof. intros Hn. cbn. by rewrite (proj2 (Z.eqb_neq _ _) Hn). Qed.

(** A 16-byte address whose leading bytes are those of a blocked range is
    dangerous whatever follows. *)
Lemma embedded_dangerous lead rest p :
  (length lead + length rest = 16)%nat -> byte_list rest ->
  (p ∈ blockedIPPrefixes \/ (p = ipv4CompatPrefix /\ be_int 256 (lead ++ rest) <> 1)) ->
  (forall r, 0 <= r < 256 ^ Z.of_nat (length rest) ->
     let n := be_int 256 lead * 256 ^ Z.of_nat (length rest) + r in
     Z.shiftr n 32 <> 0xffff /\ Contains p (V6 n) = true) ->
  isDangerousIP (lead ++ rest) = true.
Proof.
  intros Hlen Hb Hp Hn. rewrite (isDangerousIP_addr _ _ (AddrFromSlice_16 _ ltac:(rewrite length_app; done))).
  rewrite be_int_app in *. destruct (Hn (be_int 256 rest) (be_int_bound 256 rest ltac:(lia) Hb)) as [Hs Hc].
  rewrite Unmap_other by done. by apply (dangerous_prefix _ p).
Qed.

Lemma contains_v6 m bits n k v :
  128 - bits = k -> 0 <= k -> Z.shiftr m k = v -> v * 2 ^ k <= n < (v + 1) * 2 ^ k ->
  Contains {| pf_addr := V6 m; pf_bits := bits |} (V6 n) = true.
Proof. intros Hk H0 Hm Hn. cbn. rewrite Hk, Hm. apply Z.eqb_eq. symmetry. by apply shiftr_range. Qed.

Lemma nat64_dangerous ip4 : length ip4 = 4%nat -> byte_list ip4 -> isDangerousIP (nat64 ip4) = true.
Proof.
  intros Hl Hb. unfold nat64. rewrite app_assoc.
  apply (embedded_dangerous _ _ {| pf_addr := v6 [0x64; 0xff9b; 0; 0; 0; 0; 0; 0]; pf_bits := 96 |}).
  - rewrite Hl. done.
  - done.
  - left. repeat (apply list_elem_of_here || apply list_elem_of_further).
  - intros r. rewrite Hl. assert (256 ^ Z.of_nat 4 = 2 ^ 32) as -> by done. intros Hr n. subst n.
    assert (be_int 256 ([0; 100; 255; 155] ++ replicate 8 0) = 0x64ff9b * 2 ^ 64) as -> by (vm_compute; done). split.
    + intros Hs%(shiftr_range _ 32 _ ltac:(lia)). lia.
    + apply (contains_v6 _ _ _ 32 (0x64ff9b * 2 ^ 64)); [done|lia|vm_compute; done|lia].
Qed.

Lemma sixtofour_dangerous ip4 rest :
  length ip4 = 4%nat -> length rest = 10%nat -> byte_list ip4 -> byte_list rest ->
  isDangerousIP (sixtofour ip4 rest) = true.
Proof.
  intros Hl Hr Hb Hbr. unfold sixtofour.
  apply (embedded_dangerous _ _ {| pf_addr := v6 [0x2002; 0; 0; 0; 0; 0; 0; 0]; pf_bits := 16 |}).
  - rewrite length_app, Hl, Hr. done.
  - by apply Forall_app.
  - left. repeat (apply list_elem_of_here || apply list_elem_of_further).
  - intros r. rewrite length_app, Hl, Hr. assert (256 ^ Z.of_nat (4 + 10) = 2 ^ 112) as -> by (vm_compute; done). intros Hrr n. subst n.
    assert (be_int 256 [32; 2] = 0x2002) as -> by (vm_compute; done). split.
    + intros Hs%(shiftr_range _ 32 _ ltac:(lia)). lia.
    + apply (contains_v6 _ _ _ 112 0x2002); [done|lia|vm_compute; done|lia].
Qed.

Lemma compatible_dangerous ip4 :
  length ip4 = 4%nat -> byte_list ip4 -> be_int 256 ip4 <> 1 -> isDangerousIP (compatible ip4) = true.
Proof.
  intros Hl Hb Hne. unfold compatible.
  apply (embedded_dangerous _ _ ipv4CompatPrefix).
  - rewrite Hl. done.
  - done.
  - right. split; [done|]. rewrite be_int_app. change (be_int 256 (replicate 12 0)) with 0. lia.
  - intros r. rewrite Hl. assert (256 ^ Z.of_nat 4 = 2 ^ 32) as -> by done. intros Hr n. subst n.
    assert (be_int 256 (replicate 12 0) = 0) as -> by (vm_compute; done). split.
    + intros Hs%(shiftr_range _ 32 _ ltac:(lia)). lia.
    + apply (contains_v6 _ _ _ 32 0); [done|lia|vm_compute; done|lia].
Qed.

(** ** What a resolved URL guarantees *)
Section ResolveLemmas.
Context {Ctx : Type} `{!NetLib Ctx}.

Definition forbidden (allowPrivateNetworks : bool) : IP -> bool :=
  if allowPrivateNetworks then isDangerousIP else isPrivateOrLocalIP.

Lemma resolveExternalURL_Ok ctx raw allow r :
  resolveExternalURL ctx raw allow = Ok r ->
  len raw <= maxURLLength /\
  exists u, url_Parse raw = Ok u /\ (u_Scheme u = "http" \/ u_Scheme u = "https")%string /\
    u_Host u <> ""%string /\ u_User u = false /\ r = resolved u (rv_IP r) /\
    let host := TrimSuffix (ToLower (u_Hostname u)) "." in
    host <> ""%string /\
    (allow = false -> host <> "localhost"%string /\ HasSuffix host ".localhost" = false) /\
    (ParseIP host = Some (rv_IP r) \/
     ParseIP host = None /\ exists ips, LookupIPAddr (dns_timeout ctx dnsLookupTimeout) host = Ok ips /\
       head ips = Some (rv_IP r) /\ Forall (fun ip => forbidden allow ip = false) ips) /\
    forbidden allow (rv_IP r) = false.
Proof.
  unfold resolveExternalURL, forbidden. destruct (Z.ltb_spec maxURLLength (len raw)); [done|].
  intros (u & Hu%map_err_Ok & Hr)%res_bind_Ok. split; [done|]. exists u. split; [done|].
  destruct (String.eqb_spec (u_Scheme u) "http") as [Hs|Hs], (String.eqb_spec (u_Scheme u) "https") as [Hs'|Hs'];
    cbn [negb andb] in Hr; try done.
  all: destruct (String.eqb_spec (u_Host u) ""); [done|].
  all: destruct (u_User u); [done|].
  all: set (host := TrimSuffix (ToLower (u_Hostname u)) ".") in *; destruct (String.eqb_spec host ""); [done|].
  all: destruct (negb allow && (String.eqb host "localhost" || HasSuffix host ".localhost")) eqn:Hl; [done|].
  all: assert (allow = false -> host <> "localhost"%string /\ HasSuffix host ".localhost" = false) as Hloc
    by (intros ->; cbn in Hl; apply orb_false_iff in Hl as [Hl ?]; apply String.eqb_neq in Hl; done).
  all: cbn zeta in Hr; destruct (ParseIP host) as [ip|].
  all: try (destruct ((if allow then isDangerousIP else isPrivateOrLocalIP) ip) eqn:Hck; [done|];
    injection Hr as <-; cbn; split_and!; by auto).
  all: apply res_bind_Ok in Hr as (ips & Hips%map_err_Ok & Hr); destruct ips as [|first ips]; [done|].
  all: destruct (existsb _ (first :: ips)) eqn:Hex; [done|]; injection Hr as <-; cbn [rv_IP resolved].
  all: assert (Forall (fun ip => (if allow then isDangerousIP else isPrivateOrLocalIP) ip = false) (first :: ips)) as Hall
    by (apply Forall_forall; intros ip Hin; apply not_true_iff_false; intros Ht;
        apply not_true_iff_false in Hex; apply Hex, existsb_exists; exists ip; split; [by apply list_elem_of_In|done]).
  all: split_and!; auto; [right; split; [done|]; eauto|by apply Forall_cons in Hall as [? _]].
Qed.

Lemma resolveExternalURL_tagged ctx raw allow e :
  resolveExternalURL ctx raw allow = Err e -> Is e ErrURLValidation = true.
Proof.
  unfold resolveExternalURL. destruct (_ <? _); [by intros [= <-]|].
  destruct (url_Parse raw) as [u|e0]; cbn [map_err mbind res_bind]; [|by intros [= <-]].
  repeat (case_match; try (by intros [= <-])).
  all: destruct (LookupIPAddr _ _) as [ips|e0]; cbn [map_err mbind res_bind]; [|by intros [= <-]].
  all: destruct ips; [by intros [= <-]|]; case_match; by intros [= <-].
Qed.
End ResolveLemmas.

(** ** Errors *)
(** *** How a resolution fails *)
Section ResolutionFailures.
Context {Ctx : Type} `{!NetLib Ctx} (ctx : Ctx) (raw : string) (allow : bool).

(** The URL is one whose host is a name to be looked up. *)
Record looks_up (host : string) : Prop := {
  lk_length : len raw <= maxURLLength;
  lk_url : exists u, url_Parse raw = Ok u /\ (u_Scheme u = "http" \/ u_Scheme u = "https")%string /\
    u_Host u <> ""%string /\ u_User u = false /\ host = TrimSuffix (ToLower (u_Hostname u)) ".";
  lk_host : host <> ""%string /\ (allow = false -> host <> "localhost"%string /\ HasSuffix host ".localhost" = false);
  lk_name : ParseIP host = None
}.

(** The look-up failed, the URL did not parse, or it or its addresses are refused. *)
Inductive resolution_failure : error -> Prop :=
| lookup_failed host err : looks_up host -> LookupIPAddr (dns_timeout ctx dnsLookupTimeout) host = Err err ->
    resolution_failure (url_error "%w: cannot resolve hostname %q: %w" [err])
| URL_unreadable err : url_Parse raw = Err err -> resolution_failure (url_error "%w: invalid URL %q: %w" [err])
| URL_refused fmt : resolution_failure (url_error fmt []).

Lemma looks_up_run host :
  looks_up host -> forall err, LookupIPAddr (dns_timeout ctx dnsLookupTimeout) host = Err err ->
  resolveExternalURL ctx raw allow = Err (url_error "%w: cannot resolve hostname %q: %w" [err]).
Proof.
  intros [Hlen (u & Hu & Hs & Hh & Huser & ->) [Hne Hloc] Hip] err Hl. unfold resolveExternalURL.
  rewrite (proj2 (Z.ltb_ge _ _) Hlen), Hu. cbn [map_err mbind res_bind].
  assert (negb (String.eqb (u_Scheme u) "http") && negb (String.eqb (u_Scheme u) "https") = false) as ->.
  { destruct Hs as [-> | ->]; reflexivity. }
  rewrite (proj2 (String.eqb_neq _ _) Hh), Huser, (proj2 (String.eqb_neq _ _) Hne).
  assert (negb allow && (String.eqb (TrimSuffix (ToLower (u_Hostname u)) ".") "localhost" ||
    HasSuffix (TrimSuffix (ToLower (u_Hostname u)) ".") ".localhost") = false) as ->.
  { destruct allow; [done|]. destruct (Hloc eq_refl) as [Hn%String.eqb_neq Hsuf]. by rewrite Hn, Hsuf. }
  by rewrite Hip, Hl.
Qed.

Lemma resolveExternalURL_Err e : resolveExternalURL ctx raw allow = Err e -> resolution_failure e.
Proof.
  unfold resolveExternalURL. destruct (Z.ltb_spec maxURLLength (len raw)) as [|Hlen]; [intros [= <-]; constructor|].
  destruct (url_Parse raw) as [u|err] eqn:Hu; cbn [map_err mbind res_bind]; [|intros [= <-]; by constructor].
  destruct (negb (String.eqb (u_Scheme u) "http") && _) eqn:Hs; [intros [= <-]; constructor|].
  destruct (String.eqb_spec (u_Host u) "") as [|Hh]; [intros [= <-]; constructor|].
  destruct (u_User u) eqn:Huser; [intros [= <-]; constructor|]. cbn zeta. set (host := TrimSuffix _ _).
  destruct (String.eqb_spec host "") as [|Hne]; [intros [= <-]; constructor|].
  destruct (negb allow && _) eqn:Hloc; [intros [= <-]; constructor|].
  destruct (ParseIP host) as [ip|] eqn:Hip; [destruct ((if allow then _ else _) ip); [intros [= <-]; constructor|done]|].
  destruct (LookupIPAddr _ host) as [ips|err] eqn:Hl; cbn [map_err mbind res_bind].
  - destruct ips as [|first ips]; [intros [= <-]; constructor|]. destruct (existsb _ _); [intros [= <-]; constructor|done].
  - intros [= <-]. apply (lookup_failed host); [|done]. constructor; [done| | |done].
    + exists u. split; [done|]. split; [|done]. apply andb_false_iff in Hs as [Hs|Hs]; apply negb_false_iff, String.eqb_eq in Hs; auto.
    + split; [done|]. intros ->. cbn in Hloc. apply orb_false_iff in Hloc as [Hn%String.eqb_neq ?]. done.
Qed.
End ResolutionFailures.

Class NetErrors (Ctx : Type) `{NetLib Ctx} := {
  err_url_Parse : forall s, foreign_res (url_Parse s);
  local_url_Parse : forall s e, url_Parse s = Err e -> local_error e;
  err_Lookup : forall ctx h, foreign_res (LookupIPAddr ctx h)
}.

Lemma resolveExternalURL_raises {Ctx} `{NetErrors Ctx} ctx raw allow :
  res_raises [SUrl ErrURLValidation] (resolveExternalURL ctx raw allow).
Proof.
  pose proof err_url_Parse. pose proof err_Lookup. unfold resolveExternalURL, url_error. solve_raises.
Qed.
#[export] Hint Resolve resolveExternalURL_raises : raise_db.

(** ** Properties *)
(** C25. The IPv4 filter is exact and cannot be bypassed through IPv6: of all four-byte addresses it lets through those
    outside the special-purpose ranges (unspecified, private, shared, loopback, link-local, benchmarking, multicast) and
    no other; the mapped form is judged as the IPv4 address it carries, and the NAT64, 6to4 and IPv4-compatible forms
    of any IPv4 address are always refused (but for ::1, which is loopback). *)
Theorem private_v4_exact ip4 rest :
  length ip4 = 4%nat -> length rest = 10%nat -> byte_list ip4 -> byte_list rest ->
  (isPrivateOrLocalIP ip4 = true <-> in_ranges special_v4 (be_int 256 ip4)) /\
  isDangerousIP (mapped ip4) = isDangerousIP ip4 /\ isPrivateOrLocalIP (mapped ip4) = isPrivateOrLocalIP ip4 /\
  isDangerousIP (nat64 ip4) = true /\ isDangerousIP (sixtofour ip4 rest) = true /\
  (be_int 256 ip4 <> 1 -> isDangerousIP (compatible ip4) = true).
Proof.
  intros Hl Hr Hb Hb'. split.
  { rewrite (isPrivateOrLocalIP_addr ip4 (V4 (be_int 256 ip4))) by (by apply AddrFromSlice_4).
    change (Unmap (V4 (be_int 256 ip4))) with (V4 (be_int 256 ip4)). rewrite dangerous_v4. apply blocked_v4_ranges. by apply v4_bound. }
  split; [by apply mapped_same|]. split; [by apply mapped_same|]. split; [by apply nat64_dangerous|].
  split; [by apply sixtofour_dangerous|]. intros. by apply compatible_dangerous.
Qed.

(** C24. A resolved URL is safe to dial: a plain http or https URL of bounded length without credentials, not localhost,
    pinned to an address that passes the filter; and when the name came from DNS, every address it has passes. *)
Theorem resolved_url_safe {Ctx : Type} `{!NetLib Ctx} ctx raw allow r :
  resolveExternalURL ctx raw allow = Ok r ->
  len raw <= maxURLLength /\
  exists u, url_Parse raw = Ok u /\ (u_Scheme u = "http" \/ u_Scheme u = "https")%string /\
    u_Host u <> ""%string /\ u_User u = false /\ r = resolved u (rv_IP r) /\
    let host := TrimSuffix (ToLower (u_Hostname u)) "." in
    host <> ""%string /\
    (allow = false -> host <> "localhost"%string /\ HasSuffix host ".localhost" = false) /\
    (ParseIP host = Some (rv_IP r) \/
     ParseIP host = None /\ exists ips, LookupIPAddr (dns_timeout ctx dnsLookupTimeout) host = Ok ips /\
       head ips = Some (rv_IP r) /\ Forall (fun ip => forbidden allow ip = false) ips) /\
    forbidden allow (rv_IP r) = false.
Proof. apply resolveExternalURL_Ok. Qed.
