(* ===== verification/Fetcher.v ===== *)
(** * teeavailabilitycheck: fetching and error classification

    [fetcher/fetcher.go] and [verifier/types/{error,samples}.go].  One HTTP
    round trip is an operation of [HttpLib]; what the sources add around it (the
    pinned transport, the refused redirect, the status switch, the size cap, the
    retry loop) is modelled. *)

From stdpp Require Import base list strings.
From Stdlib Require Import ZArith Lia.
From S2P Require Import Prelude Errors GoStrings.

#[local] Open Scope Z_scope.

(** ** One HTTP exchange *)

(** A response: its status, its [Location] header as [URL.Parse] reads it, the
    bytes its body delivers, and the error that ends the body if it is not a
    clean end. *)
Record HttpResponse := {
  hr_StatusCode : Z; hr_Location : option (res error string); hr_Body : string; hr_BodyErr : option error
}.

(** A GET request: its URL and its Host header. *)
Record HttpRequest := { hq_url : string; hq_Host : string }.

(** [http.Transport].  [tr_DialContext] maps the address a request needs to the
    one connected to, with the dialer's timeout; none: the address itself. *)
Record http_Transport := {
  tr_MaxIdleConns : Z; tr_MaxConnsPerHost : Z; tr_MaxIdleConnsPerHost : Z; tr_IdleConnTimeout : Z;
  tr_TLSHandshakeTimeout : Z; tr_MaxResponseHeaderBytes : Z; tr_ResponseHeaderTimeout : Z;
  tr_DialContext : option (string -> string * Z); tr_ServerName : option string
}.

Class HttpLib (Ctx : Type) := {
  http_NewRequest : string -> res error string;          (* the request's Host, from its URL *)
  http_RoundTrip : Ctx -> http_Transport -> HttpRequest -> res error HttpResponse;
  http_timeout : Ctx -> Z -> Ctx           (* context.WithTimeout *)
}.

(** The library's errors carry no sentinel of the program. *)
Class HttpErrors (Ctx : Type) `{HttpLib Ctx} := {
  err_NewRequest : forall u, foreign_res (http_NewRequest u);
  local_NewRequest : forall u e, http_NewRequest u = Err e -> local_error e;
  err_RoundTrip : forall ctx tr q, foreign_res (http_RoundTrip ctx tr q);
  err_Body : forall ctx tr q r e, http_RoundTrip ctx tr q = Ok r -> hr_BodyErr r = Some e -> foreign_error e
}.

(** ** The transport *)
Definition sharedTransportTemplate : http_Transport :=
  {| tr_MaxIdleConns := 100; tr_MaxConnsPerHost := 100; tr_MaxIdleConnsPerHost := 100;
     tr_IdleConnTimeout := 90 * 1_000_000_000; tr_TLSHandshakeTimeout := 10 * 1_000_000_000;
     tr_MaxResponseHeaderBytes := Z.shiftl 1 20; tr_ResponseHeaderTimeout := 5 * 1_000_000_000;
     tr_DialContext := None; tr_ServerName := None |}.

Definition cloneTransportConfig : http_Transport :=
  {| tr_MaxIdleConns := tr_MaxIdleConns sharedTransportTemplate;
     tr_MaxConnsPerHost := tr_MaxConnsPerHost sharedTransportTemplate;
     tr_MaxIdleConnsPerHost := tr_MaxIdleConnsPerHost sharedTransportTemplate;
     tr_IdleConnTimeout := tr_IdleConnTimeout sharedTransportTemplate;
     tr_TLSHandshakeTimeout := tr_TLSHandshakeTimeout sharedTransportTemplate;
     tr_MaxResponseHeaderBytes := tr_MaxResponseHeaderBytes sharedTransportTemplate;
     tr_ResponseHeaderTimeout := tr_ResponseHeaderTimeout sharedTransportTemplate;
     tr_DialContext := None; tr_ServerName := None |}.

(** The transport of one fetch: every connection goes to [dialAddr]. *)
Definition pinned_transport (dialAddr serverName : string) : http_Transport :=
  let transport := cloneTransportConfig in
  {| tr_MaxIdleConns := tr_MaxIdleConns transport; tr_MaxConnsPerHost := tr_MaxConnsPerHost transport;
     tr_MaxIdleConnsPerHost := tr_MaxIdleConnsPerHost transport; tr_IdleConnTimeout := tr_IdleConnTimeout transport;
     tr_TLSHandshakeTimeout := tr_TLSHandshakeTimeout transport;
     tr_MaxResponseHeaderBytes := tr_MaxResponseHeaderBytes transport;
     tr_ResponseHeaderTimeout := tr_ResponseHeaderTimeout transport;
     tr_DialContext := Some (fun _ => (dialAddr, 10 * 1_000_000_000)); tr_ServerName := Some serverName |}.

(** What a connection for [addr] is made to. *)
Definition dialled (tr : http_Transport) (addr : string) : string :=
  match tr_DialContext tr with Some d => (d addr).1 | None => addr end.

(** ** The client *)
Definition noRedirects : error := ESentinel ErrRedirect.

(** [*url.Error], which the client wraps its errors in. *)
Definition url_Error (err : error) : error :=
  EForeign {| fe_text := "url.Error"; fe_is := []; fe_net := true; fe_dns := None; fe_rpc_http := None; fe_rpc_code := None |} [err].

(** The statuses [net/http] follows for a GET, when there is a location. *)
Definition redirects (r : HttpResponse) : bool := bool_decide (hr_StatusCode r ∈ [301; 302; 303; 307; 308]).

(** [client.Do] with the transport and a [CheckRedirect] hook that returns [hook]. *)
Definition client_Do {Ctx} `{!HttpLib Ctx} (transport : http_Transport) (hook : error) (ctx : Ctx) (req : HttpRequest)
    : res error HttpResponse :=
  resp ← map_err url_Error (http_RoundTrip ctx transport req);
  if redirects resp then
    match hr_Location resp with
    | None => Ok resp
    | Some (Err _) => Err (url_Error (Errorf "failed to parse Location header %q: %v" []))
    | Some (Ok _) => Err (url_Error hook)
    end
  else Ok resp.

Definition maxResponseSize : Z := 2 * 1024 * 1024.

(** [io.ReadAll] of [io.LimitReader(body, n)]. *)
Definition read_limited (n : Z) (r : HttpResponse) : res error string :=
  if n <=? len (hr_Body r) then Ok (String.substring 0 (Z.to_nat n) (hr_Body r))
  else match hr_BodyErr r with
       | Some e => Err e
       | None => Ok (hr_Body r)
       end.

Section Fetcher.
Context {Ctx : Type} `{!HttpLib Ctx}.

Definition FetchBytesPinned (ctx : Ctx) (url : string) (fetchTimeout : Z)
    (dialAddr hostHeader serverName : string) : res error string :=
  let ctx := http_timeout ctx fetchTimeout in
  host ← map_err (fun err => Errorf "failed to create HTTP request for %s: %w" [err]) (http_NewRequest url);
  let req := {| hq_url := url; hq_Host := if negb (String.eqb hostHeader "") then hostHeader else host |} in
  resp ← map_err (fun err => Errorf "HTTP request failed for %s: %w: %w" [err; ESentinel ErrHTTPFetch])
    (client_Do (pinned_transport dialAddr serverName) noRedirects ctx req);
  if hr_StatusCode resp =? 404 then Err (ESentinel ErrNotFound)
  else if negb (hr_StatusCode resp =? 200) then Err (HTTPStatusError url (hr_StatusCode resp))
  else
  data ← map_err (fun err => Errorf "reading response body from %s: %w: %w" [err; ESentinel ErrHTTPFetch])
    (read_limited (maxResponseSize + 1) resp);
  if maxResponseSize <? len data then
    Err (Errorf "%w: %s (max %d bytes)" [ESentinel ErrResponseTooLarge])
  else Ok data.

(** [FetchJSONPinned], with the decoder of the target type. *)
Definition FetchJSONPinned {T} (unmarshal : string -> res error T) (ctx : Ctx) (url : string) (fetchTimeout : Z)
    (dialAddr hostHeader serverName : string) : res error T :=
  body ← FetchBytesPinned ctx url fetchTimeout dialAddr hostHeader serverName;
  map_err (fun err => Errorf "decoding JSON from %s failed for type %s: %w" [err]) (unmarshal body).
End Fetcher.

(** ** Retry

    [operation] and [breakOn] share the variables [S] they close over; the
    attempt's number lets the outcomes differ.  [interrupted attempt] is the
    context's error when it ends the wait after that attempt. *)
Section Retry.
Context {S T : Type} (operation : nat -> SE S error T) (breakOn : S -> error -> bool) (interrupted : nat -> option error).

(** The loop from [attempt], with [left] attempts to go after this one. *)
Fixpoint retry_loop (left attempt : nat) : SE S error T := fun s =>
  match operation attempt s with
  | (Ok result, s') => (Ok result, s')
  | (Err err, s') =>
      if breakOn s' err then (Err err, s')
      else match left with
           | O => (Err err, s')
           | Datatypes.S left' =>
               match interrupted attempt with
               | Some cerr => (Err cerr, s')
               | None => retry_loop left' (Datatypes.S attempt) s'
               end
           end
  end.

Definition Retry (maxAttempts : Z) : SE S error T :=
  if maxAttempts <=? 0 then lift (Err (Errorf "maxAttempts must be at least 1" []))
  else retry_loop (Z.to_nat (maxAttempts - 1)) 1.
End Retry.

(** ** Sample states and error classes *)
Inductive TeeSampleState := TeeSampleValid | TeeSampleInvalid | TeeSampleIndeterminate.
#[global] Instance TeeSampleState_eq_dec : EqDecision TeeSampleState. Proof. solve_decision. Defined.

Definition TeeSampleState_String (s : TeeSampleState) : string :=
  match s with
  | TeeSampleValid => "VALID"
  | TeeSampleInvalid => "INVALID"
  | TeeSampleIndeterminate => "INDETERMINATE"
  end.
Definition TeeSampleState_MarshalJSON (s : TeeSampleState) : string :=
  String double_quote (TeeSampleState_String s +:+ String double_quote "").

Definition ClassifyHTTPStatus (code : Z) : TeeSampleState * error :=
  if (code =? 400) || (code =? 404) then (TeeSampleInvalid, ESentinel ErrInvalidInput)
  else (TeeSampleIndeterminate, ESentinel ErrNetwork).

(** [MapTransportError]: none stands for [ok == false]. *)
Definition MapTransportError (err : error) : option (TeeSampleState * error) :=
  if Is err ContextDeadlineExceeded || Is err ContextCanceled then Some (TeeSampleIndeterminate, ESentinel ErrContext)
  else match As as_netError err with
       | Some _ => Some (TeeSampleIndeterminate, ESentinel ErrNetwork)
       | None => None
       end.

Definition MapFetchErrorToState (op : string) (err : error) : TeeSampleState * error :=
  let wrap (p : TeeSampleState * error) := (p.1, FetchError op p.2) in
  match MapTransportError err with
  | Some p => wrap p
  | None =>
      if Is err EthereumNotFound then wrap (TeeSampleInvalid, ESentinel ErrInvalidInput)
      else match As as_rpcHTTPError err with
      | Some code => wrap (ClassifyHTTPStatus code)
      | None =>
          match As as_rpcError err with
          | Some code =>
              if bool_decide (code ∈ [-32600; -32601; -32602; -32700]) then
                wrap (TeeSampleInvalid, ESentinel ErrInvalidInput)
              else wrap (TeeSampleIndeterminate, ESentinel ErrRPC)
          | None => wrap (TeeSampleIndeterminate, ESentinel ErrUnknown)
          end
      end
  end.

(** ** Lemmas *)
Lemma length_substring n s : String.length (String.substring 0 n s) = Nat.min n (String.length s).
Proof. revert s. induction n as [|n IH]; intros [|c s]; cbn; auto. Qed.

Lemma client_Do_200 {Ctx} `{!HttpLib Ctx} tr hook ctx q r :
  client_Do tr hook ctx q = Ok r /\ hr_StatusCode r = 200 <-> http_RoundTrip ctx tr q = Ok r /\ hr_StatusCode r = 200.
Proof.
  unfold client_Do, redirects. split; intros [Hd H200]; (split; [|done]).
  - apply res_bind_Ok in Hd as (r' & Hr%map_err_Ok & Hd). rewrite Hr.
    destruct (bool_decide _); [destruct (hr_Location r') as [[]|]|]; congruence.
  - rewrite Hd. cbn [map_err mbind res_bind]. by rewrite H200.
Qed.

(** The request a fetch makes. *)
Definition pinned_request (url hostHeader host : string) : HttpRequest :=
  {| hq_url := url; hq_Host := if negb (String.eqb hostHeader "") then hostHeader else host |}.

(** A result is the whole body of a 200 answer, within the cap. *)
Lemma FetchBytesPinned_Ok {Ctx} `{!HttpLib Ctx} ctx url timeout dial hostHeader sn data :
  FetchBytesPinned ctx url timeout dial hostHeader sn = Ok data <->
  exists host r, http_NewRequest url = Ok host /\
    http_RoundTrip (http_timeout ctx timeout) (pinned_transport dial sn) (pinned_request url hostHeader host) = Ok r /\
    hr_StatusCode r = 200 /\ hr_Body r = data /\ hr_BodyErr r = None /\ len data <= maxResponseSize.
Proof.
  unfold FetchBytesPinned, read_limited. split.
  - intros (host & Hn%map_err_Ok & Hr)%res_bind_Ok. apply res_bind_Ok in Hr as (r & Hd%map_err_Ok & Hr).
    destruct (Z.eqb_spec (hr_StatusCode r) 404); [done|].
    destruct (Z.eqb_spec (hr_StatusCode r) 200) as [H200|]; cbn [negb] in Hr; [|done].
    apply res_bind_Ok in Hr as (d & Hd'%map_err_Ok & Hr).
    destruct (Z.ltb_spec maxResponseSize (len d)) as [|Hle]; [done|]. injection Hr as <-.
    exists host, r. split; [done|]. split; [by apply (client_Do_200 _ noRedirects)|]. split; [done|].
    destruct (Z.leb_spec (maxResponseSize + 1) (len (hr_Body r))) as [Hbig|Hsmall].
    + injection Hd' as <-. exfalso. revert Hle. unfold len in *. rewrite length_substring. unfold maxResponseSize in *. lia.
    + destruct (hr_BodyErr r); [done|]. injection Hd' as <-. done.
  - intros (host & r & Hn & Hd & H200 & <- & He & Hl). rewrite Hn. cbn [map_err mbind res_bind].
    fold (pinned_request url hostHeader host).
    rewrite (proj1 (proj2 (client_Do_200 _ noRedirects _ _ r) (conj Hd H200))).
    cbn [map_err mbind res_bind]. rewrite H200. change (200 =? 404) with false. change (200 =? 200) with true. cbn [negb].
    destruct (Z.leb_spec (maxResponseSize + 1) (len (hr_Body r))); [lia|]. rewrite He. cbn [map_err mbind res_bind].
    destruct (Z.ltb_spec maxResponseSize (len (hr_Body r))); [lia|done].
Qed.

(** *** How a fetch fails *)
Section Failures.
Context {Ctx : Type} `{!HttpLib Ctx} (ctx : Ctx) (url : string) (timeout : Z) (dial hostHeader sn : string).

(** What the one exchange of a fetch came to. *)
Definition exchanged (answer : res error HttpResponse) : Prop :=
  exists host, http_NewRequest url = Ok host /\
    http_RoundTrip (http_timeout ctx timeout) (pinned_transport dial sn) (pinned_request url hostHeader host) = answer.

Inductive fetch_failure : error -> Prop :=
| no_request err : http_NewRequest url = Err err -> fetch_failure (Errorf "failed to create HTTP request for %s: %w" [err])
| transport_failed err : exchanged (Err err) ->
    fetch_failure (Errorf "HTTP request failed for %s: %w: %w" [url_Error err; ESentinel ErrHTTPFetch])
| location_unreadable r err : exchanged (Ok r) -> redirects r = true -> hr_Location r = Some (Err err) ->
    fetch_failure (Errorf "HTTP request failed for %s: %w: %w"
      [url_Error (Errorf "failed to parse Location header %q: %v" []); ESentinel ErrHTTPFetch])
| redirect_refused r to : exchanged (Ok r) -> redirects r = true -> hr_Location r = Some (Ok to) ->
    fetch_failure (Errorf "HTTP request failed for %s: %w: %w" [url_Error noRedirects; ESentinel ErrHTTPFetch])
| not_found r : exchanged (Ok r) -> hr_StatusCode r = 404 -> fetch_failure (ESentinel ErrNotFound)
| other_status r : exchanged (Ok r) -> (redirects r = true -> hr_Location r = None) -> hr_StatusCode r <> 200 ->
    hr_StatusCode r <> 404 -> fetch_failure (HTTPStatusError url (hr_StatusCode r))
| body_broken r err : exchanged (Ok r) -> hr_StatusCode r = 200 -> len (hr_Body r) <= maxResponseSize -> hr_BodyErr r = Some err ->
    fetch_failure (Errorf "reading response body from %s: %w: %w" [err; ESentinel ErrHTTPFetch])
| body_too_large r : exchanged (Ok r) -> hr_StatusCode r = 200 -> maxResponseSize < len (hr_Body r) ->
    fetch_failure (Errorf "%w: %s (max %d bytes)" [ESentinel ErrResponseTooLarge]).

Lemma exchanged_one a a' : exchanged a -> exchanged a' -> a = a'.
Proof. intros (h & Hh & <-) (h' & Hh' & <-). rewrite Hh in Hh'. by injection Hh' as ->. Qed.

Lemma FetchBytesPinned_Err e : FetchBytesPinned ctx url timeout dial hostHeader sn = Err e -> fetch_failure e.
Proof.
  unfold FetchBytesPinned. destruct (http_NewRequest url) as [host|err] eqn:Hn; cbn [map_err mbind res_bind];
    [|intros [= <-]; by apply no_request].
  fold (pinned_request url hostHeader host). set (q := pinned_request url hostHeader host). set (tr := pinned_transport dial sn).
  unfold client_Do. destruct (http_RoundTrip (http_timeout ctx timeout) tr q) as [r|err] eqn:Hr; cbn [map_err mbind res_bind];
    [|intros [= <-]; apply transport_failed; by exists host].
  assert (exchanged (Ok r)) as Hx by (by exists host).
  assert ((redirects r = true -> hr_Location r = None) \/ (redirects r = true /\ is_Some (hr_Location r))) as [Hd|[Hd [l Hl]]].
  { destruct (redirects r), (hr_Location r) as [l|]; [right; by split|by left..]. }
  - assert ((if redirects r then match hr_Location r with None => Ok r | Some (Err _) => Err (url_Error (Errorf "failed to parse Location header %q: %v" []))
      | Some (Ok _) => Err (url_Error noRedirects) end else Ok r) = Ok r) as ->.
    { destruct (redirects r); [by rewrite Hd|done]. }
    cbn [map_err mbind res_bind]. destruct (Z.eqb_spec (hr_StatusCode r) 404); [intros [= <-]; by eapply not_found|].
    destruct (Z.eqb_spec (hr_StatusCode r) 200); cbn [negb]; [|intros [= <-]; by apply other_status].
    unfold read_limited. destruct (Z.leb_spec (maxResponseSize + 1) (len (hr_Body r))); cbn [map_err mbind res_bind].
    + destruct (_ <? _); [intros [= <-]|done]. apply (body_too_large r); [done|done|lia].
    + destruct (hr_BodyErr r) as [err|] eqn:Hb; cbn [map_err mbind res_bind];
        [intros [= <-]; apply (body_broken r); [done|done|lia|done]|].
      destruct (Z.ltb_spec maxResponseSize (len (hr_Body r))); [lia|done].
  - rewrite Hd, Hl. destruct l as [to|err]; cbn [map_err mbind res_bind]; intros [= <-];
      [by eapply redirect_refused|by eapply location_unreadable].
Qed.

(** Only a body beyond the cap is called too large. *)
Lemma fetch_failure_too_large `{!HttpErrors Ctx} e :
  fetch_failure e -> Is e ErrResponseTooLarge = true ->
  exists r, exchanged (Ok r) /\ hr_StatusCode r = 200 /\ maxResponseSize < len (hr_Body r).
Proof.
  intros [err Hn|err (h & _ & Hx)|r err _ _ _|r to _ _ _|r _ _|r _ _ _ _|r err (h & _ & Hx) _ _ Hb|r Hx H200 Hl] Hi; [..|eauto];
    exfalso; cbn in Hi; rewrite ?orb_false_r in Hi; try discriminate Hi.
  - apply err_NewRequest in Hn. by rewrite Hn in Hi.
  - apply err_RoundTrip in Hx. by rewrite Hx in Hi.
  - apply (err_Body _ _ _ _ _ Hx) in Hb. by rewrite Hb in Hi.
Qed.
End Failures.

(** A redirect is an error of its own, never followed. *)
Lemma FetchBytesPinned_redirect {Ctx} `{!HttpLib Ctx} ctx url timeout dial hostHeader sn host r to :
  http_NewRequest url = Ok host ->
  http_RoundTrip (http_timeout ctx timeout) (pinned_transport dial sn) (pinned_request url hostHeader host) = Ok r ->
  redirects r = true -> hr_Location r = Some (Ok to) ->
  FetchBytesPinned ctx url timeout dial hostHeader sn =
    Err (Errorf "HTTP request failed for %s: %w: %w" [url_Error (ESentinel ErrRedirect); ESentinel ErrHTTPFetch]).
Proof.
  intros Hn Hd Hr Hl. unfold FetchBytesPinned. rewrite Hn. cbn [map_err mbind res_bind].
  fold (pinned_request url hostHeader host). unfold client_Do. rewrite Hd. cbn [map_err mbind res_bind]. by rewrite Hr, Hl.
Qed.

(** The loop makes at most the attempts it was given, and its result is the
    last attempt's or the context's error. *)
Lemma retry_loop_spec {S T} (operation : nat -> SE S error T) breakOn interrupted left attempt s r s' :
  retry_loop operation breakOn interrupted left attempt s = (r, s') ->
  exists k s0, (attempt <= k <= attempt + left)%nat /\
    ((operation k s0 = (r, s') /\
        (forall e, r = Err e -> breakOn s' e = true \/ k = (attempt + left)%nat)) \/
     (exists e cerr, operation k s0 = (Err e, s') /\ interrupted k = Some cerr /\ r = Err cerr)).
Proof.
  revert attempt s. induction left as [|left IH]; intros attempt s; cbn [retry_loop];
    destruct (operation attempt s) as [[t|e] s1] eqn:Ho.
  - intros [= <- <-]. exists attempt, s. split; [lia|]. left. done.
  - intros Hr. exists attempt, s. split; [lia|]. left.
    assert (r = Err e /\ s' = s1) as [-> ->] by (destruct (breakOn s1 e); injection Hr as <- <-; done).
    split; [done|]. intros e' [= <-]. right. lia.
  - intros [= <- <-]. exists attempt, s. split; [lia|]. left. done.
  - destruct (breakOn s1 e) eqn:Hb.
    + intros [= <- <-]. exists attempt, s. split; [lia|]. left. split; [done|]. intros e' [= <-]. auto.
    + destruct (interrupted attempt) as [cerr|] eqn:Hi.
      * intros [= <- <-]. exists attempt, s. split; [lia|]. right. eauto.
      * intros (k & s0 & Hk & Hcase)%IH. exists k, s0. split; [lia|].
        destruct Hcase as [[Ho' Hlast]|?]; [left; split; [done|]|by right].
        intros e' He. destruct (Hlast e' He); [auto|right; lia].
Qed.

(** A class always wraps one of the five class sentinels, and is terminal only
    for the invalid-input one. *)
Lemma MapFetchErrorToState_class op err :
  exists c, (MapFetchErrorToState op err).2 = FetchError op (ESentinel (SFetchClass c)) /\
    ((MapFetchErrorToState op err).1 = TeeSampleInvalid <-> c = ErrInvalidInput) /\
    ((MapFetchErrorToState op err).1 = TeeSampleIndeterminate <-> c <> ErrInvalidInput).
Proof.
  unfold MapFetchErrorToState, MapTransportError, ClassifyHTTPStatus.
  repeat case_match; simplify_eq; cbn; eexists; split; try reflexivity; split; split; done.
Qed.

(** The Flare node answered that the request is invalid, or has no such thing:
    neither a connection that failed nor a context that ended. *)
Inductive node_refused (err : error) : Prop :=
| node_not_found : Is err EthereumNotFound = true -> node_refused err
| node_status code : As as_rpcHTTPError err = Some code -> code = 400 \/ code = 404 -> node_refused err
| node_code code : As as_rpcError err = Some code -> code ∈ [-32600; -32601; -32602; -32700] -> node_refused err.
Definition node_silent (err : error) : Prop :=
  Is err ContextDeadlineExceeded = true \/ Is err ContextCanceled = true \/ As as_netError err = Some tt.

(** Only that makes an answer of the node final. *)
Lemma MapFetchErrorToState_invalid op err :
  (MapFetchErrorToState op err).1 = TeeSampleInvalid -> node_refused err /\ ~ node_silent err.
Proof.
  unfold MapFetchErrorToState, MapTransportError, node_silent.
  destruct (Is err ContextDeadlineExceeded || Is err ContextCanceled) eqn:Hc; [done|]. apply orb_false_iff in Hc as [-> ->].
  destruct (As as_netError err); [done|]. intros Hm. split; [|naive_solver].
  destruct (Is err EthereumNotFound) eqn:Hn; [by apply node_not_found|].
  destruct (As as_rpcHTTPError err) as [code|] eqn:Hh.
  - eapply node_status; [done|]. unfold ClassifyHTTPStatus in Hm.
    destruct (Z.eqb_spec code 400), (Z.eqb_spec code 404); cbn in Hm; auto; done.
  - destruct (As as_rpcError err) as [code|] eqn:Hr; [|done]. eapply node_code; [done|].
    by destruct (bool_decide_reflect (code ∈ [-32600; -32601; -32602; -32700])).
Qed.

(** ** Errors *)
Definition fetch_errors : list sentinel :=
  [SFetcher ErrHTTPFetch; SFetcher ErrNotFound; SFetcher ErrResponseTooLarge; SFetcher ErrRedirect].

Section FetcherErrors.
Context {Ctx : Type} `{HttpErrors Ctx}.

Lemma raises_url_Error l e : raises l e -> raises l (url_Error e).
Proof. intros Hr t Ho Hi. apply Hr; [done|]. cbn in Hi. by rewrite orb_false_r in Hi. Qed.

Lemma client_Do_raises tr ctx q : res_raises [SFetcher ErrRedirect] (client_Do tr noRedirects ctx q).
Proof.
  unfold client_Do. apply res_raises_bind.
  - apply res_raises_map_err. intros e He. apply raises_url_Error, raises_foreign. by eapply err_RoundTrip.
  - intros r Hr%map_err_Ok. destruct (redirects r); [|done].
    destruct (hr_Location r) as [[u|err]|]; [|by apply res_raises_Err, raises_url_Error, raises_Errorf, Forall_raises_nil|done].
    apply res_raises_Err, raises_url_Error, raises_sentinel; vm_compute; reflexivity.
Qed.

Lemma FetchBytesPinned_raises ctx u timeout dial host sn :
  res_raises fetch_errors (FetchBytesPinned ctx u timeout dial host sn).
Proof.
  pose proof err_NewRequest. pose proof client_Do_raises.
  unfold FetchBytesPinned, fetch_errors.
  apply res_raises_bind; [solve_raises|intros h _].
  apply res_raises_bind; [solve_raises|intros r Hr%map_err_Ok].
  destruct (_ =? 404); [solve_raises|].
  destruct (negb (_ =? 200)) eqn:Hs; [apply res_raises_Err, raises_HTTPStatus; vm_compute; reflexivity|].
  apply negb_false_iff, Z.eqb_eq in Hs. destruct (proj1 (client_Do_200 _ _ _ _ _) (conj Hr Hs)) as [Hrt _].
  apply res_raises_bind; [|intros; solve_raises].
  apply res_raises_map_err. intros e He.
  assert (foreign_error e) as Hf.
  { unfold read_limited in He. destruct (_ <=? _); [done|]. destruct (hr_BodyErr r) eqn:Hb; [|done].
    injection He as <-. by eapply err_Body. }
  apply raises_Errorf, Forall_raises_cons; [by apply raises_foreign|]. solve_raises.
Qed.

Lemma FetchJSONPinned_raises {T} (d : string -> res error T) ctx u timeout dial host sn :
  (forall s, foreign_res (d s)) -> res_raises fetch_errors (FetchJSONPinned d ctx u timeout dial host sn).
Proof.
  intros Hd. unfold FetchJSONPinned. apply res_raises_bind; [apply FetchBytesPinned_raises|intros body _]. solve_raises.
Qed.
End FetcherErrors.

(** ** Properties *)
(** C26. A fetched body is whole and from the pinned address: a fetch succeeds exactly on a complete 200 response of at
    most the size limit, over a transport that connects to the resolved address whatever host the URL names, and
    returns that body; an answer that redirects is refused with the redirect error and never followed. *)
Theorem fetched_body_whole {Ctx : Type} `{!HttpLib Ctx} ctx url timeout dial hostHeader sn :
  (forall addr, dialled (pinned_transport dial sn) addr = dial) /\
  (forall data, FetchBytesPinned ctx url timeout dial hostHeader sn = Ok data <->
    exists host r, http_NewRequest url = Ok host /\
      http_RoundTrip (http_timeout ctx timeout) (pinned_transport dial sn) (pinned_request url hostHeader host) = Ok r /\
      hr_StatusCode r = 200 /\ hr_Body r = data /\ hr_BodyErr r = None /\ len data <= maxResponseSize) /\
  (forall host r to, http_NewRequest url = Ok host ->
    http_RoundTrip (http_timeout ctx timeout) (pinned_transport dial sn) (pinned_request url hostHeader host) = Ok r ->
    redirects r = true -> hr_Location r = Some (Ok to) ->
    exists e, FetchBytesPinned ctx url timeout dial hostHeader sn = Err e /\ Is e ErrRedirect = true /\ Is e ErrHTTPFetch = true).
Proof.
  split; [done|]. split; [intros; apply FetchBytesPinned_Ok|]. intros host r to Hn Hd Hr Hl.
  eexists. split; [by eapply FetchBytesPinned_redirect|]. split; vm_compute; reflexivity.
Qed.
