(* ===== verification/Crl.v ===== *)
(** * teeavailabilitycheck/verifier: certificate revocation lists

    [crl_cache.go].  The cache is a map from keys to entries; times are Unix
    nanoseconds and each reading of the clock is an argument.  A lookup that
    misses joins a singleflight: its outcome for one caller is a [schedule].  The
    lookups also keep a log of the URLs they download, which nothing reads.
    [crl_outage] says, of the network alone, that a distribution point is out of
    order, and [point_unusable] that it fails for good. *)

From stdpp Require Import base list strings gmap relations.
From Stdlib Require Import ZArith Lia.
From S2P Require Import Prelude Errors GoStrings UrlValidation Fetcher.

#[local] Open Scope Z_scope.

Definition crlFetchTimeout : Z := 2 * 1_000_000_000.
Definition crlMaxEntries : Z := 100.
Definition crlMaxCacheTTL : Z := 4 * 60 * 60 * 1_000_000_000.

(** [crypto/x509], [crypto/sha256], [encoding/pem] and the token functions of
    go-flare-common's [googlecloud]. *)
Inductive x5c_header (X : Type) := x5c_missing | x5c_not_slice | x5c_slice (l : list X).
Arguments x5c_missing {X}.
Arguments x5c_not_slice {X}.
Arguments x5c_slice {X} l.

Record chain_certs (C : Type) := { ch_Root : C; ch_Intermediate : C; ch_Leaf : C }.
Arguments ch_Root {C}.
Arguments ch_Intermediate {C}.
Arguments ch_Leaf {C}.

Class X509Lib (Certificate : Type) := {
  RevocationList : Type;
  Cert_Raw : Certificate -> string;
  Cert_RawSubject : Certificate -> string;
  NotBefore : Certificate -> Z;
  NotAfter : Certificate -> Z;
  CRLDistributionPoints : Certificate -> list string;
  Cert_Equal : Certificate -> Certificate -> bool;
  Cert_CheckSignatureFrom : Certificate -> Certificate -> res error unit;
  RawIssuer : RevocationList -> string;
  NextUpdate : RevocationList -> option Z;      (* none: the zero time *)
  CRL_CheckSignatureFrom : RevocationList -> Certificate -> res error unit;
  ParseRevocationList : string -> res error RevocationList;
  sha256_hex : string -> string;
  crl_pem_Decode : string -> option string;
  x5c_value : Type;
  ParsePKITokenUnverified : string -> res error (x5c_header x5c_value);
  ExtractCertificatesFromX5CHeader : list x5c_value -> res error (chain_certs Certificate)
}.

Class BackgroundCtx (Ctx : Type) := Background : Ctx.

(** Errors of these libraries carry none of the program's sentinels. *)
Class X509Errors (Certificate : Type) `{X509Lib Certificate} := {
  err_CRLSig : forall crl c, foreign_res (CRL_CheckSignatureFrom crl c);
  err_CertSig : forall c p, foreign_res (Cert_CheckSignatureFrom c p);
  err_ParseCRL : forall d, foreign_res (ParseRevocationList d);
  err_Token : forall t, foreign_res (ParsePKITokenUnverified t);
  err_Extract : forall l, foreign_res (ExtractCertificatesFromX5CHeader l)
}.

(** ** Transient failures *)
Definition isTransientFetchError (err : error) : bool :=
  if Is err ErrRedirect || Is err ErrNotFound || Is err ErrResponseTooLarge then false
  else match As as_HTTPStatusError err with
  | Some code => ((500 <=? code) && (code <? 600)) || (code =? 408) || (code =? 429)
  | None =>
      match As as_DNSError err with
      | Some (isTemporary, isTimeout) => isTemporary || isTimeout
      | None => Is err ErrHTTPFetch || Is err ContextDeadlineExceeded || Is err ContextCanceled
      end
  end.

(** What a lookup can fail with, of the program's sentinels. *)
Definition crl_errors : list sentinel :=
  [STee ErrTEERevocationUnavailable; SUrl ErrURLValidation;
   SFetcher ErrHTTPFetch; SFetcher ErrNotFound; SFetcher ErrResponseTooLarge; SFetcher ErrRedirect].

Section Crl.
Context {Certificate : Type} `{!X509Lib Certificate}.

Record crlEntry := { ce_crl : RevocationList; ce_fetchedAt : Z }.
Abbreviation Cache := (gmap string crlEntry).

Definition NewCRLCache : Cache := ∅.

Definition crlCacheKey (url : string) (issuer : Certificate) : string :=
  url +:+ "|" +:+ sha256_hex (Cert_Raw issuer).

Definition verifyCRLIssuer (crl : RevocationList) (issuer : Certificate) : res error unit :=
  if negb (String.eqb (RawIssuer crl) (Cert_RawSubject issuer)) then
    Err (Errorf "CRL issuer %q is not the certificate subject %q" [])
  else CRL_CheckSignatureFrom crl issuer.

(** [isEntryStale] at time [now]. *)
Definition isEntryStale (now : Z) (entry : crlEntry) : bool :=
  if ce_fetchedAt entry + crlMaxCacheTTL <? now then true
  else match NextUpdate (ce_crl entry) with
       | None => true
       | Some t => t <? now
       end.

Definition cachedFresh (now : Z) (key : string) (issuer : Certificate) (entries : Cache)
    : res error (option RevocationList) :=
  match entries !! key with
  | None => Ok None
  | Some entry =>
      if isEntryStale now entry then Ok None
      else
      _ ← map_err (fun err => Errorf "cached CRL does not verify against the supplied issuer: %w" [err])
        (verifyCRLIssuer (ce_crl entry) issuer);
      Ok (Some (ce_crl entry))
  end.

(** [evictStaleEntries]; [now key] is the reading made for that entry. *)
Definition evictStaleEntries (now : string -> Z) (entries : Cache) : Cache :=
  filter (fun kv => isEntryStale (now kv.1) kv.2 = false) entries.

(** The scan of [evictOldestEntry]: the first entry of the iteration with the
    smallest time. *)
Fixpoint oldest (l : list (string * crlEntry)) (found : option (string * Z)) : option (string * Z) :=
  match l with
  | [] => found
  | (key, entry) :: rest =>
      oldest rest (match found with
                   | Some (_, t) => if ce_fetchedAt entry <? t then Some (key, ce_fetchedAt entry) else found
                   | None => Some (key, ce_fetchedAt entry)
                   end)
  end.

Definition evictOldestEntry (entries : Cache) : Cache :=
  match oldest (map_to_list entries) None with
  | Some (oldestKey, _) => delete oldestKey entries
  | None => entries
  end.

(** The critical section that stores a fetched list. *)
Definition storeCRL (now_evict : string -> Z) (now_store : Z) (key : string) (crl : RevocationList) (entries : Cache) : Cache :=
  let entries1 :=
    if bool_decide (entries !! key = None) && (crlMaxEntries <=? Z.of_nat (size entries)) then
      let e := evictStaleEntries now_evict entries in
      if crlMaxEntries <=? Z.of_nat (size e) then evictOldestEntry e else e
    else entries in
  <[key := {| ce_crl := crl; ce_fetchedAt := now_store |}]> entries1.

(** One lookup's readings of the clock, and what other goroutines do to the
    cache before its check, until its flight starts and while that fetches. *)
Record crl_readings := {
  rd_check : Z; rd_recheck : Z; rd_evict : string -> Z; rd_store : Z;
  rd_arrive : Cache -> Cache; rd_wait : Cache -> Cache; rd_fetch : Cache -> Cache
}.

Context {Ctx : Type} `{!NetLib Ctx} `{!HttpLib Ctx} `{!BackgroundCtx Ctx}.

Definition fetchCRLBytes (ctx : Ctx) (url : string) (timeout : Z) : res error string :=
  r ← map_err (fun err => Errorf "resolving CRL URL %s: %w" [err]) (ResolveExternalURL ctx url false);
  let '(dialAddr, hostHeader, serverName) := BuildPinnedAddr r in
  FetchBytesPinned ctx url timeout dialAddr hostHeader serverName.

(** Between fetching and storing: parse, bind to the issuer, require a horizon. *)
Definition acceptCRL (issuer : Certificate) (data : string) : res error RevocationList :=
  let data := match crl_pem_Decode data with Some block => block | None => data end in
  crl ← map_err (fun err => Errorf "parsing CRL: %w" [err]) (ParseRevocationList data);
  _ ← map_err (fun err => Errorf "CRL issuer verification failed: %w" [err]) (verifyCRLIssuer crl issuer);
  match NextUpdate crl with
  | None => Err (Errorf "CRL from %s has no NextUpdate; refusing a CRL without a validity horizon" [])
  | Some _ => Ok crl
  end.

(** The lookups run on the cache and on a log of the URLs whose download they
    have started, in order; nothing reads the log. *)
Abbreviation Lookups := (Cache * list string)%type.

(** The function run by the singleflight group. *)
Definition flight (t : crl_readings) (url key : string) (issuer : Certificate) : SE Lookups error RevocationList :=
    fun '(entries, log) =>
  match cachedFresh (rd_recheck t) key issuer entries with
  | Err err => (Err err, (entries, log))
  | Ok (Some crl) => (Ok crl, (entries, log))
  | Ok None =>
      let log := log ++ [url] in
      let entries := rd_fetch t entries in
      match fetchCRLBytes Background url crlFetchTimeout with
      | Err err =>
          (Err (if isTransientFetchError err then Errorf "fetching CRL: %w: %w" [ESentinel ErrTEERevocationUnavailable; err]
                else Errorf "fetching CRL: %w" [err]), (entries, log))
      | Ok data =>
          match acceptCRL issuer data with
          | Err err => (Err err, (entries, log))
          | Ok crl => (Ok crl, (storeCRL (rd_evict t) (rd_store t) key crl entries, log))
          end
      end
  end.

(** What the [select] of a waiting caller sees: its context ends, while the
    flight runs on; its own flight finishes; or the flight does that another
    caller, with an issuer of the same key, has started on the cache it found.
    A key begins with its URL, so the URL is the same. *)
Inductive schedule :=
| GaveUp (err : LibErr)
| OwnFlight
| SharedFlight (t : crl_readings) (issuer : Certificate) (entries : Cache).

Definition getOrFetchCRL (t : crl_readings) (sched : schedule) (url : string) (issuer : option Certificate)
    : SE Lookups error RevocationList := fun '(entries, log) =>
  match issuer with
  | None => (Err (Errorf "an issuer certificate is required to fetch a CRL" []), (entries, log))
  | Some issuer =>
      let key := crlCacheKey url issuer in
      let entries := rd_arrive t entries in
      match cachedFresh (rd_check t) key issuer entries with
      | Err err => (Err err, (entries, log))
      | Ok (Some crl) => (Ok crl, (entries, log))
      | Ok None =>
          let finish (r : res error RevocationList) :=
            crl ← r;
            _ ← map_err (fun err => Errorf "shared CRL result does not verify against the supplied issuer: %w" [err])
              (verifyCRLIssuer crl issuer);
            Ok crl in
          let entries := rd_wait t entries in
          let own := let '(r, w) := flight t url key issuer (entries, log) in (finish r, w) in
          match sched with
          | GaveUp err => (Err (ESentinel err), (entries, log ++ [url]))
          | OwnFlight => own
          | SharedFlight t' issuer' entries' =>
              if String.eqb (crlCacheKey url issuer') key then
                (finish (flight t' url key issuer' (entries', [])).1, (entries, log))
              else own
          end
      end
  end.

(** The loop of [fetchFirstCRL]; [env i] is the clock and the schedule of the
    [i]-th point's lookup. *)
Fixpoint first_crl (env : nat -> crl_readings * schedule) (i : nat) (points : list string) (issuer : Certificate)
    (errs : list error) : SE Lookups error RevocationList := fun w =>
  match points with
  | [] => (Err (Errorf "fetching %s CRL failed for all distribution points: %w" [Join errs]), w)
  | url :: rest =>
      match getOrFetchCRL (env i).1 (env i).2 url (Some issuer) w with
      | (Ok crl, w') => (Ok crl, w')
      | (Err err, w') => first_crl env (S i) rest issuer (errs ++ [Errorf "%s: %w" [err]]) w'
      end
  end.

Definition fetchFirstCRL (env : nat -> crl_readings * schedule) (points : list string) (issuer : Certificate)
    : SE Lookups error (option RevocationList) := fun w =>
  match points with
  | [] => (Ok None, w)
  | _ => let '(r, w') := first_crl env 0 points issuer [] w in (Some <$> r, w')
  end.

Definition checkCertValidity (cert : Certificate) (now : Z) : res error unit :=
  if now <? NotBefore cert then Err (Errorf "%s certificate not yet valid (NotBefore=%s)" [])
  else if NotAfter cert <? now then Err (Errorf "%s certificate expired (NotAfter=%s)" [])
  else Ok tt.

Definition validateX5CChain (now : Z) (root intermediate leaf : Certificate) : res error unit :=
  _ ← checkCertValidity root now;
  _ ← checkCertValidity intermediate now;
  _ ← checkCertValidity leaf now;
  _ ← map_err (fun err => Errorf "intermediate not signed by root: %w" [err]) (Cert_CheckSignatureFrom intermediate root);
  map_err (fun err => Errorf "leaf not signed by intermediate: %w" [err]) (Cert_CheckSignatureFrom leaf intermediate).

(** The checks of [FetchCRLsForToken] before any distribution point is used. *)
Definition token_chain (now : Z) (attestationToken : string) (expectedRoot : option Certificate)
    : res error (chain_certs Certificate) :=
  header ← map_err (fun err => Errorf "parsing unverified token: %w" [err]) (ParsePKITokenUnverified attestationToken);
  match header with
  | x5c_missing => Err (Errorf "x5c header missing from token" [])
  | x5c_not_slice => Err (Errorf "x5c header is not a slice" [])
  | x5c_slice l =>
      certs ← map_err (fun err => Errorf "extracting certificates: %w" [err]) (ExtractCertificatesFromX5CHeader l);
      if match expectedRoot with Some root => negb (Cert_Equal root (ch_Root certs)) | None => false end then
        Err (Errorf "token root certificate does not match trusted root" [])
      else
      _ ← map_err (fun err => Errorf "x5c chain validation failed: %w" [err])
        (validateX5CChain now (ch_Root certs) (ch_Intermediate certs) (ch_Leaf certs));
      Ok certs
  end.

(** The clock and schedules of one token's two searches. *)
Record token_env := {
  te_now : Z; te_leaf : nat -> crl_readings * schedule; te_intermediate : nat -> crl_readings * schedule
}.

(** [FetchCRLsForToken].  The two searches run concurrently on the shared
    cache; here the leaf's is first. *)
Definition FetchCRLsForToken_logged (env : token_env) (attestationToken : string) (expectedRoot : option Certificate)
    : SE Lookups error (option RevocationList * option RevocationList) := fun w =>
  match token_chain (te_now env) attestationToken expectedRoot with
  | Err err => (Err err, w)
  | Ok certs =>
      let '(leafRes, w1) :=
        fetchFirstCRL (te_leaf env) (CRLDistributionPoints (ch_Leaf certs)) (ch_Intermediate certs) w in
      let '(intermediateRes, w2) :=
        fetchFirstCRL (te_intermediate env) (CRLDistributionPoints (ch_Intermediate certs)) (ch_Root certs) w1 in
      match leafRes, intermediateRes with
      | Err err, _ => (Err err, w2)
      | Ok _, Err err => (Err err, w2)
      | Ok leafCRL, Ok intermediateCRL => (Ok (leafCRL, intermediateCRL), w2)
      end
  end.

(** ... which is the program's function, but for the log. *)
Definition FetchCRLsForToken (env : token_env) (attestationToken : string) (expectedRoot : option Certificate)
    : SE Cache error (option RevocationList * option RevocationList) := fun entries =>
  let '(r, (entries', _)) := FetchCRLsForToken_logged env attestationToken expectedRoot (entries, []) in (r, entries').

(** The URLs it has downloaded. *)
Definition dereferenced (env : token_env) (attestationToken : string) (expectedRoot : option Certificate) (entries : Cache)
    : list string :=
  (FetchCRLsForToken_logged env attestationToken expectedRoot (entries, [])).2.2.

Definition CRLCache_Close (entries : Cache) : Cache := ∅.

(** ** Specification *)

(** An entry that may be in the cache: bound to an issuer its key names, with
    a validity horizon. *)
Definition entry_ok (key : string) (entry : crlEntry) : Prop :=
  exists url issuer, key = crlCacheKey url issuer /\ verifyCRLIssuer (ce_crl entry) issuer = Ok tt /\
    is_Some (NextUpdate (ce_crl entry)).

Record cache_ok (entries : Cache) : Prop := {
  co_size : Z.of_nat (size entries) <= crlMaxEntries;
  co_entries : map_Forall entry_ok entries
}.

(** The steps that change the cache, each under the mutex: a flight stores an
    accepted list, and [Close]. *)
Inductive crl_step : Cache -> Cache -> Prop :=
| crl_store ne ns url issuer data crl entries : acceptCRL issuer data = Ok crl ->
    crl_step entries (storeCRL ne ns (crlCacheKey url issuer) crl entries)
| crl_close entries : crl_step entries (CRLCache_Close entries).

(** The other goroutines run the same code. *)
Record readings_ok (t : crl_readings) : Prop := {
  ro_arrive : forall entries, rtc crl_step entries (rd_arrive t entries);
  ro_wait : forall entries, rtc crl_step entries (rd_wait t entries);
  ro_fetch : forall entries, rtc crl_step entries (rd_fetch t entries)
}.

(** A context ends with one of its two errors, and another caller's flight
    works on the same cache. *)
Definition schedule_ok (s : schedule) : Prop :=
  match s with
  | GaveUp err => err = ContextCanceled \/ err = ContextDeadlineExceeded
  | OwnFlight => True
  | SharedFlight t _ entries => readings_ok t /\ cache_ok entries
  end.

Definition lookup_ok (l : crl_readings * schedule) : Prop := readings_ok l.1 /\ schedule_ok l.2.
Definition token_env_ok (env : token_env) : Prop :=
  (forall i, lookup_ok (te_leaf env i)) /\ (forall i, lookup_ok (te_intermediate env i)).

(** *** Outages *)

(** The result of the one exchange with a distribution point at its resolved address. *)
Definition point_exchange (url : string) (r : ResolvedURL) (answer : res error HttpResponse) : Prop :=
  let '(dial, host, sn) := BuildPinnedAddr r in exchanged Background url crlFetchTimeout dial host sn answer.

(** A name that cannot be looked up for now, as opposed to one that does not exist. *)
Definition passing_lookup (err : error) : Prop :=
  match As as_DNSError err with
  | Some (isTemporary, isTimeout) => isTemporary = true \/ isTimeout = true
  | None => Is err ContextDeadlineExceeded = true \/ Is err ContextCanceled = true
  end.

(** A connection that failed, was refused or broke off. *)
Definition passing_transport (err : error) : Prop :=
  match As as_DNSError err with
  | Some (isTemporary, isTimeout) => isTemporary = true \/ isTimeout = true
  | None => True
  end.

(** The distribution point is out of order: what the network made of the one
    attempt to get its list may be different the next time.  (A redirect whose
    location cannot be read counts among these: [net/http] reports it as a
    failure of the exchange.) *)
Inductive crl_outage (url : string) : Prop :=
| name_outage host err : looks_up url false host -> LookupIPAddr (dns_timeout Background dnsLookupTimeout) host = Err err ->
    passing_lookup err -> crl_outage url
| transport_outage r err : ResolveExternalURL Background url false = Ok r -> point_exchange url r (Err err) ->
    passing_transport err -> crl_outage url
| location_outage r a err : ResolveExternalURL Background url false = Ok r -> point_exchange url r (Ok a) ->
    redirects a = true -> hr_Location a = Some (Err err) -> crl_outage url
| server_outage r a : ResolveExternalURL Background url false = Ok r -> point_exchange url r (Ok a) ->
    500 <= hr_StatusCode a < 600 \/ hr_StatusCode a = 408 \/ hr_StatusCode a = 429 -> crl_outage url
| body_outage r a err : ResolveExternalURL Background url false = Ok r -> point_exchange url r (Ok a) ->
    hr_StatusCode a = 200 -> len (hr_Body a) <= maxResponseSize -> hr_BodyErr a = Some err -> passing_transport err ->
    crl_outage url.

(** The point gives no list that can be used for certificates of the issuer,
    and not for an outage: its URL is not permitted or its name unknown, it
    redirects, answers a final status or too much, or what it serves is no list
    of the issuer.  (Or a hash collision of certificates shares the cache key.) *)
Inductive point_unusable (url : string) (issuer : Certificate) : Prop :=
| point_refused err : fetchCRLBytes Background url crlFetchTimeout = Err err -> ~ crl_outage url -> point_unusable url issuer
| point_bad_list issuer' data err : crlCacheKey url issuer' = crlCacheKey url issuer -> ~ crl_outage url ->
    fetchCRLBytes Background url crlFetchTimeout = Ok data -> acceptCRL issuer' data = Err err -> point_unusable url issuer
| point_key_shared url1 c1 url2 c2 : crlCacheKey url1 c1 = crlCacheKey url issuer -> crlCacheKey url2 c2 = crlCacheKey url issuer ->
    c1 <> c2 -> point_unusable url issuer.

(** No list of the certificate can be got from any of its points. *)
Definition revocation_unusable (cert issuer : Certificate) : Prop :=
  CRLDistributionPoints cert <> [] /\ Forall (fun url => point_unusable url issuer) (CRLDistributionPoints cert).

(** The error says that the check of revocation, or the request itself, was cut
    short. *)
Definition transient (err : error) : bool :=
  Is err ErrTEERevocationUnavailable || Is err ContextCanceled || Is err ContextDeadlineExceeded.

(** ** Lemmas *)
Lemma cachedFresh_Some now key issuer entries crl :
  cachedFresh now key issuer entries = Ok (Some crl) ->
  verifyCRLIssuer crl issuer = Ok tt /\
  exists entry, entries !! key = Some entry /\ ce_crl entry = crl /\ isEntryStale now entry = false.
Proof.
  unfold cachedFresh. destruct (entries !! key) as [entry|] eqn:He; [|done].
  destruct (isEntryStale now entry) eqn:Hs; [done|].
  intros ([] & Hv%map_err_Ok & [= <-])%res_bind_Ok. eauto.
Qed.

Lemma isEntryStale_false now entry :
  isEntryStale now entry = false <->
  now <= ce_fetchedAt entry + crlMaxCacheTTL /\ exists t, NextUpdate (ce_crl entry) = Some t /\ now <= t.
Proof.
  unfold isEntryStale. destruct (Z.ltb_spec (ce_fetchedAt entry + crlMaxCacheTTL) now); [split; [done|lia]|].
  destruct (NextUpdate (ce_crl entry)) as [t|]; [|split; [done|naive_solver]].
  rewrite Z.ltb_ge. naive_solver.
Qed.

Lemma acceptCRL_Ok issuer data crl :
  acceptCRL issuer data = Ok crl -> verifyCRLIssuer crl issuer = Ok tt /\ is_Some (NextUpdate crl).
Proof.
  unfold acceptCRL. intros (c & _ & Hr)%res_bind_Ok. apply res_bind_Ok in Hr as ([] & Hv%map_err_Ok & Hr).
  destruct (NextUpdate c) eqn:Hn; [|done]. injection Hr as <-. rewrite Hn. eauto.
Qed.

(** The last step of a lookup that waited. *)
Lemma finish_Ok (r : res error RevocationList) c crl :
  (crl ← r; _ ← map_err (fun err => Errorf "shared CRL result does not verify against the supplied issuer: %w" [err])
     (verifyCRLIssuer crl c); Ok crl) = Ok crl -> verifyCRLIssuer crl c = Ok tt.
Proof. by intros (crl' & _ & ([] & Hv%map_err_Ok & [= ->])%res_bind_Ok)%res_bind_Ok. Qed.

(** Whatever the cache holds and whoever ran the flight, a list handed out
    verifies against the caller's issuer. *)
Lemma getOrFetchCRL_verified t sched url issuer w crl w' :
  getOrFetchCRL t sched url issuer w = (Ok crl, w') ->
  exists c, issuer = Some c /\ verifyCRLIssuer crl c = Ok tt.
Proof.
  destruct w as [entries log]. unfold getOrFetchCRL. destruct issuer as [c|]; [|done]. intros Hg. exists c. split; [done|]. cbn zeta in Hg.
  destruct (cachedFresh _ _ _ _) as [[crl'|]|e] eqn:Hc; [|clear Hc|done].
  - injection Hg as <- <-. by apply cachedFresh_Some in Hc as [? _].
  - destruct sched as [err| |t' issuer' entries']; [done| |destruct (String.eqb _ _); [injection Hg as Hr _; by eapply finish_Ok|]].
    all: destruct (flight _ _ _ _ _) as [r en]; injection Hg as Hr _; by eapply finish_Ok.
Qed.

Lemma first_crl_verified env i points issuer errs w crl w' :
  first_crl env i points issuer errs w = (Ok crl, w') -> verifyCRLIssuer crl issuer = Ok tt.
Proof.
  revert i errs w. induction points as [|url points IH]; intros i errs w; cbn [first_crl]; [done|].
  destruct (getOrFetchCRL _ _ _ _ _) as [[crl'|e] en] eqn:Hg; [|apply IH].
  intros [= <- <-]. apply getOrFetchCRL_verified in Hg as (c & [= <-] & ?). done.
Qed.

(** A certificate without distribution points has no list; any other has one
    that verifies, or the search fails. *)
Lemma fetchFirstCRL_Ok env points issuer w r w' :
  fetchFirstCRL env points issuer w = (Ok r, w') ->
  (r = None /\ points = []) \/ (points <> [] /\ exists crl, r = Some crl /\ verifyCRLIssuer crl issuer = Ok tt).
Proof.
  unfold fetchFirstCRL. destruct points as [|p ps]; [intros [= <- _]; auto|].
  destruct (first_crl _ _ _ _ _ _) as [[crl|e] en] eqn:Hf; [|done]. intros [= <- _].
  right. split; [done|]. exists crl. split; [done|]. by eapply first_crl_verified.
Qed.

Lemma checkCertValidity_Ok cert now : checkCertValidity cert now = Ok tt <-> NotBefore cert <= now <= NotAfter cert.
Proof.
  unfold checkCertValidity. destruct (Z.ltb_spec now (NotBefore cert)); [split; [done|lia]|].
  destruct (Z.ltb_spec (NotAfter cert) now); split; try done; lia.
Qed.

(** The chain a token must present before its URLs are used. *)
Record trusted_chain (now : Z) (root : option Certificate) (certs : chain_certs Certificate) : Prop := {
  tc_root : match root with Some r => Cert_Equal r (ch_Root certs) = true | None => True end;
  tc_valid : Forall (fun c => NotBefore c <= now <= NotAfter c) [ch_Root certs; ch_Intermediate certs; ch_Leaf certs];
  tc_signed : Cert_CheckSignatureFrom (ch_Intermediate certs) (ch_Root certs) = Ok tt /\
    Cert_CheckSignatureFrom (ch_Leaf certs) (ch_Intermediate certs) = Ok tt
}.

(** The certificates the token's x5c header presents. *)
Definition presents (token : string) (certs : chain_certs Certificate) : Prop :=
  exists l, ParsePKITokenUnverified token = Ok (x5c_slice l) /\ ExtractCertificatesFromX5CHeader l = Ok certs.

Lemma validateX5CChain_Ok now root intermediate leaf :
  validateX5CChain now root intermediate leaf = Ok tt <->
  Forall (fun c => NotBefore c <= now <= NotAfter c) [root; intermediate; leaf] /\
  Cert_CheckSignatureFrom intermediate root = Ok tt /\ Cert_CheckSignatureFrom leaf intermediate = Ok tt.
Proof.
  unfold validateX5CChain. rewrite !Forall_cons, <- !checkCertValidity_Ok.
  destruct (checkCertValidity root now) as [[]|]; [|naive_solver]. destruct (checkCertValidity intermediate now) as [[]|]; [|naive_solver].
  destruct (checkCertValidity leaf now) as [[]|]; [|naive_solver].
  destruct (Cert_CheckSignatureFrom intermediate root) as [[]|]; [|naive_solver].
  destruct (Cert_CheckSignatureFrom leaf intermediate) as [[]|]; [|naive_solver]. split; [|done]. intros _. by rewrite Forall_nil.
Qed.

(** The checks pass exactly on a trusted chain that the token presents. *)
Lemma token_chain_Ok now token root certs :
  token_chain now token root = Ok certs <-> presents token certs /\ trusted_chain now root certs.
Proof.
  unfold token_chain, presents. split.
  - intros (h & Hh%map_err_Ok & Hr)%res_bind_Ok. destruct h as [| |l]; [done..|].
    apply res_bind_Ok in Hr as (cs & Hcs%map_err_Ok & Hr).
    destruct (match root with Some _ => _ | None => _ end) eqn:Hroot; [done|].
    apply res_bind_Ok in Hr as ([] & (Hv & Hs)%map_err_Ok%validateX5CChain_Ok & Hr). injection Hr as <-.
    split; [by exists l|]. constructor; [|done|done]. destruct root; [|done]. by apply negb_false_iff in Hroot.
  - intros [(l & -> & Hcs) [Hroot Hv Hs]]. cbn [map_err mbind res_bind]. rewrite Hcs. cbn [map_err mbind res_bind].
    assert (match root with Some root => negb (Cert_Equal root (ch_Root certs)) | None => false end = false) as ->.
    { destruct root; [|done]. by rewrite Hroot. }
    by rewrite (proj2 (validateX5CChain_Ok _ _ _ _) (conj Hv Hs)).
Qed.

Lemma token_chain_Err now token root err :
  token_chain now token root = Err err -> ~ exists certs, presents token certs /\ trusted_chain now root certs.
Proof. intros He (certs & Hc%token_chain_Ok). congruence. Qed.

(** *** The size bound *)
Lemma size_evictStale now entries : (size (evictStaleEntries now entries) <= size entries)%nat.
Proof. apply map_subseteq_size, map_filter_subseteq. Qed.

Lemma oldest_in l found k t :
  oldest l found = Some (k, t) -> found = Some (k, t) \/ exists e, (k, e) ∈ l.
Proof.
  revert found. induction l as [|[k' e] l IH]; intros found; cbn [oldest]; [auto|].
  intros [Hf|(e' & He)]%IH; [|right; exists e'; by apply list_elem_of_further].
  destruct found as [[k0 t0]|]; [destruct (_ <? t0)|]; simplify_eq; auto;
    right; exists e; apply list_elem_of_here.
Qed.

Lemma oldest_some l k t : is_Some (oldest l (Some (k, t))).
Proof.
  revert k t. induction l as [|[k' e] l IH]; intros k t; cbn [oldest]; [eauto|].
  destruct (_ <? t); apply IH.
Qed.

Lemma size_evictOldest (entries : Cache) : entries <> ∅ -> S (size (evictOldestEntry entries)) = size entries.
Proof.
  intros Hne. unfold evictOldestEntry.
  destruct (oldest (map_to_list entries) None) as [[k t]|] eqn:Ho.
  - apply oldest_in in Ho as [?|(e & He%elem_of_map_to_list)]; [done|].
    rewrite map_size_delete, He. assert (size entries <> 0)%nat by (by apply map_size_non_empty_iff). lia.
  - exfalso. destruct (map_to_list entries) as [|[k e] l] eqn:Hl.
    + apply Hne. by apply map_to_list_empty_iff.
    + cbn in Ho. destruct (oldest_some l k (ce_fetchedAt e)) as [? Hs]. congruence.
Qed.

Lemma storeCRL_size ne ns key crl entries :
  Z.of_nat (size entries) <= crlMaxEntries -> Z.of_nat (size (storeCRL ne ns key crl entries)) <= crlMaxEntries.
Proof.
  intros Hsz. unfold storeCRL. rewrite map_size_insert.
  case_bool_decide as Hk; cbn [andb].
  - destruct (Z.leb_spec crlMaxEntries (Z.of_nat (size entries))) as [Hfull|Hroom].
    + set (e := evictStaleEntries ne entries). pose proof (size_evictStale ne entries) as He. fold e in He.
      destruct (Z.leb_spec crlMaxEntries (Z.of_nat (size e))) as [Hfull'|Hroom'].
      * assert (e <> ∅) as Hne by (intros Hem; rewrite Hem, map_size_empty in Hfull'; unfold crlMaxEntries in *; lia).
        pose proof (size_evictOldest e Hne). case_match; cbn; lia.
      * case_match; cbn; lia.
    + rewrite Hk. cbn. lia.
  - destruct (entries !! key); [cbn; lia|done].
Qed.

Lemma storeCRL_entries ne ns key crl entries (P : string -> crlEntry -> Prop) :
  map_Forall P entries -> P key {| ce_crl := crl; ce_fetchedAt := ns |} ->
  map_Forall P (storeCRL ne ns key crl entries).
Proof.
  intros Hall Hp. unfold storeCRL. apply map_Forall_insert_2; [done|].
  case_match; [|done]. assert (map_Forall P (evictStaleEntries ne entries)) as He
    by (intros k e [Hk _]%map_lookup_filter_Some; by apply Hall).
  case_match; [|done]. unfold evictOldestEntry. case_match; [|done]. case_match.
  by apply map_Forall_delete.
Qed.

Lemma crl_step_ok entries entries' : crl_step entries entries' -> cache_ok entries -> cache_ok entries'.
Proof.
  intros [ne ns url issuer data crl e Ha|e] [Hs He]; [|constructor; [by unfold CRLCache_Close; rewrite map_size_empty|apply map_Forall_empty]].
  apply acceptCRL_Ok in Ha as [Hv Hn]. constructor; [by apply storeCRL_size|]. apply storeCRL_entries; [done|]. by exists url, issuer.
Qed.

Lemma crl_steps_ok entries entries' : rtc crl_step entries entries' -> cache_ok entries -> cache_ok entries'.
Proof. induction 1; eauto using crl_step_ok. Qed.

(** A flight among others, a whole lookup, and the two searches of a token are
    runs of such steps. *)
Lemma flight_steps t url issuer w :
  readings_ok t -> rtc crl_step w.1 (flight t url (crlCacheKey url issuer) issuer w).2.1.
Proof.
  intros [_ _ Hf]. destruct w as [entries log]. unfold flight. destruct (cachedFresh _ _ _ _) as [[crl|]|e]; [apply rtc_refl| |apply rtc_refl]. cbn zeta.
  destruct (fetchCRLBytes _ _ _) as [data|e]; [|apply Hf].
  destruct (acceptCRL issuer data) as [crl|e] eqn:Ha; [|apply Hf]. eapply rtc_r; [apply Hf|by eapply crl_store].
Qed.

Lemma getOrFetchCRL_steps t sched url issuer w :
  readings_ok t -> rtc crl_step w.1 (getOrFetchCRL t sched url issuer w).2.1.
Proof.
  intros Ht. pose proof Ht as [Ha Hw _]. destruct w as [entries log]. unfold getOrFetchCRL. destruct issuer as [issuer|]; [|apply rtc_refl]. cbn zeta.
  destruct (cachedFresh _ _ _ _) as [[crl|]|]; [apply Ha| |apply Ha].
  assert (rtc crl_step entries (rd_wait t (rd_arrive t entries))) as Hr by (etrans; [apply Ha|apply Hw]).
  pose proof (flight_steps t url issuer (rd_wait t (rd_arrive t entries), log) Ht) as Hf.
  destruct sched as [err| |t' issuer' entries']; [exact Hr| |destruct (String.eqb _ _); [exact Hr|]].
  all: destruct (flight t _ _ _ _) as [r [e l]]; cbn [fst snd] in *; by etrans.
Qed.

Lemma first_crl_steps env i points issuer errs w :
  (forall i, readings_ok (env i).1) -> rtc crl_step w.1 (first_crl env i points issuer errs w).2.1.
Proof.
  intros He. revert i errs w. induction points as [|url rest IH]; intros i errs w; [apply rtc_refl|]. cbn [first_crl].
  pose proof (getOrFetchCRL_steps (env i).1 (env i).2 url (Some issuer) w (He i)) as Hg.
  destruct (getOrFetchCRL _ _ _ _ _) as [[crl|e] w']; [done|]. etrans; [exact Hg|apply IH].
Qed.

Lemma fetchFirstCRL_steps env points issuer w :
  (forall i, lookup_ok (env i)) -> rtc crl_step w.1 (fetchFirstCRL env points issuer w).2.1.
Proof.
  intros He. pose proof (first_crl_steps env 0 points issuer [] w (fun i => proj1 (He i))) as Hf.
  unfold fetchFirstCRL. destruct points; [apply rtc_refl|]. by destruct (first_crl _ _ _ _ _ _).
Qed.

Lemma fetchFirstCRL_ok env points issuer w :
  (forall i, lookup_ok (env i)) -> cache_ok w.1 -> cache_ok (fetchFirstCRL env points issuer w).2.1.
Proof. intros He. apply crl_steps_ok. by apply fetchFirstCRL_steps. Qed.

Lemma FetchCRLsForToken_steps env token root entries :
  token_env_ok env -> rtc crl_step entries (FetchCRLsForToken env token root entries).2.
Proof.
  intros [Hl Hi]. unfold FetchCRLsForToken, FetchCRLsForToken_logged. destruct (token_chain _ _ _) as [certs|]; [|apply rtc_refl].
  pose proof (fetchFirstCRL_steps (te_leaf env) (CRLDistributionPoints (ch_Leaf certs)) (ch_Intermediate certs) (entries, []) Hl) as H1.
  destruct (fetchFirstCRL _ _ _ _) as [l w1].
  pose proof (fetchFirstCRL_steps (te_intermediate env) (CRLDistributionPoints (ch_Intermediate certs)) (ch_Root certs) w1 Hi) as H2.
  destruct (fetchFirstCRL _ _ _ w1) as [i [e2 l2]]. cbn [fst snd] in *. destruct l, i; by etrans.
Qed.

Lemma FetchCRLsForToken_keeps env token root : token_env_ok env -> keeps cache_ok (FetchCRLsForToken env token root).
Proof. intros He entries. apply crl_steps_ok. by apply FetchCRLsForToken_steps. Qed.

(** *** What is dereferenced *)

(** A run that adds only URLs of a list to the log. *)
Definition logs_only {A} (urls : list string) (m : SE Lookups error A) : Prop :=
  forall w, exists l, (m w).2.2 = w.2 ++ l /\ Forall (fun url => url ∈ urls) l.

Lemma log_nothing (urls : list string) (log : list string) : exists l, log = log ++ l /\ Forall (fun url => url ∈ urls) l.
Proof. exists []. by rewrite app_nil_r. Qed.

Lemma log_one url (log : list string) : exists l, log ++ [url] = log ++ l /\ Forall (fun url' => url' ∈ [url]) l.
Proof. exists [url]. split; [done|]. apply Forall_singleton, list_elem_of_here. Qed.

Lemma flight_logs t url key issuer : logs_only [url] (flight t url key issuer).
Proof.
  intros [entries log]. unfold flight. destruct (cachedFresh _ _ _ _) as [[crl|]|e]; [apply log_nothing| |apply log_nothing].
  cbn zeta. destruct (fetchCRLBytes _ _ _) as [data|e]; [|apply log_one]. destruct (acceptCRL issuer data); apply log_one.
Qed.

Lemma getOrFetchCRL_logs t sched url issuer : logs_only [url] (getOrFetchCRL t sched url issuer).
Proof.
  intros [entries log]. unfold getOrFetchCRL. destruct issuer as [c|]; [|apply log_nothing]. cbn zeta.
  destruct (cachedFresh _ _ _ _) as [[crl|]|e]; [apply log_nothing| |apply log_nothing].
  pose proof (flight_logs t url (crlCacheKey url c) c (rd_wait t (rd_arrive t entries), log)) as Hf.
  destruct sched as [err| |t' issuer' entries']; [apply log_one| |destruct (String.eqb _ _); [apply log_nothing|]];
    by destruct (flight t _ _ _ _) as [r [e l]].
Qed.

Lemma first_crl_logs env i points issuer errs : logs_only points (first_crl env i points issuer errs).
Proof.
  revert i errs. induction points as [|url rest IH]; intros i errs w; cbn [first_crl]; [apply log_nothing|].
  destruct (getOrFetchCRL_logs (env i).1 (env i).2 url (Some issuer) w) as (l & Hl & Hin).
  assert (Forall (fun u => u ∈ url :: rest) l) as Hin'
    by (eapply Forall_impl; [exact Hin|]; intros u ->%list_elem_of_singleton; apply list_elem_of_here).
  destruct (getOrFetchCRL _ _ _ _ _) as [[crl|e] w']; cbn [snd] in Hl; [by exists l|].
  destruct (IH (S i) (errs ++ [Errorf "%s: %w" [e]]) w') as (l' & -> & Hl'). exists (l ++ l'). rewrite Hl, app_assoc. split; [done|].
  apply Forall_app. split; [done|]. eapply Forall_impl; [exact Hl'|]. intros u. apply list_elem_of_further.
Qed.

Lemma fetchFirstCRL_logs env points issuer : logs_only points (fetchFirstCRL env points issuer).
Proof.
  intros w. pose proof (first_crl_logs env 0 points issuer [] w) as Hf. unfold fetchFirstCRL.
  destruct points; [apply log_nothing|]. by destruct (first_crl _ _ _ _ _ _).
Qed.

(** Only the points of the two certificates are, and only of a trusted chain. *)
Lemma dereferenced_points env token root entries url :
  url ∈ dereferenced env token root entries ->
  exists certs, presents token certs /\ trusted_chain (te_now env) root certs /\
    url ∈ CRLDistributionPoints (ch_Leaf certs) ++ CRLDistributionPoints (ch_Intermediate certs).
Proof.
  unfold dereferenced, FetchCRLsForToken_logged. destruct (token_chain _ _ _) as [certs|] eqn:Hc; [|by intros ?%not_elem_of_nil].
  apply token_chain_Ok in Hc as [Hp Ht]. intros Hin. exists certs. split; [done|]. split; [done|].
  destruct (fetchFirstCRL_logs (te_leaf env) (CRLDistributionPoints (ch_Leaf certs)) (ch_Intermediate certs) (entries, [])) as (l1 & Hl1 & F1).
  destruct (fetchFirstCRL (te_leaf env) _ _ (entries, [])) as [r1 w1].
  destruct (fetchFirstCRL_logs (te_intermediate env) (CRLDistributionPoints (ch_Intermediate certs)) (ch_Root certs) w1) as (l2 & Hl2 & F2).
  destruct (fetchFirstCRL (te_intermediate env) _ _ w1) as [r2 w2]. cbn [fst snd app] in *.
  assert (url ∈ l1 ++ l2) as [H1|H2]%elem_of_app by (rewrite <- Hl1, <- Hl2; by destruct r1, r2);
    rewrite Forall_forall in F1, F2; apply elem_of_app; auto.
Qed.

(** *** Availability *)

(** A point that serves an acceptable list to the lookup's own flight; no
    other certificate has the same cache key. *)
Record serves_list (sched : schedule) (url : string) (issuer : Certificate) : Prop := {
  sl_own : sched = OwnFlight;
  sl_key : forall url' issuer', crlCacheKey url' issuer' = crlCacheKey url issuer -> issuer' = issuer;
  sl_list : exists data crl, fetchCRLBytes Background url crlFetchTimeout = Ok data /\ acceptCRL issuer data = Ok crl
}.

(** There are no points, or one of them serves a list. *)
Definition available (env : nat -> crl_readings * schedule) (points : list string) (issuer : Certificate) : Prop :=
  points = [] \/ exists i url, points !! i = Some url /\ serves_list (env i).2 url issuer.

Lemma cachedFresh_total now sched url issuer entries :
  cache_ok entries -> serves_list sched url issuer -> is_ok (cachedFresh now (crlCacheKey url issuer) issuer entries) = true.
Proof.
  intros [_ He] [_ Hk _]. unfold cachedFresh. destruct (entries !! _) as [entry|] eqn:El; [|done].
  destruct (isEntryStale now entry); [done|]. destruct (He _ _ El) as (url' & issuer' & Heq & Hv & _).
  by rewrite <- (Hk _ _ (eq_sym Heq)), Hv.
Qed.

Lemma getOrFetchCRL_available t sched url issuer w :
  readings_ok t -> cache_ok w.1 -> serves_list sched url issuer ->
  is_ok (getOrFetchCRL t sched url (Some issuer) w).1 = true.
Proof.
  destruct w as [entries log]. cbn [fst]. intros [Har Hw _] Hok Hs.
  apply (crl_steps_ok _ _ (Har entries)) in Hok as Ha0. pose proof (crl_steps_ok _ _ (Hw _) Ha0) as Hw0.
  pose proof (cachedFresh_total (rd_check t) _ _ _ _ Ha0 Hs) as Hc1. pose proof (cachedFresh_total (rd_recheck t) _ _ _ _ Hw0 Hs) as Hc.
  destruct Hs as [-> _ (data & crl & Hf & Ha)]. unfold getOrFetchCRL. cbn zeta.
  destruct (cachedFresh (rd_check t) _ _ _) as [[c|]|]; [done| |done]. unfold flight.
  destruct (cachedFresh (rd_recheck t) _ _ _) as [[c|]|] eqn:E; [| |done].
  - apply cachedFresh_Some in E as [Hv _]. cbn [mbind res_bind fst]. by rewrite Hv.
  - rewrite Hf, Ha. apply acceptCRL_Ok in Ha as [Hv _]. cbn [mbind res_bind fst]. by rewrite Hv.
Qed.

Lemma first_crl_available env points issuer i errs w :
  (forall i, readings_ok (env i).1) -> cache_ok w.1 ->
  (exists k url, points !! k = Some url /\ serves_list (env (i + k)%nat).2 url issuer) ->
  is_ok (first_crl env i points issuer errs w).1 = true.
Proof.
  intros He. revert i errs w. induction points as [|p points IH]; intros i errs w Hok (k & url & Hk & Hs); [done|]. cbn [first_crl].
  pose proof (crl_steps_ok _ _ (getOrFetchCRL_steps (env i).1 (env i).2 p (Some issuer) w (He i)) Hok) as Hkeep.
  destruct k as [|k]; cbn in Hk.
  - injection Hk as ->. rewrite Nat.add_0_r in Hs. pose proof (getOrFetchCRL_available (env i).1 _ _ _ _ (He i) Hok Hs) as Ha.
    by destruct (getOrFetchCRL _ _ _ _ _) as [[crl|e] en].
  - destruct (getOrFetchCRL _ _ _ _ _) as [[crl|e] en]; [done|]. apply IH; [done|].
    exists k, url. split; [done|]. by rewrite Nat.add_succ_l, <- Nat.add_succ_r.
Qed.

Lemma fetchFirstCRL_available env points issuer w :
  (forall i, lookup_ok (env i)) -> cache_ok w.1 -> available env points issuer -> is_ok (fetchFirstCRL env points issuer w).1 = true.
Proof.
  intros He Hok [->|Ha]; [done|]. pose proof (first_crl_available env points issuer 0 [] w (fun i => proj1 (He i)) Hok Ha) as Hf.
  unfold fetchFirstCRL. destruct points; [done|]. by destruct (first_crl _ _ _ _ _ _) as [[]].
Qed.

Lemma CRLs_available env token root entries certs :
  token_env_ok env -> cache_ok entries -> presents token certs -> trusted_chain (te_now env) root certs ->
  available (te_leaf env) (CRLDistributionPoints (ch_Leaf certs)) (ch_Intermediate certs) ->
  available (te_intermediate env) (CRLDistributionPoints (ch_Intermediate certs)) (ch_Root certs) ->
  is_ok (FetchCRLsForToken env token root entries).1 = true.
Proof.
  intros [El Ei] Hok Hp Ht Hl Hi. unfold FetchCRLsForToken, FetchCRLsForToken_logged.
  rewrite (proj2 (token_chain_Ok _ _ _ _) (conj Hp Ht)).
  pose proof (fetchFirstCRL_available _ _ _ (entries, []) El Hok Hl) as Al.
  pose proof (fetchFirstCRL_ok (te_leaf env) (CRLDistributionPoints (ch_Leaf certs)) (ch_Intermediate certs) (entries, []) El Hok) as Hk.
  destruct (fetchFirstCRL (te_leaf env) _ _ _) as [[l|] w1]; [|done].
  pose proof (fetchFirstCRL_available _ _ _ w1 Ei Hk Hi) as Ai. by destruct (fetchFirstCRL (te_intermediate env) _ _ w1) as [[i|] [e2 l2]].
Qed.

(** The two searches behind the lists a token gets. *)
Lemma FetchCRLsForToken_Ok env token root entries l i entries' :
  FetchCRLsForToken env token root entries = (Ok (l, i), entries') ->
  exists certs w1 w2, presents token certs /\ trusted_chain (te_now env) root certs /\
    fetchFirstCRL (te_leaf env) (CRLDistributionPoints (ch_Leaf certs)) (ch_Intermediate certs) (entries, []) = (Ok l, w1) /\
    fetchFirstCRL (te_intermediate env) (CRLDistributionPoints (ch_Intermediate certs)) (ch_Root certs) w1 = (Ok i, w2).
Proof.
  unfold FetchCRLsForToken, FetchCRLsForToken_logged. destruct (token_chain _ _ _) as [certs|] eqn:Hc; [|done].
  apply token_chain_Ok in Hc as [Hp Ht].
  destruct (fetchFirstCRL (te_leaf env) _ _ _) as [[l'|] w1] eqn:E1; destruct (fetchFirstCRL (te_intermediate env) _ _ w1) as [[i'|] [e2 l2]] eqn:E2;
    try done. intros [= <- <- <-]. by exists certs, w1, (e2, l2).
Qed.

Lemma NewCRLCache_ok : cache_ok NewCRLCache.
Proof. constructor; [unfold NewCRLCache; rewrite map_size_empty; done|apply map_Forall_empty]. Qed.

Lemma cache_reachable_ok entries : rtc crl_step NewCRLCache entries -> cache_ok entries.
Proof. intros Hr. eapply crl_steps_ok; [exact Hr|apply NewCRLCache_ok]. Qed.
End Crl.

(** ** Errors *)
Section CrlErrors.
Context {Certificate : Type} `{X509Errors Certificate}.
Context {Ctx : Type} `{!NetLib Ctx} `{!NetErrors Ctx} `{!HttpLib Ctx} `{!HttpErrors Ctx} `{!BackgroundCtx Ctx}.

Lemma fetchCRLBytes_raises ctx u timeout :
  res_raises [SUrl ErrURLValidation; SFetcher ErrHTTPFetch; SFetcher ErrNotFound; SFetcher ErrResponseTooLarge;
              SFetcher ErrRedirect] (fetchCRLBytes ctx u timeout).
Proof.
  unfold fetchCRLBytes, ResolveExternalURL. apply res_raises_bind; [solve_raises|intros r _].
  destruct (BuildPinnedAddr r) as [[d h] sn].
  eapply res_raises_sub; [apply FetchBytesPinned_raises|vm_compute; reflexivity].
Qed.

Lemma verifyCRLIssuer_raises l crl c : res_raises l (verifyCRLIssuer crl c).
Proof. pose proof err_CRLSig. unfold verifyCRLIssuer. solve_raises. Qed.

Lemma cachedFresh_raises l now key issuer entries : res_raises l (cachedFresh now key issuer entries).
Proof. pose proof verifyCRLIssuer_raises. unfold cachedFresh. solve_raises. Qed.

Lemma flight_raises t u key issuer : se_raises crl_errors (flight t u key issuer).
Proof.
  intros [s log] e s'. unfold flight. pose proof (cachedFresh_raises crl_errors (rd_recheck t) key issuer s) as Hc.
  destruct (cachedFresh _ _ _ _) as [[crl|]|err]; [done| |intros [= <- _]; by apply Hc].
  pose proof (fetchCRLBytes_raises Background u crlFetchTimeout) as Hf. cbn zeta.
  destruct (fetchCRLBytes _ _ _) as [data|err].
  - assert (res_raises crl_errors (acceptCRL issuer data)) as Ha.
    { pose proof err_ParseCRL. pose proof verifyCRLIssuer_raises. unfold acceptCRL. solve_raises. }
    destruct (acceptCRL issuer data); [done|]. intros [= <- _]. by apply Ha.
  - assert (raises crl_errors err) as He.
    { eapply raises_weaken; [|by apply Hf]. intros t' Ht. unfold crl_errors. by apply list_elem_of_further. }
    intros [= <- _]. solve_raises; exact He.
Qed.

Lemma getOrFetchCRL_raises t sched u issuer : se_raises crl_errors (getOrFetchCRL t sched u issuer).
Proof.
  intros [s log] e s'. unfold getOrFetchCRL. destruct issuer as [c|]; [|intros [= <- _]; solve_raises]. cbn zeta.
  pose proof (cachedFresh_raises crl_errors (rd_check t) (crlCacheKey u c) c (rd_arrive t s)) as Hc.
  destruct (cachedFresh _ _ _ _) as [[crl|]|err]; [done| |intros [= <- _]; by apply Hc].
  assert (forall r, res_raises crl_errors r -> res_raises crl_errors
    (crl ← r; _ ← map_err (fun err => Errorf "shared CRL result does not verify against the supplied issuer: %w" [err])
      (verifyCRLIssuer crl c); Ok crl)) as Hfin.
  { intros r Hr. pose proof verifyCRLIssuer_raises. apply res_raises_bind; [exact Hr|]. solve_raises. }
  assert (forall t' c' w, res_raises crl_errors (flight t' u (crlCacheKey u c) c' w).1) as Hfl.
  { intros t' c' w e' He'. pose proof (flight_raises t' u (crlCacheKey u c) c' w) as Hf.
    destruct (flight _ _ _ _ _) as [r en]. cbn in He'. subst r. by eapply Hf. }
  pose proof (Hfl t c (rd_wait t (rd_arrive t s), log)) as Hown.
  destruct sched as [err| |t' issuer' entries'];
    [intros [= <- _]; apply raises_lib| |destruct (String.eqb _ _); [intros [= He _]; eapply Hfin; [apply (Hfl t' issuer' (entries', []))|exact He]|]].
  all: destruct (flight t _ _ _ _) as [r en]; intros [= He _]; eapply Hfin; [exact Hown|exact He].
Qed.

Lemma fetchFirstCRL_raises env points issuer : se_raises crl_errors (fetchFirstCRL env points issuer).
Proof.
  assert (forall points i errs, Forall (raises crl_errors) errs -> se_raises crl_errors (first_crl env i points issuer errs)) as Hloop.
  { clear points. induction points as [|u points IH]; intros i errs Herrs s e s'; cbn [first_crl].
    - intros [= <- _]. apply raises_Errorf, Forall_raises_cons; [by apply raises_Join|apply Forall_raises_nil].
    - pose proof (getOrFetchCRL_raises (env i).1 (env i).2 u (Some issuer) s) as Hg.
      destruct (getOrFetchCRL _ _ _ _ _) as [[crl|err] en]; [done|]. apply IH.
      apply Forall_app; split; [done|]. apply Forall_raises_cons; [|apply Forall_raises_nil].
      apply raises_Errorf, Forall_raises_cons; [by eapply Hg|apply Forall_raises_nil]. }
  intros s e s'. unfold fetchFirstCRL. destruct points as [|p ps]; [done|].
  pose proof (Hloop (p :: ps) 0%nat [] (Forall_raises_nil _) s) as Hl.
  destruct (first_crl _ _ _ _ _ _) as [[crl|err] en]; cbn; [done|]. intros [= <- <-]. by eapply Hl.
Qed.

Lemma FetchCRLsForToken_raises env token root : se_raises crl_errors (FetchCRLsForToken env token root).
Proof.
  intros s e s'. unfold FetchCRLsForToken, FetchCRLsForToken_logged.
  assert (res_raises crl_errors (token_chain (te_now env) token root)) as Ht.
  { pose proof err_Token. pose proof err_Extract. pose proof err_CertSig.
    unfold token_chain, validateX5CChain, checkCertValidity. solve_raises. }
  destruct (token_chain _ _ _) as [certs|err]; [|intros [= <- _]; by apply Ht].
  pose proof (fetchFirstCRL_raises (te_leaf env) (CRLDistributionPoints (ch_Leaf certs)) (ch_Intermediate certs) (s, [])) as H1.
  destruct (fetchFirstCRL (te_leaf env) _ _ _) as [leafRes s1].
  pose proof (fetchFirstCRL_raises (te_intermediate env) (CRLDistributionPoints (ch_Intermediate certs)) (ch_Root certs) s1) as H2.
  destruct (fetchFirstCRL (te_intermediate env) _ _ s1) as [intRes [s2 l2]].
  destruct leafRes as [|err]; [destruct intRes as [|err]|]; [done|intros [= <- _]; by eapply H2|intros [= <- _]; by eapply H1].
Qed.

(** *** Which failures are tagged as passing *)
Lemma transient_wrap fmt e : isTransientFetchError (Errorf fmt [e]) = isTransientFetchError e.
Proof. unfold isTransientFetchError. cbn. rewrite !orb_false_r. by repeat case_match; simplify_eq. Qed.

(** A library's error beside one of the program's sentinels. *)
Lemma foreign_tagged fmt e (t : sentinel) ws :
  foreign_error e -> ws = [e; ESentinel t] \/ ws = [ESentinel t; e] -> t = SFetcher ErrHTTPFetch \/ t = SUrl ErrURLValidation ->
  isTransientFetchError (Errorf fmt ws) = true <->
  match As as_DNSError e with
  | Some (isTemporary, isTimeout) => isTemporary = true \/ isTimeout = true
  | None => t = SFetcher ErrHTTPFetch \/ Is e ContextDeadlineExceeded = true \/ Is e ContextCanceled = true
  end.
Proof.
  intros Hf Hws Ht. unfold isTransientFetchError. pose proof (foreign_no_status e Hf) as Hs.
  destruct Hws as [-> | ->]; cbn; rewrite ?(Hf ErrRedirect), ?(Hf ErrNotFound), ?(Hf ErrResponseTooLarge), ?(Hf ErrHTTPFetch), ?Hs by done;
    destruct Ht as [-> | ->]; repeat first [rewrite bool_decide_eq_false_2 by discriminate|rewrite bool_decide_eq_true_2 by reflexivity]; cbn;
    destruct (As as_DNSError e) as [[[] []]|]; cbn; rewrite ?orb_false_r, ?orb_true_iff; clear; naive_solver.
Qed.

(** What an outage is, once the point's address is known and it was tried. *)
Lemma exchange_outage url r answer :
  ResolveExternalURL Background url false = Ok r -> point_exchange url r answer ->
  crl_outage url <->
  match answer with
  | Err err => passing_transport err
  | Ok a => (redirects a = true /\ exists err, hr_Location a = Some (Err err)) \/
      (500 <= hr_StatusCode a < 600 \/ hr_StatusCode a = 408 \/ hr_StatusCode a = 429) \/
      (hr_StatusCode a = 200 /\ len (hr_Body a) <= maxResponseSize /\ exists err, hr_BodyErr a = Some err /\ passing_transport err)
  end.
Proof.
  intros Hr Hx.
  assert (forall r' a', ResolveExternalURL Background url false = Ok r' -> point_exchange url r' a' -> a' = answer) as Hone.
  { intros r' a' Hr'. rewrite Hr in Hr'. injection Hr' as <-. unfold point_exchange in *.
    destruct (BuildPinnedAddr r) as [[dial h] sn]. intros Hx'. by eapply exchanged_one. }
  split.
  - intros [host err Hl Hlook _|r' err Hr' Hx' ?|r' a err Hr' Hx' ? ?|r' a Hr' Hx' ?|r' a err Hr' Hx' ? ? ? ?].
    1: unfold ResolveExternalURL in Hr; rewrite (looks_up_run _ _ _ _ Hl _ Hlook) in Hr; discriminate Hr.
    all: pose proof (Hone _ _ Hr' Hx') as <-; naive_solver.
  - destruct answer as [a|err]; [|by apply (transport_outage url r)].
    intros [(? & err & ?)|[?|(? & ? & err & ? & ?)]];
      [by eapply location_outage|by eapply server_outage|by eapply body_outage].
Qed.

Lemma resolution_outage url err :
  resolveExternalURL Background url false = Err err -> (isTransientFetchError err = true <-> crl_outage url).
Proof.
  intros He. assert (forall r, ResolveExternalURL Background url false <> Ok r) as Hno by (unfold ResolveExternalURL; congruence).
  assert (forall host e, looks_up url false host -> LookupIPAddr (dns_timeout Background dnsLookupTimeout) host = Err e ->
    err = url_error "%w: cannot resolve hostname %q: %w" [e]) as Hlooked.
  { intros host e Hl Hlook. pose proof (looks_up_run _ _ _ _ Hl _ Hlook). congruence. }
  apply resolveExternalURL_Err in He. revert Hlooked.
  destruct He as [host e Hl Hlook|e Hu|fmt]; intros Hlooked; unfold url_error in *.
  - rewrite (foreign_tagged _ e ErrURLValidation) by (first [by eapply err_Lookup|auto]). split.
    + intros Hp. apply (name_outage _ host e Hl Hlook). unfold passing_lookup. destruct (As as_DNSError e) as [[]|]; naive_solver.
    + intros [host' e' Hl' Hlook' Hp|r ? Hr|r ? ? Hr|r ? Hr|r ? ? Hr]; [|by apply Hno in Hr..].
      pose proof (Hlooked _ _ Hl' Hlook') as Heq. injection Heq as <-. unfold passing_lookup in Hp. destruct (As as_DNSError e) as [[]|]; naive_solver.
  - rewrite (foreign_tagged _ e ErrURLValidation) by (first [by eapply err_url_Parse|auto]).
    destruct (local_url_Parse _ _ Hu) as (-> & -> & ->). split; [by intros [?|[?|?]]|].
    intros [host' e' [_ (u & Hu' & _) _ _]|r ? Hr|r ? ? Hr|r ? Hr|r ? ? Hr]; [congruence|by apply Hno in Hr..].
  - split; [done|]. intros [host' e' Hl' Hlook' _|r ? Hr|r ? ? Hr|r ? Hr|r ? ? Hr]; [|by apply Hno in Hr..].
    by pose proof (Hlooked _ _ Hl' Hlook').
Qed.

(** The tag says exactly that the point was out of order. *)
Lemma transient_outage url err :
  fetchCRLBytes Background url crlFetchTimeout = Err err -> (isTransientFetchError err = true <-> crl_outage url).
Proof.
  unfold fetchCRLBytes. intros [(e & He & ->)%map_err_Err|(r & Hr%map_err_Ok & Hf)]%res_bind_Err.
  { rewrite transient_wrap. by apply resolution_outage. }
  assert (forall a, (let '(dial, h, sn) := BuildPinnedAddr r in exchanged Background url crlFetchTimeout dial h sn a) -> point_exchange url r a) as Hpx by done.
  destruct (BuildPinnedAddr r) as [[dial hostHeader] sn] eqn:Hpin.
  destruct (FetchBytesPinned_Err _ _ _ _ _ _ _ Hf) as [e Hn|e Hx|a e Hx Hred Hloc|a to Hx Hred Hloc|a Hx Hs|a Hx Hred H200 H404|a e Hx H200 Hl Hb|a Hx H200 Hl].
  - rewrite transient_wrap. destruct (local_NewRequest _ _ Hn) as (Hd & Hdl & Hc). pose proof (err_NewRequest _ _ Hn) as Hfe.
    unfold isTransientFetchError. rewrite Hd, Hdl, Hc, (foreign_no_status _ Hfe), !Hfe by done. split; [done|].
    assert (forall a, ~ point_exchange url r a) as Hnone.
    { unfold point_exchange. rewrite Hpin. intros a (h & Hh & _). congruence. }
    intros [host' e' Hl' Hlook' _|r' ? Hr' Hx|r' ? ? Hr' Hx|r' ? Hr' Hx|r' ? ? Hr' Hx]; [|rewrite Hr in Hr'; injection Hr' as <-; by apply Hnone in Hx..].
    unfold ResolveExternalURL in Hr. rewrite (looks_up_run _ _ _ _ Hl' _ Hlook') in Hr. discriminate Hr.
  - pose proof Hx as (h & _ & Hrt). rewrite (exchange_outage _ _ _ Hr (Hpx _ Hx)).
    rewrite (foreign_tagged _ (url_Error e) ErrHTTPFetch); [|intros t Ht; cbn; by rewrite orb_false_r, (err_RoundTrip _ _ _ _ Hrt)|auto|auto].
    unfold passing_transport. cbn. destruct (As as_DNSError e) as [[]|]; naive_solver.
  - rewrite (exchange_outage _ _ _ Hr (Hpx _ Hx)). split; [|done]. intros _. left. eauto.
  - rewrite (exchange_outage _ _ _ Hr (Hpx _ Hx)). split; [done|]. unfold redirects in Hred. apply bool_decide_eq_true in Hred.
    intros [(_ & e & ?)|[Hc|(Hc & _)]]; [congruence|..]; exfalso; repeat (apply elem_of_cons in Hred as [Hred|Hred]; [lia|]);
      by apply not_elem_of_nil in Hred.
  - rewrite (exchange_outage _ _ _ Hr (Hpx _ Hx)). split; [done|]. unfold redirects. rewrite Hs.
    intros [(? & _)|[Hc|(? & _)]]; [done|lia|done].
  - rewrite (exchange_outage _ _ _ Hr (Hpx _ Hx)). unfold isTransientFetchError. cbn [Is As as_HTTPStatusError].
    repeat rewrite bool_decide_eq_false_2 by discriminate. cbn.
    rewrite !orb_true_iff, andb_true_iff, Z.leb_le, Z.ltb_lt, !Z.eqb_eq. split; [right; left; lia|].
    intros [(Hd & e & He)|[?|(? & _)]]; [rewrite (Hred Hd) in He; done|lia|done].
  - pose proof Hx as (h & _ & Hrt). rewrite (exchange_outage _ _ _ Hr (Hpx _ Hx)).
    rewrite (foreign_tagged _ e ErrHTTPFetch) by (first [by eapply err_Body|auto]). unfold passing_transport, redirects. rewrite H200.
    split; [intros Hp; right; right; split; [done|split; [done|exists e; split; [done|]]]; destruct (As as_DNSError e) as [[]|]; naive_solver|].
    intros [(? & _)|[?|(_ & _ & e' & He & Hp)]]; [done|lia|]. rewrite Hb in He. injection He as <-.
    destruct (As as_DNSError e) as [[]|]; naive_solver.
  - rewrite (exchange_outage _ _ _ Hr (Hpx _ Hx)). split; [done|]. unfold redirects. rewrite H200.
    intros [(? & _)|[?|(_ & ? & _)]]; [done|lia|lia].
Qed.
Lemma outage_no_list url data : fetchCRLBytes Background url crlFetchTimeout = Ok data -> ~ crl_outage url.
Proof.
  unfold fetchCRLBytes. intros (r & Hr%map_err_Ok & Hf)%res_bind_Ok.
  assert (forall a, (let '(dial, h, sn) := BuildPinnedAddr r in exchanged Background url crlFetchTimeout dial h sn a) -> point_exchange url r a) as Hpx by done.
  destruct (BuildPinnedAddr r) as [[dial h] sn] eqn:Hpin.
  apply FetchBytesPinned_Ok in Hf as (host & a & Hn & Hx & H200 & _ & Hb & _).
  rewrite (exchange_outage url r (Ok a) Hr) by (apply Hpx; by exists host). unfold redirects. rewrite H200, Hb.
  intros [(? & _)|[?|(_ & _ & e & ? & _)]]; [done|lia|done].
Qed.

(** *** What a failure without the tag says *)
Lemma transient_single fmt e : transient (Errorf fmt [e]) = transient e.
Proof. unfold transient. cbn. by rewrite !orb_false_r. Qed.

Lemma transient_Join es : transient (Join es) = existsb transient es.
Proof.
  induction es as [|e es IH]; [done|]. cbn [existsb]. rewrite <- IH. unfold transient. cbn [Is existsb].
  by destruct (Is e _), (Is e _), (Is e _), (existsb _ es), (existsb _ es), (existsb _ es).
Qed.

(** A cached list that does not verify shares its key with another issuer's. *)
Lemma cachedFresh_Err now url issuer c entries err :
  cache_ok entries -> cachedFresh now (crlCacheKey url issuer) c entries = Err err -> crlCacheKey url c = crlCacheKey url issuer ->
  point_unusable url issuer.
Proof.
  intros [_ He] Hc Hk. unfold cachedFresh in Hc. destruct (entries !! _) as [entry|] eqn:El; [|done].
  destruct (isEntryStale now entry); [done|]. destruct (He _ _ El) as (url' & issuer' & Heq & Hv & _).
  apply (point_key_shared _ _ url' issuer' url c); [done|done|]. intros ->. by rewrite Hv in Hc.
Qed.

Lemma flight_Ok t url key c w crl w' : flight t url key c w = (Ok crl, w') -> verifyCRLIssuer crl c = Ok tt.
Proof.
  destruct w as [entries log]. unfold flight. destruct (cachedFresh _ _ _ _) as [[l|]|e] eqn:Hc; [intros [= <- _]| |done].
  { by apply cachedFresh_Some in Hc as [? _]. }
  cbn zeta. destruct (fetchCRLBytes _ _ _) as [data|e]; [|done]. destruct (acceptCRL c data) as [l|e] eqn:Ha; [|done].
  intros [= <- _]. by apply acceptCRL_Ok in Ha as [? _].
Qed.

Lemma flight_Err t url issuer c w err w' :
  cache_ok w.1 -> crlCacheKey url c = crlCacheKey url issuer -> flight t url (crlCacheKey url issuer) c w = (Err err, w') ->
  transient err = true \/ point_unusable url issuer.
Proof.
  destruct w as [entries log]. cbn [fst]. intros Hok Hk. unfold flight. destruct (cachedFresh _ _ _ _) as [[l|]|e] eqn:Hc; [done| |].
  2: { intros _. right. by eapply cachedFresh_Err. }
  cbn zeta. destruct (fetchCRLBytes _ _ _) as [data|e] eqn:Hf.
  - destruct (acceptCRL c data) as [l|e] eqn:Ha; [done|]. intros _. right. apply outage_no_list in Hf as Ho. by eapply point_bad_list.
  - pose proof (transient_outage _ _ Hf) as Ho. destruct (isTransientFetchError e); intros [= <- _].
    + left. unfold transient. cbn. by rewrite bool_decide_true.
    + right. eapply point_refused; [exact Hf|]. intros Hout. by apply Ho in Hout.
Qed.

Lemma getOrFetchCRL_Err t sched url issuer w err w' :
  lookup_ok (t, sched) -> cache_ok w.1 -> getOrFetchCRL t sched url (Some issuer) w = (Err err, w') ->
  transient err = true \/ point_unusable url issuer.
Proof.
  destruct w as [entries log]. cbn [fst]. intros [[Har Hw _] Hs] Hok. cbn [fst snd] in *. unfold getOrFetchCRL. cbn zeta.
  apply (crl_steps_ok _ _ (Har entries)) in Hok as Ha0. pose proof (crl_steps_ok _ _ (Hw _) Ha0) as Hw0.
  destruct (cachedFresh (rd_check t) _ _ _) as [[l|]|e] eqn:Hc; [done| |].
  2: { intros _. right. eapply cachedFresh_Err; [exact Ha0|exact Hc|done]. }
  assert (forall t' c w1, cache_ok w1.1 -> crlCacheKey url c = crlCacheKey url issuer ->
    (crl ← (flight t' url (crlCacheKey url issuer) c w1).1;
     _ ← map_err (fun err => Errorf "shared CRL result does not verify against the supplied issuer: %w" [err]) (verifyCRLIssuer crl issuer);
     Ok crl) = Err err -> transient err = true \/ point_unusable url issuer) as Hfin.
  { intros t' c w1 Hok1 Hk. destruct (flight _ _ _ _ _) as [[crl|e] w2] eqn:Hfl; cbn [fst mbind res_bind].
    - destruct (verifyCRLIssuer crl issuer) as [[]|] eqn:Hv; [done|]. intros _. right.
      apply (point_key_shared _ _ url c url issuer); [done|done|]. intros ->. apply flight_Ok in Hfl. congruence.
    - intros [= <-]. by eapply flight_Err. }
  pose proof (Hfin t issuer (rd_wait t (rd_arrive t entries), log) Hw0 eq_refl) as Hown.
  destruct sched as [le| |t' c entries'].
  - intros [= <- _]. left. unfold transient. destruct Hs as [-> | ->]; reflexivity.
  - destruct (flight t _ _ _ _) as [r w2]. intros [= He _]. by apply Hown.
  - destruct (String.eqb_spec (crlCacheKey url c) (crlCacheKey url issuer)) as [Hk|].
    + intros He. apply (f_equal fst) in He. apply (Hfin t' c (entries', [])); [apply Hs|done|exact He].
    + destruct (flight t _ _ _ _) as [r w2]. intros [= He _]. by apply Hown.
Qed.

(** The error of a search joins those of its points. *)
Lemma first_crl_Err env i points issuer errs w err w' :
  (forall i, lookup_ok (env i)) -> cache_ok w.1 -> first_crl env i points issuer errs w = (Err err, w') ->
  transient err = true \/ (existsb transient errs = false /\ Forall (fun url => point_unusable url issuer) points).
Proof.
  intros He. revert i errs w. induction points as [|url rest IH]; intros i errs w Hok; cbn [first_crl].
  - intros [= <- _]. rewrite transient_single, transient_Join. destruct (existsb transient errs); auto.
  - destruct (getOrFetchCRL (env i).1 (env i).2 url (Some issuer) w) as [[crl|e] w1] eqn:Hg; [done|].
    pose proof (getOrFetchCRL_steps (env i).1 (env i).2 url (Some issuer) w (proj1 (He i))) as Hst. rewrite Hg in Hst.
    apply getOrFetchCRL_Err in Hg; [|exact (He i)|done].
    intros [?|[Hex Hall]]%IH; [by left| |by eapply crl_steps_ok].
    rewrite existsb_app in Hex. cbn in Hex. apply orb_false_iff in Hex as [Hex Ht].
    fold (transient (Errorf "%s: %w" [e])) in Ht. rewrite orb_false_r, transient_single in Ht.
    right. split; [done|]. constructor; [|done]. destruct Hg; [congruence|done].
Qed.

Lemma fetchFirstCRL_Err env cert issuer w err w' :
  (forall i, lookup_ok (env i)) -> cache_ok w.1 -> fetchFirstCRL env (CRLDistributionPoints cert) issuer w = (Err err, w') ->
  transient err = true \/ revocation_unusable cert issuer.
Proof.
  intros He Hok. unfold fetchFirstCRL, revocation_unusable. destruct (CRLDistributionPoints cert) as [|p ps]; [done|].
  destruct (first_crl _ _ _ _ _ _) as [[crl|e] w1] eqn:Hf; [done|]. intros [= <- _].
  apply first_crl_Err in Hf as [?|[_ ?]]; auto.
Qed.

(** No lists for a token: the check was cut short, or its chain is not to be
    trusted, or the lists of one of its certificates cannot be got. *)
Lemma FetchCRLsForToken_Err env token root entries err entries' :
  token_env_ok env -> cache_ok entries -> FetchCRLsForToken env token root entries = (Err err, entries') ->
  transient err = true \/
  (~ exists certs, presents token certs /\ trusted_chain (te_now env) root certs) \/
  exists certs, presents token certs /\ trusted_chain (te_now env) root certs /\
    (revocation_unusable (ch_Leaf certs) (ch_Intermediate certs) \/ revocation_unusable (ch_Intermediate certs) (ch_Root certs)).
Proof.
  intros [El Ei] Hok. unfold FetchCRLsForToken, FetchCRLsForToken_logged.
  destruct (token_chain _ _ _) as [certs|e] eqn:Hc; [|intros _; right; left; by eapply token_chain_Err].
  apply token_chain_Ok in Hc as [Hp Ht].
  pose proof (fetchFirstCRL_ok (te_leaf env) (CRLDistributionPoints (ch_Leaf certs)) (ch_Intermediate certs) (entries, []) El Hok) as Hk.
  destruct (fetchFirstCRL (te_leaf env) _ _ _) as [lr w1] eqn:E1; destruct (fetchFirstCRL (te_intermediate env) _ _ w1) as [ir [e2 l2]] eqn:E2.
  cbn [fst snd] in *. assert (forall e, lr = Err e -> transient e = true \/ revocation_unusable (ch_Leaf certs) (ch_Intermediate certs)) as Hl.
  { intros e ->. exact (fetchFirstCRL_Err _ _ _ (entries, []) _ _ El Hok E1). }
  assert (forall e, ir = Err e -> transient e = true \/ revocation_unusable (ch_Intermediate certs) (ch_Root certs)) as Hi.
  { intros e ->. exact (fetchFirstCRL_Err _ _ _ _ _ _ Ei Hk E2). }
  destruct lr as [l|e]; [destruct ir as [i|e]; [done|]|]; intros [= <- _];
    [destruct (Hi _ eq_refl)|destruct (Hl _ eq_refl)]; eauto 10.
Qed.
End CrlErrors.

(** ** Properties *)
Section CrlProperties.
Context {Certificate : Type} `{!X509Lib Certificate} {Ctx : Type} `{!NetLib Ctx} `{!HttpLib Ctx} `{!BackgroundCtx Ctx}.

(** C27. However lookups interleave, the cache holds at most its maximum of entries, and each entry is a list signed by
    an issuer its own key names, with a validity horizon: a failed or unverified download is never stored.  A token's
    lookups running among others, which the mutex lets in before, between and while its flights fetch, are themselves
    such a run, so that what they leave is again a cache of this kind.  And a list handed out is the issuer's, whoever
    fetched it (the cache, the caller's own flight or one shared with another caller); from the cache only while it is
    fresh. *)
Theorem crl_cache_safe entries :
  rtc crl_step NewCRLCache entries ->
  cache_ok entries /\
  (forall env token root, token_env_ok env -> rtc crl_step entries (FetchCRLsForToken env token root entries).2) /\
  forall t sched url issuer log crl w', getOrFetchCRL t sched url issuer (entries, log) = (Ok crl, w') ->
  exists c, issuer = Some c /\ verifyCRLIssuer crl c = Ok tt /\
    (forall now cached, cachedFresh now (crlCacheKey url c) c cached = Ok (Some crl) ->
       exists entry until, cached !! crlCacheKey url c = Some entry /\ ce_crl entry = crl /\
         now <= ce_fetchedAt entry + crlMaxCacheTTL /\ NextUpdate crl = Some until /\ now <= until).
Proof.
  intros Hr. split; [by apply cache_reachable_ok|]. split; [intros; by apply FetchCRLsForToken_steps|].
  intros t sched url issuer log crl w' Hg. apply getOrFetchCRL_verified in Hg as (c & -> & Hv).
  exists c. split; [done|]. split; [done|].
  intros now cached (_ & entry & He & <- & Hs)%cachedFresh_Some. apply isEntryStale_false in Hs as (Ht & u & Hu & Hn).
  exists entry, u. done.
Qed.

(** C22. A token's URLs are used only after its chain is trusted.  Unless the token presents three certificates that end
    in the expected root, are all valid now and are each signed by the next, its lookups fail, leave the cache as it
    was and dereference nothing; and every URL they do dereference is a distribution point of the leaf or the
    intermediate of such a chain.  When lists come back each was issued by the certificate's own issuer, and one is
    missing only for a certificate without distribution points.  Conversely one working distribution point per
    certificate is enough: with a trusted chain and a well formed cache the lists come back, whatever the other points
    answer and whatever other requests have cached. *)
Theorem token_crls_trusted env token root entries :
  ((~ exists certs, presents token certs /\ trusted_chain (te_now env) root certs) ->
   dereferenced env token root entries = [] /\ exists err, FetchCRLsForToken env token root entries = (Err err, entries)) /\
  (forall url, url ∈ dereferenced env token root entries ->
   exists certs, presents token certs /\ trusted_chain (te_now env) root certs /\
     url ∈ CRLDistributionPoints (ch_Leaf certs) ++ CRLDistributionPoints (ch_Intermediate certs)) /\
  (forall leaf intermediate entries', FetchCRLsForToken env token root entries = (Ok (leaf, intermediate), entries') ->
   exists certs, presents token certs /\ trusted_chain (te_now env) root certs /\
    (leaf = None <-> CRLDistributionPoints (ch_Leaf certs) = []) /\
    (intermediate = None <-> CRLDistributionPoints (ch_Intermediate certs) = []) /\
    (forall l, leaf = Some l -> verifyCRLIssuer l (ch_Intermediate certs) = Ok tt) /\
    (forall l, intermediate = Some l -> verifyCRLIssuer l (ch_Root certs) = Ok tt)) /\
  (forall certs, token_env_ok env -> cache_ok entries -> presents token certs -> trusted_chain (te_now env) root certs ->
   available (te_leaf env) (CRLDistributionPoints (ch_Leaf certs)) (ch_Intermediate certs) ->
   available (te_intermediate env) (CRLDistributionPoints (ch_Intermediate certs)) (ch_Root certs) ->
   is_ok (FetchCRLsForToken env token root entries).1 = true).
Proof.
  split; [|split; [intros url; apply dereferenced_points|split; [|intros certs; apply CRLs_available]]].
  - intros Hno. unfold dereferenced, FetchCRLsForToken, FetchCRLsForToken_logged.
    destruct (token_chain _ _ _) as [certs|err] eqn:Hc; [|eauto]. exfalso. apply Hno. exists certs. by apply token_chain_Ok.
  - intros leaf intermediate entries' (certs & w1 & w2 & Hp & Ht & E1 & E2)%FetchCRLsForToken_Ok. exists certs.
    apply fetchFirstCRL_Ok in E1, E2. split; [done|]. split; [done|]. split; [naive_solver|]. split; [naive_solver|]. split; naive_solver.
Qed.
End CrlProperties.
