(* ===== verification/Tee.v ===== *)
(** * TeeAvailabilityCheck

    [teeavailabilitycheck/verifier/{verifier,claims}.go].  The verifier's state
    is its CRL cache.  The types of tee-node and of the attestation library, and
    the cryptography over them, are the operations of [TeeLib]; the Relay
    contracts are reached through [RelayLib]. *)

From stdpp Require Import base list strings gmap.
From Stdlib Require Import ZArith Lia.
From S2P Require Import Prelude Errors GoStrings Eth Config UrlValidation Fetcher Crl.

#[local] Open Scope Z_scope.

Definition fetchChallengeTimeout : Z := 4 * 1_000_000_000.
Definition chainMaxAttempts : Z := 1.
Definition chainFetchTimeout : Z := 3 * 1_000_000_000.

Definition E2ETestPlatform : Hash := 0x544553545f504c4154464f524d00000000000000000000000000000000000000.
Definition E2ETestCodeHash : Hash := 0x194844cf417dde867073e5ab7199fa4d21fd82b5dbe2bdea8b3d7fc18d10fdc2.

Definition confidentialHWModels : list string := ["GCP_AMD_SEV"; "GCP_AMD_SEV_ES"; "GCP_INTEL_TDX"]%string.

(** ** The libraries' types *)

(** [teenodetypes.ActionResponse], the fields the sources read; the hashes over
    it are the library's. *)
Record ActionResult := {
  ar_ID : Hash; ar_Status : Z; ar_OPType : Hash; ar_OPCommand : Hash; ar_Data : bytes
}.
Record ActionResponse := { ac_Result : ActionResult; ac_Signature : bytes; ac_ProxySignature : bytes }.

Record TeeState := { ts_SystemState : bytes; ts_SystemStateVersion : Hash; ts_State : bytes; ts_StateVersion : Hash }.

(** [teenodetypes.TeeInfo]; [ti_PublicKey] by its two coordinates. *)
Record TeeInfo := {
  ti_Challenge : Hash; ti_PublicKey : Hash * Hash; ti_ChainID : Z; ti_TeeTimestamp : Z;
  ti_InitialSigningPolicyID : Z; ti_InitialSigningPolicyHash : Hash;
  ti_LastSigningPolicyID : Z; ti_LastSigningPolicyHash : Hash; ti_State : TeeState
}.
Record TeeInfoResponse := { tr_TeeInfo : TeeInfo; tr_Attestation : string }.

(** [googlecloud.Policy] and the claims of a validated token. *)
Record Policy := {
  po_Audience : string; po_EATNonce : string; po_AllowedDebugStatuses : list string; po_Issuer : string;
  po_AllowedHWModels : list string; po_RequireSecBoot : bool
}.
Record Claims := {
  cl_SWName : string; cl_DebugStatus : string; cl_HWModel : string; cl_ImageID : string;
  cl_SupportAttributes : option (list string)       (* none: a nil slice *)
}.

Inductive PayloadKind := ProxyActionResult | TEEActionResult.

Class TeeLib `{ConfigLib} `{!X509Lib Certificate} := {
  unmarshal_ActionResponse : string -> res error ActionResponse;
  json_Valid : bytes -> bool;
  unmarshal_TeeInfoResponse : bytes -> res error TeeInfoResponse;
  Result_Hash : ActionResult -> Hash;
  Payload_Hash : PayloadKind -> Z -> Hash -> res error Hash;
  SignatureToSignersAddress : Hash -> bytes -> res error Address;
  VerifySignature : Hash -> bytes -> Address -> res error unit;
  TeeInfo_Hash : TeeInfo -> res error bytes;
  tee_hex : bytes -> string;
  instruction_hex : Hash -> string;
  PubKeyToAddress : Hash * Hash -> res error Address;  (* utils.PubKeysToAddresses of one key *)
  ParseAndValidatePKIToken : string -> Certificate -> option RevocationList -> option RevocationList -> Policy ->
    res error Claims;
  Claims_CodeHash : Claims -> res error Hash;
  Claims_Platform : Claims -> res error Hash;
  JoinPath : string -> list string -> res error string;
  expectedAvailabilityOPType : Hash;
  expectedAvailabilityOPCommand : Hash;
  MagicPass : string;
  ConfidentialSpaceIssuer : string
}.

Class RelayLib (Ctx : Type) := {
  Relay_ToSigningPolicyHash : Address -> Ctx -> Z -> res error Hash;
  relay_timeout : Ctx -> Z -> Ctx;
  NewRelayCaller : Address -> res error unit;
  ethclient_Dial : string -> res error unit
}.

(** ** Claims *)
Inductive AvailabilityCheckStatus := OK | OBSOLETE.
Definition AvailabilityCheckStatus_uint8 (s : AvailabilityCheckStatus) : Z := match s with OK => 0 | OBSOLETE => 1 end.

Record StatusInfo := { st_CodeHash : Hash; st_Platform : Hash; st_Status : AvailabilityCheckStatus }.

(** [fdc2.ITeeAvailabilityCheckRequestBody] and its response. *)
Record TeeRequest := {
  tq_TeeId : Address; tq_TeeProxyId : Address; tq_Url : string; tq_Challenge : Hash; tq_InstructionId : Hash
}.
Record TeeResponse := {
  tp_Status : Z; tp_TeeTimestamp : Z; tp_CodeHash : Hash; tp_Platform : Hash;
  tp_InitialSigningPolicyId : Z; tp_LastSigningPolicyId : Z; tp_State : TeeState
}.

(** ** Relay routing *)
Definition maxRewardEpochID : Z := Z.shiftl 1 24 - 1.

(** [RelayCallerInterface]: one Relay, or the cutover pair. *)
Inductive RelayCaller :=
| SingleRelay (addr : Address)
| cutoverRelay (current next : Address) (startingRewardEpoch : Z).

Definition NewCutoverRelay (current next : Address) (startingRewardEpoch : Z) : RelayCaller :=
  cutoverRelay current next startingRewardEpoch.

Section Tee.
Context `{TeeLib} {Ctx : Type} `{!NetLib Ctx} `{!HttpLib Ctx} `{!BackgroundCtx Ctx} `{!RelayLib Ctx}.

Definition ToSigningPolicyHash (r : RelayCaller) (ctx : Ctx) (id : Z) : res error Hash :=
  match r with
  | SingleRelay addr => Relay_ToSigningPolicyHash addr ctx id
  | cutoverRelay current next startingRewardEpoch =>
      if (id <? 0) || (MaxUint64 <? id) || (maxRewardEpochID <? id) then
        Err (Errorf "signing-policy id %v is outside the supported range" [])
      else if startingRewardEpoch <=? u32 id then Relay_ToSigningPolicyHash next ctx id
      else Relay_ToSigningPolicyHash current ctx id
  end.

Definition ValidateClaims (claims : Claims) : res error StatusInfo :=
  if negb (String.eqb (cl_SWName claims) "CONFIDENTIAL_SPACE") then
    Err (Errorf "SWName check failed: expected CONFIDENTIAL_SPACE, got %q" [])
  else
  let isProduction := String.eqb (cl_DebugStatus claims) "disabled-since-boot" in
  status ← (if isProduction then
              match cl_SupportAttributes claims with
              | None => Err (Errorf "ConfidentialSpace component has no supported attributes" [])
              | Some attrs => Ok (if bool_decide ("STABLE"%string ∈ attrs) then OK else OBSOLETE)
              end
            else Ok OK);
  codeHash ← map_err (fun err => Errorf "cannot convert container.image_id %q to Bytes32: %w" [err]) (Claims_CodeHash claims);
  platform ← map_err (fun err => Errorf "cannot convert HWModel %s to Bytes32: %w" [err]) (Claims_Platform claims);
  Ok {| st_CodeHash := codeHash; st_Platform := platform; st_Status := status |}.

(** ** The verifier *)
Record TeeVerifier := { tv_Cfg : TeeAvailabilityCheckConfig; tv_Relay : RelayCaller; tv_CRLCache : bool (* non-nil *) }.

(** [NewVerifier]; the state counts the RPC clients left open. *)
Definition NewVerifier (cfg : TeeAvailabilityCheckConfig) : SE Z error TeeVerifier := fun clients =>
  match ethclient_Dial (tac_FlareRPCURL cfg) with
  | Err err => (Err (Errorf "cannot connect to Flare node at %s: %w" [err]), clients)
  | Ok _ =>
      let clients := clients + 1 in
      match NewRelayCaller (tac_RelayContractAddress cfg) with
      | Err err => (Err (Errorf "cannot create Relay caller at %s: %w" [err]), clients - 1)
      | Ok _ =>
          let finish (caller : RelayCaller) := (Ok {| tv_Cfg := cfg; tv_Relay := caller; tv_CRLCache := true |}, clients) in
          if negb (tac_RelayCutoverContractAddress cfg =? 0) then
            match NewRelayCaller (tac_RelayCutoverContractAddress cfg) with
            | Err err => (Err (Errorf "cannot create next Relay caller at %s: %w" [err]), clients - 1)
            | Ok _ => finish (NewCutoverRelay (tac_RelayContractAddress cfg) (tac_RelayCutoverContractAddress cfg)
                                (tac_RelayCutoverStartingRewardEpoch cfg))
            end
          else finish (SingleRelay (tac_RelayContractAddress cfg))
      end
  end.

Definition FormatProxyURL (v : TeeVerifier) (url : string) : string :=
  if tac_DisableAttestationCheckE2E (tv_Cfg v) then ReplaceAll url "localhost" "host.docker.internal" else url.

Definition FetchTEEChallengeResult (ctx : Ctx) (baseURL : string) (challengeInstructionID : Hash) (allowPrivateNetworks : bool)
    : res error (ActionResponse * TeeInfoResponse * Address) :=
  reqURL ← map_err (fun err => Errorf "invalid proxy URL %q: %w" [err])
    (JoinPath baseURL ["action"; "result"; instruction_hex challengeInstructionID]%string);
  resolved ← ResolveExternalURL ctx baseURL allowPrivateNetworks;
  let '(dialAddr, hostHeader, serverName) := BuildPinnedAddr resolved in
  actionResp ← map_err (fun err =>
      if Is err ErrNotFound then Errorf "%w: %w" [ESentinel ErrActionResultNotFound; err]
      else if Is err ErrResponseTooLarge then Errorf "%w: %w" [ESentinel ErrTEEResponseMalformed; err]
      else err)
    (FetchJSONPinned unmarshal_ActionResponse ctx reqURL fetchChallengeTimeout dialAddr hostHeader serverName);
  let data := ar_Data (ac_Result actionResp) in
  if len data =? 0 then Err (Errorf "%w: TEE challenge result data is empty" [ESentinel ErrTEEResponseMalformed])
  else if negb (json_Valid data) then
    Err (Errorf "%w: TEE challenge result data is not valid JSON (len=%d, preview=%q)" [ESentinel ErrTEEResponseMalformed])
  else
  teeInfo ← map_err (fun err => Errorf "%w: unmarshal TEE result: %w" [ESentinel ErrTEEResponseMalformed; err])
    (unmarshal_TeeInfoResponse data);
  proxySignHash ← map_err (fun err => Errorf "hashing proxy signature payload: %w" [err])
    (Payload_Hash ProxyActionResult (ti_ChainID (tr_TeeInfo teeInfo)) (Result_Hash (ac_Result actionResp)));
  signer ← map_err (fun err => Errorf "%w: recover signer: %w" [ESentinel ErrTEEResponseMalformed; err])
    (SignatureToSignersAddress proxySignHash (ac_ProxySignature actionResp));
  Ok (actionResp, teeInfo, signer).

Definition verifyActionResult (actionResp : ActionResponse) (expectedInstructionID : Hash) (expectedTeeID : Address)
    (chainID : Z) : res error unit :=
  let r := ac_Result actionResp in
  if negb (ar_ID r =? expectedInstructionID) then
    Err (Errorf "action result instruction ID mismatch: expected %s, got %s" [])
  else if negb (ar_Status r =? 1) then
    Err (Errorf "action result status not success: status=%d, log=%q, additionalStatus=%x" [])
  else if negb (ar_OPType r =? expectedAvailabilityOPType) then
    Err (Errorf "action result OPType mismatch: expected %s, got %s" [])
  else if negb (ar_OPCommand r =? expectedAvailabilityOPCommand) then
    Err (Errorf "action result OPCommand mismatch: expected %s, got %s" [])
  else if len (ac_Signature actionResp) =? 0 then Err (Errorf "missing TEE signature on action result" [])
  else
  signHash ← map_err (fun err => Errorf "computing action result sign hash: %w" [err])
    (Payload_Hash TEEActionResult chainID (Result_Hash r));
  map_err (fun err => Errorf "TEE signature on action result does not match expected TEE %s: %w" [err])
    (VerifySignature signHash (ac_Signature actionResp) expectedTeeID).

(** The policy [DataVerification] builds. *)
Definition attestation_policy (cfg : TeeAvailabilityCheckConfig) (teeInfoHash : bytes) : Policy :=
  {| po_Audience := tac_TeeAudience cfg; po_EATNonce := tee_hex teeInfoHash;
     po_AllowedDebugStatuses := if negb (tac_AllowTeeDebug cfg) then ["disabled-since-boot"%string] else [];
     po_Issuer := ConfidentialSpaceIssuer; po_AllowedHWModels := confidentialHWModels; po_RequireSecBoot := true |}.

Definition DataVerification (v : TeeVerifier) (env : token_env) (response : TeeInfoResponse) (expectedTeeID : Address)
    : SE (gmap string crlEntry) error StatusInfo :=
  let cfg := tv_Cfg v in
  let e2e := {| st_CodeHash := E2ETestCodeHash; st_Platform := E2ETestPlatform; st_Status := OK |} in
  if tac_DisableAttestationCheckE2E cfg then lift (Ok e2e)
  else if String.eqb (tr_Attestation response) MagicPass then lift (Ok e2e)
  else if String.eqb (tac_TeeAudience cfg) "" then
    lift (Err (Errorf "refusing to build attestation policy with empty TeeAudience: would skip audience enforcement" []))
  else
  crls ← (if tv_CRLCache v then
            se_map_err (fun err => Errorf "CRL preprocessing failed: %w" [err])
              (FetchCRLsForToken env (tr_Attestation response) (Some (tac_GoogleRootCertificate cfg)))
          else lift (Ok (None, None)));
  lift (
    teeInfoHash ← map_err (fun err => Errorf "cannot create hash of teeInfo: %w" [err]) (TeeInfo_Hash (tr_TeeInfo response));
    claims ← map_err (fun err => Errorf "cannot validate certificate signature: %w" [err])
      (ParseAndValidatePKIToken (tr_Attestation response) (tac_GoogleRootCertificate cfg) crls.1 crls.2
         (attestation_policy cfg teeInfoHash));
    receivedTeeID ← map_err (fun err => Errorf "cannot retrieve TEE ID from: %w" [err])
      (PubKeyToAddress (ti_PublicKey (tr_TeeInfo response)));
    if negb (expectedTeeID =? receivedTeeID) then Err (Errorf "expected TEE ID %s, got: %s" [])
    else map_err (fun err => Errorf "cannot validate claims: %w" [err]) (ValidateClaims claims)).

Definition classifyDataVerificationError (err : error) : error :=
  if Is err ErrTEERevocationUnavailable || Is err ContextCanceled || Is err ContextDeadlineExceeded then
    Errorf "data verification could not complete: %w" [err]
  else Errorf "%w: %w" [ESentinel ErrTEEAttestationInvalid; err].

(** *** Signing policies *)
Definition FetchSigningPolicyHashFromChain (v : TeeVerifier) (ctx : Ctx) (signingPolicyID : Z)
    : res error Hash * TeeSampleState :=
  match ToSigningPolicyHash (tv_Relay v) (relay_timeout ctx chainFetchTimeout) signingPolicyID with
  | Err err => let '(state, classifiedErr) := MapFetchErrorToState "ToSigningPolicyHash" err in (Err classifiedErr, state)
  | Ok h => (Ok h, TeeSampleValid)
  end.

(** The operation closes over [hash] and [finalState].  Each attempt would read
    the chain the same way; the one caller makes a single attempt
    ([chainMaxAttempts]). *)
Definition FetchSigningPolicyHashFromChainWithRetry (v : TeeVerifier) (ctx : Ctx) (interrupted : nat -> option error)
    (signingPolicyID maxAttempts : Z) : res error Hash * TeeSampleState :=
  let operation (_ : nat) : SE (Hash * TeeSampleState) error unit := fun vars =>
    match FetchSigningPolicyHashFromChain v ctx signingPolicyID with
    | (Err err, state) => (Err err, (vars.1, state))
    | (Ok h, state) => (Ok tt, (h, state))
    end in
  let breakOn (vars : Hash * TeeSampleState) (_ : error) := bool_decide (vars.2 = TeeSampleInvalid) in
  match Retry operation breakOn interrupted maxAttempts (0, TeeSampleValid) with
  | (Err err, (_, finalState)) =>
      (Err (Errorf "fetchSigningPolicyHashFromChainWithRetry failed after %d attempts: %w" [err]), finalState)
  | (Ok _, (hash, finalState)) => (Ok hash, finalState)
  end.

Definition CheckSigningPolicies (v : TeeVerifier) (ctx : Ctx) (interrupted : nat -> option error) (info : TeeInfo)
    : res error unit * TeeSampleState :=
  let initial := FetchSigningPolicyHashFromChainWithRetry v ctx interrupted (ti_InitialSigningPolicyID info) chainMaxAttempts in
  let last := FetchSigningPolicyHashFromChainWithRetry v ctx interrupted (ti_LastSigningPolicyID info) chainMaxAttempts in
  match initial.1, last.1 with
  | Err err, _ => (Err (Errorf "cannot retrieve initial signing policy hash for ID %d: %w" [err]), initial.2)
  | Ok _, Err err => (Err (Errorf "cannot retrieve last signing policy hash for ID %d: %w" [err]), last.2)
  | Ok hi, Ok hl =>
      if negb (hi =? ti_InitialSigningPolicyHash info) then
        (Err (Errorf "failed to validate initial signing policy hash: %w: %w"
                [ESentinel ErrTEESigningPolicyHash; ESentinel ErrTEEDataValidation]), TeeSampleInvalid)
      else if negb (hl =? ti_LastSigningPolicyHash info) then
        (Err (Errorf "failed to validate last signing policy hash: %w: %w"
                [ESentinel ErrTEESigningPolicyHash; ESentinel ErrTEEDataValidation]), TeeSampleInvalid)
      else (Ok tt, TeeSampleValid)
  end.

(** [Verify].  The data verification and the policy check run concurrently and
    share nothing; the first one's error is reported first. *)
Definition Verify (v : TeeVerifier) (ctx : Ctx) (env : token_env) (interrupted : nat -> option error) (req : TeeRequest)
    : SE (gmap string crlEntry) error TeeResponse :=
  fetched ← lift (map_err (fun err => Errorf "cannot fetch TEE data for (TEE=%s, URL=%s, instruction=%x): %w" [err])
    (FetchTEEChallengeResult ctx (FormatProxyURL v (tq_Url req)) (tq_InstructionId req) (tac_AllowPrivateNetworks (tv_Cfg v))));
  let '(actionResp, response, dataSigner) := fetched in
  let infoData := tr_TeeInfo response in
  if negb (ti_Challenge infoData =? tq_Challenge req) then
    lift (Err (Errorf "challenge does not match: expected %s, got %s: %w: %w"
                 [ESentinel ErrTEEChallengeMismatch; ESentinel ErrTEEDataValidation]))
  else if negb (ti_ChainID infoData =? tac_ChainID (tv_Cfg v)) then
    lift (Err (Errorf "chainID does not match: attestation reports %d, verifier serves %d: %w: %w"
                 [ESentinel ErrTEEChainIDMismatch; ESentinel ErrTEEDataValidation]))
  else if negb (dataSigner =? tq_TeeProxyId req) then
    lift (Err (Errorf "proxy signer does not match: expected %s, got %s: %w: %w"
                 [ESentinel ErrTEEProxySignerMismatch; ESentinel ErrTEEDataValidation]))
  else
  _ ← lift (map_err (fun err => Errorf "%w: %w" [ESentinel ErrTEEActionResultMismatch; err])
    (verifyActionResult actionResp (tq_InstructionId req) (tq_TeeId req) (ti_ChainID infoData)));
  statusInfo ← se_map_err classifyDataVerificationError (DataVerification v env response (tq_TeeId req));
  _ ← lift (CheckSigningPolicies v ctx interrupted infoData).1;
  lift (Ok {| tp_Status := AvailabilityCheckStatus_uint8 (st_Status statusInfo); tp_TeeTimestamp := ti_TeeTimestamp infoData;
              tp_CodeHash := st_CodeHash statusInfo; tp_Platform := st_Platform statusInfo;
              tp_InitialSigningPolicyId := ti_InitialSigningPolicyID infoData;
              tp_LastSigningPolicyId := ti_LastSigningPolicyID infoData; tp_State := ti_State infoData |}).

(** [TeeVerifier.Close]: the client is closed and the cache cleared. *)
Definition TeeVerifier_Close (v : TeeVerifier) (clients : Z) (entries : gmap string crlEntry) : Z * gmap string crlEntry :=
  (clients - 1, if tv_CRLCache v then CRLCache_Close entries else entries).
End Tee.

(** ** Specification *)
Section TeeSpec.
Context `{TeeLib} {Ctx : Type} `{!NetLib Ctx} `{!HttpLib Ctx} `{!BackgroundCtx Ctx} `{!RelayLib Ctx}.

(** The action result is the TEE's own answer to the instruction, on the chain. *)
Record action_bound (a : ActionResponse) (id : Hash) (tee : Address) (chainID : Z) : Prop := {
  ab_id : ar_ID (ac_Result a) = id;
  ab_success : ar_Status (ac_Result a) = 1;
  ab_op : ar_OPType (ac_Result a) = expectedAvailabilityOPType /\ ar_OPCommand (ac_Result a) = expectedAvailabilityOPCommand;
  ab_signed : ac_Signature a <> ""%string /\ exists h,
    Payload_Hash TEEActionResult chainID (Result_Hash (ac_Result a)) = Ok h /\
    VerifySignature h (ac_Signature a) tee = Ok tt
}.

(** The data came from the proxy at a permitted address, whole and signed. *)
Record fetched_from_proxy (ctx : Ctx) (baseURL : string) (id : Hash) (allow : bool)
    (a : ActionResponse) (t : TeeInfoResponse) (signer : Address) : Prop := {
  fp_pinned : exists reqURL r body, JoinPath baseURL ["action"; "result"; instruction_hex id]%string = Ok reqURL /\
    ResolveExternalURL ctx baseURL allow = Ok r /\ forbidden allow (rv_IP r) = false /\
    let '(dial, host, sn) := BuildPinnedAddr r in
    FetchBytesPinned ctx reqURL fetchChallengeTimeout dial host sn = Ok body /\ unmarshal_ActionResponse body = Ok a;
  fp_info : ar_Data (ac_Result a) <> ""%string /\ json_Valid (ar_Data (ac_Result a)) = true /\
    unmarshal_TeeInfoResponse (ar_Data (ac_Result a)) = Ok t;
  fp_signed : exists h, Payload_Hash ProxyActionResult (ti_ChainID (tr_TeeInfo t)) (Result_Hash (ac_Result a)) = Ok h /\
    SignatureToSignersAddress h (ac_ProxySignature a) = Ok signer
}.

(** What a revocation list used for a certificate must be. *)
Definition crl_for (crl : option RevocationList) (cert issuer : Certificate) : Prop :=
  (crl = None /\ CRLDistributionPoints cert = []) \/ (exists l, crl = Some l /\ verifyCRLIssuer l issuer = Ok tt).

(** The attestation token was validated: it presents a trusted, current chain,
    revocation lists of its issuers, the configured policy, the TEE's own key. *)
Record attested (v : TeeVerifier) (now : Z) (t : TeeInfoResponse) (tee : Address) (info : StatusInfo) : Prop := {
  at_audience : tac_TeeAudience (tv_Cfg v) <> ""%string;
  at_token : exists leafCRL intCRL h claims,
    TeeInfo_Hash (tr_TeeInfo t) = Ok h /\
    ParseAndValidatePKIToken (tr_Attestation t) (tac_GoogleRootCertificate (tv_Cfg v)) leafCRL intCRL
      (attestation_policy (tv_Cfg v) h) = Ok claims /\
    ValidateClaims claims = Ok info /\
    (tv_CRLCache v = true -> exists certs, presents (tr_Attestation t) certs /\
       trusted_chain now (Some (tac_GoogleRootCertificate (tv_Cfg v))) certs /\
       crl_for leafCRL (ch_Leaf certs) (ch_Intermediate certs) /\
       crl_for intCRL (ch_Intermediate certs) (ch_Root certs));
  at_key : PubKeyToAddress (ti_PublicKey (tr_TeeInfo t)) = Ok tee
}.

(** The two ways around the token: the end-to-end test flag, and the node's own
    declaration that it runs outside production. *)
Definition bypassed (v : TeeVerifier) (t : TeeInfoResponse) (info : StatusInfo) : Prop :=
  (tac_DisableAttestationCheckE2E (tv_Cfg v) = true \/ tr_Attestation t = MagicPass) /\
  info = {| st_CodeHash := E2ETestCodeHash; st_Platform := E2ETestPlatform; st_Status := OK |}.

(** The attestation can be validated from any cache: its chain is trusted, a
    distribution point of each certificate works, and the token passes with
    whatever lists of the right issuers come back. *)
Record attestable (v : TeeVerifier) (env : token_env) (t : TeeInfoResponse) (tee : Address) (info : StatusInfo) : Prop := {
  ab_required : tac_DisableAttestationCheckE2E (tv_Cfg v) = false /\ tr_Attestation t <> MagicPass;
  ab_audience : tac_TeeAudience (tv_Cfg v) <> ""%string;
  ab_lists : tv_CRLCache v = true -> exists certs,
    token_chain (te_now env) (tr_Attestation t) (Some (tac_GoogleRootCertificate (tv_Cfg v))) = Ok certs /\
    available (te_leaf env) (CRLDistributionPoints (ch_Leaf certs)) (ch_Intermediate certs) /\
    available (te_intermediate env) (CRLDistributionPoints (ch_Intermediate certs)) (ch_Root certs);
  ab_token : exists h, TeeInfo_Hash (tr_TeeInfo t) = Ok h /\ forall leafCRL intCRL,
    (tv_CRLCache v = true -> exists certs,
       token_chain (te_now env) (tr_Attestation t) (Some (tac_GoogleRootCertificate (tv_Cfg v))) = Ok certs /\
       crl_for leafCRL (ch_Leaf certs) (ch_Intermediate certs) /\ crl_for intCRL (ch_Intermediate certs) (ch_Root certs)) ->
    exists claims, ParseAndValidatePKIToken (tr_Attestation t) (tac_GoogleRootCertificate (tv_Cfg v)) leafCRL intCRL
      (attestation_policy (tv_Cfg v) h) = Ok claims /\ ValidateClaims claims = Ok info;
  ab_key : PubKeyToAddress (ti_PublicKey (tr_TeeInfo t)) = Ok tee
}.

(** The attestation is examined and does not stand: the audience is not
    configured, the token presents no trusted chain, no list can be got for one
    of its certificates although it names points for them, or the token, its
    key or its claims are refused. *)
Definition examined (v : TeeVerifier) (t : TeeInfoResponse) : Prop :=
  tac_DisableAttestationCheckE2E (tv_Cfg v) = false /\ tr_Attestation t <> MagicPass.
Definition lists_used (v : TeeVerifier) (now : Z) (t : TeeInfoResponse) (leafCRL intCRL : option RevocationList) : Prop :=
  tv_CRLCache v = true -> exists certs, presents (tr_Attestation t) certs /\
    trusted_chain now (Some (tac_GoogleRootCertificate (tv_Cfg v))) certs /\
    crl_for leafCRL (ch_Leaf certs) (ch_Intermediate certs) /\ crl_for intCRL (ch_Intermediate certs) (ch_Root certs).
Inductive data_refuted (v : TeeVerifier) (now : Z) (t : TeeInfoResponse) (tee : Address) : Prop :=
| no_audience : tac_TeeAudience (tv_Cfg v) = ""%string -> data_refuted v now t tee
| untrusted_chain : tv_CRLCache v = true ->
    ~ (exists certs, presents (tr_Attestation t) certs /\ trusted_chain now (Some (tac_GoogleRootCertificate (tv_Cfg v))) certs) ->
    data_refuted v now t tee
| no_usable_list certs : tv_CRLCache v = true -> presents (tr_Attestation t) certs ->
    trusted_chain now (Some (tac_GoogleRootCertificate (tv_Cfg v))) certs ->
    revocation_unusable (ch_Leaf certs) (ch_Intermediate certs) \/ revocation_unusable (ch_Intermediate certs) (ch_Root certs) ->
    data_refuted v now t tee
| no_hash err : TeeInfo_Hash (tr_TeeInfo t) = Err err -> data_refuted v now t tee
| token_refused h leafCRL intCRL err : lists_used v now t leafCRL intCRL -> TeeInfo_Hash (tr_TeeInfo t) = Ok h ->
    ParseAndValidatePKIToken (tr_Attestation t) (tac_GoogleRootCertificate (tv_Cfg v)) leafCRL intCRL
      (attestation_policy (tv_Cfg v) h) = Err err -> data_refuted v now t tee
| other_key : PubKeyToAddress (ti_PublicKey (tr_TeeInfo t)) <> Ok tee -> data_refuted v now t tee
| claims_refused h leafCRL intCRL claims err : lists_used v now t leafCRL intCRL -> TeeInfo_Hash (tr_TeeInfo t) = Ok h ->
    ParseAndValidatePKIToken (tr_Attestation t) (tac_GoogleRootCertificate (tv_Cfg v)) leafCRL intCRL
      (attestation_policy (tv_Cfg v) h) = Ok claims -> ValidateClaims claims = Err err -> data_refuted v now t tee.

(** Both signing policies the TEE reports are the ones on chain. *)
Definition policies_on_chain (v : TeeVerifier) (ctx : Ctx) (info : TeeInfo) : Prop :=
  ToSigningPolicyHash (tv_Relay v) (relay_timeout ctx chainFetchTimeout) (ti_InitialSigningPolicyID info) =
    Ok (ti_InitialSigningPolicyHash info) /\
  ToSigningPolicyHash (tv_Relay v) (relay_timeout ctx chainFetchTimeout) (ti_LastSigningPolicyID info) =
    Ok (ti_LastSigningPolicyHash info).

(** The response states what was established. *)
Definition response_of (info : TeeInfo) (s : StatusInfo) : TeeResponse :=
  {| tp_Status := AvailabilityCheckStatus_uint8 (st_Status s); tp_TeeTimestamp := ti_TeeTimestamp info;
     tp_CodeHash := st_CodeHash s; tp_Platform := st_Platform s;
     tp_InitialSigningPolicyId := ti_InitialSigningPolicyID info;
     tp_LastSigningPolicyId := ti_LastSigningPolicyID info; tp_State := ti_State info |}.

(** ** Lemmas *)
Lemma verifyActionResult_Ok a id tee chainID :
  verifyActionResult a id tee chainID = Ok tt <-> action_bound a id tee chainID.
Proof.
  unfold verifyActionResult. split.
  - destruct (Z.eqb_spec (ar_ID (ac_Result a)) id); cbn [negb]; [|done].
    destruct (Z.eqb_spec (ar_Status (ac_Result a)) 1); cbn [negb]; [|done].
    destruct (Z.eqb_spec (ar_OPType (ac_Result a)) expectedAvailabilityOPType); cbn [negb]; [|done].
    destruct (Z.eqb_spec (ar_OPCommand (ac_Result a)) expectedAvailabilityOPCommand); cbn [negb]; [|done].
    destruct (Z.eqb_spec (len (ac_Signature a)) 0) as [|Hne]; [done|].
    intros (h & Hh%map_err_Ok & Hv%map_err_Ok)%res_bind_Ok.
    constructor; [done..|]. split; [|eauto]. intros He. by rewrite He in Hne.
  - intros [Hid Hs [Ht Hc] (Hne & h & Hh & Hv)]. rewrite Hid, Hs, Ht, Hc, !Z.eqb_refl. cbn [negb].
    destruct (Z.eqb_spec (len (ac_Signature a)) 0) as [He|]; [destruct (ac_Signature a); done|].
    rewrite Hh. cbn [map_err mbind res_bind]. by rewrite Hv.
Qed.

Lemma FetchTEEChallengeResult_Ok ctx base id allow a t signer :
  FetchTEEChallengeResult ctx base id allow = Ok (a, t, signer) -> fetched_from_proxy ctx base id allow a t signer.
Proof.
  unfold FetchTEEChallengeResult. intros (reqURL & Hj%map_err_Ok & Hr)%res_bind_Ok.
  apply res_bind_Ok in Hr as (r & Hres & Hr).
  pose proof (resolveExternalURL_Ok _ _ _ _ Hres) as (_ & u & _ & _ & _ & _ & _ & _ & _ & _ & Hsafe).
  destruct (BuildPinnedAddr r) as [[dial host] sn] eqn:Hpin.
  apply res_bind_Ok in Hr as (a' & Ha%map_err_Ok & Hr). unfold FetchJSONPinned in Ha.
  apply res_bind_Ok in Ha as (body & Hbody & Hdec%map_err_Ok).
  destruct (Z.eqb_spec (len (ar_Data (ac_Result a'))) 0) as [|Hne]; [done|].
  destruct (json_Valid _) eqn:Hvalid; [|done]. cbn [negb] in Hr.
  apply res_bind_Ok in Hr as (t' & Ht%map_err_Ok & Hr). apply res_bind_Ok in Hr as (h & Hh%map_err_Ok & Hr).
  apply res_bind_Ok in Hr as (s & Hs%map_err_Ok & Hr). injection Hr as -> -> ->. constructor.
  - exists reqURL, r, body. rewrite Hpin. done.
  - split; [|done]. intros He. by rewrite He in Hne.
  - eauto.
Qed.

Lemma fetchFirstCRL_for env cert issuer w crl w' :
  fetchFirstCRL env (CRLDistributionPoints cert) issuer w = (Ok crl, w') -> crl_for crl cert issuer.
Proof. intros [?|(_ & ?)]%fetchFirstCRL_Ok; unfold crl_for; auto. Qed.

Lemma DataVerification_Ok v env t tee s info s' :
  DataVerification v env t tee s = (Ok info, s') ->
  bypassed v t info \/ attested v (te_now env) t tee info.
Proof.
  unfold DataVerification. destruct (tac_DisableAttestationCheckE2E (tv_Cfg v)) eqn:He2e.
  { intros [[= <-] _]%lift_eq. left. split; [auto|done]. }
  destruct (String.eqb_spec (tr_Attestation t) MagicPass) as [Hm|_].
  { intros [[= <-] _]%lift_eq. left. split; [auto|done]. }
  destruct (String.eqb_spec (tac_TeeAudience (tv_Cfg v)) "") as [|Haud]; [intros [? _]%lift_eq; done|].
  intros (crls & s1 & Hcrl & [Hr _]%lift_eq)%se_bind_Ok. right.
  apply res_bind_Ok in Hr as (h & Hh%map_err_Ok & Hr). apply res_bind_Ok in Hr as (claims & Hc%map_err_Ok & Hr).
  apply res_bind_Ok in Hr as (id & Hid%map_err_Ok & Hr).
  destruct (Z.eqb_spec tee id) as [<-|]; cbn [negb] in Hr; [|done]. apply map_err_Ok in Hr.
  constructor; [done| |done]. exists crls.1, crls.2, h, claims. do 3 (split; [done|]).
  intros Hcache. rewrite Hcache in Hcrl. apply se_map_err_Ok in Hcrl. destruct crls as [l i].
  apply FetchCRLsForToken_Ok in Hcrl as (certs & w1 & w2 & Hp & Ht & El & Ei). exists certs. do 2 (split; [done|]).
  split; by eapply fetchFirstCRL_for.
Qed.

(** The lists of a trusted chain with working points come back, whatever is
    cached. *)
Lemma FetchCRLsForToken_available env token root entries certs :
  token_env_ok env -> cache_ok entries -> token_chain (te_now env) token root = Ok certs ->
  available (te_leaf env) (CRLDistributionPoints (ch_Leaf certs)) (ch_Intermediate certs) ->
  available (te_intermediate env) (CRLDistributionPoints (ch_Intermediate certs)) (ch_Root certs) ->
  exists l i entries', FetchCRLsForToken env token root entries = (Ok (l, i), entries') /\
    crl_for l (ch_Leaf certs) (ch_Intermediate certs) /\ crl_for i (ch_Intermediate certs) (ch_Root certs).
Proof.
  intros Henv Hok Hc Hl Hi. pose proof Hc as [Hp Ht]%token_chain_Ok.
  pose proof (CRLs_available env token root entries certs Henv Hok Hp Ht Hl Hi) as Ha.
  destruct (FetchCRLsForToken env token root entries) as [[[l i]|] entries'] eqn:Hf; [|done]. exists l, i, entries'. split; [done|].
  apply FetchCRLsForToken_Ok in Hf as (certs' & w1 & w2 & Hp' & Ht' & El & Ei).
  assert (certs' = certs) as -> by (pose proof (proj2 (token_chain_Ok _ _ _ _) (conj Hp' Ht')); congruence).
  split; by eapply fetchFirstCRL_for.
Qed.

(** Data that can be verified is, from every well formed cache. *)
Lemma DataVerification_established v env t tee info s :
  token_env_ok env -> cache_ok s -> bypassed v t info \/ attestable v env t tee info -> exists s', DataVerification v env t tee s = (Ok info, s').
Proof.
  intros Henv Hok [[Hb ->]|[[He2e Hm] Haud Hlists (h & Hh & Htok) Hkey]]; unfold DataVerification.
  { destruct (tac_DisableAttestationCheckE2E _); [by exists s|]. destruct Hb as [?|Hm]; [done|].
    rewrite Hm, String.eqb_refl. by exists s. }
  rewrite He2e, (proj2 (String.eqb_neq _ _) Hm), (proj2 (String.eqb_neq _ _) Haud), Hh, Hkey. unfold mbind at 1, se_bind.
  destruct (tv_CRLCache v) eqn:Hcache.
  - destruct (Hlists eq_refl) as (certs & Hc & Hl & Hi).
    destruct (FetchCRLsForToken_available env _ _ s certs Henv Hok Hc Hl Hi) as (l & i & s' & Hf & Cl & Ci).
    destruct (Htok l i) as (claims & Hp & Hv); [by exists certs|].
    exists s'. unfold se_map_err. rewrite Hf. unfold lift. cbn. rewrite Hp. cbn. rewrite Z.eqb_refl. cbn. by rewrite Hv.
  - destruct (Htok None None) as (claims & Hp & Hv); [done|]. exists s. unfold lift. cbn. rewrite Hp. cbn.
    rewrite Z.eqb_refl. cbn. by rewrite Hv.
Qed.

(** With one attempt the retry is the call itself. *)
Lemma FetchSigningPolicy_single v ctx interrupted id :
  FetchSigningPolicyHashFromChainWithRetry v ctx interrupted id chainMaxAttempts =
  match FetchSigningPolicyHashFromChain v ctx id with
  | (Ok h, st) => (Ok h, st)
  | (Err e, st) => (Err (Errorf "fetchSigningPolicyHashFromChainWithRetry failed after %d attempts: %w" [e]), st)
  end.
Proof.
  unfold FetchSigningPolicyHashFromChainWithRetry, Retry, chainMaxAttempts. change (1 <=? 0) with false.
  change (Z.to_nat (1 - 1)) with 0%nat. cbn [retry_loop].
  destruct (FetchSigningPolicyHashFromChain v ctx id) as [[h|e] st]; cbn; [done|]. by destruct (bool_decide _).
Qed.

Lemma FetchSigningPolicy_Ok v ctx id h :
  (FetchSigningPolicyHashFromChain v ctx id).1 = Ok h <->
  ToSigningPolicyHash (tv_Relay v) (relay_timeout ctx chainFetchTimeout) id = Ok h.
Proof.
  unfold FetchSigningPolicyHashFromChain. destruct (ToSigningPolicyHash _ _ _) as [h'|e]; [done|].
  destruct (MapFetchErrorToState _ e). done.
Qed.

Lemma CheckSigningPolicies_Ok v ctx interrupted info :
  (CheckSigningPolicies v ctx interrupted info).1 = Ok tt <-> policies_on_chain v ctx info.
Proof.
  unfold CheckSigningPolicies, policies_on_chain. rewrite !FetchSigningPolicy_single.
  rewrite <- !FetchSigningPolicy_Ok.
  destruct (FetchSigningPolicyHashFromChain v ctx (ti_InitialSigningPolicyID info)) as [[hi|e] s1]; cbn [fst]; [|naive_solver].
  destruct (FetchSigningPolicyHashFromChain v ctx (ti_LastSigningPolicyID info)) as [[hl|e] s2]; cbn [fst]; [|naive_solver].
  destruct (Z.eqb_spec hi (ti_InitialSigningPolicyHash info)); cbn [negb]; [|naive_solver].
  destruct (Z.eqb_spec hl (ti_LastSigningPolicyHash info)); cbn [negb]; naive_solver.
Qed.

(** A cutover routes by id, refuses an id no Relay can own, and never falls back. *)
Lemma cutover_routes current next start ctx id :
  ToSigningPolicyHash (cutoverRelay current next start) ctx id =
  if decide (0 <= id < 2 ^ 24) then
    Relay_ToSigningPolicyHash (if decide (start <= id) then next else current) ctx id
  else Err (Errorf "signing-policy id %v is outside the supported range" []).
Proof.
  unfold ToSigningPolicyHash. change maxRewardEpochID with (2 ^ 24 - 1).
  destruct (decide (0 <= id < 2 ^ 24)) as [Hid|Hid].
  - rewrite (proj2 (Z.ltb_ge id 0)) by lia. rewrite (proj2 (Z.ltb_ge MaxUint64 id)) by (unfold MaxUint64; lia).
    rewrite (proj2 (Z.ltb_ge (2 ^ 24 - 1) id)) by lia. cbn [orb]. unfold u32. rewrite Z.mod_small by lia.
    destruct (Z.leb_spec start id); [rewrite decide_True by done|rewrite decide_False by lia]; done.
  - destruct (Z.ltb_spec id 0); [done|]. cbn [orb]. destruct (MaxUint64 <? id); [done|]. cbn [orb].
    destruct (Z.ltb_spec (2 ^ 24 - 1) id); [done|lia].
Qed.

(** The verifier changes the cache only through lookups. *)
Lemma Verify_tee_keeps v ctx env interrupted req : token_env_ok env -> keeps cache_ok (Verify v ctx env interrupted req).
Proof.
  intros Henv. unfold Verify. apply keeps_bind; [apply keeps_lift|]. intros [[a t] signer].
  do 3 (destruct (negb _); [apply keeps_lift|]).
  apply keeps_bind; [apply keeps_lift|intros _]. apply keeps_bind; [|intros; solve_keeps].
  apply keeps_map_err. unfold DataVerification. do 3 (destruct (_ : bool); [apply keeps_lift|]).
  apply keeps_bind; [|intros; apply keeps_lift]. destruct (tv_CRLCache v); [|apply keeps_lift].
  by apply keeps_map_err, FetchCRLsForToken_keeps.
Qed.

(** A run of the verifier, call by call. *)
Lemma Verify_tee_exact v ctx env interrupted req s resp s' :
  Verify v ctx env interrupted req s = (Ok resp, s') <->
  exists a t info,
    FetchTEEChallengeResult ctx (FormatProxyURL v (tq_Url req)) (tq_InstructionId req) (tac_AllowPrivateNetworks (tv_Cfg v)) =
      Ok (a, t, tq_TeeProxyId req) /\
    ti_Challenge (tr_TeeInfo t) = tq_Challenge req /\ ti_ChainID (tr_TeeInfo t) = tac_ChainID (tv_Cfg v) /\
    action_bound a (tq_InstructionId req) (tq_TeeId req) (tac_ChainID (tv_Cfg v)) /\
    DataVerification v env t (tq_TeeId req) s = (Ok info, s') /\
    policies_on_chain v ctx (tr_TeeInfo t) /\ resp = response_of (tr_TeeInfo t) info.
Proof.
  unfold Verify. split.
  - intros ([[a t] signer] & s0 & [Hf%map_err_Ok ->]%lift_eq & Hr)%se_bind_Ok. cbn beta iota in Hr.
    destruct (Z.eqb_spec (ti_Challenge (tr_TeeInfo t)) (tq_Challenge req)) as [Hch|]; cbn [negb] in Hr;
      [|apply lift_eq in Hr as [? _]; done].
    destruct (Z.eqb_spec (ti_ChainID (tr_TeeInfo t)) (tac_ChainID (tv_Cfg v))) as [Hid|]; cbn [negb] in Hr;
      [|apply lift_eq in Hr as [? _]; done].
    destruct (Z.eqb_spec signer (tq_TeeProxyId req)) as [Hsig|]; cbn [negb] in Hr; [|apply lift_eq in Hr as [? _]; done].
    apply se_bind_Ok in Hr as ([] & s1 & [Ha%map_err_Ok ->]%lift_eq & Hr). apply verifyActionResult_Ok in Ha.
    apply se_bind_Ok in Hr as (info & s2 & Hd%se_map_err_Ok & Hr).
    apply se_bind_Ok in Hr as ([] & s3 & [Hp ->]%lift_eq & Hr). apply CheckSigningPolicies_Ok in Hp.
    apply lift_eq in Hr as [Hr ->]. injection Hr as <-. subst signer. rewrite Hid in Ha.
    exists a, t, info. done.
  - intros (a & t & info & Hf & Hch & Hid & Ha & Hd & Hp & ->). apply se_bind_Ok. exists (a, t, tq_TeeProxyId req), s.
    rewrite Hf. split; [done|]. cbn beta iota. rewrite Hch, Hid, !Z.eqb_refl. cbn [negb].
    apply se_bind_Ok. exists tt, s. split; [apply lift_eq; split; [by apply map_err_Ok, verifyActionResult_Ok|done]|].
    apply se_bind_Ok. exists info, s'. split; [by apply se_map_err_Ok|].
    apply se_bind_Ok. exists tt, s'. split; [apply lift_eq; split; [by apply CheckSigningPolicies_Ok|done]|done].
Qed.

Lemma Verify_tee_run v ctx env interrupted req s resp s' :
  Verify v ctx env interrupted req s = (Ok resp, s') ->
  exists a t info,
    fetched_from_proxy ctx (FormatProxyURL v (tq_Url req)) (tq_InstructionId req) (tac_AllowPrivateNetworks (tv_Cfg v))
      a t (tq_TeeProxyId req) /\
    ti_Challenge (tr_TeeInfo t) = tq_Challenge req /\ ti_ChainID (tr_TeeInfo t) = tac_ChainID (tv_Cfg v) /\
    action_bound a (tq_InstructionId req) (tq_TeeId req) (tac_ChainID (tv_Cfg v)) /\
    (bypassed v t info \/ attested v (te_now env) t (tq_TeeId req) info) /\
    policies_on_chain v ctx (tr_TeeInfo t) /\ resp = response_of (tr_TeeInfo t) info.
Proof.
  intros (a & t & info & Hf%FetchTEEChallengeResult_Ok & ? & ? & ? & Hd%DataVerification_Ok & ? & ?)%Verify_tee_exact.
  by exists a, t, info.
Qed.

(** What can be established is answered, from every well formed cache. *)
Lemma Verify_tee_established v ctx env interrupted req s a t info :
  token_env_ok env -> cache_ok s ->
  FetchTEEChallengeResult ctx (FormatProxyURL v (tq_Url req)) (tq_InstructionId req) (tac_AllowPrivateNetworks (tv_Cfg v)) =
    Ok (a, t, tq_TeeProxyId req) ->
  ti_Challenge (tr_TeeInfo t) = tq_Challenge req -> ti_ChainID (tr_TeeInfo t) = tac_ChainID (tv_Cfg v) ->
  action_bound a (tq_InstructionId req) (tq_TeeId req) (tac_ChainID (tv_Cfg v)) ->
  bypassed v t info \/ attestable v env t (tq_TeeId req) info -> policies_on_chain v ctx (tr_TeeInfo t) ->
  exists s', Verify v ctx env interrupted req s = (Ok (response_of (tr_TeeInfo t) info), s').
Proof.
  intros Henv Hok Hf Hch Hid Ha Hest Hp. destruct (DataVerification_established v env t (tq_TeeId req) info s Henv Hok Hest) as [s' Hd].
  exists s'. apply Verify_tee_exact. by exists a, t, info.
Qed.

(** A failed construction leaves no client open. *)
Lemma NewVerifier_clients cfg clients r clients' :
  NewVerifier cfg clients = (r, clients') -> clients' = if is_ok r then clients + 1 else clients.
Proof.
  unfold NewVerifier. intros Hn. destruct (ethclient_Dial _); [|by injection Hn as <- <-].
  destruct (NewRelayCaller (tac_RelayContractAddress cfg)); [|injection Hn as <- <-; cbn; lia].
  destruct (negb _); [|by injection Hn as <- <-].
  destruct (NewRelayCaller _); injection Hn as <- <-; cbn; lia.
Qed.
End TeeSpec.

(** ** Errors *)
Class TeeErrors `{TeeLib} := {
  err_ActionResponse : forall s, foreign_res (unmarshal_ActionResponse s);
  err_TeeInfoResponse : forall s, foreign_res (unmarshal_TeeInfoResponse s);
  err_Payload : forall k c h, foreign_res (Payload_Hash k c h);
  err_Signers : forall h s, foreign_res (SignatureToSignersAddress h s);
  err_VerifySig : forall h s a, foreign_res (VerifySignature h s a);
  err_TeeInfoHash : forall t, foreign_res (TeeInfo_Hash t);
  err_PubKey : forall k, foreign_res (PubKeyToAddress k);
  err_PKIToken : forall t c l i p, foreign_res (ParseAndValidatePKIToken t c l i p);
  err_CodeHash : forall c, foreign_res (Claims_CodeHash c);
  err_Platform : forall c, foreign_res (Claims_Platform c);
  err_JoinPath : forall b l, foreign_res (JoinPath b l)
}.

Section TeeRaises.
Context `{TeeErrors} `{!X509Errors Certificate}.
Context {Ctx : Type} `{!NetLib Ctx} `{!NetErrors Ctx} `{!HttpLib Ctx} `{!HttpErrors Ctx} `{!BackgroundCtx Ctx} `{!RelayLib Ctx}.

Lemma verifyActionResult_raises l a id tee c : res_raises l (verifyActionResult a id tee c).
Proof. pose proof err_Payload. pose proof err_VerifySig. unfold verifyActionResult. solve_raises. Qed.

Lemma DataVerification_raises v env t tee : se_raises crl_errors (DataVerification v env t tee).
Proof.
  pose proof err_TeeInfoHash. pose proof err_PKIToken. pose proof err_PubKey. pose proof err_CodeHash.
  pose proof err_Platform. pose proof (fun tk r => FetchCRLsForToken_raises env tk r).
  unfold DataVerification, ValidateClaims. solve_raises.
Qed.

(** A failed data verification without a sign of an outage refutes the data. *)
Lemma DataVerification_refuted v env t tee s err s' :
  token_env_ok env -> cache_ok s -> DataVerification v env t tee s = (Err err, s') -> transient err = false ->
  examined v t /\ data_refuted v (te_now env) t tee.
Proof.
  intros Henv Hok Hd Htr. unfold DataVerification in Hd.
  destruct (tac_DisableAttestationCheckE2E (tv_Cfg v)) eqn:He2e; [by apply lift_eq in Hd as [? _]|].
  destruct (String.eqb_spec (tr_Attestation t) MagicPass) as [|Hm]; [by apply lift_eq in Hd as [? _]|]. split; [done|].
  destruct (String.eqb_spec (tac_TeeAudience (tv_Cfg v)) "") as [|Haud]; [by apply no_audience|].
  apply se_bind_Err in Hd as [Hc|([l i] & s1 & Hcrl & [Hd _]%lift_eq)].
  { destruct (tv_CRLCache v) eqn:Hcache; [|by apply lift_eq in Hc as [? _]]. apply se_map_err_Err in Hc as (e & Hc & ->).
    rewrite transient_single in Htr.
    destruct (FetchCRLsForToken_Err _ _ _ _ _ _ Henv Hok Hc) as [Ht|[?|(certs & ? & ? & ?)]];
      [congruence|by apply untrusted_chain|by eapply no_usable_list]. }
  assert (lists_used v (te_now env) t l i) as Hlists.
  { intros Hcache. rewrite Hcache in Hcrl. apply se_map_err_Ok, FetchCRLsForToken_Ok in Hcrl as (certs & w1 & w2 & ? & ? & El & Ei).
    exists certs. do 2 (split; [done|]). split; by eapply fetchFirstCRL_for. }
  apply res_bind_Err in Hd as [(e & He & _)%map_err_Err|(h & Hh%map_err_Ok & Hd)]; [by eapply no_hash|].
  apply res_bind_Err in Hd as [(e & He & _)%map_err_Err|(claims & Hc%map_err_Ok & Hd)]; [by eapply token_refused|].
  apply res_bind_Err in Hd as [(e & He & _)%map_err_Err|(id & Hid%map_err_Ok & Hd)]; [apply other_key; congruence|].
  destruct (Z.eqb_spec tee id) as [<-|Hne]; cbn [negb] in Hd; [|apply other_key; congruence].
  apply map_err_Err in Hd as (e & He & _). by eapply claims_refused.
Qed.

(** A policy lookup fails with one of the five fetch classes. *)
Lemma FetchSigningPolicy_class v ctx interrupted id e st :
  FetchSigningPolicyHashFromChainWithRetry v ctx interrupted id chainMaxAttempts = (Err e, st) ->
  exists c fmt, e = Errorf fmt [FetchError "ToSigningPolicyHash" (ESentinel (SFetchClass c))].
Proof.
  rewrite FetchSigningPolicy_single. unfold FetchSigningPolicyHashFromChain.
  destruct (ToSigningPolicyHash _ _ _) as [h|e0]; [done|].
  destruct (MapFetchErrorToState_class "ToSigningPolicyHash" e0) as (c & Hc & _).
  destruct (MapFetchErrorToState _ e0) as [st0 e1]. cbn in Hc. subst e1. intros [= <- <-]. eauto.
Qed.

Definition proxy_errors : list sentinel :=
  [SUrl ErrURLValidation; SFetcher ErrHTTPFetch; SFetcher ErrNotFound; SFetcher ErrResponseTooLarge; SFetcher ErrRedirect;
   STee ErrActionResultNotFound; STee ErrTEEResponseMalformed; STee ErrTEEDataValidation].

Lemma FetchTEEChallengeResult_raises ctx base id allow :
  res_raises proxy_errors (FetchTEEChallengeResult ctx base id allow).
Proof.
  pose proof err_JoinPath. pose proof err_TeeInfoResponse. pose proof err_Payload. pose proof err_Signers.
  pose proof (fun c u t d h s => FetchJSONPinned_raises (Ctx := Ctx) unmarshal_ActionResponse c u t d h s err_ActionResponse).
  unfold fetch_errors in *. unfold FetchTEEChallengeResult, proxy_errors, ResolveExternalURL. solve_raises.
Qed.
End TeeRaises.

(** ** Properties *)
Section TeeProperties.
Context `{TeeLib} {Ctx : Type} `{!NetLib Ctx} `{!HttpLib Ctx} `{!BackgroundCtx Ctx} `{!RelayLib Ctx}.

(** C3. A TEE reported available is the one asked about: its data came whole from a permitted address of its proxy and
    is signed by the proxy, answers the request's challenge on the served chain, is the TEE's own signed answer to the
    instruction, carries an attestation token that was validated against a trusted and unrevoked chain (or one of the
    two documented bypasses with the test identity), and names the two signing policies that are on chain. *)
Theorem tee_verify_sound v ctx env interrupted req s resp s' :
  Verify v ctx env interrupted req s = (Ok resp, s') ->
  exists a t info,
    fetched_from_proxy ctx (FormatProxyURL v (tq_Url req)) (tq_InstructionId req) (tac_AllowPrivateNetworks (tv_Cfg v))
      a t (tq_TeeProxyId req) /\
    ti_Challenge (tr_TeeInfo t) = tq_Challenge req /\ ti_ChainID (tr_TeeInfo t) = tac_ChainID (tv_Cfg v) /\
    action_bound a (tq_InstructionId req) (tq_TeeId req) (tac_ChainID (tv_Cfg v)) /\
    (bypassed v t info \/ attested v (te_now env) t (tq_TeeId req) info) /\
    policies_on_chain v ctx (tr_TeeInfo t) /\ resp = response_of (tr_TeeInfo t) info.
Proof. apply Verify_tee_run. Qed.

(** C23. The verifier answers exactly when its steps succeed: with a fetched response that is signed by the proxy, binds
    the challenge, the chain, the instruction and the TEE, passes the data verification and names the signing policies
    that are on chain; the response is the one that states them, and the cache is as the data verification left it.
    And what it answers does not hang on the cache: a response of this kind that is bypassed, or whose token has a
    trusted chain with a working distribution point per certificate and passes with their lists, is answered from
    every well formed cache and whatever other requests do to it meanwhile. *)
Theorem tee_verify_complete v ctx env interrupted req s :
  (forall resp s', Verify v ctx env interrupted req s = (Ok resp, s') <->
   exists a t info,
    FetchTEEChallengeResult ctx (FormatProxyURL v (tq_Url req)) (tq_InstructionId req) (tac_AllowPrivateNetworks (tv_Cfg v)) =
      Ok (a, t, tq_TeeProxyId req) /\
    ti_Challenge (tr_TeeInfo t) = tq_Challenge req /\ ti_ChainID (tr_TeeInfo t) = tac_ChainID (tv_Cfg v) /\
    action_bound a (tq_InstructionId req) (tq_TeeId req) (tac_ChainID (tv_Cfg v)) /\
    DataVerification v env t (tq_TeeId req) s = (Ok info, s') /\
    policies_on_chain v ctx (tr_TeeInfo t) /\ resp = response_of (tr_TeeInfo t) info) /\
  (token_env_ok env -> cache_ok s -> forall a t info,
    FetchTEEChallengeResult ctx (FormatProxyURL v (tq_Url req)) (tq_InstructionId req) (tac_AllowPrivateNetworks (tv_Cfg v)) =
      Ok (a, t, tq_TeeProxyId req) ->
    ti_Challenge (tr_TeeInfo t) = tq_Challenge req -> ti_ChainID (tr_TeeInfo t) = tac_ChainID (tv_Cfg v) ->
    action_bound a (tq_InstructionId req) (tq_TeeId req) (tac_ChainID (tv_Cfg v)) ->
    bypassed v t info \/ attestable v env t (tq_TeeId req) info -> policies_on_chain v ctx (tr_TeeInfo t) ->
    exists s', Verify v ctx env interrupted req s = (Ok (response_of (tr_TeeInfo t) info), s')).
Proof. split; [intros; apply Verify_tee_exact|intros Henv Hok a t info; by apply Verify_tee_established]. Qed.

(** C17. Signing policies pass exactly when both hashes the TEE reports are the ones its Relay holds; with a cutover
    each id below the starting epoch is asked of the current Relay and every other of the next one, and an id that does
    not fit in 24 bits is asked of none. *)
Theorem signing_policies_exact v ctx interrupted info :
  ((CheckSigningPolicies v ctx interrupted info).1 = Ok tt <-> policies_on_chain v ctx info) /\
  forall current next start id,
    ToSigningPolicyHash (cutoverRelay current next start) ctx id =
    if decide (0 <= id < 2 ^ 24) then
      Relay_ToSigningPolicyHash (if decide (start <= id) then next else current) ctx id
    else Err (Errorf "signing-policy id %v is outside the supported range" []).
Proof. split; [apply CheckSigningPolicies_Ok|intros; apply cutover_routes]. Qed.
End TeeProperties.
