(* ===== verification/Handler.v ===== *)
(** * internal/api/handler: the verification endpoints

    [handler.go], [handler_util.go] and the envelope of [api/types/common.go].
    The handlers are generic in the verifier, which they hold as an interface
    ([Verifier], from [attestation/verifier_interface.go]); its state is
    threaded through.  ABI coding of bodies is the [BodyCodec] interface. *)

From stdpp Require Import base list strings gmap.
From Stdlib Require Import ZArith Lia.
From S2P Require Import Prelude Errors GoStrings Eth Config.

#[local] Open Scope Z_scope.

Definition StatusVerified : string := "VERIFIED".
Definition StatusRetry : string := "RETRY".
Definition StatusRejected : string := "REJECTED".

(** [types.VerifierResponse] *)
Record VerifierResponse := { vr_Status : string; vr_ResponseBody : bytes; vr_Message : string }.

(** [types.AttestationRequest] *)
Record AttestationRequest := { aq_AttestationType : Hash; aq_SourceID : Hash; aq_RequestBody : bytes }.

(** [AttestationRequest.Resolve]: huma runs it before the handler. *)
Definition AttestationRequest_Resolve (req : AttestationRequest) : list error :=
  if len (aq_RequestBody req) =? 0 then [Errorf "requestBody cannot be empty" []] else [].

Class Verifier (Ctx St Req Res : Type) := VerifierVerify : Ctx -> Req -> SE St error Res.

(** ** Classification

    A Go [switch] whose cases list [errors.Is] tests: the first case with a
    test that holds. *)
Fixpoint switch_is {A} (cases : list (list sentinel * A)) (default : A) (err : error) : A :=
  match cases with
  | [] => default
  | (tests, a) :: rest => if existsb (Is err) tests then a else switch_is rest default err
  end.

Definition status_cases : list (list sentinel * (string * string)) :=
    [ ([SFee ErrBatchRangeTooLarge], (StatusRejected, "batch range too large"%string));
      ([SFee ErrReissueLimitExceeded], (StatusRejected, "reissue limit exceeded"%string));
      ([SMultisig ErrInvalidRequest], (StatusRejected, "invalid request"%string));
      ([SFee ErrMissingPayEvent], (StatusRejected, "missing pay event for the payment"%string));
      ([SFee ErrMissingTransaction], (StatusRejected, "missing transaction for the payment"%string));
      ([SClient ErrRPCNonSuccess], (StatusRejected, "source reported a non-success result"%string));
      ([SDB ErrRecordNotFound], (StatusRejected, "record not found"%string));
      ([STee ErrTEEChallengeMismatch], (StatusRejected, "TEE challenge mismatch"%string));
      ([STee ErrTEEChainIDMismatch], (StatusRejected, "TEE chain id mismatch"%string));
      ([STee ErrTEEProxySignerMismatch], (StatusRejected, "TEE proxy signer mismatch"%string));
      ([STee ErrTEESigningPolicyHash], (StatusRejected, "TEE signing policy hash mismatch"%string));
      ([STee ErrTEEAttestationInvalid], (StatusRejected, "TEE attestation invalid"%string));
      ([STee ErrTEEResponseMalformed], (StatusRejected, "TEE response malformed"%string));
      ([STee ErrTEEActionResultMismatch], (StatusRejected, "TEE action result mismatch"%string));
      ([STee ErrTEERevocationUnavailable], (StatusRetry, "TEE revocation check unavailable"%string));
      ([STee ErrTEEDataValidation], (StatusRejected, "TEE data validation failed"%string));
      ([SFetchClass ErrInvalidInput], (StatusRejected, "invalid input"%string));
      ([SLib ContextDeadlineExceeded; SLib ContextCanceled], (StatusRetry, "verification timed out"%string));
      ([SClient ErrFetchAccountInfo; SClient ErrFetchServerInfo; SClient ErrRPCTransient],
       (StatusRetry, "source RPC unavailable"%string));
      ([SMultisig ErrNetworkMismatch], (StatusRetry, "source network not verified"%string));
      ([SDB ErrDatabase], (StatusRetry, "database unavailable"%string));
      ([SDB ErrDataSource], (StatusRetry, "data source returned unusable data"%string));
      ([SFetchClass ErrNetwork; SFetchClass ErrRPC; SFetchClass ErrContext; SFetchClass ErrUnknown],
       (StatusRetry, "network or RPC error"%string));
      ([SFetcher ErrHTTPFetch], (StatusRetry, "upstream fetch failed"%string));
      ([STee ErrActionResultNotFound], (StatusRetry, "action result not available"%string)) ].

Definition classifyVerifyStatus (err : error) : string * string :=
  switch_is status_cases (StatusRetry, "unexpected error"%string) err.

(** [classifyVerifyError]: the HTTP status of the error it builds. *)
Definition classifyVerifyError (err : error) : Z :=
  switch_is
    [ ([SFee ErrBatchRangeTooLarge; SFee ErrReissueLimitExceeded; SMultisig ErrInvalidRequest], 400);
      ([SFee ErrMissingPayEvent; SFee ErrMissingTransaction; SClient ErrRPCNonSuccess; SDB ErrRecordNotFound;
        STee ErrTEEDataValidation; SFetchClass ErrInvalidInput], 422);
      ([SLib ContextDeadlineExceeded; SLib ContextCanceled; SClient ErrFetchAccountInfo; SClient ErrFetchServerInfo;
        SClient ErrRPCTransient; SMultisig ErrNetworkMismatch; SDB ErrDatabase; SDB ErrDataSource;
        SFetchClass ErrNetwork; SFetchClass ErrRPC; SFetchClass ErrContext; SFetchClass ErrUnknown;
        SFetcher ErrHTTPFetch; STee ErrActionResultNotFound; STee ErrTEERevocationUnavailable], 503) ]
    500 err.

(** ** Routes *)
Section Routes.
Context `{ConfigLib}.

Definition getVerifierAPIPath (sourceSlug destinationSlug : string) (attestationType : AttestationType) (endpoint : string) : string :=
  DeploymentPrefix sourceSlug destinationSlug +:+ "/" +:+ att_string attestationType +:+ "/" +:+ endpoint.

Definition getVerifierOperationID (sourceName : SourceName) (destinationSlug : string) (attestationType : AttestationType)
    (endpoint : string) : string :=
  "post-" +:+ ToLower sourceName +:+ "-" +:+ destinationSlug +:+ "-" +:+ att_string attestationType +:+ "-" +:+ endpoint.

(** The three operations [RegisterVerificationHandler] registers for a type:
    operation id and path. *)
Definition verification_operations (c : EncodedAndABI) : list (string * string) :=
  (fun endpoint =>
     (getVerifierOperationID (eab_SourceID c) (eab_DestinationChainSlug c) (eab_AttestationType c) endpoint,
      getVerifierAPIPath (eab_SourceURLSlug c) (eab_DestinationChainSlug c) (eab_AttestationType c) endpoint))
  <$> ["prepareRequestBody"; "prepareResponseBody"; "verify"]%string.

Definition validateSystemAndRequestAttestationNameAndSourceID (c : EncodedAndABI) (requestAttestationName requestSourceID : string)
    : res error unit :=
  if negb (String.eqb requestAttestationName (Hash_Hex (eab_AttestationTypeEncoded c))) ||
     negb (String.eqb requestSourceID (Hash_Hex (eab_SourceIDEncoded c))) then
    Err (Errorf "%w" [Errorf "attestation type and source id combination not supported: (%s, %s)." []])
  else Ok tt.
End Routes.

(** ** Handlers *)

(** [types.RequestConvertible] and [types.ResponseConvertible]: the conversions
    between a JSON body and the internal one.  A [FromInternal] that meets a nil
    pointer panics: none. *)
Class RequestConvertible (ReqJSON Req : Type) := ToInternal : ReqJSON -> res error Req.
Class ResponseConvertible (ResJSON Res : Type) := FromInternal : Res -> option ResJSON.

(** [types.AttestationRequestData]; [tags_hold] is what the [validate] tags of
    the body ask, as [validator.Struct] checks them. *)
Class TaggedBody (ReqJSON : Type) := tags_hold : ReqJSON -> bool.
Record AttestationRequestData (ReqJSON : Type) := { ad_AttestationType : Hash; ad_SourceID : Hash; ad_RequestData : ReqJSON }.
Arguments ad_AttestationType {ReqJSON} _.
Arguments ad_SourceID {ReqJSON} _.
Arguments ad_RequestData {ReqJSON} _.
Definition AttestationRequestData_Resolve {ReqJSON} `{TaggedBody ReqJSON} (req : AttestationRequestData ReqJSON) : list error :=
  if tags_hold (ad_RequestData req) then [] else [EForeign (plain_foreign "validation failed") []].

(** [structs.Encode]/[structs.Decode] for a service's bodies. *)
Class AbiStructs `{ConfigLib} (Req Res : Type) := {
  encode_request_abi : abi_Argument -> Req -> res error bytes;
  decode_request_abi : abi_Argument -> bytes -> res error Req;
  encode_response_abi : abi_Argument -> Res -> res error bytes
}.

(** The encoding of a struct is never empty, and decoding inverts encoding. *)
Class AbiLaws `{ConfigLib} (Req Res : Type) `{!AbiStructs Req Res} := {
  encode_response_nonempty : forall a r b, encode_response_abi a r = Ok b -> b <> ""%string;
  encode_request_nonempty : forall a r b, encode_request_abi a r = Ok b -> b <> ""%string;
  decode_encode_request : forall a r b, encode_request_abi a r = Ok b -> decode_request_abi a b = Ok r
}.

Definition verifierWorkTimeout : Z := 25 * 1_000_000_000.
Class DeadlineCtx (Ctx : Type) := deadline : Ctx -> Z -> Ctx.   (* context.WithTimeout *)

Section Handlers.
Context `{ConfigLib} {Ctx St Req Res ReqJSON ResJSON : Type}.
Context `{!DeadlineCtx Ctx} `{!Verifier Ctx St Req Res} `{!AbiStructs Req Res}.
Context `{!RequestConvertible ReqJSON Req} `{!ResponseConvertible ResJSON Res}.

Definition verifyWithDeadline (ctx : Ctx) (req : Req) (timeout : Z) : SE St error Res :=
  VerifierVerify (deadline ctx timeout) req.

Definition decodeRequest (requestBody : bytes) (c : EncodedAndABI) : res error Req :=
  map_err (fun err => Errorf "%w" [err]) (decode_request_abi (eab_Request c) requestBody).

Definition encodeWithABI (encoded : res error bytes) (kind : string) : res error bytes :=
  map_err (fun err => Errorf ("encoding " +:+ kind +:+ " data failed: %w") [err]) encoded.

Definition encodeRequest (data : Req) (c : EncodedAndABI) : res error bytes :=
  encodeWithABI (encode_request_abi (eab_Request c) data) "request".

Definition encodeResponse (data : Res) (c : EncodedAndABI) : res error bytes :=
  encodeWithABI (encode_response_abi (eab_Response c) data) "response".

Definition prepareRequestBody (body : ReqJSON) (c : EncodedAndABI) : res error bytes :=
  requestData ← map_err (fun err => Errorf "converting request body to data failed: %w" [err]) (ToInternal body);
  encodeRequest requestData c.

(** The prepareRequestBody endpoint: an encoded body, or an HTTP status. *)
Definition handle_prepareRequestBody (c : EncodedAndABI) (request : AttestationRequestData ReqJSON) : res Z bytes :=
  _ ← map_err (fun _ => 400)
    (validateSystemAndRequestAttestationNameAndSourceID c (Hash_Hex (ad_AttestationType request)) (Hash_Hex (ad_SourceID request)));
  map_err (fun _ => 400) (prepareRequestBody (ad_RequestData request) c).

(** A panic in a handler: the [middleware.Recoverer] of [newRouter] answers 500. *)
Definition recovered {S A} (m : option A) : SE S Z A := lift (match m with Some a => Ok a | None => Err 500 end).

(** The prepareResponseBody endpoint: response data with its encoding, or an
    HTTP status. *)
Definition handle_prepareResponseBody (c : EncodedAndABI) (ctx : Ctx) (request : AttestationRequest)
    : SE St Z (ResJSON * bytes) :=
  _ ← lift (map_err (fun _ => 400)
    (validateSystemAndRequestAttestationNameAndSourceID c (Hash_Hex (aq_AttestationType request)) (Hash_Hex (aq_SourceID request))));
  requestData ← lift (map_err (fun _ => 400) (decodeRequest (aq_RequestBody request) c));
  responseData ← se_map_err classifyVerifyError (verifyWithDeadline ctx requestData verifierWorkTimeout);
  encodedResponse ← lift (map_err (fun _ => 500) (encodeResponse responseData c));
  responseDataExternal ← recovered (FromInternal responseData);
  lift (Ok (responseDataExternal, encodedResponse)).

Definition rejectedResponse (safeMessage : string) : VerifierResponse :=
  {| vr_Status := StatusRejected; vr_ResponseBody := ""; vr_Message := safeMessage |}.
Definition retryResponse (safeMessage : string) : VerifierResponse :=
  {| vr_Status := StatusRetry; vr_ResponseBody := ""; vr_Message := safeMessage |}.

(** The verify endpoint: an envelope, whatever the verifier answered. *)
Definition handle_verify (c : EncodedAndABI) (ctx : Ctx) (request : AttestationRequest) : SE St Z VerifierResponse := fun s =>
  match validateSystemAndRequestAttestationNameAndSourceID c (Hash_Hex (aq_AttestationType request)) (Hash_Hex (aq_SourceID request)) with
  | Err _ => (Ok (rejectedResponse "unsupported attestation type or source id"), s)
  | Ok _ =>
      match decodeRequest (aq_RequestBody request) c with
      | Err _ => (Ok (rejectedResponse "malformed request body"), s)
      | Ok requestData =>
          match verifyWithDeadline ctx requestData verifierWorkTimeout s with
          | (Err err, s') =>
              let '(status, message) := classifyVerifyStatus err in
              (Ok {| vr_Status := status; vr_ResponseBody := ""; vr_Message := message |}, s')
          | (Ok responseData, s') =>
              match encodeResponse responseData c with
              | Err _ => (Ok (retryResponse "response encoding failed"), s')
              | Ok encodedResponse =>
                  (_ ← recovered (FromInternal responseData);
                   lift (Ok {| vr_Status := StatusVerified; vr_ResponseBody := encodedResponse; vr_Message := "" |})) s'
              end
          end
      end
  end.
End Handlers.

(** ** Specification *)

(** An error on which the two classifiers cannot disagree: a specific TEE
    sentinel comes with the general one, and a revocation outage comes with no
    verdict on the data. *)
Definition specific_tee : list sentinel :=
  [STee ErrTEEChallengeMismatch; STee ErrTEEChainIDMismatch; STee ErrTEEProxySignerMismatch; STee ErrTEESigningPolicyHash].

Record coherent (e : error) : Prop := {
  ch_specific : forall t, t ∈ specific_tee -> Is e t = true -> Is e ErrTEEDataValidation = true;
  ch_revocation : Is e ErrTEERevocationUnavailable = true ->
    Is e ErrTEEDataValidation = false /\ Is e ErrInvalidInput = false
}.

(** ** Lemmas *)

(** A sentinel that wraps another is never found without it. *)
Lemma Is_wrapped e (s p : sentinel) : sentinel_wraps s = Some p -> Is e s = true -> Is e p = true.
Proof.
  intros Hw. assert (own_sentinel s = true) as Ho by (destruct s; [..|done]; done).
  induction e as [s'|fmt ws IH|es IH|url code|op err IH|f ws IH] using error_nested_ind; cbn [Is].
  - intros [->%bool_decide_eq_true|Hi]%orb_true_iff.
    + rewrite Hw, (bool_decide_true (p = p)) by done. apply orb_true_r.
    + destruct (sentinel_wraps s') as [q|] eqn:Hq; [|done]. apply bool_decide_eq_true in Hi as ->.
      exfalso. destruct s' as [| | | |[]| | | |]; try discriminate Hq; injection Hq as <-; discriminate Hw.
  - rewrite !existsb_exists. intros (w & Hin & Hi). exists w. split; [done|].
    rewrite Forall_forall in IH. apply IH; [by apply list_elem_of_In|done].
  - rewrite !existsb_exists. intros (w & Hin & Hi). exists w. split; [done|].
    rewrite Forall_forall in IH. apply IH; [by apply list_elem_of_In|done].
  - intros Hi%bool_decide_eq_true. subst s. done.
  - exact IH.
  - rewrite !orb_true_iff, !existsb_exists. intros [(lib & _ & Hl%bool_decide_eq_true)|(w & Hin & Hi)].
    + subst s. done.
    + right. exists w. split; [done|]. rewrite Forall_forall in IH. apply IH; [by apply list_elem_of_In|done].
Qed.

Definition rejected_first : list sentinel :=
    [SFee ErrBatchRangeTooLarge; SFee ErrReissueLimitExceeded; SMultisig ErrInvalidRequest; SFee ErrMissingPayEvent;
     SFee ErrMissingTransaction; SClient ErrRPCNonSuccess; SDB ErrRecordNotFound; STee ErrTEEChallengeMismatch;
     STee ErrTEEChainIDMismatch; STee ErrTEEProxySignerMismatch; STee ErrTEESigningPolicyHash;
     STee ErrTEEAttestationInvalid; STee ErrTEEResponseMalformed; STee ErrTEEActionResultMismatch].

Definition rejected_spec (e : error) : bool :=
  existsb (Is e) rejected_first ||
  negb (Is e ErrTEERevocationUnavailable) && existsb (Is e) [STee ErrTEEDataValidation; SFetchClass ErrInvalidInput].

(** A run of cases with one status is one test. *)
Lemma switch_run l1 l2 d e status :
  Forall (fun c : list sentinel * (string * string) => c.2.1 = status) l1 ->
  (switch_is (l1 ++ l2) d e).1 = if existsb (Is e) (concat (fst <$> l1)) then status else (switch_is l2 d e).1.
Proof.
  induction 1 as [|[tests a] l1 Ha _ IH]; [done|]. cbn [app switch_is]. rewrite fmap_cons. cbn [fst concat].
  rewrite existsb_app. destruct (existsb (Is e) tests); cbn [orb]; [done|exact IH].
Qed.

Lemma classifyVerifyStatus_cases e :
  (classifyVerifyStatus e).1 = if rejected_spec e then StatusRejected else StatusRetry.
Proof.
  unfold classifyVerifyStatus, rejected_spec.
  rewrite <- (take_drop 14 status_cases), (switch_run _ _ _ _ StatusRejected) by (repeat constructor).
  change (concat (fst <$> take 14 status_cases)) with rejected_first.
  destruct (existsb (Is e) rejected_first); [done|]. cbn [orb].
  rewrite <- (take_drop 1 (drop 14 status_cases)), (switch_run _ _ _ _ StatusRetry) by (repeat constructor).
  change (concat (fst <$> take 1 (drop 14 status_cases))) with [STee ErrTEERevocationUnavailable].
  assert (existsb (Is e) [STee ErrTEERevocationUnavailable] = Is e ErrTEERevocationUnavailable) as -> by apply orb_false_r.
  destruct (Is e ErrTEERevocationUnavailable); [done|]. cbn [negb andb].
  rewrite drop_drop, <- (take_drop 2 (drop (14 + 1) status_cases)), (switch_run _ _ _ _ StatusRejected) by (repeat constructor).
  change (concat (fst <$> take 2 (drop (14 + 1) status_cases))) with [STee ErrTEEDataValidation; SFetchClass ErrInvalidInput].
  destruct (existsb (Is e) [STee ErrTEEDataValidation; _]); [done|].
  rewrite drop_drop, <- (app_nil_r (drop _ status_cases)), (switch_run _ _ _ _ StatusRetry) by (repeat constructor).
  by destruct (existsb _ _).
Qed.

Lemma classifyVerifyStatus_message e : (classifyVerifyStatus e).2 <> ""%string.
Proof.
  unfold classifyVerifyStatus. assert (Forall (fun c => c.2.2 <> ""%string) status_cases) as Hall by (repeat constructor; done).
  induction Hall as [|[tests a] l Ha _ IH]; cbn [switch_is]; [done|]. by destruct (existsb _ _).
Qed.

Lemma classifyVerifyError_cases e :
  classifyVerifyError e =
  if existsb (Is e) [SFee ErrBatchRangeTooLarge; SFee ErrReissueLimitExceeded; SMultisig ErrInvalidRequest] then 400
  else if existsb (Is e) [SFee ErrMissingPayEvent; SFee ErrMissingTransaction; SClient ErrRPCNonSuccess; SDB ErrRecordNotFound;
        STee ErrTEEDataValidation; SFetchClass ErrInvalidInput] then 422
  else if existsb (Is e) [SLib ContextDeadlineExceeded; SLib ContextCanceled; SClient ErrFetchAccountInfo; SClient ErrFetchServerInfo;
        SClient ErrRPCTransient; SMultisig ErrNetworkMismatch; SDB ErrDatabase; SDB ErrDataSource;
        SFetchClass ErrNetwork; SFetchClass ErrRPC; SFetchClass ErrContext; SFetchClass ErrUnknown;
        SFetcher ErrHTTPFetch; STee ErrActionResultNotFound; STee ErrTEERevocationUnavailable] then 503 else 500.
Proof. done. Qed.

(** On coherent errors the envelope and the HTTP status agree. *)
Lemma classifiers_agree e :
  coherent e ->
  ((classifyVerifyStatus e).1 = StatusRejected <-> classifyVerifyError e = 400 \/ classifyVerifyError e = 422) /\
  ((classifyVerifyStatus e).1 = StatusRetry <-> classifyVerifyError e = 503 \/ classifyVerifyError e = 500).
Proof.
  intros [Hspec Hrev]. rewrite classifyVerifyStatus_cases, classifyVerifyError_cases.
  pose proof (Hspec (STee ErrTEEChallengeMismatch) ltac:(repeat (apply list_elem_of_here || apply list_elem_of_further))) as H1.
  pose proof (Hspec (STee ErrTEEChainIDMismatch) ltac:(apply list_elem_of_further, list_elem_of_here)) as H2.
  pose proof (Hspec (STee ErrTEEProxySignerMismatch) ltac:(apply list_elem_of_further, list_elem_of_further, list_elem_of_here)) as H3.
  pose proof (Hspec (STee ErrTEESigningPolicyHash)
    ltac:(apply list_elem_of_further, list_elem_of_further, list_elem_of_further, list_elem_of_here)) as H4.
  pose proof (Is_wrapped e (STee ErrTEEAttestationInvalid) _ eq_refl) as H5.
  pose proof (Is_wrapped e (STee ErrTEEResponseMalformed) _ eq_refl) as H6.
  pose proof (Is_wrapped e (STee ErrTEEActionResultMismatch) _ eq_refl) as H7.
  assert (rejected_spec e =
    existsb (Is e) [SFee ErrBatchRangeTooLarge; SFee ErrReissueLimitExceeded; SMultisig ErrInvalidRequest] ||
    existsb (Is e) [SFee ErrMissingPayEvent; SFee ErrMissingTransaction; SClient ErrRPCNonSuccess; SDB ErrRecordNotFound;
        STee ErrTEEDataValidation; SFetchClass ErrInvalidInput]) as ->.
  { unfold rejected_spec, rejected_first. cbn [existsb]. clear Hspec.
    destruct (Is e ErrTEEDataValidation) eqn:HD.
    - assert (Is e ErrTEERevocationUnavailable = false) as ->
        by (destruct (Is e ErrTEERevocationUnavailable); [by destruct (Hrev eq_refl)|done]).
      cbn. rewrite !orb_true_r. done.
    - destruct (Is e ErrTEEChallengeMismatch); [by discriminate H1|]. destruct (Is e ErrTEEChainIDMismatch); [by discriminate H2|].
      destruct (Is e ErrTEEProxySignerMismatch); [by discriminate H3|]. destruct (Is e ErrTEESigningPolicyHash); [by discriminate H4|].
      destruct (Is e ErrTEEAttestationInvalid); [by discriminate H5|]. destruct (Is e ErrTEEResponseMalformed); [by discriminate H6|].
      destruct (Is e ErrTEEActionResultMismatch); [by discriminate H7|].
      destruct (Is e ErrTEERevocationUnavailable) eqn:HR.
      + destruct (Hrev eq_refl) as [_ ->]. cbn. rewrite ?orb_false_r, !orb_assoc. done.
      + cbn. rewrite ?orb_false_r, !orb_assoc. done. }
  destruct (existsb _ [SFee ErrBatchRangeTooLarge; _; _]); cbn [orb]; [naive_solver|].
  destruct (existsb _ [SFee ErrMissingPayEvent; _; _; _; _; _]); [naive_solver|].
  destruct (existsb _ _); naive_solver.
Qed.
