(* ===== verification/Bodies.v ===== *)
(** * internal/api/types: the JSON bodies of the four services

    The request and response bodies of [pmw_payment_status.go],
    [pmw_fee_proof.go], [pmw_multisig_account_configured.go] and
    [tee_availability_check.go], their [validate] tags and their conversions
    from and to the ABI structs the verifiers work on.  Hexadecimal text of
    hashes, byte strings and big integers is read and written by go-ethereum's
    types, so a field holds the value itself. *)

From stdpp Require Import base list strings.
From Stdlib Require Import ZArith Lia.
From S2P Require Import Prelude Errors GoStrings Helper Eth Config PaymentDB PaymentStatus FeeProof Multisig.
From S2P Require Import UrlValidation Fetcher Crl Tee Handler.

#[local] Open Scope Z_scope.

(** ** The validate tags *)

(** [required] on a hash, an address or an integer: not the zero value; on a
    string: not empty. *)
Definition required (z : Z) : bool := negb (z =? 0).
Definition required_text (s : string) : bool := negb (String.eqb s "").

(** ** PMWPaymentStatus *)
Record PMWPaymentStatusRequestBody := { pb_OpType : Hash; pb_SenderAddress : string; pb_PaymentId : Z }.

#[global] Instance PMWPaymentStatusRequestBody_tags : TaggedBody PMWPaymentStatusRequestBody := fun b =>
  required (pb_OpType b) && required_text (pb_SenderAddress b) && required (pb_PaymentId b).

Definition PMWPaymentStatusRequestBody_ToInternal (requestBody : PMWPaymentStatusRequestBody) : res error PaymentStatusRequest :=
  Ok {| ps_OpType := pb_OpType requestBody; ps_SenderAddress := pb_SenderAddress requestBody;
        ps_PaymentId := pb_PaymentId requestBody |}.
#[global] Instance PMWPaymentStatus_request : RequestConvertible PMWPaymentStatusRequestBody PaymentStatusRequest :=
  PMWPaymentStatusRequestBody_ToInternal.

Record PMWPaymentStatusResponseBody := {
  pj_RecipientAddress : string; pj_TokenID : bytes; pj_Amount : Z; pj_MaxFee : Z; pj_PaymentReference : Hash;
  pj_TransactionStatus : Z; pj_RevertReason : string; pj_ReceivedAmount : Z; pj_TransactionFee : Z;
  pj_TransactionID : Hash; pj_BlockNumber : Z; pj_BlockTimestamp : Z
}.

(** [*data.Amount] and [*data.MaxFee] dereference pointers that come from the
    decoded message; the other two big integers are the builder's own. *)
Definition PMWPaymentStatusResponseBody_FromInternal (data : PaymentStatusResponse) : option PMWPaymentStatusResponseBody :=
  amount ← rs_Amount data;
  maxFee ← rs_MaxFee data;
  Some {| pj_RecipientAddress := rs_RecipientAddress data; pj_TokenID := rs_TokenId data; pj_Amount := amount;
          pj_MaxFee := maxFee; pj_PaymentReference := rs_PaymentReference data;
          pj_TransactionStatus := rs_TransactionStatus data; pj_RevertReason := rs_RevertReason data;
          pj_ReceivedAmount := rs_ReceivedAmount data; pj_TransactionFee := rs_TransactionFee data;
          pj_TransactionID := rs_TransactionId data; pj_BlockNumber := rs_BlockNumber data;
          pj_BlockTimestamp := rs_BlockTimestamp data |}.
#[global] Instance PMWPaymentStatus_response : ResponseConvertible PMWPaymentStatusResponseBody PaymentStatusResponse :=
  PMWPaymentStatusResponseBody_FromInternal.

(** ** PMWFeeProof *)
Record PMWFeeProofRequestBody := {
  fb_OpType : Hash; fb_SenderAddress : string; fb_FirstPaymentId : Z; fb_BatchCount : Z; fb_UntilTimestamp : Z
}.

#[global] Instance PMWFeeProofRequestBody_tags : TaggedBody PMWFeeProofRequestBody := fun b =>
  required (fb_OpType b) && required_text (fb_SenderAddress b) && required (fb_FirstPaymentId b) &&
  required (fb_BatchCount b) && required (fb_UntilTimestamp b).

Definition PMWFeeProofRequestBody_ToInternal (requestBody : PMWFeeProofRequestBody) : res error FeeProofRequest :=
  Ok {| fp_OpType := fb_OpType requestBody; fp_SenderAddress := fb_SenderAddress requestBody;
        fp_FirstPaymentId := fb_FirstPaymentId requestBody; fp_BatchCount := fb_BatchCount requestBody;
        fp_UntilTimestamp := fb_UntilTimestamp requestBody |}.
#[global] Instance PMWFeeProof_request : RequestConvertible PMWFeeProofRequestBody FeeProofRequest :=
  PMWFeeProofRequestBody_ToInternal.

Record PMWFeeProofResponseBody := { fj_LastPaymentId : Z; fj_ActualFee : Z; fj_EstimatedFee : Z }.

Definition PMWFeeProofResponseBody_FromInternal (data : FeeProofResponse) : option PMWFeeProofResponseBody :=
  Some {| fj_LastPaymentId := LastPaymentId data; fj_ActualFee := ActualFee data; fj_EstimatedFee := EstimatedFee data |}.
#[global] Instance PMWFeeProof_response : ResponseConvertible PMWFeeProofResponseBody FeeProofResponse :=
  PMWFeeProofResponseBody_FromInternal.

(** ** PMWMultisigAccountConfigured

    The JSON request has the fields of the ABI struct; its [ToInternal]
    validates the keys (Multisig.v). *)
#[global] Instance PMWMultisigAccountConfiguredRequestBody_tags : TaggedBody MultisigRequest := fun b =>
  required_text (mr_AccountAddress b) && (1 <=? Z.of_nat (length (mr_PublicKeys b))) && (1 <=? mr_Threshold b).
#[global] Instance PMWMultisig_request : RequestConvertible MultisigRequest MultisigRequest := Multisig.ToInternal.

Record PMWMultisigAccountConfiguredResponseBody := { mj_PMWMultisigAccountStatus : Z; mj_Sequence : Z }.

Definition PMWMultisigAccountConfiguredResponseBody_FromInternal (data : MultisigResponse)
    : option PMWMultisigAccountConfiguredResponseBody :=
  Some {| mj_PMWMultisigAccountStatus := mp_Status data; mj_Sequence := mp_Sequence data |}.
#[global] Instance PMWMultisig_response : ResponseConvertible PMWMultisigAccountConfiguredResponseBody MultisigResponse :=
  PMWMultisigAccountConfiguredResponseBody_FromInternal.

(** ** TeeAvailabilityCheck *)
Record TeeAvailabilityCheckRequestBody := {
  tb_TeeID : Address; tb_TeeProxyID : Address; tb_URL : string; tb_Challenge : Hash; tb_InstructionID : Hash
}.

(** The validator's [url] rule. *)
Class UrlRule := is_url : string -> bool.
#[global] Instance TeeAvailabilityCheckRequestBody_tags `{UrlRule} : TaggedBody TeeAvailabilityCheckRequestBody := fun b =>
  required (tb_TeeID b) && required (tb_TeeProxyID b) && (required_text (tb_URL b) && is_url (tb_URL b)) &&
  required (tb_Challenge b) && required (tb_InstructionID b).

Definition TeeAvailabilityCheckRequestBody_ToInternal (requestBody : TeeAvailabilityCheckRequestBody) : res error TeeRequest :=
  Ok {| tq_TeeId := tb_TeeID requestBody; tq_TeeProxyId := tb_TeeProxyID requestBody; tq_Url := tb_URL requestBody;
        tq_Challenge := tb_Challenge requestBody; tq_InstructionId := tb_InstructionID requestBody |}.
#[global] Instance TeeAvailabilityCheck_request : RequestConvertible TeeAvailabilityCheckRequestBody TeeRequest :=
  TeeAvailabilityCheckRequestBody_ToInternal.

Record TeeAvailabilityCheckTeeState := {
  tj_SystemState : bytes; tj_SystemStateVersion : Hash; tj_State : bytes; tj_StateVersion : Hash
}.
Record TeeAvailabilityCheckResponseBody := {
  tj_Status : Z; tj_TeeTimestamp : Z; tj_CodeHash : Hash; tj_Platform : Hash; tj_InitialSigningPolicyID : Z;
  tj_LastSigningPolicyID : Z; tj_TeeState : TeeAvailabilityCheckTeeState
}.

Definition TeeAvailabilityCheckResponseBody_FromInternal (data : TeeResponse) : option TeeAvailabilityCheckResponseBody :=
  Some {| tj_Status := tp_Status data; tj_TeeTimestamp := tp_TeeTimestamp data; tj_CodeHash := tp_CodeHash data;
          tj_Platform := tp_Platform data; tj_InitialSigningPolicyID := tp_InitialSigningPolicyId data;
          tj_LastSigningPolicyID := tp_LastSigningPolicyId data;
          tj_TeeState := {| tj_SystemStateVersion := ts_SystemStateVersion (tp_State data);
                            tj_SystemState := ts_SystemState (tp_State data);
                            tj_StateVersion := ts_StateVersion (tp_State data);
                            tj_State := ts_State (tp_State data) |} |}.
#[global] Instance TeeAvailabilityCheck_response : ResponseConvertible TeeAvailabilityCheckResponseBody TeeResponse :=
  TeeAvailabilityCheckResponseBody_FromInternal.

(** ** Specification

    The struct a body was written from, field by field. *)
Definition payment_internal (j : PMWPaymentStatusResponseBody) : PaymentStatusResponse :=
  {| rs_RecipientAddress := pj_RecipientAddress j; rs_TokenId := pj_TokenID j; rs_Amount := Some (pj_Amount j);
     rs_MaxFee := Some (pj_MaxFee j); rs_PaymentReference := pj_PaymentReference j;
     rs_TransactionStatus := pj_TransactionStatus j; rs_RevertReason := pj_RevertReason j;
     rs_ReceivedAmount := pj_ReceivedAmount j; rs_TransactionFee := pj_TransactionFee j;
     rs_TransactionId := pj_TransactionID j; rs_BlockNumber := pj_BlockNumber j; rs_BlockTimestamp := pj_BlockTimestamp j |}.
Definition fee_internal (j : PMWFeeProofResponseBody) : FeeProofResponse :=
  {| LastPaymentId := fj_LastPaymentId j; ActualFee := fj_ActualFee j; EstimatedFee := fj_EstimatedFee j |}.
Definition multisig_internal (j : PMWMultisigAccountConfiguredResponseBody) : MultisigResponse :=
  {| mp_Status := mj_PMWMultisigAccountStatus j; mp_Sequence := mj_Sequence j |}.
Definition tee_internal (j : TeeAvailabilityCheckResponseBody) : TeeResponse :=
  {| tp_Status := tj_Status j; tp_TeeTimestamp := tj_TeeTimestamp j; tp_CodeHash := tj_CodeHash j;
     tp_Platform := tj_Platform j; tp_InitialSigningPolicyId := tj_InitialSigningPolicyID j;
     tp_LastSigningPolicyId := tj_LastSigningPolicyID j;
     tp_State := {| ts_SystemState := tj_SystemState (tj_TeeState j); ts_SystemStateVersion := tj_SystemStateVersion (tj_TeeState j);
                    ts_State := tj_State (tj_TeeState j); ts_StateVersion := tj_StateVersion (tj_TeeState j) |} |}.

(** ** Lemmas *)

(** A response that has its amounts converts, and only such a one does. *)
Lemma payment_FromInternal_Some data j :
  PMWPaymentStatusResponseBody_FromInternal data = Some j <-> data = payment_internal j.
Proof.
  unfold PMWPaymentStatusResponseBody_FromInternal. split; [|by intros ->; destruct j].
  destruct data as [? ? [amount|] [fee|]]; cbn; [|done..]. by intros [= <-].
Qed.

Lemma payment_FromInternal_total data :
  is_Some (PMWPaymentStatusResponseBody_FromInternal data) <-> is_Some (rs_Amount data) /\ is_Some (rs_MaxFee data).
Proof.
  unfold PMWPaymentStatusResponseBody_FromInternal.
  destruct data as [? ? [amount|] [fee|]]; cbn; split; try (intros [? ?]; done); try (intros [[? ?] [? ?]]; done); eauto.
Qed.

Lemma multisig_ToInternal_Ok body r :
  Multisig.ToInternal body = Ok r <->
  r = body /\ ValidateMultisigRequest (mr_PublicKeys body) (mr_Threshold body) = Ok tt.
Proof.
  unfold Multisig.ToInternal. rewrite res_bind_Ok. split.
  - intros ([] & Hv & [= <-]). split; [by destruct body|done].
  - intros [-> Hv]. exists tt. split; [done|]. by destruct body.
Qed.

(** ** Properties *)
(** C35. The JSON bodies lose nothing: a response body is written exactly from the struct with its fields, so the body
    and the encoded response beside it state the same thing; and a request body becomes the struct with its fields, the
    multisig one only when it is well formed. *)
Theorem json_bodies_lossless :
  (forall data j, PMWPaymentStatusResponseBody_FromInternal data = Some j <-> data = payment_internal j) /\
  (forall data j, PMWFeeProofResponseBody_FromInternal data = Some j <-> data = fee_internal j) /\
  (forall data j, PMWMultisigAccountConfiguredResponseBody_FromInternal data = Some j <-> data = multisig_internal j) /\
  (forall data j, TeeAvailabilityCheckResponseBody_FromInternal data = Some j <-> data = tee_internal j) /\
  (forall b o s p, PMWPaymentStatusRequestBody_ToInternal b = Ok {| ps_OpType := o; ps_SenderAddress := s; ps_PaymentId := p |} <->
     b = {| pb_OpType := o; pb_SenderAddress := s; pb_PaymentId := p |}) /\
  (forall b o s f n u, PMWFeeProofRequestBody_ToInternal b = Ok {| fp_OpType := o; fp_SenderAddress := s;
       fp_FirstPaymentId := f; fp_BatchCount := n; fp_UntilTimestamp := u |} <->
     b = {| fb_OpType := o; fb_SenderAddress := s; fb_FirstPaymentId := f; fb_BatchCount := n; fb_UntilTimestamp := u |}) /\
  (forall b t p u c i, TeeAvailabilityCheckRequestBody_ToInternal b = Ok {| tq_TeeId := t; tq_TeeProxyId := p; tq_Url := u;
       tq_Challenge := c; tq_InstructionId := i |} <->
     b = {| tb_TeeID := t; tb_TeeProxyID := p; tb_URL := u; tb_Challenge := c; tb_InstructionID := i |}) /\
  (forall b r, Multisig.ToInternal b = Ok r <-> r = b /\ well_formed_request (mr_PublicKeys b) (mr_Threshold b)).
Proof.
  split_and!; [apply payment_FromInternal_Some|..].
  - intros [? ? ?] j. split; [by intros [= <-]|by intros ->; destruct j].
  - intros [? ?] j. split; [by intros [= <-]|by intros ->; destruct j].
  - intros [? ? ? ? ? ? []] j. split; [by intros [= <-]|by intros ->; destruct j as [? ? ? ? ? ? []]].
  - intros [? ? ?] *. split; [by intros [= -> -> ->]|by intros [= -> -> ->]].
  - intros [] *. split; [by intros [= -> -> -> -> ->]|by intros [= -> -> -> -> ->]].
  - intros [] *. split; [by intros [= -> -> -> -> ->]|by intros [= -> -> -> -> ->]].
  - intros b r. rewrite multisig_ToInternal_Ok. by rewrite ValidateMultisigRequest_Ok.
Qed.
