(* ===== verification/Typing.v ===== *)
(** * The types of the responses

    The attestation responses are ABI structs: their integers are unsigned and
    of fixed width, and an amount that did not fit would be encoded as another
    amount.  Whatever the four verifiers answer fits, given that the rows,
    messages and hashes they read are of their Go types. *)

From stdpp Require Import base list strings gmap.
From Stdlib Require Import ZArith Lia.
From S2P Require Import Prelude Errors GoStrings Helper Eth Config Instruction PaymentDB FeeProofDB Nonce Json.
From S2P Require Import XrpTransaction PaymentStatus FeeProof Multisig UrlValidation Fetcher Crl Tee.

#[local] Open Scope Z_scope.

(** ** The ABI types *)
Definition uint256 (z : Z) : Prop := 0 <= z < 2 ^ 256.
Definition big_uint256 (v : option Z) : Prop := exists z, v = Some z /\ uint256 z.

(** [IPMWPaymentStatusResponseBody]: no amount is nil, and there is a reason
    exactly when the transaction failed. *)
Record payment_typed (r : PaymentStatusResponse) : Prop := {
  pt_amounts : big_uint256 (rs_Amount r) /\ big_uint256 (rs_MaxFee r) /\ uint256 (rs_ReceivedAmount r) /\ uint256 (rs_TransactionFee r);
  pt_status : (rs_TransactionStatus r = 0 /\ rs_RevertReason r = ""%string) \/
    (rs_TransactionStatus r = 1 /\ rs_RevertReason r <> ""%string);
  pt_hashes : uint256 (rs_PaymentReference r) /\ uint256 (rs_TransactionId r);
  pt_block : is_u64 (rs_BlockNumber r) /\ is_u64 (rs_BlockTimestamp r)
}.

(** [IPMWFeeProofResponseBody]. *)
Record fee_typed (r : FeeProofResponse) : Prop := {
  ft_last : is_u64 (LastPaymentId r);
  ft_fees : uint256 (ActualFee r) /\ uint256 (EstimatedFee r)
}.

(** [IPMWMultisigAccountConfiguredResponseBody]. *)
Record multisig_typed (r : MultisigResponse) : Prop := {
  mt_status : mp_Status r = PMWMultisigAccountStatusOK \/ mp_Status r = PMWMultisigAccountStatusERROR;
  mt_sequence : is_u64 (mp_Sequence r)
}.

(** [ITeeAvailabilityCheckResponseBody]. *)
Record tee_typed (r : TeeResponse) : Prop := {
  tt_status : tp_Status r = 0 \/ tp_Status r = 1;
  tt_hashes : uint256 (tp_CodeHash r) /\ uint256 (tp_Platform r);
  tt_timestamp : is_u64 (tp_TeeTimestamp r);
  tt_policies : is_u32 (tp_InitialSigningPolicyId r) /\ is_u32 (tp_LastSigningPolicyId r)
}.

(** What the Go types of scanned rows, decoded messages and hashes say. *)
Class PaymentTypes `{ConfigLib} (Ctx : Type) `{!IndexerDB Ctx} := {
  row_types : forall ctx q txs tx, find_txs ctx q = Ok txs -> tx ∈ txs -> is_u64 (tx_BlockNumber tx) /\ is_u64 (tx_Timestamp tx);
  hash_types : forall s h, Hex32StringToCommonHash s = Ok h -> uint256 h;
  message_types : forall c b msg, DecodeTo c b = Ok msg -> uint256 (pm_PaymentReference msg)
}.
Class TeeTypes `{TeeLib} := {
  info_types : forall b t, unmarshal_TeeInfoResponse b = Ok t -> is_u64 (ti_TeeTimestamp (tr_TeeInfo t)) /\
    is_u32 (ti_InitialSigningPolicyID (tr_TeeInfo t)) /\ is_u32 (ti_LastSigningPolicyID (tr_TeeInfo t));
  claims_types : forall c h, Claims_CodeHash c = Ok h \/ Claims_Platform c = Ok h -> uint256 h
}.

(** ** Lemmas *)
Lemma drops_uint256 v : drops v -> big_uint256 v.
Proof. intros (z & -> & Hz). exists z. split; [done|]. unfold uint256, MaxXRPDrops in *. lia. Qed.

Lemma describes_typed `{EthLib} `{!AddressCodec} raw msg tx resp :
  (forall s h, Hex32StringToCommonHash s = Ok h -> uint256 h) -> uint256 (pm_PaymentReference msg) ->
  is_u64 (tx_BlockNumber tx) -> is_u64 (tx_Timestamp tx) ->
  describes raw msg tx resp -> payment_typed resp.
Proof.
  intros Hh Href Hb Ht [_ (_ & _ & _ & _ & Hr) (Ha & Hm & Hrec & Hf) Hout _ _ (Hid & Hbn & Hts)].
  constructor; [|destruct Hout; [by left|by right]|split; [by rewrite Hr|by eapply Hh]|by rewrite Hbn, Hts].
  split_and!; [by apply drops_uint256..| |]; apply drops_uint256 in Hrec, Hf.
  - by destruct Hrec as (z & [= ->] & ?).
  - by destruct Hf as (z & [= ->] & ?).
Qed.

Section Payment.
Context `{ConfigLib} `{!AddressCodec} `{!JsonLib} `{!CommonFieldsLib} {Ctx B : Type} `{!IndexerDB Ctx} `{!SequenceVerifier Ctx B}.

Lemma payment_response_typed `{!PaymentTypes Ctx} x ctx req (b : B) resp b' :
  PaymentStatus.Verify x ctx req b = (Ok resp, b') -> payment_typed resp.
Proof.
  intros (msg & tx & raw & [(id & sig & row & log & _ & _ & _ & _ & Hdec) _] & _ & [Hrow _ _ _] & Hd)%PaymentStatus.Verify_run.
  apply DecodeTeeInstructionsSentEventData_Ok in Hdec as (_ & ev & _ & _ & _ & Hm).
  destruct (row_types _ _ _ tx Hrow (list_elem_of_here _ _)) as [Hbn Hts].
  eapply describes_typed; [apply hash_types|by eapply message_types|exact Hbn|exact Hts|exact Hd].
Qed.

Lemma fee_response_typed (chain : Hash -> string -> Z) (inv : B -> Prop) (served : Ctx -> Hash -> string -> Prop)
    `{!SequenceSpec Ctx B chain inv served} x ctx req b resp b' :
  0 <= eab_SourceIDEncoded (fpc_common (FeeProof.Config x)) < 2 ^ 256 -> is_u64 (fp_FirstPaymentId req) ->
  is_u64 (fp_BatchCount req) -> inv b -> FeeProof.Verify x ctx req b = (Ok resp, b') -> fee_typed resp.
Proof.
  intros Hs Hf Hc Hb Hv. apply (Verify_batch_sound chain inv served) in Hv as (_ & items & Hbatch & Hpos & Hmax & Hl & He & Ha); [|done..].
  pose proof (batch_sums _ _ _ _ _ Hbatch) as [Hes Has]. destruct Hbatch as [Hlen _]. rewrite Hlen, Z2Nat.id in Hes, Has by lia.
  constructor; [rewrite Hl; unfold is_u64 in *; lia|]. rewrite Ha, He.
  unfold uint256, is_u64, MaxUint64, MaxXRPDrops, MaxReissuesPerPayment in *. split; nia.
Qed.
End Payment.

Section Account.
Context `{KeyLib} {Ctx : Type} `{!CallLib Ctx} `{!CallLaws Ctx}.

Lemma AccountData_typed : decodes (fun a => is_u64 (ad_Sequence a)) unmarshal_AccountData.
Proof.
  apply decodes_struct. intros kvs cur v Hc (a & _ & Hr)%res_bind_Ok.
  apply res_bind_Ok in Hr as (s & Hs & Hr). apply res_bind_Ok in Hr as (k & _ & Hr). apply res_bind_Ok in Hr as (l & _ & [= <-]).
  cbn. apply (decodes_field (fun z => 0 <= z < 2 ^ 64)) in Hs; [unfold is_u64, MaxUint64; lia|by apply decodes_uint|].
  unfold is_u64, MaxUint64 in Hc. lia.
Qed.

Lemma AccountInfo_typed j info : unmarshal_AccountInfoResponse j = Ok info -> is_u64 (ad_Sequence (ai_AccountData info)).
Proof.
  pose (P := fun r => is_u64 (ad_Sequence (ai_AccountData r))). change (unmarshal_AccountInfoResponse j = Ok info -> P info).
  assert (decodes P unmarshal_AccountInfoResult) as Hd.
  { apply decodes_struct. intros kvs cur v Hc (a & Ha & Hr)%res_bind_Ok.
    repeat (apply res_bind_Ok in Hr as (? & _ & Hr)). injection Hr as <-. unfold P. cbn.
    by eapply (decodes_field _ _ _ _ _ _ AccountData_typed). }
  apply (decodes_struct P); [|unfold P, is_u64, MaxUint64; cbn; lia].
  intros kvs cur v Hc. by apply decodes_field.
Qed.

Lemma multisig_response_typed x ctx t recheck req last resp last' :
  Multisig.Verify x ctx t recheck req last = (Ok resp, last') -> multisig_typed resp.
Proof.
  intros Hv. apply se_bind_Ok in Hv as ([] & s1 & _ & Hv). apply se_bind_Ok in Hv as ([] & s2 & _ & Hv).
  apply se_bind_Ok in Hv as (info & s3 & [Hinfo _]%lift_eq & Hv).
  unfold FetchAccountInfo in Hinfo. apply res_bind_Ok in Hinfo as (r & Hpost%map_err_Ok & Hr).
  apply Post_decodes in Hpost as [body Hbody]. apply AccountInfo_typed in Hbody. destruct (negb _); [done|]. injection Hr as <-.
  destruct (validateMultisigConfiguration r req) as [sq|e] eqn:Ev; apply lift_eq in Hv as [[= <-] _].
  - apply validateMultisigConfiguration_Ok in Ev. constructor; [by left|]. cbn. by rewrite (ma_sequence _ _ _ Ev).
  - constructor; [by right|]. unfold is_u64, MaxUint64. cbn. lia.
Qed.
End Account.

Section Availability.
Context `{ConfigLib} `{!X509Lib Certificate} `{!TeeLib} {Ctx : Type}.
Context `{!NetLib Ctx} `{!HttpLib Ctx} `{!BackgroundCtx Ctx} `{!RelayLib Ctx} `{!TeeTypes}.

Lemma ValidateClaims_typed claims info :
  ValidateClaims claims = Ok info -> uint256 (st_CodeHash info) /\ uint256 (st_Platform info).
Proof.
  unfold ValidateClaims. destruct (negb _); [done|]. intros (status & _ & Hr)%res_bind_Ok.
  apply res_bind_Ok in Hr as (h & Hh%map_err_Ok & Hr). apply res_bind_Ok in Hr as (p & Hp%map_err_Ok & [= <-]).
  split; eapply claims_types; [by left|by right].
Qed.

Lemma tee_response_typed v ctx env interrupted req s resp s' :
  Tee.Verify v ctx env interrupted req s = (Ok resp, s') -> tee_typed resp.
Proof.
  intros (a & t & info & [_ (_ & _ & Hu) _] & _ & _ & _ & Hd & _ & ->)%Verify_tee_run.
  destruct (info_types _ _ Hu) as (Hts & Hi & Hl).
  assert (uint256 (st_CodeHash info) /\ uint256 (st_Platform info)) as Hh.
  { destruct Hd as [[_ ->]|[_ (? & ? & ? & claims & _ & _ & Hc & _) _]]; [split; (split; [by vm_compute|by vm_compute])|].
    by eapply ValidateClaims_typed. }
  constructor; [|exact Hh|exact Hts|done]. cbn. destruct (st_Status info); [by left|by right].
Qed.
End Availability.

(** ** Properties *)

(** C33. Whatever is attested fits the ABI struct it is attested in: the four amounts of a payment are there and are
    uint256 values, its status is one of two with a reason exactly for a failure; the sums of a fee proof are uint256
    and its last payment id a uint64; the account sequence is a uint64 whatever digits the node
    sent; and the TEE's hashes are 32 bytes wide, on both bypasses too. *)
Theorem responses_typed `{ConfigLib} `{!AddressCodec} `{!JsonLib} `{!CommonFieldsLib} `{!KeyLib} `{!X509Lib Certificate}
    `{!TeeLib} `{!TeeTypes} {Ctx B : Type} `{!IndexerDB Ctx} `{!SequenceVerifier Ctx B} `{!CallLib Ctx} `{!CallLaws Ctx}
    `{!NetLib Ctx} `{!HttpLib Ctx} `{!BackgroundCtx Ctx} `{!RelayLib Ctx} `{!PaymentTypes Ctx}
    (chain : Hash -> string -> Z) (inv : B -> Prop) (served : Ctx -> Hash -> string -> Prop)
    `{!SequenceSpec Ctx B chain inv served} (ctx : Ctx) :
  (forall x req b resp b', PaymentStatus.Verify x ctx req b = (Ok resp, b') -> payment_typed resp) /\
  (forall x req b resp b', 0 <= eab_SourceIDEncoded (fpc_common (FeeProof.Config x)) < 2 ^ 256 ->
     is_u64 (fp_FirstPaymentId req) -> is_u64 (fp_BatchCount req) -> inv b ->
     FeeProof.Verify x ctx req b = (Ok resp, b') -> fee_typed resp) /\
  (forall x t recheck req last resp last', Multisig.Verify x ctx t recheck req last = (Ok resp, last') -> multisig_typed resp) /\
  (forall v env interrupted req s resp s', Tee.Verify v ctx env interrupted req s = (Ok resp, s') -> tee_typed resp).
Proof.
  split_and!; intros.
  - by eapply payment_response_typed.
  - by eapply (fee_response_typed chain inv served).
  - by eapply multisig_response_typed.
  - by eapply tee_response_typed.
Qed.
