(* ===== verification/Services.v ===== *)
(** * The four services behind the handlers

    The verifiers as instances of the interface the handlers hold
    ([attestation.Verifier]), and what the handlers need of them: that their
    errors are ones on which the two classifiers agree, and that their results
    convert to JSON without a nil dereference; and which failures of the data
    verification are final. *)

From stdpp Require Import base list strings gmap.
From Stdlib Require Import ZArith Lia.
From S2P Require Import Prelude Errors GoStrings Helper Eth Config Instruction PaymentDB FeeProofDB Nonce Json.
From S2P Require Import XrpTransaction PaymentStatus FeeProof Multisig UrlValidation Fetcher Crl Tee Handler Bodies.

#[local] Open Scope Z_scope.

(** What a handler may assume of the verifier it holds. *)
Class CoherentVerifier (Ctx St Req Res : Type) `{Verifier Ctx St Req Res} :=
  verifier_coherent : forall ctx req s e s', VerifierVerify ctx req s = (Err e, s') -> coherent e.
Class ConvertingVerifier (Ctx St Req Res ResJSON : Type) `{Verifier Ctx St Req Res} `{!ResponseConvertible ResJSON Res} :=
  verifier_converts : forall ctx req s r s', VerifierVerify ctx req s = (Ok r, s') -> is_Some (FromInternal r).

(** ** The instances *)
Section Instances.
Context `{ConfigLib}.

#[global] Instance PaymentStatusVerifier `{!AddressCodec} `{!JsonLib} `{!CommonFieldsLib}
    {Ctx B : Type} `{!IndexerDB Ctx} `{!SequenceVerifier Ctx B} (x : PaymentStatus.XRPVerifier)
    : Verifier Ctx B PaymentStatusRequest PaymentStatusResponse := PaymentStatus.Verify x.

#[global] Instance FeeProofVerifier `{!JsonLib}
    {Ctx B : Type} `{!IndexerDB Ctx} `{!SequenceVerifier Ctx B} (x : FeeProof.XRPVerifier)
    : Verifier Ctx B FeeProofRequest FeeProofResponse := FeeProof.Verify x.

(** The context of a multisig request carries its clock readings and what it
    finds behind the mutex. *)
#[global] Instance MultisigVerifier `{!KeyLib} {Ctx : Type} `{!CallLib Ctx} (x : Multisig.XRPVerifier)
    : Verifier (Ctx * readings * (Z -> Z)) Z MultisigRequest MultisigResponse :=
  fun ctx req => Multisig.Verify x ctx.1.1 ctx.1.2 ctx.2 req.

(** The context of a TEE request carries the schedule of its CRL lookups. *)
#[global] Instance TeeCheckVerifier `{!X509Lib Certificate} `{!TeeLib} {Ctx : Type} `{!NetLib Ctx} `{!HttpLib Ctx}
    `{!BackgroundCtx Ctx} `{!RelayLib Ctx} (v : TeeVerifier)
    : Verifier (Ctx * {env : token_env | token_env_ok env} * (nat -> option error)) (gmap string crlEntry) TeeRequest TeeResponse :=
  fun ctx req => Tee.Verify v ctx.1.1 (proj1_sig ctx.1.2) ctx.2 req.
End Instances.

(** ** Conversion of the results *)
Section Converts.
Context `{ConfigLib}.

(** The builder refuses a message without its amounts before they are used. *)
Lemma payment_converts `{!AddressCodec} `{!JsonLib} `{!CommonFieldsLib} {Ctx B : Type} `{!IndexerDB Ctx}
    `{!SequenceVerifier Ctx B} x :
  ConvertingVerifier Ctx B PaymentStatusRequest PaymentStatusResponse PMWPaymentStatusResponseBody (H := PaymentStatusVerifier x).
Proof.
  intros ctx req s r s' (msg & tx & raw & _ & _ & _ & Hd)%PaymentStatus.Verify_run.
  destruct Hd as [_ _ ((a & Ha & _) & (f & Hf & _) & _) _ _ _ _].
  apply payment_FromInternal_total. rewrite Ha, Hf. split; by eexists.
Qed.

Lemma fee_converts `{!JsonLib} {Ctx B : Type} `{!IndexerDB Ctx} `{!SequenceVerifier Ctx B} x :
  ConvertingVerifier Ctx B FeeProofRequest FeeProofResponse PMWFeeProofResponseBody (H := FeeProofVerifier x).
Proof. intros ctx req s r s' _. by eexists. Qed.

Lemma multisig_converts `{!KeyLib} {Ctx : Type} `{!CallLib Ctx} x :
  ConvertingVerifier (Ctx * readings * (Z -> Z)) Z MultisigRequest MultisigResponse PMWMultisigAccountConfiguredResponseBody
    (H := MultisigVerifier x).
Proof. intros ctx req s r s' _. by eexists. Qed.

Lemma tee_converts `{!X509Lib Certificate} `{!TeeLib} {Ctx : Type} `{!NetLib Ctx} `{!HttpLib Ctx}
    `{!BackgroundCtx Ctx} `{!RelayLib Ctx} v :
  ConvertingVerifier (Ctx * {env : token_env | token_env_ok env} * (nat -> option error)) (gmap string crlEntry)
    TeeRequest TeeResponse TeeAvailabilityCheckResponseBody (H := TeeCheckVerifier v).
Proof. intros ctx req s r s' _. by eexists. Qed.
End Converts.

(** ** Coherence from the sentinels raised *)
Lemma raises_coherent l e :
  raises l e -> forallb (fun t => negb (bool_decide (t ∈ l))) specific_tee = true ->
  (Is e ErrTEERevocationUnavailable = false \/
   forallb (fun t => negb (bool_decide (t ∈ l))) [STee ErrTEEDataValidation; SFetchClass ErrInvalidInput] = true) ->
  coherent e.
Proof.
  intros Hr Hspec Hrev. rewrite forallb_forall in Hspec. constructor.
  - intros t Ht Hi. specialize (Hspec t). rewrite <- list_elem_of_In in Hspec. specialize (Hspec Ht).
    apply negb_true_iff, bool_decide_eq_false in Hspec. exfalso. apply Hspec, Hr; [|done].
    unfold specific_tee in Ht. repeat (apply elem_of_cons in Ht as [->|Ht]; [done|]). by apply not_elem_of_nil in Ht.
  - intros Hi. destruct Hrev as [Hf|Hl]; [congruence|]. cbn [forallb] in Hl.
    apply andb_true_iff in Hl as [H1 Hl]. apply andb_true_iff in Hl as [H2 _].
    apply negb_true_iff in H1, H2. split; by eapply raises_not.
Qed.

Lemma Is_single fmt e t : Is (Errorf fmt [e]) t = Is e t.
Proof. apply orb_false_r. Qed.

Section Pmw.
Context `{ConfigLib} `{!EthErrors} `{!JsonLib} `{!JsonErrors}.
Context {Ctx B : Type} `{!IndexerDB Ctx} `{!IndexerErrors Ctx} `{!SequenceVerifier Ctx B}.
Context (chain : Hash -> string -> Z) (inv : B -> Prop) (served : Ctx -> Hash -> string -> Prop).
Context `{!SequenceSpec Ctx B chain inv served}.

Lemma payment_coherent `{!AddressCodec} `{!AddressErrors} `{!CommonFieldsLib} `{!CommonFieldsErrors} x :
  CoherentVerifier Ctx B PaymentStatusRequest PaymentStatusResponse (H := PaymentStatusVerifier x).
Proof.
  intros ctx req s e s' He. eapply raises_coherent; [eapply (PaymentStatus.Verify_raises chain inv served); exact He|done|right; done].
Qed.

Lemma fee_coherent x : CoherentVerifier Ctx B FeeProofRequest FeeProofResponse (H := FeeProofVerifier x).
Proof.
  intros ctx req s e s' He. eapply raises_coherent; [eapply (Fee_Verify_raises chain inv served); exact He|done|right; done].
Qed.
End Pmw.

Lemma multisig_coherent `{KeyLib} {Ctx : Type} `{!CallLib Ctx} `{!CallLaws Ctx} x :
  CoherentVerifier (Ctx * readings * (Z -> Z)) Z MultisigRequest MultisigResponse (H := MultisigVerifier x).
Proof.
  intros ctx req s e s' He. eapply raises_coherent; [eapply Multisig_Verify_raises; exact He|done|right; done].
Qed.

Section TeeCoherent.
Context `{TeeErrors} `{!X509Errors Certificate}.
Context {Ctx : Type} `{!NetLib Ctx} `{!NetErrors Ctx} `{!HttpLib Ctx} `{!HttpErrors Ctx} `{!BackgroundCtx Ctx} `{!RelayLib Ctx}.

(** A failed data verification is terminal unless the revocation check or the
    request's own context failed, and then it says nothing about the data. *)
Lemma classifyDataVerificationError_cases err :
  raises crl_errors err ->
  coherent (classifyDataVerificationError err) /\
  Is (classifyDataVerificationError err) ErrTEEDataValidation = negb (transient err) /\
  Is (classifyDataVerificationError err) ErrTEERevocationUnavailable = Is err ErrTEERevocationUnavailable.
Proof.
  intros Hr. unfold classifyDataVerificationError, transient.
  destruct (Is err ErrTEERevocationUnavailable || _ || _) eqn:Ht.
  - assert (raises crl_errors (Errorf "data verification could not complete: %w" [err])) as Hr'
      by (apply raises_Errorf, Forall_raises_cons; [exact Hr|apply Forall_raises_nil]).
    rewrite !Is_single. split; [eapply raises_coherent; [exact Hr'|done|right; done]|].
    split; [by eapply raises_not|done].
  - apply orb_false_iff in Ht as [Ht _]. apply orb_false_iff in Ht as [Hrev _].
    assert (raises (STee ErrTEEAttestationInvalid :: STee ErrTEEDataValidation :: crl_errors)
      (Errorf "%w: %w" [ESentinel ErrTEEAttestationInvalid; err])) as Hr'.
    { apply raises_Errorf, Forall_raises_cons; [apply raises_sentinel; vm_compute; reflexivity|].
      apply Forall_raises_cons; [|apply Forall_raises_nil]. eapply raises_weaken; [|exact Hr].
      intros t Ht. by do 2 apply list_elem_of_further. }
    assert (Is (Errorf "%w: %w" [ESentinel ErrTEEAttestationInvalid; err]) ErrTEERevocationUnavailable = false) as Hnr
      by (cbn; rewrite Hrev; done).
    rewrite Hrev, Hnr. split; [eapply raises_coherent; [exact Hr'|done|left; done]|done].
Qed.

(** ... and its status says so. *)
Lemma data_verification_status err :
  raises crl_errors err ->
  (if rejected_spec (classifyDataVerificationError err) then StatusRejected else StatusRetry) =
  if transient err then StatusRetry else StatusRejected.
Proof.
  intros Hr. unfold classifyDataVerificationError, transient.
  destruct (Is err ErrTEERevocationUnavailable || _ || _) eqn:Ht.
  - assert (raises crl_errors (Errorf "data verification could not complete: %w" [err])) as Hr'
      by (apply raises_Errorf, Forall_raises_cons; [exact Hr|apply Forall_raises_nil]).
    unfold rejected_spec, rejected_first. cbn [existsb].
    repeat match goal with |- context [Is (Errorf ?f ?l) ?t] =>
      rewrite (raises_not crl_errors (Errorf f l) t Hr') by (vm_compute; reflexivity) end.
    by destruct (Is (Errorf _ _) _).
  - unfold rejected_spec. replace (existsb _ rejected_first) with true; [done|]. symmetry.
    apply existsb_exists. exists (STee ErrTEEAttestationInvalid). split; [|done]. vm_compute. tauto.
Qed.

Lemma tagged_coherent fmt t :
  t ∈ specific_tee -> coherent (Errorf fmt [ESentinel t; ESentinel ErrTEEDataValidation]).
Proof.
  intros Ht. unfold specific_tee in Ht.
  repeat (apply elem_of_cons in Ht as [->|Ht]; [constructor; [intros; reflexivity|done]|]). by apply not_elem_of_nil in Ht.
Qed.

Lemma CheckSigningPolicies_coherent v ctx interrupted info e :
  (CheckSigningPolicies v ctx interrupted info).1 = Err e -> coherent e.
Proof.
  unfold CheckSigningPolicies.
  assert (forall fmt c fmt' op, coherent (Errorf fmt [Errorf fmt' [FetchError op (ESentinel (SFetchClass c))]])) as Hc.
  { intros. eapply (raises_coherent [SFetchClass c]); [|by destruct c|left; by destruct c].
    apply raises_Errorf, Forall_raises_cons; [|apply Forall_raises_nil].
    apply raises_Errorf, Forall_raises_cons; [|apply Forall_raises_nil].
    apply raises_FetchError, raises_sentinel. destruct c; vm_compute; reflexivity. }
  destruct (FetchSigningPolicyHashFromChainWithRetry v ctx interrupted (ti_InitialSigningPolicyID info) _) as [[hi|e1] st1] eqn:E1;
    cbn [fst].
  2: { apply FetchSigningPolicy_class in E1 as (c & fmt & ->). intros [= <-]. apply Hc. }
  destruct (FetchSigningPolicyHashFromChainWithRetry v ctx interrupted (ti_LastSigningPolicyID info) _) as [[hl|e2] st2] eqn:E2;
    cbn [fst].
  2: { apply FetchSigningPolicy_class in E2 as (c & fmt & ->). intros [= <-]. apply Hc. }
  repeat case_match; intros [= <-]; apply tagged_coherent;
    do 3 apply list_elem_of_further; apply list_elem_of_here.
Qed.

Lemma tee_coherent v :
  CoherentVerifier (Ctx * {env : token_env | token_env_ok env} * (nat -> option error)) (gmap string crlEntry)
    TeeRequest TeeResponse (H := TeeCheckVerifier v).
Proof.
  intros [[ctx [env Henv]] interrupted] req s e s'. cbn [VerifierVerify TeeCheckVerifier fst snd proj1_sig].
  unfold Verify. intros [[Hf _]%lift_eq|([[a t] signer] & s0 & [_ ->]%lift_eq & Hv)]%se_bind_Err.
  { eapply (raises_coherent proxy_errors); [|done|left].
    - eapply (res_raises_map_err _ _ _); [|exact Hf]. intros e' He'.
      apply raises_Errorf, Forall_raises_cons; [by eapply FetchTEEChallengeResult_raises|apply Forall_raises_nil].
    - apply map_err_Err in Hf as (e' & He' & ->). rewrite Is_single.
      eapply raises_not; [by eapply FetchTEEChallengeResult_raises|done|vm_compute; reflexivity]. }
  cbn beta iota zeta in Hv.
  destruct (negb (ti_Challenge _ =? _)).
  { apply lift_eq in Hv as [[= <-] _]. apply tagged_coherent, list_elem_of_here. }
  destruct (negb (ti_ChainID _ =? _)).
  { apply lift_eq in Hv as [[= <-] _]. apply tagged_coherent. apply list_elem_of_further, list_elem_of_here. }
  destruct (negb (signer =? _)).
  { apply lift_eq in Hv as [[= <-] _]. apply tagged_coherent. do 2 apply list_elem_of_further. apply list_elem_of_here. }
  apply se_bind_Err in Hv as [[Ha _]%lift_eq|([] & s1 & [_ ->]%lift_eq & Hv)].
  { apply map_err_Err in Ha as (e' & He' & ->).
    assert (raises [STee ErrTEEActionResultMismatch; STee ErrTEEDataValidation] (Errorf "%w: %w" [ESentinel ErrTEEActionResultMismatch; e'])) as Hr.
    { apply raises_Errorf, Forall_raises_cons; [apply raises_sentinel; vm_compute; reflexivity|].
      apply Forall_raises_cons; [by eapply verifyActionResult_raises|apply Forall_raises_nil]. }
    eapply raises_coherent; [exact Hr|done|left; by eapply raises_not]. }
  apply se_bind_Err in Hv as [Hd|(info & s2 & _ & Hv)].
  { apply se_map_err_Err in Hd as (e' & Hd & ->).
    by apply classifyDataVerificationError_cases, (DataVerification_raises v env t (tq_TeeId req) s e' s'). }
  apply se_bind_Err in Hv as [[Hp _]%lift_eq|(? & ? & _ & [? _]%lift_eq)]; [|done].
  by eapply CheckSigningPolicies_coherent.
Qed.
End TeeCoherent.

(** ** Properties *)

