(* ===== verification/Rejections.v ===== *)
(** * What a rejection says

    A REJECTED envelope is final for the relayer, RETRY is not.  For each
    verifier, the facts that lead to a rejection ([payment_refused],
    [fee_refused], [multisig_refused], [tee_refused]), and that nothing else
    does: an outage of the indexer, of a node, of the proxy or of a revocation
    point never turns into a final verdict.  The facts are stated of the request
    and of what the other systems answered, not of the errors that carry them. *)

From stdpp Require Import base list strings gmap.
From Stdlib Require Import ZArith Lia.
From S2P Require Import Prelude Errors GoStrings Helper Eth Config Instruction PaymentDB FeeProofDB Nonce Json.
From S2P Require Import XrpTransaction PaymentStatus FeeProof Multisig UrlValidation Fetcher Crl Tee Handler Services.

#[local] Open Scope Z_scope.

(** ** Rejected errors *)
Definition rejected (e : error) : Prop := (classifyVerifyStatus e).1 = StatusRejected.

(** The sentinels one of which a rejected error carries. *)
Definition rejections : list sentinel := rejected_first ++ [STee ErrTEEDataValidation; SFetchClass ErrInvalidInput].

(** A computation that raises only these never makes a rejection. *)
Definition quiet (l : list sentinel) : bool := forallb (fun t => negb (bool_decide (t ∈ l))) rejections.

Lemma rejected_Is e : rejected e -> exists t, t ∈ rejections /\ own_sentinel t = true /\ Is e t = true.
Proof.
  unfold rejected. rewrite classifyVerifyStatus_cases. destruct (rejected_spec e) eqn:Hr; [|done]. intros _.
  assert (exists t, t ∈ rejections /\ Is e t = true) as (t & Ht & Hi).
  { unfold rejections. setoid_rewrite elem_of_app. apply orb_true_iff in Hr as [Hr|[_ Hr]%andb_true_iff];
      apply existsb_exists in Hr as (t & Ht%list_elem_of_In & Hi); eauto. }
  exists t. split; [done|]. split; [|done].
  assert (forallb own_sentinel rejections = true) as Ho by (vm_compute; reflexivity).
  rewrite forallb_forall in Ho. by apply Ho, list_elem_of_In.
Qed.

Lemma rejected_raises l e :
  raises l e -> rejected e -> exists t, t ∈ rejections /\ t ∈ l /\ Is e t = true.
Proof. intros Hr (t & Ht & Ho & Hi)%rejected_Is. exists t. split; [done|]. split; [by apply Hr|done]. Qed.

Lemma quiet_spec l : quiet l = true -> forall t, t ∈ rejections -> t ∉ l.
Proof.
  unfold quiet. rewrite forallb_forall. intros Hq t Ht%list_elem_of_In.
  specialize (Hq t Ht). by apply negb_true_iff, bool_decide_eq_false in Hq.
Qed.

Lemma quiet_error l e : raises l e -> quiet l = true -> ~ rejected e.
Proof. intros Hr Hq (t & Ht & Hl & _)%(rejected_raises l); [|done]. by apply (quiet_spec l Hq t). Qed.

Lemma quiet_res {A} l (m : res error A) e : res_raises l m -> quiet l = true -> m = Err e -> ~ rejected e.
Proof. intros Hm Hq He. by apply (quiet_error l), Hq; apply Hm. Qed.

Lemma quiet_se {S A} l (m : SE S error A) s e s' :
  se_raises l m -> quiet l = true -> m s = (Err e, s') -> ~ rejected e.
Proof. intros Hm Hq He. eapply quiet_error; [by eapply Hm|done]. Qed.

(** Wrapping with a single [%w] changes no verdict. *)
Lemma rejected_wrap fmt e : rejected (Errorf fmt [e]) <-> rejected e.
Proof.
  unfold rejected. rewrite !classifyVerifyStatus_cases.
  assert (forall l, existsb (Is (Errorf fmt [e])) l = existsb (Is e) l) as Hl.
  { intros l. induction l as [|t l IH]; [done|]. cbn [existsb]. by rewrite IH, Is_single. }
  unfold rejected_spec. by rewrite !Hl, Is_single.
Qed.

Lemma rejected_sentinel fmt t rest :
  bool_decide (t ∈ rejected_first) = true -> rejected (Errorf fmt (ESentinel t :: rest)).
Proof.
  intros Ht%bool_decide_eq_true. unfold rejected. rewrite classifyVerifyStatus_cases. unfold rejected_spec.
  replace (existsb _ rejected_first) with true; [done|]. symmetry. apply existsb_exists.
  exists t. split; [by apply list_elem_of_In|]. cbn. by rewrite (bool_decide_true (t = t)).
Qed.

(** A call that raises only [l] did not make the rejection; [solve_raises] shows
    what it raises. *)
Ltac not_by l :=
  match goal with
  | Hrej : rejected ?e, H : ?m = Err ?e |- _ =>
      exfalso; refine (quiet_res l m e _ _ H Hrej); [clear Hrej H|vm_compute; reflexivity]
  | Hrej : rejected ?e, H : ?m ?s = (Err ?e, ?s') |- _ =>
      exfalso; refine (quiet_se l m s e s' _ _ H Hrej); [clear Hrej H|vm_compute; reflexivity]
  end; solve_raises.
Ltac not_by_db := not_by [SDB ErrDatabase; SDB ErrDataSource].

(** ** Payment *)
Section Payment.
Context `{ConfigLib} `{!AddressCodec} `{!JsonLib} `{!CommonFieldsLib}.
Context {Ctx B : Type} `{!IndexerDB Ctx} `{!SequenceVerifier Ctx B}.

(** The indexer answered, and has no event for the instruction of the request,
    or no transaction of the sender at the sequence the event was checked to
    have. *)
Inductive payment_refused (x : PaymentStatus.XRPVerifier) (ctx : Ctx) (req : PaymentStatusRequest) (b b' : B) : Prop :=
| no_event id sig :
    GenerateInstructionID (ps_OpType req) (eab_SourceIDEncoded (psc_common (PaymentStatus.Config x)))
      (ps_SenderAddress req) (ps_PaymentId req) = Ok id ->
    TeeInstructionsSentEventSignature (psc_ParsedTeeInstructionsABI (PaymentStatus.Config x)) = Ok sig ->
    find_logs ctx {| q_address := contractAddress (PaymentStatus.Repo x); q_topic0 := removeHexPrefix sig;
                     q_topic1 := removeHexPrefix (Hash_Hex 0); q_topic2 := [removeHexPrefix (Hash_Hex id)];
                     q_order := "block_number ASC, log_index ASC"; q_limit := Some 2%nat |} = Ok [] ->
    b' = b -> payment_refused x ctx req b b'
| no_transaction msg :
    instruction_event x ctx req msg ->
    VerifySeq ctx (eab_SourceIDEncoded (psc_common (PaymentStatus.Config x))) (ps_SenderAddress req) (ps_PaymentId req)
      (pm_Nonce msg) b = (Ok tt, b') ->
    find_txs ctx {| tq_source := ps_SenderAddress req; tq_sequences := [pm_Nonce msg];
                    tq_order := "hash ASC"; tq_limit := Some 2%nat |} = Ok [] ->
    payment_refused x ctx req b b'.

Context `{!EthErrors} `{!AddressErrors} `{!JsonErrors} `{!CommonFieldsErrors} `{!IndexerErrors Ctx}.
Context (chain : Hash -> string -> Z) (inv : B -> Prop) (served : Ctx -> Hash -> string -> Prop).
Context `{!SequenceSpec Ctx B chain inv served}.

Lemma FetchInstructionLog_rejected r (ctx : Ctx) sig id e :
  PaymentDB.FetchInstructionLog r ctx sig id = Err e -> rejected e ->
  find_logs ctx {| q_address := contractAddress r; q_topic0 := removeHexPrefix sig;
                   q_topic1 := removeHexPrefix (Hash_Hex 0); q_topic2 := [removeHexPrefix (Hash_Hex id)];
                   q_order := "block_number ASC, log_index ASC"; q_limit := Some 2%nat |} = Ok [].
Proof.
  intros Hf Hrej. pose proof err_find_logs. pose proof err_Convert.
  unfold PaymentDB.FetchInstructionLog in Hf. apply res_bind_Err in Hf as [Hq|([|row [|]] & Hq%map_err_Ok & Hf)];
    [not_by_db|done|not_by_db|not_by_db].
Qed.

Lemma FetchTransaction_rejected (ctx : Ctx) src seq e :
  FetchTransactionBySourceAndSequence ctx {| cq_SourceAddress := src; cq_Nonce := seq |} = Err e -> rejected e ->
  find_txs ctx {| tq_source := src; tq_sequences := [seq]; tq_order := "hash ASC"; tq_limit := Some 2%nat |} = Ok [].
Proof.
  intros Hf Hrej. pose proof err_find_txs.
  unfold FetchTransactionBySourceAndSequence in Hf. apply res_bind_Err in Hf as [Hq|([|row [|]] & Hq%map_err_Ok & Hf)];
    [not_by_db|done|not_by_db|not_by_db].
Qed.

(** The payment verifier rejects exactly then. *)
Lemma payment_rejected x ctx req b b' :
  (exists e, PaymentStatus.Verify (B := B) x ctx req b = (Err e, b') /\ rejected e) <-> payment_refused x ctx req b b'.
Proof.
  split.
  - intros (e & Hv & Hrej).
    pose proof (VerifySeq_raises (B := B) chain inv served). pose proof BuildPaymentStatusResponse_raises.
    pose proof parseRawTransactionData_raises.
    unfold PaymentStatus.Verify in Hv.
    apply se_bind_Err in Hv as [[He _]%lift_eq|(id & ? & [Hid%map_err_Ok ->]%lift_eq & Hv)]; [not_by_db|].
    apply se_bind_Err in Hv as [[He _]%lift_eq|(sig & ? & [Hsig ->]%lift_eq & Hv)]; [not_by_db|].
    apply se_bind_Err in Hv as [[He ->]%lift_eq|(log & ? & [Hlog ->]%lift_eq & Hv)].
    { eapply no_event; [exact Hid|exact Hsig|by eapply FetchInstructionLog_rejected|done]. }
    apply se_bind_Err in Hv as [[He _]%lift_eq|(msg & ? & [Hmsg ->]%lift_eq & Hv)]; [not_by_db|].
    apply se_bind_Err in Hv as [[He _]%lift_eq|([] & ? & [Hc ->]%lift_eq & Hv)]; [not_by_db|].
    apply se_bind_Err in Hv as [Hv|([] & ? & Hseq & Hv)]; [not_by_db|].
    apply se_bind_Err in Hv as [[He ->]%lift_eq|(tx & ? & [Htx ->]%lift_eq & Hv)].
    { apply FetchInstructionLog_Ok in Hlog as (row & ? & ?). apply CheckInstructionConsistency_Ok in Hc.
      eapply no_transaction; [|exact Hseq|by eapply FetchTransaction_rejected].
      constructor; [by eexists _, _, _, _|done]. }
    apply se_bind_Err in Hv as [[He _]%lift_eq|(raw & ? & [Hraw ->]%lift_eq & Hv)]; [not_by_db|].
    apply se_bind_Err in Hv as [[He _]%lift_eq|([] & ? & [Hrow ->]%lift_eq & Hv)]; [not_by_db|].
    apply lift_eq in Hv as [He _]. not_by_db.
  - unfold PaymentStatus.Verify.
    intros [id sig Hid Hsig Hq ->|msg [(id & sig & row & log & Hid & Hsig & Hq & Hconv & Hdec) Hb] Hseq Htx];
      (eexists; split;
       [apply se_bind_Err; right; exists id, b; split; [by rewrite Hid|];
        apply se_bind_Err; right; exists sig, b; split; [by rewrite Hsig|]|]).
    1: apply se_bind_Err; left; apply lift_eq; (split; [|done]); unfold PaymentDB.FetchInstructionLog; by rewrite Hq.
    1: by apply rejected_sentinel.
    apply se_bind_Err. right. exists log, b.
    split; [apply lift_eq; split; [apply FetchInstructionLog_Ok; eauto|done]|].
    apply se_bind_Err. right. exists msg, b. split; [by rewrite Hdec|].
    apply se_bind_Err. right. exists tt, b.
    split; [apply lift_eq; split; [by apply CheckInstructionConsistency_Ok|done]|].
    apply se_bind_Err. right. exists tt, b'. split; [done|].
    apply se_bind_Err. left. apply lift_eq. split; [|done].
    { unfold FetchTransactionBySourceAndSequence. cbn [cq_SourceAddress cq_Nonce]. by rewrite Htx. }
    by apply rejected_sentinel.
Qed.
End Payment.

(** ** Multisig *)
Section Multisig.
Context `{KeyLib} {Ctx : Type} `{!CallLib Ctx} `{!CallLaws Ctx}.

(** The errors of rippled that pass: it has no network, no ledger yet, or too
    much to do, or is blocked. *)
Definition passing_node_errors : list string :=
  ["noNetwork"; "noCurrent"; "noClosed"; "tooBusy"; "slowDown"; "internal"; "amendmentBlocked"]%string.

Lemma transientRPCErrors_spec e : transientRPCErrors e = false <-> e ∉ passing_node_errors.
Proof. unfold transientRPCErrors. apply bool_decide_eq_false. Qed.

(** The request is one no signer list can satisfy, or the pinned node answered
    with an error that is not of its passing ones. *)
Inductive multisig_refused (x : Multisig.XRPVerifier) (ctx : Ctx) (t : readings) (recheck : Z -> Z) (req : MultisigRequest)
    (last last' : Z) : Prop :=
| malformed_request : ~ well_formed_request (mr_PublicKeys req) (mr_Threshold req) -> last' = last ->
    multisig_refused x ctx t recheck req last last'
| node_error info :
    well_formed_request (mr_PublicKeys req) (mr_Threshold req) ->
    ensureNetworkVerified x ctx t recheck last = (Ok tt, last') ->
    PostWithRetry ctx (url (xv_Client x)) (account_info_request (mr_AccountAddress req)) unmarshal_AccountInfoResponse = Ok info ->
    ai_Status info <> "success"%string -> ai_Error info ∉ passing_node_errors ->
    multisig_refused x ctx t recheck req last last'.

Lemma FetchAccountInfo_rejected (c : Client) (ctx : Ctx) (a : string) e :
  FetchAccountInfo c ctx a = Err e /\ rejected e <->
  e = rpcStatusError "" /\
  exists info : AccountInfoResult,
    PostWithRetry ctx (url c) (account_info_request a) unmarshal_AccountInfoResponse = Ok info /\
    ai_Status info <> "success"%string /\ transientRPCErrors (ai_Error info) = false.
Proof.
  pose proof Post_errors. unfold FetchAccountInfo. split.
  - intros [Hf Hrej]. apply res_bind_Err in Hf as [Hq|(info & Hq%map_err_Ok & Hf)]; [not_by [SClient ErrFetchAccountInfo]|].
    destruct (String.eqb_spec (ai_Status info) "success"); cbn [negb] in Hf; [done|].
    unfold rpcStatusError in Hf. destruct (transientRPCErrors (ai_Error info)) eqn:Ht; [not_by [SClient ErrRPCTransient]|].
    injection Hf as <-. eauto.
  - intros (-> & info & Hq & Hs%String.eqb_neq & Ht). rewrite Hq. cbn [map_err mbind res_bind]. rewrite Hs. cbn [negb].
    unfold rpcStatusError. rewrite Ht. split; [done|]. by apply rejected_sentinel.
Qed.

(** The multisig verifier rejects exactly then. *)
Lemma multisig_rejected x ctx t recheck req last last' :
  (exists e, Multisig.Verify x ctx t recheck req last = (Err e, last') /\ rejected e) <->
  multisig_refused x ctx t recheck req last last'.
Proof.
  assert (se_raises network_errors (ensureNetworkVerified x ctx t recheck)) as Hnet.
  { intros s e s'. unfold ensureNetworkVerified. repeat case_match; try done. apply checkNetwork_raises. }
  unfold Multisig.Verify. split.
  - intros (e & Hv & Hrej).
    apply se_bind_Err in Hv as [[He ->]%lift_eq|([] & ? & [Hreq%map_err_Ok%ValidateMultisigRequest_Ok ->]%lift_eq & Hv)].
    { apply malformed_request; [|done]. intros Hw%ValidateMultisigRequest_Ok. by rewrite Hw in He. }
    apply se_bind_Err in Hv as [Hv|([] & last1 & Hn & Hv)]; [not_by network_errors|].
    apply se_bind_Err in Hv as [[He ->]%lift_eq|(info & ? & _ & Hv)].
    + destruct (proj1 (FetchAccountInfo_rejected _ _ _ _) (conj He Hrej)) as (_ & info & ? & ? & ?). by eapply node_error; [..|apply transientRPCErrors_spec].
    + by destruct (validateMultisigConfiguration info req); apply lift_eq in Hv as [? _].
  - intros [Hw ->|info Hw Hn Hq Hs Ht].
    + destruct (ValidateMultisigRequest (mr_PublicKeys req) (mr_Threshold req)) as [[]|e] eqn:Hv.
      { by apply ValidateMultisigRequest_Ok in Hv. }
      eexists. split; [apply se_bind_Err; left; by apply lift_eq|]. by apply rejected_sentinel.
    + apply ValidateMultisigRequest_Ok in Hw.
      destruct (proj2 (FetchAccountInfo_rejected (xv_Client x) ctx (mr_AccountAddress req) _) (conj eq_refl (ex_intro _ info (conj Hq (conj Hs (proj2 (transientRPCErrors_spec _) Ht))))))
        as [He Hrej].
      eexists. split; [|exact Hrej]. apply se_bind_Err. right. exists tt, last. split; [by rewrite Hw|].
      apply se_bind_Err. right. exists tt, last'. split; [done|]. apply se_bind_Err. left. by apply lift_eq.
Qed.
End Multisig.

(** ** Fee proofs *)
Section Fee.
Context `{ConfigLib} `{!JsonLib}.
Context {Ctx B : Type} `{!IndexerDB Ctx} `{!SequenceVerifier Ctx B}.
Context (x : FeeProof.XRPVerifier) (ctx : Ctx) (req : FeeProofRequest).

Let sourceID : Hash := eab_SourceIDEncoded (fpc_common (FeeProof.Config x)).
Let cap : Z := if maxBatchRange x =? 0 then MaxBatchRange else maxBatchRange x.

(** The batch's range is one the verifier takes. *)
Definition range_ok : Prop :=
  1 <= fp_BatchCount req <= cap /\ fp_FirstPaymentId req + fp_BatchCount req - 1 <= MaxUint64.

(** The payment is of the batch. *)
Definition in_batch (paymentId : Z) : Prop :=
  fp_FirstPaymentId req <= paymentId < fp_FirstPaymentId req + fp_BatchCount req.

(** More reissues of the payment are in the window than the cap allows. *)
Definition over_reissued (eventHash : string) (paymentId : Z) : Prop :=
  exists fees id r,
    window_run x ctx req eventHash paymentId 1 fees /\ Z.of_nat (length fees) = MaxReissuesPerPayment /\
    GenerateReissueInstructionID (fp_OpType req) sourceID (fp_SenderAddress req) paymentId (MaxReissuesPerPayment + 1) = Ok id /\
    FeeProofDB.FetchInstructionLog (FeeProof.Repo x) ctx eventHash id = Ok r /\ ilr_BlockTimestamp r <= fp_UntilTimestamp req.

(** The range is not one the verifier takes; or the indexer answered, and
    among its rows there is no pay event for a payment of the batch, an event
    beyond the cap on reissues, or no transaction at the sequence the contract
    assigns to a payment. *)
Inductive fee_refused (chain : Hash -> string -> Z) : Prop :=
| bad_range : ~ range_ok -> fee_refused chain
| no_pay_event paymentId id ids sig rows :
    range_ok -> in_batch paymentId ->
    TeeInstructionsSentEventSignature (fpc_ParsedTeeInstructionsABI (FeeProof.Config x)) = Ok sig ->
    GeneratePayInstructionID (fp_OpType req) sourceID (fp_SenderAddress req) paymentId = Ok id -> id ∈ ids ->
    find_logs ctx {| q_address := contractAddress (FeeProof.Repo x); q_topic0 := removeHexPrefix sig;
                     q_topic1 := removeHexPrefix (Hash_Hex 0); q_topic2 := (fun i => removeHexPrefix (Hash_Hex i)) <$> ids;
                     q_order := "block_number ASC, log_index ASC"; q_limit := None |} = Ok rows ->
    (forall row log, row ∈ rows -> ConvertDatabaseLogToChainLog row = Ok log -> Topics log !! 2%nat <> Some id) ->
    fee_refused chain
| too_many_reissues paymentId sig :
    range_ok -> in_batch paymentId ->
    TeeInstructionsSentEventSignature (fpc_ParsedTeeInstructionsABI (FeeProof.Config x)) = Ok sig ->
    over_reissued sig paymentId -> fee_refused chain
| no_batch_transaction paymentId seqs txs :
    range_ok -> in_batch paymentId ->
    let sequence := chain sourceID (fp_SenderAddress req) + paymentId - 1 in
    sequence ∈ seqs ->
    find_txs ctx {| tq_source := fp_SenderAddress req; tq_sequences := seqs; tq_order := ""; tq_limit := None |} = Ok txs ->
    (forall tx, tx ∈ txs -> tx_Sequence tx <> sequence) -> fee_refused chain.

Context `{!EthErrors} `{!JsonErrors} `{!IndexerErrors Ctx}.
Context (chain : Hash -> string -> Z) (inv : B -> Prop) (served : Ctx -> Hash -> string -> Prop).
Context `{!SequenceSpec Ctx B chain inv served}.

(** The probe behind the cap rejects only a payment that is over it. *)
Lemma estimate_reissues_rejected sig paymentId m acc e :
  estimate_reissues x ctx req sig sourceID paymentId m acc = Err e -> rejected e -> over_reissued sig paymentId.
Proof.
  pose proof reissue_scan_raises. unfold estimate_reissues.
  assert (exists n, Z.to_nat MaxReissuesPerPayment = n /\ Z.of_nat n = MaxReissuesPerPayment) as (n & -> & Hn) by (by eexists).
  assert (u64 (MaxReissuesPerPayment + 1) = MaxReissuesPerPayment + 1) as -> by done.
  assert (1 + MaxReissuesPerPayment <= MaxUint64) as Hmax by done. rewrite <- Hn in Hmax. intros He Hrej.
  apply res_bind_Err in He as [He|([r early] & Hs & He)]; [not_by_db|].
  apply reissue_scan_Ok in Hs as (fees & Hrun & _ & Hl); [|lia|exact Hmax].
  destruct early; [discriminate He|].
  apply res_bind_Err in He as [He|(id & Hid%map_err_Ok & He)]; [not_by_db|].
  destruct (FeeProofDB.FetchInstructionLog (FeeProof.Repo x) ctx sig id) as [rr|err] eqn:Hf.
  - destruct (Z.ltb_spec (fp_UntilTimestamp req) (ilr_BlockTimestamp rr)); [done|].
    exists fees, id, rr. split; [exact Hrun|]. split; [by rewrite Hl|]. split; [exact Hid|]. by split.
  - destruct (Is err ErrRecordNotFound) eqn:Hnf; [discriminate He|]. injection He as <-. apply rejected_wrap in Hrej.
    exfalso. revert Hrej. apply (quiet_error [SDB ErrDatabase]); [|vm_compute; reflexivity].
    apply not_found_excluded; [|done]. by eapply FeeFetchInstructionLog_raises.
Qed.

(** The loop over the payments: what stops it with a verdict. *)
Lemma computeEstimatedFee_rejected sig ps logs acc seqs b e b' :
  computeEstimatedFee x ctx req sig sourceID ps logs acc seqs b = (Err e, b') -> rejected e ->
  exists p, p ∈ ps /\ (logs !! p.2 = None \/ over_reissued sig p.1).
Proof.
  intros Hr Hrej.
  assert (forall a p g, se_raises [SDB ErrDatabase] (VerifySeq (B := B) ctx sourceID a p g)) as Hseq.
  { intros a p g b0 e0 b1 Hv. apply (seq_err (chain := chain)) in Hv as (fmt & ->). solve_raises. }
  revert acc seqs b Hr. induction ps as [|[pid id] ps IH]; intros acc seqs b Hr; cbn [computeEstimatedFee] in Hr; [done|].
  setoid_rewrite elem_of_cons. destruct (logs !! id) as [log|] eqn:Hlog; [|exists (pid, id); auto].
  apply se_bind_Err in Hr as [[He _]%lift_eq|(msg & ? & [_ ->]%lift_eq & Hr)]; [not_by_db|].
  apply se_bind_Err in Hr as [[He _]%lift_eq|([] & ? & [_ ->]%lift_eq & Hr)]; [not_by_db|].
  apply se_bind_Err in Hr as [Hr|([] & b1 & _ & Hr)]; [not_by_db|].
  destruct (pm_MaxFee msg) as [fee|]; [|apply lift_eq in Hr as [He _]; not_by_db].
  destruct (ExceedsMaxXRPDrops (Some fee)); [apply lift_eq in Hr as [He _]; not_by_db|].
  apply se_bind_Err in Hr as [[He _]%lift_eq|(fee' & ? & [_ ->]%lift_eq & Hr)].
  - exists (pid, id). split; [by left|]. right. by eapply estimate_reissues_rejected.
  - destruct (IH _ _ _ Hr) as (p & Hp & Hor). exists p. auto.
Qed.

Lemma sum_fees_rejected txMap seqs acc e :
  sum_fees txMap seqs acc = Err e -> rejected e -> exists s, s ∈ seqs /\ txMap !! s = None.
Proof.
  intros Hr Hrej. pose proof err_Parse.
  assert (forall l j, res_raises l (unmarshal_identity j)) as Hid by (intros; unfold unmarshal_identity; decode_raises).
  assert (forall l j, res_raises l (unmarshal_fee j)) as Hfe by (intros; unfold unmarshal_fee; decode_raises).
  revert acc Hr. induction seqs as [|s seqs IH]; intros acc Hr; cbn [sum_fees] in Hr; [done|].
  setoid_rewrite elem_of_cons. destruct (txMap !! s) as [tx|] eqn:Ht; [|exists s; auto].
  unfold checkTxRowConsistency, parseTxFee in Hr.
  apply res_bind_Err in Hr as [He|(? & _ & Hr)]; [not_by_db|].
  apply res_bind_Err in Hr as [He|(fee & _ & Hr)]; [not_by_db|].
  destruct (IH _ Hr) as (s' & ? & ?). eauto.
Qed.

(** The payments of a batch, each with the id of its pay event. *)
Lemma payments_of_batch ps :
  is_u64 (fp_FirstPaymentId req) -> range_ok ->
  build_pay_ids req sourceID (seq 0 (Z.to_nat (fp_BatchCount req))) = Ok ps ->
  forall p, p ∈ ps -> in_batch p.1 /\ is_u64 p.1 /\
    GeneratePayInstructionID (fp_OpType req) sourceID (fp_SenderAddress req) p.1 = Ok p.2.
Proof.
  intros Hf [Hc Hov] Hps%build_pay_ids_Ok p (i & Hi)%list_elem_of_lookup.
  destruct (Forall2_lookup_r _ _ _ _ _ Hps Hi) as (k & [-> Hlt]%lookup_seq & Hp & Hid).
  unfold is_u64, MaxUint64, in_batch in *. rewrite u64_small in Hp by (unfold is_u64, MaxUint64; lia).
  rewrite Hp in *. split; [lia|]. split; [lia|done].
Qed.

Lemma missing_event sig ids logs id :
  FetchInstructionLogs (FeeProof.Repo x) ctx sig ids = Ok logs -> id ∈ ids -> logs !! id = None ->
  exists rows,
    find_logs ctx {| q_address := contractAddress (FeeProof.Repo x); q_topic0 := removeHexPrefix sig;
                     q_topic1 := removeHexPrefix (Hash_Hex 0); q_topic2 := (fun i => removeHexPrefix (Hash_Hex i)) <$> ids;
                     q_order := "block_number ASC, log_index ASC"; q_limit := None |} = Ok rows /\
    (forall row log, row ∈ rows -> ConvertDatabaseLogToChainLog row = Ok log -> Topics log !! 2%nat <> Some id).
Proof.
  unfold FetchInstructionLogs. destruct ids as [|i ids]; [by intros _ []%not_elem_of_nil|].
  intros (rows & Hq%map_err_Ok & Hc)%res_bind_Ok _ Hnone. exists rows. split; [exact Hq|].
  intros row log Hin Hconv Ht. pose proof (proj2 (collect_logs_Ok _ _ _ Hc id log)) as Hl.
  rewrite Hl in Hnone; [done|]. right. eauto.
Qed.

Lemma missing_transaction src seqs txMap s :
  FetchTransactionsBySourceAndSequences ctx src seqs = Ok txMap -> s ∈ seqs -> txMap !! s = None ->
  exists txs, find_txs ctx {| tq_source := src; tq_sequences := seqs; tq_order := ""; tq_limit := None |} = Ok txs /\
    forall tx, tx ∈ txs -> tx_Sequence tx <> s.
Proof.
  unfold FetchTransactionsBySourceAndSequences. destruct seqs as [|n seqs]; [by intros _ []%not_elem_of_nil|].
  intros (txs & Hq%map_err_Ok & Hc)%res_bind_Ok _ Hnone. exists txs. split; [exact Hq|].
  intros tx Hin Hs. apply collect_txs_Ok in Hc as (Hmap & _). rewrite (proj2 (Hmap s tx)) in Hnone; [done|]. by right.
Qed.

(** The fee verifier rejects only then. *)
Lemma fee_rejected b e b' :
  0 <= sourceID < 2 ^ 256 -> is_u64 (fp_FirstPaymentId req) -> is_u64 (fp_BatchCount req) -> inv b ->
  FeeProof.Verify x ctx req b = (Err e, b') -> rejected e -> fee_refused chain.
Proof.
  intros Hs Hf Hc Hinv Hv Hrej. unfold FeeProof.Verify in Hv. fold sourceID in Hv. pose proof build_pay_ids_raises.
  apply se_bind_Err in Hv as [[He _]%lift_eq|([] & ? & [Hval ->]%lift_eq & Hv)].
  { apply bad_range. intros Hr%validateBatchRange_Ok; [|done..]. congruence. }
  apply validateBatchRange_Ok in Hval; [|done..]. change range_ok in Hval.
  apply se_bind_Err in Hv as [[He _]%lift_eq|(sig & ? & [Hsig ->]%lift_eq & Hv)]; [not_by_db|].
  apply se_bind_Err in Hv as [[He _]%lift_eq|(ps & ? & [Hps ->]%lift_eq & Hv)]; [not_by_db|].
  pose proof (payments_of_batch ps Hf Hval Hps) as Hbatch.
  apply se_bind_Err in Hv as [[He _]%lift_eq|(logs & ? & [Hlogs%map_err_Ok ->]%lift_eq & Hv)]; [not_by_db|].
  apply se_bind_Err in Hv as [Hv|([est seqs] & b1 & Hest & Hv)].
  { destruct (computeEstimatedFee_rejected _ _ _ _ _ _ _ _ Hv Hrej) as (p & Hp & Hor).
    destruct (Hbatch p Hp) as (Hin & _ & Hid).
    destruct Hor as [Hnone|Hover]; [|by eapply too_many_reissues].
    assert (p.2 ∈ snd <$> ps) as Hmem by (apply list_elem_of_fmap; eauto).
    destruct (missing_event _ _ _ _ Hlogs Hmem Hnone) as (rows & Hq & Hno). by eapply no_pay_event. }
  assert (Forall (fun p => is_u64 p.1) ps) as Hu by (apply Forall_forall; intros p Hp; by apply Hbatch).
  destruct (computeEstimatedFee_sound x ctx req sig logs chain inv served ps 0 [] b _ b1 Hs Hu Hinv Hest) as [_ (items & Hall & Hr)].
  injection Hr as -> ->.
  apply se_bind_Err in Hv as [[He _]%lift_eq|(act & ? & [_ ->]%lift_eq & Hv)].
  2: { destruct (_ || _); apply lift_eq in Hv as [He _]; [not_by_db|done]. }
  unfold computeActualFee in He. apply res_bind_Err in He as [He|(txMap & Htx%map_err_Ok & He)]; [not_by_db|].
  destruct (sum_fees_rejected _ _ _ _ He Hrej) as (s & Hin & Hnone).
  destruct (missing_transaction _ _ _ _ Htx Hin Hnone) as (txs & Hq & Hno).
  apply list_elem_of_fmap in Hin as (m & -> & (i & Hi)%list_elem_of_lookup).
  destruct (Forall2_lookup_r _ _ _ _ _ Hall Hi) as (p & Hp%list_elem_of_lookup_2 & _ & _ & Hn & _).
  fold sourceID in Hn. rewrite Hn in Hno. eapply no_batch_transaction; [done|by apply (Hbatch p)| |exact Hq|exact Hno]. rewrite <- Hn.
  apply list_elem_of_fmap. exists m. split; [done|]. by eapply list_elem_of_lookup_2.
Qed.
End Fee.

(** ** TEE availability *)
Section Availability.
Context `{TeeLib} {Ctx : Type} `{!NetLib Ctx} `{!HttpLib Ctx} `{!BackgroundCtx Ctx} `{!RelayLib Ctx}.

(** What the proxy served instead of a result. *)
Definition unusable_result (a : ActionResponse) : Prop :=
  let data := ar_Data (ac_Result a) in
  data = ""%string \/ json_Valid data = false \/ (exists err, unmarshal_TeeInfoResponse data = Err err) \/
  exists t h err, unmarshal_TeeInfoResponse data = Ok t /\
    Payload_Hash ProxyActionResult (ti_ChainID (tr_TeeInfo t)) (Result_Hash (ac_Result a)) = Ok h /\
    SignatureToSignersAddress h (ac_ProxySignature a) = Err err.

(** The proxy answered with this, over the pinned connection. *)
Definition proxy_answered (ctx : Ctx) (baseURL : string) (id : Hash) (allow : bool) (answer : ActionResponse) : Prop :=
  exists reqURL r, JoinPath baseURL ["action"; "result"; instruction_hex id]%string = Ok reqURL /\
    ResolveExternalURL ctx baseURL allow = Ok r /\
    let '(dial, host, sn) := BuildPinnedAddr r in
    FetchJSONPinned unmarshal_ActionResponse ctx reqURL fetchChallengeTimeout dial host sn = Ok answer.

(** It answered 200, with a body beyond the cap. *)
Definition proxy_oversized (ctx : Ctx) (baseURL : string) (id : Hash) (allow : bool) : Prop :=
  exists reqURL r a, JoinPath baseURL ["action"; "result"; instruction_hex id]%string = Ok reqURL /\
    ResolveExternalURL ctx baseURL allow = Ok r /\
    (let '(dial, host, sn) := BuildPinnedAddr r in exchanged ctx reqURL fetchChallengeTimeout dial host sn (Ok a)) /\
    hr_StatusCode a = 200 /\ maxResponseSize < len (hr_Body a).

(** The result is not the TEE's to this request, or its attestation was examined
    and does not stand, or the Relay holds another policy hash or its node calls
    the id invalid. *)
Inductive result_refused (v : TeeVerifier) (ctx : Ctx) (env : token_env) (req : TeeRequest)
    (a : ActionResponse) (t : TeeInfoResponse) (signer : Address) : Prop :=
| other_challenge : ti_Challenge (tr_TeeInfo t) <> tq_Challenge req -> result_refused v ctx env req a t signer
| other_chain : ti_ChainID (tr_TeeInfo t) <> tac_ChainID (tv_Cfg v) -> result_refused v ctx env req a t signer
| other_proxy : signer <> tq_TeeProxyId req -> result_refused v ctx env req a t signer
| other_action :
    ~ action_bound a (tq_InstructionId req) (tq_TeeId req) (tac_ChainID (tv_Cfg v)) -> result_refused v ctx env req a t signer
| attestation_refuted : examined v t -> data_refuted v (te_now env) t (tq_TeeId req) -> result_refused v ctx env req a t signer
| other_policy id reported h :
    (id, reported) ∈ [(ti_InitialSigningPolicyID (tr_TeeInfo t), ti_InitialSigningPolicyHash (tr_TeeInfo t));
                      (ti_LastSigningPolicyID (tr_TeeInfo t), ti_LastSigningPolicyHash (tr_TeeInfo t))] ->
    ToSigningPolicyHash (tv_Relay v) (relay_timeout ctx chainFetchTimeout) id = Ok h -> h <> reported ->
    result_refused v ctx env req a t signer
| invalid_policy id err :
    id ∈ [ti_InitialSigningPolicyID (tr_TeeInfo t); ti_LastSigningPolicyID (tr_TeeInfo t)] ->
    ToSigningPolicyHash (tv_Relay v) (relay_timeout ctx chainFetchTimeout) id = Err err ->
    node_refused err -> ~ node_silent err ->
    result_refused v ctx env req a t signer.

(** The proxy's answer is oversized or no result, or its result is refused. *)
Inductive tee_refused (v : TeeVerifier) (ctx : Ctx) (env : token_env) (req : TeeRequest) : Prop :=
| oversized :
    proxy_oversized ctx (FormatProxyURL v (tq_Url req)) (tq_InstructionId req) (tac_AllowPrivateNetworks (tv_Cfg v)) ->
    tee_refused v ctx env req
| malformed_result a :
    proxy_answered ctx (FormatProxyURL v (tq_Url req)) (tq_InstructionId req) (tac_AllowPrivateNetworks (tv_Cfg v)) a ->
    unusable_result a -> tee_refused v ctx env req
| refused_result a t signer :
    FetchTEEChallengeResult ctx (FormatProxyURL v (tq_Url req)) (tq_InstructionId req) (tac_AllowPrivateNetworks (tv_Cfg v)) =
      Ok (a, t, signer) ->
    result_refused v ctx env req a t signer -> tee_refused v ctx env req.

Context `{!TeeErrors} `{!X509Errors Certificate} `{!NetErrors Ctx} `{!HttpErrors Ctx}.

Lemma FetchTEEChallengeResult_rejected ctx base id allow e :
  FetchTEEChallengeResult ctx base id allow = Err e -> rejected e ->
  proxy_oversized ctx base id allow \/ (exists a, proxy_answered ctx base id allow a /\ unusable_result a).
Proof.
  intros Hf Hrej. pose proof err_JoinPath. pose proof err_Payload.
  pose proof (fun c u t d h s => FetchJSONPinned_raises (Ctx := Ctx) unmarshal_ActionResponse c u t d h s err_ActionResponse) as Hfetch.
  unfold FetchTEEChallengeResult, proxy_answered, proxy_oversized in *.
  apply res_bind_Err in Hf as [He|(reqURL & Hj%map_err_Ok & Hf)]; [not_by_db|].
  apply res_bind_Err in Hf as [He|(r & Hr & Hf)]; [unfold ResolveExternalURL in He; not_by [SUrl ErrURLValidation]|].
  destruct (BuildPinnedAddr r) as [[dial host] sn] eqn:Hpin.
  apply res_bind_Err in Hf as [He|(a & Ha%map_err_Ok & Hf)].
  { left. apply map_err_Err in He as (err & He & ->). pose proof (Hfetch _ _ _ _ _ _ _ He) as Hr'.
    destruct (Is err ErrResponseTooLarge) eqn:Hlarge.
    { apply res_bind_Err in He as [He|(body & _ & (e' & He & ->)%map_err_Err)].
      - apply FetchBytesPinned_Err in He. destruct (fetch_failure_too_large _ _ _ _ _ _ _ He Hlarge) as (x & Hx & H200 & Hl).
        exists reqURL, r, x. by rewrite Hpin.
      - rewrite Is_single in Hlarge. apply err_ActionResponse in He. by rewrite He in Hlarge. }
    exfalso.
    revert Hrej. apply (quiet_error (STee ErrActionResultNotFound :: fetch_errors)); [|vm_compute; reflexivity].
    eapply (raises_weaken _ (STee ErrActionResultNotFound :: fetch_errors)) in Hr'; [|intros; by apply list_elem_of_further].
    destruct (Is err ErrNotFound); solve_raises; done. }
  right. exists a. split; [exists reqURL, r; by rewrite Hpin|]. unfold unusable_result.
  destruct (Z.eqb_spec (len (ar_Data (ac_Result a))) 0) as [Hz|]; [left; by destruct (ar_Data (ac_Result a))|right].
  destruct (json_Valid _); [right|by left]. cbn [negb] in Hf.
  apply res_bind_Err in Hf as [(err & He & _)%map_err_Err|(t & Ht%map_err_Ok & Hf)]; [left; by exists err|right].
  apply res_bind_Err in Hf as [He|(h & Hh%map_err_Ok & Hf)]; [not_by_db|].
  apply res_bind_Err in Hf as [(err & He & _)%map_err_Err|(signer & _ & Hf)]; [by exists t, h, err|done].
Qed.

(** A failed policy lookup rejects only an id the Relay's node called invalid. *)
Lemma FetchSigningPolicy_rejected v ctx interrupted id e st fmt :
  FetchSigningPolicyHashFromChainWithRetry v ctx interrupted id chainMaxAttempts = (Err e, st) ->
  rejected (Errorf fmt [e]) ->
  exists err, ToSigningPolicyHash (tv_Relay v) (relay_timeout ctx chainFetchTimeout) id = Err err /\
    node_refused err /\ ~ node_silent err.
Proof.
  rewrite FetchSigningPolicy_single. unfold FetchSigningPolicyHashFromChain.
  destruct (ToSigningPolicyHash _ _ _) as [h|err] eqn:Hp; [done|].
  destruct (MapFetchErrorToState_class "ToSigningPolicyHash" err) as (c & Hc & Hi & _).
  destruct (MapFetchErrorToState "ToSigningPolicyHash" err) as [st0 e1] eqn:Hm. cbn [fst snd] in Hc, Hi. subst e1.
  intros [= <- <-] Hrej%rejected_wrap%rejected_wrap. exists err. split; [done|].
  apply (MapFetchErrorToState_invalid "ToSigningPolicyHash"). rewrite Hm. apply Hi.
  destruct c; [| |done| |]; exfalso; by vm_compute in Hrej.
Qed.

Lemma CheckSigningPolicies_rejected v ctx env interrupted req a t signer e :
  (CheckSigningPolicies v ctx interrupted (tr_TeeInfo t)).1 = Err e -> rejected e -> result_refused v ctx env req a t signer.
Proof.
  unfold CheckSigningPolicies. intros He Hrej.
  destruct (FetchSigningPolicyHashFromChainWithRetry v ctx interrupted (ti_InitialSigningPolicyID (tr_TeeInfo t)) _)
    as [[hi|e1] st1] eqn:E1; cbn [fst] in He.
  2: { injection He as <-. destruct (FetchSigningPolicy_rejected _ _ _ _ _ _ _ E1 Hrej) as (err & Hp & Hm & Hs).
       eapply invalid_policy; [apply list_elem_of_here|exact Hp|exact Hm|exact Hs]. }
  destruct (FetchSigningPolicyHashFromChainWithRetry v ctx interrupted (ti_LastSigningPolicyID (tr_TeeInfo t)) _)
    as [[hl|e2] st2] eqn:E2; cbn [fst] in He.
  2: { injection He as <-. destruct (FetchSigningPolicy_rejected _ _ _ _ _ _ _ E2 Hrej) as (err & Hp & Hm & Hs).
       eapply invalid_policy; [apply list_elem_of_further, list_elem_of_here|exact Hp|exact Hm|exact Hs]. }
  assert (forall id h st, FetchSigningPolicyHashFromChainWithRetry v ctx interrupted id chainMaxAttempts = (Ok h, st) ->
    ToSigningPolicyHash (tv_Relay v) (relay_timeout ctx chainFetchTimeout) id = Ok h) as Hok.
  { intros id h st. rewrite FetchSigningPolicy_single. rewrite <- FetchSigningPolicy_Ok.
    destruct (FetchSigningPolicyHashFromChain v ctx id) as [[h'|] ?]; [|done]. by intros [= -> _]. }
  destruct (Z.eqb_spec hi (ti_InitialSigningPolicyHash (tr_TeeInfo t))); cbn [negb] in He.
  2: { eapply other_policy; [apply list_elem_of_here|by eapply Hok|done]. }
  destruct (Z.eqb_spec hl (ti_LastSigningPolicyHash (tr_TeeInfo t))); cbn [negb] in He; [done|].
  eapply other_policy; [apply list_elem_of_further, list_elem_of_here|by eapply Hok|done].
Qed.

(** The TEE verifier rejects only then. *)
Lemma tee_rejected v ctx env interrupted req s e s' :
  token_env_ok env -> cache_ok s -> Tee.Verify v ctx env interrupted req s = (Err e, s') -> rejected e -> tee_refused v ctx env req.
Proof.
  intros Henv Hcache Hv Hrej. unfold Tee.Verify in Hv.
  apply se_bind_Err in Hv as [[Hf _]%lift_eq|([[a t] signer] & ? & [Hf%map_err_Ok ->]%lift_eq & Hv)].
  { apply map_err_Err in Hf as (e' & Hf & ->). apply rejected_wrap in Hrej.
    destruct (FetchTEEChallengeResult_rejected _ _ _ _ _ Hf Hrej) as [?|(a & ? & ?)];
      [by apply oversized|by eapply malformed_result]. }
  apply (refused_result v ctx env req a t signer Hf). cbn beta iota zeta in Hv.
  destruct (Z.eqb_spec (ti_Challenge (tr_TeeInfo t)) (tq_Challenge req)); cbn [negb] in Hv; [|by apply other_challenge].
  destruct (Z.eqb_spec (ti_ChainID (tr_TeeInfo t)) (tac_ChainID (tv_Cfg v))) as [Hchain|]; cbn [negb] in Hv; [|by apply other_chain].
  destruct (Z.eqb_spec signer (tq_TeeProxyId req)); cbn [negb] in Hv; [|by apply other_proxy].
  rewrite Hchain in Hv. apply se_bind_Err in Hv as [[Ha _]%lift_eq|([] & ? & [_ ->]%lift_eq & Hv)].
  { apply other_action. intros Hok%verifyActionResult_Ok. by rewrite Hok in Ha. }
  apply se_bind_Err in Hv as [(err & Hd & ->)%se_map_err_Err|(info & ? & _ & Hv)].
  { pose proof (DataVerification_raises v env t (tq_TeeId req) s err s' Hd) as Hr.
    unfold rejected in Hrej. rewrite classifyVerifyStatus_cases, (data_verification_status err Hr) in Hrej.
    destruct (transient err) eqn:Ht; [done|].
    destruct (DataVerification_refuted v env t (tq_TeeId req) s err s' Henv Hcache Hd Ht). by apply attestation_refuted. }
  apply se_bind_Err in Hv as [[Hp _]%lift_eq|(? & ? & _ & [? _]%lift_eq)]; [|done].
  by eapply CheckSigningPolicies_rejected.
Qed.
End Availability.

(** ** Properties *)

(** C8. No outage turns into a final verdict: a rejection rests on the request itself or on what the other systems did
    answer.  The payment verifier rejects exactly when the indexer answered and has no event for the instruction or no
    transaction at the checked sequence; the multisig verifier exactly on a request no signer list can satisfy and when
    the pinned node answered with an error that is none of its seven passing ones.  The fee verifier rejects only a
    range it does not take, a missing pay event or transaction of the batch, or more reissues than the cap, among rows
    the indexer did return.  The TEE verifier rejects only what the proxy answered: a body too large or no result; a
    result that the request or the signatures contradict; an attestation that was examined and does not stand; or a
    signing policy for which the Relay returned another hash or its node answered that the id is invalid, and not a time
    out, a lost connection or another error.  A revocation list that cannot be got makes a rejection only for a
    certificate of a trusted chain none of whose distribution points is out of order and none gives a usable list (short
    of two certificates with one hash). *)
Theorem rejections_justified `{ConfigLib} `{!EthErrors} `{!AddressCodec} `{!AddressErrors} `{!JsonLib} `{!JsonErrors}
    `{!CommonFieldsLib} `{!CommonFieldsErrors} `{!KeyLib} `{!X509Lib Certificate} `{!X509Errors Certificate} `{!TeeLib} `{!TeeErrors}
    {Ctx B : Type} `{!IndexerDB Ctx} `{!IndexerErrors Ctx} `{!SequenceVerifier Ctx B} `{!CallLib Ctx} `{!CallLaws Ctx}
    `{!NetLib Ctx} `{!NetErrors Ctx} `{!HttpLib Ctx} `{!HttpErrors Ctx} `{!BackgroundCtx Ctx} `{!RelayLib Ctx}
    (chain : Hash -> string -> Z) (inv : B -> Prop) (served : Ctx -> Hash -> string -> Prop)
    `{!SequenceSpec Ctx B chain inv served} (ctx : Ctx) :
  (forall x req b b', (exists e, PaymentStatus.Verify x ctx req b = (Err e, b') /\ (classifyVerifyStatus e).1 = StatusRejected) <->
     payment_refused x ctx req b b') /\
  (forall x t recheck req last last',
     (exists e, Multisig.Verify x ctx t recheck req last = (Err e, last') /\ (classifyVerifyStatus e).1 = StatusRejected) <->
     multisig_refused x ctx t recheck req last last') /\
  (forall x req b e b', 0 <= eab_SourceIDEncoded (fpc_common (FeeProof.Config x)) < 2 ^ 256 ->
     is_u64 (fp_FirstPaymentId req) -> is_u64 (fp_BatchCount req) -> inv b ->
     FeeProof.Verify x ctx req b = (Err e, b') -> (classifyVerifyStatus e).1 = StatusRejected -> fee_refused x ctx req chain) /\
  (forall v env interrupted req s e s', token_env_ok env -> cache_ok s -> Tee.Verify v ctx env interrupted req s = (Err e, s') ->
     (classifyVerifyStatus e).1 = StatusRejected -> tee_refused v ctx env req).
Proof.
  split_and!; intros.
  - apply (payment_rejected chain inv served).
  - apply multisig_rejected.
  - by eapply (fee_rejected x ctx req chain inv served).
  - by eapply tee_rejected.
Qed.
