(* ===== verification/Endpoints.v ===== *)
(** * The three endpoints of a service together

    What the handlers of [handler.go] answer, for any verifier that keeps the
    contract of Services.v: the two verification endpoints agree, the envelope
    keeps its contract, and a prepared request body decodes to the request. *)

From stdpp Require Import base list strings.
From Stdlib Require Import ZArith Lia.
From S2P Require Import Prelude Errors GoStrings Eth Config Handler Services.

#[local] Open Scope Z_scope.

(** The contract of the envelope with its consumer. *)
Record envelope_ok (r : VerifierResponse) : Prop := {
  eo_status : vr_Status r ∈ [StatusVerified; StatusRetry; StatusRejected];
  eo_body : vr_ResponseBody r <> ""%string <-> vr_Status r = StatusVerified;
  eo_message : vr_Message r <> ""%string <-> vr_Status r <> StatusVerified
}.

Section Endpoints.
Context `{ConfigLib} {Ctx St Req Res ReqJSON ResJSON : Type}.
Context `{!DeadlineCtx Ctx} `{!Verifier Ctx St Req Res} `{!AbiStructs Req Res}.
Context `{!RequestConvertible ReqJSON Req} `{!ResponseConvertible ResJSON Res}.

(** ** Specification *)

(** The envelope a verifier's answer becomes. *)
Definition envelope (c : EncodedAndABI) (answer : res error Res) : VerifierResponse :=
  match answer with
  | Err err => {| vr_Status := (classifyVerifyStatus err).1; vr_ResponseBody := ""; vr_Message := (classifyVerifyStatus err).2 |}
  | Ok r =>
      match encode_response_abi (eab_Response c) r with
      | Err _ => retryResponse "response encoding failed"
      | Ok body => {| vr_Status := StatusVerified; vr_ResponseBody := body; vr_Message := "" |}
      end
  end.

(** The request names the type and the source the service is configured for. *)
Definition addressed (c : EncodedAndABI) (attestationType sourceID : Hash) : Prop :=
  Hash_Hex attestationType = Hash_Hex (eab_AttestationTypeEncoded c) /\ Hash_Hex sourceID = Hash_Hex (eab_SourceIDEncoded c).

(** ** Lemmas *)
Lemma validate_Ok c a s : validateSystemAndRequestAttestationNameAndSourceID c (Hash_Hex a) (Hash_Hex s) = Ok tt <-> addressed c a s.
Proof.
  unfold validateSystemAndRequestAttestationNameAndSourceID, addressed.
  destruct (String.eqb_spec (Hash_Hex a) (Hash_Hex (eab_AttestationTypeEncoded c))),
    (String.eqb_spec (Hash_Hex s) (Hash_Hex (eab_SourceIDEncoded c))); cbn; naive_solver.
Qed.

Lemma validate_Err c a s err :
  validateSystemAndRequestAttestationNameAndSourceID c (Hash_Hex a) (Hash_Hex s) = Err err -> ~ addressed c a s.
Proof. intros He Ha%validate_Ok. congruence. Qed.

(** The verify endpoint: who is asked, with what, and what is answered. *)
Lemma handle_verify_run `{!ConvertingVerifier Ctx St Req Res ResJSON} c ctx request (s : St) data :
  addressed c (aq_AttestationType request) (aq_SourceID request) ->
  decode_request_abi (eab_Request c) (aq_RequestBody request) = Ok data ->
  handle_verify (ResJSON := ResJSON) c ctx request s =
  let '(answer, s') := VerifierVerify (deadline ctx verifierWorkTimeout) data s in (Ok (envelope c answer), s').
Proof.
  intros Ha%validate_Ok Hd. unfold handle_verify, decodeRequest. rewrite Ha, Hd. cbn [map_err].
  unfold verifyWithDeadline, encodeResponse.
  destruct (VerifierVerify (deadline ctx verifierWorkTimeout) data s) as [[r|e] s'] eqn:Hv; cbn [envelope].
  - destruct (encode_response_abi (eab_Response c) r) as [body|]; cbn [map_err]; [|done].
    destruct (verifier_converts _ _ _ _ _ Hv) as [j Hj]. unfold recovered. by rewrite Hj.
  - by destruct (classifyVerifyStatus e).
Qed.

(** Its two refusals before the verifier is asked. *)
Lemma handle_verify_refused c ctx request (s : St) :
  ~ addressed c (aq_AttestationType request) (aq_SourceID request) \/
  is_ok (decode_request_abi (eab_Request c) (aq_RequestBody request)) = false ->
  exists message, handle_verify (ResJSON := ResJSON) c ctx request s = (Ok (rejectedResponse message), s) /\ message <> ""%string.
Proof.
  unfold handle_verify, decodeRequest. intros Hr.
  destruct (validateSystemAndRequestAttestationNameAndSourceID _ _ _) as [[]|] eqn:Hv; [|by eexists].
  apply validate_Ok in Hv. destruct Hr as [|Hr]; [done|].
  destruct (decode_request_abi _ _); [done|]. by eexists.
Qed.

(** A VERIFIED envelope is the verifier's answer to the decoded request. *)
Lemma handle_verify_verified c ctx request (s : St) env s' :
  handle_verify (ResJSON := ResJSON) c ctx request s = (Ok env, s') -> vr_Status env = StatusVerified ->
  addressed c (aq_AttestationType request) (aq_SourceID request) /\
  exists data r, decode_request_abi (Res := Res) (eab_Request c) (aq_RequestBody request) = Ok data /\
    VerifierVerify (deadline ctx verifierWorkTimeout) data s = (Ok r, s') /\
    encode_response_abi (Req := Req) (eab_Response c) r = Ok (vr_ResponseBody env).
Proof.
  unfold handle_verify, decodeRequest, encodeResponse, verifyWithDeadline, rejectedResponse, retryResponse.
  destruct (validateSystemAndRequestAttestationNameAndSourceID _ _ _) as [[]|] eqn:Hv; [|by intros [= <- <-]].
  apply validate_Ok in Hv. destruct (decode_request_abi _ _) as [data|] eqn:Hd; cbn [map_err]; [|by intros [= <- <-]].
  destruct (VerifierVerify _ data s) as [[r|e] s1] eqn:Hver.
  - destruct (encode_response_abi _ r) as [body|] eqn:He; cbn [map_err]; [|by intros [= <- <-]].
    unfold recovered. destruct (FromInternal r); [|by intros [? _]%lift_eq]. intros [[= <-] ->]%lift_eq _. eauto 10.
  - pose proof (classifyVerifyStatus_cases e) as Hc. destruct (classifyVerifyStatus e) as [st m]. intros [= <- <-]. cbn in *.
    intros ->. by destruct (rejected_spec e).
Qed.

(** The two verification endpoints change the state only by asking the verifier. *)
Lemma verify_state c ctx request (P : St -> Prop) :
  (forall data, decode_request_abi (Res := Res) (eab_Request c) (aq_RequestBody request) = Ok data ->
     keeps P (VerifierVerify (deadline ctx verifierWorkTimeout) data)) ->
  keeps P (handle_verify (ResJSON := ResJSON) c ctx request) /\ keeps P (handle_prepareResponseBody (ResJSON := ResJSON) c ctx request).
Proof.
  intros Hk. split.
  - intros s Hs. unfold handle_verify, decodeRequest, verifyWithDeadline.
    destruct (validateSystemAndRequestAttestationNameAndSourceID _ _ _); [|done].
    destruct (decode_request_abi _ _) as [data|] eqn:Hd; [|done]. cbn [map_err]. specialize (Hk data eq_refl s Hs).
    destruct (VerifierVerify _ data s) as [[r|e] s1]; [|by destruct (classifyVerifyStatus e)].
    destruct (encodeResponse r c); [|done]. unfold recovered. by destruct (FromInternal r).
  - unfold handle_prepareResponseBody, decodeRequest, verifyWithDeadline, recovered.
    apply keeps_bind_lift. intros _ _. apply keeps_bind_lift. intros data Hd%map_err_Ok%map_err_Ok.
    specialize (Hk data Hd). solve_keeps.
Qed.

Lemma envelope_of_answer `{!AbiLaws Req Res} c answer : envelope_ok (envelope c answer).
Proof.
  assert (forall m, m <> ""%string -> forall st, st = StatusRetry \/ st = StatusRejected ->
    envelope_ok {| vr_Status := st; vr_ResponseBody := ""; vr_Message := m |}) as Hneg.
  { intros m Hm st [-> | ->]; (constructor; cbn; [repeat (apply list_elem_of_here || apply list_elem_of_further)|split; done|split; done]). }
  destruct answer as [r|e]; cbn [envelope].
  - destruct (encode_response_abi _ r) as [b|] eqn:He; [|apply Hneg; [done|by left]].
    apply encode_response_nonempty in He. constructor; cbn; [apply list_elem_of_here|split; done|split; done].
  - apply Hneg; [apply classifyVerifyStatus_message|]. rewrite classifyVerifyStatus_cases. destruct (rejected_spec e); auto.
Qed.

(** Every answer is an envelope: the endpoint never panics. *)
Lemma handle_verify_envelope `{!AbiLaws Req Res} `{!ConvertingVerifier Ctx St Req Res ResJSON} c ctx request (s : St) :
  exists env, (handle_verify (ResJSON := ResJSON) c ctx request s).1 = Ok env /\ envelope_ok env.
Proof.
  destruct (validateSystemAndRequestAttestationNameAndSourceID c (Hash_Hex (aq_AttestationType request))
    (Hash_Hex (aq_SourceID request))) as [[]|] eqn:Hv; [apply validate_Ok in Hv|apply validate_Err in Hv].
  - destruct (decode_request_abi (eab_Request c) (aq_RequestBody request)) as [data|] eqn:Hd.
    + rewrite (handle_verify_run c ctx request s data Hv Hd). destruct (VerifierVerify _ data s) as [answer s'].
      eexists. split; [done|apply envelope_of_answer].
    + destruct (handle_verify_refused c ctx request s) as (m & -> & Hm); [right; by rewrite Hd|].
      eexists. split; [done|]. constructor; cbn; [repeat (apply list_elem_of_here || apply list_elem_of_further)|split; done|split; done].
  - destruct (handle_verify_refused c ctx request s) as (m & -> & Hm); [by left|].
    eexists. split; [done|]. constructor; cbn; [repeat (apply list_elem_of_here || apply list_elem_of_further)|split; done|split; done].
Qed.

Lemma endpoints_agree `{!CoherentVerifier Ctx St Req Res} `{!ConvertingVerifier Ctx St Req Res ResJSON} c ctx request (s : St) :
  let v := handle_verify (ResJSON := ResJSON) c ctx request s in
  let p := handle_prepareResponseBody (ResJSON := ResJSON) c ctx request s in
  v.2 = p.2 /\
  exists env, v.1 = Ok env /\
  match p.1 with
  | Ok (_, body) => vr_Status env = StatusVerified /\ vr_ResponseBody env = body
  | Err code => vr_ResponseBody env = ""%string /\
      (vr_Status env = StatusRejected /\ (code = 400 \/ code = 422) \/
       vr_Status env = StatusRetry /\ (code = 503 \/ code = 500))
  end.
Proof.
  assert (forall e code, vr_ResponseBody e = ""%string /\ vr_Status e = StatusRejected /\ code = 400 \/
    vr_ResponseBody e = ""%string /\ vr_Status e = StatusRetry /\ code = 500 ->
    exists env, @Ok Z VerifierResponse e = Ok env /\ vr_ResponseBody env = ""%string /\
      (vr_Status env = StatusRejected /\ (code = 400 \/ code = 422) \/ vr_Status env = StatusRetry /\ (code = 503 \/ code = 500))) as Hneg
    by (intros e code He; exists e; naive_solver).
  unfold handle_verify, handle_prepareResponseBody, lift, mbind, se_bind.
  destruct (validateSystemAndRequestAttestationNameAndSourceID _ _ _); cbn [map_err fst snd]; [|split; [done|]; apply Hneg; auto].
  destruct (decodeRequest _ c) as [r|]; cbn [map_err fst snd]; [|split; [done|]; apply Hneg; auto]. unfold se_map_err.
  destruct (verifyWithDeadline ctx r verifierWorkTimeout s) as [[res|e] s1] eqn:Hv; cbn [map_err]; unfold verifyWithDeadline in Hv.
  - destruct (encodeResponse res c) as [b|]; cbn [map_err fst snd]; [|split; [done|]; apply Hneg; auto].
    destruct (verifier_converts _ _ _ _ _ Hv) as [j Hj]. unfold recovered, lift. rewrite Hj. split; [done|]. by eexists.
  - apply (verifier_coherent (Ctx := Ctx)), classifiers_agree in Hv as [Hrej Hret].
    pose proof (classifyVerifyStatus_cases e) as Hcase.
    destruct (classifyVerifyStatus e) as [st m]. cbn [fst snd vr_Status vr_ResponseBody] in *. split; [done|].
    eexists. split; [done|]. cbn. split; [done|].
    destruct (rejected_spec e); subst st; [left|right]; split; auto; [by apply Hrej|by apply Hret].
Qed.

(** What prepareRequestBody accepts, and what it returns. *)
Lemma handle_prepareRequestBody_Ok c request b :
  handle_prepareRequestBody (Req := Req) (Res := Res) c request = Ok b <->
  addressed c (ad_AttestationType request) (ad_SourceID request) /\
  exists data, ToInternal (ad_RequestData request) = Ok data /\ encode_request_abi (Res := Res) (eab_Request c) data = Ok b.
Proof.
  unfold handle_prepareRequestBody, prepareRequestBody, encodeRequest. rewrite res_bind_Ok, <- validate_Ok. split.
  - intros ([] & Hv%map_err_Ok & (data & Ht%map_err_Ok & He%map_err_Ok)%map_err_Ok%res_bind_Ok). eauto.
  - intros (Hv & data & Ht & He). exists tt. rewrite Hv. split; [done|]. rewrite Ht. cbn [map_err mbind res_bind].
    by rewrite He.
Qed.

(** What was prepared is addressed to the service, passes the schema of the
    verify endpoint and decodes to the converted request. *)
Lemma prepared_request_decodes `{!AbiLaws Req Res} c (request : AttestationRequestData ReqJSON) b :
  handle_prepareRequestBody (Req := Req) (Res := Res) c request = Ok b ->
  let sent := {| aq_AttestationType := ad_AttestationType request; aq_SourceID := ad_SourceID request; aq_RequestBody := b |} in
  AttestationRequest_Resolve sent = [] /\ addressed c (aq_AttestationType sent) (aq_SourceID sent) /\
  exists data, ToInternal (ad_RequestData request) = Ok data /\
    decode_request_abi (Res := Res) (eab_Request c) (aq_RequestBody sent) = Ok data.
Proof.
  intros (Ha & data & Ht & He)%handle_prepareRequestBody_Ok. cbn zeta. split; [|split; [done|]].
  - apply encode_request_nonempty in He. unfold AttestationRequest_Resolve. cbn [aq_RequestBody]. by destruct b.
  - exists data. split; [done|]. by apply decode_encode_request.
Qed.
End Endpoints.

(** ** Properties *)
Section EndpointProperties.
Context `{ConfigLib} {Ctx St Req Res ReqJSON ResJSON : Type}.
Context `{!DeadlineCtx Ctx} `{!Verifier Ctx St Req Res} `{!AbiStructs Req Res}.
Context `{!RequestConvertible ReqJSON Req} `{!ResponseConvertible ResJSON Res}.

(** C9. The two verification endpoints of a service tell one story: on the same request and state they leave the same
    state and the verify endpoint answers with an envelope that keeps its contract (one of the three statuses, a body
    exactly when it is VERIFIED and a message exactly when it is not); a body is served exactly when the envelope is
    VERIFIED with that body, a 400 or 422 exactly when it is REJECTED and a 503 or 500 exactly when it is RETRY. *)
Theorem endpoints_tell_one_story `{!AbiLaws Req Res} `{!CoherentVerifier Ctx St Req Res}
    `{!ConvertingVerifier Ctx St Req Res ResJSON} c ctx request (s : St) :
  let v := handle_verify (ResJSON := ResJSON) c ctx request s in
  let p := handle_prepareResponseBody (ResJSON := ResJSON) c ctx request s in
  v.2 = p.2 /\
  exists env, v.1 = Ok env /\ envelope_ok env /\
  match p.1 with
  | Ok (_, body) => vr_Status env = StatusVerified /\ vr_ResponseBody env = body
  | Err code => vr_ResponseBody env = ""%string /\
      (vr_Status env = StatusRejected /\ (code = 400 \/ code = 422) \/
       vr_Status env = StatusRetry /\ (code = 503 \/ code = 500))
  end.
Proof.
  destruct (endpoints_agree (ResJSON := ResJSON) c ctx request s) as (Hs & env & He & Hm). cbn zeta. split; [done|].
  destruct (handle_verify_envelope (ResJSON := ResJSON) c ctx request s) as (env' & He' & Hok).
  exists env. split; [done|]. split; [|done]. congruence.
Qed.
End EndpointProperties.
