(* ===== verification/Server.v ===== *)
(** * internal/api: the process's environment, authentication and documentation

    [server.go] and [docs/docs.go], with the page script
    [docs/swagger-ui/init-swagger.js].  The environment is a function from
    names to values. *)

From stdpp Require Import base list strings.
From Stdlib Require Import ZArith Lia Ascii.
From S2P Require Import Prelude Errors GoStrings Eth Config.

#[local] Open Scope Z_scope.

Definition shutdownAfter : Z := 10 * 1_000_000_000.
Definition readHeaderTimeout : Z := 5 * 1_000_000_000.
Definition readTimeout : Z := 10 * 1_000_000_000.
Definition writeTimeout : Z := 30 * 1_000_000_000.
Definition idleTimeout : Z := 60 * 1_000_000_000.
Definition maxRequestBodySize : Z := Z.shiftl 1 20.
Definition minAPIKeyLength : Z := 16.

Definition EnvAPIKeys : string := "API_KEYS".
Definition EnvPort : string := "PORT".
Definition EnvSourceID : string := "SOURCE_ID".

(** ** Environment *)
Definition SourceIDs : list SourceName := [SourceTEE; SourceXRP; SourceTestXRP].

Fixpoint parse_source (ids : list SourceName) (value : string) : res error SourceName :=
  match ids with
  | [] => Err (Errorf "invalid source id: %s" [])
  | at_ :: rest => if String.eqb at_ value then Ok at_ else parse_source rest value
  end.
Definition parseSourceID (value : string) : res error SourceName := parse_source SourceIDs value.

(** The loop of [getAPIKeys] over the comma-separated entries. *)
Fixpoint collect_keys (entries : list string) (apiKeys : list string) : res error (list string) :=
  match entries with
  | [] => Ok apiKeys
  | key :: rest =>
      let trimmed := TrimSpace key in
      if String.eqb trimmed "" then collect_keys rest apiKeys
      else if len trimmed <? minAPIKeyLength then
        Err (Errorf "%s entries must be at least %d characters; got one of length %d" [])
      else collect_keys rest (apiKeys ++ [trimmed])
  end.

Definition getAPIKeys (Getenv : string -> string) : res error (list string) :=
  let raw := Getenv EnvAPIKeys in
  if String.eqb (TrimSpace raw) "" then Err (Errorf "%s must be set" [])
  else
  apiKeys ← collect_keys (Split raw ",") [];
  if (length apiKeys =? 0)%nat then Err (Errorf "%s contains only empty values" [])
  else Ok apiKeys.

Definition resolveAttestationTypes (source : SourceName) : res error (list AttestationType) :=
  let '(allowed, ok) := AttestationTypesForSource source in
  if negb ok || (length allowed =? 0)%nat then Err (Errorf "no attestation types defined for source %s" [])
  else Ok allowed.

Definition getEnvOrError (Getenv : string -> string) (key : string) : res error string :=
  let val := TrimSpace (Getenv key) in
  if String.eqb val "" then Err (Errorf "%s must be set" []) else Ok val.

(** [LoadEnvConfig]; [godotenv_Load] is the environment after a [.env] file was loaded. *)
Definition LoadEnvConfig (Getenv : string -> string) (godotenv_Load : (string -> string) -> string -> string)
    : res error EnvConfig :=
  let Getenv := if String.eqb (Getenv "LOAD_DOTENV") "true" then godotenv_Load Getenv else Getenv in
  port ← getEnvOrError Getenv EnvPort;
  sourceIDStr ← getEnvOrError Getenv EnvSourceID;
  sourceID ← parseSourceID sourceIDStr;
  attestationTypes ← resolveAttestationTypes sourceID;
  apiKeys ← getAPIKeys Getenv;
  Ok {| env_SourceRPCURL := Getenv EnvSourceRPCURL;
        env_FlareRPCURL := Getenv EnvFlareRPCURL;
        env_RelayContractAddress := Getenv EnvRelayContractAddress;
        env_RelayCutoverContractAddress := Getenv "RELAY_CUTOVER_CONTRACT_ADDRESS";
        env_RelayCutoverStartingRewardEpoch := Getenv "RELAY_CUTOVER_STARTING_REWARD_EPOCH";
        env_FlareTeeManagerContractAddress := Getenv EnvFlareTeeManagerContractAddress;
        env_TeePaymentsContractAddress := Getenv EnvTeePaymentsContractAddress;
        env_SourceDatabaseURL := Getenv EnvSourceDatabaseURL;
        env_CChainDatabaseURL := Getenv EnvCChainDatabaseURL;
        env_AllowTeeDebug := Getenv "ALLOW_TEE_DEBUG";
        env_DisableAttestationCheckE2E := Getenv "DISABLE_ATTESTATION_CHECK_E2E";
        env_AllowPrivateNetworks := Getenv "ALLOW_PRIVATE_NETWORKS";
        env_TeeAudience := Getenv "TEE_AUDIENCE";
        env_ChainID := Getenv "CHAIN_ID";
        env_DestinationChainURLSlug := Getenv "DESTINATION_CHAIN_URL_SLUG";
        env_SourceURLSlug := Getenv "SOURCE_URL_SLUG";
        env_Port := port;
        env_APIKeys := apiKeys;
        env_AttestationType := OtherType "";
        env_AttestationTypes := attestationTypes;
        env_SourceID := sourceID |}.

(** ** Authentication *)
Inductive auth_outcome := Next | Unauthorized.

(** [APIKeyAuthMiddleware]; [apiKey] is the X-API-KEY header, empty when absent. *)
Definition APIKeyAuthMiddleware (apiKeys : list string) (healthPath : string) (path apiKey : string) : auth_outcome :=
  if String.eqb path healthPath then Next
  else if existsb (fun key => String.eqb apiKey key) apiKeys then Next
  else Unauthorized.

(** What [newAPI] configures: where huma serves the OpenAPI document (it adds
    the extension) and the schemas, and the path exempt from authentication. *)
Record api_config := { api_OpenAPIPath : string; api_SchemasPath : string; api_healthPath : string; api_keys : list string }.

Definition newAPI (envConfig : EnvConfig) (deploymentPrefix : string) : api_config :=
  {| api_OpenAPIPath := deploymentPrefix +:+ "/openapi"; api_SchemasPath := deploymentPrefix +:+ "/schemas";
     api_healthPath := deploymentPrefix +:+ "/api/health"; api_keys := env_APIKeys envConfig |}.

(** The metadata [newAPI] gives the API. *)
Definition joinAttestationTypes `{ConfigLib} (types : list AttestationType) : string := strings_Join (att_string <$> types) ", ".
Definition api_description `{ConfigLib} (envConfig : EnvConfig) : string :=
  "The Flare Data Connector 2 Verifier API endpoints for [" +:+ joinAttestationTypes (ServedAttestationTypes envConfig) +:+
  "] attestation(s) sourced from " +:+ env_SourceID envConfig +:+ ", destination chain " +:+ env_DestinationChainURLSlug envConfig +:+ ".".

(** The [http.Server] of [StartServer]; [srv_Prefix] is the prefix its router serves. *)
Record http_Server := {
  srv_Addr : string; srv_Prefix : string;
  srv_ReadHeaderTimeout : Z; srv_ReadTimeout : Z; srv_WriteTimeout : Z; srv_IdleTimeout : Z
}.

(** ** Documentation *)

(** What the two documentation routes answer. *)
Inductive doc_response :=
| Redirect (location : string)                 (* 301 *)
| IndexPage
| EmbeddedFile (name : string)
| DocNotFound.

(** The files below [swagger-ui] that [docs.go] embeds. *)
Definition swaggerFiles : list string :=
  ["favicon.ico"; "index.html"; "init-swagger.js"; "swagger-ui-bundle.js"; "swagger-ui.css"]%string.

(** The segments of a path without its dot segments. *)
Fixpoint remove_dots (segments acc : list string) : list string :=
  match segments with
  | [] => rev acc
  | seg :: rest =>
      if String.eqb seg "." then remove_dots rest acc
      else if String.eqb seg ".." then remove_dots rest (tail acc)
      else remove_dots rest (seg :: acc)
  end.

(** [http.FileServer] over them: an index page and a name with a wrong slash are
    redirected, a name that is not embedded is not found. *)
Definition FileServer (name : string) : doc_response :=
  let url := ("/" +:+ name)%string in
  let segments := filter (fun seg => seg <> EmptyString) (Split url "/") in
  if HasSuffix url "/index.html" then Redirect "./"
  else match remove_dots segments [] with
  | [] => if HasSuffix url "/" then EmbeddedFile "index.html"
          else Redirect (List.last segments EmptyString +:+ "/")
  | [file] =>
      if bool_decide (file ∈ swaggerFiles) then
        if HasSuffix url "/" then Redirect ("../" +:+ file) else EmbeddedFile file
      else DocNotFound
  | _ => DocNotFound
  end.

(** [SwaggerHandler]: the index page, or [http.FileServer] behind [http.StripPrefix]. *)
Definition SwaggerHandler (basePath path : string) : doc_response :=
  if String.eqb path basePath || String.eqb path (basePath +:+ "index.html") then IndexPage
  else if HasPrefix path basePath then FileServer (TrimPrefix path basePath)
  else DocNotFound.

(** The documentation routes of [newRouter]; none: the path is not theirs.  chi
    routes by [routePath], the handler reads the decoded [path]. *)
Definition newRouter (deploymentPrefix routePath path : string) : option doc_response :=
  let docsPath := (deploymentPrefix +:+ "/api-doc")%string in
  if String.eqb routePath docsPath then Some (Redirect (docsPath +:+ "/"))
  else if HasPrefix routePath (docsPath +:+ "/") then Some (SwaggerHandler (docsPath +:+ "/") path)
  else None.

(** [init-swagger.js]: the options it passes to [SwaggerUIBundle] when the page has loaded. *)
Record SwaggerUIBundle := { ui_url : string; ui_dom_id : string }.
Definition window_onload : SwaggerUIBundle := {| ui_url := "../openapi.json"; ui_dom_id := "#swagger-ui" |}.

(** How a browser resolves a relative reference against the path of the page:
    the segments after the last slash are replaced, then dot segments removed. *)
Definition join_path (segments : list string) : string :=
  foldr (fun seg acc => ("/" +:+ seg +:+ acc)%string) ""%string segments.
Definition resolve_reference (page ref : string) : string :=
  let base := removelast (tail (Split page "/")) in
  join_path (remove_dots (base ++ Split ref "/") []).

(** ** Lemmas *)

(** The keys of an entry list: trimmed, the blanks dropped. *)
Definition key_entries (raw : string) : list string :=
  filter (fun k => k <> EmptyString) (TrimSpace <$> Split raw ",").

Lemma collect_keys_Ok entries acc keys :
  collect_keys entries acc = Ok keys <->
  let ks := filter (fun k => k <> EmptyString) (TrimSpace <$> entries) in
  keys = acc ++ ks /\ Forall (fun k => minAPIKeyLength <= len k) ks.
Proof.
  revert acc. induction entries as [|e entries IH]; intros acc; cbn zeta in *; cbn [collect_keys].
  - cbn. rewrite app_nil_r. split; [intros [= <-]; done|by intros [-> _]].
  - rewrite fmap_cons, filter_cons. destruct (String.eqb_spec (TrimSpace e) "") as [He|He].
    + rewrite decide_False by (intros ?; done). apply IH.
    + rewrite decide_True by done. destruct (Z.ltb_spec (len (TrimSpace e)) minAPIKeyLength).
      * split; [done|]. intros [_ Hf]. apply Forall_cons in Hf as [? _]. lia.
      * rewrite IH, Forall_cons, <- app_assoc. cbn. naive_solver lia.
Qed.

(** A key list is accepted exactly when it has an entry and no entry is short. *)
Lemma getAPIKeys_Ok Getenv keys :
  getAPIKeys Getenv = Ok keys <->
  TrimSpace (Getenv EnvAPIKeys) <> ""%string /\ keys = key_entries (Getenv EnvAPIKeys) /\ keys <> [] /\
  Forall (fun k => minAPIKeyLength <= len k) keys.
Proof.
  unfold getAPIKeys. destruct (String.eqb_spec (TrimSpace (Getenv EnvAPIKeys)) "") as [He|He]; [by naive_solver|].
  rewrite res_bind_Ok. setoid_rewrite collect_keys_Ok. cbn zeta. split.
  - intros (a & [-> Hf] & Ha). cbn [app] in *. destruct (length _ =? 0)%nat eqn:Hl; [done|]. injection Ha as <-.
    split_and!; [done..| |done]. intros Hn. unfold key_entries in Hn. by rewrite Hn in Hl.
  - intros (_ & -> & Hne & Hf). eexists. split; [split; [reflexivity|exact Hf]|]. cbn [app].
    change (filter (fun k => k <> EmptyString) (TrimSpace <$> Split (Getenv EnvAPIKeys) ","))
      with (key_entries (Getenv EnvAPIKeys)). by destruct (key_entries _).
Qed.

(** The configuration a process boots with: its keys are the accepted ones and
    it serves exactly its source's types. *)
Lemma LoadEnvConfig_Ok Getenv dotenv cfg :
  LoadEnvConfig Getenv dotenv = Ok cfg ->
  env_APIKeys cfg <> [] /\ Forall (fun k => minAPIKeyLength <= len k) (env_APIKeys cfg) /\
  env_SourceID cfg ∈ SourceIDs /\
  SourceAttestationTypes (env_SourceID cfg) = Some (ServedAttestationTypes cfg) /\ ServedAttestationTypes cfg <> [].
Proof.
  unfold LoadEnvConfig. generalize (if String.eqb (Getenv "LOAD_DOTENV") "true" then dotenv Getenv else Getenv) as env.
  intros env Hl. rewrite !res_bind_Ok in Hl. destruct Hl as (port & _ & Hl). rewrite res_bind_Ok in Hl.
  destruct Hl as (sid & _ & Hl). rewrite res_bind_Ok in Hl. destruct Hl as (source & Hs & Hl).
  rewrite res_bind_Ok in Hl. destruct Hl as (types & Ht & Hl). rewrite res_bind_Ok in Hl.
  destruct Hl as (keys & Hk & [= <-]). apply getAPIKeys_Ok in Hk as (_ & _ & Hne & Hf).
  cbn [env_APIKeys env_SourceID]. unfold ServedAttestationTypes. cbn [env_AttestationTypes].
  split; [done|]. split; [done|].
  assert (source ∈ SourceIDs) as Hin.
  { unfold parseSourceID in Hs. revert Hs. generalize SourceIDs as ids. intros ids.
    induction ids as [|x ids IH]; cbn; [done|]. destruct (String.eqb x sid); [intros [= ->]; apply list_elem_of_here|].
    intros. apply list_elem_of_further. auto. }
  split; [done|]. unfold resolveAttestationTypes, AttestationTypesForSource in Ht.
  destruct (SourceAttestationTypes source) as [ts|]; [|done]. cbn in Ht.
  destruct ts; [done|]. injection Ht as <-. done.
Qed.

(** Who passes the middleware. *)
Lemma APIKeyAuthMiddleware_Next keys health path key :
  APIKeyAuthMiddleware keys health path key = Next <-> path = health \/ key ∈ keys.
Proof.
  unfold APIKeyAuthMiddleware. destruct (String.eqb_spec path health) as [->|Hp]; [naive_solver|].
  destruct (existsb _ keys) eqn:He.
  - apply existsb_exists in He as (k & Hk & ->%String.eqb_eq). rewrite <- list_elem_of_In in Hk. naive_solver.
  - split; [done|]. intros [?|Hin]; [done|]. exfalso. rewrite list_elem_of_In in Hin.
    assert (existsb (fun k => String.eqb key k) keys = true) as Hc; [|congruence].
    apply existsb_exists. exists key. by rewrite String.eqb_refl.
Qed.

Lemma string_eqb_app_r a b c : String.eqb (a +:+ b) (a +:+ c) = String.eqb b c.
Proof.
  induction a as [|x a IH]; [done|].
  change (String.eqb (String x a +:+ b) (String x a +:+ c)) with
    (if Ascii.eqb x x then String.eqb (a +:+ b) (a +:+ c) else false).
  by rewrite Ascii.eqb_refl.
Qed.

Lemma slug_not_dots s : urlSlugPattern s = true -> String.eqb s "." = false /\ String.eqb s ".." = false.
Proof.
  intros Hs. split; destruct (String.eqb_spec s "."), (String.eqb_spec s ".."); subst; try done; vm_compute in Hs; done.
Qed.

(** The documentation page finds the OpenAPI document of its own deployment. *)
Lemma docs_page_finds_openapi env s d :
  urlSlugPattern s = true -> urlSlugPattern d = true ->
  let prefix := DeploymentPrefix s d in
  newRouter prefix (prefix +:+ "/api-doc") (prefix +:+ "/api-doc") = Some (Redirect (prefix +:+ "/api-doc/")) /\
  newRouter prefix (prefix +:+ "/api-doc/") (prefix +:+ "/api-doc/") = Some IndexPage /\
  resolve_reference (prefix +:+ "/api-doc/") (ui_url window_onload) = (api_OpenAPIPath (newAPI env prefix) +:+ ".json")%string.
Proof.
  intros Hs Hd. cbn zeta. destruct (urlSlugPattern_no_slash _ Hs) as [Hs' _], (urlSlugPattern_no_slash _ Hd) as [Hd' _].
  destruct (slug_not_dots _ Hs) as [S1 S2], (slug_not_dots _ Hd) as [D1 D2].
  unfold newRouter. rewrite !string_eqb_app_r. cbn [String.eqb Ascii.eqb Bool.eqb].
  rewrite !string_app_assoc. split; [done|]. split.
  - unfold HasPrefix. replace (String.prefix _ _) with true; [|symmetry; apply prefix_spec; by exists ""%string; rewrite string_app_nil].
    unfold SwaggerHandler. by rewrite String.eqb_refl.
  - unfold resolve_reference, DeploymentPrefix, newAPI. cbn [ui_url window_onload api_OpenAPIPath].
    replace (("/verifier/" +:+ s +:+ "/" +:+ d) +:+ "/api-doc/")%string
      with ("" +:+ String "/" ("verifier" +:+ String "/" (s +:+ String "/" (d +:+ String "/" ("api-doc" +:+ String "/" "")))))%string
      by (by rewrite !string_app_assoc).
    rewrite !Split_sep, Split_last by done. cbn. rewrite S1, S2, D1, D2. cbn. by rewrite !string_app_assoc.
Qed.

(** ** Properties *)
(** C40. The documentation page of a deployment loads its own OpenAPI document: from the bare path the browser is sent
    to the page, and there the relative URL in the page's script resolves to the path huma serves the document at. *)
Theorem swagger_page_loads_openapi env s d :
  urlSlugPattern s = true -> urlSlugPattern d = true ->
  let prefix := DeploymentPrefix s d in
  newRouter prefix (prefix +:+ "/api-doc") (prefix +:+ "/api-doc") = Some (Redirect (prefix +:+ "/api-doc/")) /\
  newRouter prefix (prefix +:+ "/api-doc/") (prefix +:+ "/api-doc/") = Some IndexPage /\
  resolve_reference (prefix +:+ "/api-doc/") (ui_url window_onload) = (api_OpenAPIPath (newAPI env prefix) +:+ ".json")%string.
Proof. apply docs_page_finds_openapi. Qed.
