(* ===== verification/Http.v ===== *)
(** * The HTTP server: from a request to a service and back

    [newSecurityHandler], [newRouter], [requestSizeLimiter], [newAPI] and
    [StartServer] of [server.go], [RegisterVerificationHandler] and
    [registerOp] of the handlers, put together: [serve] is
    what the running process does with one request.  chi's routing of static
    paths, [http.MaxBytesReader] and the order in which huma runs middlewares,
    input parsing, resolvers and handler are modelled; the parsing of a body
    into a typed input is huma's ([HumaInput]). *)

From stdpp Require Import base list strings gmap.
From Stdlib Require Import ZArith Lia Ascii.
From S2P Require Import Prelude Errors GoStrings RequestId Eth Config Handler Services Endpoints Server.

#[local] Open Scope Z_scope.

(** ** Requests and responses *)
Record request := {
  rq_Method : string;
  rq_Path : string; rq_RawPath : string;     (* [URL.Path], decoded, and [URL.RawPath], empty unless they differ *)
  rq_APIKey : string;                        (* the X-API-KEY header, empty when absent *)
  rq_Body : bytes
}.

(** chi routes by [URL.RawPath] when there is one. *)
Definition route_path (r : request) : string := if String.eqb (rq_RawPath r) "" then rq_Path r else rq_RawPath r.

(** Percent-decoding of a path, as [url.Parse] does it; none: a bad escape. *)
Fixpoint path_unescape (s : string) : option string :=
  match s with
  | EmptyString => Some EmptyString
  | String "%" (String a (String b rest)) =>
      x ← hex_digit_value a; y ← hex_digit_value b; out ← path_unescape rest;
      Some (String (ascii_of_nat (Z.to_nat (16 * x + y))) out)
  | String "%" _ => None
  | String c rest => out ← path_unescape rest; Some (String c out)
  end.

(** What [url.Parse] leaves in a request's URL. *)
Definition url_parsed (r : request) : Prop := rq_RawPath r = ""%string \/ path_unescape (rq_RawPath r) = Some (rq_Path r).

Inductive payload :=
| PEnvelope (envelope : VerifierResponse)
| PEncoded (requestBody : bytes)                       (* AttestationRequestEncoded *)
| PData (responseData : string) (responseBody : bytes) (* AttestationResponseData *)
| PHealth (healthy : bool)                             (* HealthCheckResponse *)
| PDoc (doc : doc_response)
| PBuiltin (document : bytes)                          (* huma's OpenAPI and schema documents *)
| PProblem.                                            (* an error body *)

Record response := { rp_Status : Z; rp_Header : gmap string string; rp_Payload : payload }.

Definition answer (status : Z) (p : payload) : response := {| rp_Status := status; rp_Header := ∅; rp_Payload := p |}.

(** [http.MaxBytesReader]: the body a handler can read, or the reader's error. *)
Definition requestSizeLimiter (maxBytes : Z) (body : bytes) : option bytes :=
  if maxBytes <? len body then None else Some body.

(** ** Operations

    [Env] is what a request finds outside the process (context, clocks,
    schedules), [St] the state of the process. *)
Section Operations.
Context {Env St : Type}.

(** An operation registered with huma.  Its handler gets the limited body. *)
Record operation := {
  op_ID : string; op_Method : string; op_Path : string;
  op_Handler : Env -> option bytes -> SE St Z payload
}.

Definition registerOp (id method path : string) (handler : Env -> option bytes -> SE St Z payload) : operation :=
  {| op_ID := id; op_Method := method; op_Path := path; op_Handler := handler |}.

(** huma reads and parses a body into its input type, answering with a status
    of its own when it cannot; [huma_unreadable] is the one for a read error. *)
Class HumaInput (In : Type) := { huma_parse : bytes -> res Z In; huma_unreadable : Z }.

Definition parsed {In} `{HumaInput In} (resolve : In -> list error) (body : option bytes) : res Z In :=
  match body with
  | None => Err huma_unreadable
  | Some b => input ← huma_parse b; match resolve input with [] => Ok input | _ => Err 422 end
  end.
End Operations.
Arguments operation : clear implicits.

(** ** A service's operations *)
Section Register.
Context `{ConfigLib} {Env St Ctx S Req Res ReqJSON ResJSON : Type}.
Context `{!DeadlineCtx Ctx} `{!Verifier Ctx S Req Res} `{!AbiStructs Req Res}.
Context `{!RequestConvertible ReqJSON Req} `{!ResponseConvertible ResJSON Res} `{!TaggedBody ReqJSON}.
Context `{!HumaInput AttestationRequest} `{!HumaInput (AttestationRequestData ReqJSON)}.
Context (json_text : ResJSON -> string).           (* huma's encoding of the response body *)
Context (ctx_of : Env -> Ctx) (get : St -> S) (put : S -> St -> St).

(** The part of the process's state a service owns. *)
Definition on_part {A} (m : SE S Z A) : SE St Z A := fun st =>
  let '(r, s) := m (get st) in (r, put s st).

Definition op_prepareRequestBody (c : EncodedAndABI) (env : Env) (body : option bytes) : SE St Z payload :=
  request ← lift (parsed AttestationRequestData_Resolve body);
  b ← lift (handle_prepareRequestBody (Req := Req) (Res := Res) c request);
  lift (Ok (PEncoded b)).

Definition op_prepareResponseBody (c : EncodedAndABI) (env : Env) (body : option bytes) : SE St Z payload :=
  request ← lift (parsed AttestationRequest_Resolve body);
  out ← on_part (handle_prepareResponseBody (ResJSON := ResJSON) c (ctx_of env) request);
  lift (Ok (PData (json_text out.1) out.2)).

Definition op_verify (c : EncodedAndABI) (env : Env) (body : option bytes) : SE St Z payload :=
  request ← lift (parsed AttestationRequest_Resolve body);
  envelope ← on_part (handle_verify (ResJSON := ResJSON) c (ctx_of env) request);
  lift (Ok (PEnvelope envelope)).

Definition RegisterVerificationHandler (c : EncodedAndABI) : list (operation Env St) :=
  let id := getVerifierOperationID (eab_SourceID c) (eab_DestinationChainSlug c) (eab_AttestationType c) in
  let path := getVerifierAPIPath (eab_SourceURLSlug c) (eab_DestinationChainSlug c) (eab_AttestationType c) in
  [ registerOp (id "prepareRequestBody") "POST" (path "prepareRequestBody") (op_prepareRequestBody c);
    registerOp (id "prepareResponseBody") "POST" (path "prepareResponseBody") (op_prepareResponseBody c);
    registerOp (id "verify") "POST" (path "verify") (op_verify c) ]%string.

(** *** What the operations do to the state *)
Lemma keeps_on_part {A} (P : S -> Prop) (Q : St -> Prop) (m : SE S Z A) :
  (forall st, Q st -> P (get st)) -> (forall s st, P s -> Q st -> Q (put s st)) -> keeps P m -> keeps Q (on_part m).
Proof.
  intros Hg Hp Hm st Hst. specialize (Hm (get st) (Hg st Hst)). unfold on_part.
  destruct (m (get st)) as [r s]. by apply Hp.
Qed.

Lemma RegisterVerificationHandler_keeps c env (P : S -> Prop) (Q : St -> Prop) op body :
  (forall st, Q st -> P (get st)) -> (forall s st, P s -> Q st -> Q (put s st)) ->
  (forall b data, decode_request_abi (Res := Res) (eab_Request c) b = Ok data ->
     keeps P (VerifierVerify (deadline (ctx_of env) verifierWorkTimeout) data)) ->
  op ∈ RegisterVerificationHandler c -> keeps Q (op_Handler op env body).
Proof.
  intros Hg Hp Hk Hop. unfold RegisterVerificationHandler in Hop.
  repeat (apply elem_of_cons in Hop as [->|Hop]); [..|by apply not_elem_of_nil in Hop]; cbn [registerOp op_Handler].
  - unfold op_prepareRequestBody. solve_keeps.
  - apply keeps_bind; [apply keeps_lift|intros request]. apply keeps_bind; [|intros; apply keeps_lift].
    eapply keeps_on_part; [exact Hg|exact Hp|]. apply verify_state. intros data. apply Hk.
  - apply keeps_bind; [apply keeps_lift|intros request]. apply keeps_bind; [|intros; apply keeps_lift].
    eapply keeps_on_part; [exact Hg|exact Hp|]. apply verify_state. intros data. apply Hk.
Qed.

(** A VERIFIED envelope from the verify operation. *)
Lemma op_verify_verified c env body st envelope st' :
  op_verify c env body st = (Ok (PEnvelope envelope), st') -> vr_Status envelope = StatusVerified ->
  exists b request data r s', body = Some b /\ huma_parse b = Ok request /\ AttestationRequest_Resolve request = [] /\
    addressed c (aq_AttestationType request) (aq_SourceID request) /\
    decode_request_abi (Res := Res) (eab_Request c) (aq_RequestBody request) = Ok data /\
    VerifierVerify (deadline (ctx_of env) verifierWorkTimeout) data (get st) = (Ok r, s') /\
    encode_response_abi (Req := Req) (eab_Response c) r = Ok (vr_ResponseBody envelope) /\ st' = put s' st.
Proof.
  unfold op_verify, parsed. intros (request & ? & [Hp ->]%lift_eq & (out & st1 & Ho & [[= <-] ->]%lift_eq)%se_bind_Ok)%se_bind_Ok Hs.
  destruct body as [b|]; [|done]. apply res_bind_Ok in Hp as (input & Hparse & Hres).
  destruct (AttestationRequest_Resolve input) eqn:Hr; [|done]. injection Hres as ->.
  unfold on_part in Ho. destruct (handle_verify c (ctx_of env) request (get st)) as [a s'] eqn:Hh. injection Ho as -> <-.
  apply handle_verify_verified in Hh as (Ha & data & r & Hd & Hv & He); [|done]. eauto 15.
Qed.
End Register.

(** [RegisterHealthHandler] with its handler. *)
Definition health_operation {Env St} (deploymentPrefix : string) : operation Env St :=
  registerOp "get-health" "GET" (deploymentPrefix +:+ "/api/health") (fun _ _ => lift (Ok (PHealth true))).

(** ** The router *)
Section Router.
Context {Env St : Type}.

(** The documents huma serves itself, below the two paths of its configuration. *)
Class HumaDocuments := huma_document : api_config -> string -> option bytes.
Context `{HumaDocuments}.

(** huma's adapter: middlewares first, then the operation. *)
Definition run_operation (api : api_config) (op : operation Env St) (env : Env) (r : request) (st : St) : response * St :=
  match APIKeyAuthMiddleware (api_keys api) (api_healthPath api) (rq_Path r) (rq_APIKey r) with
  | Unauthorized => (answer 401 PProblem, st)
  | Next =>
      match op_Handler op env (requestSizeLimiter maxRequestBodySize (rq_Body r)) st with
      | (Ok p, st') => (answer 200 p, st')
      | (Err code, st') => (answer code PProblem, st')
      end
  end.

(** What a documentation page adds to the header. *)
Definition doc_header (d : doc_response) : gmap string string :=
  match d with
  | Redirect location => {["Location"%string := location]}
  | IndexPage => <["Content-Type"%string := "text/html"%string]>
      {["Content-Security-Policy"%string := "default-src 'self'; script-src 'self'; style-src 'self'; img-src 'self' data:"%string]}
  | _ => ∅
  end.
Definition doc_status (d : doc_response) : Z :=
  match d with Redirect _ => 301 | IndexPage => 200 | EmbeddedFile _ => 200 | DocNotFound => 404 end.

(** chi: the documentation routes answer GET; an operation answers its method,
    and another method on a known path is 405. *)
Definition router (prefix : string) (api : api_config) (ops : list (operation Env St)) (env : Env) (r : request) (st : St)
    : response * St :=
  match newRouter prefix (route_path r) (rq_Path r) with
  | Some d =>
      if String.eqb (rq_Method r) "GET" then
        ({| rp_Status := doc_status d; rp_Header := doc_header d; rp_Payload := PDoc d |}, st)
      else (answer 405 PProblem, st)
  | None =>
      match list_find (fun op => op_Path op = route_path r) ops with
      | Some (_, op) =>
          if String.eqb (op_Method op) (rq_Method r) then run_operation api op env r st
          else (answer 405 PProblem, st)
      | None =>
          match huma_document api (route_path r) with
          | Some doc => (if String.eqb (rq_Method r) "GET" then answer 200 (PBuiltin doc) else answer 405 PProblem, st)
          | None => (answer 404 PProblem, st)
          end
      end
  end.

(** [newSecurityHandler]: two headers are set before the router runs. *)
Definition security_header : gmap string string :=
  <["X-Frame-Options"%string := "DENY"%string]> {["X-Content-Type-Options"%string := "nosniff"%string]}.
Definition newSecurityHandler (handler : request -> St -> response * St) (r : request) (st : St) : response * St :=
  let '(rp, st') := handler r st in
  ({| rp_Status := rp_Status rp; rp_Header := rp_Header rp ∪ security_header; rp_Payload := rp_Payload rp |}, st').

(** One request to the server [StartServer] has started. *)
Definition serve (envConfig : EnvConfig) (prefix : string) (ops : list (operation Env St)) (env : Env) (r : request) (st : St)
    : response * St :=
  newSecurityHandler (router prefix (newAPI envConfig prefix) ops env) r st.
End Router.

(** ** Specification *)

(** What anyone may see: documents and refusals, nothing a service computed. *)
Definition public (p : payload) : Prop :=
  match p with PEnvelope _ | PEncoded _ | PData _ _ => False | _ => True end.

(** The operations of a deployment: the health check, and others that chi can
    tell apart from it, from one another and from the documentation. *)
Record operations_ok {Env St} (prefix : string) (ops : list (operation Env St)) : Prop := {
  oo_distinct : NoDup (op_Path <$> ops);
  oo_ids : NoDup (op_ID <$> ops);
  oo_plain : Forall (fun op => no_char "%" (op_Path op) = true) ops;
  oo_docs : Forall (fun op => newRouter prefix (op_Path op) (op_Path op) = None) ops
}.

(** ** Lemmas *)
Lemma path_unescape_plain s : no_char "%" s = true -> path_unescape s = Some s.
Proof.
  induction s as [|c s IH]; [done|]. cbn [no_char]. intros [Hc%negb_true_iff Hs]%andb_true_iff.
  assert (path_unescape (String c s) = (out ← path_unescape s; Some (String c out))) as ->.
  { destruct c as [[] [] [] [] [] [] [] []]; try done. }
  by rewrite IH.
Qed.

(** A request routed to a plain path has that very path: the exemption of the
    health path cannot be reached through another encoding. *)
Lemma route_path_plain r p : url_parsed r -> no_char "%" p = true -> route_path r = p -> rq_Path r = p.
Proof.
  unfold route_path. intros [Hr|Hr] Hp; [by rewrite Hr|].
  destruct (String.eqb_spec (rq_RawPath r) "") as [_|_]; [done|]. intros <-.
  rewrite path_unescape_plain in Hr by done. by injection Hr as ->.
Qed.

Lemma security_header_kept (h : gmap string string) :
  h !! "X-Frame-Options"%string = None -> h !! "X-Content-Type-Options"%string = None ->
  (h ∪ security_header) !! "X-Frame-Options"%string = Some "DENY"%string /\
  (h ∪ security_header) !! "X-Content-Type-Options"%string = Some "nosniff"%string.
Proof. intros Hf Hc. by rewrite !lookup_union, Hf, Hc. Qed.

Section Serve.
Context {Env St : Type} `{HumaDocuments}.
Implicit Types (op : operation Env St) (st : St) (r : request).

Lemma list_find_path (ops : list (operation Env St)) op p :
  NoDup (op_Path <$> ops) -> op ∈ ops -> op_Path op = p ->
  exists i, list_find (fun o => op_Path o = p) ops = Some (i, op).
Proof.
  intros Hnd Hin Hp. destruct (list_find_elem_of (fun o => op_Path o = p) ops op Hin Hp) as [[i o] Hf].
  exists i. rewrite Hf. do 2 f_equal. apply list_find_Some in Hf as (Hi & Ho & _).
  apply list_elem_of_lookup in Hin as [j Hj].
  assert (i = j) as ->.
  { eapply (NoDup_lookup (op_Path <$> ops)); [done|..]; rewrite list_lookup_fmap, ?Hi, ?Hj; cbn; by rewrite ?Ho, ?Hp. }
  congruence.
Qed.

(** A request for an operation reaches it. *)
Lemma router_operation prefix api (ops : list (operation Env St)) op env r st :
  operations_ok prefix ops -> url_parsed r -> op ∈ ops -> op_Path op = route_path r -> op_Method op = rq_Method r ->
  router prefix api ops env r st = run_operation api op env r st.
Proof.
  intros [Hd _ Hpl Hdoc] Hu Hin Hp Hm. rewrite Forall_forall in Hpl, Hdoc. unfold router.
  rewrite (route_path_plain r (op_Path op) Hu (Hpl _ Hin) (eq_sym Hp)), <- Hp, (Hdoc _ Hin).
  destruct (list_find_path ops op (op_Path op) Hd Hin eq_refl) as [i ->]. by rewrite Hm, String.eqb_refl.
Qed.

(** Every answer that is not public is an operation's, to an authorised request. *)
Lemma router_cases prefix api (ops : list (operation Env St)) env r st :
  (exists op, op ∈ ops /\ op_Path op = route_path r /\ op_Method op = rq_Method r /\
     router prefix api ops env r st = run_operation api op env r st) \/
  (public (rp_Payload (router prefix api ops env r st).1) /\ (router prefix api ops env r st).2 = st).
Proof.
  unfold router. destruct (newRouter _ _ _) as [d|]; [right; by destruct (String.eqb _ _)|].
  destruct (list_find _ ops) as [[i op]|] eqn:Hf.
  - apply list_find_Some in Hf as (Hi & Hp & _). apply list_elem_of_lookup_2 in Hi.
    destruct (String.eqb_spec (op_Method op) (rq_Method r)); [left; by exists op|by right].
  - right. destruct (huma_document api (route_path r)); [by destruct (String.eqb _ _)|done].
Qed.

Lemma router_headers prefix api (ops : list (operation Env St)) env r st :
  rp_Header (router prefix api ops env r st).1 !! "X-Frame-Options"%string = None /\
  rp_Header (router prefix api ops env r st).1 !! "X-Content-Type-Options"%string = None.
Proof.
  unfold router, run_operation. destruct (newRouter _ _ _) as [d|].
  { destruct (String.eqb _ _); [|done]. by destruct d. }
  destruct (list_find _ ops) as [[i op]|].
  - destruct (String.eqb _ _); [|done]. destruct (APIKeyAuthMiddleware _ _ _ _); [|done].
    by destruct (op_Handler op env _ st) as [[] ?].
  - destruct (huma_document _ _); [by destruct (String.eqb _ _)|done].
Qed.

Lemma serve_eq cfg prefix (ops : list (operation Env St)) env r st :
  let rt := router prefix (newAPI cfg prefix) ops env r st in
  rp_Status (serve cfg prefix ops env r st).1 = rp_Status rt.1 /\
  rp_Payload (serve cfg prefix ops env r st).1 = rp_Payload rt.1 /\ (serve cfg prefix ops env r st).2 = rt.2.
Proof. unfold serve, newSecurityHandler. cbn zeta. by destruct (router _ _ _ _ _ _). Qed.

(** What an operation computed is the answer to an authorised request for it. *)
Lemma serve_operation cfg prefix (ops : list (operation Env St)) op env r st :
  operations_ok prefix ops -> url_parsed r -> op ∈ ops -> op_Path op = route_path r ->
  ~ public (rp_Payload (serve cfg prefix ops env r st).1) ->
  rp_Status (serve cfg prefix ops env r st).1 = 200 /\
  (rq_APIKey r ∈ env_APIKeys cfg \/ op_Path op = (prefix +:+ "/api/health")%string) /\
  op_Handler op env (requestSizeLimiter maxRequestBodySize (rq_Body r)) st =
    (Ok (rp_Payload (serve cfg prefix ops env r st).1), (serve cfg prefix ops env r st).2).
Proof.
  intros Hok Hu Hin Hp Hpub. destruct (serve_eq cfg prefix ops env r st) as (Hst & Hpay & Hs).
  destruct (router_cases prefix (newAPI cfg prefix) ops env r st) as [(op' & Hin' & Hp' & Hm & Hr)|[? _]];
    [|rewrite Hpay in Hpub; done].
  assert (op' = op) as ->.
  { destruct (list_find_path ops op (route_path r) (oo_distinct _ _ Hok) Hin Hp) as [i Hi].
    destruct (list_find_path ops op' (route_path r) (oo_distinct _ _ Hok) Hin' Hp') as [j Hj]. congruence. }
  rewrite Hr in Hst, Hpay, Hs. rewrite Hpay in Hpub. rewrite Hst, Hpay, Hs. clear Hst Hpay Hs. unfold run_operation in *.
  destruct (APIKeyAuthMiddleware _ _ _ _) eqn:Ha; [|done]. apply APIKeyAuthMiddleware_Next in Ha.
  destruct (op_Handler op env _ st) as [[p|code] st']; [|done]. split; [done|]. split; [|done].
  pose proof Hok as [_ _ Hpl _]. rewrite Forall_forall in Hpl.
  rewrite (route_path_plain r (op_Path op) Hu (Hpl _ Hin) (eq_sym Hp)) in Ha. cbn in Ha. tauto.
Qed.

(** A request changes the state only through the handler of an operation. *)
Lemma serve_keeps cfg prefix (ops : list (operation Env St)) env r (Q : St -> Prop) :
  (forall op body, op ∈ ops -> keeps Q (op_Handler op env body)) -> forall st, Q st -> Q (serve cfg prefix ops env r st).2.
Proof.
  intros Hk st Hst. destruct (serve_eq cfg prefix ops env r st) as (_ & _ & ->).
  destruct (router_cases prefix (newAPI cfg prefix) ops env r st) as [(op & Hin & _ & _ & ->)|[_ ->]]; [|done].
  unfold run_operation. destruct (APIKeyAuthMiddleware _ _ _ _); [|done].
  specialize (Hk op (requestSizeLimiter maxRequestBodySize (rq_Body r)) Hin st Hst). by destruct (op_Handler _ _ _ _) as [[]].
Qed.

(** The health check computes nothing. *)
Lemma run_health api prefix (env : Env) r st :
  public (rp_Payload (run_operation api (health_operation prefix) env r st).1) /\
  (run_operation api (health_operation prefix) env r st).2 = st.
Proof. unfold run_operation. by destruct (APIKeyAuthMiddleware _ _ _ _). Qed.

(** Another operation does not run for a request without a configured key. *)
Lemma run_unauthorized cfg prefix (ops : list (operation Env St)) op env r st :
  operations_ok prefix (health_operation prefix :: ops) -> url_parsed r -> rq_APIKey r ∉ env_APIKeys cfg ->
  op ∈ ops -> op_Path op = route_path r ->
  run_operation (newAPI cfg prefix) op env r st = (answer 401 PProblem, st).
Proof.
  intros Hok Hu Hkey Hin Hp. unfold run_operation.
  destruct (APIKeyAuthMiddleware _ _ _ _) eqn:Ha; [exfalso|done]. apply APIKeyAuthMiddleware_Next in Ha as [Ha|Ha]; [|done].
  pose proof Hok as [Hnd _ Hpl _]. rewrite Forall_forall in Hpl.
  rewrite (route_path_plain r (op_Path op) Hu (Hpl _ (list_elem_of_further _ _ _ Hin)) (eq_sym Hp)) in Ha.
  rewrite fmap_cons in Hnd. apply NoDup_cons in Hnd as [Hh _]. apply Hh. cbn in Ha. rewrite list_elem_of_fmap. by exists op.
Qed.

Lemma serve_unauthorized cfg prefix (ops : list (operation Env St)) env r st :
  operations_ok prefix (health_operation prefix :: ops) -> url_parsed r -> rq_APIKey r ∉ env_APIKeys cfg ->
  let out := serve cfg prefix (health_operation prefix :: ops) env r st in
  out.2 = st /\ public (rp_Payload out.1) /\
  forall op, op ∈ ops -> op_Path op = route_path r -> op_Method op = rq_Method r -> rp_Status out.1 = 401.
Proof.
  intros Hok Hu Hkey. cbn zeta. destruct (serve_eq cfg prefix (health_operation prefix :: ops) env r st) as (-> & -> & ->).
  apply Logic.and_assoc. split.
  { destruct (router_cases prefix (newAPI cfg prefix) (health_operation prefix :: ops) env r st)
      as [(op & [->|Hin]%elem_of_cons & Hp & Hm & ->)|?]; [by apply Logic.and_comm, run_health| |by apply Logic.and_comm].
    by rewrite (run_unauthorized cfg prefix ops op). }
  intros op Hin Hp Hm. rewrite (router_operation _ _ _ op) by (done || by apply list_elem_of_further).
  by rewrite (run_unauthorized cfg prefix ops op).
Qed.

(** With a configured key the handler of the operation answers. *)
Lemma serve_authorized cfg prefix (ops : list (operation Env St)) op env r st :
  operations_ok prefix ops -> url_parsed r -> op ∈ ops -> op_Path op = route_path r -> op_Method op = rq_Method r ->
  rq_APIKey r ∈ env_APIKeys cfg ->
  let out := serve cfg prefix ops env r st in
  let run := op_Handler op env (requestSizeLimiter maxRequestBodySize (rq_Body r)) st in
  out.2 = run.2 /\ (rp_Status out.1, rp_Payload out.1) = match run.1 with Ok p => (200, p) | Err code => (code, PProblem) end.
Proof.
  intros Hok Hu Hin Hp Hm Hkey. cbn zeta. destruct (serve_eq cfg prefix ops env r st) as (-> & -> & ->).
  rewrite (router_operation prefix _ ops op) by done. unfold run_operation.
  rewrite (proj2 (APIKeyAuthMiddleware_Next _ _ _ _) (or_intror Hkey)). by destruct (op_Handler op env _ st) as [[]].
Qed.

Lemma serve_headers cfg prefix (ops : list (operation Env St)) env r st :
  rp_Header (serve cfg prefix ops env r st).1 !! "X-Frame-Options"%string = Some "DENY"%string /\
  rp_Header (serve cfg prefix ops env r st).1 !! "X-Content-Type-Options"%string = Some "nosniff"%string.
Proof.
  pose proof (router_headers prefix (newAPI cfg prefix) ops env r st) as [H1 H2]. unfold serve, newSecurityHandler.
  destruct (router _ _ _ _ _ _) as [rp st']. by apply security_header_kept.
Qed.
End Serve.

(** ** The operations of the served types are told apart *)
Lemma string_app_inj_l (p a b : string) : (p +:+ a)%string = (p +:+ b)%string -> a = b.
Proof. induction p as [|c p IH]; [done|]. intros He. apply IH. change (String c (p +:+ a) = String c (p +:+ b)) in He. congruence. Qed.

Lemma no_char_app c a b : no_char c (a +:+ b) = no_char c a && no_char c b.
Proof.
  induction a as [|x a IH]; [done|]. change (no_char c (String x a +:+ b)) with (negb (Ascii.eqb x c) && no_char c (a +:+ b)).
  rewrite IH. cbn [no_char]. by rewrite andb_assoc.
Qed.

Lemma letters_no_char c s : letter c = false -> letters s = true -> no_char c s = true.
Proof.
  intros Hc. induction s as [|x s IH]; cbn [letters no_char]; [done|]. intros [Hx Hs]%andb_true_iff.
  rewrite IH by done. rewrite andb_true_r. destruct (Ascii.eqb_spec x c) as [->|]; [congruence|done].
Qed.

(** Two words around a separator neither contains. *)
Lemma words_inj sep a b a' b' :
  no_char sep a = true -> no_char sep b = true -> no_char sep a' = true -> no_char sep b' = true ->
  (a +:+ String sep b)%string = (a' +:+ String sep b')%string -> a = a' /\ b = b'.
Proof.
  intros Ha Hb Ha' Hb' He. apply (f_equal (fun s => Split s sep)) in He. rewrite !Split_sep, !Split_last in He by done.
  by injection He.
Qed.

Definition endpoints : list string := ["prepareRequestBody"; "prepareResponseBody"; "verify"]%string.

Lemma endpoints_plain e : e ∈ endpoints ->
  no_char "/" e = true /\ no_char "-" e = true /\ no_char "%" e = true /\ e <> "health"%string.
Proof.
  unfold endpoints. intros He. repeat (apply elem_of_cons in He as [->|He]; [done|]). by apply not_elem_of_nil in He.
Qed.

Section Distinct.
Context `{AttNames}.

(** A service of the deployment with these slugs. *)
Definition deployed (source : SourceName) (slug dest : string) (c : EncodedAndABI) : Prop :=
  eab_SourceID c = source /\ eab_SourceURLSlug c = slug /\ eab_DestinationChainSlug c = dest /\
  abiStructNames (eab_AttestationType c) <> None.

Lemma operation_in source slug dest c id p :
  deployed source slug dest c -> (id, p) ∈ verification_operations c ->
  exists e, e ∈ endpoints /\
    id = (("post-" +:+ ToLower source +:+ "-" +:+ dest +:+ "-") +:+ att_string (eab_AttestationType c) +:+ String "-" e)%string /\
    p = ((DeploymentPrefix slug dest +:+ "/") +:+ att_string (eab_AttestationType c) +:+ String "/" e)%string.
Proof.
  intros (Hs & Hu & Hd & _) (e & [= -> ->] & He)%list_elem_of_fmap. exists e. split; [done|].
  unfold getVerifierOperationID, getVerifierAPIPath. rewrite Hs, Hu, Hd, !string_app_assoc. done.
Qed.

(** An id or a path names its type and its endpoint. *)
Lemma operation_inj source slug dest c c' id p id' p' :
  deployed source slug dest c -> deployed source slug dest c' ->
  (id, p) ∈ verification_operations c -> (id', p') ∈ verification_operations c' ->
  id = id' \/ p = p' -> eab_AttestationType c = eab_AttestationType c' /\ id = id' /\ p = p'.
Proof.
  intros Hc Hc' (e & He & -> & ->)%(operation_in source slug dest) (e' & He' & -> & ->)%(operation_in source slug dest) Heq; [|done..].
  destruct (endpoints_plain e He) as (E1 & E2 & _), (endpoints_plain e' He') as (E1' & E2' & _).
  destruct Hc as (_ & _ & _ & Hc), Hc' as (_ & _ & _ & Hc').
  pose proof (att_string_letters _ Hc) as L. pose proof (att_string_letters _ Hc') as L'.
  assert (att_string (eab_AttestationType c) = att_string (eab_AttestationType c') /\ e = e') as [Ha ->].
  { destruct Heq as [Heq|Heq]; apply string_app_inj_l in Heq;
      (apply words_inj in Heq; [done|by apply letters_no_char|done|by apply letters_no_char|done]). }
  split; [by apply att_string_inj|by rewrite Ha].
Qed.

Lemma endpoints_NoDup : NoDup endpoints.
Proof. apply (bool_decide_unpack _). vm_compute. exact I. Qed.

Lemma verification_operations_NoDup c : NoDup (verification_operations c).
Proof.
  unfold verification_operations. apply (NoDup_fmap_2_strong _ endpoints); [|apply endpoints_NoDup].
  intros e e' _ _ [= Hid _]. unfold getVerifierOperationID in Hid. by repeat apply string_app_inj_l in Hid.
Qed.

Section Deployment.
Context (source : SourceName) (slug dest : string) (cs : list EncodedAndABI).
Hypothesis Hcs : Forall (deployed source slug dest) cs.
Hypothesis Hnd : NoDup (eab_AttestationType <$> cs).

Lemma deployed_in c : c ∈ cs -> deployed source slug dest c.
Proof. revert c. by apply Forall_forall. Qed.

Lemma type_inj c c' : c ∈ cs -> c' ∈ cs -> eab_AttestationType c = eab_AttestationType c' -> c = c'.
Proof.
  intros [i Hi]%list_elem_of_lookup [j Hj]%list_elem_of_lookup Ht. assert (i = j) as ->; [|congruence].
  eapply (NoDup_lookup (eab_AttestationType <$> cs)); [done|..]; rewrite list_lookup_fmap, ?Hi, ?Hj; cbn; by rewrite ?Ht.
Qed.

Lemma operations_NoDup (f : string * string -> string) :
  f = fst \/ f = snd -> NoDup (f <$> (cs ≫= verification_operations)).
Proof.
  intros Hf. apply NoDup_fmap_2_strong.
  - intros [id p] [id' p'] (c & Ho & Hc)%list_elem_of_bind (c' & Ho' & Hc')%list_elem_of_bind Heq.
    destruct (operation_inj source slug dest c c' id p id' p') as (_ & -> & ->); [by apply deployed_in..|done|done| |done].
    destruct Hf as [-> | ->]; auto.
  - apply NoDup_bind; [|intros; apply verification_operations_NoDup|by eapply NoDup_fmap_1].
    intros c c' [id p] Hc Hc' Ho Ho'. apply type_inj; [done..|].
    by destruct (operation_inj source slug dest c c' id p id p) as (Ht & _); [by apply deployed_in..|done|done|left|].
Qed.

Lemma operation_member id p : (id, p) ∈ cs ≫= verification_operations ->
  exists a e, e ∈ endpoints /\ letters a = true /\
    id = (("post-" +:+ ToLower source +:+ "-" +:+ dest +:+ "-") +:+ a +:+ String "-" e)%string /\
    p = ((DeploymentPrefix slug dest +:+ "/") +:+ a +:+ String "/" e)%string.
Proof.
  intros (c & Ho & Hc)%list_elem_of_bind. pose proof (deployed_in c Hc) as Hd.
  apply (operation_in source slug dest) in Ho as (e & He & -> & ->); [|done].
  eexists _, e. split_and!; [done| |done|done]. apply att_string_letters, Hd.
Qed.

(** Not the health check, nor a page of the documentation. *)
Lemma operation_not_health id p : (id, p) ∈ cs ≫= verification_operations ->
  id <> "get-health"%string /\ p <> (DeploymentPrefix slug dest +:+ "/api/health")%string.
Proof.
  intros (a & e & He & Ha & -> & ->)%operation_member. split; [done|].
  rewrite !string_app_assoc. intros Heq. apply string_app_inj_l in Heq.
  change ("/" +:+ a +:+ String "/" e = "/" +:+ "api" +:+ String "/" "health")%string in Heq. apply string_app_inj_l in Heq.
  destruct (endpoints_plain e He) as (E & _ & _ & Hh).
  apply words_inj in Heq as [_ ?]; [done|by apply letters_no_char|done..].
Qed.

Lemma operation_not_docs id p : (id, p) ∈ cs ≫= verification_operations -> newRouter (DeploymentPrefix slug dest) p p = None.
Proof.
  intros (a & e & He & Ha & _ & ->)%operation_member. destruct (endpoints_plain e He) as (E & _).
  assert (no_char "/" a = true) as Ha' by (by apply letters_no_char).
  unfold newRouter. rewrite !string_app_assoc.
  destruct (String.eqb_spec (DeploymentPrefix slug dest +:+ "/" +:+ a +:+ String "/" e) (DeploymentPrefix slug dest +:+ "/api-doc")) as [Heq|_].
  { apply string_app_inj_l in Heq. change ("/" +:+ a +:+ String "/" e = "/" +:+ "api-doc")%string in Heq.
    apply string_app_inj_l, (f_equal (fun s => Split s "/")) in Heq. by rewrite Split_sep, Split_last in Heq. }
  destruct (HasPrefix _ _) eqn:Hp; [exfalso|done]. apply prefix_spec in Hp as [r Hp]. rewrite !string_app_assoc in Hp.
  apply string_app_inj_l in Hp. change ("/" +:+ a +:+ String "/" e = "/" +:+ "api-doc" +:+ String "/" r)%string in Hp.
  apply string_app_inj_l, (f_equal (fun s => Split s "/")) in Hp. rewrite !Split_sep in Hp by done. injection Hp as -> _. done.
Qed.

Lemma deployment_operations_ok {Env St} (ops : list (operation Env St)) :
  no_char "%" slug = true -> no_char "%" dest = true ->
  (fun op => (op_ID op, op_Path op)) <$> ops =
    ("get-health", DeploymentPrefix slug dest +:+ "/api/health")%string :: (cs ≫= verification_operations) ->
  operations_ok (DeploymentPrefix slug dest) ops.
Proof.
  intros Hslug Hdest Hops.
  assert (no_char "%" (DeploymentPrefix slug dest) = true) as Hpre
    by (unfold DeploymentPrefix; rewrite !no_char_app, Hslug, Hdest; done).
  assert (op_ID <$> ops = ((fun op => (op_ID op, op_Path op)) <$> ops).*1) as Hid by (by rewrite <- list_fmap_compose).
  assert (op_Path <$> ops = ((fun op => (op_ID op, op_Path op)) <$> ops).*2) as Hpath by (by rewrite <- list_fmap_compose).
  assert (forall op, op ∈ ops -> (op_ID op, op_Path op) = ("get-health", DeploymentPrefix slug dest +:+ "/api/health")%string \/
    (op_ID op, op_Path op) ∈ cs ≫= verification_operations) as Hin.
  { intros op Ho. apply elem_of_cons. rewrite <- Hops. apply list_elem_of_fmap. eauto. }
  rewrite Hops in Hid, Hpath. constructor.
  - rewrite Hpath, fmap_cons. apply NoDup_cons. split; [|by apply operations_NoDup; right].
    intros ([id p] & Hp & Hm)%list_elem_of_fmap. by apply operation_not_health in Hm as [_ ?].
  - rewrite Hid, fmap_cons. apply NoDup_cons. split; [|by apply operations_NoDup; left].
    intros ([id p] & Hp & Hm)%list_elem_of_fmap. by apply operation_not_health in Hm as [? _].
  - apply Forall_forall. intros op [[= _ ->]|Hm]%Hin; [by rewrite no_char_app, Hpre|].
    apply operation_member in Hm as (a & e & He & Ha & _ & ->). destruct (endpoints_plain e He) as (_ & _ & E & _).
    rewrite !no_char_app, Hpre. cbn [andb]. rewrite (letters_no_char "%" a eq_refl Ha). exact E.
  - apply Forall_forall. intros op [[= _ ->]|Hm]%Hin; [|by eapply operation_not_docs].
    unfold newRouter. rewrite string_eqb_app_r. cbn [String.eqb Ascii.eqb Bool.eqb].
    destruct (HasPrefix _ _) eqn:Hp; [exfalso|done]. apply prefix_spec in Hp as [r Hp]. rewrite !string_app_assoc in Hp.
    apply string_app_inj_l in Hp. discriminate Hp.
Qed.
End Deployment.
End Distinct.

(** ** Properties *)

(** C10. The API key gate is exact on the wire: a request without a configured key leaves the state of every service as
    it was and gets nothing a service computed (documents, the health answer and refusals only), with 401 on the path and
    method of every operation but the health check, however its path is percent-encoded; with a configured key the
    answer and the new state are exactly the ones of the operation's handler on the size-limited body.  Every answer,
    refusals included, carries the two security headers. *)
Theorem requests_gated `{HumaDocuments} {Env St : Type} cfg prefix (ops : list (operation Env St)) env r st :
  operations_ok prefix (health_operation prefix :: ops) -> url_parsed r ->
  let out := serve cfg prefix (health_operation prefix :: ops) env r st in
  rp_Header out.1 !! "X-Frame-Options"%string = Some "DENY"%string /\
  rp_Header out.1 !! "X-Content-Type-Options"%string = Some "nosniff"%string /\
  (rq_APIKey r ∉ env_APIKeys cfg ->
    out.2 = st /\ public (rp_Payload out.1) /\
    forall op, op ∈ ops -> op_Path op = route_path r -> op_Method op = rq_Method r -> rp_Status out.1 = 401) /\
  (rq_APIKey r ∈ env_APIKeys cfg ->
    forall op, op ∈ ops -> op_Path op = route_path r -> op_Method op = rq_Method r ->
    let run := op_Handler op env (requestSizeLimiter maxRequestBodySize (rq_Body r)) st in
    out.2 = run.2 /\ (rp_Status out.1, rp_Payload out.1) = match run.1 with Ok p => (200, p) | Err code => (code, PProblem) end).
Proof.
  intros Hok Hu. cbn zeta. split_and!; [eapply serve_headers..| |]; intros Hkey.
  - destruct (serve_unauthorized cfg prefix ops env r st Hok Hu Hkey) as (? & ? & ?). done.
  - intros op Hin Hp Hm. apply serve_authorized; [done|done|by apply list_elem_of_further|done..].
Qed.
