(* ===== verification/Wire.v ===== *)
(** * Sessions on the wire

    What a client of a running server gets from one registered service: the
    verifier's answer to the request it posted, or a refusal that leaves the
    state alone when the body asks nothing; and a request body prepared by one
    endpoint that the two others accept. *)

From stdpp Require Import base list strings.
From Stdlib Require Import ZArith Lia.
From S2P Require Import Prelude Errors GoStrings Eth Config Handler Bodies Services Endpoints Server Http.

#[local] Open Scope Z_scope.

(** ** A service of a server *)

(** A POST to an endpoint of the service, with a configured key and a body
    within the limit. *)
Record posts `{ConfigLib} (cfg : EnvConfig) (c : EncodedAndABI) (endpoint : string) (r : request) : Prop := {
  po_url : url_parsed r;
  po_method : rq_Method r = "POST"%string;
  po_path : route_path r = getVerifierAPIPath (eab_SourceURLSlug c) (eab_DestinationChainSlug c) (eab_AttestationType c) endpoint;
  po_key : rq_APIKey r ∈ env_APIKeys cfg;
  po_size : len (rq_Body r) <= maxRequestBodySize
}.

(** Its body is a request to the service about [data]. *)
Record asks `{ConfigLib} `{!HumaInput AttestationRequest} {Req Res : Type} `{!AbiStructs Req Res}
    (cfg : EnvConfig) (c : EncodedAndABI) (endpoint : string) (r : request) (data : Req) : Prop := {
  ak_posts : posts cfg c endpoint r;
  ak_body : exists request, huma_parse (rq_Body r) = Ok request /\ AttestationRequest_Resolve request = [] /\
    addressed c (aq_AttestationType request) (aq_SourceID request) /\
    decode_request_abi (Res := Res) (eab_Request c) (aq_RequestBody request) = Ok data
}.
Arguments asks {_ _ _ Req} Res {_} cfg c endpoint r data.

(** The envelope of the verify endpoint and the answer of prepareResponseBody
    say the same. *)
Definition same_story (envelope : VerifierResponse) (p : response) : Prop :=
  (rp_Status p = 200 /\ vr_Status envelope = StatusVerified /\ exists text, rp_Payload p = PData text (vr_ResponseBody envelope)) \/
  ((rp_Status p = 400 \/ rp_Status p = 422) /\ vr_Status envelope = StatusRejected /\ rp_Payload p = PProblem) \/
  ((rp_Status p = 503 \/ rp_Status p = 500) /\ vr_Status envelope = StatusRetry /\ rp_Payload p = PProblem).

(** A 200 with a VERIFIED envelope of this response body. *)
Definition verified (body : bytes) (rp : response) : Prop :=
  rp_Status rp = 200 /\ rp_Payload rp = PEnvelope {| vr_Status := StatusVerified; vr_ResponseBody := body; vr_Message := "" |}.

(** A 200 with one of the two other envelopes. *)
Definition refused (rp : response) : Prop :=
  rp_Status rp = 200 /\ exists message, rp_Payload rp = PEnvelope (rejectedResponse message).
Definition retried (rp : response) : Prop :=
  rp_Status rp = 200 /\ exists message, rp_Payload rp = PEnvelope (retryResponse message).

(** The answer to a posted body that asks the service nothing: the status of
    huma or of the resolver for a body that is no attestation request, and a
    rejection for one that is not addressed to the service or does not decode. *)
Definition turned_away `{ConfigLib} `{!HumaInput AttestationRequest} {Req : Type} (Res : Type) `{!AbiStructs Req Res}
    (c : EncodedAndABI) (r : request) (rp : response) : Prop :=
  (exists code, parsed AttestationRequest_Resolve (Some (rq_Body r)) = Err code /\ rp_Status rp = code /\ rp_Payload rp = PProblem) \/
  (exists request, parsed AttestationRequest_Resolve (Some (rq_Body r)) = Ok request /\
    (~ addressed c (aq_AttestationType request) (aq_SourceID request) \/
     is_ok (decode_request_abi (Req := Req) (Res := Res) (eab_Request c) (aq_RequestBody request)) = false) /\ refused rp).
Arguments turned_away {_ _ _ Req} Res {_} c r rp.

Section Service.
Context `{ConfigLib} {Env St Ctx S Req Res ReqJSON ResJSON : Type}.
Context `{!DeadlineCtx Ctx} `{!Verifier Ctx S Req Res} `{!AbiStructs Req Res}.
Context `{!RequestConvertible ReqJSON Req} `{!ResponseConvertible ResJSON Res} `{!TaggedBody ReqJSON}.
Context `{!HumaInput AttestationRequest} `{!HumaInput (AttestationRequestData ReqJSON)} `{!HumaDocuments}.
Context `{!ConvertingVerifier Ctx S Req Res ResJSON}.
Context (json_text : ResJSON -> string) (ctx_of : Env -> Ctx) (get : St -> S) (put : S -> St -> St).
Context (cfg : EnvConfig) (prefix : string) (ops : list (operation Env St)) (c : EncodedAndABI).
Hypothesis Hops : operations_ok prefix ops.
Hypothesis Hregistered : forall op,
  op ∈ RegisterVerificationHandler (ReqJSON := ReqJSON) json_text ctx_of get put c -> op ∈ ops.

(** ** Lemmas *)

(** A posted request reaches its operation. *)
Lemma posted_run id endpoint handler e r st :
  registerOp id "POST" (getVerifierAPIPath (eab_SourceURLSlug c) (eab_DestinationChainSlug c) (eab_AttestationType c) endpoint) handler ∈ ops ->
  posts cfg c endpoint r ->
  let out := serve cfg prefix ops e r st in
  out.2 = (handler e (Some (rq_Body r)) st).2 /\
  (rp_Status out.1, rp_Payload out.1) = match (handler e (Some (rq_Body r)) st).1 with Ok p => (200, p) | Err code => (code, PProblem) end.
Proof.
  intros Hin [Hu Hm Hp Hk Hl].
  pose proof (serve_authorized cfg prefix ops _ e r st Hops Hu Hin (eq_sym Hp) (eq_sym Hm) Hk) as Hs.
  unfold requestSizeLimiter in Hs. by rewrite (proj2 (Z.ltb_ge _ _) Hl) in Hs.
Qed.

Lemma verify_registered : exists id,
  registerOp id "POST" (getVerifierAPIPath (eab_SourceURLSlug c) (eab_DestinationChainSlug c) (eab_AttestationType c) "verify")
    (op_verify (ResJSON := ResJSON) ctx_of get put c) ∈ ops.
Proof. eexists. apply Hregistered. do 2 apply list_elem_of_further. apply list_elem_of_here. Qed.
Lemma prepareResponseBody_registered : exists id,
  registerOp id "POST" (getVerifierAPIPath (eab_SourceURLSlug c) (eab_DestinationChainSlug c) (eab_AttestationType c) "prepareResponseBody")
    (op_prepareResponseBody (ResJSON := ResJSON) json_text ctx_of get put c) ∈ ops.
Proof. eexists. apply Hregistered. apply list_elem_of_further, list_elem_of_here. Qed.
Lemma prepareRequestBody_registered : exists id,
  registerOp id "POST" (getVerifierAPIPath (eab_SourceURLSlug c) (eab_DestinationChainSlug c) (eab_AttestationType c) "prepareRequestBody")
    (op_prepareRequestBody (ReqJSON := ReqJSON) (Req := Req) (Res := Res) c) ∈ ops.
Proof. eexists. apply Hregistered. apply list_elem_of_here. Qed.

(** The verify endpoint answers with the envelope of the verifier's answer. *)
Lemma asked_verify e r st data :
  asks Res cfg c "verify" r data ->
  let out := serve cfg prefix ops e r st in
  let run := VerifierVerify (deadline (ctx_of e) verifierWorkTimeout) data (get st) in
  out.2 = put run.2 st /\ rp_Status out.1 = 200 /\ rp_Payload out.1 = PEnvelope (envelope c run.1).
Proof.
  intros [Hpost (request & Hparse & Hres & Ha & Hd)]. cbn zeta. destruct verify_registered as [id Hin].
  destruct (posted_run id "verify" _ e r st Hin Hpost) as [-> Hout].
  unfold op_verify, on_part, parsed, lift, mbind, se_bind in *. rewrite Hparse in Hout |- *. cbn [mbind res_bind] in *.
  rewrite Hres, (handle_verify_run c (ctx_of e) request (get st) data Ha Hd) in *.
  destruct (VerifierVerify _ data (get st)) as [answer s']. cbn in *. by injection Hout as -> ->.
Qed.

(** A post to it either asks the service something, or is answered by what it
    is alone and changes nothing. *)
Lemma posted_verify r :
  (forall st, put (get st) st = st) -> posts cfg c "verify" r ->
  (exists data, asks (Req := Req) Res cfg c "verify" r data) \/
  forall e st, turned_away (Req := Req) Res c r (serve cfg prefix ops e r st).1 /\ (serve cfg prefix ops e r st).2 = st.
Proof.
  intros Hput Hpost. destruct verify_registered as [id Hin]. unfold turned_away.
  pose proof (fun e st => posted_run id "verify" _ e r st Hin Hpost) as Hrun. cbn zeta in Hrun.
  unfold op_verify, on_part, lift, mbind, se_bind in Hrun.
  destruct (parsed AttestationRequest_Resolve (Some (rq_Body r))) as [request|code] eqn:Hparsed.
  2: { right. intros e st. destruct (Hrun e st) as [-> Hout]. injection Hout as Hs Hp. split; [left; by exists code|done]. }
  destruct (validateSystemAndRequestAttestationNameAndSourceID c (Hash_Hex (aq_AttestationType request))
    (Hash_Hex (aq_SourceID request))) as [[]|err] eqn:Hv.
  1: destruct (decode_request_abi (Req := Req) (Res := Res) (eab_Request c) (aq_RequestBody request)) as [data|err] eqn:Hd.
  - left. exists data. split; [done|]. unfold parsed in Hparsed. apply res_bind_Ok in Hparsed as (input & Hi & Hres).
    destruct (AttestationRequest_Resolve input) eqn:He; [|done]. injection Hres as ->. exists request.
    split; [done|]. split; [done|]. split; [by apply validate_Ok|done].
  - right. intros e st. destruct (Hrun e st) as [-> Hout].
    destruct (handle_verify_refused (ResJSON := ResJSON) c (ctx_of e) request (get st)) as (m & Hm & _); [right; by rewrite Hd|].
    rewrite Hm in *. cbn in *. injection Hout as Hs Hp. split; [right|by rewrite Hput].
    exists request. split; [done|]. split; [right; by rewrite Hd|]. split; [done|by exists m].
  - right. intros e st. destruct (Hrun e st) as [-> Hout]. apply validate_Err in Hv.
    destruct (handle_verify_refused (ResJSON := ResJSON) c (ctx_of e) request (get st)) as (m & Hm & _); [by left|].
    rewrite Hm in *. cbn in *. injection Hout as Hs Hp. split; [right|by rewrite Hput].
    exists request. split; [done|]. split; [by left|]. split; [done|by exists m].
Qed.

Lemma asked_verified e r st data resp body :
  asks Res cfg c "verify" r data ->
  (VerifierVerify (deadline (ctx_of e) verifierWorkTimeout) data (get st)).1 = Ok resp ->
  encode_response_abi (Req := Req) (eab_Response c) resp = Ok body ->
  verified body (serve cfg prefix ops e r st).1.
Proof.
  intros Ha Hv He. destruct (asked_verify e r st data Ha) as (_ & Hs & Hp). split; [done|].
  rewrite Hp, Hv. unfold envelope. by rewrite He.
Qed.

(** The helper endpoint runs the same verifier and tells the same story. *)
Lemma asked_prepareResponseBody `{!CoherentVerifier Ctx S Req Res} e r st data :
  asks Res cfg c "prepareResponseBody" r data ->
  let out := serve cfg prefix ops e r st in
  let run := VerifierVerify (deadline (ctx_of e) verifierWorkTimeout) data (get st) in
  out.2 = put run.2 st /\ same_story (envelope c run.1) out.1.
Proof.
  intros [Hpost (request & Hparse & Hres & Ha & Hd)]. cbn zeta. destruct prepareResponseBody_registered as [id Hin].
  destruct (posted_run id "prepareResponseBody" _ e r st Hin Hpost) as [-> Hout].
  destruct (endpoints_agree (ResJSON := ResJSON) c (ctx_of e) request (get st)) as (Hst & env & Henv & Hp).
  rewrite (handle_verify_run c (ctx_of e) request (get st) data Ha Hd) in Hst, Henv.
  unfold op_prepareResponseBody, on_part, parsed, lift, mbind, se_bind in *. rewrite Hparse in Hout |- *. cbn [mbind res_bind] in *.
  rewrite Hres in *. destruct (VerifierVerify _ data (get st)) as [answer s']. cbn in Hst, Henv. injection Henv as <-. subst s'.
  destruct (handle_prepareResponseBody c (ctx_of e) request (get st)) as [[[text body]|code] s']; cbn in *; injection Hout as Hs Hpay;
    (split; [done|]); unfold same_story; rewrite Hs, Hpay; [left; destruct Hp as [? <-]; eauto|naive_solver].
Qed.

(** What prepareRequestBody answered with a body was asked with a form. *)
Lemma prepared_form e r st b :
  posts cfg c "prepareRequestBody" r -> rp_Payload (serve cfg prefix ops e r st).1 = PEncoded b ->
  (serve cfg prefix ops e r st).2 = st /\
  exists form, huma_parse (rq_Body r) = Ok form /\ handle_prepareRequestBody (Req := Req) (Res := Res) c form = Ok b.
Proof.
  intros Hpost Hpay. destruct prepareRequestBody_registered as [id Hin].
  destruct (posted_run id "prepareRequestBody" _ e r st Hin Hpost) as [-> Hout]. rewrite Hpay in Hout.
  unfold op_prepareRequestBody, lift, mbind, se_bind, parsed in *.
  destruct (huma_parse (rq_Body r)) as [form|]; cbn [mbind res_bind] in *; [|done].
  destruct (AttestationRequestData_Resolve form); [|done].
  destruct (handle_prepareRequestBody c form) as [b'|] eqn:Hb; [|done]. injection Hout as _ ->. split; [done|by exists form].
Qed.

(** ** Properties *)

(** C19. A prepared request is the one verified, on the wire and for any service of a running server: what
    prepareRequestBody returns changes no state and, posted with the type and source of the form to the two other
    endpoints, at any later time, is accepted, decoded to exactly the converted form and put to the verifier under its
    deadline; verify answers 200 with the envelope of the verifier's answer, prepareResponseBody tells the same story,
    and both leave the state the verifier left. *)
Theorem prepared_session_verified `{!AbiLaws Req Res} `{!CoherentVerifier Ctx S Req Res} e r st b :
  posts cfg c "prepareRequestBody" r -> rp_Payload (serve cfg prefix ops e r st).1 = PEncoded b ->
  (serve cfg prefix ops e r st).2 = st /\
  exists form data, huma_parse (rq_Body r) = Ok form /\ ToInternal (ad_RequestData form) = Ok data /\
  let sent := {| aq_AttestationType := ad_AttestationType form; aq_SourceID := ad_SourceID form; aq_RequestBody := b |} in
  forall e' st', let run := VerifierVerify (deadline (ctx_of e') verifierWorkTimeout) data (get st') in
  (forall r', posts cfg c "verify" r' -> huma_parse (rq_Body r') = Ok sent ->
    let out := serve cfg prefix ops e' r' st' in
    out.2 = put run.2 st' /\ rp_Status out.1 = 200 /\ rp_Payload out.1 = PEnvelope (envelope c run.1)) /\
  (forall r', posts cfg c "prepareResponseBody" r' -> huma_parse (rq_Body r') = Ok sent ->
    let out := serve cfg prefix ops e' r' st' in out.2 = put run.2 st' /\ same_story (envelope c run.1) out.1).
Proof.
  intros Hpost Hpay. destruct (prepared_form e r st b Hpost Hpay) as (Hst & form & Hparse & Hprep). split; [done|].
  destruct (prepared_request_decodes c form b Hprep) as (Hres & Ha & data & Ht & Hd). exists form, data.
  split; [done|]. split; [done|]. intros sent e' st' run. split; intros r' Hp' Hparse'.
  - apply asked_verify. split; [done|by exists sent].
  - apply asked_prepareResponseBody. split; [done|by exists sent].
Qed.
End Service.
