(* ===== verification/Database.v ===== *)
(** * pmwpaymentstatus/db/db.go: opening and closing the databases

    The connection strings are computed as the source does; gorm and the
    drivers are the operations of [GormLib].  The state is what the process
    holds: the open databases, the RPC clients, and the sleeps between
    attempts. *)

From stdpp Require Import base list strings gmap.
From Stdlib Require Import ZArith Lia.
From S2P Require Import Prelude Errors GoStrings.

#[local] Open Scope Z_scope.

Definition second : Z := 1_000_000_000.
Definition dbStatementTimeout : Z := 28 * second.

(** ** Connection strings *)
Definition dsnHasParam (dsn key : string) : bool :=
  HasPrefix dsn (key +:+ "=") ||
  existsb (fun sep => Contains dsn (sep +:+ key +:+ "=")) ["?"; "&"; " "]%string.

Definition appendDSNParam (dsn key value : string) : string :=
  if dsnHasParam dsn key then dsn
  else
  let sep := if Contains dsn "?" then "&"%string else "?"%string in
  (dsn +:+ sep +:+ key +:+ "=" +:+ value)%string.

Definition withPostgresStatementTimeout (dsn : string) : string :=
  if dsnHasParam dsn "statement_timeout" then dsn
  else
  let ms := dec (Z.to_N (dbStatementTimeout / 1_000_000)) in
  if Contains dsn "://" then appendDSNParam dsn "statement_timeout" ms
  else (dsn +:+ " statement_timeout=" +:+ ms)%string.

(** [Duration.String] of a whole number of seconds below a minute. *)
Definition dbStatementTimeout_String : string := (dec (Z.to_N (dbStatementTimeout / second)) +:+ "s")%string.

Definition withMySQLIOTimeouts (dsn : string) : string :=
  let d := dbStatementTimeout_String in
  let dsn := appendDSNParam dsn "readTimeout" d in
  let dsn := appendDSNParam dsn "writeTimeout" d in
  dsn.

(** ** Connections *)

(** [DBOptions].  At least one attempt is made: with none, [initDBWithRetries]
    would dereference a nil error. *)
Record DBOptions := { do_MaxAttempts : positive; do_RetryDelay : Z; do_MaxDelay : Z }.

(** A database is named by the number of the [gorm.Open] call that opened it. *)
Class GormLib := {
  gorm_Open : string -> string -> Z -> res error unit;     (* dialect, dsn, call *)
  gorm_DB : Z -> res error unit;                            (* db.DB() *)
  sqlDB_Close : Z -> res error unit;
  error_Error : error -> string
}.

Record resources := { r_dbs : gset Z; r_calls : Z; r_sleeps : list Z; r_clients : Z }.

Section Db.
Context `{GormLib}.

Definition open_db (h : Z) (w : resources) : resources :=
  {| r_dbs := {[h]} ∪ r_dbs w; r_calls := r_calls w; r_sleeps := r_sleeps w; r_clients := r_clients w |}.
Definition forget_db (h : Z) (w : resources) : resources :=
  {| r_dbs := r_dbs w ∖ {[h]}; r_calls := r_calls w; r_sleeps := r_sleeps w; r_clients := r_clients w |}.
Definition count_call (w : resources) : resources :=
  {| r_dbs := r_dbs w; r_calls := r_calls w + 1; r_sleeps := r_sleeps w; r_clients := r_clients w |}.
Definition Sleep (d : Z) (w : resources) : resources :=
  {| r_dbs := r_dbs w; r_calls := r_calls w; r_sleeps := r_sleeps w ++ [d]; r_clients := r_clients w |}.
Definition add_clients (n : Z) (w : resources) : resources :=
  {| r_dbs := r_dbs w; r_calls := r_calls w; r_sleeps := r_sleeps w; r_clients := r_clients w + n |}.

(** [gorm.Open].  The handles counted are those it returns: what it leaves of a
    connection whose first ping failed is inside the library. *)
Definition Open (dialect dsn : string) : SE resources error Z := fun w =>
  let h := r_calls w in
  match gorm_Open dialect dsn h with
  | Ok _ => (Ok h, open_db h (count_call w))
  | Err err => (Err err, count_call w)
  end.

(** [redactDSN]: the text of the error with the connection string blanked. *)
Definition redactDSN (err : error) (dsn : string) : string := ReplaceAll (error_Error err) dsn "[redacted]".

(** [configurePool]: the four setters of the pool do not fail. *)
Definition configurePool (db : Z) : res error unit := gorm_DB db.

(** The loop of [initDBWithRetries], [remaining] attempts after this one. *)
Fixpoint open_attempts (dialect dsn : string) (maxDelay : Z) (remaining : nat) (currentDelay : Z) : SE resources error Z := fun w =>
  match Open dialect dsn w with
  | (Ok db, w) =>
      (map_err (fun poolErr => Errorf "cannot configure connection pool for %s: %w" [poolErr])
         (_ ← configurePool db; Ok db), w)
  | (Err err, w) =>
      match remaining with
      | O => (Err (Errorf ("failed to open %s after %d attempts: " +:+ redactDSN err dsn) []), w)
      | S remaining =>
          let w := Sleep currentDelay w in
          let currentDelay := currentDelay * 2 in
          let currentDelay := if maxDelay <? currentDelay then maxDelay else currentDelay in
          open_attempts dialect dsn maxDelay remaining currentDelay w
      end
  end.

Definition initDBWithRetries (dialect dsn : string) (opts : DBOptions) : SE resources error Z :=
  open_attempts dialect dsn (do_MaxDelay opts) (Pos.to_nat (do_MaxAttempts opts) - 1) (do_RetryDelay opts).

Definition InitSourceDB (dsn : string) (overrideOpts : option DBOptions) : SE resources error Z :=
  let opts := default {| do_MaxAttempts := 5; do_RetryDelay := 1 * second; do_MaxDelay := 5 * second |} overrideOpts in
  let dsn := withPostgresStatementTimeout dsn in
  initDBWithRetries "postgres" dsn opts.

Definition InitCChainDB (dsn : string) (overrideOpts : option DBOptions) : SE resources error Z :=
  let opts := default {| do_MaxAttempts := 10; do_RetryDelay := 2 * second; do_MaxDelay := 10 * second |} overrideOpts in
  let dsn := withMySQLIOTimeouts dsn in
  initDBWithRetries "mysql" dsn opts.

(** [CloseDB]; [sql.DB.Close] gives the database up even when it reports an error. *)
Definition CloseDB (db : option Z) : SE resources error unit := fun w =>
  match db with
  | None => (Ok tt, w)
  | Some h =>
      match gorm_DB h with
      | Err err => (Err (Errorf "failed to obtain underlying sql.DB: %w" [err]), w)
      | Ok _ => (map_err (fun err => Errorf "failed to close database: %w" [err]) (sqlDB_Close h), forget_db h w)
      end
  end.
End Db.

(** A database gorm opened has its [sql.DB] underneath. *)
Class GormLaws `{GormLib} := gorm_DB_open : forall h, gorm_DB h = Ok tt.

(** ** Lemmas *)
Lemma Contains_app a b c : Contains (a +:+ b +:+ c) b = true.
Proof.
  induction a as [|x a IH].
  - destruct b as [|y b]; [by destruct c|].
    change ("" +:+ (String y b +:+ c))%string with (String y (b +:+ c)). cbn [Contains].
    apply orb_true_iff; left. apply (prefix_app (String y b) c).
  - change (String x a +:+ b +:+ c)%string with (String x (a +:+ b +:+ c)). cbn [Contains].
    by rewrite IH, orb_true_r.
Qed.

Lemma dsnHasParam_sep a sep key v :
  sep ∈ ["?"; "&"; " "]%string -> dsnHasParam (a +:+ sep +:+ key +:+ "=" +:+ v) key = true.
Proof.
  intros Hs. unfold dsnHasParam. apply orb_true_iff; right. apply existsb_exists. exists sep.
  split; [by apply list_elem_of_In|].
  replace (a +:+ sep +:+ key +:+ "=" +:+ v)%string with (a +:+ (sep +:+ key +:+ "=") +:+ v)%string
    by (by rewrite !string_app_assoc).
  apply Contains_app.
Qed.

Lemma Contains_mono a b sub : Contains a sub = true -> Contains (a +:+ b) sub = true.
Proof.
  induction a as [|x a IH]; cbn [Contains].
  - rewrite orb_false_r. intros [r Hr]%prefix_spec. destruct sub; [|done]. by destruct b.
  - intros [[r Hr]%prefix_spec|Hc]%orb_true_iff; change (String x a +:+ b)%string with (String x (a +:+ b)); cbn [Contains];
      apply orb_true_iff; [left|right; by apply IH].
    apply prefix_spec. exists (r +:+ b)%string. rewrite <- string_app_assoc, <- Hr. done.
Qed.

Lemma dsnHasParam_mono a b key : dsnHasParam a key = true -> dsnHasParam (a +:+ b) key = true.
Proof.
  unfold dsnHasParam. intros [[r Hr]%prefix_spec|(sep & Hs & Hc)%existsb_exists]%orb_true_iff; apply orb_true_iff.
  - left. apply prefix_spec. exists (r +:+ b)%string. by rewrite <- string_app_assoc, <- Hr.
  - right. apply existsb_exists. exists sep. split; [done|]. by apply Contains_mono.
Qed.

(** What appending a parameter does: the string is extended, or the operator's own value stands. *)
Lemma appendDSNParam_spec dsn key value :
  dsnHasParam (appendDSNParam dsn key value) key = true /\
  (exists r, appendDSNParam dsn key value = (dsn +:+ r)%string) /\
  (dsnHasParam dsn key = true -> appendDSNParam dsn key value = dsn).
Proof.
  unfold appendDSNParam. destruct (dsnHasParam dsn key) eqn:Hh.
  - split; [done|]. split; [exists ""%string; by rewrite string_app_nil|done].
  - split; [|split; [by eexists|done]]. apply dsnHasParam_sep.
    destruct (Contains dsn "?"); repeat (apply list_elem_of_here || apply list_elem_of_further).
Qed.

Lemma withPostgresStatementTimeout_spec dsn :
  dsnHasParam (withPostgresStatementTimeout dsn) "statement_timeout" = true /\
  (exists r, withPostgresStatementTimeout dsn = (dsn +:+ r)%string) /\
  (dsnHasParam dsn "statement_timeout" = true -> withPostgresStatementTimeout dsn = dsn).
Proof.
  unfold withPostgresStatementTimeout. destruct (dsnHasParam dsn "statement_timeout") eqn:Hh.
  - split; [done|]. split; [exists ""%string; by rewrite string_app_nil|done].
  - destruct (Contains dsn "://").
    + destruct (appendDSNParam_spec dsn "statement_timeout" (dec (Z.to_N (dbStatementTimeout / 1_000_000)))) as (H1 & H2 & _).
      by split_and!.
    + split; [|split; [by eexists|done]].
      apply (dsnHasParam_sep dsn " " "statement_timeout"). repeat (apply list_elem_of_here || apply list_elem_of_further).
Qed.

Lemma withMySQLIOTimeouts_spec dsn :
  dsnHasParam (withMySQLIOTimeouts dsn) "readTimeout" = true /\
  dsnHasParam (withMySQLIOTimeouts dsn) "writeTimeout" = true /\
  (exists r, withMySQLIOTimeouts dsn = (dsn +:+ r)%string) /\
  (dsnHasParam dsn "readTimeout" = true -> dsnHasParam dsn "writeTimeout" = true -> withMySQLIOTimeouts dsn = dsn).
Proof.
  unfold withMySQLIOTimeouts. generalize dbStatementTimeout_String as d; intros d. cbn zeta.
  destruct (appendDSNParam_spec dsn "readTimeout" d) as (Hr & [r1 Hr1] & Hk1).
  destruct (appendDSNParam_spec (appendDSNParam dsn "readTimeout" d) "writeTimeout" d) as (Hw & [r2 Hr2] & Hk2).
  split; [rewrite Hr2; by apply dsnHasParam_mono|]. split; [done|]. split.
  - exists (r1 +:+ r2)%string. by rewrite Hr2, Hr1, string_app_assoc.
  - intros H1 H2. rewrite Hk1 in Hk2 |- * by done. by apply Hk2.
Qed.

(** *** The retry loop *)

(** The [i]-th sleep of the backoff. *)
Definition backoff (delay maxDelay : Z) (i : nat) : Z := Z.min (delay * 2 ^ Z.of_nat i) maxDelay.

Lemma backoff_next d m i : 0 <= d <= m -> backoff (Z.min (d * 2) m) m i = backoff d m (S i).
Proof.
  intros Hd. unfold backoff. rewrite Nat2Z.inj_succ, Z.pow_succ_r by lia.
  assert (1 <= 2 ^ Z.of_nat i) by (pose proof (Z.pow_pos_nonneg 2 (Z.of_nat i)); lia).
  destruct (Z.min_spec (d * 2) m) as [[? ->]|[? ->]]; [f_equal; lia|].
  rewrite !Z.min_r; nia.
Qed.

(** [dsn'] names the parameters: it extends the operator's string, whose own
    values stand. *)
Definition with_params (params : list string) (dsn dsn' : string) : Prop :=
  Forall (fun p => dsnHasParam dsn' p = true) params /\ (exists r, dsn' = (dsn +:+ r)%string) /\
  (Forall (fun p => dsnHasParam dsn p = true) params -> dsn' = dsn).

Lemma withPostgresStatementTimeout_params dsn : with_params ["statement_timeout"%string] dsn (withPostgresStatementTimeout dsn).
Proof.
  destruct (withPostgresStatementTimeout_spec dsn) as (Hp & Hx & Ho).
  split; [by repeat constructor|]. split; [done|]. intros Hs. apply Forall_cons in Hs as [Hs _]. auto.
Qed.

Lemma withMySQLIOTimeouts_params dsn : with_params ["readTimeout"; "writeTimeout"]%string dsn (withMySQLIOTimeouts dsn).
Proof.
  destruct (withMySQLIOTimeouts_spec dsn) as (Hr & Hw & Hx & Ho).
  split; [by repeat constructor|]. split; [done|].
  intros Hs. apply Forall_cons in Hs as [Hs1 Hs]. apply Forall_cons in Hs as [Hs2 _]. auto.
Qed.

Section Loop.
Context `{GormLaws}.

(** How a run of [n] attempts from call [c] on can go: [k] failures then a
    success, or [n] failures; and the sleeps it takes. *)
Definition attempts_outcome (dialect dsn : string) (opts : DBOptions) (w : resources) (r : res error Z) (w' : resources) : Prop :=
  let n := Pos.to_nat (do_MaxAttempts opts) in
  let fails i := is_ok (gorm_Open dialect dsn (r_calls w + Z.of_nat i)) = false in
  let sleeps k := r_sleeps w ++ (backoff (do_RetryDelay opts) (do_MaxDelay opts) <$> seq 0 k) in
  r_clients w' = r_clients w /\
  match r with
  | Ok db => exists k, (k < n)%nat /\ (forall i, (i < k)%nat -> fails i) /\
      gorm_Open dialect dsn db = Ok tt /\ db = r_calls w + Z.of_nat k /\
      r_dbs w' = {[db]} ∪ r_dbs w /\ r_calls w' = db + 1 /\ r_sleeps w' = sleeps k
  | Err _ => (forall i, (i < n)%nat -> fails i) /\
      r_dbs w' = r_dbs w /\ r_calls w' = r_calls w + Z.of_nat n /\ r_sleeps w' = sleeps (n - 1)%nat
  end.

Lemma open_attempts_spec dialect dsn m left d w r w' :
  0 <= d <= m -> open_attempts dialect dsn m left d w = (r, w') ->
  attempts_outcome dialect dsn {| do_MaxAttempts := Pos.of_succ_nat left; do_RetryDelay := d; do_MaxDelay := m |} w r w'.
Proof.
  unfold attempts_outcome. cbn [do_MaxAttempts do_RetryDelay do_MaxDelay]. rewrite SuccNat2Pos.id_succ.
  revert d w. induction left as [|left IH]; intros d w Hd; cbn [open_attempts]; unfold Open;
    destruct (gorm_Open dialect dsn (r_calls w)) as [[]|e] eqn:Ho; unfold configurePool; rewrite ?gorm_DB_open;
    cbn [mbind res_bind map_err].
  1,3: intros [= <- <-]; split; [done|]; exists 0%nat; cbn; rewrite app_nil_r, Z.add_0_r; split_and!; [lia|lia|done..].
  - intros [= <- <-]. split; [done|]. cbn. rewrite app_nil_r. split_and!; [|done..].
    intros i Hi. replace i with 0%nat by lia. by rewrite Z.add_0_r, Ho.
  - replace (if m <? d * 2 then m else d * 2) with (Z.min (d * 2) m) by (destruct (Z.ltb_spec m (d * 2)); lia).
    intros Hr. apply IH in Hr as [Hc Hr]; [|lia]. cbn in Hc, Hr. rewrite ?Nat.sub_0_r in Hr. split; [done|].
    assert (forall k, (r_sleeps w ++ [d]) ++ (backoff (Z.min (d * 2) m) m <$> seq 0 k) =
                      r_sleeps w ++ (backoff d m <$> seq 0 (S k))) as Hs.
    { intros k. rewrite <- app_assoc. f_equal. cbn [seq fmap list_fmap app]. f_equal; [unfold backoff; lia|].
      rewrite <- fmap_S_seq, <- list_fmap_compose. apply list_fmap_ext. intros ? i _. apply backoff_next. lia. }
    assert (forall i, is_ok (gorm_Open dialect dsn (r_calls w + Z.of_nat (S i))) =
                      is_ok (gorm_Open dialect dsn (r_calls w + 1 + Z.of_nat i))) as Hcall by (intros; do 2 f_equal; lia).
    destruct r as [db|e'].
    + destruct Hr as (k & Hk & Hf & Hok & -> & Hdb & Hcl & Hsl). exists (S k). rewrite Hsl, Hs, Hcl.
      replace (r_calls w + Z.of_nat (S k)) with (r_calls w + 1 + Z.of_nat k) by lia. split_and!; [lia| |done..].
      intros [|i] Hi; [by rewrite Z.add_0_r, Ho|]. rewrite Hcall. apply Hf. lia.
    + destruct Hr as (Hf & Hdb & Hcl & Hsl). rewrite Hsl, Hs, Hcl. split_and!; [|done|lia|].
      2: { by replace (S (S left) - 1)%nat with (S left) by lia. }
      intros [|i] Hi; [by rewrite Z.add_0_r, Ho|]. rewrite Hcall. apply Hf. lia.
Qed.

Lemma initDBWithRetries_spec dialect dsn opts w r w' :
  0 <= do_RetryDelay opts <= do_MaxDelay opts -> initDBWithRetries dialect dsn opts w = (r, w') ->
  attempts_outcome dialect dsn opts w r w'.
Proof.
  intros Hd Hr. apply open_attempts_spec in Hr; [|done].
  replace (Pos.of_succ_nat (Pos.to_nat (do_MaxAttempts opts) - 1)) with (do_MaxAttempts opts) in Hr; [by destruct opts|].
  apply Pos2Nat.inj. rewrite SuccNat2Pos.id_succ. lia.
Qed.

(** A failed open leaves no database; a successful one leaves exactly the one it returns. *)
Lemma Init_resources dialect dsn opts w r w' :
  0 <= do_RetryDelay opts <= do_MaxDelay opts -> initDBWithRetries dialect dsn opts w = (r, w') ->
  r_clients w' = r_clients w /\ r_calls w <= r_calls w' /\
  r_dbs w' = match r with Ok db => {[db]} ∪ r_dbs w | Err _ => r_dbs w end /\
  (forall db, r = Ok db -> r_calls w <= db < r_calls w').
Proof.
  intros Hd Hr. apply initDBWithRetries_spec in Hr as [Hc Hr]; [|done]. split; [done|]. destruct r as [db|e].
  - destruct Hr as (k & _ & _ & _ & -> & -> & -> & _). split_and!; [lia|done|]. intros ? [= <-]. lia.
  - destruct Hr as (_ & -> & -> & _). split_and!; [lia|done|done].
Qed.

Lemma CloseDB_Some h w r w' : CloseDB (Some h) w = (r, w') -> w' = forget_db h w.
Proof. unfold CloseDB. rewrite gorm_DB_open. by intros [= <- <-]. Qed.
End Loop.

(** ** Properties *)
(** C38. Every database is opened within its limits: the connection string that is dialled extends the configured one,
    always names its timeout parameters and leaves alone a string that names them already; and dialling ends after at
    most the configured attempts, with the first connection that opens or a failure when none did, sleeping between
    attempts for the doubling delay capped at its maximum. *)
Theorem databases_open_bounded `{GormLaws} dsn overrideOpts w r w' :
  (forall opts, overrideOpts = Some opts -> 0 <= do_RetryDelay opts <= do_MaxDelay opts) ->
  (InitSourceDB dsn overrideOpts w = (r, w') ->
   exists dsn', with_params ["statement_timeout"%string] dsn dsn' /\
     attempts_outcome "postgres" dsn'
       (default {| do_MaxAttempts := 5; do_RetryDelay := 1 * second; do_MaxDelay := 5 * second |} overrideOpts) w r w') /\
  (InitCChainDB dsn overrideOpts w = (r, w') ->
   exists dsn', with_params ["readTimeout"; "writeTimeout"]%string dsn dsn' /\
     attempts_outcome "mysql" dsn'
       (default {| do_MaxAttempts := 10; do_RetryDelay := 2 * second; do_MaxDelay := 10 * second |} overrideOpts) w r w').
Proof.
  intros Ho. split; intros Hi; (eexists; split; [|apply initDBWithRetries_spec; [|exact Hi]]).
  - apply withPostgresStatementTimeout_params.
  - destruct overrideOpts as [o|]; [by apply Ho|done].
  - apply withMySQLIOTimeouts_params.
  - destruct overrideOpts as [o|]; [by apply Ho|done].
Qed.
