(* ===== verification/Loader.v ===== *)
(** * internal/api/loader.go and the services it builds

    [LoadModule] registers every attestation type a deployment serves.  The
    services own database and RPC connections; the state [boot] holds those
    the process has open, the routes registered and the package variables of
    the configuration loaders. *)

From stdpp Require Import base list strings gmap.
From Stdlib Require Import ZArith Lia.
From S2P Require Import Prelude Errors GoStrings Eth Config Instruction PaymentDB FeeProofDB NonceCache Nonce.
From S2P Require Import PaymentStatus FeeProof Multisig UrlValidation Fetcher Crl Tee Handler Database Server Http.

#[local] Open Scope Z_scope.

(** [teepayments.NewTeePaymentsCaller] and the clock. *)
Class BootLib := { NewTeePaymentsCaller : Address -> res error unit; time_Now : Z }.

Section Loader.
Context `{TeeLib} {Ctx : Type} `{!NetLib Ctx} `{!HttpLib Ctx} `{!BackgroundCtx Ctx} `{!RelayLib Ctx}.
Context `{!CallLib Ctx} `{!GormLib} `{!BootLib}.

(** ** State *)

(** The variables the loaders keep behind [sync.Once]. *)
Record once_vars := {
  ov_fee : option (res error PMWFeeProofConfig); ov_payment : option (res error PMWPaymentStatusConfig);
  ov_multisig : option (res error PMWMultisigAccountConfig); ov_tee : option (res error TeeAvailabilityCheckConfig)
}.
Definition no_vars : once_vars := {| ov_fee := None; ov_payment := None; ov_multisig := None; ov_tee := None |}.

(** [bt_operations]: operation id and path of what was registered with huma. *)
Record boot := { bt_res : resources; bt_operations : list (string * string); bt_vars : once_vars }.

Definition set_res (w : resources) (b : boot) : boot :=
  {| bt_res := w; bt_operations := bt_operations b; bt_vars := bt_vars b |}.
Definition set_vars (v : once_vars) (b : boot) : boot :=
  {| bt_res := bt_res b; bt_operations := bt_operations b; bt_vars := v |}.
Definition on_res {A} (m : SE resources error A) : SE boot error A := fun b =>
  let '(r, w) := m (bt_res b) in (r, set_res w b).
Definition Register (ops : list (string * string)) (b : boot) : boot :=
  {| bt_res := bt_res b; bt_operations := bt_operations b ++ ops; bt_vars := bt_vars b |}.

(** ** Loaders *)
Definition load_fee (env : EnvConfig) : SE boot error PMWFeeProofConfig := fun b =>
  let v := bt_vars b in let '(r, o) := LoadPMWFeeProofConfig env (ov_fee v) in
  (r, set_vars {| ov_fee := o; ov_payment := ov_payment v; ov_multisig := ov_multisig v; ov_tee := ov_tee v |} b).
Definition load_payment (env : EnvConfig) : SE boot error PMWPaymentStatusConfig := fun b =>
  let v := bt_vars b in let '(r, o) := LoadPMWPaymentStatusConfig env (ov_payment v) in
  (r, set_vars {| ov_fee := ov_fee v; ov_payment := o; ov_multisig := ov_multisig v; ov_tee := ov_tee v |} b).
Definition load_multisig (env : EnvConfig) : SE boot error PMWMultisigAccountConfig := fun b =>
  let v := bt_vars b in let '(r, o) := LoadPMWMultisigAccountConfiguredConfig env (ov_multisig v) in
  (r, set_vars {| ov_fee := ov_fee v; ov_payment := ov_payment v; ov_multisig := o; ov_tee := ov_tee v |} b).
Definition load_tee (env : EnvConfig) : SE boot error TeeAvailabilityCheckConfig := fun b =>
  let v := bt_vars b in let '(r, o) := LoadTeeAvailabilityCheckConfig env (ov_tee v) in
  (r, set_vars {| ov_fee := ov_fee v; ov_payment := ov_payment v; ov_multisig := ov_multisig v; ov_tee := o |} b).

(** ** RPC clients *)

(** [NewOnChainBinder] *)
Definition NewOnChainBinder (rpcURL : string) (contractAddr : Address) : SE resources error Binder := fun w =>
  match ethclient_Dial rpcURL with
  | Err err => (Err (Errorf "cannot connect to Flare node at %s: %w" [err]), w)
  | Ok _ =>
      let w := add_clients 1 w in
      match NewTeePaymentsCaller contractAddr with
      | Err err => (Err (Errorf "cannot create TeePayments caller at %s: %w" [err]), add_clients (-1) w)
      | Ok _ => (Ok NewBinder, w)
      end
  end.

(** [Binder.Close] of a dialled binder, which both verifiers' [Close] call. *)
Definition Binder_Close : SE resources error unit := fun w => (Ok tt, add_clients (-1) w).

(** ** Services *)
Definition registry (sourceID : string) : bool := bool_decide (sourceID ∈ [SourceXRP; SourceTestXRP]).

Record PaymentService := {
  py_verifier : PaymentStatus.XRPVerifier; py_binder : Binder; py_config : PMWPaymentStatusConfig; py_db : Z; py_cdb : Z
}.
Record FeeProofService := {
  fe_verifier : FeeProof.XRPVerifier; fe_binder : Binder; fe_config : PMWFeeProofConfig; fe_db : Z; fe_cdb : Z
}.
Record MultisigService := { mu_verifier : Multisig.XRPVerifier; mu_lastVerified : Z; mu_config : PMWMultisigAccountConfig }.
Record TeeAvailabilityService := { te_verifier : TeeVerifier; te_config : TeeAvailabilityCheckConfig }.

(** [ConstructorForSource]; the constructor itself is [NewXRPVerifier]. *)
Definition ConstructorForSource (sourceID : string) : res error unit :=
  if registry sourceID then Ok tt else Err (Errorf "no verifier for sourceID: %s" []).

(** The two databases: the second failing closes the first. *)
Definition open_databases (sourceURL cchainURL : string) : SE resources error (Z * Z) := fun w =>
  match InitSourceDB sourceURL None w with
  | (Err err, w) => (Err (Errorf "cannot connect to Source DB: %w" [err]), w)
  | (Ok dataBase, w) =>
      match InitCChainDB cchainURL None w with
      | (Err err, w) =>
          let '(_, w) := CloseDB (Some dataBase) w in
          (Err (Errorf "cannot connect to CChain DB: %w" [err]), w)
      | (Ok cchainDB, w) => (Ok (dataBase, cchainDB), w)
      end
  end.

(** [construct(cfg, dataBase, cchainDB)]: a failed dial closes both databases. *)
Definition construct {V} (wrap : string) (new : res error Binder -> res error (V * Binder)) (dial : SE resources error Binder)
    (dataBase cchainDB : Z) : SE resources error (V * Binder) := fun w =>
  let '(dialled, w) := dial w in
  match new dialled with
  | Err err =>
      let '(_, w) := CloseDB (Some dataBase) w in
      let '(_, w) := CloseDB (Some cchainDB) w in
      (Err (Errorf wrap [err]), w)
  | Ok vb => (Ok vb, w)
  end.

Definition NewPaymentService (env : EnvConfig) : SE boot error PaymentService :=
  cfg ← se_map_err (fun err => Errorf "cannot load PMWPaymentStatus config: %w" [err]) (load_payment env);
  _ ← lift (map_err (fun err => Errorf "unsupported SOURCE_ID %q for PMWPaymentStatus: %w" [err])
        (ConstructorForSource (eab_SourceID (psc_common cfg))));
  dbs ← on_res (open_databases (psc_SourceDatabaseURL cfg) (psc_CchainDatabaseURL cfg));
  vb ← on_res (construct "cannot construct PMWPaymentStatus verifier: %w" (PaymentStatus.NewXRPVerifier cfg)
         (NewOnChainBinder (psc_FlareRPCURL cfg) (psc_TeePaymentsContractAddress cfg)) dbs.1 dbs.2);
  lift (Ok {| py_verifier := vb.1; py_binder := vb.2; py_config := cfg; py_db := dbs.1; py_cdb := dbs.2 |}).

Definition NewFeeProofService (env : EnvConfig) : SE boot error FeeProofService :=
  cfg ← se_map_err (fun err => Errorf "cannot load PMWFeeProof config: %w" [err]) (load_fee env);
  _ ← lift (map_err (fun err => Errorf "unsupported SOURCE_ID %q for PMWFeeProof: %w" [err])
        (ConstructorForSource (eab_SourceID (fpc_common cfg))));
  dbs ← on_res (open_databases (fpc_SourceDatabaseURL cfg) (fpc_CchainDatabaseURL cfg));
  vb ← on_res (construct "cannot construct PMWFeeProof verifier: %w" (FeeProof.NewXRPVerifier cfg)
         (NewOnChainBinder (fpc_FlareRPCURL cfg) (fpc_TeePaymentsContractAddress cfg)) dbs.1 dbs.2);
  lift (Ok {| fe_verifier := vb.1; fe_binder := vb.2; fe_config := cfg; fe_db := dbs.1; fe_cdb := dbs.2 |}).

(** [pmwmultisigconfigured/verifier.NewVerifier]: the pin is tried at boot. *)
Definition NewMultisigVerifier (cfg : PMWMultisigAccountConfig) : res error (Multisig.XRPVerifier * Z) :=
  if negb (registry (eab_SourceID (msc_common cfg))) then Err (Errorf "no verifier for sourceID: %s" [])
  else
  let '(v, last) := Multisig.NewXRPVerifier cfg in
  let '(r, last') := VerifyNetwork v (Background (Ctx := Ctx)) time_Now last in
  _ ← r;
  Ok (v, last').

Definition NewMultisigService (env : EnvConfig) : SE boot error MultisigService :=
  cfg ← se_map_err (fun err => Errorf "cannot load PMWMultisigAccountConfigured config: %w" [err]) (load_multisig env);
  v ← lift (map_err (fun err => Errorf "cannot initialize PMWMultisigAccountConfigured verifier: %w" [err])
        (NewMultisigVerifier cfg));
  lift (Ok {| mu_verifier := v.1; mu_lastVerified := v.2; mu_config := cfg |}).

Definition NewTeeAvailabilityService (env : EnvConfig) : SE boot error TeeAvailabilityService :=
  cfg ← se_map_err (fun err => Errorf "cannot load TeeAvailabilityCheck config: %w" [err]) (load_tee env);
  v ← on_res (fun w =>
    let '(r, clients) := Tee.NewVerifier cfg (r_clients w) in
    (map_err (fun err => Errorf "cannot initialize TeeAvailabilityCheck verifier: %w" [err]) r,
     {| r_dbs := r_dbs w; r_calls := r_calls w; r_sleeps := r_sleeps w; r_clients := clients |}));
  lift (Ok {| te_verifier := v; te_config := cfg |}).

(** ** Closers *)
Inductive Closer :=
| CloseTee (v : TeeVerifier)
| ClosePayment (s : PaymentService)
| CloseFee (s : FeeProofService).

Definition err_of (r : res error unit) : list error := match r with Ok _ => [] | Err e => [e] end.

(** [PaymentService.Close] and [FeeProofService.Close]: all three are closed,
    whatever fails. *)
Definition close_service (wrap : string) (db cdb : Z) : SE resources error unit := fun w =>
  let '(r1, w) := CloseDB (Some db) w in
  let '(r2, w) := CloseDB (Some cdb) w in
  let '(r3, w) := Binder_Close w in
  let errs := err_of r1 ++ err_of r2 ++ err_of r3 in
  ((if (0 <? length errs)%nat then Err (Errorf wrap [Join errs]) else Ok tt), w).

Definition PaymentService_Close (s : PaymentService) : SE resources error unit :=
  close_service "errors closing PaymentService: %w" (py_db s) (py_cdb s).
Definition FeeProofService_Close (s : FeeProofService) : SE resources error unit :=
  close_service "errors closing FeeProofService: %w" (fe_db s) (fe_cdb s).

Definition Close (c : Closer) : SE resources error unit := fun w =>
  match c with
  | CloseTee v =>
      let '(clients, _) := TeeVerifier_Close v (r_clients w) ∅ in
      (Ok tt, {| r_dbs := r_dbs w; r_calls := r_calls w; r_sleeps := r_sleeps w; r_clients := clients |})
  | ClosePayment s => PaymentService_Close s w
  | CloseFee s => FeeProofService_Close s w
  end.

(** [closeAll], and the loop of [ShutdownServer]: failures are only logged. *)
Definition closeAll (closers : list Closer) (w : resources) : resources :=
  foldl (fun w c => (Close c w).2) w closers.
Definition ShutdownServer (closers : list Closer) (b : boot) : boot := set_res (closeAll closers (bt_res b)) b.

(** ** Loading *)
(** [handler.RegisterVerificationHandler], and the closers the case appends. *)
Definition registered (c : EncodedAndABI) (closers : list Closer) : SE boot error (list Closer) := fun b =>
  (Ok closers, Register (verification_operations c) b).

Definition registerVerifier (env : EnvConfig) : SE boot error (list Closer) :=
  match env_AttestationType env with
  | AvailabilityCheck =>
      service ← NewTeeAvailabilityService env;
      registered (tac_common (te_config service)) [CloseTee (te_verifier service)]
  | PMWPaymentStatus =>
      service ← NewPaymentService env;
      registered (psc_common (py_config service)) [ClosePayment service]
  | PMWMultisigAccountConfigured =>
      service ← NewMultisigService env;
      registered (msc_common (mu_config service)) []
  | PMWFeeProof =>
      service ← NewFeeProofService env;
      registered (fpc_common (fe_config service)) [CloseFee service]
  | OtherType _ => lift (Err (Errorf "unsupported attestation type: %s" []))
  end.

Definition with_type (env : EnvConfig) (t : AttestationType) : EnvConfig :=
  {| env_SourceRPCURL := env_SourceRPCURL env; env_FlareRPCURL := env_FlareRPCURL env;
     env_RelayContractAddress := env_RelayContractAddress env;
     env_RelayCutoverContractAddress := env_RelayCutoverContractAddress env;
     env_RelayCutoverStartingRewardEpoch := env_RelayCutoverStartingRewardEpoch env;
     env_FlareTeeManagerContractAddress := env_FlareTeeManagerContractAddress env;
     env_TeePaymentsContractAddress := env_TeePaymentsContractAddress env;
     env_SourceDatabaseURL := env_SourceDatabaseURL env; env_CChainDatabaseURL := env_CChainDatabaseURL env;
     env_AllowTeeDebug := env_AllowTeeDebug env; env_DisableAttestationCheckE2E := env_DisableAttestationCheckE2E env;
     env_AllowPrivateNetworks := env_AllowPrivateNetworks env; env_TeeAudience := env_TeeAudience env;
     env_ChainID := env_ChainID env; env_DestinationChainURLSlug := env_DestinationChainURLSlug env;
     env_SourceURLSlug := env_SourceURLSlug env; env_Port := env_Port env; env_APIKeys := env_APIKeys env;
     env_AttestationType := t; env_AttestationTypes := env_AttestationTypes env; env_SourceID := env_SourceID env |}.

(** The loop of [LoadModule] over the served types. *)
Fixpoint load_types (env : EnvConfig) (types : list AttestationType) (closers : list Closer) : SE boot error (list Closer) :=
  fun b =>
  match types with
  | [] => (Ok closers, b)
  | t :: rest =>
      match registerVerifier (with_type env t) b with
      | (Err err, b) => (Err err, set_res (closeAll closers (bt_res b)) b)
      | (Ok c, b) => load_types env rest (closers ++ c) b
      end
  end.

Definition RegisterHealthHandler (deploymentPrefix : string) : list (string * string) :=
  [("get-health", deploymentPrefix +:+ "/api/health")%string].

Definition LoadModule (env : EnvConfig) : SE boot error (list Closer) := fun b =>
  match SourceURLSlug (env_SourceID env) (env_SourceURLSlug env) with
  | Err err => (Err err, b)
  | Ok sourceSlug =>
      load_types env (ServedAttestationTypes env) []
        (Register (RegisterHealthHandler (DeploymentPrefix sourceSlug (env_DestinationChainURLSlug env))) b)
  end.

(** ** The process *)

(** [StartServer]: none when [logger.Fatalf] ends the process. *)
Definition StartServer (env : EnvConfig) (b : boot) : option (http_Server * list Closer) * boot :=
  match SourceURLSlug (env_SourceID env) (env_SourceURLSlug env) with
  | Err _ => (None, b)
  | Ok sourceSlug =>
      let prefix := DeploymentPrefix sourceSlug (env_DestinationChainURLSlug env) in
      match LoadModule env b with
      | (Err _, b) => (None, b)
      | (Ok closers, b) =>
          (Some ({| srv_Addr := ":" +:+ env_Port env; srv_Prefix := prefix; srv_ReadHeaderTimeout := readHeaderTimeout;
                    srv_ReadTimeout := readTimeout; srv_WriteTimeout := writeTimeout; srv_IdleTimeout := idleTimeout |}, closers), b)
      end
  end.

(** [RunServer]: start, wait for the signal, shut down; false when the start
    failed. *)
Definition RunServer (env : EnvConfig) (b : boot) : bool * boot :=
  match StartServer env b with
  | (None, b) => (false, b)
  | (Some (_, closers), b) => (true, ShutdownServer closers b)
  end.

(** [cmd/main.go] *)
Definition main (Getenv : string -> string) (godotenv_Load : (string -> string) -> string -> string) (b : boot) : bool * boot :=
  match LoadEnvConfig Getenv godotenv_Load with
  | Err _ => (false, b)
  | Ok envConfig => RunServer envConfig b
  end.
End Loader.

(** ** Resources *)
Section Resources.
Context `{TeeLib} {Ctx : Type} `{!NetLib Ctx} `{!HttpLib Ctx} `{!BackgroundCtx Ctx} `{!RelayLib Ctx}.
Context `{!CallLib Ctx} `{!GormLib} `{!BootLib} `{!GormLaws}.

(** Every open database was opened by an earlier call. *)
Definition res_wf (w : resources) : Prop := forall h, h ∈ r_dbs w -> h < r_calls w.

(** The databases and the number of RPC clients a closer holds. *)
Definition owned (c : Closer) : gset Z :=
  match c with
  | CloseTee _ => ∅
  | ClosePayment s => {[py_db s; py_cdb s]}
  | CloseFee s => {[fe_db s; fe_cdb s]}
  end.
Definition owned_all (cs : list Closer) : gset Z := ⋃ (owned <$> cs).

(** [grown w cs w']: the process holds what it held and what [cs] own, and the
    databases of [cs] are new. *)
Record grown (w : resources) (cs : list Closer) (w' : resources) : Prop := {
  gr_dbs : r_dbs w' = owned_all cs ∪ r_dbs w;
  gr_new : forall h, h ∈ owned_all cs -> r_calls w <= h < r_calls w';
  gr_calls : r_calls w <= r_calls w';
  gr_clients : r_clients w' = r_clients w + Z.of_nat (length cs)
}.

(** [same w w']: the process holds what it held. *)
Definition same (w w' : resources) : Prop :=
  r_dbs w' = r_dbs w /\ r_clients w' = r_clients w /\ r_calls w <= r_calls w'.

Lemma grown_nil w : grown w [] w.
Proof. constructor; cbn; [unfold owned_all; cbn; set_solver|unfold owned_all; cbn; set_solver|lia|lia]. Qed.

Lemma grown_wf w cs w' : res_wf w -> grown w cs w' -> res_wf w'.
Proof.
  intros Hw [Hd Hn Hc _] h. rewrite Hd. intros [Hh|Hh]%elem_of_union; [by apply Hn|]. specialize (Hw _ Hh). lia.
Qed.

Lemma owned_all_app cs ds : owned_all (cs ++ ds) = owned_all cs ∪ owned_all ds.
Proof. unfold owned_all. by rewrite fmap_app, union_list_app_L. Qed.

Lemma grown_trans w cs w1 ds w2 : grown w cs w1 -> grown w1 ds w2 -> grown w (cs ++ ds) w2.
Proof.
  intros [D1 N1 C1 K1] [D2 N2 C2 K2]. constructor; [|intros h|lia|rewrite length_app; lia].
  - rewrite D2, D1, owned_all_app. set_solver.
  - rewrite owned_all_app. intros [Hh|Hh]%elem_of_union; [specialize (N1 _ Hh)|specialize (N2 _ Hh)]; lia.
Qed.

Lemma Close_resources c w :
  let w' := (Close c w).2 in
  r_dbs w' = r_dbs w ∖ owned c /\ r_clients w' = r_clients w - 1 /\ r_calls w' = r_calls w.
Proof.
  destruct c as [v|s|s]; cbn [Close owned]; unfold PaymentService_Close, FeeProofService_Close, close_service, CloseDB; rewrite ?gorm_DB_open; cbn;
    (split; [set_solver|split; [lia|done]]).
Qed.

Lemma closeAll_resources cs w :
  r_dbs (closeAll cs w) = r_dbs w ∖ owned_all cs /\
  r_clients (closeAll cs w) = r_clients w - Z.of_nat (length cs) /\ r_calls (closeAll cs w) = r_calls w.
Proof.
  revert w. induction cs as [|c cs IH]; intros w; cbn [closeAll foldl length].
  - unfold owned_all; cbn. split; [set_solver|]. split; [lia|done].
  - destruct (IH (Close c w).2) as (Hd & Hk & Hc). destruct (Close_resources c w) as (Hd' & Hk' & Hc').
    unfold closeAll in *. rewrite Hd, Hk, Hc, Hd', Hk', Hc'. split; [|split; [lia|done]].
    unfold owned_all. cbn. set_solver.
Qed.

(** Closing what was opened gives the process back what it held. *)
Lemma closeAll_grown w cs w' : res_wf w -> grown w cs w' -> same w (closeAll cs w').
Proof.
  intros Hw [Hd Hn Hc Hk]. destruct (closeAll_resources cs w') as (Hd' & Hk' & Hc'). unfold same. rewrite Hd', Hk', Hc'.
  split; [|lia]. rewrite Hd. apply set_eq. intros h. rewrite elem_of_difference, elem_of_union. split; [tauto|].
  intros Hh. split; [by right|]. intros Ho. specialize (Hn _ Ho). specialize (Hw _ Hh). lia.
Qed.

Lemma same_refl w : same w w.
Proof. by unfold same. Qed.

Lemma same_trans w w1 w2 : same w w1 -> same w1 w2 -> same w w2.
Proof. unfold same. intros (-> & -> & ?) (-> & -> & ?). split_and!; [done..|lia]. Qed.

Lemma open_databases_resources s c w r w' :
  res_wf w -> open_databases s c w = (r, w') ->
  match r with
  | Ok (d1, d2) => r_dbs w' = {[d1; d2]} ∪ r_dbs w /\ r_clients w' = r_clients w /\
      r_calls w <= d1 < r_calls w' /\ r_calls w <= d2 < r_calls w'
  | Err _ => same w w'
  end.
Proof.
  intros Hw. unfold open_databases, InitSourceDB, InitCChainDB. cbn [default].
  destruct (initDBWithRetries "postgres" _ _ w) as [[d1|e1] w1] eqn:E1; apply Init_resources in E1 as (K1 & C1 & D1 & N1);
    try (unfold second; cbn; lia).
  2: { intros [= <- <-]. unfold same. split_and!; [done..|lia]. }
  specialize (N1 _ eq_refl).
  destruct (initDBWithRetries "mysql" _ _ w1) as [[d2|e2] w2] eqn:E2; apply Init_resources in E2 as (K2 & C2 & D2 & N2);
    try (unfold second; cbn; lia).
  - specialize (N2 _ eq_refl). intros [= <- <-]. rewrite D2, D1. split_and!; [set_solver|lia..].
  - destruct (CloseDB (Some d1) w2) as [r0 w3] eqn:Ec. apply CloseDB_Some in Ec as ->. intros [= <- <-].
    unfold same, forget_db. cbn. split_and!; [|lia..]. rewrite D2, D1. apply set_eq. intros h. specialize (Hw h).
    rewrite elem_of_difference, elem_of_union, elem_of_singleton. split; [tauto|]. intros Hh. split; [tauto|]. intros ->.
    specialize (Hw Hh). lia.
Qed.

Lemma NewOnChainBinder_resources u a w r w' :
  NewOnChainBinder (Ctx := Ctx) u a w = (r, w') ->
  r_dbs w' = r_dbs w /\ r_calls w' = r_calls w /\ r_clients w' = r_clients w + (if is_ok r then 1 else 0).
Proof.
  unfold NewOnChainBinder. destruct (ethclient_Dial u); [destruct (NewTeePaymentsCaller a)|]; intros [= <- <-]; cbn; split_and!; try done; lia.
Qed.

Lemma construct_resources {V} wrap (new : res error Binder -> res error (V * Binder)) u a d1 d2 w r w' :
  (forall x, is_ok (new x) = is_ok x) ->
  construct wrap new (NewOnChainBinder (Ctx := Ctx) u a) d1 d2 w = (r, w') ->
  r_calls w' = r_calls w /\
  match r with
  | Ok _ => r_dbs w' = r_dbs w /\ r_clients w' = r_clients w + 1
  | Err _ => r_dbs w' = r_dbs w ∖ {[d1; d2]} /\ r_clients w' = r_clients w
  end.
Proof.
  intros Hnew. unfold construct. destruct (NewOnChainBinder u a w) as [x w1] eqn:Ex.
  apply NewOnChainBinder_resources in Ex as (D & C & K). specialize (Hnew x). destruct (new x) as [vb|e].
  - intros [= <- <-]. rewrite <- Hnew in K. done.
  - destruct (CloseDB (Some d1) w1) as [r1 w2] eqn:E1. apply CloseDB_Some in E1 as ->.
    destruct (CloseDB (Some d2) _) as [r2 w3] eqn:E2. apply CloseDB_Some in E2 as ->. intros [= <- <-].
    rewrite <- Hnew in K. unfold forget_db. cbn. rewrite D. split; [done|]. split; [set_solver|]. cbn in K. lia.
Qed.

(** The loader's variable of a type has not been set. *)
Definition unset (v : once_vars) (t : AttestationType) : Prop :=
  match t with
  | AvailabilityCheck => ov_tee v = None
  | PMWMultisigAccountConfigured => ov_multisig v = None
  | PMWPaymentStatus => ov_payment v = None
  | PMWFeeProof => ov_fee v = None
  | OtherType _ => True
  end.

(** A loader touches its own variable only, and the first time it builds. *)
Definition loaded {C} (t : AttestationType) (common : C -> EncodedAndABI) (env : EnvConfig) (b : boot) (r : res error C) (b' : boot)
    : Prop :=
  bt_res b' = bt_res b /\ bt_operations b' = bt_operations b /\
  (forall t', t' <> t -> unset (bt_vars b) t' -> unset (bt_vars b') t') /\
  (forall cfg, r = Ok cfg -> unset (bt_vars b) t -> LoadEncodedAndABI env = Ok (common cfg)).

Ltac solve_loaded := split_and!; try done; [intros []; by cbn|intros ? ? Hn; cbn in Hn; congruence].

Lemma load_payment_loaded env b : loaded PMWPaymentStatus psc_common env b (load_payment env b).1 (load_payment env b).2.
Proof.
  unfold load_payment, LoadPMWPaymentStatusConfig, load_once. destruct (ov_payment (bt_vars b)) eqn:E; cbn; [solve_loaded|].
  split_and!; try done; [intros []; by cbn|]. unfold BuildPMWPaymentStatusConfig, buildXrpPMWPaymentStatusConfig.
  intros ? Hc _. autorewrite with verifier_rw in Hc. destruct Hc as (? & _ & Hc). res_inv. done.
Qed.

Lemma load_fee_loaded env b : loaded PMWFeeProof fpc_common env b (load_fee env b).1 (load_fee env b).2.
Proof.
  unfold load_fee, LoadPMWFeeProofConfig, load_once. destruct (ov_fee (bt_vars b)) eqn:E; cbn; [solve_loaded|].
  split_and!; try done; [intros []; by cbn|]. unfold BuildPMWFeeProofConfig.
  intros ? Hc _. autorewrite with verifier_rw in Hc. destruct Hc as (? & _ & Hc). res_inv. done.
Qed.

Lemma load_multisig_loaded env b :
  loaded PMWMultisigAccountConfigured msc_common env b (load_multisig env b).1 (load_multisig env b).2.
Proof.
  unfold load_multisig, LoadPMWMultisigAccountConfiguredConfig, load_once.
  destruct (ov_multisig (bt_vars b)) eqn:E; cbn; [solve_loaded|].
  split_and!; try done; [intros []; by cbn|]. unfold BuildPMWMultisigAccountConfiguredConfig.
  intros ? Hc _. autorewrite with verifier_rw in Hc. destruct Hc as (? & _ & Hc). res_inv. done.
Qed.

Lemma load_tee_loaded env b : loaded AvailabilityCheck tac_common env b (load_tee env b).1 (load_tee env b).2.
Proof.
  unfold load_tee, LoadTeeAvailabilityCheckConfig, load_once. destruct (ov_tee (bt_vars b)) eqn:E; cbn; [solve_loaded|].
  split_and!; try done; [intros []; by cbn|]. unfold BuildTeeAvailabilityCheckConfig.
  intros ? Hc _. res_inv. done.
Qed.

(** What a constructor does, on either outcome; [closers] is what the loader
    appends for the service. *)
Definition constructed {S} (t : AttestationType) (common : S -> EncodedAndABI) (closers : S -> list Closer) (env : EnvConfig)
    (b : boot) (r : res error S) (b' : boot) : Prop :=
  bt_operations b' = bt_operations b /\
  (forall t', t' <> t -> unset (bt_vars b) t' -> unset (bt_vars b') t') /\
  match r with
  | Ok svc => grown (bt_res b) (closers svc) (bt_res b') /\
      (unset (bt_vars b) t -> LoadEncodedAndABI env = Ok (common svc))
  | Err _ => same (bt_res b) (bt_res b')
  end.

(** What a constructor does after its configuration is loaded. *)
Definition completed {S} (common : EncodedAndABI) (commonS : S -> EncodedAndABI) (closers : S -> list Closer)
    (b : boot) (o : res error S * boot) : Prop :=
  o.2 = set_res (bt_res o.2) b /\
  match o.1 with
  | Ok svc => commonS svc = common /\ grown (bt_res b) (closers svc) (bt_res o.2)
  | Err _ => same (bt_res b) (bt_res o.2)
  end.

Lemma load_then_complete {C S} t (common : C -> EncodedAndABI) (commonS : S -> EncodedAndABI) closers env wrap
    (load : SE boot error C) (rest : C -> SE boot error S) b r b' :
  res_wf (bt_res b) -> loaded t common env b (load b).1 (load b).2 ->
  (forall cfg b1, res_wf (bt_res b1) -> completed (common cfg) commonS closers b1 (rest cfg b1)) ->
  (se_map_err wrap load ≫= rest) b = (r, b') -> constructed t commonS closers env b r b'.
Proof.
  intros Hw (Hr & Ho & Hv & Hc) Hrest. unfold mbind, se_bind, se_map_err. destruct (load b) as [[cfg|e] b1]; cbn in *.
  - assert (res_wf (bt_res b1)) as Hw1 by (by rewrite Hr).
    specialize (Hrest cfg b1 Hw1) as [Hb Hm]. intros E. rewrite E in Hb, Hm. cbn in Hb, Hm. rewrite Hr in Hm.
    unfold constructed. rewrite Hb. cbn. split; [done|]. split; [done|].
    destruct r as [svc|e]; [|done]. destruct Hm as [-> Hg]. split; [done|]. by apply Hc.
  - intros [= <- <-]. unfold constructed. rewrite Hr. by split_and!.
Qed.

(** The two PMW services: databases, then the verifier. *)
Lemma databases_then_construct {V S} common commonS closers wrap (new : res error Binder -> res error (V * Binder)) s c u a
    (mk : Z * Z -> V * Binder -> S) b :
  res_wf (bt_res b) -> (forall x, is_ok (new x) = is_ok x) ->
  (forall dbs vb, commonS (mk dbs vb) = common /\ exists k, closers (mk dbs vb) = [k] /\ owned k = {[dbs.1; dbs.2]}) ->
  completed common commonS closers b
    ((dbs ← on_res (open_databases s c);
      vb ← on_res (construct wrap new (NewOnChainBinder (Ctx := Ctx) u a) dbs.1 dbs.2);
      lift (Ok (mk dbs vb))) b).
Proof.
  intros Hw Hnew Hmk. unfold completed, mbind, se_bind, lift, on_res.
  destruct (open_databases s c (bt_res b)) as [[[d1 d2]|e] w1] eqn:E1; apply open_databases_resources in E1; [|done|done..].
  destruct E1 as (D1 & K1 & N1 & N2). cbn [fst snd bt_res set_res].
  destruct (construct wrap new _ d1 d2 w1) as [[vb|e] w2] eqn:E2; apply construct_resources in E2 as [C2 [D2 K2]]; try done.
  - split; [done|]. cbn [fst snd bt_res set_res]. destruct (Hmk (d1, d2) vb) as (Hc & k & -> & Hk). split; [done|].
    cbn in Hk. constructor; unfold owned_all; cbn; rewrite ?Hk; [|intros h|lia|lia].
    + rewrite D2, D1. set_solver.
    + rewrite union_empty_r_L, elem_of_union, !elem_of_singleton. intros [->| ->]; lia.
  - split; [done|]. unfold same. cbn. rewrite D2, D1, C2. split_and!; [|lia..]. apply set_eq. intros h. specialize (Hw h).
    rewrite elem_of_difference, !elem_of_union, !elem_of_singleton. split; [tauto|]. intros Hh. specialize (Hw Hh).
    split; [tauto|]. intros [->| ->]; lia.
Qed.

Lemma completed_check {S} common commonS closers b wrap (m : res error unit) (f : unit -> SE boot error S) :
  completed common commonS closers b (f tt b) ->
  completed common commonS closers b ((lift (map_err wrap m) ≫= f) b).
Proof. destruct m as [[]|e]; [done|]. intros _. split; [by destruct b|apply same_refl]. Qed.

Lemma NewPaymentService_constructed env b r b' :
  res_wf (bt_res b) -> NewPaymentService (Ctx := Ctx) env b = (r, b') ->
  constructed PMWPaymentStatus (fun s => psc_common (py_config s)) (fun s => [ClosePayment s]) env b r b'.
Proof.
  intros Hw. apply (load_then_complete _ psc_common); [done|apply load_payment_loaded|]. intros cfg b1 Hw1.
  apply completed_check, databases_then_construct; [done|by intros []|]. intros dbs vb. split; [done|by eexists].
Qed.

Lemma NewFeeProofService_constructed env b r b' :
  res_wf (bt_res b) -> NewFeeProofService (Ctx := Ctx) env b = (r, b') ->
  constructed PMWFeeProof (fun s => fpc_common (fe_config s)) (fun s => [CloseFee s]) env b r b'.
Proof.
  intros Hw. apply (load_then_complete _ fpc_common); [done|apply load_fee_loaded|]. intros cfg b1 Hw1.
  apply completed_check, databases_then_construct; [done|by intros []|]. intros dbs vb. split; [done|by eexists].
Qed.

Lemma NewMultisigService_constructed env b r b' :
  res_wf (bt_res b) -> NewMultisigService (Ctx := Ctx) env b = (r, b') ->
  constructed PMWMultisigAccountConfigured (fun s => msc_common (mu_config s)) (fun _ => []) env b r b'.
Proof.
  intros Hw. apply (load_then_complete _ msc_common); [done|apply load_multisig_loaded|]. intros cfg b1 Hw1.
  unfold completed, mbind, se_bind, lift. destruct (NewMultisigVerifier cfg) as [v|e]; cbn; (split; [by destruct b1|]).
  - split; [done|apply grown_nil].
  - apply same_refl.
Qed.

Lemma NewTeeAvailabilityService_constructed env b r b' :
  res_wf (bt_res b) -> NewTeeAvailabilityService (Ctx := Ctx) env b = (r, b') ->
  constructed AvailabilityCheck (fun s => tac_common (te_config s)) (fun s => [CloseTee (te_verifier s)]) env b r b'.
Proof.
  intros Hw. apply (load_then_complete _ tac_common); [done|apply load_tee_loaded|]. intros cfg b1 Hw1.
  unfold completed, mbind, se_bind, lift, on_res.
  destruct (Tee.NewVerifier cfg (r_clients (bt_res b1))) as [[v|e] clients] eqn:E; apply NewVerifier_clients in E as ->; cbn;
    (split; [done|]).
  - split; [done|]. constructor; unfold owned_all; cbn; [set_solver|set_solver|lia|lia].
  - by unfold same; cbn.
Qed.

(** What a registration does, on either outcome. *)
Definition registration (env : EnvConfig) (b : boot) (r : res error (list Closer)) (b' : boot) : Prop :=
  (forall t, t <> env_AttestationType env -> unset (bt_vars b) t -> unset (bt_vars b') t) /\
  match r with
  | Ok cs => grown (bt_res b) cs (bt_res b') /\
      (unset (bt_vars b) (env_AttestationType env) ->
       exists c, LoadEncodedAndABI env = Ok c /\ bt_operations b' = bt_operations b ++ verification_operations c)
  | Err _ => same (bt_res b) (bt_res b')
  end.

Lemma constructed_registered {S} common closers env (new : SE boot error S) b r b' :
  (forall r b', new b = (r, b') -> constructed (env_AttestationType env) common closers env b r b') ->
  (service ← new; registered (common service) (closers service)) b = (r, b') -> registration env b r b'.
Proof.
  intros Hn. unfold mbind, se_bind, registered. destruct (new b) as [[svc|e] b1]; specialize (Hn _ _ eq_refl) as (Ho & Hv & Hm);
    intros [= <- <-]; (split; [done|]); [|done].
  destruct Hm as [Hg Hc]. split; [done|]. intros Hu. eexists. split; [by apply Hc|]. cbn. by rewrite Ho.
Qed.

Lemma registerVerifier_registration env b r b' :
  res_wf (bt_res b) -> registerVerifier (Ctx := Ctx) env b = (r, b') -> registration env b r b'.
Proof.
  intros Hw. unfold registerVerifier. destruct (env_AttestationType env) eqn:Ht.
  - apply (constructed_registered _ (fun s => [CloseTee (te_verifier s)])). rewrite Ht. intros. by apply NewTeeAvailabilityService_constructed.
  - apply (constructed_registered (fun s => msc_common (mu_config s)) (fun _ => [])). rewrite Ht. intros. by apply NewMultisigService_constructed.
  - apply (constructed_registered (fun s => psc_common (py_config s)) (fun s => [ClosePayment s])). rewrite Ht. intros. by apply NewPaymentService_constructed.
  - apply (constructed_registered (fun s => fpc_common (fe_config s)) (fun s => [CloseFee s])). rewrite Ht. intros. by apply NewFeeProofService_constructed.
  - intros [= <- <-]. split; [done|apply same_refl].
Qed.

(** Loading is all or nothing: every type registered with its connections
    open, or none of the connections left. *)
Lemma load_types_resources env types closers b w0 r b' :
  res_wf w0 -> grown w0 closers (bt_res b) -> load_types (Ctx := Ctx) env types closers b = (r, b') ->
  match r with Ok cs => grown w0 cs (bt_res b') | Err _ => same w0 (bt_res b') end.
Proof.
  intros Hw. revert closers b. induction types as [|t types IH]; intros closers b Hg; cbn [load_types].
  - by intros [= <- <-].
  - destruct (registerVerifier (with_type env t) b) as [[cs|e] b1] eqn:E;
      (apply registerVerifier_registration in E as [_ Hr]; [|by eapply grown_wf]).
    + apply IH. destruct Hr as [Hr _]. by eapply grown_trans.
    + intros [= <- <-]. cbn [bt_res set_res]. apply closeAll_grown; [done|]. destruct Hr as (Hd & Hk & Hc), Hg as [D N C K].
      constructor; [by rewrite Hd|intros h Hh; specialize (N _ Hh); lia|lia|lia].
Qed.

Lemma LoadModule_resources env b r b' :
  res_wf (bt_res b) -> LoadModule (Ctx := Ctx) env b = (r, b') ->
  match r with Ok cs => grown (bt_res b) cs (bt_res b') | Err _ => same (bt_res b) (bt_res b') end.
Proof.
  intros Hw. unfold LoadModule. destruct (SourceURLSlug _ _); [|intros [= <- <-]; apply same_refl].
  apply load_types_resources; [done|apply grown_nil].
Qed.

(** However a process ends, it holds what it held at its start. *)
Lemma RunServer_resources env b : res_wf (bt_res b) -> same (bt_res b) (bt_res (RunServer (Ctx := Ctx) env b).2).
Proof.
  intros Hw. unfold RunServer, StartServer. destruct (SourceURLSlug _ _) as [slug|]; [|apply same_refl].
  destruct (LoadModule env b) as [[cs|e] b'] eqn:Hl; apply LoadModule_resources in Hl; try done.
  cbn [snd]. by apply closeAll_grown.
Qed.

(** The operations of a deployment. *)
Lemma load_types_operations env types closers b cs b' :
  res_wf (bt_res b) -> NoDup types -> Forall (unset (bt_vars b)) types ->
  load_types (Ctx := Ctx) env types closers b = (Ok cs, b') ->
  exists common, Forall2 (fun t c => LoadEncodedAndABI (with_type env t) = Ok c) types common /\
    bt_operations b' = bt_operations b ++ (common ≫= verification_operations).
Proof.
  revert closers b. induction types as [|t types IH]; intros closers b Hw Hnd Hu; cbn [load_types].
  - intros [= <- <-]. exists []. by rewrite app_nil_r.
  - destruct (registerVerifier (with_type env t) b) as [[c|e] b1] eqn:E; [|done].
    apply registerVerifier_registration in E as (Hv & Hg & Ho); [|done].
    apply NoDup_cons in Hnd as [Ht Hnd]. apply Forall_cons in Hu as [Hut Hu]. destruct (Ho Hut) as (cm & Hl & Hops).
    intros Hrest. apply IH in Hrest as (common & Hf & ->); [|by eapply grown_wf|done|].
    + exists (cm :: common). split; [by constructor|]. rewrite Hops, bind_cons, app_assoc. done.
    + apply Forall_forall. intros t' Ht'. apply Hv; [by intros ->|]. rewrite Forall_forall in Hu. by apply Hu.
Qed.

Lemma LoadModule_operations env b closers b' :
  res_wf (bt_res b) -> bt_vars b = no_vars -> bt_operations b = [] -> NoDup (ServedAttestationTypes env) ->
  LoadModule (Ctx := Ctx) env b = (Ok closers, b') ->
  exists slug common, SourceURLSlug (env_SourceID env) (env_SourceURLSlug env) = Ok slug /\
    Forall2 (fun t c => LoadEncodedAndABI (with_type env t) = Ok c) (ServedAttestationTypes env) common /\
    bt_operations b' = ("get-health", DeploymentPrefix slug (env_DestinationChainURLSlug env) +:+ "/api/health")%string ::
      (common ≫= verification_operations).
Proof.
  intros Hw Hv Ho Hnd. unfold LoadModule. destruct (SourceURLSlug _ _) as [slug|] eqn:Hs; [|done]. intros Hl.
  apply load_types_operations in Hl as (common & Hf & ->); [|done..|].
  - exists slug, common. split_and!; [done..|]. cbn [Register bt_operations]. by rewrite Ho.
  - apply Forall_forall. intros t _. cbn. rewrite Hv. by destruct t.
Qed.

(** The loaded configurations are services of one deployment, one per type. *)
Lemma loaded_deployed env types common slug :
  SourceURLSlug (env_SourceID env) (env_SourceURLSlug env) = Ok slug ->
  Forall2 (fun t c => LoadEncodedAndABI (with_type env t) = Ok c) types common ->
  Forall (deployed (env_SourceID env) slug (env_DestinationChainURLSlug env)) common /\
  eab_AttestationType <$> common = types.
Proof.
  intros Hs. induction 1 as [|t c types common Hc _ [IH1 IH2]]; [done|].
  assert (abiStructNames t <> None) as Hn by (intros Hn; unfold LoadEncodedAndABI in Hc; cbn in Hc; by rewrite Hn in Hc).
  apply LoadEncodedAndABI_Ok in Hc as (_ & Hslug & Hd & Hsrc & Ht & _). cbn in Hslug, Hd, Hsrc, Ht. rewrite Hs in Hslug.
  injection Hslug as ->. split; [constructor; [|done]; unfold deployed; by rewrite Ht|]. rewrite fmap_cons. by f_equal.
Qed.

Lemma operations_distinct `{!AttNames} env types common slug path :
  SourceURLSlug (env_SourceID env) (env_SourceURLSlug env) = Ok slug ->
  Forall2 (fun t c => LoadEncodedAndABI (with_type env t) = Ok c) types common -> NoDup types ->
  path = (DeploymentPrefix slug (env_DestinationChainURLSlug env) +:+ "/api/health")%string ->
  NoDup (("get-health"%string, path) :: (common ≫= verification_operations)).*1 /\
  NoDup (("get-health"%string, path) :: (common ≫= verification_operations)).*2.
Proof.
  intros Hs Hf Hnd ->. destruct (loaded_deployed _ _ _ _ Hs Hf) as [Hcs Ht]. rewrite <- Ht in Hnd. rewrite !fmap_cons.
  split; (apply NoDup_cons; split; [|eapply operations_NoDup; eauto]);
    intros ([id p] & Heq & Hm)%list_elem_of_fmap; by eapply operation_not_health in Hm as [? ?].
Qed.

Lemma operation_paths env types common slug :
  SourceURLSlug (env_SourceID env) (env_SourceURLSlug env) = Ok slug ->
  Forall2 (fun t c => LoadEncodedAndABI (with_type env t) = Ok c) types common ->
  (common ≫= verification_operations).*2 =
  (t ← types;
   endpoint ← ["prepareRequestBody"; "prepareResponseBody"; "verify"]%string;
   [(DeploymentPrefix slug (env_DestinationChainURLSlug env) +:+ "/" +:+ att_string t +:+ "/" +:+ endpoint)%string]).
Proof.
  intros Hs. induction 1 as [|t c types common Hc _ IH]; [done|].
  rewrite !bind_cons, fmap_app, IH. f_equal.
  apply LoadEncodedAndABI_Ok in Hc as (_ & Hslug & Hd & _ & Ht & _). cbn in Hslug, Hd, Ht. rewrite Hs in Hslug. injection Hslug as ->.
  unfold verification_operations, getVerifierAPIPath. by rewrite Hd, Ht.
Qed.

(** A fresh process that loads has registered the health path and, for every
    type of its source in order, the three operations under its own prefix and
    that type; no two of them share an operation id or a path. *)
Lemma LoadModule_routes `{!AttNames} env b closers b' :
  res_wf (bt_res b) -> bt_vars b = no_vars -> bt_operations b = [] -> NoDup (ServedAttestationTypes env) ->
  LoadModule (Ctx := Ctx) env b = (Ok closers, b') ->
  exists sourceSlug, SourceURLSlug (env_SourceID env) (env_SourceURLSlug env) = Ok sourceSlug /\
    let prefix := DeploymentPrefix sourceSlug (env_DestinationChainURLSlug env) in
    (bt_operations b').*2 = (prefix +:+ "/api/health")%string ::
      (t ← ServedAttestationTypes env;
       endpoint ← ["prepareRequestBody"; "prepareResponseBody"; "verify"]%string;
       [(prefix +:+ "/" +:+ att_string t +:+ "/" +:+ endpoint)%string]) /\
    NoDup (bt_operations b').*1 /\ NoDup (bt_operations b').*2.
Proof.
  intros Hw Hv Ho Hnd Hl. apply LoadModule_operations in Hl as (slug & common & Hs & Hf & Hops); [|done..].
  exists slug. split; [done|]. cbn zeta. rewrite Hops. split; [|by eapply operations_distinct].
  rewrite fmap_cons. f_equal. by apply operation_paths.
Qed.
End Resources.

(** ** Properties *)
Section LoaderProperties.
Context `{TeeLib} {Ctx : Type} `{!NetLib Ctx} `{!HttpLib Ctx} `{!BackgroundCtx Ctx} `{!RelayLib Ctx}.
Context `{!CallLib Ctx} `{!GormLib} `{!BootLib} `{!GormLaws}.

(** C18. No connection leaks: when loading fails, at whatever type and whatever step, the process holds the databases
    and RPC clients it held before; while it serves it holds those of its closers; and after a shutdown, as after a
    failed start, it holds what it held before it ran. *)
Theorem load_leaks_nothing env b r b' :
  res_wf (bt_res b) -> LoadModule (Ctx := Ctx) env b = (r, b') ->
  match r with
  | Err _ => r_dbs (bt_res b') = r_dbs (bt_res b) /\ r_clients (bt_res b') = r_clients (bt_res b)
  | Ok closers =>
      r_dbs (bt_res b') = owned_all closers ∪ r_dbs (bt_res b) /\
      r_clients (bt_res b') = r_clients (bt_res b) + Z.of_nat (length closers)
  end /\
  forall Getenv dotenv, let stopped := bt_res (main (Ctx := Ctx) Getenv dotenv b).2 in
    r_dbs stopped = r_dbs (bt_res b) /\ r_clients stopped = r_clients (bt_res b).
Proof.
  intros Hw Hl. split.
  - apply LoadModule_resources in Hl; [|done]. destruct r as [cs|e]; [split; apply Hl|]. destruct Hl as (Hd & Hk & _). done.
  - intros Getenv dotenv. unfold main. destruct (LoadEnvConfig Getenv dotenv) as [cfg|]; [|done].
    destruct (RunServer_resources cfg b Hw) as (Hd & Hk & _). done.
Qed.
End LoaderProperties.
