(* ===== verification/System.v ===== *)
(** * The two deployments, end to end

    The operations a process registers for an XRP source ([registerVerifier]
    of [loader.go], once per type) and for the TEE source, over the state its
    services share between requests.  The theorems join the HTTP server, the
    handlers and the verifiers: what an answer on the wire means, after any
    sequence of earlier requests. *)

From stdpp Require Import base list strings gmap.
From Stdlib Require Import ZArith Lia Ascii.
From S2P Require Import Prelude Errors GoStrings Helper Eth Config Instruction PaymentDB FeeProofDB Nonce Json.
From S2P Require Import XrpTransaction PaymentStatus FeeProof Multisig UrlValidation Fetcher Crl Tee Handler Bodies.
From S2P Require Import Services Endpoints Server Http Wire Loader.

#[local] Open Scope Z_scope.

(** A context with what a request finds beside it has the context's deadline. *)
#[global] Instance deadline_beside {Ctx X} `{!DeadlineCtx Ctx} : DeadlineCtx (Ctx * X) := fun c d => (deadline c.1 d, c.2).

(** ** What a VERIFIED answer on the wire means *)
Section Verified.
Context `{ConfigLib} {Env St Ctx S Req Res ReqJSON ResJSON : Type}.
Context `{!DeadlineCtx Ctx} `{!Verifier Ctx S Req Res} `{!AbiStructs Req Res}.
Context `{!ResponseConvertible ResJSON Res} `{!HumaInput AttestationRequest} `{!HumaDocuments}.
Context (ctx_of : Env -> Ctx) (get : St -> S) (put : S -> St -> St).

(** The request on the wire asked a service for [data], with a configured key,
    and [r] is what the body of the answer encodes. *)
Record asked (cfg : EnvConfig) (c : EncodedAndABI) (r : request) (envelope : VerifierResponse)
    (data : Req) (answered : Res) : Prop := {
  as_key : rq_APIKey r ∈ env_APIKeys cfg;
  as_body : len (rq_Body r) <= maxRequestBodySize /\ exists req, huma_parse (rq_Body r) = Ok req /\
    addressed c (aq_AttestationType req) (aq_SourceID req) /\
    decode_request_abi (Res := Res) (eab_Request c) (aq_RequestBody req) = Ok data;
  as_answer : encode_response_abi (Req := Req) (eab_Response c) answered = Ok (vr_ResponseBody envelope)
}.

(** The service answered through its verify operation, the verifier from the
    state the service had. *)
Lemma serve_verified cfg prefix (ops : list (operation Env St)) c e r st envelope :
  operations_ok prefix ops -> health_operation prefix ∈ ops -> url_parsed r ->
  (exists id, registerOp id "POST" (route_path r) (op_verify (ResJSON := ResJSON) ctx_of get put c) ∈ ops) ->
  rp_Payload (serve cfg prefix ops e r st).1 = PEnvelope envelope -> vr_Status envelope = StatusVerified ->
  exists data answered s', asked cfg c r envelope data answered /\
    VerifierVerify (deadline (ctx_of e) verifierWorkTimeout) data (get st) = (Ok answered, s') /\
    (serve cfg prefix ops e r st).2 = put s' st.
Proof.
  intros Hok Hh Hu [id Hop] Hpay Hs.
  destruct (serve_operation cfg prefix ops _ e r st Hok Hu Hop eq_refl) as (_ & Hkey & Hrun); [rewrite Hpay; cbn; tauto|].
  rewrite Hpay in Hrun. cbn [op_Handler registerOp] in Hrun.
  apply op_verify_verified in Hrun as (b & request & data & answered & s' & Hb & Hparse & _ & Ha & Hd & Hv & He & Hst); [|done].
  exists data, answered, s'. split; [|done].
  unfold requestSizeLimiter in Hb. destruct (Z.ltb_spec maxRequestBodySize (len (rq_Body r))); [done|]. injection Hb as <-.
  constructor; [|split; [done|by exists request]|done]. destruct Hkey as [?|Heq]; [done|exfalso]. cbn [op_Path registerOp] in Heq.
  destruct (list_find_path ops _ (route_path r) (oo_distinct _ _ Hok) Hop eq_refl) as [i Hi].
  destruct (list_find_path ops _ (route_path r) (oo_distinct _ _ Hok) Hh (eq_sym Heq)) as [j Hj].
  rewrite Hi in Hj. apply (f_equal (fun o => op_Method <$> (snd <$> o))) in Hj. discriminate Hj.
Qed.
End Verified.

(** The slugs of a loaded configuration can be in a path as they are. *)
Lemma loaded_slugs `{ConfigLib} env t c :
  is_Some (SourceAttestationTypes (env_SourceID env)) -> LoadEncodedAndABI (with_type env t) = Ok c ->
  exists slug, SourceURLSlug (env_SourceID env) (env_SourceURLSlug env) = Ok slug /\
    no_char "%" slug = true /\ no_char "%" (env_DestinationChainURLSlug env) = true.
Proof.
  intros Hsrc (Hd & Hs & He & _)%LoadEncodedAndABI_Ok. cbn in Hs, He. exists (eab_SourceURLSlug c). split; [done|].
  rewrite <- He. split; apply urlSlugPattern_no_char; [done|by eapply SourceURLSlug_Ok|done|done].
Qed.

(** ** The XRP deployment *)
Section Xrp.
Context `{ConfigLib} `{!AddressCodec} `{!JsonLib} `{!CommonFieldsLib} `{!KeyLib}.
Context {Ctx B : Type} `{!IndexerDB Ctx} `{!SequenceVerifier Ctx B} `{!CallLib Ctx} `{!DeadlineCtx Ctx}.
Context `{!AbiStructs PaymentStatusRequest PaymentStatusResponse} `{!AbiStructs FeeProofRequest FeeProofResponse}
  `{!AbiStructs MultisigRequest MultisigResponse}.
Context `{!HumaInput AttestationRequest} `{!HumaInput (AttestationRequestData PMWPaymentStatusRequestBody)}
  `{!HumaInput (AttestationRequestData PMWFeeProofRequestBody)} `{!HumaInput (AttestationRequestData MultisigRequest)}
  `{!HumaDocuments}.
Context (payment_text : PMWPaymentStatusResponseBody -> string) (fee_text : PMWFeeProofResponseBody -> string)
  (multisig_text : PMWMultisigAccountConfiguredResponseBody -> string).

(** What the services of the process share between requests: the binders of
    two of them and the time of the third's last network probe. *)
Record xrp_state := { xs_payment : B; xs_fee : B; xs_multisig : Z }.

(** What one request finds: its context, and for the multisig service its
    clock readings and the probe time it finds behind the mutex. *)
Record xrp_env := { xe_ctx : Ctx; xe_readings : readings; xe_recheck : Z -> Z }.

Record xrp_deployment := {
  xd_env : EnvConfig; xd_multisig : Multisig.XRPVerifier; xd_multisigCommon : EncodedAndABI;
  xd_payment : PaymentStatus.XRPVerifier; xd_fee : FeeProof.XRPVerifier
}.
Implicit Type d : xrp_deployment.

Definition xd_paymentCommon d : EncodedAndABI := psc_common (PaymentStatus.Config (xd_payment d)).
Definition xd_feeCommon d : EncodedAndABI := fpc_common (FeeProof.Config (xd_fee d)).
Definition xd_slug d : string :=
  match SourceURLSlug (env_SourceID (xd_env d)) (env_SourceURLSlug (xd_env d)) with Ok s => s | Err _ => "" end.
Definition xd_prefix d : string := DeploymentPrefix (xd_slug d) (env_DestinationChainURLSlug (xd_env d)).

Definition xrp_multisig_operations d : list (operation xrp_env xrp_state) :=
  RegisterVerificationHandler (Verifier0 := MultisigVerifier (xd_multisig d)) (ReqJSON := MultisigRequest) multisig_text
    (fun e => (xe_ctx e, xe_readings e, xe_recheck e)) xs_multisig
    (fun s st => {| xs_payment := xs_payment st; xs_fee := xs_fee st; xs_multisig := s |}) (xd_multisigCommon d).
Definition xrp_payment_operations d : list (operation xrp_env xrp_state) :=
  RegisterVerificationHandler (Verifier0 := PaymentStatusVerifier (xd_payment d)) (ReqJSON := PMWPaymentStatusRequestBody) payment_text
    xe_ctx xs_payment (fun s st => {| xs_payment := s; xs_fee := xs_fee st; xs_multisig := xs_multisig st |}) (xd_paymentCommon d).
Definition xrp_fee_operations d : list (operation xrp_env xrp_state) :=
  RegisterVerificationHandler (Verifier0 := FeeProofVerifier (xd_fee d)) (ReqJSON := PMWFeeProofRequestBody) fee_text
    xe_ctx xs_fee (fun s st => {| xs_payment := xs_payment st; xs_fee := s; xs_multisig := xs_multisig st |}) (xd_feeCommon d).

(** The health check, then the types of [SourceAttestationTypes] in order. *)
Definition xrp_operations d : list (operation xrp_env xrp_state) :=
  health_operation (xd_prefix d) :: xrp_multisig_operations d ++ xrp_payment_operations d ++ xrp_fee_operations d.

Definition xrp_serve d : xrp_env -> request -> xrp_state -> response * xrp_state :=
  serve (xd_env d) (xd_prefix d) (xrp_operations d).

(** The probe time found behind the mutex is one another request stored. *)
Definition xrp_env_ok d (e : xrp_env) : Prop := forall last, probed (xd_multisig d) (xe_recheck e last).

(** One request after another. *)
Inductive xrp_step d : xrp_state -> xrp_state -> Prop :=
| xrp_request e r st : xrp_env_ok d e -> xrp_step d st (xrp_serve d e r st).2.

(** The deployment was configured by the loaders, for a source with the three
    types. *)
Record xrp_ok d : Prop := {
  xo_types : SourceAttestationTypes (env_SourceID (xd_env d)) = Some [PMWMultisigAccountConfigured; PMWPaymentStatus; PMWFeeProof];
  xo_loaded : Forall2 (fun t c => LoadEncodedAndABI (with_type (xd_env d) t) = Ok c)
    [PMWMultisigAccountConfigured; PMWPaymentStatus; PMWFeeProof] [xd_multisigCommon d; xd_paymentCommon d; xd_feeCommon d]
}.

(** A hash has 32 bytes, and ABI decoding yields integers of the width of
    their type. *)
Class XrpWidths := {
  hash_width : forall s h, StringToCommonHash s = Ok h -> 0 <= h < 2 ^ 256;
  payment_width : forall a b r, decode_request_abi (Res := PaymentStatusResponse) a b = Ok r -> is_u64 (ps_PaymentId r);
  fee_width : forall a b r, decode_request_abi (Res := FeeProofResponse) a b = Ok r ->
    is_u64 (fp_FirstPaymentId r) /\ is_u64 (fp_BatchCount r)
}.

(** The verify path of a type. *)
Definition verify_path (c : EncodedAndABI) : string :=
  getVerifierAPIPath (eab_SourceURLSlug c) (eab_DestinationChainSlug c) (eab_AttestationType c) "verify".

(** ** Lemmas *)
Lemma xrp_slug d : xrp_ok d ->
  SourceURLSlug (env_SourceID (xd_env d)) (env_SourceURLSlug (xd_env d)) = Ok (xd_slug d) /\
  no_char "%" (xd_slug d) = true /\ no_char "%" (env_DestinationChainURLSlug (xd_env d)) = true.
Proof.
  intros [Ht Hl]. apply Forall2_cons in Hl as [Hl _].
  destruct (loaded_slugs _ _ _ ltac:(by rewrite Ht) Hl) as (slug & Hs & ? & ?). unfold xd_slug. by rewrite Hs.
Qed.

Lemma xrp_source `{!XrpWidths} d : xrp_ok d ->
  0 <= eab_SourceIDEncoded (xd_paymentCommon d) < 2 ^ 256 /\ 0 <= eab_SourceIDEncoded (xd_feeCommon d) < 2 ^ 256.
Proof.
  intros [_ Hl]. apply Forall2_cons in Hl as [_ Hl]. apply Forall2_cons in Hl as [Hp Hl]. apply Forall2_cons in Hl as [Hf _].
  apply LoadEncodedAndABI_Ok in Hp as (_ & _ & _ & _ & _ & Hp & _), Hf as (_ & _ & _ & _ & _ & Hf & _).
  split; by eapply hash_width.
Qed.

Lemma xrp_operations_ok `{!AttNames} d : xrp_ok d -> operations_ok (xd_prefix d) (xrp_operations d).
Proof.
  intros Hok. destruct (xrp_slug d Hok) as (Hs & Hp1 & Hp2), (loaded_deployed _ _ _ _ (proj1 (xrp_slug d Hok)) (xo_loaded d Hok)) as [Hdep Ht].
  eapply deployment_operations_ok; [exact Hdep| |done|done|reflexivity].
  rewrite Ht. apply (bool_decide_unpack _). vm_compute. exact I.
Qed.

(** The binders of two services keep their invariant and the third's probe
    time is that of a probe, whatever is asked. *)
Record xrp_inv d (inv : B -> Prop) (st : xrp_state) : Prop := {
  xi_payment : inv (xs_payment st); xi_fee : inv (xs_fee st); xi_multisig : probed (xd_multisig d) (xs_multisig st)
}.

Section Invariant.
Context (chain : Hash -> string -> Z) (inv : B -> Prop) (served : Ctx -> Hash -> string -> Prop).
Context `{!SequenceSpec Ctx B chain inv served}.

Lemma xrp_operation_keeps `{!XrpWidths} d e op body :
  xrp_ok d -> xrp_env_ok d e -> op ∈ xrp_operations d -> keeps (xrp_inv d inv) (op_Handler op e body).
Proof.
  intros [Hp Hf]%xrp_source He [->|[Hop|[Hop|Hop]%elem_of_app]%elem_of_app]%elem_of_cons; [apply keeps_lift|..].
  - unfold xrp_multisig_operations in Hop. revert Hop.
    apply (RegisterVerificationHandler_keeps (Verifier0 := MultisigVerifier (xd_multisig d)) multisig_text _ xs_multisig _ _ e
      (probed (xd_multisig d))); [by intros st []|by intros s st ? []|].
    intros b data _. by apply Multisig_Verify_keeps.
  - unfold xrp_payment_operations in Hop. revert Hop.
    apply (RegisterVerificationHandler_keeps (Verifier0 := PaymentStatusVerifier (xd_payment d)) payment_text _ xs_payment _ _ e inv);
      [by intros st []|by intros s st ? []|].
    intros b data _. by apply (Payment_Verify_keeps chain inv served).
  - unfold xrp_fee_operations in Hop. revert Hop.
    apply (RegisterVerificationHandler_keeps (Verifier0 := FeeProofVerifier (xd_fee d)) fee_text _ xs_fee _ _ e inv);
      [by intros st []|by intros s st ? []|].
    intros b data _. by apply (Fee_Verify_keeps chain inv served).
Qed.

Lemma xrp_reachable_inv `{!XrpWidths} d st st' : xrp_ok d -> xrp_inv d inv st -> rtc (xrp_step d) st st' -> xrp_inv d inv st'.
Proof.
  intros Hok Hst. induction 1 as [|st st1 st2 [e r ? He] _ IH]; [done|]. apply IH.
  apply (serve_keeps (xd_env d) (xd_prefix d) (xrp_operations d) e r (xrp_inv d inv)); [|done].
  intros op body Hop. by eapply xrp_operation_keeps.
Qed.
End Invariant.

(** A VERIFIED envelope at the verify path of one of the three types. *)
Lemma xrp_payment_verified `{!AttNames} d e r st envelope :
  xrp_ok d -> url_parsed r -> route_path r = verify_path (xd_paymentCommon d) ->
  rp_Payload (xrp_serve d e r st).1 = PEnvelope envelope -> vr_Status envelope = StatusVerified ->
  exists data answered s', asked (xd_env d) (xd_paymentCommon d) r envelope data answered /\
    PaymentStatus.Verify (xd_payment d) (deadline (xe_ctx e) verifierWorkTimeout) data (xs_payment st) = (Ok answered, s').
Proof.
  intros Hok Hu Hp Hpay Hs. pose proof (xrp_operations_ok d Hok) as Hops.
  destruct (serve_verified (Verifier0 := PaymentStatusVerifier (xd_payment d)) (ResJSON := PMWPaymentStatusResponseBody) xe_ctx
    xs_payment (fun s st => {| xs_payment := s; xs_fee := xs_fee st; xs_multisig := xs_multisig st |})
    (xd_env d) (xd_prefix d) (xrp_operations d) (xd_paymentCommon d) e r st envelope Hops (list_elem_of_here _ _) Hu)
    as (data & answered & s' & Ha & Hv & _); [eexists; rewrite Hp|done|done|by exists data, answered, s'].
  apply list_elem_of_further, elem_of_app. right. apply elem_of_app. left.
  do 2 apply list_elem_of_further. apply list_elem_of_here.
Qed.

Lemma xrp_fee_verified `{!AttNames} d e r st envelope :
  xrp_ok d -> url_parsed r -> route_path r = verify_path (xd_feeCommon d) ->
  rp_Payload (xrp_serve d e r st).1 = PEnvelope envelope -> vr_Status envelope = StatusVerified ->
  exists data answered s', asked (xd_env d) (xd_feeCommon d) r envelope data answered /\
    FeeProof.Verify (xd_fee d) (deadline (xe_ctx e) verifierWorkTimeout) data (xs_fee st) = (Ok answered, s').
Proof.
  intros Hok Hu Hp Hpay Hs. pose proof (xrp_operations_ok d Hok) as Hops.
  destruct (serve_verified (Verifier0 := FeeProofVerifier (xd_fee d)) (ResJSON := PMWFeeProofResponseBody) xe_ctx
    xs_fee (fun s st => {| xs_payment := xs_payment st; xs_fee := s; xs_multisig := xs_multisig st |})
    (xd_env d) (xd_prefix d) (xrp_operations d) (xd_feeCommon d) e r st envelope Hops (list_elem_of_here _ _) Hu)
    as (data & answered & s' & Ha & Hv & _); [eexists; rewrite Hp|done|done|by exists data, answered, s'].
  apply list_elem_of_further, elem_of_app. right. apply elem_of_app. right.
  do 2 apply list_elem_of_further. apply list_elem_of_here.
Qed.

Lemma xrp_multisig_verified `{!AttNames} d e r st envelope :
  xrp_ok d -> url_parsed r -> route_path r = verify_path (xd_multisigCommon d) ->
  rp_Payload (xrp_serve d e r st).1 = PEnvelope envelope -> vr_Status envelope = StatusVerified ->
  exists data answered s', asked (xd_env d) (xd_multisigCommon d) r envelope data answered /\
    Multisig.Verify (xd_multisig d) (deadline (xe_ctx e) verifierWorkTimeout) (xe_readings e) (xe_recheck e) data (xs_multisig st) =
      (Ok answered, s').
Proof.
  intros Hok Hu Hp Hpay Hs. pose proof (xrp_operations_ok d Hok) as Hops.
  destruct (serve_verified (Verifier0 := MultisigVerifier (xd_multisig d)) (ResJSON := PMWMultisigAccountConfiguredResponseBody)
    (fun e => (xe_ctx e, xe_readings e, xe_recheck e)) xs_multisig
    (fun s st => {| xs_payment := xs_payment st; xs_fee := xs_fee st; xs_multisig := s |})
    (xd_env d) (xd_prefix d) (xrp_operations d) (xd_multisigCommon d) e r st envelope Hops (list_elem_of_here _ _) Hu)
    as (data & answered & s' & Ha & Hv & _); [eexists; rewrite Hp|done|done|by exists data, answered, s'].
  apply list_elem_of_further, elem_of_app. left. do 2 apply list_elem_of_further. apply list_elem_of_here.
Qed.

(** The operations of the three services are the deployment's. *)
Lemma payment_registered d op : op ∈ xrp_payment_operations d -> op ∈ xrp_operations d.
Proof. intros Hop. apply list_elem_of_further, elem_of_app. right. apply elem_of_app. by left. Qed.
Lemma fee_registered d op : op ∈ xrp_fee_operations d -> op ∈ xrp_operations d.
Proof. intros Hop. apply list_elem_of_further, elem_of_app. right. apply elem_of_app. by right. Qed.
Lemma multisig_registered d op : op ∈ xrp_multisig_operations d -> op ∈ xrp_operations d.
Proof. intros Hop. apply list_elem_of_further, elem_of_app. by left. Qed.

Lemma payment_asked `{!AttNames} d e r st data resp body :
  xrp_ok d -> asks PaymentStatusResponse (xd_env d) (xd_paymentCommon d) "verify" r data ->
  (PaymentStatus.Verify (xd_payment d) (deadline (xe_ctx e) verifierWorkTimeout) data (xs_payment st)).1 = Ok resp ->
  encode_response_abi (Req := PaymentStatusRequest) (eab_Response (xd_paymentCommon d)) resp = Ok body ->
  verified body (xrp_serve d e r st).1.
Proof.
  intros Hok. apply (asked_verified (Verifier0 := PaymentStatusVerifier (xd_payment d))
    (ConvertingVerifier0 := payment_converts (xd_payment d)) payment_text xe_ctx xs_payment
    (fun s st => {| xs_payment := s; xs_fee := xs_fee st; xs_multisig := xs_multisig st |}));
    [by apply xrp_operations_ok|apply payment_registered].
Qed.

Lemma fee_asked `{!AttNames} d e r st data resp body :
  xrp_ok d -> asks FeeProofResponse (xd_env d) (xd_feeCommon d) "verify" r data ->
  (FeeProof.Verify (xd_fee d) (deadline (xe_ctx e) verifierWorkTimeout) data (xs_fee st)).1 = Ok resp ->
  encode_response_abi (Req := FeeProofRequest) (eab_Response (xd_feeCommon d)) resp = Ok body ->
  verified body (xrp_serve d e r st).1.
Proof.
  intros Hok. apply (asked_verified (Verifier0 := FeeProofVerifier (xd_fee d))
    (ConvertingVerifier0 := fee_converts (xd_fee d)) fee_text xe_ctx xs_fee
    (fun s st => {| xs_payment := xs_payment st; xs_fee := s; xs_multisig := xs_multisig st |}));
    [by apply xrp_operations_ok|apply fee_registered].
Qed.

Lemma multisig_asked `{!AttNames} d e r st data resp body :
  xrp_ok d -> asks MultisigResponse (xd_env d) (xd_multisigCommon d) "verify" r data ->
  (Multisig.Verify (xd_multisig d) (deadline (xe_ctx e) verifierWorkTimeout) (xe_readings e) (xe_recheck e) data (xs_multisig st)).1 = Ok resp ->
  encode_response_abi (Req := MultisigRequest) (eab_Response (xd_multisigCommon d)) resp = Ok body ->
  verified body (xrp_serve d e r st).1.
Proof.
  intros Hok Ha Hv. eapply (asked_verified (Verifier0 := MultisigVerifier (xd_multisig d))
    (ConvertingVerifier0 := multisig_converts (xd_multisig d)) multisig_text (fun e => (xe_ctx e, xe_readings e, xe_recheck e)) xs_multisig
    (fun s st => {| xs_payment := xs_payment st; xs_fee := xs_fee st; xs_multisig := s |}));
    [by apply xrp_operations_ok|apply multisig_registered|exact Ha|exact Hv].
Qed.

(** ** Properties *)

(** C5. What an XRP deployment certifies on the wire is true, after any sequence of earlier requests: a VERIFIED envelope
    answers a request with a configured API key, addressed to the service and decoded from its body, and encodes a
    response that is true of it.  At the payment path the response describes the sender's one transaction at the
    sequence the contract assigns and the event that ordered it, at the fee path the sums over the whole batch, and at
    the multisig path the account as the node of the source's network reports it. *)
Theorem xrp_answers_true `{!AttNames} `{!XrpWidths} (chain : Hash -> string -> Z) (inv : B -> Prop)
    (served : Ctx -> Hash -> string -> Prop) `{!SequenceSpec Ctx B chain inv served} d st0 st e r envelope :
  xrp_ok d -> xrp_inv d inv st0 -> rtc (xrp_step d) st0 st -> xrp_env_ok d e -> url_parsed r ->
  rp_Payload (xrp_serve d e r st).1 = PEnvelope envelope -> vr_Status envelope = StatusVerified ->
  let ctx := deadline (xe_ctx e) verifierWorkTimeout in
  (route_path r = verify_path (xd_paymentCommon d) ->
   exists (req : PaymentStatusRequest) resp msg tx raw, asked (xd_env d) (xd_paymentCommon d) r envelope req resp /\
     instruction_event (xd_payment d) ctx req msg /\
     pm_Nonce msg = chain (eab_SourceIDEncoded (xd_paymentCommon d)) (ps_SenderAddress req) + ps_PaymentId req - 1 /\
     ledger_row ctx (ps_SenderAddress req) (pm_Nonce msg) tx raw /\ describes raw msg tx resp) /\
  (route_path r = verify_path (xd_feeCommon d) ->
   exists (req : FeeProofRequest) resp items, asked (xd_env d) (xd_feeCommon d) r envelope req resp /\
     batch chain (xd_fee d) ctx req items /\ LastPaymentId resp = fp_FirstPaymentId req + fp_BatchCount req - 1 /\
     EstimatedFee resp = Zsum (bi_allow <$> items) /\ ActualFee resp = Zsum (bi_fee <$> items)) /\
  (route_path r = verify_path (xd_multisigCommon d) ->
   exists (req : MultisigRequest) resp info, asked (xd_env d) (xd_multisigCommon d) r envelope req resp /\
     (exists probe, confirms (xd_multisig d) probe) /\
     FetchAccountInfo (xv_Client (xd_multisig d)) ctx (mr_AccountAddress req) = Ok info /\
     (mp_Status resp = PMWMultisigAccountStatusOK <-> exists seq, multisig_account info req seq) /\
     (mp_Status resp = PMWMultisigAccountStatusOK -> multisig_account info req (mp_Sequence resp))).
Proof.
  intros Hok Hi Hr He Hu Hpay Hs. pose proof (xrp_reachable_inv chain inv served d st0 st Hok Hi Hr) as [Hp Hf Hm].
  pose proof (xrp_source d Hok) as [Hsp Hsf]. cbn zeta. split; [|split]; intros Hpath.
  - destruct (xrp_payment_verified d e r st envelope) as (req & resp & s' & Ha & Hv); [done..|].
    pose proof Ha as [_ (_ & q & _ & _ & Hd) _].
    apply (PaymentStatus.Verify_bound chain inv served) in Hv as (_ & msg & tx & raw & ? & _ & ? & _ & ? & ?);
      [|done|by eapply payment_width|done].
    by exists req, resp, msg, tx, raw.
  - destruct (xrp_fee_verified d e r st envelope) as (req & resp & s' & Ha & Hv); [done..|].
    pose proof Ha as [_ (_ & q & _ & _ & [? ?]%fee_width) _].
    apply (Verify_batch_sound chain inv served) in Hv as (_ & items & ? & _ & _ & ? & ? & ?); [|done..].
    by exists req, resp, items.
  - destruct (xrp_multisig_verified d e r st envelope) as (req & resp & s' & Ha & Hv); [done..|].
    apply Verify_answer in Hv as (_ & Hnet & info & ?). exists req, resp, info.
    split; [done|]. split; [|done].
    destruct (ensureNetworkVerified_probed (xd_multisig d) (deadline (xe_ctx e) verifierWorkTimeout) (xe_readings e)
      (xe_recheck e) He (xs_multisig st) Hm) as [_ Hc]. apply Hc. by rewrite Hnet.
Qed.
(** C7. What can be proved is proved on the wire, after any sequence of earlier requests: a request with a configured
    key that decodes to a payment whose event, nonce and transaction are there and describe a response is answered with
    a 200 and the VERIFIED envelope of that response; a batch within the limit whose items are all there, with the two
    sums over it; and an account that the pinned node reports, with OK and its sequence when it is configured as asked
    and with ERROR when it is not. *)
Theorem xrp_proves_provable `{!AttNames} `{!XrpWidths} (chain : Hash -> string -> Z) (inv : B -> Prop)
    (served : Ctx -> Hash -> string -> Prop) `{!SequenceSpec Ctx B chain inv served} d st0 st e r :
  xrp_ok d -> xrp_inv d inv st0 -> rtc (xrp_step d) st0 st ->
  let ctx := deadline (xe_ctx e) verifierWorkTimeout in
  let answered body := verified body (xrp_serve d e r st).1 in
  (forall (req : PaymentStatusRequest) msg tx raw resp body,
     asks PaymentStatusResponse (xd_env d) (xd_paymentCommon d) "verify" r req ->
     let sourceID := eab_SourceIDEncoded (xd_paymentCommon d) in
     served ctx sourceID (ps_SenderAddress req) -> instruction_event (xd_payment d) ctx req msg -> 1 <= ps_PaymentId req ->
     pm_Nonce msg = chain sourceID (ps_SenderAddress req) + ps_PaymentId req - 1 -> pm_Nonce msg <= MaxUint64 ->
     ledger_row ctx (ps_SenderAddress req) (pm_Nonce msg) tx raw -> describes raw msg tx resp ->
     encode_response_abi (Req := PaymentStatusRequest) (eab_Response (xd_paymentCommon d)) resp = Ok body -> answered body) /\
  (forall (req : FeeProofRequest) items body,
     asks FeeProofResponse (xd_env d) (xd_feeCommon d) "verify" r req ->
     maxBatchRange (xd_fee d) = 0 -> 1 <= fp_BatchCount req <= MaxBatchRange ->
     fp_FirstPaymentId req + fp_BatchCount req - 1 <= MaxUint64 ->
     served ctx (eab_SourceIDEncoded (xd_feeCommon d)) (fp_SenderAddress req) -> batch chain (xd_fee d) ctx req items ->
     encode_response_abi (Req := FeeProofRequest) (eab_Response (xd_feeCommon d))
       {| LastPaymentId := fp_FirstPaymentId req + fp_BatchCount req - 1; ActualFee := Zsum (bi_fee <$> items);
          EstimatedFee := Zsum (bi_allow <$> items) |} = Ok body -> answered body) /\
  (forall (req : MultisigRequest) info resp body,
     asks MultisigResponse (xd_env d) (xd_multisigCommon d) "verify" r req ->
     well_formed_request (mr_PublicKeys req) (mr_Threshold req) ->
     confirms (xd_multisig d) (WithTimeout ctx networkPinTimeout) ->
     FetchAccountInfo (xv_Client (xd_multisig d)) ctx (mr_AccountAddress req) = Ok info ->
     ((exists seq, multisig_account info req seq /\ resp = {| mp_Status := PMWMultisigAccountStatusOK; mp_Sequence := seq |}) \/
      (forall seq, ~ multisig_account info req seq) /\ resp = {| mp_Status := PMWMultisigAccountStatusERROR; mp_Sequence := 0 |}) ->
     encode_response_abi (Req := MultisigRequest) (eab_Response (xd_multisigCommon d)) resp = Ok body -> answered body).
Proof.
  intros Hok Hi Hr ctx answered.
  pose proof (xrp_reachable_inv chain inv served d st0 st Hok Hi Hr) as [Hp Hf Hm].
  pose proof (xrp_source d Hok) as [Hsp Hsf]. split_and!.
  - intros req msg tx raw resp body Ha sourceID Hserved He Hpos Hn Hmax Hrow Hd Henc.
    pose proof Ha as [_ (q & _ & _ & _ & Hdec)]. eapply payment_asked; [done|exact Ha| |exact Henc].
    destruct (Verify_established chain inv served (xd_payment d) ctx req (xs_payment st) msg tx raw resp) as (b' & _ & Hv);
      [done|by eapply payment_width|done..|]. fold ctx; by rewrite Hv.
  - intros req items body Ha Hmax Hcount Hov Hserved Hb Henc.
    pose proof Ha as [_ (q & _ & _ & _ & [? ?]%fee_width)]. eapply fee_asked; [done|exact Ha| |exact Henc].
    destruct (Verify_batch_complete chain inv served (xd_fee d) ctx req items (xs_fee st)) as (b' & _ & Hv); [done..|]. fold ctx; by rewrite Hv.
  - intros req info resp body Ha Hreq Hc Hinfo Hresp Henc. eapply multisig_asked; [done|exact Ha| |exact Henc].
    destruct (Verify_answered (xd_multisig d) ctx (xe_readings e) (xe_recheck e) req (xs_multisig st) info)
      as (resp' & last' & Hv & Hyes & Hno); [done..|].
    fold ctx. rewrite Hv. cbn. f_equal. destruct Hresp as [(seq & Hs & ->)|[Hs ->]]; [by apply Hyes|by apply Hno].
Qed.
End Xrp.

(** ** The TEE deployment *)
Section Tee.
Context `{ConfigLib} `{!X509Lib Certificate} `{!TeeLib} {Ctx : Type}.
Context `{!NetLib Ctx} `{!HttpLib Ctx} `{!BackgroundCtx Ctx} `{!RelayLib Ctx} `{!DeadlineCtx Ctx}.
Context `{!AbiStructs TeeRequest TeeResponse} `{!HumaInput AttestationRequest}
  `{!HumaInput (AttestationRequestData TeeAvailabilityCheckRequestBody)} `{!HumaDocuments} `{!UrlRule}.
Context (tee_text : TeeAvailabilityCheckResponseBody -> string).

(** What one request finds: its context, the clocks and schedules of its CRL
    lookups, and when its context ends between two calls to the chain. *)
#[local] Abbreviation tee_env := (Ctx * {env : token_env | token_env_ok env} * (nat -> option error))%type.

Record tee_deployment := { td_env : EnvConfig; td_verifier : TeeVerifier; td_common : EncodedAndABI }.
Implicit Type d : tee_deployment.

Definition td_slug d : string :=
  match SourceURLSlug (env_SourceID (td_env d)) (env_SourceURLSlug (td_env d)) with Ok s => s | Err _ => "" end.
Definition td_prefix d : string := DeploymentPrefix (td_slug d) (env_DestinationChainURLSlug (td_env d)).

(** The state of the process is the verifier's CRL cache. *)
Definition tee_operations d : list (operation tee_env (gmap string crlEntry)) :=
  health_operation (td_prefix d) ::
  RegisterVerificationHandler (Verifier0 := TeeCheckVerifier (td_verifier d)) (ReqJSON := TeeAvailabilityCheckRequestBody) tee_text
    id id (fun s _ => s) (td_common d).

Definition tee_serve d : tee_env -> request -> gmap string crlEntry -> response * gmap string crlEntry :=
  serve (td_env d) (td_prefix d) (tee_operations d).

Inductive tee_step d : gmap string crlEntry -> gmap string crlEntry -> Prop :=
| tee_request e r st : tee_step d st (tee_serve d e r st).2.

Record tee_ok d : Prop := {
  to_types : SourceAttestationTypes (env_SourceID (td_env d)) = Some [AvailabilityCheck];
  to_loaded : LoadEncodedAndABI (with_type (td_env d) AvailabilityCheck) = Ok (td_common d)
}.

(** *** Lemmas *)
Lemma tee_operations_ok `{!AttNames} d : tee_ok d -> operations_ok (td_prefix d) (tee_operations d).
Proof.
  intros [Ht Hl]. destruct (loaded_slugs _ _ _ ltac:(by rewrite Ht) Hl) as (slug & Hs & Hp1 & Hp2).
  assert (td_slug d = slug) as Hslug by (unfold td_slug; by rewrite Hs).
  assert (Forall2 (fun t c => LoadEncodedAndABI (with_type (td_env d) t) = Ok c) [AvailabilityCheck] [td_common d]) as Hf
    by (by repeat constructor).
  destruct (loaded_deployed _ _ _ _ Hs Hf) as [Hdep Ht'].
  unfold tee_operations, td_prefix. rewrite Hslug.
  eapply deployment_operations_ok; [exact Hdep| |done|done|reflexivity].
  rewrite Ht'. apply NoDup_singleton.
Qed.

Lemma tee_reachable_ok d st st' : cache_ok st -> rtc (tee_step d) st st' -> cache_ok st'.
Proof.
  intros Hst. induction 1 as [|st st1 st2 [e r ?] _ IH]; [done|]. apply IH.
  apply (serve_keeps (td_env d) (td_prefix d) (tee_operations d) e r cache_ok); [|done].
  intros op body [->|Hop]%elem_of_cons; [apply keeps_lift|]. revert Hop.
  apply (RegisterVerificationHandler_keeps (Verifier0 := TeeCheckVerifier (td_verifier d)) tee_text _ _ _ _ e cache_ok); [done|done|].
  intros b data _. apply Verify_tee_keeps, (proj2_sig e.1.2).
Qed.

Lemma tee_asked `{!AttNames} d e r st data resp body :
  tee_ok d -> asks TeeResponse (td_env d) (td_common d) "verify" r data ->
  (Tee.Verify (td_verifier d) (deadline e.1.1 verifierWorkTimeout) (proj1_sig e.1.2) e.2 data st).1 = Ok resp ->
  encode_response_abi (Req := TeeRequest) (eab_Response (td_common d)) resp = Ok body ->
  verified body (tee_serve d e r st).1.
Proof.
  intros Hok Ha Hv. eapply (asked_verified (Verifier0 := TeeCheckVerifier (td_verifier d))
    (ConvertingVerifier0 := tee_converts (td_verifier d)) tee_text id id (fun s _ => s));
    [by apply tee_operations_ok|intros op Hop; by apply list_elem_of_further|exact Ha|exact Hv].
Qed.

(** *** Properties *)

(** C6. What the TEE deployment certifies on the wire is true, after any sequence of earlier requests: a VERIFIED
    envelope answers a request with a configured API key, addressed to the service and decoded from its body, and
    encodes the state of the TEE asked about: fetched whole from a permitted address of its proxy, bound to the
    challenge and the served chain, attested (or one of the two documented bypasses) and with its signing policies on
    chain; and the CRL cache the requests share stays bounded and holds verified lists only.  What can be established
    is certified: a request with a configured key that decodes to one whose data the proxy serves, bound and attestable
    (or bypassed) with its policies on chain, is answered with a 200 and the VERIFIED envelope of that state. *)
Theorem tee_answers_true `{!AttNames} d st e r envelope :
  tee_ok d -> rtc (tee_step d) NewCRLCache st -> url_parsed r ->
  cache_ok st /\
  (rp_Payload (tee_serve d e r st).1 = PEnvelope envelope -> vr_Status envelope = StatusVerified ->
   route_path r = verify_path (td_common d) ->
   let v := td_verifier d in let ctx := deadline e.1.1 verifierWorkTimeout in
   exists (req : TeeRequest) resp a t info, asked (td_env d) (td_common d) r envelope req resp /\
     fetched_from_proxy ctx (FormatProxyURL v (tq_Url req)) (tq_InstructionId req) (tac_AllowPrivateNetworks (tv_Cfg v))
       a t (tq_TeeProxyId req) /\
     ti_Challenge (tr_TeeInfo t) = tq_Challenge req /\ ti_ChainID (tr_TeeInfo t) = tac_ChainID (tv_Cfg v) /\
     action_bound a (tq_InstructionId req) (tq_TeeId req) (tac_ChainID (tv_Cfg v)) /\
     (bypassed v t info \/ attested v (te_now (proj1_sig e.1.2)) t (tq_TeeId req) info) /\
     policies_on_chain v ctx (tr_TeeInfo t) /\ resp = response_of (tr_TeeInfo t) info) /\
  (let v := td_verifier d in let ctx := deadline e.1.1 verifierWorkTimeout in
   forall (req : TeeRequest) a t info body, asks TeeResponse (td_env d) (td_common d) "verify" r req ->
     FetchTEEChallengeResult ctx (FormatProxyURL v (tq_Url req)) (tq_InstructionId req) (tac_AllowPrivateNetworks (tv_Cfg v)) =
       Ok (a, t, tq_TeeProxyId req) ->
     ti_Challenge (tr_TeeInfo t) = tq_Challenge req -> ti_ChainID (tr_TeeInfo t) = tac_ChainID (tv_Cfg v) ->
     action_bound a (tq_InstructionId req) (tq_TeeId req) (tac_ChainID (tv_Cfg v)) ->
     bypassed v t info \/ attestable v (proj1_sig e.1.2) t (tq_TeeId req) info -> policies_on_chain v ctx (tr_TeeInfo t) ->
     encode_response_abi (Req := TeeRequest) (eab_Response (td_common d)) (response_of (tr_TeeInfo t) info) = Ok body ->
     verified body (tee_serve d e r st).1).
Proof.
  intros Hok Hr Hu. assert (cache_ok st) as Hst by (by eapply tee_reachable_ok; [apply NewCRLCache_ok|]).
  split; [done|]. split; [|cbn zeta; intros req a t info body Hask Hf Hch Hid Ha He Hpol Henc;
    destruct (Verify_tee_established (td_verifier d) _ (proj1_sig e.1.2) e.2 req st a t info (proj2_sig e.1.2) Hst Hf Hch Hid Ha He Hpol) as [s' Hv];
    by eapply (tee_asked d e r st); [..|exact Hask|by rewrite Hv|exact Henc]].
  intros Hpay Hs Hp. cbn zeta.
  destruct (serve_verified (Verifier0 := TeeCheckVerifier (td_verifier d)) (ResJSON := TeeAvailabilityCheckResponseBody)
    id id (fun s _ => s) (td_env d) (td_prefix d) (tee_operations d) (td_common d) e r st envelope
    (tee_operations_ok d Hok) (list_elem_of_here _ _) Hu) as (req & resp & s' & Ha & Hv & _); [|done|done|].
  { eexists. rewrite Hp. do 3 apply list_elem_of_further. apply list_elem_of_here. }
  apply Verify_tee_run in Hv as (a & t & info & Hrun). by exists req, resp, a, t, info.
Qed.
End Tee.
