(* ===== verification/Boot.v ===== *)
(** * From the environment to a serving deployment

    What [LoadEnvConfig], [LoadModule] and [StartServer] leave behind when the
    process starts: one of the two deployments of System.v, with its services
    as the constructors built them, in a state the theorems there start from. *)

From stdpp Require Import base list strings gmap.
From Stdlib Require Import ZArith Lia.
From S2P Require Import Prelude Errors GoStrings Helper Eth Config Instruction PaymentDB FeeProofDB NonceCache Nonce Json.
From S2P Require Import XrpTransaction PaymentStatus FeeProof Multisig UrlValidation Fetcher Crl Tee Handler Bodies.
From S2P Require Import Services Endpoints Server Http Database Loader System.

#[local] Open Scope Z_scope.

(** ** What the constructors build *)
Section Constructors.
Context `{TeeLib} {Ctx : Type} `{!NetLib Ctx} `{!HttpLib Ctx} `{!BackgroundCtx Ctx} `{!RelayLib Ctx}.
Context `{!CallLib Ctx} `{!GormLib} `{!BootLib} `{!GormLaws}.

Lemma on_res_Ok {A} (m : SE resources error A) b a b' :
  on_res m b = (Ok a, b') -> m (bt_res b) = (Ok a, bt_res b').
Proof. unfold on_res. destruct (m (bt_res b)) as [r w]. by intros [= -> <-]. Qed.

Lemma construct_Ok {V} wrap (new : res error Binder -> res error (V * Binder)) u a d1 d2 w vb w' :
  construct wrap new (NewOnChainBinder (Ctx := Ctx) u a) d1 d2 w = (Ok vb, w') ->
  exists dialled, new dialled = Ok vb /\ forall binder, dialled = Ok binder -> binder = NewBinder.
Proof.
  unfold construct. destruct (NewOnChainBinder u a w) as [dialled w1] eqn:Hd. destruct (new dialled) as [vb'|e] eqn:Hn.
  - intros [= <- <-]. exists dialled. split; [done|]. intros binder ->. unfold NewOnChainBinder in Hd.
    destruct (ethclient_Dial u); [|done]. destruct (NewTeePaymentsCaller a); [|done]. by injection Hd as <- _.
  - destruct (CloseDB _ w1) as [? w2]. by destruct (CloseDB _ w2).
Qed.

Lemma NewPaymentService_built env b svc b' :
  NewPaymentService (Ctx := Ctx) env b = (Ok svc, b') ->
  PaymentStatus.Config (py_verifier svc) = py_config svc /\ py_binder svc = NewBinder.
Proof.
  intros (cfg & b1 & _ & ([] & b2 & _ & (dbs & b3 & _ & (vb & b4 & Hc%on_res_Ok & Hr)%se_bind_Ok)%se_bind_Ok)%se_bind_Ok)%se_bind_Ok.
  apply lift_eq in Hr as [[= <-] _]. cbn. apply construct_Ok in Hc as (dialled & Hn & Hb). unfold PaymentStatus.NewXRPVerifier in Hn.
  apply res_bind_Ok in Hn as (binder & Hd%map_err_Ok & [= <-]). by rewrite (Hb _ Hd).
Qed.

Lemma NewFeeProofService_built env b svc b' :
  NewFeeProofService (Ctx := Ctx) env b = (Ok svc, b') ->
  FeeProof.Config (fe_verifier svc) = fe_config svc /\ fe_binder svc = NewBinder /\ maxBatchRange (fe_verifier svc) = 0.
Proof.
  intros (cfg & b1 & _ & ([] & b2 & _ & (dbs & b3 & _ & (vb & b4 & Hc%on_res_Ok & Hr)%se_bind_Ok)%se_bind_Ok)%se_bind_Ok)%se_bind_Ok.
  apply lift_eq in Hr as [[= <-] _]. cbn. apply construct_Ok in Hc as (dialled & Hn & Hb). unfold FeeProof.NewXRPVerifier in Hn.
  apply res_bind_Ok in Hn as (binder & Hd%map_err_Ok & [= <-]). by rewrite (Hb _ Hd).
Qed.

(** The pin at boot stores the time of a probe that confirmed the network, or none. *)
Lemma NewMultisigService_built env b svc b' :
  NewMultisigService (Ctx := Ctx) env b = (Ok svc, b') -> probed (Ctx := Ctx) (mu_verifier svc) (mu_lastVerified svc).
Proof.
  intros (cfg & b1 & _ & (v & b2 & [Hv%map_err_Ok _]%lift_eq & [[= <-] _]%lift_eq)%se_bind_Ok)%se_bind_Ok. cbn.
  unfold NewMultisigVerifier in Hv. destruct (negb _); [done|].
  destruct (Multisig.NewXRPVerifier cfg) as [x last] eqn:Hx. injection Hx as <- <-. unfold VerifyNetwork in Hv.
  match type of Hv with context [checkNetwork ?x ?c ?n ?l] => destruct (checkNetwork x c n l) as [r last'] eqn:E end.
  apply checkNetwork_cases in E as [(-> & -> & Hc)|(Hr & -> & _)]; [injection Hv as <-; right; by eexists|].
  destruct r as [|e]; [done|]. destruct (Is e ErrNetworkMismatch); [done|]. injection Hv as <-. by left.
Qed.

Lemma NewTeeAvailabilityService_built env b svc b' :
  NewTeeAvailabilityService (Ctx := Ctx) env b = (Ok svc, b') -> tv_Cfg (te_verifier svc) = te_config svc.
Proof.
  intros (cfg & b1 & _ & (v & b2 & Hv%on_res_Ok & [[= <-] _]%lift_eq)%se_bind_Ok)%se_bind_Ok. cbn.
  unfold Tee.NewVerifier in Hv. destruct (ethclient_Dial _); [|done]. destruct (NewRelayCaller (tac_RelayContractAddress cfg)); [|done].
  destruct (negb _); [destruct (NewRelayCaller _)|]; cbn in Hv; (done || by injection Hv as <- _).
Qed.

(** ** The loop over the types *)
Lemma load_types_cons env t types closers b cs b' :
  load_types (Ctx := Ctx) env (t :: types) closers b = (Ok cs, b') ->
  exists c b1, registerVerifier (Ctx := Ctx) (with_type env t) b = (Ok c, b1) /\ load_types (Ctx := Ctx) env types (closers ++ c) b1 = (Ok cs, b').
Proof. cbn [load_types]. destruct (registerVerifier _ b) as [[c|e] b1]; [eauto|done]. Qed.

(** A registered service: what its constructor returned, and its configuration. *)
Lemma registered_service {S} t (common : S -> EncodedAndABI) closers env (new : SE boot error S) b c b1 :
  res_wf (bt_res b) -> unset (bt_vars b) t ->
  (forall r b', new b = (r, b') -> constructed t common closers env b r b') ->
  (service ← new; registered (common service) (closers service)) b = (Ok c, b1) ->
  exists svc b0, new b = (Ok svc, b0) /\ c = closers svc /\ LoadEncodedAndABI env = Ok (common svc) /\
    res_wf (bt_res b1) /\ (forall t', t' <> t -> unset (bt_vars b) t' -> unset (bt_vars b1) t').
Proof.
  intros Hw Hu Hn (svc & b0 & Hsvc & Hr)%se_bind_Ok. injection Hr as <- <-. exists svc, b0.
  destruct (Hn _ _ Hsvc) as (_ & Hv & Hg & Hl). split_and!; [done|done|by apply Hl|by eapply grown_wf|done].
Qed.

(** The three services of an XRP source. *)
Record xrp_services (env : EnvConfig) (m : MultisigService) (p : PaymentService) (f : FeeProofService) : Prop := {
  xs_loaded : Forall2 (fun t c => LoadEncodedAndABI (with_type env t) = Ok c)
    [PMWMultisigAccountConfigured; PMWPaymentStatus; PMWFeeProof]
    [msc_common (mu_config m); psc_common (py_config p); fpc_common (fe_config f)];
  xs_built : probed (Ctx := Ctx) (mu_verifier m) (mu_lastVerified m) /\
    PaymentStatus.Config (py_verifier p) = py_config p /\ py_binder p = NewBinder /\
    FeeProof.Config (fe_verifier f) = fe_config f /\ fe_binder f = NewBinder /\ maxBatchRange (fe_verifier f) = 0
}.

Lemma load_types_xrp env b cs b' :
  res_wf (bt_res b) -> bt_vars b = no_vars ->
  load_types (Ctx := Ctx) env [PMWMultisigAccountConfigured; PMWPaymentStatus; PMWFeeProof] [] b = (Ok cs, b') ->
  exists m p f, xrp_services env m p f /\ cs = [ClosePayment p; CloseFee f].
Proof.
  intros Hw Hv (c1 & b1 & Hc1 & (c2 & b2 & Hc2 & (c3 & b3 & Hc3 & Hr)%load_types_cons)%load_types_cons)%load_types_cons.
  injection Hr as <- <-. assert (forall t, unset (bt_vars b) t) as Hu by (intros []; by rewrite Hv).
  destruct (registered_service PMWMultisigAccountConfigured (fun s => msc_common (mu_config s)) (fun _ => []) (with_type env _)
    _ b c1 b1 Hw (Hu _) (fun r b' => NewMultisigService_constructed _ b r b' Hw) Hc1) as (m & bm & Hm & Ec1 & Lm & W1 & U1).
  assert (unset (bt_vars b1) PMWPaymentStatus /\ unset (bt_vars b1) PMWFeeProof) as [V1 V2]
    by (split; apply U1; [discriminate|apply Hu|discriminate|apply Hu]).
  destruct (registered_service PMWPaymentStatus (fun s => psc_common (py_config s)) (fun s => [ClosePayment s]) (with_type env _)
    _ b1 c2 b2 W1 V1 (fun r b' => NewPaymentService_constructed _ b1 r b' W1) Hc2)
    as (p & bp & Hp & Ec2 & Lp & W2 & U2).
  assert (unset (bt_vars b2) PMWFeeProof) as V3 by (apply U2; [discriminate|exact V2]).
  destruct (registered_service PMWFeeProof (fun s => fpc_common (fe_config s)) (fun s => [CloseFee s]) (with_type env _)
    _ b2 c3 b3 W2 V3 (fun r b' => NewFeeProofService_constructed _ b2 r b' W2) Hc3)
    as (f & bf & Hf & Ec3 & Lf & _). subst c1 c2 c3.
  apply NewMultisigService_built in Hm. apply NewPaymentService_built in Hp as [? ?]. apply NewFeeProofService_built in Hf as (? & ? & ?).
  exists m, p, f. split; [|done]. constructor; [by repeat constructor|done].
Qed.
End Constructors.

(** ** The deployment of a started process *)
Section Boot.
Context `{TeeLib} {Ctx : Type} `{!NetLib Ctx} `{!HttpLib Ctx} `{!BackgroundCtx Ctx} `{!RelayLib Ctx}.
Context `{!CallLib Ctx} `{!GormLib} `{!BootLib} `{!GormLaws} `{!DeadlineCtx Ctx}.
Context `{!AddressCodec} `{!JsonLib} `{!CommonFieldsLib} `{!KeyLib} `{!IndexerDB Ctx} `{!NonceCaller Ctx} `{!Others Ctx}.
Context `{!AbiStructs PaymentStatusRequest PaymentStatusResponse} `{!AbiStructs FeeProofRequest FeeProofResponse}
  `{!AbiStructs MultisigRequest MultisigResponse} `{!AbiStructs TeeRequest TeeResponse}.
Context `{!HumaInput AttestationRequest} `{!HumaInput (AttestationRequestData PMWPaymentStatusRequestBody)}
  `{!HumaInput (AttestationRequestData PMWFeeProofRequestBody)} `{!HumaInput (AttestationRequestData MultisigRequest)}
  `{!HumaInput (AttestationRequestData TeeAvailabilityCheckRequestBody)} `{!UrlRule}.
Context (payment_text : PMWPaymentStatusResponseBody -> string) (fee_text : PMWFeeProofResponseBody -> string)
  (multisig_text : PMWMultisigAccountConfiguredResponseBody -> string) (tee_text : TeeAvailabilityCheckResponseBody -> string).

(** The operations the process registered are those of the deployment. *)
Definition serves {Env St} (b : boot) (ops : list (operation Env St)) : Prop :=
  bt_operations b = (fun op => (op_ID op, op_Path op)) <$> ops.

Definition xrp_of (cfg : EnvConfig) (m : MultisigService) (p : PaymentService) (f : FeeProofService) : xrp_deployment :=
  {| xd_env := cfg; xd_multisig := mu_verifier m; xd_multisigCommon := msc_common (mu_config m);
     xd_payment := py_verifier p; xd_fee := fe_verifier f |}.
Definition xrp_initial (m : MultisigService) (p : PaymentService) (f : FeeProofService) : xrp_state (B := Binder) :=
  {| xs_payment := py_binder p; xs_fee := fe_binder f; xs_multisig := mu_lastVerified m |}.

Lemma Forall2_unique {A B} (P : A -> B -> Prop) (l : list A) (k k' : list B) :
  (forall a b b', P a b -> P a b' -> b = b') -> Forall2 P l k -> Forall2 P l k' -> k = k'.
Proof.
  intros Hu Hk. revert k'. induction Hk as [|a b l k Hab _ IH]; intros k' Hk'.
  - by apply Forall2_nil_inv_l in Hk'.
  - apply Forall2_cons_inv_l in Hk' as (b' & k'' & Hab' & Hk'' & ->). f_equal; [by eapply Hu|by apply IH].
Qed.

Lemma StartServer_Ok cfg b srv closers b' :
  StartServer (Ctx := Ctx) cfg b = (Some (srv, closers), b') ->
  exists slug, SourceURLSlug (env_SourceID cfg) (env_SourceURLSlug cfg) = Ok slug /\
    srv_Prefix srv = DeploymentPrefix slug (env_DestinationChainURLSlug cfg) /\ LoadModule (Ctx := Ctx) cfg b = (Ok closers, b').
Proof.
  unfold StartServer. destruct (SourceURLSlug _ _) as [slug|] eqn:Hs; [|done].
  destruct (LoadModule cfg b) as [[cs|e] b1]; [|done]. intros [= <- <- <-]. by exists slug.
Qed.

Lemma LoadModule_types cfg b closers b' slug :
  SourceURLSlug (env_SourceID cfg) (env_SourceURLSlug cfg) = Ok slug -> LoadModule (Ctx := Ctx) cfg b = (Ok closers, b') ->
  exists b0, bt_res b0 = bt_res b /\ bt_vars b0 = bt_vars b /\
    load_types (Ctx := Ctx) cfg (ServedAttestationTypes cfg) [] b0 = (Ok closers, b').
Proof. unfold LoadModule. intros -> Hl. eexists. split; [|split; [|exact Hl]]; done. Qed.

(** The registered operations, from the configurations of the types. *)
Lemma LoadModule_serves cfg b closers b' slug common :
  res_wf (bt_res b) -> bt_vars b = no_vars -> bt_operations b = [] -> NoDup (ServedAttestationTypes cfg) ->
  SourceURLSlug (env_SourceID cfg) (env_SourceURLSlug cfg) = Ok slug -> LoadModule (Ctx := Ctx) cfg b = (Ok closers, b') ->
  Forall2 (fun t c => LoadEncodedAndABI (with_type cfg t) = Ok c) (ServedAttestationTypes cfg) common ->
  bt_operations b' = ("get-health", DeploymentPrefix slug (env_DestinationChainURLSlug cfg) +:+ "/api/health")%string ::
      (common ≫= verification_operations).
Proof.
  intros Hw Hv Ho Hnd Hs Hl Hf. apply LoadModule_operations in Hl as (slug' & common' & Hs' & Hf' & ->); [|done..].
  rewrite Hs in Hs'. injection Hs' as <-. do 2 f_equal. eapply Forall2_unique; [|exact Hf'|exact Hf]. intros; congruence.
Qed.

Lemma xrp_boot cfg b srv closers b' :
  SourceAttestationTypes (env_SourceID cfg) = Some [PMWMultisigAccountConfigured; PMWPaymentStatus; PMWFeeProof] ->
  ServedAttestationTypes cfg = [PMWMultisigAccountConfigured; PMWPaymentStatus; PMWFeeProof] ->
  res_wf (bt_res b) -> bt_vars b = no_vars -> bt_operations b = [] ->
  StartServer (Ctx := Ctx) cfg b = (Some (srv, closers), b') ->
  exists m p f, closers = [ClosePayment p; CloseFee f] /\
    let d := xrp_of cfg m p f in
    xrp_ok d /\ maxBatchRange (xd_fee d) = 0 /\ srv_Prefix srv = xd_prefix d /\
    (forall inv : Binder -> Prop, inv NewBinder -> xrp_inv (Ctx := Ctx) d inv (xrp_initial m p f)) /\
    serves b' (xrp_operations (Ctx := Ctx) (B := Binder) payment_text fee_text multisig_text d).
Proof.
  intros Hsrc Htypes Hw Hv Ho (slug & Hs & Hpre & Hl)%StartServer_Ok.
  destruct (LoadModule_types cfg b closers b' slug Hs Hl) as (b0 & Hr0 & Hv0 & Hlt). rewrite Htypes in Hlt.
  apply load_types_xrp in Hlt as (m & p & f & [Hload (Hm & Hp & Hpb & Hf & Hfb & Hcap)] & ->); [|by rewrite Hr0|by rewrite Hv0].
  exists m, p, f. split; [done|]. cbn zeta.
  assert (xd_slug (xrp_of cfg m p f) = slug) as Hslug by (unfold xd_slug; cbn; by rewrite Hs).
  split_and!.
  - constructor; [done|]. unfold xd_paymentCommon, xd_feeCommon. cbn [xrp_of xd_env xd_multisigCommon xd_payment xd_fee].
    by rewrite Hp, Hf.
  - done.
  - unfold xd_prefix. by rewrite Hslug.
  - intros inv Hinv. constructor; cbn; [by rewrite Hpb|by rewrite Hfb|done].
  - unfold serves. erewrite LoadModule_serves; [|done|done|done| |exact Hs|exact Hl|by rewrite Htypes].
    + unfold xrp_operations, xd_prefix. rewrite Hslug. cbn. unfold xd_paymentCommon, xd_feeCommon. cbn. by rewrite Hp, Hf.
    + rewrite Htypes. apply (bool_decide_unpack _). vm_compute. exact I.
Qed.

Lemma tee_boot cfg b srv closers b' :
  SourceAttestationTypes (env_SourceID cfg) = Some [AvailabilityCheck] -> ServedAttestationTypes cfg = [AvailabilityCheck] ->
  res_wf (bt_res b) -> bt_vars b = no_vars -> bt_operations b = [] ->
  StartServer (Ctx := Ctx) cfg b = (Some (srv, closers), b') ->
  exists v, closers = [CloseTee v] /\
    let d := {| td_env := cfg; td_verifier := v; td_common := tac_common (tv_Cfg v) |} in
    tee_ok d /\ srv_Prefix srv = td_prefix d /\ serves b' (tee_operations (Ctx := Ctx) tee_text d).
Proof.
  intros Hsrc Htypes Hw Hv Ho (slug & Hs & Hpre & Hl)%StartServer_Ok.
  destruct (LoadModule_types cfg b closers b' slug Hs Hl) as (b0 & Hr0 & Hv0 & Hlt). rewrite Htypes in Hlt.
  apply load_types_cons in Hlt as (c & b1 & Hc & Hr). injection Hr as <- <-.
  assert (res_wf (bt_res b0)) as Hw0 by (by rewrite Hr0).
  assert (unset (bt_vars b0) AvailabilityCheck) as Hu0 by (by rewrite Hv0, Hv).
  destruct (registered_service AvailabilityCheck (fun s => tac_common (te_config s)) (fun s => [CloseTee (te_verifier s)])
    (with_type cfg _) _ b0 c b1 Hw0 Hu0 (fun r b' => NewTeeAvailabilityService_constructed _ b0 r b' Hw0) Hc)
    as (svc & bs & Hn & Ec & Hload & _). subst c.
  apply NewTeeAvailabilityService_built in Hn.
  exists (te_verifier svc). split; [done|]. cbn zeta. rewrite Hn. unfold td_prefix, td_slug. cbn. rewrite Hs. split_and!; [by constructor|done|].
  assert (NoDup (ServedAttestationTypes cfg)) as Hnd by (rewrite Htypes; apply NoDup_singleton).
  unfold serves. rewrite (LoadModule_serves cfg b _ _ slug [tac_common (te_config svc)] Hw Hv Ho Hnd Hs Hl).
  - unfold tee_operations, td_prefix, td_slug. cbn [td_env td_common]. rewrite Hs. reflexivity.
  - rewrite Htypes. by repeat constructor.
Qed.

(** ** Properties *)

(** C13. A process that starts serves one of the two deployments: from a fresh state, an accepted environment and a
    successful load, it holds the closers of exactly the services its source needs, as their constructors built them;
    the deployment is configured by the loaders, and its state satisfies the invariant the services keep.  Its
    operations are the ones registered: the health check and, for every type of the source in order, the three endpoints
    under the server's prefix; no two share an id or a path.  It has API keys, none shorter than the minimum. *)
Theorem started_process_deployed `{!AttNames} Getenv dotenv cfg b srv closers b' :
  LoadEnvConfig Getenv dotenv = Ok cfg -> res_wf (bt_res b) -> bt_vars b = no_vars -> bt_operations b = [] ->
  StartServer (Ctx := Ctx) cfg b = (Some (srv, closers), b') ->
  (env_APIKeys cfg <> [] /\ Forall (fun key => minAPIKeyLength <= len key) (env_APIKeys cfg)) /\
  (bt_operations b').*2 = (srv_Prefix srv +:+ "/api/health")%string ::
    (t ← ServedAttestationTypes cfg;
     endpoint ← ["prepareRequestBody"; "prepareResponseBody"; "verify"]%string;
     [(srv_Prefix srv +:+ "/" +:+ att_string t +:+ "/" +:+ endpoint)%string]) /\
  NoDup (bt_operations b').*1 /\ NoDup (bt_operations b').*2 /\
  ((exists v, closers = [CloseTee v] /\
     let d := {| td_env := cfg; td_verifier := v; td_common := tac_common (tv_Cfg v) |} in
     tee_ok d /\ srv_Prefix srv = td_prefix d /\ serves b' (tee_operations (Ctx := Ctx) tee_text d)) \/
   (exists m p f, closers = [ClosePayment p; CloseFee f] /\
     let d := xrp_of cfg m p f in
     xrp_ok d /\ srv_Prefix srv = xd_prefix d /\
     (forall inv : Binder -> Prop, inv NewBinder -> xrp_inv (Ctx := Ctx) d inv (xrp_initial m p f)) /\
     serves b' (xrp_operations (Ctx := Ctx) (B := Binder) payment_text fee_text multisig_text d))).
Proof.
  intros (Hne & Hlong & _ & Htypes & _)%LoadEnvConfig_Ok Hw Hv Ho Hstart. split; [done|].
  assert (ServedAttestationTypes cfg = [AvailabilityCheck] \/
    ServedAttestationTypes cfg = [PMWMultisigAccountConfigured; PMWPaymentStatus; PMWFeeProof]) as Hcase.
  { revert Htypes. unfold SourceAttestationTypes. repeat case_match; naive_solver. }
  assert (NoDup (ServedAttestationTypes cfg)) as Hnd by (destruct Hcase as [-> | ->]; apply (bool_decide_unpack _); vm_compute; exact I).
  destruct (StartServer_Ok _ _ _ _ _ Hstart) as (slug & Hs & Hpre & Hl).
  apply LoadModule_routes in Hl as (slug' & Hs' & Hroutes & Hids & Hpaths); [|done..].
  rewrite Hs in Hs'. injection Hs' as <-. split; [by rewrite Hpre|]. split; [done|]. split; [done|].
  destruct Hcase as [Ht|Ht]; rewrite Ht in Htypes; [left; by apply (tee_boot cfg b)|right].
  destruct (xrp_boot cfg b srv closers b') as (m & p & f & ? & Hok & _ & ?); [done..|]. by exists m, p, f.
Qed.
End Boot.
