(* ===== verification/Verdicts.v ===== *)
(** * The verdicts of a started process

    What the four verify endpoints of a process answer to a request that
    reaches them, in terms of the chain, the indexer, the node and the proxy:
    VERIFIED on what is true, all that is there to be proved; REJECTED on a
    request the verifier refuses or these refute; RETRY on anything else; and
    what is posted without asking anything is turned away.  From the environment of the process
    to the response on the wire, after any sequence of earlier requests. *)

From stdpp Require Import base list strings gmap.
From Stdlib Require Import ZArith Lia.
From S2P Require Import Prelude Errors GoStrings Helper Eth Config Instruction PaymentDB FeeProofDB NonceCache Nonce Json.
From S2P Require Import XrpTransaction PaymentStatus FeeProof Multisig UrlValidation Fetcher Crl Tee Handler Bodies.
From S2P Require Import Services Rejections Endpoints Server Http Wire Database Loader System Boot.

#[local] Open Scope Z_scope.

(** ** Answers *)
(** An answer that is one of the three verdicts, VERIFIED on certified bodies
    only and on every provable one, REJECTED only with a reason. *)
Record exact_verdict (rp : response) (certified provable : bytes -> Prop) (reason : Prop) : Prop := {
  ev_answer : (exists body, verified body rp) \/ refused rp \/ retried rp;
  ev_true : forall body, verified body rp -> certified body;
  ev_complete : forall body, provable body -> verified body rp;
  ev_justified : refused rp -> reason
}.

Section Verdict.
Context `{ConfigLib} {Req Res : Type} `{!AbiStructs Req Res}.

(** The three answers are the three outcomes of the verifier. *)
Lemma envelope_verdict c (answer : res error Res) rp :
  rp_Status rp = 200 -> rp_Payload rp = PEnvelope (envelope c answer) ->
  (forall body, verified body rp <-> exists r, answer = Ok r /\ encode_response_abi (Req := Req) (eab_Response c) r = Ok body) /\
  (refused rp <-> exists e, answer = Err e /\ rejected e) /\
  ((exists body, verified body rp) \/ refused rp \/ retried rp).
Proof.
  intros Hs Hp. unfold verified, refused, retried. rewrite Hp. unfold envelope, rejectedResponse, retryResponse, rejected.
  destruct answer as [r|e].
  - destruct (encode_response_abi (eab_Response c) r) as [body|err] eqn:He.
    + split_and!; [intros b; split|split|left; eauto].
      * intros [_ [= ->]]. eauto.
      * intros (r' & [= <-] & Hb). rewrite He in Hb. injection Hb as ->. done.
      * by intros (_ & m & ?).
      * by intros (e & ? & _).
    + split_and!; [intros b; split|split|right; right; eauto].
      * by intros [_ ?].
      * intros (r' & [= <-] & Hb). congruence.
      * by intros (_ & m & ?).
      * by intros (e & ? & _).
  - pose proof (classifyVerifyStatus_cases e) as Hc. rewrite Hc. split_and!.
    + intros b. split; [|by intros (r & ? & _)]. intros [_ [= Hv _ _]]. by destruct (rejected_spec e).
    + split.
      * intros (_ & m & [= Hv _]). exists e. split; [done|]. by rewrite Hc.
      * intros (e' & [= <-] & Hr). split; [done|]. exists (classifyVerifyStatus e).2. rewrite Hc in Hr. by rewrite Hr.
    + right. destruct (rejected_spec e); [left|right]; eauto.
Qed.

Lemma verdict_exact c (answer : res error Res) rp (certified provable : bytes -> Prop) (reason : Prop) :
  rp_Status rp = 200 -> rp_Payload rp = PEnvelope (envelope c answer) ->
  (forall r body, answer = Ok r -> encode_response_abi (Req := Req) (eab_Response c) r = Ok body -> certified body) ->
  (forall body, provable body -> exists r, answer = Ok r /\ encode_response_abi (Req := Req) (eab_Response c) r = Ok body) ->
  (forall e, answer = Err e -> rejected e -> reason) ->
  exact_verdict rp certified provable reason.
Proof.
  intros Hs Hp Hc Hv Hr. destruct (envelope_verdict c answer rp Hs Hp) as (Hver & Href & Hall). constructor; [done|..].
  - intros body (r & Ha & He)%Hver. by eapply Hc.
  - intros body Hb. by apply Hver, Hv.
  - intros (e & Ha & Hrej)%Href. by eapply Hr.
Qed.
End Verdict.

(** ** The XRP deployment *)
Section XrpVerdicts.
Context `{ConfigLib} `{!EthErrors} `{!AddressCodec} `{!AddressErrors} `{!JsonLib} `{!JsonErrors}.
Context `{!CommonFieldsLib} `{!CommonFieldsErrors} `{!KeyLib}.
Context {Ctx B : Type} `{!IndexerDB Ctx} `{!IndexerErrors Ctx} `{!SequenceVerifier Ctx B} `{!CallLib Ctx} `{!CallLaws Ctx} `{!DeadlineCtx Ctx}.
Context `{!AbiStructs PaymentStatusRequest PaymentStatusResponse} `{!AbiStructs FeeProofRequest FeeProofResponse}
  `{!AbiStructs MultisigRequest MultisigResponse}.
Context `{!HumaInput AttestationRequest} `{!HumaInput (AttestationRequestData PMWPaymentStatusRequestBody)}
  `{!HumaInput (AttestationRequestData PMWFeeProofRequestBody)} `{!HumaInput (AttestationRequestData MultisigRequest)}
  `{!HumaDocuments}.
Context (payment_text : PMWPaymentStatusResponseBody -> string) (fee_text : PMWFeeProofResponseBody -> string)
  (multisig_text : PMWMultisigAccountConfiguredResponseBody -> string).
Context (chain : Hash -> string -> Z) (inv : B -> Prop) (served : Ctx -> Hash -> string -> Prop).
Context `{!SequenceSpec Ctx B chain inv served}.
Implicit Type d : xrp_deployment.

(** [body] encodes what the event, the chain and the ledger row say of the payment. *)
Definition payment_certified (x : PaymentStatus.XRPVerifier) (ctx : Ctx) (req : PaymentStatusRequest) (body : bytes) : Prop :=
  let common := psc_common (PaymentStatus.Config x) in
  exists msg tx raw resp, instruction_event x ctx req msg /\
    1 <= ps_PaymentId req /\ pm_Nonce msg = chain (eab_SourceIDEncoded common) (ps_SenderAddress req) + ps_PaymentId req - 1 /\
    pm_Nonce msg <= MaxUint64 /\ ledger_row ctx (ps_SenderAddress req) (pm_Nonce msg) tx raw /\ describes raw msg tx resp /\
    encode_response_abi (Req := PaymentStatusRequest) (eab_Response common) resp = Ok body.

(** [body] encodes the two sums over the whole batch. *)
Definition fee_certified (x : FeeProof.XRPVerifier) (ctx : Ctx) (req : FeeProofRequest) (body : bytes) : Prop :=
  exists items, batch chain x ctx req items /\ 1 <= fp_BatchCount req /\
    fp_FirstPaymentId req + fp_BatchCount req - 1 <= MaxUint64 /\
    encode_response_abi (Req := FeeProofRequest) (eab_Response (fpc_common (FeeProof.Config x)))
      {| LastPaymentId := fp_FirstPaymentId req + fp_BatchCount req - 1; ActualFee := Zsum (bi_fee <$> items);
         EstimatedFee := Zsum (bi_allow <$> items) |} = Ok body.

(** [body] encodes the account's state as the node reports it. *)
Definition multisig_certified (x : Multisig.XRPVerifier) (c : EncodedAndABI) (ctx : Ctx) (req : MultisigRequest) (body : bytes) : Prop :=
  well_formed_request (mr_PublicKeys req) (mr_Threshold req) /\ (exists probe : Ctx, confirms x probe) /\
  exists info resp, FetchAccountInfo (xv_Client x) ctx (mr_AccountAddress req) = Ok info /\
    ((exists seq, multisig_account info req seq /\ resp = {| mp_Status := PMWMultisigAccountStatusOK; mp_Sequence := seq |}) \/
     (forall seq, ~ multisig_account info req seq) /\ resp = {| mp_Status := PMWMultisigAccountStatusERROR; mp_Sequence := 0 |}) /\
    encode_response_abi (Req := MultisigRequest) (eab_Response c) resp = Ok body.

(** What a request to each service is answered with. *)
Definition payment_answer d (e : xrp_env) (st : xrp_state (B := B)) (req : PaymentStatusRequest) (rp : response) : Prop :=
  let ctx := deadline (xe_ctx e) verifierWorkTimeout in
  let certified := payment_certified (xd_payment d) ctx req in
  let reason := exists b', payment_refused (xd_payment d) ctx req (xs_payment st) b' in
  exact_verdict rp certified
    (fun body => served ctx (eab_SourceIDEncoded (xd_paymentCommon d)) (ps_SenderAddress req) /\ certified body) reason /\
  (reason -> refused rp).

Definition fee_answer d (e : xrp_env) (req : FeeProofRequest) (rp : response) : Prop :=
  let ctx := deadline (xe_ctx e) verifierWorkTimeout in
  let certified := fee_certified (xd_fee d) ctx req in
  exact_verdict rp certified
    (fun body => fp_BatchCount req <= MaxBatchRange /\
       served ctx (eab_SourceIDEncoded (xd_feeCommon d)) (fp_SenderAddress req) /\ certified body)
    (fee_refused (xd_fee d) ctx req chain).

Definition multisig_answer d (e : xrp_env) (st : xrp_state (B := B)) (req : MultisigRequest) (rp : response) : Prop :=
  let ctx := deadline (xe_ctx e) verifierWorkTimeout in
  let certified := multisig_certified (xd_multisig d) (xd_multisigCommon d) ctx req in
  let reason := exists last', multisig_refused (xd_multisig d) ctx (xe_readings e) (xe_recheck e) req (xs_multisig st) last' in
  exact_verdict rp certified (fun body => confirms (xd_multisig d) (WithTimeout ctx networkPinTimeout) /\ certified body) reason /\
  (reason -> refused rp).

Record xrp_verdicts d (e : xrp_env) (st : xrp_state (B := B)) (r : request) (out : response * xrp_state (B := B)) : Prop := {
  xv_payment : forall req, asks PaymentStatusResponse (xd_env d) (xd_paymentCommon d) "verify" r req -> payment_answer d e st req out.1;
  xv_fee : forall req, asks FeeProofResponse (xd_env d) (xd_feeCommon d) "verify" r req -> fee_answer d e req out.1;
  xv_multisig : forall req, asks MultisigResponse (xd_env d) (xd_multisigCommon d) "verify" r req -> multisig_answer d e st req out.1;
  xv_payment_posts : posts (xd_env d) (xd_paymentCommon d) "verify" r ->
    (exists req : PaymentStatusRequest, asks PaymentStatusResponse (xd_env d) (xd_paymentCommon d) "verify" r req) \/
    turned_away (Req := PaymentStatusRequest) PaymentStatusResponse (xd_paymentCommon d) r out.1 /\ out.2 = st;
  xv_fee_posts : posts (xd_env d) (xd_feeCommon d) "verify" r ->
    (exists req : FeeProofRequest, asks FeeProofResponse (xd_env d) (xd_feeCommon d) "verify" r req) \/
    turned_away (Req := FeeProofRequest) FeeProofResponse (xd_feeCommon d) r out.1 /\ out.2 = st;
  xv_multisig_posts : posts (xd_env d) (xd_multisigCommon d) "verify" r ->
    (exists req : MultisigRequest, asks MultisigResponse (xd_env d) (xd_multisigCommon d) "verify" r req) \/
    turned_away (Req := MultisigRequest) MultisigResponse (xd_multisigCommon d) r out.1 /\ out.2 = st
}.

#[local] Abbreviation xrp_serve := (xrp_serve payment_text fee_text multisig_text).
#[local] Abbreviation xrp_step := (xrp_step payment_text fee_text multisig_text).

Lemma payment_verdict `{!AttNames} `{!XrpWidths} d e r st req :
  xrp_ok d -> xrp_inv d inv st -> asks PaymentStatusResponse (xd_env d) (xd_paymentCommon d) "verify" r req ->
  payment_answer d e st req (xrp_serve d e r st).1.
Proof.
  intros Hok [Hp _ _] Ha. unfold payment_answer. set (ctx := deadline _ _). set (rp := (xrp_serve d e r st).1). cbn zeta.
  destruct (asked_verify (Verifier0 := PaymentStatusVerifier (xd_payment d))
    (ConvertingVerifier0 := payment_converts (xd_payment d)) payment_text xe_ctx xs_payment
    (fun s st => {| xs_payment := s; xs_fee := xs_fee st; xs_multisig := xs_multisig st |})
    (xd_env d) (xd_prefix d) (xrp_operations payment_text fee_text multisig_text d) (xd_paymentCommon d)
    (xrp_operations_ok _ _ _ d Hok) (payment_registered _ _ _ d) e r st req Ha) as (_ & Hs & Hpay).
  unfold VerifierVerify, PaymentStatusVerifier in Hpay. fold ctx in Hpay. change (rp_Status rp = 200) in Hs.
  pose proof (xrp_source d Hok) as [Hsrc _]. pose proof Ha as [_ (q & _ & _ & _ & Hw%payment_width)].
  destruct (PaymentStatus.Verify (xd_payment d) ctx req (xs_payment st)) as [answer b'] eqn:Hv. cbn [fst] in Hpay.
  split.
  - apply (verdict_exact _ _ _ _ _ _ Hs Hpay).
    + intros resp body -> Henc.
      apply (PaymentStatus.Verify_bound chain inv served) in Hv as (_ & msg & tx & raw & ? & ? & ? & [_ ?] & ? & ?); [|done..].
      by exists msg, tx, raw, resp.
    + intros body (Hserved & msg & tx & raw & resp & He & Hpos & Hn & Hmax & Hrow & Hd & Henc). exists resp.
      destruct (Verify_established chain inv served (xd_payment d) ctx req (xs_payment st) msg tx raw resp) as (b1 & _ & Hv');
        [done..|]. rewrite Hv in Hv'. injection Hv' as -> _. done.
    + intros err -> Hrej. exists b'. apply (payment_rejected chain inv served). by exists err.
  - intros (b1 & (err & Hv' & Hrej)%(payment_rejected chain inv served)). rewrite Hv in Hv'. injection Hv' as -> ->.
    apply (envelope_verdict _ _ rp Hs Hpay). by exists err.
Qed.

Lemma fee_verdict `{!AttNames} `{!XrpWidths} d e r st req :
  xrp_ok d -> maxBatchRange (xd_fee d) = 0 -> xrp_inv d inv st ->
  asks FeeProofResponse (xd_env d) (xd_feeCommon d) "verify" r req -> fee_answer d e req (xrp_serve d e r st).1.
Proof.
  intros Hok Hcap [_ Hf _] Ha. unfold fee_answer. set (ctx := deadline _ _). set (rp := (xrp_serve d e r st).1). cbn zeta.
  destruct (asked_verify (Verifier0 := FeeProofVerifier (xd_fee d))
    (ConvertingVerifier0 := fee_converts (xd_fee d)) fee_text xe_ctx xs_fee
    (fun s st => {| xs_payment := xs_payment st; xs_fee := s; xs_multisig := xs_multisig st |})
    (xd_env d) (xd_prefix d) (xrp_operations payment_text fee_text multisig_text d) (xd_feeCommon d)
    (xrp_operations_ok _ _ _ d Hok) (fee_registered _ _ _ d) e r st req Ha) as (_ & Hs & Hpay).
  unfold VerifierVerify, FeeProofVerifier in Hpay. fold ctx in Hpay. change (rp_Status rp = 200) in Hs.
  pose proof (xrp_source d Hok) as [_ Hsrc]. pose proof Ha as [_ (q & _ & _ & _ & [Hw1 Hw2]%fee_width)].
  destruct (FeeProof.Verify (xd_fee d) ctx req (xs_fee st)) as [answer b'] eqn:Hv. cbn [fst] in Hpay.
  apply (verdict_exact _ _ _ _ _ _ Hs Hpay).
  - intros resp body -> Henc.
    apply (Verify_batch_sound chain inv served) in Hv as (_ & items & ? & ? & ? & Hl & He & Hact); [|done..].
    exists items. do 3 (split; [done|]). rewrite <- Hl, <- He, <- Hact. by destruct resp.
  - intros body (Hmax & Hserved & items & Hb & Hpos & Hov & Henc). eexists. split; [|exact Henc].
    destruct (Verify_batch_complete chain inv served (xd_fee d) ctx req items (xs_fee st)) as (b1 & _ & Hv'); [done..|].
    rewrite Hv in Hv'. by injection Hv' as ->.
  - intros err -> Hrej. by eapply (fee_rejected (xd_fee d) ctx req chain inv served).
Qed.

Lemma multisig_verdict `{!AttNames} d e r st req :
  xrp_ok d -> xrp_env_ok d e -> xrp_inv d inv st ->
  asks MultisigResponse (xd_env d) (xd_multisigCommon d) "verify" r req -> multisig_answer d e st req (xrp_serve d e r st).1.
Proof.
  intros Hok Henv [_ _ Hm] Ha. unfold multisig_answer. set (ctx := deadline _ _). set (rp := (xrp_serve d e r st).1). cbn zeta.
  destruct (asked_verify (Verifier0 := MultisigVerifier (xd_multisig d))
    (ConvertingVerifier0 := multisig_converts (xd_multisig d)) multisig_text (fun e => (xe_ctx e, xe_readings e, xe_recheck e)) xs_multisig
    (fun s st => {| xs_payment := xs_payment st; xs_fee := xs_fee st; xs_multisig := s |})
    (xd_env d) (xd_prefix d) (xrp_operations payment_text fee_text multisig_text d) (xd_multisigCommon d)
    (xrp_operations_ok _ _ _ d Hok) (multisig_registered _ _ _ d) e r st req Ha) as (_ & Hs & Hpay).
  change (rp_Status rp = 200) in Hs.
  change (rp_Payload rp = PEnvelope (envelope (xd_multisigCommon d)
    (Multisig.Verify (xd_multisig d) ctx (xe_readings e) (xe_recheck e) req (xs_multisig st)).1)) in Hpay.
  destruct (Multisig.Verify (xd_multisig d) ctx (xe_readings e) (xe_recheck e) req (xs_multisig st)) as [answer last'] eqn:Hv.
  cbn [fst] in Hpay. split.
  - apply (verdict_exact _ _ _ _ _ _ Hs Hpay).
    + intros resp body -> Henc. apply Verify_stated in Hv as (Hreq & Hnet & info & Hinfo & Hresp).
      split; [done|]. split; [|by exists info, resp].
      destruct (ensureNetworkVerified_probed (xd_multisig d) ctx (xe_readings e) (xe_recheck e) Henv (xs_multisig st) Hm) as [_ Hc].
      apply Hc. by rewrite Hnet.
    + intros body (Hc & Hreq & _ & info & resp & Hinfo & Hresp & Henc). exists resp. split; [|done].
      destruct (Verify_answered (xd_multisig d) ctx (xe_readings e) (xe_recheck e) req (xs_multisig st) info)
        as (resp' & l' & Hv' & Hyes & Hno); [done..|]. rewrite Hv in Hv'. injection Hv' as -> _. f_equal.
      destruct Hresp as [(seq & Hseq & ->)|[Hn ->]]; [by apply Hyes|by apply Hno].
    + intros err -> Hrej. exists last'. apply multisig_rejected. by exists err.
  - intros (l1 & (err & Hv' & Hrej)%multisig_rejected). rewrite Hv in Hv'. injection Hv' as -> ->.
    apply (envelope_verdict _ _ rp Hs Hpay). by exists err.
Qed.

(** A post that asks nothing leaves the deployment as it was. *)
Lemma payment_posts `{!AttNames} d e r st :
  xrp_ok d -> posts (xd_env d) (xd_paymentCommon d) "verify" r ->
  (exists req : PaymentStatusRequest, asks PaymentStatusResponse (xd_env d) (xd_paymentCommon d) "verify" r req) \/
  turned_away (Req := PaymentStatusRequest) PaymentStatusResponse (xd_paymentCommon d) r (xrp_serve d e r st).1 /\ (xrp_serve d e r st).2 = st.
Proof.
  intros Hok Hp.
  destruct (posted_verify (Verifier0 := PaymentStatusVerifier (xd_payment d)) payment_text xe_ctx xs_payment
    (fun s st => {| xs_payment := s; xs_fee := xs_fee st; xs_multisig := xs_multisig st |})
    (xd_env d) (xd_prefix d) (xrp_operations payment_text fee_text multisig_text d) (xd_paymentCommon d)
    (xrp_operations_ok _ _ _ d Hok) (payment_registered _ _ _ d) r) as [?|Ht]; [by intros []|done|by left|right; apply Ht].
Qed.

Lemma fee_posts `{!AttNames} d e r st :
  xrp_ok d -> posts (xd_env d) (xd_feeCommon d) "verify" r ->
  (exists req : FeeProofRequest, asks FeeProofResponse (xd_env d) (xd_feeCommon d) "verify" r req) \/
  turned_away (Req := FeeProofRequest) FeeProofResponse (xd_feeCommon d) r (xrp_serve d e r st).1 /\ (xrp_serve d e r st).2 = st.
Proof.
  intros Hok Hp.
  destruct (posted_verify (Verifier0 := FeeProofVerifier (xd_fee d)) fee_text xe_ctx xs_fee
    (fun s st => {| xs_payment := xs_payment st; xs_fee := s; xs_multisig := xs_multisig st |})
    (xd_env d) (xd_prefix d) (xrp_operations payment_text fee_text multisig_text d) (xd_feeCommon d)
    (xrp_operations_ok _ _ _ d Hok) (fee_registered _ _ _ d) r) as [?|Ht]; [by intros []|done|by left|right; apply Ht].
Qed.

Lemma multisig_posts `{!AttNames} d e r st :
  xrp_ok d -> posts (xd_env d) (xd_multisigCommon d) "verify" r ->
  (exists req : MultisigRequest, asks MultisigResponse (xd_env d) (xd_multisigCommon d) "verify" r req) \/
  turned_away (Req := MultisigRequest) MultisigResponse (xd_multisigCommon d) r (xrp_serve d e r st).1 /\ (xrp_serve d e r st).2 = st.
Proof.
  intros Hok Hp.
  destruct (posted_verify (Verifier0 := MultisigVerifier (xd_multisig d)) multisig_text (fun e => (xe_ctx e, xe_readings e, xe_recheck e)) xs_multisig
    (fun s st => {| xs_payment := xs_payment st; xs_fee := xs_fee st; xs_multisig := s |})
    (xd_env d) (xd_prefix d) (xrp_operations payment_text fee_text multisig_text d) (xd_multisigCommon d)
    (xrp_operations_ok _ _ _ d Hok) (multisig_registered _ _ _ d) r) as [?|Ht]; [by intros []|done|by left|right; apply Ht].
Qed.

Lemma xrp_verdicts_served `{!AttNames} `{!XrpWidths} d st0 st e r :
  xrp_ok d -> maxBatchRange (xd_fee d) = 0 -> xrp_inv d inv st0 -> rtc (xrp_step d) st0 st -> xrp_env_ok d e ->
  xrp_verdicts d e st r (xrp_serve d e r st).
Proof.
  intros Hok Hcap Hi Hr He. pose proof (xrp_reachable_inv _ _ _ chain inv served d st0 st Hok Hi Hr) as Hst.
  constructor; [intros req Ha; by apply payment_verdict|intros req Ha; by apply fee_verdict|intros req Ha; by apply multisig_verdict|..];
    intros Hp.
  - by apply payment_posts.
  - by apply fee_posts.
  - by apply multisig_posts.
Qed.
End XrpVerdicts.

(** ** The TEE deployment *)
Section TeeVerdicts.
Context `{TeeErrors} `{!X509Errors Certificate} {Ctx : Type}.
Context `{!NetLib Ctx} `{!NetErrors Ctx} `{!HttpLib Ctx} `{!HttpErrors Ctx} `{!BackgroundCtx Ctx} `{!RelayLib Ctx} `{!DeadlineCtx Ctx}.
Context `{!AbiStructs TeeRequest TeeResponse} `{!HumaInput AttestationRequest}
  `{!HumaInput (AttestationRequestData TeeAvailabilityCheckRequestBody)} `{!HumaDocuments} `{!UrlRule}.
Context (tee_text : TeeAvailabilityCheckResponseBody -> string).
Implicit Type d : tee_deployment.

(** [body] encodes the state of the TEE asked about, of whose data [established]
    holds unless it is bypassed. *)
Definition tee_states (v : TeeVerifier) (c : EncodedAndABI) (ctx : Ctx) (established : TeeRequest -> TeeInfoResponse -> StatusInfo -> Prop)
    (req : TeeRequest) (body : bytes) : Prop :=
  exists a t info,
    FetchTEEChallengeResult ctx (FormatProxyURL v (tq_Url req)) (tq_InstructionId req) (tac_AllowPrivateNetworks (tv_Cfg v)) =
      Ok (a, t, tq_TeeProxyId req) /\
    ti_Challenge (tr_TeeInfo t) = tq_Challenge req /\ ti_ChainID (tr_TeeInfo t) = tac_ChainID (tv_Cfg v) /\
    action_bound a (tq_InstructionId req) (tq_TeeId req) (tac_ChainID (tv_Cfg v)) /\
    (bypassed v t info \/ established req t info) /\ policies_on_chain v ctx (tr_TeeInfo t) /\
    encode_response_abi (Req := TeeRequest) (eab_Response c) (response_of (tr_TeeInfo t) info) = Ok body.

(** Certified: the token was validated; provable: it can be from any cache. *)
Definition tee_answer d (e : Ctx * {env : token_env | token_env_ok env} * (nat -> option error))
    (req : TeeRequest) (rp : response) : Prop :=
  let v := td_verifier d in let ctx := deadline e.1.1 verifierWorkTimeout in let env := proj1_sig e.1.2 in
  exact_verdict rp
    (tee_states v (td_common d) ctx (fun req t info => attested v (te_now env) t (tq_TeeId req) info) req)
    (tee_states v (td_common d) ctx (fun req t info => attestable v env t (tq_TeeId req) info) req)
    (tee_refused v ctx env req).

Lemma tee_verdict `{!AttNames} d st e r req :
  tee_ok d -> rtc (tee_step tee_text d) NewCRLCache st -> asks TeeResponse (td_env d) (td_common d) "verify" r req ->
  tee_answer d e req (tee_serve tee_text d e r st).1.
Proof.
  intros Hok Hr Ha. assert (cache_ok st) as Hst by (by eapply tee_reachable_ok; [apply NewCRLCache_ok|]).
  unfold tee_answer. set (v := td_verifier d). set (ctx := deadline _ _). set (env := proj1_sig e.1.2).
  set (rp := (tee_serve tee_text d e r st).1). cbn zeta.
  destruct (asked_verify (Verifier0 := TeeCheckVerifier (td_verifier d))
    (ConvertingVerifier0 := tee_converts (td_verifier d)) (ReqJSON := TeeAvailabilityCheckRequestBody) tee_text id id (fun s _ => s)
    (td_env d) (td_prefix d) (tee_operations tee_text d) (td_common d)
    (tee_operations_ok _ d Hok) (fun op Hop => list_elem_of_further _ _ _ Hop) e r st req Ha) as (_ & Hs & Hpay).
  change (rp_Status rp = 200) in Hs.
  change (rp_Payload rp = PEnvelope (envelope (td_common d) (Tee.Verify v ctx env e.2 req st).1)) in Hpay.
  destruct (Tee.Verify v ctx env e.2 req st) as [answer s'] eqn:Hv. cbn [fst] in Hpay.
  apply (verdict_exact _ _ _ _ _ _ Hs Hpay).
  - intros resp body -> Henc. apply Verify_tee_exact in Hv as (a & t & info & Hf & Hch & Hid & Hact & Hd & Hpol & ->).
    exists a, t, info. do 4 (split; [done|]). split; [by eapply DataVerification_Ok|done].
  - intros body (a & t & info & Hf & Hch & Hid & Hact & Hest & Hpol & Henc). eexists. split; [|exact Henc].
    destruct (Verify_tee_established v ctx env e.2 req st a t info (proj2_sig e.1.2) Hst Hf Hch Hid Hact Hest Hpol) as [s1 Hv'].
    rewrite Hv in Hv'. by injection Hv' as ->.
  - intros err -> Hrej. eapply tee_rejected; [exact (proj2_sig e.1.2)|exact Hst|exact Hv|done].
Qed.
Lemma tee_posts `{!AttNames} d st e r :
  tee_ok d -> posts (td_env d) (td_common d) "verify" r ->
  (exists req : TeeRequest, asks TeeResponse (td_env d) (td_common d) "verify" r req) \/
  turned_away (Req := TeeRequest) TeeResponse (td_common d) r (tee_serve tee_text d e r st).1 /\ (tee_serve tee_text d e r st).2 = st.
Proof.
  intros Hok Hp.
  destruct (posted_verify (Verifier0 := TeeCheckVerifier (td_verifier d)) (ReqJSON := TeeAvailabilityCheckRequestBody) tee_text id id (fun s _ => s)
    (td_env d) (td_prefix d) (tee_operations tee_text d) (td_common d)
    (tee_operations_ok _ d Hok) (fun op Hop => list_elem_of_further _ _ _ Hop) r) as [?|Ht]; [done|done|by left|right; apply Ht].
Qed.
End TeeVerdicts.

(** ** Properties *)
Section Process.
Context `{TeeErrors} `{!EthErrors} `{!EthLaws} `{!X509Errors Certificate} {Ctx : Type}.
Context `{!NetLib Ctx} `{!NetErrors Ctx} `{!HttpLib Ctx} `{!HttpErrors Ctx} `{!BackgroundCtx Ctx} `{!RelayLib Ctx}.
Context `{!CallLib Ctx} `{!CallLaws Ctx} `{!GormLib} `{!BootLib} `{!GormLaws} `{!DeadlineCtx Ctx}.
Context `{!AddressCodec} `{!AddressErrors} `{!JsonLib} `{!JsonErrors} `{!CommonFieldsLib} `{!CommonFieldsErrors} `{!KeyLib}.
Context `{!IndexerDB Ctx} `{!IndexerErrors Ctx} `{!NonceCaller Ctx} `{!Others Ctx} `{!OthersLaws (Ctx := Ctx)}.
Context `{!AbiStructs PaymentStatusRequest PaymentStatusResponse} `{!AbiStructs FeeProofRequest FeeProofResponse}
  `{!AbiStructs MultisigRequest MultisigResponse} `{!AbiStructs TeeRequest TeeResponse}.
Context `{!HumaInput AttestationRequest} `{!HumaInput (AttestationRequestData PMWPaymentStatusRequestBody)}
  `{!HumaInput (AttestationRequestData PMWFeeProofRequestBody)} `{!HumaInput (AttestationRequestData MultisigRequest)}
  `{!HumaInput (AttestationRequestData TeeAvailabilityCheckRequestBody)} `{!HumaDocuments} `{!UrlRule}.
Context (payment_text : PMWPaymentStatusResponseBody -> string) (fee_text : PMWFeeProofResponseBody -> string)
  (multisig_text : PMWMultisigAccountConfiguredResponseBody -> string) (tee_text : TeeAvailabilityCheckResponseBody -> string).

(** C4. From the environment to the verdict: a process that starts from an accepted environment serves, after any
    sequence of requests, exact verdicts.  A post to the verify endpoint of one of its types, with a configured key and a
    body within the limit, that asks the service something (the body parses, names the type and the source, and its
    request decodes) is answered 200 with one of three envelopes: VERIFIED only with the encoding of what the on-chain
    event, the contract's nonce and the ledger row say (of the payment, of every payment of the batch), of what the
    pinned node reports of the account, or of the state of the TEE; VERIFIED on all of these that can be established
    then; and REJECTED only on what the verifiers refuse of a request itself and on what the sources did answer against
    it, never on an outage, for payments and accounts exactly then.  Any other such post is turned away for what it is:
    with an error status when the body is no attestation request, with REJECTED when it is not addressed to the service
    or does not decode; and it leaves the process as it was. *)
Theorem process_verdicts_exact `{!AttNames} `{!XrpWidths} (chain : Hash -> string -> Z) `{!NonceChain Ctx chain}
    Getenv dotenv cfg b srv closers b' :
  LoadEnvConfig Getenv dotenv = Ok cfg -> res_wf (bt_res b) -> bt_vars b = no_vars -> bt_operations b = [] ->
  StartServer (Ctx := Ctx) cfg b = (Some (srv, closers), b') ->
  (ServedAttestationTypes cfg = [AvailabilityCheck] /\ exists v, closers = [CloseTee v] /\
     let d := {| td_env := cfg; td_verifier := v; td_common := tac_common (tv_Cfg v) |} in
     LoadEncodedAndABI (with_type cfg AvailabilityCheck) = Ok (td_common d) /\ serves b' (tee_operations (Ctx := Ctx) tee_text d) /\
     forall st e r, rtc (tee_step tee_text d) NewCRLCache st ->
       (forall req, asks TeeResponse cfg (td_common d) "verify" r req -> tee_answer d e req (tee_serve tee_text d e r st).1) /\
       (posts cfg (td_common d) "verify" r ->
        (exists req : TeeRequest, asks TeeResponse cfg (td_common d) "verify" r req) \/
        turned_away (Req := TeeRequest) TeeResponse (td_common d) r (tee_serve tee_text d e r st).1 /\
        (tee_serve tee_text d e r st).2 = st)) \/
  (ServedAttestationTypes cfg = [PMWMultisigAccountConfigured; PMWPaymentStatus; PMWFeeProof] /\
   exists m p f, closers = [ClosePayment p; CloseFee f] /\
     let d := xrp_of cfg m p f in
     Forall2 (fun t c => LoadEncodedAndABI (with_type cfg t) = Ok c)
       [PMWMultisigAccountConfigured; PMWPaymentStatus; PMWFeeProof] [xd_multisigCommon d; xd_paymentCommon d; xd_feeCommon d] /\
     serves b' (xrp_operations (Ctx := Ctx) (B := Binder) payment_text fee_text multisig_text d) /\
     forall st e r, rtc (xrp_step payment_text fee_text multisig_text d) (xrp_initial m p f) st -> xrp_env_ok d e ->
       xrp_verdicts chain (fun ctx s a => GetInitialNonce ctx s a = Ok (chain s a)) d e st r
         (xrp_serve payment_text fee_text multisig_text d e r st)).
Proof.
  intros (_ & _ & _ & Htypes & _)%LoadEnvConfig_Ok Hw Hv Ho Hstart.
  assert (ServedAttestationTypes cfg = [AvailabilityCheck] \/
    ServedAttestationTypes cfg = [PMWMultisigAccountConfigured; PMWPaymentStatus; PMWFeeProof]) as [Ht|Ht].
  { revert Htypes. unfold SourceAttestationTypes. repeat case_match; naive_solver. }
  - left. rewrite Ht in Htypes. destruct (tee_boot tee_text cfg b srv closers b') as (v & Hc & Hok & _ & Hserves); [done..|].
    split; [done|]. exists v. split; [done|]. cbn zeta. split; [apply Hok|]. split; [done|]. intros st e r Hr. set (d := {| td_env := cfg; td_verifier := v; td_common := tac_common (tv_Cfg v) |}) in *.
    split; [intros req; by apply (tee_verdict tee_text d st)|by apply (tee_posts tee_text d)].
  - right. rewrite Ht in Htypes.
    destruct (xrp_boot payment_text fee_text multisig_text cfg b srv closers b') as (m & p & f & Hc & Hok & Hcap & _ & Hinv & Hserves); [done..|].
    split; [done|]. exists m, p, f. split; [done|]. cbn zeta. split; [apply Hok|]. split; [done|]. intros st e r Hr He.
    apply (xrp_verdicts_served payment_text fee_text multisig_text chain (binder_inv chain) _ _ _ _ e r Hok Hcap
      (Hinv _ (NewBinder_inv chain)) Hr He).
Qed.
End Process.
