(* ===== verification/Samples.v ===== *)
(** * A concrete deployment

    Instances of the library interfaces small enough to compute with: an
    injective hash text and ABI packing, an indexer with a handful of rows, an
    XRPL node, a proxy and its attestation chain.  They show that the interface
    laws can hold together, and the properties are applied to them in
    Witnesses.v. *)

From stdpp Require Import base list strings gmap.
From Stdlib Require Import ZArith Lia Ascii.
From S2P Require Import Prelude Errors GoStrings Helper Eth Config Instruction PaymentDB FeeProofDB NonceCache Nonce Json.
From S2P Require Import XrpTransaction PaymentStatus FeeProof Multisig UrlValidation Fetcher Crl Tee Typing Handler Bodies.
From S2P Require Import Services Endpoints Database Server Http Loader System.

#[local] Open Scope Z_scope.

Definition lib_error : error := EForeign (plain_foreign "library error") [].

Lemma lib_error_foreign {A} (r : res error A) : (forall e, r = Err e -> e = lib_error) -> foreign_res r.
Proof. intros Hr e ->%Hr. apply foreign_lib_error. Qed.

Lemma Ok_eq {E A} (a b : A) : Ok (E := E) a = Ok b -> a = b.
Proof. by intros [= ->]. Qed.

(** An error-free operation, and a table with one failure. *)
Ltac solve_foreign := apply lib_error_foreign; intros ?; cbn; repeat case_match; intros ?; congruence.

Fixpoint lookup_table {A} (k : string) (l : list (string * A)) : option A :=
  match l with [] => None | (k', a) :: l' => if String.eqb k k' then Some a else lookup_table k l' end.
Definition from_table {A} (l : list (string * A)) (k : string) : res error A :=
  match lookup_table k l with Some a => Ok a | None => Err lib_error end.

Lemma from_table_foreign {A} (l : list (string * A)) k : foreign_res (from_table l k).
Proof. unfold from_table. solve_foreign. Qed.

(** ** Hashes *)
Definition hex_digit (z : Z) : ascii := ascii_of_nat (Z.to_nat (if z <? 10 then 48 + z else 87 + z)).
Fixpoint hex_text (n : nat) (z : Z) : string :=
  match n with O => EmptyString | S n => String (hex_digit (z / 16 ^ Z.of_nat n mod 16)) (hex_text n z) end.

Lemma hex_text_length n z : String.length (hex_text n z) = n.
Proof. induction n as [|n IH]; cbn; [done|]. by rewrite IH. Qed.

Lemma hex_digit_inj a b : 0 <= a < 16 -> 0 <= b < 16 -> hex_digit a = hex_digit b -> a = b.
Proof.
  intros Ha Hb He. unfold hex_digit in He. apply (f_equal nat_of_ascii) in He.
  rewrite !nat_ascii_embedding in He by (repeat case_match; lia).
  destruct (Z.ltb_spec a 10), (Z.ltb_spec b 10); lia.
Qed.

Lemma hex_text_inj n z z' : hex_text n z = hex_text n z' -> z mod 16 ^ Z.of_nat n = z' mod 16 ^ Z.of_nat n.
Proof.
  induction n as [|n IH]; cbn [hex_text]; intros He; [by rewrite !Z.mod_1_r|].
  injection He as Hd He. apply IH in He. apply hex_digit_inj in Hd; [|apply Z.mod_pos_bound; lia..].
  rewrite Nat2Z.inj_succ, Z.pow_succ_r, (Z.mul_comm 16), !Z.rem_mul_r by lia. by rewrite He, Hd.
Qed.

Fixpoint str_int (s : string) (acc : Z) : Z :=
  match s with EmptyString => acc | String c s => str_int s (acc * 256 + Z.of_nat (nat_of_ascii c)) end.
Fixpoint str_hash (s : string) (acc : Z) : Z :=
  match s with EmptyString => acc | String c s => str_hash s ((acc * 257 + Z.of_nat (nat_of_ascii c) + 1) mod 1000003) end.

Definition hex_value (c : ascii) : Z := let n := Z.of_nat (nat_of_ascii c) in if n <? 58 then n - 48 else n - 87.
Fixpoint hex_parse (s : string) (acc : Z) : Z :=
  match s with EmptyString => acc | String c s => hex_parse s (acc * 16 + hex_value c) end.

Definition sample_Hex (h : Hash) : string := "0x" +:+ hex_text 64 h.
Definition in_word (z : Z) : bool := (0 <=? z) && (z <? 2 ^ 256).

Lemma in_word_range z : in_word z = true -> 0 <= z < 2 ^ 256.
Proof. unfold in_word. intros [?%Z.leb_le ?%Z.ltb_lt]%andb_true_iff. done. Qed.

(** ABI packing of the six instruction inputs: fixed-width words, then the text. *)
Definition sample_Pack (l : list abi_value) : res error bytes :=
  match l with
  | [VBytes32 o; VBytes32 c; VBytes32 s; VString a; VUint64 p; VUint64 n] =>
      if forallb in_word [o; c; s; p; n] then
        Ok (sample_Hex o +:+ sample_Hex c +:+ sample_Hex s +:+ sample_Hex p +:+ sample_Hex n +:+ a)
      else Err lib_error
  | _ => Err lib_error
  end.

(** Messages, by the text that stands for their encoding. *)
Definition sample_source : Hash := 0x585250.
Definition sample_sender : string := "rSender".
Definition sample_recipient : string := "rRecipient".
Definition payment_message (paymentId nonce amount maxFee : Z) : PaymentInstructionMessage :=
  {| pm_SourceId := sample_source; pm_SenderAddress := sample_sender; pm_PaymentId := paymentId; pm_Nonce := nonce;
     pm_RecipientAddress := sample_recipient; pm_TokenId := ""; pm_Amount := Some amount; pm_MaxFee := Some maxFee;
     pm_PaymentReference := 77 |}.
Definition sample_messages : list (string * PaymentInstructionMessage) :=
  [("pay1", payment_message 1 10 1000 12); ("pay2", payment_message 2 11 500 15); ("reissue1", payment_message 1 10 1000 40)]%string.

Definition sample_op (c : Command) : string := match c with Pay => "PAY" | ReissueCmd => "REISSUE" end.
Definition sample_OpType : Hash := 5.

#[global] Instance SampleEth : EthLib := {
  StringToCommonHash s := if 32 <? len s then Err lib_error else Ok (str_int s 0);
  Hex32StringToCommonHash s := if len s =? 64 then Ok (str_hash s 0) else Err lib_error;
  Hash_Hex := sample_Hex;
  Address_Hex a := "0x" +:+ hex_text 40 a;
  Keccak256Hash b := str_hash b 0;
  abi_Pack := sample_Pack;
  ABI := unit;
  abi_Events _ name := if String.eqb name "TeeInstructionsSent" then Some 0x51 else None;
  UnpackIntoInterface _ _ d := Ok {| ev_OpType := sample_OpType; ev_Message := d;
    ev_OpCommand := str_int (if HasPrefix d "pay" then "PAY" else "REISSUE") 0 |};
  DecodeTo _ := from_table sample_messages;
  ConvertDatabaseLogToChainLog row :=
    Ok {| Topics := [0x51; 0; hex_parse (lg_Topic2 row) 0]; Data := lg_Data row |};
  op_string := sample_op
}.

Lemma sample_Hex_length h : String.length (sample_Hex h) = 66%nat.
Proof.
  unfold sample_Hex. change (String.length ("0x" +:+ hex_text 64 h)) with (2 + String.length (hex_text 64 h))%nat.
  by rewrite hex_text_length.
Qed.

Lemma sample_Hex_inj h h' : 0 <= h < 2 ^ 256 -> 0 <= h' < 2 ^ 256 -> sample_Hex h = sample_Hex h' -> h = h'.
Proof.
  intros Hh Hh' He. unfold sample_Hex in He. apply string_app_inj in He as [_ He]; [|done].
  apply hex_text_inj in He. change (16 ^ Z.of_nat 64) with (2 ^ 256) in He. rewrite !Z.mod_small in He by done. done.
Qed.

Lemma forallb_word l z : forallb in_word l = true -> z ∈ l -> 0 <= z < 2 ^ 256.
Proof.
  rewrite forallb_forall. intros Hf Hz%list_elem_of_In. specialize (Hf _ Hz). unfold in_word in Hf.
  apply andb_true_iff in Hf as [?%Z.leb_le ?%Z.ltb_lt]. done.
Qed.

#[global] Instance SampleEthLaws : EthLaws.
Proof.
  constructor.
  - intros o c s a p n o' c' s' a' p' n' b _ _ _ _. cbn [abi_Pack SampleEth sample_Pack].
    destruct (forallb in_word [o; c; s; p; n]) eqn:E; [|done]. destruct (forallb in_word [o'; c'; s'; p'; n']) eqn:E'; [|done].
    intros Hb Hb'. rewrite <- Hb' in Hb. apply Ok_eq in Hb as He. clear Hb Hb'.
    pose proof (fun z => forallb_word _ z E) as W. pose proof (fun z => forallb_word _ z E') as W'.
    repeat (apply string_app_inj in He as [?Hx He]; [|by rewrite !sample_Hex_length]).
    repeat match goal with H : sample_Hex ?x = sample_Hex ?y |- _ => apply (sample_Hex_inj x y) in H;
      [|apply W; repeat (apply list_elem_of_here || apply list_elem_of_further)
       |apply W'; repeat (apply list_elem_of_here || apply list_elem_of_further)] end. by split_and!.
  - intros h. cbn. intros [= <-] [=].
  - apply sample_Hex_length.
  - apply sample_Hex_inj.
Qed.

#[global] Instance SampleEthErrors : EthErrors.
Proof. constructor; intros; cbn; try (apply from_table_foreign); try unfold sample_Pack; solve_foreign. Qed.

(** ** The PMW deployment *)
#[global] Instance SampleConfig : ConfigLib := {
  abi_Argument := unit;
  fdc2_Methods := Ok (fun _ => Some [tt]);
  instructions_ABI := Ok tt;
  att_string t := match t with
    | AvailabilityCheck => "TeeAvailabilityCheck" | PMWMultisigAccountConfigured => "PMWMultisigAccountConfigured"
    | PMWPaymentStatus => "PMWPaymentStatus" | PMWFeeProof => "PMWFeeProof" | OtherType s => s end;
  IsHexAddress s := len s =? 42;
  HexToAddress s := str_hash s 0 mod 2 ^ 160;
  Certificate := string;
  pem_Decode := Some;
  ParseCertificate s := Ok s;
  rootCertBytes := "root"
}.

#[global] Instance SampleAttNames : AttNames.
Proof.
  constructor.
  - intros [] [] H1 H2; cbn in *; try done.
  - intros [] Hn; try reflexivity. cbn in Hn. done.
Qed.

Definition sample_common (t : AttestationType) : EncodedAndABI :=
  {| eab_SourceID := SourceXRP; eab_SourceIDEncoded := sample_source; eab_AttestationType := t; eab_AttestationTypeEncoded := 9;
     eab_Request := tt; eab_Response := tt; eab_DestinationChainSlug := "flare"; eab_SourceURLSlug := "xrp" |}.

Definition sample_emitter : Address := 0xabcdef.
Definition payment_verifier : PaymentStatus.XRPVerifier :=
  {| PaymentStatus.Repo := NewDBRepo sample_emitter;
     PaymentStatus.Config := {| psc_common := sample_common PMWPaymentStatus; psc_SourceDatabaseURL := ""; psc_CchainDatabaseURL := "";
       psc_FlareTeeManagerContractAddress := sample_emitter; psc_TeePaymentsContractAddress := 0x12;
       psc_FlareRPCURL := ""; psc_ParsedTeeInstructionsABI := tt |} |}.
Definition fee_verifier : FeeProof.XRPVerifier :=
  {| FeeProof.Repo := NewDBRepo sample_emitter;
     FeeProof.Config := {| fpc_common := sample_common PMWFeeProof; fpc_SourceDatabaseURL := ""; fpc_CchainDatabaseURL := "";
       fpc_FlareTeeManagerContractAddress := sample_emitter; fpc_TeePaymentsContractAddress := 0x12;
       fpc_FlareRPCURL := ""; fpc_ParsedTeeInstructionsABI := tt |};
     maxBatchRange := 0 |}.

(** *** The indexer *)
Definition or_zero (r : res error Hash) : Hash := match r with Ok h => h | Err _ => 0 end.
Definition sample_log (id : Hash) (data : string) (timestamp : Z) : DBLog :=
  {| lg_Address := normalizeAddress sample_emitter; lg_Topic0 := removeHexPrefix (Hash_Hex 0x51);
     lg_Topic1 := removeHexPrefix (Hash_Hex 0); lg_Topic2 := removeHexPrefix (Hash_Hex id); lg_Data := data;
     lg_Timestamp := timestamp; lg_BlockNumber := timestamp; lg_LogIndex := 0 |}.
Definition sample_logs : list DBLog :=
  [ sample_log (or_zero (GeneratePayInstructionID sample_OpType sample_source sample_sender 1)) "pay1" 100;
    sample_log (or_zero (GeneratePayInstructionID sample_OpType sample_source sample_sender 2)) "pay2" 110;
    sample_log (or_zero (GenerateReissueInstructionID sample_OpType sample_source sample_sender 1 1)) "reissue1" 120 ].

Definition tx_hash (digit : string) : string := hex_text 63 1 +:+ digit.
Definition sample_tx (digit response : string) (sequence : Z) : DBTransaction :=
  {| tx_Hash := tx_hash digit; tx_BlockNumber := 900; tx_Timestamp := 1000; tx_PaymentReference := ""; tx_Response := response;
     tx_IsNativePayment := true; tx_SourceAddressesRoot := ""; tx_Sequence := sequence; tx_TicketSequence := 0;
     tx_SourceAddress := sample_sender |}.
Definition sample_txs : list DBTransaction := [sample_tx "a" "tx10" 10; sample_tx "b" "tx11" 11].

Definition limited {A} (limit : option nat) (l : list A) : list A := match limit with Some n => take n l | None => l end.
#[global] Instance SampleIndexer : IndexerDB unit := {
  find_logs _ q := Ok (limited (q_limit q) (filter (fun row => lg_Address row = q_address q /\ lg_Topic0 row = q_topic0 q /\
    lg_Topic1 row = q_topic1 q /\ lg_Topic2 row ∈ q_topic2 q) sample_logs));
  find_txs _ q := Ok (limited (tq_limit q) (filter (fun tx => tx_SourceAddress tx = tq_source q /\
    tx_Sequence tx ∈ tq_sequences q) sample_txs))
}.
#[global] Instance SampleIndexerErrors : IndexerErrors unit.
Proof. constructor; intros; cbn; solve_foreign. Qed.

(** *** The nonces *)
Definition sample_chain (s : Hash) (a : string) : Z := 10.
#[global] Instance SampleNonceCaller : NonceCaller unit := fun _ s a => Ok (sample_chain s a).
#[global] Instance SampleNonceChain : NonceChain unit sample_chain.
Proof. constructor; [intros; unfold is_u64, sample_chain, MaxUint64; lia|]. by intros ctx s a n [= <-]. Qed.

(** While a request waits for the chain, another one stores the same account's
    nonce; before it came in, a third one looked for another account. *)
#[global] Instance SampleOthers : Others unit := fun _ _ _ _ =>
  {| before := fun b => (cachedNonce (nonce_key sample_source sample_recipient) b).2;
     between := storeNonce (nonce_key sample_source sample_sender) 10 |}.
#[global] Instance SampleOthersLaws : OthersLaws (Ctx := unit).
Proof.
  constructor; intros; apply rtc_once; cbn [before between others SampleOthers].
  - by apply (step_cached (Ctx := unit) sample_source sample_recipient).
  - by apply (step_store tt sample_source sample_sender).
Qed.

(** *** The transactions *)
Definition sample_tx_json (hash fee sequence : string) (prev fin : string) : json :=
  JObj [("TransactionType", JStr "Payment"); ("Account", JStr sample_sender); ("Fee", JStr fee); ("Sequence", JNum sequence);
        ("hash", JStr hash);
        ("metaData", JObj [("TransactionResult", JStr "tesSUCCESS");
           ("AffectedNodes", JArr [JObj [("ModifiedNode", JObj [("LedgerEntryType", JStr "AccountRoot");
              ("FinalFields", JObj [("Account", JStr sample_recipient); ("Balance", JStr fin)]);
              ("PreviousFields", JObj [("Balance", JStr prev)])])]])])]%string.
#[global] Instance SampleJson : JsonLib := from_table
  [("tx10", sample_tx_json (tx_hash "a") "10" "10" "5000" "6000");
   ("tx11", sample_tx_json (tx_hash "b") "14" "11" "6000" "6500")]%string.
#[global] Instance SampleJsonErrors : JsonErrors.
Proof. intros s. apply from_table_foreign. Qed.

Definition sample_CommonFields : json -> res error CommonFields := decode_struct (fun kvs c =>
  t ← decode_field "TransactionType" decode_string kvs (cf_TransactionType c);
  a ← decode_field "Account" decode_string kvs (cf_Account c);
  f ← decode_field "Fee" decode_string kvs (cf_Fee c);
  s ← decode_field "Sequence" (decode_uint 32) kvs (cf_Sequence c);
  Ok {| cf_TransactionType := t; cf_Account := a; cf_Fee := f; cf_Sequence := s |})
  {| cf_TransactionType := ""; cf_Account := ""; cf_Fee := ""; cf_Sequence := 0 |}.
#[global] Instance SampleCommonFields : CommonFieldsLib := sample_CommonFields.
#[global] Instance SampleCommonFieldsErrors : CommonFieldsErrors.
Proof.
  intros j e He. assert (res_raises [] (sample_CommonFields j)) as Hr by decode_raises.
  specialize (Hr _ He). intros t Ht. destruct (Is e t) eqn:Hi; [|done]. by apply Hr, not_elem_of_nil in Hi.
Qed.

#[global] Instance SampleAddress : AddressCodec := { IsValidXAddress _ := false; XAddressToClassicAddress s := Ok s }.
#[global] Instance SampleAddressErrors : AddressErrors.
Proof. intros s. solve_foreign. Qed.

Definition payment_request : PaymentStatusRequest :=
  {| ps_OpType := sample_OpType; ps_SenderAddress := sample_sender; ps_PaymentId := 1 |}.
Definition fee_request : FeeProofRequest :=
  {| fp_OpType := sample_OpType; fp_SenderAddress := sample_sender; fp_FirstPaymentId := 1; fp_BatchCount := 2; fp_UntilTimestamp := 200 |}.

(** ** The XRPL node *)
#[global] Instance SampleKeys : KeyLib := {
  PubKey := string; ParsePubKeyBytes := fun k => Ok k; CompressPubkey := fun k => k; hex_EncodeToString := fun s => s;
  PubToAddress := fun s => Ok ("r" +:+ s)
}.
Definition sample_account_json : json :=
  JObj [("result", JObj [("status", JStr "success"); ("validated", JBool true);
    ("account_flags", JObj [("disableMasterKey", JBool true)]);
    ("account_data", JObj [("Account", JStr "rMulti"); ("Sequence", JNum "42");
       ("signer_lists", JArr [JObj [("SignerQuorum", JNum "2");
          ("SignerEntries", JArr [JObj [("SignerEntry", JObj [("Account", JStr "rKey1"); ("SignerWeight", JNum "1")])];
                                  JObj [("SignerEntry", JObj [("Account", JStr "rKey2"); ("SignerWeight", JNum "1")])]])]])])])]%string.
Definition sample_server_json : json :=
  JObj [("result", JObj [("status", JStr "success"); ("info", JObj [("network_id", JNum "0")])])]%string.
#[global] Instance SampleCall : CallLib unit := {
  PostWithRetry T _ _ r d :=
    match d (if String.eqb (req_Method r) "server_info" then sample_server_json else sample_account_json) with
    | Ok v => Ok v
    | Err _ => Err lib_error
    end;
  WithTimeout ctx _ := ctx
}.
#[global] Instance SampleCallLaws : CallLaws unit.
Proof.
  constructor.
  - intros T ctx url r d v. cbn. destruct (d _) eqn:E; [|done]. intros [= <-]. eauto.
  - intros T ctx url r d. cbn. solve_foreign.
Qed.
Definition multisig_verifier : Multisig.XRPVerifier := {| xv_SourceID := SourceXRP; xv_Client := {| Multisig.url := "http://node" |} |}.
Definition multisig_request : MultisigRequest :=
  {| mr_AccountAddress := "rMulti"; mr_PublicKeys := ["Key1"; "Key2"]%string; mr_Threshold := 2 |}.

(** ** The TEE proxy *)
Definition public_ip : IP := [93; 184; 216; 34].
#[global] Instance SampleNet : NetLib unit := {
  url_Parse s := Ok {| u_Scheme := "https"; u_Host := "proxy.example"; u_User := false; u_Hostname := "proxy.example"; u_Port := "" |};
  ParseIP _ := None;
  IP_String _ := "93.184.216.34";
  LookupIPAddr _ _ := Ok [public_ip];
  dns_timeout ctx _ := ctx
}.
#[global] Instance SampleNetErrors : NetErrors unit.
Proof. constructor; [intros; cbn; solve_foreign|done|intros; cbn; solve_foreign]. Qed.

#[global] Instance SampleHttp : HttpLib unit := {
  http_NewRequest _ := Ok "host"%string;
  http_RoundTrip _ _ q := Ok {| hr_StatusCode := 200; hr_Location := None; hr_BodyErr := None;
    hr_Body := if HasPrefix (hq_url q) "https://crl" then "crl-intermediate" else "action" |};
  http_timeout ctx _ := ctx
}.
#[global] Instance SampleHttpErrors : HttpErrors unit.
Proof.
  constructor; [intros; cbn; solve_foreign|done|intros; cbn; solve_foreign|]; by intros ctx tr q r e [= <-].
Qed.
#[global] Instance SampleBackground : BackgroundCtx unit := tt.

(** Three certificates; the leaf's list is issued by the intermediate. *)
#[global] Instance SampleX509 : X509Lib Certificate := {
  RevocationList := string;
  Cert_Raw c := c; Cert_RawSubject c := c; NotBefore _ := 0; NotAfter _ := 1000;
  CRLDistributionPoints c := if String.eqb c "leaf" then ["https://crl/leaf"%string] else [];
  Cert_Equal := String.eqb;
  Cert_CheckSignatureFrom c p :=
    if String.eqb (c +:+ "<" +:+ p) "intermediate<root" || String.eqb (c +:+ "<" +:+ p) "leaf<intermediate" then Ok tt else Err lib_error;
  RawIssuer l := TrimPrefix l "crl-"; NextUpdate _ := Some 500;
  CRL_CheckSignatureFrom _ _ := Ok tt;
  ParseRevocationList d := Ok d; sha256_hex s := s; crl_pem_Decode _ := None;
  x5c_value := string;
  ParsePKITokenUnverified t := Ok (x5c_slice ["leaf"; "intermediate"; "root"]%string);
  ExtractCertificatesFromX5CHeader l := Ok {| ch_Root := "root"; ch_Intermediate := "intermediate"; ch_Leaf := "leaf" |}%string
}.
#[global] Instance SampleX509Errors : X509Errors Certificate.
Proof. constructor; intros; cbn; solve_foreign. Qed.

Definition sample_action : ActionResponse :=
  {| ac_Result := {| ar_ID := 31; ar_Status := 1; ar_OPType := 1; ar_OPCommand := 2; ar_Data := "info" |};
     ac_Signature := "tee"; ac_ProxySignature := "proxy" |}.
Definition sample_info : TeeInfoResponse :=
  {| tr_TeeInfo := {| ti_Challenge := 99; ti_PublicKey := (3, 4); ti_ChainID := 14; ti_TeeTimestamp := 600;
       ti_InitialSigningPolicyID := 5; ti_InitialSigningPolicyHash := 1005; ti_LastSigningPolicyID := 8;
       ti_LastSigningPolicyHash := 2008;
       ti_State := {| ts_SystemState := ""; ts_SystemStateVersion := 0; ts_State := ""; ts_StateVersion := 0 |} |};
     tr_Attestation := "token" |}.
#[global] Instance SampleTee : TeeLib := {
  unmarshal_ActionResponse := from_table [("action", sample_action)]%string;
  json_Valid _ := true;
  unmarshal_TeeInfoResponse := from_table [("info", sample_info)]%string;
  Result_Hash r := ar_ID r;
  Payload_Hash _ chainID h := Ok (chainID + h);
  SignatureToSignersAddress _ s := from_table [("proxy", 70); ("tee", 71)]%string s;
  VerifySignature _ s a := match from_table [("proxy", 70); ("tee", 71)]%string s with
    | Ok signer => if signer =? a then Ok tt else Err lib_error | Err _ => Err lib_error end;
  TeeInfo_Hash _ := Ok "nonce"%string;
  tee_hex s := s;
  instruction_hex _ := "1f";
  PubKeyToAddress _ := Ok 71;
  ParseAndValidatePKIToken _ _ _ _ policy :=
    if String.eqb (po_Audience policy) "aud" then
      Ok {| cl_SWName := "CONFIDENTIAL_SPACE"; cl_DebugStatus := "disabled-since-boot"; cl_HWModel := "GCP_AMD_SEV";
            cl_ImageID := "image"; cl_SupportAttributes := Some ["STABLE"%string] |}
    else Err lib_error;
  Claims_CodeHash _ := Ok 81; Claims_Platform _ := Ok 82;
  JoinPath base _ := Ok (base +:+ "/action/result/1f");
  expectedAvailabilityOPType := 1; expectedAvailabilityOPCommand := 2;
  MagicPass := "magic_pass"; ConfidentialSpaceIssuer := "issuer"
}.
#[global] Instance SampleTeeErrors : TeeErrors.
Proof.
  constructor; intros; cbn; try apply from_table_foreign; unfold from_table; solve_foreign.
Qed.
#[global] Instance SampleRelay : RelayLib unit := {
  Relay_ToSigningPolicyHash addr _ id := Ok (addr * 1000 + id);
  relay_timeout ctx _ := ctx;
  NewRelayCaller _ := Ok tt;
  ethclient_Dial _ := Ok tt
}.

(** Policies from the sixth on are on the second Relay. *)
Definition tee_verifier : TeeVerifier :=
  {| tv_Cfg := {| tac_common := sample_common AvailabilityCheck; tac_RelayContractAddress := 1; tac_RelayCutoverContractAddress := 2;
       tac_RelayCutoverStartingRewardEpoch := 6; tac_AllowTeeDebug := false; tac_DisableAttestationCheckE2E := false;
       tac_AllowPrivateNetworks := false; tac_FlareRPCURL := ""; tac_GoogleRootCertificate := "root"%string;
       tac_TeeAudience := "aud"; tac_ChainID := 14 |};
     tv_Relay := cutoverRelay 1 2 6; tv_CRLCache := true |}.
Definition tee_request : TeeRequest :=
  {| tq_TeeId := 71; tq_TeeProxyId := 70; tq_Url := "https://proxy.example"; tq_Challenge := 99; tq_InstructionId := 31 |}.
(** While a list is fetched, another request stores one under another URL. *)
Definition other_list : gmap string crlEntry -> gmap string crlEntry :=
  storeCRL (fun _ => 10) 10 (crlCacheKey "https://crl/other" "intermediate"%string) "crl-intermediate".
Definition sample_readings : crl_readings :=
  {| rd_check := 10; rd_recheck := 10; rd_evict := fun _ => 10; rd_store := 10;
     rd_arrive := id; rd_wait := id; rd_fetch := other_list |}.
Lemma sample_readings_ok : readings_ok sample_readings.
Proof.
  constructor; intros entries; [apply rtc_refl..|]. apply rtc_once.
  apply (crl_store _ _ "https://crl/other" "intermediate"%string "crl-intermediate"). reflexivity.
Qed.
Definition sample_env : token_env (Certificate := Certificate) :=
  {| te_now := 10; te_leaf := fun _ => (sample_readings, OwnFlight); te_intermediate := fun _ => (sample_readings, OwnFlight) |}.
Lemma sample_env_ok : token_env_ok sample_env.
Proof. split; intros i; (split; [apply sample_readings_ok|exact I]). Qed.
Definition never : nat -> option error := fun _ => None.

(** ** The handlers and the process *)
#[global] Instance SampleDeadline : DeadlineCtx unit := fun ctx _ => ctx.
#[global] Instance SampleAbi : AbiStructs PaymentStatusRequest PaymentStatusResponse := {
  encode_request_abi _ r :=
    if (ps_OpType r =? sample_OpType) && String.eqb (ps_SenderAddress r) sample_sender && (ps_PaymentId r =? 1)
    then Ok "request"%string else Err lib_error;
  decode_request_abi _ b := if String.eqb b "request" then Ok payment_request else Err lib_error;
  encode_response_abi _ _ := Ok "response"%string
}.

#[global] Instance SampleAbiLaws : AbiLaws PaymentStatusRequest PaymentStatusResponse.
Proof.
  constructor.
  - by intros ? ? ? [= <-].
  - intros a r b. cbn. case_match; [|done]. by intros [= <-].
  - intros a [o sd p] b. cbn. destruct (Z.eqb_spec o sample_OpType); [|done].
    destruct (String.eqb_spec sd sample_sender); [|done]. destruct (Z.eqb_spec p 1); [|done]. intros [= <-]. by subst.
Qed.

#[global] Instance SampleGorm : GormLib := {
  gorm_Open dialect dsn call := if call =? 1 then Err lib_error else Ok tt;
  gorm_DB _ := Ok tt; sqlDB_Close _ := Ok tt; error_Error _ := "refused"
}.
#[global] Instance SampleGormLaws : GormLaws := fun _ => eq_refl.
#[global] Instance SampleBoot : BootLib := { NewTeePaymentsCaller _ := Ok tt; time_Now := 1000 }.

(** The environment of an XRP deployment, and of a TEE one. *)
Definition sample_address (d : string) : string := "0x" +:+ hex_text 39 0 +:+ d.
Definition sample_Getenv (source name : string) : string :=
  default ""%string (lookup_table name
    [("PORT", "8080"); ("SOURCE_ID", source); ("API_KEYS", "short-lived-key-0001, another-secret-key-2");
     ("DESTINATION_CHAIN_URL_SLUG", "flare"); ("SOURCE_RPC_URL", "http://node"); ("FLARE_RPC_URL", "http://flare");
     ("FLARE_TEE_MANAGER_CONTRACT_ADDRESS", sample_address "1"); ("TEE_PAYMENTS_CONTRACT_ADDRESS", sample_address "2");
     ("RELAY_CONTRACT_ADDRESS", sample_address "3"); ("CHAIN_ID", "14");
     ("SOURCE_DATABASE_URL", "postgres://u:p@host/db?sslmode=disable"); ("CCHAIN_DATABASE_URL", "u:p@tcp(host)/db")]%string).
Definition empty_env : EnvConfig :=
  Build_EnvConfig "" "" "" "" "" "" "" "" "" "" "" "" "" "" "" "" "" [] (OtherType "") [] "".
Definition sample_EnvConfig (source : string) : EnvConfig :=
  match LoadEnvConfig (sample_Getenv source) id with Ok c => c | Err _ => empty_env end.
Definition fresh_boot : boot :=
  {| bt_res := {| r_dbs := ∅; r_calls := 0; r_sleeps := []; r_clients := 0 |}; bt_operations := []; bt_vars := no_vars |}.

(** ** The types of what is read *)
Lemma str_hash_bound s acc : 0 <= acc < 1000003 -> 0 <= str_hash s acc < 1000003.
Proof.
  revert acc. induction s as [|c s IH]; intros acc Ha; cbn [str_hash]; [done|].
  apply IH. apply Z.mod_pos_bound. lia.
Qed.

#[global] Instance SamplePaymentTypes : PaymentTypes unit.
Proof.
  constructor.
  - intros ctx q txs tx [= <-] Hin.
    assert (tx ∈ sample_txs) as Htx.
    { unfold limited in Hin. destruct (tq_limit q).
      - apply elem_of_take in Hin as (i & Hi & _). apply list_elem_of_lookup_2, list_elem_of_filter in Hi as [_ Hi]. done.
      - by apply list_elem_of_filter in Hin as [_ Hi]. }
    unfold sample_txs in Htx. repeat (apply elem_of_cons in Htx as [->|Htx]; [split; split; vm_compute; discriminate|]).
    by apply not_elem_of_nil in Htx.
  - intros s h. cbn. destruct (len s =? 64); [|done]. intros [= <-]. pose proof (str_hash_bound s 0 ltac:(lia)).
    unfold uint256. lia.
  - intros c b msg. cbn [DecodeTo SampleEth]. unfold from_table, sample_messages. cbn [lookup_table].
    destruct (String.eqb b "pay1"); [intros <-%Ok_eq; by split|]. destruct (String.eqb b "pay2"); [intros <-%Ok_eq; by split|].
    destruct (String.eqb b "reissue1"); [intros <-%Ok_eq; by split|done].
Qed.

#[global] Instance SampleTeeTypes : TeeTypes.
Proof.
  constructor.
  - intros b t. cbn [unmarshal_TeeInfoResponse SampleTee]. unfold from_table. cbn [lookup_table].
    destruct (String.eqb b "info"); [|done]. intros <-%Ok_eq. split_and!; by split.
  - intros c h [<-%Ok_eq|<-%Ok_eq]; by split.
Qed.

(** ** The two deployments on the wire *)
Definition sample_loaded (source : string) (t : AttestationType) : EncodedAndABI :=
  match LoadEncodedAndABI (with_type (sample_EnvConfig source) t) with Ok c => c | Err _ => sample_common t end.

#[global] Instance SampleFeeAbi : AbiStructs FeeProofRequest FeeProofResponse := {
  encode_request_abi _ _ := Err lib_error;
  decode_request_abi _ b := if String.eqb b "fee-request" then Ok fee_request else Err lib_error;
  encode_response_abi _ _ := Ok "response"%string
}.
#[global] Instance SampleMultisigAbi : AbiStructs MultisigRequest MultisigResponse := {
  encode_request_abi _ _ := Err lib_error;
  decode_request_abi _ b := if String.eqb b "multisig-request" then Ok multisig_request else Err lib_error;
  encode_response_abi _ _ := Ok "response"%string
}.
#[global] Instance SampleTeeAbi : AbiStructs TeeRequest TeeResponse := {
  encode_request_abi _ _ := Err lib_error;
  decode_request_abi _ b := if String.eqb b "tee-request" then Ok tee_request else Err lib_error;
  encode_response_abi _ _ := Ok "response"%string
}.
Lemma str_int_bound s acc : 0 <= acc -> 0 <= str_int s acc < (acc + 1) * 256 ^ len s.
Proof.
  unfold len. revert acc. induction s as [|c s IH]; intros acc Ha; cbn [str_int String.length]; [cbn; lia|].
  pose proof (nat_ascii_bounded c) as Hc. rewrite Nat2Z.inj_succ, Z.pow_succ_r by lia.
  specialize (IH (acc * 256 + Z.of_nat (nat_of_ascii c)) ltac:(lia)). split; [lia|].
  eapply Z.lt_le_trans; [apply IH|]. rewrite Z.mul_assoc. apply Z.mul_le_mono_nonneg_r; lia.
Qed.

#[global] Instance SampleXrpWidths : XrpWidths.
Proof.
  constructor.
  - intros s h. cbn. destruct (Z.ltb_spec 32 (len s)) as [|Hl]; [done|]. intros [= <-].
    pose proof (str_int_bound s 0 ltac:(lia)) as Hb. split; [lia|]. eapply Z.lt_le_trans; [apply Hb|].
    change (2 ^ 256) with (256 ^ 32). rewrite Z.mul_1_l. apply Z.pow_le_mono_r; lia.
  - intros a b r. cbn. case_match; [|done]. intros [= <-]. unfold is_u64, MaxUint64. cbn. lia.
  - intros a b r. cbn. case_match; [|done]. intros [= <-]. unfold is_u64, MaxUint64. cbn. lia.
Qed.

(** A JSON request, by the text that stands for it. *)
Definition sample_body (source : string) (t : AttestationType) (body : bytes) : AttestationRequest :=
  {| aq_AttestationType := str_int (att_string t) 0; aq_SourceID := str_int source 0; aq_RequestBody := body |}.
#[global] Instance SampleHuma : HumaInput AttestationRequest := {
  huma_parse b := match lookup_table b
    [("payment", sample_body "XRP" PMWPaymentStatus "request"); ("fee", sample_body "XRP" PMWFeeProof "fee-request");
     ("multisig", sample_body "XRP" PMWMultisigAccountConfigured "multisig-request");
     ("tee", sample_body "TEE" AvailabilityCheck "tee-request")]%string with Some r => Ok r | None => Err 422 end;
  huma_unreadable := 413
}.
(** The form of the payment asked about, for prepareRequestBody. *)
Definition payment_form : AttestationRequestData PMWPaymentStatusRequestBody :=
  {| ad_AttestationType := str_int (att_string PMWPaymentStatus) 0; ad_SourceID := str_int "XRP" 0;
     ad_RequestData := {| pb_OpType := sample_OpType; pb_SenderAddress := sample_sender; pb_PaymentId := 1 |} |}.
#[global] Instance SampleHumaPayment : HumaInput (AttestationRequestData PMWPaymentStatusRequestBody) | 0 :=
  { huma_parse b := if String.eqb b "form" then Ok payment_form else Err 422; huma_unreadable := 413 }.
#[global] Instance SampleHumaData {X} : HumaInput (AttestationRequestData X) | 1 := { huma_parse _ := Err 422; huma_unreadable := 413 }.
#[global] Instance SampleDocuments : HumaDocuments := fun _ _ => None.
#[global] Instance SampleUrlRule : UrlRule := fun _ => true.

Definition xrp_sample : xrp_deployment :=
  {| xd_env := sample_EnvConfig "XRP"; xd_multisig := multisig_verifier;
     xd_multisigCommon := sample_loaded "XRP" PMWMultisigAccountConfigured;
     xd_payment := {| PaymentStatus.Repo := NewDBRepo sample_emitter;
       PaymentStatus.Config := {| psc_common := sample_loaded "XRP" PMWPaymentStatus; psc_SourceDatabaseURL := "";
         psc_CchainDatabaseURL := ""; psc_FlareTeeManagerContractAddress := sample_emitter;
         psc_TeePaymentsContractAddress := 0x12; psc_FlareRPCURL := ""; psc_ParsedTeeInstructionsABI := tt |} |};
     xd_fee := {| FeeProof.Repo := NewDBRepo sample_emitter;
       FeeProof.Config := {| fpc_common := sample_loaded "XRP" PMWFeeProof; fpc_SourceDatabaseURL := "";
         fpc_CchainDatabaseURL := ""; fpc_FlareTeeManagerContractAddress := sample_emitter;
         fpc_TeePaymentsContractAddress := 0x12; fpc_FlareRPCURL := ""; fpc_ParsedTeeInstructionsABI := tt |};
       maxBatchRange := 0 |} |}.

Definition tee_sample : tee_deployment :=
  {| td_env := sample_EnvConfig "TEE"; td_verifier := tee_verifier; td_common := sample_loaded "TEE" AvailabilityCheck |}.

Lemma xrp_sample_ok : xrp_ok xrp_sample.
Proof. constructor; [reflexivity|repeat constructor]. Qed.

Lemma tee_sample_ok : tee_ok tee_sample.
Proof. constructor; reflexivity. Qed.

Definition post (key path : string) (body : bytes) : request :=
  {| rq_Method := "POST"; rq_Path := path; rq_RawPath := ""; rq_APIKey := key; rq_Body := body |}.
Definition sample_key_text : string := "short-lived-key-0001".
Definition xrp_sample_env : xrp_env (Ctx := unit) :=
  {| xe_ctx := tt; xe_readings := {| at_check := 5000; at_recheck := 5000; at_store := 5000 |}; xe_recheck := fun _ => 0 |}.
