(* ===== verification/Witnesses.v ===== *)
(** * The properties at concrete inputs

    Each property with hypotheses, applied to the deployment of Samples.v. *)

From stdpp Require Import base list strings gmap.
From Stdlib Require Import ZArith Lia Ascii.
From S2P Require Import Prelude Errors GoStrings Helper Eth Config Instruction PaymentDB FeeProofDB NonceCache Nonce Json.
From S2P Require Import XrpTransaction PaymentStatus FeeProof Multisig UrlValidation Fetcher Crl Tee Typing Handler Bodies Services Rejections Endpoints.
From S2P Require Import RequestId Database Server Http Loader Wire System Boot Verdicts Samples.

#[local] Open Scope Z_scope.

(** A computation that is seen to succeed has a result. *)
Lemma run_Ok {S A} (m : res error A * S) : is_ok m.1 = true -> exists a s, m = (Ok a, s).
Proof. destruct m as [[a|e] s]; [eauto|done]. Qed.
Lemma run_Err {S A} (m : res error A * S) : is_ok m.1 = false -> exists e s, m = (Err e, s).
Proof. destruct m as [[a|e] s]; [done|eauto]. Qed.
Lemma result_Ok {A} (m : res error A) : is_ok m = true -> exists a, m = Ok a.
Proof. destruct m; [eauto|done]. Qed.

Ltac computed := vm_compute; reflexivity.
Lemma u64_computed z : (0 <=? z) && (z <=? MaxUint64) = true -> is_u64 z.
Proof. intros [?%Z.leb_le ?%Z.leb_le]%andb_true_iff. done. Qed.
Ltac word := first [apply in_word_range; computed|apply u64_computed; computed].

(** ** PMW *)
Definition sample_served (ctx : unit) (s : Hash) (a : string) : Prop := GetInitialNonce ctx s a = Ok (sample_chain s a).
Definition sample_inv : Binder -> Prop := binder_inv sample_chain.

Lemma sample_new_inv : sample_inv NewBinder.
Proof. apply NewBinder_inv. Qed.

#[local] Instance sample_spec : SequenceSpec unit Binder sample_chain sample_inv sample_served.
Proof. exact (Binder_SequenceSpec (Ctx := unit) sample_chain). Qed.

Lemma payment_run :
  exists resp b', PaymentStatus.Verify payment_verifier tt payment_request NewBinder = (Ok resp, b').
Proof. apply run_Ok. computed. Qed.
Lemma fee_run : exists resp b', FeeProof.Verify fee_verifier tt fee_request NewBinder = (Ok resp, b').
Proof. apply run_Ok. computed. Qed.

Lemma payment_verify_sound_witness :
  exists resp b' msg tx raw,
    PaymentStatus.Verify payment_verifier tt payment_request NewBinder = (Ok resp, b') /\ sample_inv b' /\
    ledger_row tt sample_sender (pm_Nonce msg) tx raw /\ describes raw msg tx resp.
Proof.
  destruct payment_run as (resp & b' & Hv).
  destruct (payment_verify_sound sample_chain sample_inv sample_served payment_verifier tt payment_request NewBinder resp b')
    as (Hi & msg & tx & raw & _ & _ & _ & _ & Hrow & Hd); [word|word|apply sample_new_inv|exact Hv|].
  exists resp, b', msg, tx, raw. exact (conj Hv (conj Hi (conj Hrow Hd))).
Defined.

Lemma payment_verify_complete_witness :
  exists resp b', PaymentStatus.Verify payment_verifier tt payment_request NewBinder = (Ok resp, b') /\ sample_inv b'.
Proof.
  destruct payment_run as (resp & b' & Hv).
  apply PaymentStatus.Verify_run in Hv as (msg & tx & raw & He & Hs & Hrow & Hd).
  apply (seq_sound (chain := sample_chain) (inv := sample_inv) (served := sample_served)) in Hs as (H1 & Hn & Hu);
    [|word|word|apply sample_new_inv].
  destruct (payment_verify_complete sample_chain sample_inv sample_served payment_verifier tt payment_request NewBinder
    msg tx raw resp) as (b2 & Hi & Hv2);
    [word|word|apply sample_new_inv|reflexivity|exact He|exact H1|exact Hn|apply Hu|exact Hrow|exact Hd|].
  exists resp, b2. exact (conj Hv2 Hi).
Defined.

Lemma fee_verify_sound_witness :
  exists resp b' items, FeeProof.Verify fee_verifier tt fee_request NewBinder = (Ok resp, b') /\
    batch sample_chain fee_verifier tt fee_request items /\ ActualFee resp = Zsum (bi_fee <$> items).
Proof.
  destruct fee_run as (resp & b' & Hv).
  destruct (fee_verify_sound sample_chain sample_inv sample_served fee_verifier tt fee_request NewBinder resp b')
    as (_ & items & Hb & _ & _ & _ & _ & Ha); [word|word|word|apply sample_new_inv|exact Hv|].
  exists resp, b', items. exact (conj Hv (conj Hb Ha)).
Defined.

Lemma fee_verify_complete_witness :
  exists items b', FeeProof.Verify fee_verifier tt fee_request NewBinder =
    (Ok {| LastPaymentId := 2; ActualFee := Zsum (bi_fee <$> items); EstimatedFee := Zsum (bi_allow <$> items) |}, b').
Proof.
  destruct fee_run as (resp & b' & Hv).
  apply (Verify_batch_sound sample_chain sample_inv sample_served) in Hv as (_ & items & Hb & _); [|word|word|word|apply sample_new_inv].
  destruct (fee_verify_complete sample_chain sample_inv sample_served fee_verifier tt fee_request items NewBinder) as (b2 & _ & Hv2);
    [word|word|word|apply sample_new_inv|reflexivity|split; vm_compute; discriminate|vm_compute; discriminate|reflexivity|exact Hb|].
  exists items, b2. exact Hv2.
Defined.

Lemma fee_sums_bounded_witness :
  exists resp b' items, FeeProof.Verify fee_verifier tt fee_request NewBinder = (Ok resp, b') /\
    0 <= ActualFee resp <= MaxXRPDrops * 2 /\
    batch sample_chain fee_verifier tt fee_request items /\ Z.of_nat (length items) = 2 /\ NoDup (bi_tx <$> items).
Proof.
  destruct fee_run as (resp & b' & Hv).
  destruct (fee_sums_bounded sample_chain sample_inv sample_served fee_verifier tt fee_request NewBinder resp b')
    as (Ha & _ & items & Hb & Hl & _ & _ & Hnd & _); [word|word|word|apply sample_new_inv|exact Hv|].
  exists resp, b', items. exact (conj Hv (conj Ha (conj Hb (conj Hl Hnd)))).
Defined.

(** ** The binder *)
Definition sample_key : string := nonce_key sample_source sample_sender.

Lemma binder_refines_lru_witness : abs (storeNonce sample_key 10 NewBinder) = [(sample_key, 10)].
Proof.
  destruct (binder_refines_lru NewBinder) as (_ & Hs & _); [apply sample_new_inv|].
  destruct (Hs sample_key 10) as [_ ->]. vm_compute. reflexivity.
Defined.

Lemma sample_steps : rtc (binder_step (Ctx := unit)) NewBinder (storeNonce sample_key 10 (cachedNonce sample_key NewBinder).2).
Proof.
  eapply rtc_l; [by apply (step_cached sample_source sample_sender)|]. apply rtc_once.
  by apply (step_store tt sample_source sample_sender).
Qed.

Lemma binder_interleaving_safe_witness :
  sample_inv (storeNonce sample_key 10 (cachedNonce sample_key NewBinder).2) /\
  rtc (binder_step (Ctx := unit)) (storeNonce sample_key 10 (cachedNonce sample_key NewBinder).2)
    (VerifySequence tt sample_source sample_recipient 3 12 (storeNonce sample_key 10 (cachedNonce sample_key NewBinder).2)).2.
Proof.
  destruct (binder_interleaving_safe sample_chain _ sample_steps) as [Hi Hv]. split; [exact Hi|].
  apply (Hv tt sample_source sample_recipient 3 12). word.
Defined.

Lemma sequence_binding_exact_witness :
  (VerifySequence tt sample_source sample_sender 3 12 (storeNonce sample_key 10 (cachedNonce sample_key NewBinder).2)).1 = Ok tt.
Proof.
  apply (sequence_binding_exact sample_chain _ tt sample_source sample_sender 3 12 sample_steps); [word|word|reflexivity|].
  vm_compute. repeat split; discriminate.
Defined.

(** ** Instructions and amounts *)
Lemma instruction_id_commits_witness :
  exists id id' b b', GenerateInstructionID 5 6 "r" 1 = Ok id /\ GenerateReissueInstructionID 5 6 "r" 1 1 = Ok id' /\
    id = Keccak256Hash b /\ id' = Keccak256Hash b' /\ b <> b'.
Proof.
  destruct (result_Ok (GenerateInstructionID 5 6 "r" 1)) as [id Hid]; [computed|].
  destruct (result_Ok (GenerateReissueInstructionID 5 6 "r" 1 1)) as [id' Hid']; [computed|].
  destruct (instruction_id_commits Pay 5 6 "r" 1 0 ReissueCmd 5 6 "r" 1 1 id id') as (b & b' & _ & Hb & _ & Hb' & Heq);
    [word|word|word|word|exact (conj eq_refl Hid)|exact Hid'|].
  exists id, id', b, b'. split; [exact Hid|]. split; [exact Hid'|]. split; [exact Hb|]. split; [exact Hb'|].
  intros [Hc _]%Heq. discriminate Hc.
Defined.

Definition sample_meta : TransactionMetaData :=
  {| TransactionResult := "tesSUCCESS";
     AffectedNodes := [ {| an_CreatedNode := None; an_DeletedNode := None;
       an_ModifiedNode := Some {| mn_LedgerEntryType := "AccountRoot"; mn_LedgerIndex := "";
         mn_FinalFields := Some (<["Account"%string := JStr sample_recipient]> {["Balance"%string := JStr "6000"]});
         mn_PreviousFields := Some {["Balance"%string := JStr "5000"]}; mn_PreviousTxnID := ""; mn_PreviousTxnLgrSeq := 0 |} |} ] |}.

Lemma received_amount_exact_witness :
  FindReceivedAmountForAddress (Some sample_meta) sample_recipient = Ok 1000 /\ 0 <= 1000 <= MaxXRPDrops.
Proof.
  assert (FindReceivedAmountForAddress (Some sample_meta) sample_recipient = Ok 1000) as Hf by computed.
  split; [exact Hf|]. exact (proj1 (received_amount_exact sample_meta sample_recipient 1000 Hf)).
Defined.

(** ** Multisig *)
Definition at_start : readings := {| at_check := 1000; at_recheck := 1000; at_store := 1000 |}.

Lemma multisig_verify_pinned_witness :
  exists resp last', Multisig.Verify multisig_verifier tt at_start (fun _ => 0) multisig_request 0 = (Ok resp, last') /\
    well_formed_request (mr_PublicKeys multisig_request) 2.
Proof.
  destruct (run_Ok (Multisig.Verify multisig_verifier tt at_start (fun _ => 0) multisig_request 0)) as (resp & last' & Hv); [computed|].
  destruct (multisig_verify_pinned multisig_verifier [] [] 0 0 tt at_start multisig_request resp last') as (Hw & _);
    [constructor|constructor|exact Hv|].
  exists resp, last'. exact (conj Hv Hw).
Defined.

(** ** Addresses and URLs *)
Ltac octets := repeat constructor; vm_compute; discriminate.

Lemma private_v4_exact_witness :
  in_ranges special_v4 (be_int 256 [10; 1; 2; 3]) /\ isDangerousIP (nat64 [10; 1; 2; 3]) = true.
Proof.
  destruct (private_v4_exact [10; 1; 2; 3] [0; 0; 0; 0; 0; 0; 0; 0; 0; 1]) as ([Hin _] & _ & _ & Hn & _);
    [reflexivity|reflexivity|octets|octets|].
  split; [apply Hin; computed|exact Hn].
Defined.

Lemma resolved_url_safe_witness :
  exists r, resolveExternalURL tt "https://proxy.example" false = Ok r /\ forbidden false (rv_IP r) = false.
Proof.
  destruct (result_Ok (resolveExternalURL tt "https://proxy.example" false)) as [r Hr]; [computed|].
  destruct (resolved_url_safe tt "https://proxy.example" false r Hr) as (_ & u & _ & _ & _ & _ & _ & _ & _ & _ & Hs).
  exists r. exact (conj Hr Hs).
Defined.

(** ** Revocation lists *)
Definition leaf_url : string := "https://crl/leaf".
Definition issuer : Certificate := "intermediate"%string.

Lemma crl_cache_safe_witness :
  cache_ok (FetchCRLsForToken (Ctx := unit) sample_env "token" (Some "root"%string) NewCRLCache).2 /\
  exists crl w', getOrFetchCRL (Ctx := unit) sample_readings OwnFlight leaf_url (Some issuer) (NewCRLCache, []) = (Ok crl, w') /\
    verifyCRLIssuer crl issuer = Ok tt.
Proof.
  destruct (crl_cache_safe (Ctx := unit) NewCRLCache (rtc_refl _ _)) as (_ & Hsteps & Hlookup). split.
  { apply (proj1 (crl_cache_safe _ (Hsteps _ _ _ sample_env_ok))). }
  destruct (run_Ok (getOrFetchCRL (Ctx := unit) sample_readings OwnFlight leaf_url (Some issuer) (NewCRLCache, []))) as (crl & e' & Hg); [computed|].
  destruct (Hlookup sample_readings OwnFlight leaf_url (Some issuer) [] crl e' Hg) as (c & Hc & Hv & _).
  exists crl, e'. split; [exact Hg|]. injection Hc as Hc. rewrite Hc. exact Hv.
Defined.

Lemma no_char_sep sep a b : no_char sep (a +:+ String sep b) = false.
Proof.
  induction a as [|x a IH].
  { change (negb (Ascii.eqb sep sep) && no_char sep b = false). by rewrite Ascii.eqb_refl. }
  change (negb (Ascii.eqb x sep) && no_char sep (a +:+ String sep b) = false). by rewrite IH, andb_false_r.
Qed.

(** A text with one separator is cut in one way. *)
Lemma words_unique sep a b a' b' :
  (a +:+ String sep b)%string = (a' +:+ String sep b')%string -> no_char sep a' = true -> no_char sep b' = true -> a = a' /\ b = b'.
Proof.
  revert a'. induction a as [|x a IH]; intros [|x' a'] He Ha Hb; cbn [no_char] in Ha.
  - by injection He as ->.
  - injection He as <- _. rewrite Ascii.eqb_refl in Ha. discriminate Ha.
  - injection He as -> He. change (a +:+ String sep b = b')%string in He. by rewrite <- He, no_char_sep in Hb.
  - injection He as -> He. apply andb_true_iff in Ha as [_ Ha]. apply IH in He as [-> ->]; done.
Qed.

(** The key of the leaf's list has one separator, so no other certificate has it. *)
Lemma leaf_list_served : serves_list (Ctx := unit) OwnFlight leaf_url issuer.
Proof.
  constructor; [reflexivity| |].
  - intros url' issuer' Hk. unfold crlCacheKey in Hk. change (sha256_hex (Cert_Raw ?c)) with c in Hk.
    apply words_unique in Hk as [_ ?]; [done|reflexivity|reflexivity].
  - exists "crl-intermediate"%string, "crl-intermediate"%string. split; reflexivity.
Qed.

Definition sample_certs : chain_certs Certificate := {| ch_Root := "root"; ch_Intermediate := "intermediate"; ch_Leaf := "leaf" |}%string.
Lemma sample_chain_trusted : presents "token" sample_certs /\ trusted_chain 10 (Some "root"%string) sample_certs.
Proof. by apply token_chain_Ok. Qed.

(** The sample token gets its lists, from the leaf's point; under another root
    nothing is dereferenced. *)
Lemma token_crls_trusted_witness :
  is_ok (FetchCRLsForToken (Ctx := unit) sample_env "token" (Some "root"%string) NewCRLCache).1 = true /\
  leaf_url ∈ CRLDistributionPoints (ch_Leaf sample_certs) ++ CRLDistributionPoints (ch_Intermediate sample_certs) /\
  dereferenced (Ctx := unit) sample_env "token" (Some "other"%string) NewCRLCache = [].
Proof.
  destruct (token_crls_trusted (Ctx := unit) sample_env "token" (Some "root"%string) NewCRLCache) as (_ & Hd & _ & Ha).
  destruct (token_crls_trusted (Ctx := unit) sample_env "token" (Some "other"%string) NewCRLCache) as (Hno & _). split_and!.
  - apply (Ha sample_certs).
    + exact sample_env_ok.
    + apply NewCRLCache_ok.
    + apply sample_chain_trusted.
    + apply sample_chain_trusted.
    + right. exists 0%nat, leaf_url. split; [reflexivity|exact leaf_list_served].
    + left. reflexivity.
  - destruct (Hd leaf_url) as (certs & (l & Hl & Hc) & _ & Hin); [apply (bool_decide_eq_true_1 _); computed|].
    injection Hl as <-. injection Hc as <-. exact Hin.
  - apply Hno. intros (certs & (l & Hl & Hc) & [Hr _ _]). injection Hl as <-. injection Hc as <-. discriminate Hr.
Defined.

(** ** TEE *)
Lemma tee_verify_sound_witness :
  exists resp s' a t info, Tee.Verify tee_verifier tt sample_env never tee_request ∅ = (Ok resp, s') /\
    action_bound a 31 71 14 /\ policies_on_chain tee_verifier tt (tr_TeeInfo t) /\ resp = response_of (tr_TeeInfo t) info.
Proof.
  destruct (run_Ok (Tee.Verify tee_verifier tt sample_env never tee_request ∅)) as (resp & s' & Hv); [computed|].
  destruct (tee_verify_sound tee_verifier tt sample_env never tee_request ∅ resp s' Hv) as (a & t & info & _ & _ & _ & Ha & _ & Hp & Hr).
  exists resp, s', a, t, info. exact (conj Hv (conj Ha (conj Hp Hr))).
Defined.

(** The sample attestation passes with whatever lists come back. *)
Lemma sample_attestable : attestable tee_verifier sample_env sample_info 71 {| st_CodeHash := 81; st_Platform := 82; st_Status := OK |}.
Proof.
  constructor; [split; [reflexivity|discriminate]|discriminate| | |reflexivity].
  - intros _. exists {| ch_Root := "root"; ch_Intermediate := "intermediate"; ch_Leaf := "leaf" |}%string.
    split; [reflexivity|]. split; [right; exists 0%nat, leaf_url; split; [reflexivity|exact leaf_list_served]|left; reflexivity].
  - exists "nonce"%string. split; [reflexivity|]. intros l i _. eexists. split; reflexivity.
Qed.

Lemma tee_verify_complete_witness :
  exists info s', Tee.Verify tee_verifier tt sample_env never tee_request ∅ = (Ok (response_of (tr_TeeInfo sample_info) info), s').
Proof.
  exists {| st_CodeHash := 81; st_Platform := 82; st_Status := OK |}.
  apply (proj2 (tee_verify_complete tee_verifier tt sample_env never tee_request ∅) sample_env_ok NewCRLCache_ok sample_action).
  - computed.
  - reflexivity.
  - reflexivity.
  - apply verifyActionResult_Ok. computed.
  - right. exact sample_attestable.
  - split; computed.
Defined.

(** A verifier whose audience is not the token's. *)
Definition other_audience : TeeVerifier :=
  {| tv_Cfg := {| tac_common := sample_common AvailabilityCheck; tac_RelayContractAddress := 1; tac_RelayCutoverContractAddress := 0;
       tac_RelayCutoverStartingRewardEpoch := 0; tac_AllowTeeDebug := false; tac_DisableAttestationCheckE2E := false;
       tac_AllowPrivateNetworks := false; tac_FlareRPCURL := ""; tac_GoogleRootCertificate := "root"%string;
       tac_TeeAudience := "other"; tac_ChainID := 14 |};
     tv_Relay := SingleRelay 1; tv_CRLCache := true |}.

(** ** Types *)
Lemma responses_typed_witness :
  exists resp b', PaymentStatus.Verify payment_verifier tt payment_request NewBinder = (Ok resp, b') /\ payment_typed resp.
Proof.
  destruct payment_run as (resp & b' & Hv).
  destruct (responses_typed sample_chain sample_inv sample_served (tt : unit)) as (Hp & _).
  exists resp, b'. split; [exact Hv|]. exact (Hp payment_verifier payment_request NewBinder resp b' Hv).
Defined.


(** A payment and a batch the indexer knows nothing of, and a token made out to
    another audience. *)
Definition unknown_payment : PaymentStatusRequest :=
  {| ps_OpType := sample_OpType; ps_SenderAddress := sample_sender; ps_PaymentId := 3 |}.
Definition unknown_batch : FeeProofRequest :=
  {| fp_OpType := sample_OpType; fp_SenderAddress := sample_sender; fp_FirstPaymentId := 2; fp_BatchCount := 2; fp_UntilTimestamp := 200 |}.
Definition run_rejected {S A} (m : res error A * S) : bool :=
  match m.1 with Err e => bool_decide ((classifyVerifyStatus e).1 = StatusRejected) | Ok _ => false end.
Lemma run_Rejected {S A} (m : res error A * S) :
  run_rejected m = true -> exists e s, m = (Err e, s) /\ (classifyVerifyStatus e).1 = StatusRejected.
Proof. destruct m as [[a|e] s]; [done|]. intros H%bool_decide_eq_true. eauto. Qed.

Lemma rejections_justified_witness :
  (exists b', payment_refused payment_verifier tt unknown_payment NewBinder b') /\
  fee_refused fee_verifier tt unknown_batch sample_chain /\
  tee_refused other_audience (tt : unit) sample_env tee_request.
Proof.
  destruct (rejections_justified sample_chain sample_inv sample_served (tt : unit)) as (Hp & _ & Hf & Ht). split_and!.
  - destruct (run_Rejected (PaymentStatus.Verify payment_verifier tt unknown_payment NewBinder)) as (e & b' & Hv & Hr); [computed|].
    exists b'. apply Hp. exists e. exact (conj Hv Hr).
  - destruct (run_Rejected (FeeProof.Verify fee_verifier tt unknown_batch NewBinder)) as (e & b' & Hv & Hr); [computed|].
    apply (Hf fee_verifier unknown_batch NewBinder e b'); [word|word|word|apply sample_new_inv|exact Hv|exact Hr].
  - destruct (run_Rejected (Tee.Verify other_audience tt sample_env never tee_request ∅)) as (e & s' & Hv & Hr); [computed|].
    apply (Ht other_audience sample_env never tee_request ∅ e s' sample_env_ok NewCRLCache_ok Hv Hr).
Defined.

#[local] Instance sample_service : Verifier unit Binder PaymentStatusRequest PaymentStatusResponse := PaymentStatusVerifier payment_verifier.
#[local] Instance sample_service_coherent : CoherentVerifier unit Binder PaymentStatusRequest PaymentStatusResponse.
Proof. apply (payment_coherent sample_chain sample_inv sample_served). Qed.
#[local] Instance sample_service_converts :
  ConvertingVerifier unit Binder PaymentStatusRequest PaymentStatusResponse PMWPaymentStatusResponseBody.
Proof. apply (payment_converts payment_verifier). Qed.

Definition sample_request : AttestationRequest := {| aq_AttestationType := 9; aq_SourceID := sample_source; aq_RequestBody := "request" |}.

Lemma endpoints_tell_one_story_witness :
  (handle_verify (ResJSON := PMWPaymentStatusResponseBody) (sample_common PMWPaymentStatus) tt sample_request NewBinder).2 =
  (handle_prepareResponseBody (ResJSON := PMWPaymentStatusResponseBody) (sample_common PMWPaymentStatus) tt sample_request NewBinder).2.
Proof.
  exact (proj1 (endpoints_tell_one_story (ResJSON := PMWPaymentStatusResponseBody)
    (sample_common PMWPaymentStatus) tt sample_request NewBinder)).
Defined.

(** ** The process *)
Lemma tee_config_safe_witness :
  exists c, BuildTeeAvailabilityCheckConfig (with_type (sample_EnvConfig "TEE") AvailabilityCheck) = Ok c /\
    tee_config_wf (with_type (sample_EnvConfig "TEE") AvailabilityCheck) c.
Proof.
  destruct (result_Ok (BuildTeeAvailabilityCheckConfig (with_type (sample_EnvConfig "TEE") AvailabilityCheck))) as [c Hc]; [computed|].
  exists c. split; [exact Hc|]. exact (proj1 (tee_config_safe _) c Hc).
Defined.

Lemma swagger_page_loads_openapi_witness :
  resolve_reference "/verifier/xrp/flare/api-doc/" "../openapi.json" = "/verifier/xrp/flare/openapi.json"%string.
Proof.
  destruct (swagger_page_loads_openapi empty_env "xrp" "flare") as (_ & _ & Hr); [reflexivity|reflexivity|]. exact Hr.
Defined.

Definition two_attempts : DBOptions := {| do_MaxAttempts := 2; do_RetryDelay := 1; do_MaxDelay := 5 |}.

Lemma databases_open_bounded_witness :
  exists r w' dsn', InitCChainDB "u:p@tcp(host)/db" (Some two_attempts) {| r_dbs := ∅; r_calls := 1; r_sleeps := []; r_clients := 0 |} = (r, w') /\
    dsnHasParam dsn' "readTimeout" = true /\
    attempts_outcome "mysql" dsn' two_attempts {| r_dbs := ∅; r_calls := 1; r_sleeps := []; r_clients := 0 |} r w'.
Proof.
  destruct (InitCChainDB "u:p@tcp(host)/db" (Some two_attempts) {| r_dbs := ∅; r_calls := 1; r_sleeps := []; r_clients := 0 |})
    as [r w'] eqn:E.
  destruct (databases_open_bounded "u:p@tcp(host)/db" (Some two_attempts) {| r_dbs := ∅; r_calls := 1; r_sleeps := []; r_clients := 0 |} r w')
    as [_ Hc]; [intros opts Ho; injection Ho as <-; split; vm_compute; discriminate|].
  destruct (Hc E) as (dsn' & (Hp & _) & Ha). exists r, w', dsn'. split; [reflexivity|]. split; [|exact Ha].
  apply Forall_cons in Hp as [Hp _]. exact Hp.
Defined.

Lemma fresh_wf : res_wf (bt_res fresh_boot).
Proof. intros h Hh. by apply not_elem_of_empty in Hh. Qed.

Lemma load_leaks_nothing_witness :
  exists closers b', LoadModule (Ctx := unit) (sample_EnvConfig "XRP") fresh_boot = (Ok closers, b') /\
    r_clients (bt_res b') = 2 /\ r_clients (bt_res (main (Ctx := unit) (sample_Getenv "XRP") id fresh_boot).2) = 0.
Proof.
  destruct (run_Ok (LoadModule (Ctx := unit) (sample_EnvConfig "XRP") fresh_boot)) as (cs & b' & Hl); [computed|].
  exists cs, b'. split; [exact Hl|].
  destruct (load_leaks_nothing (Ctx := unit) (sample_EnvConfig "XRP") fresh_boot (Ok cs) b' fresh_wf Hl) as [[_ Hk] Hm].
  split; [|exact (proj2 (Hm (sample_Getenv "XRP") id))]. rewrite Hk.
  assert (length cs = 2%nat) as ->; [|reflexivity].
  apply (f_equal (fun x => match x with (Ok l, _) => length l | _ => 0%nat end)) in Hl. rewrite <- Hl. vm_compute. reflexivity.
Defined.

Lemma started_Some {A B S} (m : option (A * B) * S) : match m.1 with Some _ => true | None => false end = true -> exists a b s, m = (Some (a, b), s).
Proof. destruct m as [[[a b]|] s]; [eauto|done]. Qed.

(** ** On the wire *)
Lemma request_ids_distinct_witness : NoDup (request_ids 3 (2 ^ 64 - 2)).
Proof. apply (request_ids_distinct 3 (2 ^ 64 - 2)); [word|vm_compute; discriminate]. Defined.

(** A payload that is seen to be a VERIFIED envelope. *)
Definition verified_payload (p : payload) : bool :=
  match p with PEnvelope e => String.eqb (vr_Status e) StatusVerified | _ => false end.
Lemma verified_payload_spec p : verified_payload p = true -> exists e, p = PEnvelope e /\ vr_Status e = StatusVerified.
Proof. destruct p; try done. cbn. intros He%String.eqb_eq. eauto. Qed.

Definition no_text {X} (x : X) : string := "".
Definition xrp_start : xrp_state (B := Binder) := {| xs_payment := NewBinder; xs_fee := NewBinder; xs_multisig := 0 |}.
Lemma xrp_start_inv : xrp_inv xrp_sample sample_inv xrp_start.
Proof. constructor; [apply sample_new_inv|apply sample_new_inv|left; reflexivity]. Qed.
Lemma xrp_sample_env_ok : xrp_env_ok xrp_sample xrp_sample_env.
Proof. intros last. left. reflexivity. Qed.

#[local] Abbreviation xrp_sample_serve := (xrp_serve (Ctx := unit) (B := Binder) no_text no_text no_text xrp_sample xrp_sample_env).
Definition payment_post : request := post sample_key_text (verify_path (xd_paymentCommon xrp_sample)) "payment".

(** The payment asked for again, after it was verified once. *)
Lemma xrp_answers_true_witness :
  exists envelope (req : PaymentStatusRequest) resp msg tx raw,
    rp_Payload (xrp_sample_serve payment_post (xrp_sample_serve payment_post xrp_start).2).1 = PEnvelope envelope /\
    asked (xd_env xrp_sample) (xd_paymentCommon xrp_sample) payment_post envelope req resp /\
    ledger_row tt (ps_SenderAddress req) (pm_Nonce msg) tx raw /\ describes raw msg tx resp.
Proof.
  destruct (verified_payload_spec (rp_Payload (xrp_sample_serve payment_post (xrp_sample_serve payment_post xrp_start).2).1))
    as (e & Hp & Hs); [computed|].
  destruct (xrp_answers_true no_text no_text no_text sample_chain sample_inv sample_served xrp_sample xrp_start
    (xrp_sample_serve payment_post xrp_start).2 xrp_sample_env payment_post e) as (Hpay & _ & _).
  - apply xrp_sample_ok.
  - apply xrp_start_inv.
  - apply rtc_once. apply (xrp_request no_text no_text no_text xrp_sample xrp_sample_env payment_post xrp_start xrp_sample_env_ok).
  - apply xrp_sample_env_ok.
  - left. reflexivity.
  - exact Hp.
  - exact Hs.
  - destruct (Hpay eq_refl) as (req & resp & msg & tx & raw & Ha & _ & _ & Hr & Hd).
    exists e, req, resp, msg, tx, raw. exact (conj Hp (conj Ha (conj Hr Hd))).
Defined.

(** A session: the form is prepared, and what comes back is verified after an earlier request. *)
#[local] Abbreviation prepare_post := (post sample_key_text "/verifier/xrp/flare/PMWPaymentStatus/prepareRequestBody" "form").
Lemma payment_posted : posts (xd_env xrp_sample) (xd_paymentCommon xrp_sample) "verify" payment_post.
Proof. constructor; [left; reflexivity|reflexivity|reflexivity|apply (bool_decide_unpack _); vm_compute; exact I|vm_compute; discriminate]. Qed.

#[local] Instance xrp_sample_coherent :
  CoherentVerifier unit Binder PaymentStatusRequest PaymentStatusResponse (H := PaymentStatusVerifier (xd_payment xrp_sample)).
Proof. apply (payment_coherent sample_chain sample_inv sample_served). Qed.

Lemma prepared_session_verified_witness :
  exists envelope, rp_Payload (xrp_sample_serve payment_post (xrp_sample_serve payment_post xrp_start).2).1 = PEnvelope envelope /\
    rp_Payload (xrp_sample_serve prepare_post xrp_start).1 = PEncoded "request".
Proof.
  destruct (prepared_session_verified (Verifier0 := PaymentStatusVerifier (xd_payment xrp_sample))
    (ConvertingVerifier0 := payment_converts (xd_payment xrp_sample)) (ReqJSON := PMWPaymentStatusRequestBody)
    no_text xe_ctx xs_payment (fun s st => {| xs_payment := s; xs_fee := xs_fee st; xs_multisig := xs_multisig st |})
    (xd_env xrp_sample) (xd_prefix xrp_sample) (xrp_operations no_text no_text no_text xrp_sample) (xd_paymentCommon xrp_sample)
    (xrp_operations_ok no_text no_text no_text xrp_sample xrp_sample_ok) (payment_registered no_text no_text no_text xrp_sample)
    xrp_sample_env prepare_post xrp_start "request") as (_ & form & data & Hform & _ & Hs).
  - constructor; [left; reflexivity|reflexivity|reflexivity|apply (bool_decide_unpack _); vm_compute; exact I|vm_compute; discriminate].
  - reflexivity.
  - injection Hform as Hform.
    destruct (Hs xrp_sample_env (xrp_sample_serve payment_post xrp_start).2) as [Hv _].
    destruct (Hv payment_post payment_posted) as (_ & _ & Hp); [rewrite <- Hform; reflexivity|].
    eexists. split; [exact Hp|reflexivity].
Defined.

Lemma xrp_proves_provable_witness :
  exists body, verified body (xrp_sample_serve payment_post (xrp_sample_serve payment_post xrp_start).2).1.
Proof.
  destruct (run_Ok (PaymentStatus.Verify (xd_payment xrp_sample) tt payment_request NewBinder)) as (resp & b' & Hv); [computed|].
  apply PaymentStatus.Verify_run in Hv as (msg & tx & raw & He & Hs & Hrow & Hd).
  apply (seq_sound (chain := sample_chain) (inv := sample_inv) (served := sample_served)) in Hs as (H1 & Hn & Hu);
    [|word|word|apply sample_new_inv].
  destruct (xrp_proves_provable no_text no_text no_text sample_chain sample_inv sample_served xrp_sample xrp_start
    (xrp_sample_serve payment_post xrp_start).2 xrp_sample_env payment_post) as (Hp & _ & _).
  - apply xrp_sample_ok.
  - apply xrp_start_inv.
  - apply rtc_once. apply (xrp_request no_text no_text no_text xrp_sample xrp_sample_env payment_post xrp_start xrp_sample_env_ok).
  - exists "response"%string. apply (Hp payment_request msg tx raw resp "response"%string); try reflexivity;
      [|exact He|exact Hn|apply Hu|exact Hrow|exact Hd].
    split; [exact payment_posted|]. eexists. split; [reflexivity|]. split; [reflexivity|]. split; [split; reflexivity|reflexivity].
Defined.

Definition tee_sample_env : unit * {env : token_env | token_env_ok env} * (nat -> option error) :=
  (tt, exist _ sample_env sample_env_ok, never).
Definition tee_post : request := post sample_key_text (verify_path (td_common tee_sample)) "tee".

Lemma tee_answers_true_witness :
  exists envelope (req : TeeRequest) resp a t info,
    rp_Payload (tee_serve (Ctx := unit) no_text tee_sample tee_sample_env tee_post NewCRLCache).1 = PEnvelope envelope /\
    asked (td_env tee_sample) (td_common tee_sample) tee_post envelope req resp /\
    action_bound a (tq_InstructionId req) (tq_TeeId req) 14 /\ resp = response_of (tr_TeeInfo t) info /\
    verified "response" (tee_serve (Ctx := unit) no_text tee_sample tee_sample_env tee_post NewCRLCache).1.
Proof.
  destruct (verified_payload_spec (rp_Payload (tee_serve (Ctx := unit) no_text tee_sample tee_sample_env tee_post NewCRLCache).1))
    as (e & Hp & Hs); [computed|].
  destruct (tee_answers_true no_text tee_sample NewCRLCache tee_sample_env tee_post e) as (_ & Ht & Hc).
  - apply tee_sample_ok.
  - apply rtc_refl.
  - left. reflexivity.
  - destruct (Ht Hp Hs eq_refl) as (req & resp & a & t & info & Ha & _ & _ & _ & Hb & _ & _ & Hr).
    exists e, req, resp, a, t, info. refine (conj Hp (conj Ha (conj Hb (conj Hr _)))).
    apply (Hc tee_request sample_action sample_info {| st_CodeHash := 81; st_Platform := 82; st_Status := OK |} "response"%string).
    + constructor; [constructor; [left; reflexivity|reflexivity|reflexivity|apply (bool_decide_unpack _); vm_compute; exact I|vm_compute; discriminate]|].
      eexists. split; [reflexivity|]. split; [reflexivity|]. split; [split; reflexivity|reflexivity].
    + computed.
    + reflexivity.
    + reflexivity.
    + apply verifyActionResult_Ok. computed.
    + right. exact sample_attestable.
    + split; computed.
    + reflexivity.
Defined.

(** The same payment request with another key. *)
Definition unauthorized_post : request := post "another-key" (verify_path (xd_paymentCommon xrp_sample)) "payment".
Lemma requests_gated_witness :
  (xrp_sample_serve unauthorized_post xrp_start).2 = xrp_start /\
  public (rp_Payload (xrp_sample_serve unauthorized_post xrp_start).1) /\
  rp_Header (xrp_sample_serve unauthorized_post xrp_start).1 !! "X-Frame-Options"%string = Some "DENY"%string.
Proof.
  destruct (requests_gated (xd_env xrp_sample) (xd_prefix xrp_sample)
    (tail (xrp_operations (Ctx := unit) (B := Binder) no_text no_text no_text xrp_sample)) xrp_sample_env unauthorized_post xrp_start)
    as (Hh & _ & Hk & _).
  - apply (xrp_operations_ok (Ctx := unit) no_text no_text no_text xrp_sample xrp_sample_ok).
  - left. reflexivity.
  - destruct Hk as (Hst & Hpub & _); [apply (bool_decide_unpack _); vm_compute; exact I|].
    exact (conj Hst (conj Hpub Hh)).
Defined.

(** ** From the environment *)
Lemma started_process_deployed_witness :
  exists srv p f b', StartServer (Ctx := unit) (sample_EnvConfig "XRP") fresh_boot = (Some (srv, [ClosePayment p; CloseFee f]), b') /\
    NoDup (bt_operations b').*2 /\ exists m, xrp_ok (xrp_of (sample_EnvConfig "XRP") m p f).
Proof.
  destruct (started_Some (StartServer (Ctx := unit) (sample_EnvConfig "XRP") fresh_boot)) as (srv & closers & b' & Hs); [computed|].
  destruct (started_process_deployed (Ctx := unit) no_text no_text no_text no_text (sample_Getenv "XRP") id (sample_EnvConfig "XRP")
    fresh_boot srv closers b') as (_ & _ & _ & Hp & Hd).
  - reflexivity.
  - apply fresh_wf.
  - reflexivity.
  - reflexivity.
  - exact Hs.
  - destruct Hd as [(v & Hc & [Ht _] & _)|(m & p & f & -> & Hok & _)]; [discriminate Ht|].
    exists srv, p, f, b'. split; [exact Hs|]. split; [exact Hp|]. exists m. exact Hok.
Defined.

(** A started process asked about a payment. *)
Lemma process_verdicts_exact_witness :
  exists srv m p f b', StartServer (Ctx := unit) (sample_EnvConfig "XRP") fresh_boot = (Some (srv, [ClosePayment p; CloseFee f]), b') /\
    let d := xrp_of (sample_EnvConfig "XRP") m p f in
    payment_answer sample_chain sample_served d xrp_sample_env (xrp_initial m p f) payment_request
      (xrp_serve no_text no_text no_text d xrp_sample_env payment_post (xrp_initial m p f)).1.
Proof.
  destruct (started_Some (StartServer (Ctx := unit) (sample_EnvConfig "XRP") fresh_boot)) as (srv & closers & b' & Hs); [computed|].
  destruct (process_verdicts_exact (Ctx := unit) no_text no_text no_text no_text sample_chain (sample_Getenv "XRP") id
    (sample_EnvConfig "XRP") fresh_boot srv closers b') as [(Ht & _)|(_ & m & p & f & -> & Hl & _ & Hv)].
  - reflexivity.
  - apply fresh_wf.
  - reflexivity.
  - reflexivity.
  - exact Hs.
  - discriminate Ht.
  - exists srv, m, p, f, b'. split; [exact Hs|]. cbv zeta.
    apply (Forall2_cons_1 _ _ _ _ _), proj2 in Hl. apply (Forall2_cons_1 _ _ _ _ _), proj1 in Hl.
    apply (xv_payment _ _ _ _ _ _ _ (Hv (xrp_initial m p f) xrp_sample_env payment_post (rtc_refl _ _) (fun last => or_introl eq_refl))).
    assert (xd_paymentCommon (xrp_of (sample_EnvConfig "XRP") m p f) = xd_paymentCommon xrp_sample) as ->.
    { apply (Ok_eq (E := error)). rewrite <- Hl. reflexivity. }
    split; [exact payment_posted|]. eexists. split; [reflexivity|]. split; [reflexivity|]. split; [split; reflexivity|reflexivity].
Defined.
